(* ===== verification/_CoqProject ===== *)
-Q . S2P
Prelude.v
PyStr.v
Decimal.v
Effects.v
RiskTypes.v
Exceptions.v
Idempotency.v
Config.v
Delivery.v
AuditEntry.v
Alerts.v
Webhooks.v
World.v
TronClient.v
WalletPool.v
Sanctions.v
Risk.v
AuditLog.v
Send.v
IdemGuard.v
Safety.v
SendSpec.v
Readers.v
Ledger.v
RateLimit.v
Tokens.v
Poller.v
Workers.v
Calendar.v
Reporting.v
Shutdown.v
Routes.v
Workbooks.v
Base64.v
TokenRows.v
Keystore.v
KeystoreSpec.v
KeyProviders.v
StartupCheck.v
ConfigLoad.v
Lifespan.v
CliEnv.v
Terminal.v
Install.v
CliWallet.v
CliStores.v
CliApi.v
CliBackup.v
CliDoctor.v
CliSetup.v
CliReports.v
CliService.v
Screens.v
Panels.v
Backends.v
AlertService.v
PollerLife.v
Metrics.v
Diagnostics.v
LimiterLife.v
Boot.v
WebhookService.v
App.v
