(* ===== verification/Prelude.v ===== *)
(** * skr-crypto: a verification library for the USDT TRC-20 payout service

    skr-crypto is a FastAPI service that sends USDT from treasury wallets on TRON.  A
    request to POST /api/v1/send names a recipient, an amount and an idempotency key;
    the service must broadcast at most one transfer per key, only after its checks
    passed, and write down what it did.  This library models the server
    ([src/skr_crypto/server/]), the command line client an operator runs beside it
    ([src/skr_crypto/cli/]) and the setup wizard ([src/scripts/setup.py]), and proves
    what makes them correct.

    ** Files and the code they model

    - Foundations: [Prelude] (outcomes, numbers, lists, tactics and the hint database),
      [PyStr] (Python strings), [Decimal] ([decimal.Decimal], 28 digits, half-even),
      [Effects] (the state and exception monad, its weakest preconditions and frames).
    - Shared data: [RiskTypes] (risk.py), [Exceptions] (exceptions.py and the HTTP
      handlers of server.py), [AuditEntry] (audit.py), [Delivery] (the delivery tables of
      webhooks.py and alerts.py), [World] (the state of the process and the answers of
      everything outside it).
    - The payout path: [Idempotency] (idempotency.py: the in-memory and the SQLite store
      behind one class [IdemStore], with its laws, and interleaved callers as a step
      relation), [IdemGuard] (what survives SQL failures), [TronClient] (tron_client.py,
      wallet.py), [WalletPool] (wallet_pool.py), [Sanctions] (sanctions.py), [Risk]
      (risk.py), [AuditLog] (audit.py and its consumers), [Webhooks] and [Alerts] (their
      request side), [Send] (the handler of routes.py, models.py), [SendSpec] and
      [Safety] (its theorems), [Readers] (the programs that only read, and their frame),
      [Ledger] (what answers and audit entries say of payments).
    - Around it: [RateLimit] (rate_limit_bucket.py, net.py, the middleware), [Tokens]
      (tokens.py, security.py), [Poller] (receipt_poller.py), [Workers] (the delivery
      threads), [Calendar], [Reporting] and [Workbooks] (reporting.py: CSV and XLSX),
      [Routes] (the read endpoints), [Shutdown] (shutdown.py).
    - The whole service: [App] (one request from the socket to the response: middleware,
      route, authentication, handler, exception handlers; and histories of them),
      [Boot] (server.lifespan step by step, with failures).
    - Over a service's life: [Backends] (the delivery stores on SQLite and on a dict),
      [AlertService] (the alert worker, restarts and crashes as events), [WebhookService]
      (the webhook worker on the world of the service), [PollerLife] (many
      turns of the poller, start and stop), [LimiterLife] (the limiter's object, sweeper and
      singleton), [TokenRows] (token rows on disk), [Metrics] (metrics.py and what /send
      counts), [Diagnostics] (version.py, logging_config.py, /version, /health/live).
    - Keys: [Base64] and [Keystore] (encrypted_keystore.py), [KeystoreSpec] (the
      abstract keystore and the refinement), [KeyProviders] (key_providers.py,
      security.load_wallets).
    - Start-up: [Config] and [ConfigLoad] (config.py, __main__.py), [StartupCheck]
      (startup_check.py), [Lifespan] (server.lifespan).
    - Command line: [CliEnv] (cli/config.py, cli/exceptions.py: the .env file and the
      exit codes), [Install] (install.py, keygen.py, the prompts of output.py),
      [CliWallet] (wallet.py), [CliStores] (token.py, webhook.py, alert.py), [CliApi]
      (cli/api.py, risk.py, status.py, check_tx.py, reconcile.py, balance.py),
      [CliReports] (report.py, audit.py), [CliBackup] (backup.py, restore.py),
      [CliDoctor] (doctor.py), [CliService] (cli/service.py, start_stop.py, logs.py,
      update.py, config_cmd.py, version_cmd.py, help_cmd.py), [Terminal] (output.py),
      [Screens] and [Panels] (what the commands show, completion.py) and [CliSetup]
      (scripts/setup.py).

    ** How the parts interact

    [Send.send] is the handler statement by statement.  It calls the wallet pool, the
    risk preflight, the store, the RPC layer and the audit log in the code's order, over
    any [IdemStore]; what it needs of a store is stated as classes ([IdemStoreLaws] when
    the statements work, the guard laws of [IdemGuard] when they may fail) that both
    stores implement.  Code outside the process is [World.Env]: answers indexed by the
    number of outside calls made so far, so each call may answer differently, raise, or
    kill the process.  A ghost list of broadcasts in the [World] is what the safety
    theorems speak about.  [AuditLog.record] fans out to [Webhooks] and [Alerts], whose
    rows [Workers] deliver; [Poller] reads the store's committed keys; [StartupCheck]
    and [Reporting] read the audit file back; [ConfigLoad.main] decides whether the
    process serves at all, [Lifespan.start] says what the singletons become, and
    [Boot.boot] runs its steps, any of which may fail.

    [App.middleware] is the application: it composes the limiter, the tokens, [Send], [Routes],
    [Workbooks], [Poller] and [Diagnostics] over one state, and [App.app_history] interleaves
    requests with restarts, kills and the background threads.  A thread is an event of such
    a history ([App.AOther]), limited to what [WebhookService] and [Poller] are proved to
    keep.

    The command line works on what the server reads: [Install] and [CliSetup] write the
    .env file that [ConfigLoad.main] loads, [CliWallet] edits the file of [Keystore],
    [CliStores] runs the operations of [Tokens] and [Delivery] on the server's database,
    [CliReports] calls [Reporting] on the audit file, [CliBackup] copies the data
    directory [Idempotency] lives in, and [CliDoctor] judges what [KeyProviders] will do.
    Its exceptions are [CliEnv.cexn], whose [exit_code] is the status of the process;
    [Exits] is click's own exit and [Traceback] an exception nothing handles.  The files
    named Cli* give the effects of the commands and their exit status; [Screens] and
    [Panels] run them over [Terminal], whose items are the lines, tables and documents
    written to the two streams.

    ** The theorems

    - The service: from the socket to the node, every broadcast was authorised by one
      accepted request and every 200 answer names an accepted transfer
      ([App.service_sound]); every request is answered and counted as the code promises
      ([App.request_accounted]); answers and audit entries are paid whatever fails
      ([Ledger.answers_are_paid]); the process comes up exactly when it can
      ([Boot.boot_serves]) and stopping it clears every secret ([Boot.shutdown_clears]),
      which a start-up that fails half way does not ([Boot.failed_boot_keeps_session]).
    - Payouts: one payout per key over any history of requests, crashes and restarts
      ([Safety.at_most_one_payout]); nothing is broadcast unchecked
      ([SendSpec.broadcast_checked]); every key ends free or committed
      ([SendSpec.send_settles_key]); exact amounts ([TronClient.amount_exact]); and the
      two ways the protection fails ([Safety.failed_update_pays_twice],
      [Safety.lost_answer_rebroadcasts]).
    - Stores: mutual exclusion, stable answers, recovery of orphans, equivalence of the
      two stores under disciplined use.
    - Who may call: soundness of authentication and revocation in [Tokens], and
      [Lifespan.scoped_tokens_ignored], which shows the configured token store is never
      reached; token-bucket bounds that hold across restarts ([LimiterLife.durable_bound]) and
      the agreement of both limiters in [RateLimit]; token rows read back ([TokenRows]).
    - Keys: the keystore file refines a list of named keys, survives failures of any
      system call, loads back what was saved and opens only under its passphrase; wallets
      get the address of their own key and the providers' buffers are wiped.
    - Records: durable, distinctly numbered audit entries; exact reports; CSV texts that
      lose nothing; complete paging; the verdict of the start-up reconciliation.
    - Background work: attempts and deliveries end, the poller never pays, the idle
      timer stops the process on time.  Both storages of a delivery store implement one
      table ([Backends.store_refines]); no accepted alert is lost whatever interleaves
      ([AlertService.alert_fate]), though a restart may send one twice
      ([AlertService.alert_sent_twice]); a webhook delivery is POSTed a bounded number of
      times ([WebhookService.webhook_posts_bounded]), unless a give-up is itself an event
      ([WebhookService.giveup_feedback]); no transaction is starved
      ([PollerLife.poller_reaches_all]); the counters account for every payout request
      ([Metrics.send_counted]).
    - Configuration: a process that serves has a valid configuration.
    - Installation: what [install] writes the server serves; the .env file and the file of
      the wizard read back; a second run of the wizard changes nothing.
    - Operation: wallet commands refine the abstract keystore; rotating a token never
      loses access; backups restore, and a restore that fails loses nothing; the exit
      status of [risk] agrees with [/send]; the reports are those of the HTTP endpoints;
      [audit] lists exactly what is asked for; [doctor] predicts the start of the server;
      start and stop run the supervisor.  Where these fail, a theorem says how:
      [CliBackup.backup_forgets_payouts], [CliWallet.encrypt_outcome],
      [Install.generated_key_misplaced], [CliDoctor.doctor_condemns_keystore],
      [CliService.stop_hits_other_install].
    - What is shown: [--quiet] loses nothing but progress lines ([Screens.quiet_only_hushes],
      [Panels.panels_hush]); [--json] writes one document ([Screens.json_one_document]); the
      listings and the [risk] report show what the effects found; no token hash is shown
      ([Screens.no_hash_shown]); [config show] masks the settings it knows as secrets and no
      others ([Panels.config_show_masks], [Panels.config_show_others]); a webhook secret is
      broken on its way to a file ([Screens.setup_secret_folded]).

    Theorems that carry a claim number are the properties of the development; each with
    a hypothesis has a [_witness] that applies it to a concrete input.

    ** Bounds and fuel

    Amounts are exact below 28 significant digits; report volumes below 10^22 USDT.
    Loops are structural but for these: [Idempotency.reserve] takes fuel and the list of
    wake-ups of its wait (one pass returns, waits or loses an insert; [Send] holds the
    lock and needs at most two); [Reporting.daterange] has fuel for the days of the
    range; [PyStr.replace] for the length of its text; the digits of a number for its
    size; [Decimal.strip_zeros] for the digits it may remove; [CliDoctor.climb] for the
    length of the path (the root directory exists); and the key file question of
    [CliSetup] for the lines of input.  Each file derives its
    fuel from its input, and the theorems are about the result, not "if it returns".
    Times and token counts are exact rationals where the code has floats.

    ** Not modelled

    Thread start and join (a thread is an event, or whether it runs), the text of log lines,
    the Prometheus client and its exposition format, openpyxl's file format, the SQL of the
    schemas, how Rich draws tables, click's own help texts and option parsing, the progress
    lines of backup, restore, keygen and of the commands that edit a keystore, the methods
    named [_for_tests], the static files of /ui, and scripts/create_test_wallet.py, which
    prints a random key.
    Third-party code is a parameter with its documented
    behaviour as hypotheses: tronpy, SQLite's durability, scrypt, AES-GCM, HMAC, JSON
    text, the HTTP client.  NaN, infinities and negative zero of [Decimal] and float,
    and non-ASCII case mapping, are outside the model. *)
From stdpp Require Export base tactics option list list_numbers strings gmap fin_maps.
From Stdlib Require Export ZArith QArith Lia Lqa Permutation Sorted.
Close Scope Q_scope.

(** ** Outcomes of running Python code

    [Ret]: the code returned; [Raise]: it raised; [Crash]: the process died, so
    no [except] or [finally] clause ran. *)
Inductive outcome (E A : Type) : Type :=
| Ret (a : A)
| Raise (e : E)
| Crash.
Arguments Ret {E A} _.
Arguments Raise {E A} _.
Arguments Crash {E A}.

(** What happens to one call that leaves the process (a SQL statement, an RPC,
    an [fsync]): it works, it raises, or the process dies during it. *)
Inductive fate (E : Type) : Type :=
| Fine
| Fails (e : E)
| Dies.
Arguments Fine {E}.
Arguments Fails {E} _.
Arguments Dies {E}.

Declare Scope py_scope.
Delimit Scope py_scope with py.
Open Scope py_scope.

(** ** Numbers: seconds are rationals ([time.time()] without rounding) *)
Abbreviation time := Q.

Definition Qltb (x y : Q) : bool := negb (Qle_bool y x).
Definition Qmax2 (x y : Q) : Q := if Qle_bool x y then y else x.
Definition Qmin2 (x y : Q) : Q := if Qle_bool x y then x else y.

Lemma Qltb_lt x y : Qltb x y = true <-> (x < y)%Q.
Proof.
  unfold Qltb. rewrite negb_true_iff.
  destruct (Qle_bool y x) eqn:E.
  - apply Qle_bool_iff in E. split; [done | lra].
  - split; [intros _ | done]. apply Qnot_le_lt. intros H.
    apply Qle_bool_iff in H. congruence.
Qed.

Lemma Qltb_nlt x y : Qltb x y = false <-> (y <= x)%Q.
Proof. unfold Qltb. rewrite negb_false_iff. apply Qle_bool_iff. Qed.

Lemma Qle_bool_nle x y : Qle_bool x y = false <-> (y < x)%Q.
Proof.
  rewrite <- Qltb_lt. unfold Qltb. by rewrite negb_true_iff.
Qed.

(** [qcases] turns the boolean comparisons of rationals in sight into
    hypotheses for [lra]. *)
Ltac qcases :=
  unfold Qmax2, Qmin2 in *;
  repeat match goal with
  | |- context [if Qle_bool ?x ?y then _ else _] =>
      let H := fresh "Hq" in destruct (Qle_bool x y) eqn:H
  | H : context [if Qle_bool ?x ?y then _ else _] |- _ =>
      let H' := fresh "Hq" in destruct (Qle_bool x y) eqn:H'
  | |- context [if Qltb ?x ?y then _ else _] =>
      let H := fresh "Hq" in destruct (Qltb x y) eqn:H
  | H : context [if Qltb ?x ?y then _ else _] |- _ =>
      let H' := fresh "Hq" in destruct (Qltb x y) eqn:H'
  end;
  repeat match goal with
  | H : Qle_bool _ _ = true |- _ => apply Qle_bool_iff in H
  | H : Qle_bool _ _ = false |- _ => apply Qle_bool_nle in H
  | H : Qltb _ _ = true |- _ => apply Qltb_lt in H
  | H : Qltb _ _ = false |- _ => apply Qltb_nlt in H
  end.

(** ** Stable sorting, as [list.sort(key=...)] does it *)
Section Sorting.
Context {A : Type} (leb : A -> A -> bool).

Fixpoint insert_by (x : A) (l : list A) : list A :=
  match l with
  | [] => [x]
  | y :: ys => if leb x y then x :: l else y :: insert_by x ys
  end.

Definition sort_by (l : list A) : list A := foldr insert_by [] l.

Lemma insert_by_perm x l : Permutation (insert_by x l) (x :: l).
Proof.
  induction l as [|y ys IH]; simpl; [done|].
  destruct (leb x y); [done|]. rewrite IH. apply perm_swap.
Qed.

Lemma sort_by_perm l : Permutation (sort_by l) l.
Proof.
  induction l as [|x l IH]; simpl; [done|].
  rewrite insert_by_perm. by constructor.
Qed.

Lemma sort_by_elem x l : In x (sort_by l) <-> In x l.
Proof. split; apply Permutation_in; [|symmetry]; apply sort_by_perm. Qed.

Lemma sort_by_length l : length (sort_by l) = length l.
Proof. apply Permutation_length, sort_by_perm. Qed.

Context (leb_total : forall x y, leb x y = false -> leb y x = true)
        (leb_trans : forall x y z, leb x y = true -> leb y z = true -> leb x z = true).

Lemma insert_by_sorted x l :
  StronglySorted (fun a b => leb a b = true) l ->
  StronglySorted (fun a b => leb a b = true) (insert_by x l).
Proof.
  induction 1 as [|y ys Hs IH Hy]; simpl; [by repeat constructor|].
  destruct (leb x y) eqn:E.
  - constructor; [by constructor|]. constructor; [done|].
    revert Hy. apply List.Forall_impl. eauto.
  - constructor; [done|].
    apply List.Forall_forall. intros z Hz.
    apply (Permutation_in _ (insert_by_perm x ys)) in Hz as [<- | Hz]; [by apply leb_total|].
    rewrite List.Forall_forall in Hy. eauto.
Qed.

Lemma sort_by_sorted l : StronglySorted (fun a b => leb a b = true) (sort_by l).
Proof. induction l; simpl; [constructor | by apply insert_by_sorted]. Qed.
End Sorting.

(** ** Proof automation shared by the components *)

(** [cases]: case analysis on the matches in the goal, closing what is trivial. *)
Ltac cases := repeat (case_match; simplify_eq/=; try done).

(** [bcases]: boolean connectives in hypotheses to Prop. *)
Ltac bcases :=
  repeat match goal with
  | H : (_ && _) = true |- _ => apply andb_true_iff in H as [? ?]
  | H : (_ || _) = false |- _ => apply orb_false_iff in H as [? ?]
  | H : negb _ = true |- _ => apply negb_true_iff in H
  | H : negb _ = false |- _ => apply negb_false_iff in H
  | H : bool_decide _ = true |- _ => apply bool_decide_eq_true_1 in H
  | H : bool_decide _ = false |- _ => apply bool_decide_eq_false_1 in H
  | H : (_ <? _)%Z = true |- _ => apply Z.ltb_lt in H
  | H : (_ <? _)%Z = false |- _ => apply Z.ltb_ge in H
  | H : (_ <=? _)%Z = true |- _ => apply Z.leb_le in H
  | H : (_ <=? _)%Z = false |- _ => apply Z.leb_gt in H
  | H : (_ =? _)%Z = true |- _ => apply Z.eqb_eq in H
  | H : (_ =? _)%Z = false |- _ => apply Z.eqb_neq in H
  end.

(** ** Reachability *)
Section Star.
Context {A : Type} (R : A -> A -> Prop).

Inductive star : A -> A -> Prop :=
| star_refl a : star a a
| star_step a b c : R a b -> star b c -> star a c.

Lemma star_one a b : R a b -> star a b.
Proof. intros. eapply star_step; [done | constructor]. Qed.

Lemma star_trans a b c : star a b -> star b c -> star a c.
Proof. induction 1; [done|]. intros. eapply star_step; eauto. Qed.

(** An inductive invariant holds of every reachable state. *)
Lemma star_invariant (I : A -> Prop) a b :
  (forall x y, I x -> R x y -> I y) -> I a -> star a b -> I b.
Proof. intros HI Ha. induction 1; eauto. Qed.
End Star.

Create HintDb py.
#[export] Hint Resolve star_refl star_one sort_by_perm : py.

(** The last element of a non-empty list does not depend on the default. *)
Lemma last_cons_ne {A} (l : list A) (x d : A) : List.last (x :: l) d = List.last l x.
Proof.
  revert x d. induction l as [|y l IH]; intros x d; [done|].
  change (List.last (x :: y :: l) d) with (List.last (y :: l) d). by rewrite !IH.
Qed.
