(* ===== verification/PyStr.v ===== *)
(** * Python [str] operations

    The parts of Python's [str] (and [int]) the service uses, on 8-bit strings.
    A string literal holding a non-ASCII character is its UTF-8 encoding;
    case mapping and white space are those of ASCII text. *)
From S2P Require Import Prelude.
From Stdlib Require Export Ascii String.
Open Scope string_scope.

Definition chr (n : N) : ascii := Ascii.ascii_of_N n.
Definition ord (c : ascii) : N := Ascii.N_of_ascii c.
Definition one (c : ascii) : string := String c "".

Definition in_range (lo hi : N) (c : ascii) : bool := ((lo <=? ord c) && (ord c <=? hi))%N.

(** [str.isspace] on ASCII: TAB LF VT FF CR, FS GS RS US, space. *)
Definition is_space (c : ascii) : bool :=
  in_range 9 13 c || in_range 28 31 c || (ord c =? 32)%N.
Definition is_digit (c : ascii) : bool := in_range 48 57 c.
Definition is_upper (c : ascii) : bool := in_range 65 90 c.
Definition is_lower (c : ascii) : bool := in_range 97 122 c.
Definition is_alnum (c : ascii) : bool := is_digit c || is_upper c || is_lower c.

Definition to_lower (c : ascii) : ascii := if is_upper c then chr (ord c + 32) else c.
Definition to_upper (c : ascii) : ascii := if is_lower c then chr (ord c - 32) else c.

Fixpoint str_map (f : ascii -> ascii) (s : string) : string :=
  match s with "" => "" | String c s => String (f c) (str_map f s) end.

Definition lower (s : string) : string := str_map to_lower s.
Definition upper (s : string) : string := str_map to_upper s.

Fixpoint str_forall (p : ascii -> bool) (s : string) : bool :=
  match s with "" => true | String c s => p c && str_forall p s end.

(** [s.isalnum()]: false on the empty string. *)
Definition isalnum (s : string) : bool := negb (String.eqb s "") && str_forall is_alnum s.

Fixpoint lstrip_with (p : ascii -> bool) (s : string) : string :=
  match s with
  | "" => ""
  | String c s' => if p c then lstrip_with p s' else s
  end.

(** Drop the trailing characters satisfying [p]. *)
Fixpoint rstrip_with (p : ascii -> bool) (s : string) : string :=
  match s with
  | "" => ""
  | String c s' =>
      match rstrip_with p s' with
      | "" => if p c then "" else one c
      | r => String c r
      end
  end.

Definition strip (s : string) : string := rstrip_with is_space (lstrip_with is_space s).

(** [s.startswith(p)] and [s.removeprefix(p)]. *)
Fixpoint strip_prefix (p s : string) : option string :=
  match p, s with
  | "", _ => Some s
  | String a p', String b s' => if Ascii.eqb a b then strip_prefix p' s' else None
  | _, "" => None
  end.
Definition startswith (p s : string) : bool :=
  match strip_prefix p s with Some _ => true | None => false end.

(** [sub in s] *)
Fixpoint contains (sub s : string) : bool :=
  startswith sub s || match s with "" => false | String _ s' => contains sub s' end.

(** [s.split(sep)] for a one-character separator: never the empty list. *)
Fixpoint split_on (sep : ascii) (s : string) : list string :=
  match s with
  | "" => [""]
  | String c s' =>
      if Ascii.eqb c sep then "" :: split_on sep s'
      else match split_on sep s' with
           | [] => [one c]
           | h :: t => String c h :: t
           end
  end.

(** [s.split(sep, 1)]: [None] when the separator does not occur. *)
Fixpoint split_once (sep : ascii) (s : string) : option (string * string) :=
  match s with
  | "" => None
  | String c s' =>
      if Ascii.eqb c sep then Some ("", s')
      else match split_once sep s' with
           | Some (a, b) => Some (String c a, b)
           | None => None
           end
  end.

(** [sep.join(l)] *)
Fixpoint join (sep : string) (l : list string) : string :=
  match l with
  | [] => ""
  | [x] => x
  | x :: xs => x +:+ sep +:+ join sep xs
  end.

(** [s.replace(c, by)] for a one-character pattern. *)
Fixpoint replace_char (c : ascii) (by_ : string) (s : string) : string :=
  match s with
  | "" => ""
  | String d s' => (if Ascii.eqb d c then by_ else one d) +:+ replace_char c by_ s'
  end.

(** [s.replace(old, by)] for any non-empty [old]: left to right, no overlap. *)
Fixpoint replace_fuel (n : nat) (old by_ s : string) : string :=
  match n with
  | O => s
  | S n =>
      match strip_prefix old s with
      | Some rest => by_ +:+ replace_fuel n old by_ rest
      | None => match s with "" => "" | String c s' => String c (replace_fuel n old by_ s') end
      end
  end.
Definition replace (old by_ s : string) : string :=
  replace_fuel (S (String.length s)) old by_ s.

(** [s[:n]] *)
Fixpoint str_take (n : nat) (s : string) : string :=
  match n, s with
  | S n, String c s' => String c (str_take n s')
  | _, _ => ""
  end.

(** [s.splitlines()] on ASCII text. *)
Definition is_line_end (c : ascii) : bool := in_range 10 13 c || in_range 28 30 c.
Fixpoint splitlines_from (cur : string) (s : string) : list string :=
  match s with
  | "" => if String.eqb cur "" then [] else [cur]
  | String c s' =>
      if is_line_end c then
        cur :: match s' with
               | String d s'' =>
                   if Ascii.eqb c "013" && Ascii.eqb d "010"
                   then splitlines_from "" s'' else splitlines_from "" s'
               | "" => []
               end
      else splitlines_from (cur +:+ one c) s'
  end.
Definition splitlines (s : string) : list string := splitlines_from "" s.

(** [str(n)]: the decimal digits of a non-negative integer, then the sign.
    A number has at most [1 + log2 n] digits. *)
Definition digit_chr (d : Z) : ascii := chr (48 + Z.to_N d).
Fixpoint digs_go (fuel : nat) (n : Z) (acc : string) : string :=
  match fuel with
  | O => acc
  | S f =>
      let acc' := String (digit_chr (n mod 10)) acc in
      if (n <? 10)%Z then acc' else digs_go f (n / 10) acc'
  end.
Definition digs (n : Z) : string := digs_go (S (Z.to_nat (Z.log2 n))) n "".
Definition str_of_Z (n : Z) : string :=
  if (n <? 0)%Z then "-" +:+ digs (- n) else digs n.

(** The value of a digit string, after the digits whose value is [acc]. *)
Fixpoint dval (acc : Z) (s : string) : option Z :=
  match s with
  | "" => Some acc
  | String c s => if is_digit c then dval (10 * acc + (Z.of_N (ord c) - 48)) s else None
  end.

(** The digits of an [int] literal: single underscores may separate digits. *)
Fixpoint drop_underscores (prev_digit : bool) (s : string) : option string :=
  match s with
  | "" => if prev_digit then Some "" else None
  | String c s' =>
      if is_digit c then option_map (String c) (drop_underscores true s')
      else if Ascii.eqb c "_" && prev_digit then drop_underscores false s' else None
  end.

Definition nat_of_digits (s : string) : option Z :=
  match drop_underscores false s with
  | Some d => dval 0 d
  | None => None
  end.

(** [int(s)]; [None] stands for [ValueError]. *)
Definition int_of_str (s : string) : option Z :=
  match strip s with
  | String "-" d => Z.opp <$> nat_of_digits d
  | String "+" d => nat_of_digits d
  | d => nat_of_digits d
  end.

(** [repr(s)] for printable ASCII text. *)
Definition py_repr (s : string) : string :=
  let q : ascii := if contains "'" s && negb (contains (one "034") s) then "034"%char else "'"%char in
  let fix go s :=
    match s with
    | "" => ""
    | String c s' =>
        (if Ascii.eqb c q || Ascii.eqb c "\" then String "\" (one c) else one c) +:+ go s'
    end in
  one q +:+ go s +:+ one q.

Definition str_or (s d : string) : string := if String.eqb s "" then d else s.

(** ** Facts *)

Lemma lower_fixed c : to_lower (to_lower c) = to_lower c.
Proof. destruct c as [[] [] [] [] [] [] [] []]; reflexivity. Qed.

Lemma lower_idemp s : lower (lower s) = lower s.
Proof. induction s as [|c s IH]; simpl; [done|]. unfold lower in *. simpl. by rewrite lower_fixed, IH. Qed.

Lemma strip_prefix_spec p s r : strip_prefix p s = Some r <-> s = p +:+ r.
Proof.
  revert s. induction p as [|a p IH]; intros s; simpl.
  - split; [by intros [= ->] | intros ->; done].
  - destruct s as [|b s]; [split; done|].
    destruct (Ascii.eqb_spec a b) as [->|Hne].
    + rewrite IH. split; [by intros -> | intros [= ->]; done].
    + split; [done|]. intros [= <- _]. done.
Qed.

Lemma startswith_spec p s : startswith p s = true <-> exists r, s = p +:+ r.
Proof.
  unfold startswith. split.
  - destruct (strip_prefix p s) eqn:E; [|done]. intros _.
    apply strip_prefix_spec in E. eauto.
  - intros [r H]. apply strip_prefix_spec in H. by rewrite H.
Qed.

Lemma append_cons c s t : String c s +:+ t = String c (s +:+ t).
Proof. done. Qed.

Lemma append_nil_l s : "" +:+ s = s.
Proof. done. Qed.

Lemma append_nil_r s : s +:+ "" = s.
Proof. induction s as [|c s IH]; [done|]. by rewrite append_cons, IH. Qed.

Lemma append_assoc s t u : (s +:+ t) +:+ u = s +:+ (t +:+ u).
Proof. induction s as [|c s IH]; [done|]. by rewrite !append_cons, IH. Qed.

Lemma length_append s t : String.length (s +:+ t) = String.length s + String.length t.
Proof. induction s as [|c s IH]; [done|]. rewrite append_cons. simpl. by rewrite IH. Qed.

(** [sub in s] holds iff [s] has [sub] as a factor. *)
Lemma contains_spec sub s : contains sub s = true <-> exists a b, s = a +:+ sub +:+ b.
Proof.
  split.
  - induction s as [|c s IH]; simpl; intros H; apply orb_true_iff in H as [H|H];
      try (apply startswith_spec in H as [r ->]; exists "", r; done); [done|].
    destruct (IH H) as (a & b & ->). exists (String c a), b. done.
  - intros (a & b & ->). induction a as [|c a IH].
    + destruct (sub +:+ b) eqn:E; simpl; apply orb_true_iff; left;
        apply startswith_spec; exists b; done.
    + simpl. apply orb_true_iff. by right.
Qed.

Lemma split_on_ne sep s : split_on sep s <> [].
Proof.
  destruct s as [|c s]; simpl; [done|].
  destruct (Ascii.eqb c sep); [done|]. by destruct (split_on sep s).
Qed.

(** Joining what [split] produced gives the string back. *)
Lemma join_split_on sep s : join (one sep) (split_on sep s) = s.
Proof.
  induction s as [|c s IH]; simpl; [done|].
  pose proof (split_on_ne sep s) as Hne.
  destruct (Ascii.eqb_spec c sep) as [->|Hc].
  - destruct (split_on sep s) as [|h t]; [done|]. simpl in *. by rewrite IH.
  - destruct (split_on sep s) as [|h t]; [done|].
    destruct t; simpl in *; by rewrite <- IH.
Qed.

Lemma digit_chr_digit d : (0 <= d < 10)%Z -> is_digit (digit_chr d) = true /\
  Z.of_N (ord (digit_chr d)) = (d + 48)%Z.
Proof.
  intros H. assert (d = 0 \/ d = 1 \/ d = 2 \/ d = 3 \/ d = 4 \/ d = 5 \/ d = 6 \/ d = 7
    \/ d = 8 \/ d = 9)%Z as Hd by lia.
  repeat destruct Hd as [->|Hd]; try (split; reflexivity). subst. split; reflexivity.
Qed.

Lemma str_forall_append p s t : str_forall p (s +:+ t) = str_forall p s && str_forall p t.
Proof. induction s as [|c s IH]; [done|]. rewrite append_cons. simpl. by rewrite IH, andb_assoc. Qed.

Lemma dval_append a s t : dval a (s +:+ t) = dval a s ≫= (fun v => dval v t).
Proof.
  revert a. induction s as [|c s IH]; intros a; [done|]. rewrite append_cons. simpl.
  destruct (is_digit c); [apply IH | done].
Qed.

Lemma dval_app_some s t a b : dval 0 s = Some a -> dval a t = Some b -> dval 0 (s +:+ t) = Some b.
Proof. intros H1 H2. rewrite dval_append, H1. done. Qed.

(** What [digs_go] adds in front of [acc]. *)
Lemma digs_go_spec fuel n acc :
  (0 <= n)%Z -> (Z.log2 n < Z.of_nat fuel)%Z ->
  exists p, digs_go fuel n acc = p +:+ acc /\ p <> "" /\
    str_forall is_digit p = true /\ dval 0 p = Some n.
Proof.
  revert n acc. induction fuel as [|f IH]; intros n acc Hn Hf.
  - pose proof (Z.log2_nonneg n). lia.
  - simpl. destruct (Z.ltb_spec n 10) as [Hlt|Hge].
    + exists (one (digit_chr (n mod 10))). rewrite Z.mod_small by lia.
      destruct (digit_chr_digit n) as [Hd Hv]; [lia|]. repeat split; [done| |].
      * simpl. by rewrite Hd.
      * simpl. rewrite Hd, Hv. f_equal. lia.
    + assert (Hlog : (Z.log2 (n / 10) < Z.of_nat f)%Z).
      { assert (Z.log2 (n / 10) <= Z.log2 (n / 2))%Z.
        { apply Z.log2_le_mono. apply Z.div_le_compat_l; lia. }
        replace (n / 2)%Z with (Z.shiftr n 1) in * by (by rewrite Z.shiftr_div_pow2).
        rewrite Z.log2_shiftr in * by lia.
        assert (0 < Z.log2 n)%Z by (apply Z.log2_pos; lia). lia. }
      destruct (IH (n / 10)%Z (String (digit_chr (n mod 10)) acc)) as (p & -> & Hne & Hp & Hv);
        [apply Z.div_pos; lia | done |].
      exists (p +:+ one (digit_chr (n mod 10))).
      destruct (digit_chr_digit (n mod 10)) as [Hd Ho]; [apply Z.mod_pos_bound; lia|].
      repeat split.
      * by rewrite append_assoc.
      * destruct p; done.
      * rewrite str_forall_append, Hp. simpl. by rewrite Hd.
      * eapply dval_app_some; [done|]. simpl. rewrite Hd, Ho. f_equal.
        pose proof (Z.div_mod n 10). lia.
Qed.

Lemma digs_spec n : (0 <= n)%Z ->
  digs n <> "" /\ str_forall is_digit (digs n) = true /\ dval 0 (digs n) = Some n.
Proof.
  intros Hn. destruct (digs_go_spec (S (Z.to_nat (Z.log2 n))) n "") as (p & H & Hp); [done| |].
  - pose proof (Z.log2_nonneg n). lia.
  - unfold digs. rewrite H, append_nil_r. done.
Qed.

Lemma str_of_Z_inj n m : str_of_Z n = str_of_Z m -> n = m.
Proof.
  assert (Hneg : forall k, (0 <= k)%Z -> forall s, digs k <> String "-" s).
  { intros k Hk s E. destruct (digs_spec k Hk) as (_ & H & _). rewrite E in H. done. }
  unfold str_of_Z. intros H.
  destruct (Z.ltb_spec n 0), (Z.ltb_spec m 0).
  - injection H as H. rewrite !append_nil_l in H. destruct (digs_spec (- n)) as (_ & _ & Hn); [lia|].
    destruct (digs_spec (- m)) as (_ & _ & Hm); [lia|]. rewrite H in Hn. simplify_eq. lia.
  - symmetry in H. by apply Hneg in H.
  - by apply Hneg in H.
  - destruct (digs_spec n) as (_ & _ & Hn); [lia|].
    destruct (digs_spec m) as (_ & _ & Hm); [lia|]. rewrite H in Hn. simplify_eq. done.
Qed.

(** ** The order of strings (by code unit, as Python's [<] on text) *)
Lemma string_leb_total s t : String.leb s t = false -> String.leb t s = true.
Proof. intros H. destruct (String.leb_total s t) as [H'|H']; congruence. Qed.

Lemma string_compare_trans s t u c :
  String.compare s t = c -> String.compare t u = c -> String.compare s u = c.
Proof.
  revert t u. induction s as [|a s IH]; intros [|b t] [|d u]; simpl; try (intros; congruence).
  unfold Ascii.compare.
  destruct (N.compare_spec (Ascii.N_of_ascii a) (Ascii.N_of_ascii b)) as [E1|E1|E1],
    (N.compare_spec (Ascii.N_of_ascii b) (Ascii.N_of_ascii d)) as [E2|E2|E2],
    (N.compare_spec (Ascii.N_of_ascii a) (Ascii.N_of_ascii d)) as [E3|E3|E3];
    try lia; intros; subst; try congruence; eauto.
Qed.

Lemma string_leb_trans s t u : String.leb s t = true -> String.leb t u = true -> String.leb s u = true.
Proof.
  unfold String.leb. destruct (String.compare s t) eqn:E1, (String.compare t u) eqn:E2; try done; intros _ _.
  - by rewrite (string_compare_trans s t u Eq).
  - apply String.compare_eq_iff in E1 as ->. by rewrite E2.
  - apply String.compare_eq_iff in E2 as <-. by rewrite E1.
  - by rewrite (string_compare_trans s t u Lt).
Qed.

Lemma string_ltb_leb s t : String.ltb s t = negb (String.leb t s).
Proof.
  unfold String.ltb, String.leb. rewrite (String.compare_antisym s t).
  by destruct (String.compare t s).
Qed.
