(* ===== verification/Decimal.v ===== *)
(** * Python [decimal.Decimal]

    Finite decimals [coef * 10^exp] and the operations the service uses, in the
    default context (28 significant digits, ROUND_HALF_EVEN).  NaN, the
    infinities and the sign of zero are not represented. *)
From S2P Require Import Prelude PyStr.
Open Scope Z_scope.

Record Dec := mkDec { coef : Z; dexp : Z }.
#[export] Instance Dec_eq_dec : EqDecision Dec.
Proof. solve_decision. Defined.

Definition dec_of_Z (n : Z) : Dec := mkDec n 0.
Definition PREC : Z := 28.

(** The coefficient of [d] at the exponent [e], for [e <= dexp d]. *)
Definition coef_at (e : Z) (d : Dec) : Z := coef d * 10 ^ (dexp d - e).

Definition dec_cmp (a b : Dec) : comparison :=
  let e := Z.min (dexp a) (dexp b) in coef_at e a ?= coef_at e b.
Definition dec_ltb (a b : Dec) : bool := match dec_cmp a b with Lt => true | _ => false end.
Definition dec_leb (a b : Dec) : bool := match dec_cmp a b with Gt => false | _ => true end.
Definition dec_eqb (a b : Dec) : bool := match dec_cmp a b with Eq => true | _ => false end.
Definition dec_is_zero (a : Dec) : bool := coef a =? 0.

Definition ndigits (n : Z) : Z := Z.of_nat (String.length (digs (Z.abs n))).

(** [q + r/b] rounded half to even. *)
Definition half_even (q r b : Z) : Z :=
  match 2 * r ?= b with
  | Lt => q
  | Gt => q + 1
  | Eq => if Z.even q then q else q + 1
  end.

(** [_fix]: round a result to [PREC] significant digits. *)
Definition dec_fix (d : Dec) : Dec :=
  let k := ndigits (coef d) - PREC in
  if k <=? 0 then d else
  let b := 10 ^ k in
  let a := Z.abs (coef d) in
  let m := half_even (a / b) (a mod b) b in
  let '(m, k) := if m =? 10 ^ PREC then (10 ^ (PREC - 1), k + 1) else (m, k) in
  mkDec (Z.sgn (coef d) * m) (dexp d + k).

Definition dec_add (a b : Dec) : Dec :=
  let e := Z.min (dexp a) (dexp b) in dec_fix (mkDec (coef_at e a + coef_at e b) e).
Definition dec_mul (a b : Dec) : Dec := dec_fix (mkDec (coef a * coef b) (dexp a + dexp b)).

(** Drop trailing zeros while the exponent is below [ideal]. *)
Fixpoint strip_zeros (fuel : nat) (ideal : Z) (d : Dec) : Dec :=
  match fuel with
  | O => d
  | S f =>
      if (dexp d <? ideal) && (coef d mod 10 =? 0)
      then strip_zeros f ideal (mkDec (coef d / 10) (dexp d + 1)) else d
  end.

(** [a / Decimal(10 ** k)] *)
Definition dec_div_pow10 (a : Dec) (k : nat) : Dec :=
  dec_fix (strip_zeros k (dexp a) (mkDec (coef a) (dexp a - Z.of_nat k))).

(** [int(d)]: truncation towards zero. *)
Definition dec_to_int (d : Dec) : Z :=
  if 0 <=? dexp d then coef d * 10 ^ dexp d else Z.quot (coef d) (10 ^ (- dexp d)).

(** [Decimal(10 ** k)] *)
Definition dec_pow10 (k : nat) : Dec := dec_of_Z (10 ^ Z.of_nat k).

Fixpoint str_zeros (n : nat) : string :=
  match n with O => "" | S n => String "0" (str_zeros n) end.
Fixpoint str_drop (n : nat) (s : string) : string :=
  match n, s with
  | S n, String _ s' => str_drop n s'
  | _, _ => s
  end.

(** [str(d)] *)
Definition dec_to_string (d : Dec) : string :=
  let int := digs (Z.abs (coef d)) in
  let len := Z.of_nat (String.length int) in
  let leftdigits := dexp d + len in
  let dotplace := if (dexp d <=? 0) && (-6 <? leftdigits) then leftdigits else 1 in
  let '(intpart, fracpart) :=
    if dotplace <=? 0 then ("0", "." +:+ str_zeros (Z.to_nat (- dotplace)) +:+ int)
    else if len <=? dotplace then (int +:+ str_zeros (Z.to_nat (dotplace - len)), "")
    else (str_take (Z.to_nat dotplace) int, "." +:+ str_drop (Z.to_nat dotplace) int) in
  let exp :=
    if leftdigits =? dotplace then ""
    else let x := leftdigits - dotplace in
         "E" +:+ (if x <? 0 then "" else "+") +:+ str_of_Z x in
  (if coef d <? 0 then "-" else "") +:+ intpart +:+ fracpart +:+ exp.

Fixpoint drop_char (c : ascii) (s : string) : string :=
  match s with
  | "" => ""
  | String d s' => if Ascii.eqb d c then drop_char c s' else String d (drop_char c s')
  end%string.

(** An optional sign. *)
Definition parse_sign (s : string) : Z * string :=
  match s with
  | String "-" r => (-1, r)
  | String "+" r => (1, r)
  | _ => (1, s)
  end%string.

Definition parse_exp (s : string) : option Z :=
  let '(sg, r) := parse_sign s in
  if String.eqb r "" then None else Z.mul sg <$> dval 0 r.

Definition parse_mantissa (s : string) : option Dec :=
  let '(i, f) := match split_once "." s with Some p => p | None => (s, ""%string) end in
  if String.eqb (i +:+ f) "" then None
  else (fun v => mkDec v (- Z.of_nat (String.length f))) <$> dval 0 (i +:+ f).

(** [Decimal(s)]; [None] stands for [InvalidOperation]. *)
Definition dec_of_string (s : string) : option Dec :=
  let '(sg, r) := parse_sign (drop_char "_" (strip s)) in
  let '(m, e) :=
    match split_once "E" (upper r) with
    | Some (m, e) => (m, parse_exp e)
    | None => (r, Some 0)
    end in
  match parse_mantissa m, e with
  | Some d, Some e => Some (mkDec (sg * coef d) (dexp d + e))
  | _, _ => None
  end.

(** ** Comparison is the order of the values *)

Definition dec_value (d : Dec) : Q :=
  if 0 <=? dexp d then inject_Z (coef d * 10 ^ dexp d) else Qmake (coef d) (Z.to_pos (10 ^ (- dexp d))).

Lemma pow10_pos k : 0 <= k -> 0 < 10 ^ k.
Proof. intros. apply Z.pow_pos_nonneg; lia. Qed.

(** Two decimals may be compared at any common exponent. *)
Lemma dec_cmp_at e a b :
  e <= dexp a -> e <= dexp b -> dec_cmp a b = (coef_at e a ?= coef_at e b).
Proof.
  intros Ha Hb. unfold dec_cmp, coef_at. set (m := Z.min (dexp a) (dexp b)).
  replace (dexp a - e) with ((dexp a - m) + (m - e)) by lia.
  replace (dexp b - e) with ((dexp b - m) + (m - e)) by lia.
  rewrite !Z.pow_add_r, !Z.mul_assoc by lia.
  rewrite !(Z.mul_comm _ (10 ^ (m - e))).
  apply Zmult_compare_compat_l. pose proof (pow10_pos (m - e)). lia.
Qed.

Lemma dec_ltb_at e a b : e <= dexp a -> e <= dexp b ->
  dec_ltb a b = (coef_at e a <? coef_at e b).
Proof. intros. unfold dec_ltb, Z.ltb. by rewrite (dec_cmp_at e). Qed.

Lemma dec_leb_at e a b : e <= dexp a -> e <= dexp b ->
  dec_leb a b = (coef_at e a <=? coef_at e b).
Proof. intros. unfold dec_leb, Z.leb. by rewrite (dec_cmp_at e). Qed.

Lemma dec_ltb_nleb a b : dec_ltb a b = negb (dec_leb b a).
Proof.
  rewrite (dec_ltb_at (Z.min (dexp a) (dexp b))), (dec_leb_at (Z.min (dexp a) (dexp b))) by lia.
  apply Z.ltb_antisym.
Qed.

Lemma dec_leb_total a b : dec_leb a b = false -> dec_leb b a = true.
Proof.
  rewrite !(dec_leb_at (Z.min (dexp a) (dexp b))) by lia.
  intros ?%Z.leb_gt. apply Z.leb_le. lia.
Qed.

Lemma dec_leb_trans a b c : dec_leb a b = true -> dec_leb b c = true -> dec_leb a c = true.
Proof.
  set (e := Z.min (dexp a) (Z.min (dexp b) (dexp c))).
  rewrite !(dec_leb_at e) by lia. rewrite !Z.leb_le. lia.
Qed.

(** ** [str] and [Decimal] are inverse *)

Definition dec_char (c : ascii) : bool :=
  is_digit c || Ascii.eqb c "." || Ascii.eqb c "E" || Ascii.eqb c "+" || Ascii.eqb c "-".

Lemma dec_char_plain c : dec_char c = true ->
  is_space c = false /\ Ascii.eqb c "_" = false /\ to_upper c = c.
Proof. by destruct c as [[] [] [] [] [] [] [] []]. Qed.

Lemma str_forall_impl (p q : ascii -> bool) s :
  (forall c, p c = true -> q c = true) -> str_forall p s = true -> str_forall q s = true.
Proof.
  intros H. induction s as [|c s IH]; simpl; [done|].
  intros [Hc Hs]%andb_true_iff. by rewrite (H c), IH.
Qed.

Lemma rstrip_plain p s : str_forall (fun c => negb (p c)) s = true -> rstrip_with p s = s.
Proof.
  induction s as [|c s IH]; simpl; [done|].
  intros [Hc Hs]%andb_true_iff. rewrite (IH Hs).
  apply negb_true_iff in Hc. rewrite Hc. by destruct s.
Qed.

Lemma lstrip_plain p s : str_forall (fun c => negb (p c)) s = true -> lstrip_with p s = s.
Proof.
  destruct s as [|c s]; simpl; [done|]. intros [Hc _]%andb_true_iff.
  apply negb_true_iff in Hc. by rewrite Hc.
Qed.

Lemma strip_plain s : str_forall (fun c => negb (is_space c)) s = true -> strip s = s.
Proof. intros H. unfold strip. by rewrite lstrip_plain, rstrip_plain. Qed.

Lemma dec_chars_plain s : str_forall dec_char s = true ->
  drop_char "_" (strip s) = s /\ upper s = s.
Proof.
  intros H. rewrite strip_plain.
  - induction s as [|c s IH]; simpl in *; [done|].
    apply andb_true_iff in H as [Hc Hs]. destruct (dec_char_plain c Hc) as (_ & Hu & Hup).
    destruct (IH Hs) as [IH1 IH2]. unfold upper in *. simpl. rewrite Hu, Hup. by rewrite IH1, IH2.
  - revert H. apply str_forall_impl. intros c Hc. by destruct (dec_char_plain c Hc) as (-> & _).
Qed.

Lemma split_once_app sep a b :
  str_forall (fun c => negb (Ascii.eqb c sep)) a = true ->
  split_once sep (a +:+ String sep b) = Some (a, b).
Proof.
  induction a as [|c a IH]; simpl; intros H.
  - by rewrite Ascii.eqb_refl.
  - apply andb_true_iff in H as [Hc Ha].
    apply negb_true_iff in Hc. by rewrite Hc, (IH Ha).
Qed.

Lemma split_once_none sep a :
  str_forall (fun c => negb (Ascii.eqb c sep)) a = true -> split_once sep a = None.
Proof.
  induction a as [|c a IH]; simpl; [done|]. intros [Hc Ha]%andb_true_iff.
  apply negb_true_iff in Hc. by rewrite Hc, (IH Ha).
Qed.

Lemma digit_not (c d : ascii) : is_digit d = false -> is_digit c = true -> negb (Ascii.eqb c d) = true.
Proof. intros Hd Hc. destruct (Ascii.eqb_spec c d) as [->|]; [congruence | done]. Qed.

Lemma digits_no sep s : is_digit sep = false -> str_forall is_digit s = true ->
  str_forall (fun c => negb (Ascii.eqb c sep)) s = true.
Proof. intros Hs. apply str_forall_impl. intros c. by apply digit_not. Qed.

Lemma take_drop n s : str_take n s +:+ str_drop n s = s.
Proof.
  revert s. induction n as [|n IH]; intros s; simpl; [done|].
  destruct s as [|c s]; [done|]. by rewrite append_cons, IH.
Qed.

Lemma length_drop n s : String.length (str_drop n s) = (String.length s - n)%nat.
Proof.
  revert s. induction n as [|n IH]; intros s; simpl; [by rewrite Nat.sub_0_r|].
  destruct s; simpl; [done|apply IH].
Qed.

Lemma zeros_digits n : str_forall is_digit (str_zeros n) = true.
Proof. by induction n. Qed.

Lemma length_zeros n : String.length (str_zeros n) = n.
Proof. by induction n; simpl; congruence. Qed.

Lemma dval_zeros n s : dval 0 (str_zeros n +:+ s) = dval 0 s.
Proof. induction n as [|n IH]; [done|]. apply IH. Qed.

(** A mantissa with the digits [i] before and [f] after the point. *)
Lemma parse_mantissa_digits i f v :
  str_forall is_digit i = true -> str_forall is_digit f = true -> i <> "" ->
  dval 0 (i +:+ f) = Some v ->
  parse_mantissa (i +:+ (if String.eqb f "" then "" else String "." f))
  = Some (mkDec v (- Z.of_nat (String.length f))).
Proof.
  intros Hi Hf Hne Hv. unfold parse_mantissa. destruct (String.eqb_spec f "") as [->|Hf'].
  - rewrite append_nil_r in *. rewrite split_once_none by (by apply digits_no).
    rewrite append_nil_r. destruct (String.eqb_spec i ""); [done|]. by rewrite Hv.
  - rewrite split_once_app by (by apply digits_no).
    destruct (String.eqb_spec (i +:+ f) ""); [by destruct i|]. by rewrite Hv.
Qed.

(** The text of a decimal: a sign, an integer part [i], a fraction [f] (with its
    point when there are digits) and an exponent [x] (when it is not zero). *)
Definition dec_text (neg : bool) (i f : string) (x : Z) : string :=
  (if neg then "-" else "") +:+ i +:+ (if String.eqb f "" then "" else String "." f) +:+
  (if x =? 0 then "" else "E" +:+ (if x <? 0 then "" else "+") +:+ str_of_Z x).

Lemma digits_dec s : str_forall is_digit s = true -> str_forall dec_char s = true.
Proof. apply str_forall_impl. intros c H. unfold dec_char. by rewrite H. Qed.

Lemma str_of_Z_dec x : str_forall dec_char (str_of_Z x) = true.
Proof.
  unfold str_of_Z. destruct (Z.ltb_spec x 0).
  - simpl. destruct (digs_spec (- x)) as (_ & H' & _); [lia|]. by apply digits_dec.
  - destruct (digs_spec x) as (_ & H' & _); [lia|]. by apply digits_dec.
Qed.

Lemma parse_exp_str x : parse_exp ((if x <? 0 then "" else "+") +:+ str_of_Z x) = Some x.
Proof.
  unfold parse_exp, str_of_Z. destruct (Z.ltb_spec x 0).
  - destruct (digs_spec (- x)) as (Hne & _ & Hv); [lia|]. set (p := digs (- x)) in *.
    simpl. rewrite append_nil_l, Hv. destruct (String.eqb_spec p ""); [done|]. simpl. f_equal. lia.
  - destruct (digs_spec x) as (Hne & _ & Hv); [lia|]. set (p := digs x) in *.
    simpl. rewrite append_nil_l, Hv. destruct (String.eqb_spec p ""); [done|]. simpl. f_equal. lia.
Qed.

Lemma parse_sign_text (neg : bool) i s :
  i <> "" -> str_forall is_digit i = true ->
  parse_sign ((if neg then "-" else "") +:+ i +:+ s) = (if neg then -1 else 1, i +:+ s).
Proof.
  intros Hne Hi. destruct neg; simpl; [done|]. destruct i as [|c i]; [done|]. simpl.
  simpl in Hi. apply andb_true_iff in Hi as [Hc _].
  by destruct c as [[] [] [] [] [] [] [] []].
Qed.

(** Reading a decimal's text gives its parts back. *)
Lemma dec_of_text neg i f x v :
  str_forall is_digit i = true -> str_forall is_digit f = true -> i <> "" ->
  dval 0 (i +:+ f) = Some v ->
  dec_of_string (dec_text neg i f x)
  = Some (mkDec ((if neg then -1 else 1) * v) (- Z.of_nat (String.length f) + x)).
Proof.
  intros Hi Hf Hne Hv. set (fp := if String.eqb f "" then "" else String "." f).
  assert (Hfp : str_forall is_digit fp = true \/ fp = String "." f) by
    (subst fp; destruct (String.eqb_spec f ""); [left | right]; done).
  assert (Hmdec : str_forall dec_char (i +:+ fp) = true).
  { rewrite str_forall_append, (digits_dec _ Hi). destruct Hfp as [H | ->]; [by apply digits_dec|].
    simpl. by apply digits_dec. }
  assert (HmE : str_forall (fun c => negb (Ascii.eqb c "E")) (i +:+ fp) = true).
  { rewrite str_forall_append, (digits_no "E" i) by done.
    destruct Hfp as [H | ->]; [by apply digits_no|]. simpl. by apply digits_no. }
  unfold dec_of_string, dec_text. fold fp.
  match goal with |- context [strip ?s] => assert (Hdec : str_forall dec_char s = true) end.
  { rewrite !str_forall_append. rewrite str_forall_append in Hmdec.
    apply andb_true_iff in Hmdec as [-> ->].
    destruct (x =? 0); rewrite ?str_forall_append, ?str_of_Z_dec; by destruct neg, (x <? 0). }
  destruct (dec_chars_plain _ Hdec) as [-> _]. rewrite parse_sign_text by done.
  match goal with |- context [upper ?s] => assert (Hr : str_forall dec_char s = true) end.
  { revert Hdec. rewrite str_forall_append. by intros [_ ?]%andb_true_iff. }
  destruct (dec_chars_plain _ Hr) as [_ ->]. rewrite <- append_assoc.
  destruct (Z.eqb_spec x 0) as [->|Hx].
  - rewrite append_nil_r, split_once_none by done. unfold fp.
    rewrite (parse_mantissa_digits _ _ v) by done. done.
  - change ("E" +:+ (if x <? 0 then "" else "+") +:+ str_of_Z x)
      with (String "E" ((if x <? 0 then "" else "+") +:+ str_of_Z x)).
    rewrite split_once_app, parse_exp_str by done. unfold fp.
    by rewrite (parse_mantissa_digits _ _ v).
Qed.

Lemma str_take_length n s : (String.length s <= n)%nat -> str_take n s = s.
Proof.
  revert n. induction s as [|c s IH]; intros n H; simpl in *; [by destruct n|].
  destruct n; simpl; [lia|]. by rewrite IH by lia.
Qed.

Lemma str_ne_length s : s <> ""%string -> (0 < String.length s)%nat.
Proof. destruct s; simpl; [done | lia]. Qed.

(** Cutting a digit string [p] with value [v] after [k] digits. *)
Lemma cut_digits p k v :
  str_forall is_digit p = true -> dval 0 p = Some v -> (0 < k < String.length p)%nat ->
  str_forall is_digit (str_take k p) = true /\ str_forall is_digit (str_drop k p) = true /\
  str_take k p <> "" /\ dval 0 (str_take k p +:+ str_drop k p) = Some v /\
  String.eqb (str_drop k p) "" = false.
Proof.
  intros Hd Hv Hk. pose proof (take_drop k p) as Htd.
  rewrite <- Htd, str_forall_append in Hd. apply andb_true_iff in Hd as [Ht Hd].
  repeat split; [done | done | | by rewrite Htd |].
  - destruct k, p; simpl in *; [lia | lia | lia | done].
  - apply String.eqb_neq. intros E. pose proof (length_drop k p) as Hl.
    rewrite E in Hl. simpl in Hl. lia.
Qed.

(** [str] produces such a text: first without, then with an exponent part. *)
Definition is_text (s : string) (d : Dec) : Prop := exists i f x,
  s = dec_text (coef d <? 0) i f x /\
  str_forall is_digit i = true /\ str_forall is_digit f = true /\ i <> ""%string /\
  dval 0 (i +:+ f) = Some (Z.abs (coef d)) /\ - Z.of_nat (String.length f) + x = dexp d.

Lemma dec_text_plain d : let p := digs (Z.abs (coef d)) in
  let k := dexp d + Z.of_nat (String.length p) in dexp d <= 0 ->
  is_text ((if coef d <? 0 then "-" else "") +:+
    (if k <=? 0 then "0" +:+ "." +:+ str_zeros (Z.to_nat (- k)) +:+ p
     else if Z.of_nat (String.length p) <=? k then p
     else str_take (Z.to_nat k) p +:+ "." +:+ str_drop (Z.to_nat k) p)) d.
Proof.
  intros p k He. destruct (digs_spec (Z.abs (coef d))) as (Hne & Hd & Hv); [lia|].
  fold p in Hne, Hd, Hv. pose proof (str_ne_length p Hne) as Hlen.
  destruct (Z.leb_spec k 0) as [Hneg|Hpos]; [|destruct (Z.leb_spec (Z.of_nat (String.length p)) k)].
  - exists "0"%string, (str_zeros (Z.to_nat (- k)) +:+ p), 0.
    split_and!; [|done| | done | |].
    + unfold dec_text. destruct (String.eqb_spec (str_zeros (Z.to_nat (- k)) +:+ p) "") as [E|_].
      { apply (f_equal String.length) in E. rewrite length_append in E. simpl in E. lia. }
      cbn [Z.eqb]. by rewrite !append_nil_r.
    + rewrite str_forall_append, zeros_digits. exact Hd.
    + change (dval 0 (str_zeros (Z.to_nat (- k)) +:+ p) = Some (Z.abs (coef d))).
      by rewrite dval_zeros.
    + rewrite length_append, length_zeros. lia.
  - exists p, ""%string, 0. unfold dec_text. cbn [Z.eqb String.eqb].
    rewrite !append_nil_r. split_and!; try done; simpl; lia.
  - exists (str_take (Z.to_nat k) p), (str_drop (Z.to_nat k) p), 0.
    destruct (cut_digits p (Z.to_nat k) _ Hd Hv) as (? & ? & ? & ? & Hf); [lia|].
    unfold dec_text. rewrite Hf. cbn [Z.eqb]. rewrite append_nil_r.
    split_and!; try done. rewrite length_drop. lia.
Qed.

Lemma dec_text_sci d : let p := digs (Z.abs (coef d)) in
  let x := dexp d + Z.of_nat (String.length p) - 1 in
  is_text ((if coef d <? 0 then "-" else "") +:+
    (if Z.of_nat (String.length p) <=? 1 then p else str_take 1 p +:+ "." +:+ str_drop 1 p) +:+
    (if x =? 0 then "" else "E" +:+ (if x <? 0 then "" else "+") +:+ str_of_Z x)) d.
Proof.
  intros p x. destruct (digs_spec (Z.abs (coef d))) as (Hne & Hd & Hv); [lia|].
  fold p in Hne, Hd, Hv. pose proof (str_ne_length p Hne) as Hlen.
  destruct (Z.leb_spec (Z.of_nat (String.length p)) 1).
  - exists p, ""%string, x. unfold dec_text. cbn [String.eqb].
    rewrite append_nil_l, append_nil_r. split_and!; try done; simpl; lia.
  - exists (str_take 1 p), (str_drop 1 p), x.
    destruct (cut_digits p 1 _ Hd Hv) as (? & ? & ? & ? & Hf); [lia|].
    unfold dec_text. rewrite Hf. rewrite !append_assoc.
    split_and!; try done. rewrite length_drop. lia.
Qed.

Lemma dec_to_string_text d : is_text (dec_to_string d) d.
Proof.
  unfold dec_to_string. set (p := digs (Z.abs (coef d))).
  destruct ((dexp d <=? 0) && (-6 <? dexp d + Z.of_nat (String.length p))) eqn:Hplain.
  - apply andb_true_iff in Hplain as [He _]. apply Z.leb_le in He.
    pose proof (dec_text_plain d He) as H. fold p in H. rewrite Z.eqb_refl.
    destruct (_ <=? 0); [|destruct (Z.leb_spec (Z.of_nat (String.length p))
      (dexp d + Z.of_nat (String.length p)))];
    rewrite ?append_nil_r in *; [done| |done].
    replace (dexp d + _ - _) with 0 by lia. simpl. by rewrite append_nil_r.
  - pose proof (dec_text_sci d) as H. fold p in H. cbn zeta in H.
    replace (1 <=? 0) with false by done.
    replace (dexp d + Z.of_nat (String.length p) - 1 =? 0)
      with (dexp d + Z.of_nat (String.length p) =? 1) in H by lia.
    destruct (Z.leb_spec (Z.of_nat (String.length p)) 1); rewrite ?append_assoc in *; [|done].
    pose proof (str_ne_length p (proj1 (digs_spec (Z.abs (coef d)) ltac:(lia)))).
    replace (1 - Z.of_nat (String.length p)) with 0 by lia. simpl. rewrite ?append_nil_r, ?append_nil_l. exact H.
Qed.

Lemma dec_string_inverse d : dec_of_string (dec_to_string d) = Some d.
Proof.
  destruct (dec_to_string_text d) as (i & f & x & -> & Hi & Hf & Hne & Hv & Hx).
  rewrite (dec_of_text _ _ _ _ _ Hi Hf Hne Hv), Hx. destruct d as [c e]. simpl in *.
  do 2 f_equal. destruct (Z.ltb_spec c 0); lia.
Qed.

(** ** When rounding changes nothing *)

Lemma digs_go_length fuel : forall n acc d, 0 <= n < 10 ^ Z.of_nat (S d) ->
  (String.length (digs_go fuel n acc) <= S d + String.length acc)%nat.
Proof.
  induction fuel as [|f IH]; intros n acc d Hn; simpl; [lia|].
  destruct (Z.ltb_spec n 10); simpl; [lia|].
  destruct d as [|d]; [change (10 ^ Z.of_nat 1) with 10 in Hn; lia|].
  specialize (IH (n / 10) (String (digit_chr (n mod 10)) acc) d). simpl in IH.
  assert (0 <= n / 10 < 10 ^ Z.of_nat (S d)); [|lia].
  split; [apply Z.div_pos; lia|]. apply Z.div_lt_upper_bound; [lia|].
  replace (10 * 10 ^ Z.of_nat (S d)) with (10 ^ Z.of_nat (S (S d))); [lia|].
  rewrite (Nat2Z.inj_succ (S d)), Z.pow_succ_r by lia. done.
Qed.

Lemma ndigits_le n k : 1 <= k -> Z.abs n < 10 ^ k -> ndigits n <= k.
Proof.
  intros Hk Hn. unfold ndigits, digs.
  pose proof (digs_go_length (S (Z.to_nat (Z.log2 (Z.abs n)))) (Z.abs n) "" (Z.to_nat (k - 1))) as H.
  rewrite <- Z2Nat.inj_succ in H by lia. rewrite Z2Nat.id in H by lia.
  replace (Z.succ (k - 1)) with k in H by lia. simpl in H |- *. lia.
Qed.

(** A coefficient with at most [PREC] significant digits is not rounded. *)
Lemma dec_fix_exact d j : 0 <= j -> Z.abs (coef d) < 10 ^ (PREC + j) -> (10 ^ j | coef d) ->
  dexp d <= dexp (dec_fix d) /\
  coef (dec_fix d) * 10 ^ (dexp (dec_fix d) - dexp d) = coef d.
Proof.
  intros Hj Hb Hdiv. unfold dec_fix.
  pose proof (ndigits_le (coef d) (PREC + j) ltac:(unfold PREC; lia) Hb) as Hn.
  destruct (Z.leb_spec (ndigits (coef d) - PREC) 0) as [H0|H0].
  { split; [lia|]. rewrite Z.sub_diag. lia. }
  set (k := ndigits (coef d) - PREC) in *.
  assert (Hk : (10 ^ k | coef d)).
  { etrans; [|exact Hdiv]. exists (10 ^ (j - k)). rewrite <- Z.pow_add_r by lia. f_equal. lia. }
  apply (proj2 (Z.divide_abs_r _ _)) in Hk.
  assert (Habs : Z.abs (coef d) = Z.abs (coef d) / 10 ^ k * 10 ^ k).
  { rewrite Z.mul_comm. apply Z_div_exact_full_2; [|apply Z.mod_divide; [|done]]; assert (0 < 10 ^ k) by (apply Z.pow_pos_nonneg; lia); lia. }
  replace (Z.abs (coef d) mod 10 ^ k) with 0
    by (symmetry; apply Z.mod_divide; [lia | done]).
  set (q := Z.abs (coef d) / 10 ^ k) in *.
  assert (half_even q 0 (10 ^ k) = q) as ->.
  { unfold half_even. assert ((2 * 0 ?= 10 ^ k) = Lt) as -> by (apply Z.compare_lt_iff; lia). done. }
  destruct (Z.eqb_spec q (10 ^ PREC)) as [Hq|Hq]; cbn [coef dexp].
  - split; [lia|]. replace (dexp d + (k + 1) - dexp d) with (1 + k) by lia.
    rewrite Z.pow_add_r by lia.
    replace (Z.sgn (coef d) * 10 ^ (PREC - 1) * (10 ^ 1 * 10 ^ k))
      with (Z.sgn (coef d) * (q * 10 ^ k)); [rewrite <- Habs; lia|].
    rewrite Hq. replace PREC with (1 + (PREC - 1)) at 1 by lia. rewrite Z.pow_add_r by (unfold PREC; lia). lia.
  - split; [lia|]. replace (dexp d + k - dexp d) with k by lia. rewrite <- Z.mul_assoc, <- Habs. lia.
Qed.

(** [int(d * Decimal(10 ** k))] is exact for [d] with at most [k] decimals and
    [PREC] significant digits. *)
Lemma dec_scale_exact d k : - Z.of_nat k <= dexp d -> Z.abs (coef d) < 10 ^ PREC ->
  dec_to_int (dec_mul d (dec_pow10 k)) = coef d * 10 ^ (dexp d + Z.of_nat k).
Proof.
  intros He Hc. unfold dec_mul, dec_pow10, dec_of_Z. simpl. rewrite Z.add_0_r.
  set (K := Z.of_nat k) in *. assert (0 <= K) by lia.
  destruct (dec_fix_exact (mkDec (coef d * 10 ^ K) (dexp d)) K) as [H1 H2]; simpl in *.
  { lia. }
  { rewrite Z.abs_mul, (Z.abs_eq (10 ^ K)) by lia. rewrite Z.pow_add_r by (unfold PREC; lia).
    apply Z.mul_lt_mono_pos_r; [lia | done]. }
  { by exists (coef d). }
  destruct (dec_fix _) as [c' e']; simpl in *. unfold dec_to_int; simpl.
  assert (Hsplit : 10 ^ K = 10 ^ (dexp d + K - Z.max 0 (dexp d)) * 10 ^ (Z.max 0 (dexp d) - dexp d)).
  { rewrite <- Z.pow_add_r by lia. f_equal. lia. }
  assert (0 < 10 ^ (Z.max 0 (dexp d) - dexp d)) by (apply Z.pow_pos_nonneg; lia).
  destruct (Z.leb_spec 0 e') as [He'|He'].
  - destruct (Z.leb_spec 0 (dexp d)).
    + replace e' with (e' - dexp d + dexp d) by lia.
      rewrite (Z.pow_add_r 10 (e' - dexp d)) by lia. rewrite Z.mul_assoc, H2.
      rewrite (Z.pow_add_r 10 (dexp d) K) by lia. lia.
    + replace (Z.max 0 (dexp d)) with 0 in * by lia.
      replace (e' - dexp d) with (e' + (0 - dexp d)) in H2 by lia.
      rewrite Z.pow_add_r in H2 by lia. rewrite Hsplit in H2.
      replace (dexp d + K - 0) with (dexp d + K) in H2 by lia. nia.
  - replace (Z.max 0 (dexp d)) with 0 in * by lia.
    replace (dexp d + K - 0) with (dexp d + K) in Hsplit by lia.
    assert (Hp : 10 ^ (0 - dexp d) = 10 ^ (e' - dexp d) * 10 ^ (- e')).
    { rewrite <- Z.pow_add_r by lia. f_equal. lia. }
    assert (c' = coef d * 10 ^ (dexp d + K) * 10 ^ (- e')) as ->.
    { apply (Z.mul_reg_r _ _ (10 ^ (e' - dexp d))).
      - assert (0 < 10 ^ (e' - dexp d)) by (apply Z.pow_pos_nonneg; lia). lia.
      - rewrite H2, Hsplit, Hp. lia. }
    rewrite Z.quot_mul; [done|]. assert (0 < 10 ^ (- e')) by (apply Z.pow_pos_nonneg; lia). lia.
Qed.

Open Scope string_scope.
(** ** Numbers written and read back *)
Lemma digits_plain s : str_forall is_digit s = true -> s <> ""%string -> strip s = s /\ drop_underscores false s = Some s.
Proof.
  assert (Hd : forall c, is_digit c = true -> is_space c = false).
  { intros c. destruct c as [b0 b1 b2 b3 b4 b5 b6 b7]. by destruct b0, b1, b2, b3, b4, b5, b6, b7. }
  intros Hs Hne. split.
  - unfold strip. assert (lstrip_with is_space s = s) as ->.
    { destruct s as [|c s]; [done|]. cbn in *. apply andb_true_iff in Hs as [Hc _]. by rewrite Hd. }
    clear Hne. induction s as [|c s IH]; [done|]. cbn in *. apply andb_true_iff in Hs as [Hc Hs]. rewrite IH by done.
    destruct s; [by rewrite Hd|done].
  - assert (H : forall b, (s = "" -> b = true) -> drop_underscores b s = Some s); [|by apply H].
    clear Hne. induction s as [|c s IH]; intros b Hb; cbn; [by rewrite Hb|].
    cbn in Hs. apply andb_true_iff in Hs as [Hc Hs]. rewrite Hc, IH by done. done.
Qed.
Lemma int_of_str_str n : int_of_str (str_of_Z n) = Some n.
Proof.
  assert (Hsign : forall d, (0 <= d)%Z -> exists c r, digs d = String c r /\ is_digit c = true).
  { intros d Hd. destruct (digs_spec d Hd) as (Hne & Hdig & _). destruct (digs d) as [|c r]; [done|]. exists c, r.
    cbn in Hdig. by apply andb_true_iff in Hdig as [-> _]. }
  assert (Hnat : forall d, (0 <= d)%Z -> nat_of_digits (digs d) = Some d).
  { intros d Hd. destruct (digs_spec d Hd) as (Hne & Hdig & Hv). unfold nat_of_digits.
    by rewrite (proj2 (digits_plain _ Hdig Hne)). }
  unfold int_of_str, str_of_Z. destruct (Z.ltb_spec n 0) as [Hn|Hn].
  - destruct (digs_spec (- n)) as (Hne & Hdig & _); [lia|]. destruct (digits_plain _ Hdig Hne) as [Hs _].
    assert (strip ("-" +:+ digs (- n)) = String "-" (digs (- n))) as ->.
    { change ("-" +:+ digs (- n)) with (String "-" (digs (- n))). unfold strip in *. cbn [lstrip_with].
      change (is_space "-") with false. cbn [rstrip_with].
      assert (lstrip_with is_space (digs (- n)) = digs (- n)) as Hl.
      { destruct (Hsign (- n)%Z) as (c & r & -> & Hc); [lia|]. cbn. revert Hc.
        destruct c as [b0 b1 b2 b3 b4 b5 b6 b7]. by destruct b0, b1, b2, b3, b4, b5, b6, b7. }
      rewrite Hl in Hs. rewrite Hs. by destruct (digs (- n)). }
    rewrite Hnat by lia. cbn. f_equal. lia.
  - destruct (digs_spec n) as (Hne & Hdig & _); [lia|]. rewrite (proj1 (digits_plain _ Hdig Hne)).
    specialize (Hnat n Hn). destruct (Hsign n Hn) as (c & r & Heq & Hc). rewrite Heq in *. revert Hc Hnat. clear.
    destruct c as [b0 b1 b2 b3 b4 b5 b6 b7]. by destruct b0, b1, b2, b3, b4, b5, b6, b7.
Qed.
