(* ===== verification/Effects.v ===== *)
(** * Stateful, failing, crashing programs

    A Python function that reads and writes process state is a function from the
    state to an [outcome] and a new state.  The proof rules are weakest
    preconditions ([wp]) and frame conditions ([Frame]): what a program leaves
    unchanged whatever its outcome. *)
From S2P Require Import Prelude.

Definition M (W E A : Type) : Type := W -> outcome E A * W.

Section Monad.
Context {W E : Type}.

Definition ret {A} (a : A) : M W E A := fun w => (Ret a, w).
Definition raise {A} (e : E) : M W E A := fun w => (Raise e, w).
Definition bind {A B} (m : M W E A) (k : A -> M W E B) : M W E B :=
  fun w => match m w with
           | (Ret a, w') => k a w'
           | (Raise e, w') => (Raise e, w')
           | (Crash, w') => (Crash, w')
           end.
(** [try: m except: h] for the exceptions [h] handles; a crash runs nothing. *)
Definition catch {A} (m : M W E A) (h : E -> option (M W E A)) : M W E A :=
  fun w => match m w with
           | (Raise e, w') =>
               match h e with Some r => r w' | None => (Raise e, w') end
           | r => r
           end.
Definition gets {A} (f : W -> A) : M W E A := fun w => (Ret (f w), w).
Definition modify (f : W -> W) : M W E unit := fun w => (Ret tt, f w).
(** [if b: m] *)
Definition when (b : bool) (m : M W E unit) : M W E unit := if b then m else ret tt.
Fixpoint for_each {A} (l : list A) (f : A -> M W E unit) : M W E unit :=
  match l with [] => ret tt | x :: xs => bind (f x) (fun _ => for_each xs f) end.

(** ** Weakest preconditions *)
Definition wp {A} (m : M W E A) (Q : outcome E A -> W -> Prop) (w : W) : Prop :=
  Q (fst (m w)) (snd (m w)).

Lemma wp_ret {A} (a : A) Q w : Q (Ret a) w -> wp (ret a) Q w.
Proof. done. Qed.
Lemma wp_raise {A} e (Q : outcome E A -> W -> Prop) w : Q (Raise e) w -> wp (raise e) Q w.
Proof. done. Qed.
Lemma wp_gets {A} (f : W -> A) Q w : Q (Ret (f w)) w -> wp (gets f) Q w.
Proof. done. Qed.
Lemma wp_modify f Q w : Q (Ret tt) (f w) -> wp (modify f) Q w.
Proof. done. Qed.

Lemma wp_bind {A B} (m : M W E A) (k : A -> M W E B) Q w :
  wp m (fun o w' => match o with
                    | Ret a => wp (k a) Q w'
                    | Raise e => Q (Raise e) w'
                    | Crash => Q Crash w'
                    end) w ->
  wp (bind m k) Q w.
Proof. unfold wp, bind. by destruct (m w) as [[a|e|] w']. Qed.

(** Nothing is known of [m]: [Q] must not depend on it. *)
Lemma wp_bind_any {A B} (m : M W E A) (k : A -> M W E B) (Q : outcome E B -> W -> Prop) w :
  (forall a w', wp (k a) Q w') -> (forall e w', Q (Raise e) w') -> (forall w', Q Crash w') ->
  wp (bind m k) Q w.
Proof. intros H1 H2 H3. apply wp_bind. unfold wp at 1. destruct (m w) as [[a|e|] w']; simpl; auto. Qed.

Lemma wp_catch {A} (m : M W E A) h Q w :
  wp m (fun o w' => match o with
                    | Raise e => match h e with
                                 | Some r => wp r Q w'
                                 | None => Q (Raise e) w'
                                 end
                    | _ => Q o w'
                    end) w ->
  wp (catch m h) Q w.
Proof.
  unfold wp, catch. destruct (m w) as [[a|e|] w']; simpl; try done. by destruct (h e).
Qed.

Lemma wp_mono {A} (m : M W E A) (Q Q' : outcome E A -> W -> Prop) w :
  (forall o w', Q o w' -> Q' o w') -> wp m Q w -> wp m Q' w.
Proof. unfold wp. auto. Qed.

(** ** Programs that never return *)
Class NoRet {A} (m : M W E A) : Prop := no_ret w a : fst (m w) <> Ret a.
#[global] Instance no_ret_raise {A} e : NoRet (raise (A:=A) e).
Proof. done. Qed.
#[global] Instance no_ret_bind {A B} (m : M W E A) (k : A -> M W E B) :
  (forall a, NoRet (k a)) -> NoRet (bind m k).
Proof.
  intros Hk w b. unfold bind. destruct (m w) as [[a|e|] w']; simpl; [apply Hk | done..].
Qed.

(** ** Facts about what a program returns, whatever the state *)
Class Rets {A} (m : M W E A) (P : A -> Prop) : Prop := rets_ok w a : fst (m w) = Ret a -> P a.
Lemma rets_ret {A} (a : A) (P : A -> Prop) : P a -> Rets (ret a) P.
Proof. by intros H w b [= <-]. Qed.
Lemma rets_no_ret {A} (m : M W E A) P : NoRet m -> Rets m P.
Proof. intros H w a Ha. by destruct (H w a). Qed.
Lemma rets_bind {A B} (m : M W E A) (k : A -> M W E B) P Q :
  Rets m P -> (forall a, P a -> Rets (k a) Q) -> Rets (bind m k) Q.
Proof.
  intros Hm Hk w b. unfold bind. specialize (Hm w).
  destruct (m w) as [[a|e|] w']; [|done..]. apply Hk. by apply Hm.
Qed.
Lemma rets_bind_any {A B} (m : M W E A) (k : A -> M W E B) Q :
  (forall a, Rets (k a) Q) -> Rets (bind m k) Q.
Proof. intros Hk. by apply (rets_bind m k (fun _ => True)); [|auto]. Qed.
Lemma rets_catch {A} (m : M W E A) h P :
  Rets m P -> (forall e r, h e = Some r -> Rets r P) -> Rets (catch m h) P.
Proof.
  intros Hm Hh w a. unfold catch. specialize (Hm w).
  destruct (m w) as [[b|e|] w']; simpl in *; [apply Hm | | done].
  destruct (h e) as [r|] eqn:He; [|done]. by eapply Hh.
Qed.
(** [if b: <raise>] returns only when [b] is false. *)
Lemma rets_when b (m : M W E unit) : NoRet m -> Rets (when b m) (fun _ => b = false).
Proof. intros Hm w a. destruct b; [|done]. intros H. by destruct (Hm w a). Qed.

(** ** Frames *)
Class Frame {A} (R : W -> W -> Prop) (m : M W E A) : Prop :=
  frame_ok w : R w (snd (m w)).

Section Frames.
Context (R : W -> W -> Prop) `{!PreOrder R}.

#[global] Instance frame_ret {A} (a : A) : Frame R (ret a).
Proof. intros w. simpl. reflexivity. Qed.
#[global] Instance frame_raise {A} e : Frame R (raise (A:=A) e).
Proof. intros w. simpl. reflexivity. Qed.
#[global] Instance frame_gets {A} (f : W -> A) : Frame R (gets f).
Proof. intros w. simpl. reflexivity. Qed.
#[global] Instance frame_bind {A B} (m : M W E A) (k : A -> M W E B) :
  Frame R m -> (forall a, Frame R (k a)) -> Frame R (bind m k).
Proof.
  intros Hm Hk w. unfold bind. specialize (Hm w).
  destruct (m w) as [[a|e|] w']; simpl in *; [|done..].
  etrans; [done | apply Hk].
Qed.
Lemma frame_modify f : (forall w, R w (f w)) -> Frame R (modify f).
Proof. intros H w. apply H. Qed.
Lemma frame_catch {A} (m : M W E A) h :
  Frame R m -> (forall e r, h e = Some r -> Frame R r) -> Frame R (catch m h).
Proof.
  intros Hm Hh w. unfold catch. specialize (Hm w).
  destruct (m w) as [[a|e|] w']; simpl in *; [done| |done].
  destruct (h e) as [r|] eqn:He; [|done]. etrans; [done | by apply (Hh e r)].
Qed.
#[global] Instance frame_when b (m : M W E unit) : Frame R m -> Frame R (when b m).
Proof. intros. destruct b; [done | apply frame_ret]. Qed.
#[global] Instance frame_if {A} (b : bool) (m1 m2 : M W E A) :
  Frame R m1 -> Frame R m2 -> Frame R (if b then m1 else m2).
Proof. by destruct b. Qed.
#[global] Instance frame_for_each {A} (l : list A) f :
  (forall a, Frame R (f a)) -> Frame R (for_each l f).
Proof. intros. induction l; simpl; apply _. Qed.
(** A framed program may be skipped over. *)
Lemma wp_frame {A} (m : M W E A) Q w :
  Frame R m -> (forall o w', R w w' -> Q o w') -> wp m Q w.
Proof. intros Hm HQ. apply HQ, Hm. Qed.
End Frames.
End Monad.

#[global] Typeclasses Opaque ret raise bind catch gets modify when for_each.

Notation "'let!' x ':=' m 'in' k" := (bind m (fun x => k))
  (at level 10, x pattern, m at level 100, k at level 200) : py_scope.
Notation "'do!' m 'in' k" := (bind m (fun _ => k))
  (at level 10, m at level 100, k at level 200) : py_scope.
