(* ===== verification/RiskTypes.v ===== *)
(** * Risk reports: the data shapes of [risk.py] *)
From S2P Require Import Prelude PyStr.
Open Scope string_scope.

Inductive RiskLevel := LOW | MEDIUM | HIGH | INVALID.
Inductive CheckStatus := OK | WARN | FAIL | SKIP.
#[export] Instance RiskLevel_eq_dec : EqDecision RiskLevel.
Proof. solve_decision. Defined.
#[export] Instance CheckStatus_eq_dec : EqDecision CheckStatus.
Proof. solve_decision. Defined.

(** The [StrEnum] values. *)
Definition level_value (l : RiskLevel) : string :=
  match l with LOW => "low" | MEDIUM => "medium" | HIGH => "high" | INVALID => "invalid" end.
Definition status_value (s : CheckStatus) : string :=
  match s with OK => "ok" | WARN => "warn" | FAIL => "fail" | SKIP => "skip" end.

Record RiskCheck := mkCheck {
  rc_name : string; rc_status : CheckStatus; rc_message : string; rc_severity : string }.

(** Values of the report's [summary] dict. *)
Inductive summary_value := SInt (z : Z) | SStr (s : string).

Record RiskReport := mkReport {
  rr_address : string; rr_level : RiskLevel; rr_checks : list RiskCheck;
  rr_summary : list (string * summary_value) }.

(** [RiskCheck(name, status, message)]: the severity defaults to "info". *)
Definition check (name : string) (st : CheckStatus) (msg : string) : RiskCheck :=
  mkCheck name st msg "info".

(** The names of the checks a predicate on the status selects. *)
Definition checks_where (p : CheckStatus -> bool) (l : list RiskCheck) : list string :=
  map rc_name (List.filter (fun c => p (rc_status c)) l).
Definition failed_checks (l : list RiskCheck) : list string :=
  checks_where (fun s => bool_decide (s = FAIL)) l.
