(* ===== verification/Exceptions.v ===== *)
(** * Exceptions and their HTTP responses

    [exceptions.py] (the [PayoutError] hierarchy), the exceptions of the other
    modules that reach the request path, and the handlers of [server.create_app]. *)
From S2P Require Import Prelude PyStr RiskTypes.
Open Scope string_scope.

(** The subclasses of [PayoutError], with their constructors' arguments. *)
Inductive payout_error :=
| InsufficientBalance (asset available required : string)
| InvalidAddress (address reason : string)
| TransactionFailed (reason : string)
| EnergyTooExpensive (estimated_energy : Z) (estimated_burn_trx max_burn_trx : string)
| WalletNotFoundError (name : string) (available : list string)
| WalletPoolEmptyError
| WalletAutoPickFailed (message : string)
| RiskTooHigh (level : string) (report : RiskReport).

Definition payout_message (p : payout_error) : string :=
  match p with
  | InsufficientBalance asset available required =>
      "Insufficient " +:+ asset +:+ ": have " +:+ available +:+ ", need " +:+ required
  | InvalidAddress address reason =>
      "Invalid address " +:+ str_take 8 address +:+ "...: " +:+ reason
  | TransactionFailed reason => "Transaction failed: " +:+ reason
  | EnergyTooExpensive _ burn max =>
      "Estimated energy burn (" +:+ burn +:+ " TRX) exceeds limit (" +:+ max +:+
      " TRX) — stake TRX or rent energy"
  | WalletNotFoundError name available =>
      "Wallet " +:+ py_repr name +:+ " not found. Available: " +:+
      str_or (join ", " available) "none"
  | WalletPoolEmptyError => "No wallets configured — the service cannot sign transactions"
  | WalletAutoPickFailed message => message
  | RiskTooHigh level report =>
      let failed := failed_checks (rr_checks report) in
      "Recipient risk " +:+ upper level +:+ " — refusing to broadcast. Failed: " +:+
      (match failed with [] => "no failed checks" | _ => join "; " failed end)
  end.

Definition payout_code (p : payout_error) : string :=
  match p with
  | InsufficientBalance _ _ _ => "INSUFFICIENT_BALANCE"
  | InvalidAddress _ _ => "INVALID_ADDRESS"
  | TransactionFailed _ => "TX_FAILED"
  | EnergyTooExpensive _ _ _ => "ENERGY_TOO_EXPENSIVE"
  | WalletNotFoundError _ _ => "WALLET_NOT_FOUND"
  | WalletPoolEmptyError => "WALLET_POOL_EMPTY"
  | WalletAutoPickFailed _ => "WALLET_AUTOPICK_FAILED"
  | RiskTooHigh _ _ => "RISK_TOO_HIGH"
  end.

(** The Python exceptions the modelled code raises, catches or lets through. *)
Inductive exn :=
| EPayout (p : payout_error)
| EIdempotencyConflict (key : string)
| EUnresolvedIdempotency (key : string) (created_at : time)
| EAuditWrite (msg : string)
| EPoolNotFound (name : string) (available : list string)
| EPoolEmpty
| EPoolAutoPickFailed (msg : string)
| EPoolError (msg : string)
| EValue (msg : string)
| EAssertion
| EOther (cls msg : string)      (** any other [Exception]: its class name and [str] *)
| EBase (cls : string).          (** a [BaseException] that is not an [Exception] *)

(** [except Exception] and [except PayoutError]. *)
Definition is_Exception (e : exn) : bool := match e with EBase _ => false | _ => true end.
Definition is_PayoutError (e : exn) : bool := match e with EPayout _ => true | _ => false end.

(** [str(exc)] (the text after UNKNOWN state, which quotes a float, is left out)
    and [type(exc).__name__]. *)
Definition exn_str (e : exn) : string :=
  match e with
  | EPayout p => payout_message p
  | EIdempotencyConflict k =>
      "Timed out waiting for in-flight request to complete for key " +:+ py_repr k
  | EUnresolvedIdempotency k _ => "Idempotency key " +:+ py_repr k +:+ " is in UNKNOWN state"
  | EAuditWrite m | EPoolAutoPickFailed m | EPoolError m | EValue m => m
  | EPoolNotFound n av =>
      "wallet " +:+ py_repr n +:+ " not in pool (available: " +:+
      str_or (join ", " av) "none" +:+ ")"
  | EPoolEmpty => "no wallets loaded — cannot resolve send request"
  | EAssertion => ""
  | EOther _ m => m
  | EBase _ => ""
  end.

Definition exn_class (e : exn) : string :=
  match e with
  | EPayout (InsufficientBalance _ _ _) => "InsufficientBalance"
  | EPayout (InvalidAddress _ _) => "InvalidAddress"
  | EPayout (TransactionFailed _) => "TransactionFailed"
  | EPayout (EnergyTooExpensive _ _ _) => "EnergyTooExpensive"
  | EPayout (WalletNotFoundError _ _) => "WalletNotFoundError"
  | EPayout WalletPoolEmptyError => "WalletPoolEmptyError"
  | EPayout (WalletAutoPickFailed _) | EPoolAutoPickFailed _ => "WalletAutoPickFailed"
  | EPayout (RiskTooHigh _ _) => "RiskTooHigh"
  | EIdempotencyConflict _ => "IdempotencyConflict"
  | EUnresolvedIdempotency _ _ => "UnresolvedIdempotency"
  | EAuditWrite _ => "AuditWriteError"
  | EPoolNotFound _ _ => "WalletNotFound"
  | EPoolEmpty => "WalletPoolEmpty"
  | EPoolError _ => "WalletPoolError"
  | EValue _ => "ValueError"
  | EAssertion => "AssertionError"
  | EOther c _ | EBase c => c
  end.

(** The status code and [code] field of the registered handlers; [None]: no
    handler is registered (the framework answers 500 without a code). *)
Definition http_of_exn (e : exn) : option (Z * string) :=
  match e with
  | EPayout p =>
      Some (match p with
            | InvalidAddress _ _ | InsufficientBalance _ _ _ | EnergyTooExpensive _ _ _
            | RiskTooHigh _ _ => 400%Z
            | TransactionFailed _ => 500%Z
            | WalletNotFoundError _ _ => 404%Z
            | WalletPoolEmptyError | WalletAutoPickFailed _ => 503%Z
            end, payout_code p)
  | EIdempotencyConflict _ => Some (409%Z, "IDEMPOTENCY_CONFLICT")
  | EUnresolvedIdempotency _ _ => Some (409%Z, "IDEMPOTENCY_UNRESOLVED")
  | EAuditWrite _ => Some (500%Z, "AUDIT_WRITE_FAILED")
  | _ => None
  end.
