(* ===== verification/Idempotency.v ===== *)
(** * Idempotency stores ([idempotency.py])

    Both implementations, the interface they promise to [/send]
    ([IdemStore], [IdemStoreLaws]), and the behaviour of concurrent callers of
    one store, proved against the interface. *)
From S2P Require Import Prelude PyStr Exceptions.
Open Scope string_scope.

(** [_PENDING] and [_RESERVE_WAIT_TIMEOUT] *)
Definition PENDING : string := "__PENDING__".
Definition RESERVE_WAIT_TIMEOUT : time := 60.

(** ** The contract: what a key can be *)
Inductive kstate := KPending | KCommitted (txid : string) | KUnknown (created_at : time).

(** The end of one pass through the loop of [reserve]. *)
Inductive pass (S : Type) :=
| Done (o : outcome exn (option string)) (s : S)   (** returned or raised *)
| Again (s : S)                                     (** [continue] *)
| Wait.                                             (** [self._cond.wait(...)] *)
Arguments Done {S} _ _.
Arguments Again {S} _.
Arguments Wait {S}.

(** [if not txid or txid == _PENDING: raise ValueError] *)
Definition bad_txid (txid : string) : bool := String.eqb txid "" || String.eqb txid PENDING.
Definition commit_error : exn := EValue "commit requires a non-empty real txid".

(** The operations.  A [fate] is given for each SQL statement and each SQL commit. *)
Class IdemStore (S : Type) := {
  st_abs : S -> gmap string kstate;
  st_open : S -> bool;
  st_pass : fate exn -> fate exn -> time -> string -> S -> pass S;
  st_commit : fate exn -> fate exn -> time -> string -> string -> S -> outcome exn unit * S;
  st_release : fate exn -> fate exn -> string -> S -> outcome exn unit * S;
  st_peek : string -> S -> outcome exn (option string);
  st_count : S -> outcome exn Z }.

(** What the operations promise when no statement fails. *)
Class IdemStoreLaws (S : Type) `{!IdemStore S} : Prop := {
  pass_law now key s : st_open s = true ->
    match st_abs s !! key with
    | None => exists s', st_pass Fine Fine now key s = Done (Ret None) s' /\
                st_abs s' = <[key := KPending]> (st_abs s) /\ st_open s' = true
    | Some KPending => st_pass Fine Fine now key s = Wait
    | Some (KCommitted txid) => st_pass Fine Fine now key s = Done (Ret (Some txid)) s
    | Some (KUnknown t) => st_pass Fine Fine now key s = Done (Raise (EUnresolvedIdempotency key t)) s
    end;
  commit_law now key txid s : st_open s = true -> is_Some (st_abs s !! key) -> bad_txid txid = false ->
    exists s', st_commit Fine Fine now key txid s = (Ret tt, s') /\
      st_abs s' = <[key := KCommitted txid]> (st_abs s) /\ st_open s' = true;
  commit_bad now key txid s : bad_txid txid = true ->
    st_commit Fine Fine now key txid s = (Raise commit_error, s);
  release_law key s : st_open s = true ->
    exists s', st_release Fine Fine key s = (Ret tt, s') /\ st_open s' = true /\
      st_abs s' = match st_abs s !! key with
                  | Some KPending => delete key (st_abs s)
                  | _ => st_abs s
                  end;
  peek_law key s : st_open s = true ->
    st_peek key s = Ret (match st_abs s !! key with Some (KCommitted t) => Some t | _ => None end);
  count_law s : st_open s = true -> st_count s = Ret (Z.of_nat (size (st_abs s))) }.

(** What a waiter sees when [wait] returns. *)
Inductive wake (S : Type) := Notified (s : S) | TimedOut.
Arguments Notified {S} _.
Arguments TimedOut {S}.

(** [reserve]: passes until one returns or raises; [None] when the fuel or the
    wake-ups run out, i.e. the caller is still blocked. *)
Fixpoint reserve {S : Type} `{!IdemStore S} (fuel : nat) (wakes : list (wake S)) (fx fc : fate exn)
    (now : time) (key : string) (s : S) : option (outcome exn (option string) * S) :=
  match fuel with
  | O => None
  | Datatypes.S fuel =>
      match st_pass fx fc now key s with
      | Done o s' => Some (o, s')
      | Again s' => reserve fuel wakes fx fc now key s'
      | Wait =>
          match wakes with
          | [] => None
          | TimedOut :: _ => Some (Raise (EIdempotencyConflict key), s)
          | Notified s' :: wakes => reserve fuel wakes fx fc now key s'
          end
      end
  end.

(** ** [IdempotencyStore]: a dict guarded by a condition variable *)
Module Memory.
Record store := mkStore { dict : gmap string string }.
Definition init : store := mkStore ∅.

Definition reserve_pass (key : string) (s : store) : pass store :=
  match dict s !! key with
  | None => Done (Ret None) (mkStore (<[key := PENDING]> (dict s)))
  | Some existing =>
      if negb (String.eqb existing PENDING) then Done (Ret (Some existing)) s else Wait
  end.

Definition commit (key txid : string) (s : store) : outcome exn unit * store :=
  if bad_txid txid then (Raise commit_error, s)
  else (Ret tt, mkStore (<[key := txid]> (dict s))).

Definition release (key : string) (s : store) : outcome exn unit * store :=
  (Ret tt, if bool_decide (dict s !! key = Some PENDING) then mkStore (delete key (dict s)) else s).

Definition peek (key : string) (s : store) : option string :=
  match dict s !! key with
  | None => None
  | Some v => if String.eqb v PENDING then None else Some v
  end.

Definition count (s : store) : Z := Z.of_nat (size (dict s)).

Definition kstate_of (v : string) : kstate :=
  if String.eqb v PENDING then KPending else KCommitted v.

#[global] Instance ops : IdemStore store := {
  st_abs s := kstate_of <$> dict s;
  st_open _ := true;
  st_pass _ _ _ := reserve_pass;
  st_commit _ _ _ := commit;
  st_release _ _ := release;
  st_peek key s := Ret (peek key s);
  st_count s := Ret (count s) }.
End Memory.

(** ** [SqliteIdempotencyStore]

    [disk]: the committed rows, what a restart finds.  [view]: the rows as the
    connection sees them, with the statements executed since its last commit. *)
Module Sqlite.
Inductive row_status := PENDING_ | COMMITTED | UNKNOWN.
#[global] Instance row_status_eq_dec : EqDecision row_status.
Proof. solve_decision. Defined.

Record row := mkRow {
  r_txid : string; r_status : row_status; r_process_id : string;
  r_created_at : time; r_updated_at : time }.

Record store := mkStore {
  process_id : string; conn : bool; view : gmap string row; disk : gmap string row }.

Definition set_view (v : gmap string row) (s : store) : store :=
  mkStore (process_id s) (conn s) v (disk s).

(** [self._conn.execute(<write>)]: it changes the view or raises. *)
Definition execute (f : fate exn) (upd : gmap string row -> gmap string row) (s : store)
    : outcome exn unit * store :=
  match f with
  | Fine => (Ret tt, set_view (upd (view s)) s)
  | Fails e => (Raise e, s)
  | Dies => (Crash, s)
  end.

(** [self._conn.commit()] *)
Definition db_commit (f : fate exn) (s : store) : outcome exn unit * store :=
  match f with
  | Fine => (Ret tt, mkStore (process_id s) (conn s) (view s) (view s))
  | Fails e => (Raise e, s)
  | Dies => (Crash, s)
  end.

(** A write statement followed by a commit. *)
Definition write (fx fc : fate exn) (upd : gmap string row -> gmap string row) (s : store)
    : outcome exn unit * store :=
  match execute fx upd s with
  | (Ret _, s') => db_commit fc s'
  | r => r
  end.

(** [UPDATE idempotency SET status='unknown' WHERE status='pending'] *)
Definition promote (now : time) (r : row) : row :=
  match r_status r with
  | PENDING_ => mkRow (r_txid r) UNKNOWN (r_process_id r) (r_created_at r) now
  | _ => r
  end.

(** [_recover_orphans]: the number of promoted rows. *)
Definition recover_orphans (fx fc : fate exn) (now : time) (s : store) : outcome exn Z * store :=
  let n := size (filter (fun kv => r_status kv.2 = PENDING_) (view s)) in
  match write fx fc (fun v => promote now <$> v) s with
  | (Ret _, s') => (Ret (Z.of_nat n), s')
  | (Raise e, s') => (Raise e, s')
  | (Crash, s') => (Crash, s')
  end.

(** [__init__] on a file whose committed rows are [d]: a new process. *)
Definition open_store (pid : string) (fx fc : fate exn) (now : time) (d : gmap string row)
    : outcome exn Z * store :=
  recover_orphans fx fc now (mkStore pid true d d).

(** [SELECT status, txid, created_at FROM idempotency WHERE key=?] *)
Definition fetch_row (key : string) (s : store) : option (row_status * string * time) :=
  (fun r => (r_status r, r_txid r, r_created_at r)) <$> view s !! key.

Definition integrity_error : exn := EOther "IntegrityError" "UNIQUE constraint failed: idempotency.key".

(** [INSERT INTO idempotency ... VALUES (key, '', 'pending', ...)]: the primary
    key refuses a second row. *)
Definition insert_pending (fx : fate exn) (now : time) (key : string) (s : store)
    : outcome exn unit * store :=
  match view s !! key with
  | Some _ => (Raise integrity_error, s)
  | None => execute fx (<[key := mkRow "" PENDING_ (process_id s) now now]>) s
  end.

Definition is_integrity_error (e : exn) : bool := String.eqb (exn_class e) "IntegrityError".

Definition reserve_pass (fx fc : fate exn) (now : time) (key : string) (s : store) : pass store :=
  if negb (conn s) then Done (Raise EAssertion) s else
  match fetch_row key s with
  | None =>
      match (match insert_pending fx now key s with
             | (Ret _, s') => db_commit fc s'
             | r => r
             end) with
      | (Ret _, s') => Done (Ret None) s'
      | (Raise e, s') => if is_integrity_error e then Again s' else Done (Raise e) s'
      | (Crash, s') => Done Crash s'
      end
  | Some (COMMITTED, txid, _) => Done (Ret (Some txid)) s
  | Some (UNKNOWN, _, created_at) => Done (Raise (EUnresolvedIdempotency key created_at)) s
  | Some (PENDING_, _, _) => Wait
  end.

Definition commit (fx fc : fate exn) (now : time) (key txid : string) (s : store)
    : outcome exn unit * store :=
  if bad_txid txid then (Raise commit_error, s)
  else if negb (conn s) then (Raise EAssertion, s)
  else write fx fc
         (alter (fun r => mkRow txid COMMITTED (r_process_id r) (r_created_at r) now) key) s.

(** [DELETE FROM idempotency WHERE key=? AND status='pending'] *)
Definition delete_pending (key : string) (v : gmap string row) : gmap string row :=
  match v !! key with
  | Some r => if bool_decide (r_status r = PENDING_) then delete key v else v
  | None => v
  end.

Definition release (fx fc : fate exn) (key : string) (s : store) : outcome exn unit * store :=
  if negb (conn s) then (Raise EAssertion, s) else write fx fc (delete_pending key) s.

Definition peek (key : string) (s : store) : outcome exn (option string) :=
  if negb (conn s) then Raise EAssertion else
  match fetch_row key s with
  | Some (COMMITTED, txid, _) => Ret (Some txid)
  | _ => Ret None
  end.

Definition count (s : store) : outcome exn Z :=
  if negb (conn s) then Raise EAssertion else Ret (Z.of_nat (size (view s))).

(** [close]: commit what is pending; errors are logged, then the handle is dropped. *)
Definition close (fc : fate exn) (s : store) : store :=
  if conn s then let s' := snd (db_commit fc s) in mkStore (process_id s') false (view s') (disk s')
  else s.

Definition kstate_of (r : row) : kstate :=
  match r_status r with
  | PENDING_ => KPending
  | COMMITTED => KCommitted (r_txid r)
  | UNKNOWN => KUnknown (r_created_at r)
  end.

#[global] Instance ops : IdemStore store := {
  st_abs s := kstate_of <$> view s;
  st_open := conn;
  st_pass := reserve_pass;
  st_commit := commit;
  st_release := release;
  st_peek := peek;
  st_count := count }.
End Sqlite.

(** [_build_store]: [opened] is what constructing the SQLite store did. *)
Definition build_store (db_path : string) (opened : outcome exn Z * Sqlite.store)
    : Memory.store + Sqlite.store :=
  if String.eqb db_path "" then inl Memory.init
  else match opened with
       | (Ret _, s) => inr s
       | _ => inl Memory.init
       end.

(** ** The laws *)

Lemma Memory_kstate_committed txid : bad_txid txid = false -> Memory.kstate_of txid = KCommitted txid.
Proof. unfold bad_txid, Memory.kstate_of. intros [_ ->]%orb_false_iff. done. Qed.

#[global] Instance Memory_laws : IdemStoreLaws Memory.store.
Proof.
  split; simpl.
  - intros _ key s _. unfold Memory.reserve_pass. rewrite lookup_fmap.
    destruct (Memory.dict s !! key) as [v|] eqn:E; simpl.
    + unfold Memory.kstate_of. by destruct (String.eqb v PENDING).
    + eexists; split_and!; [done| |done]. simpl. by rewrite fmap_insert.
  - intros _ key txid s _ _ Ht. unfold Memory.commit. rewrite Ht.
    eexists; split_and!; [done| |done]. simpl. by rewrite fmap_insert, Memory_kstate_committed.
  - intros _ key txid s Ht. unfold Memory.commit. by rewrite Ht.
  - intros key s _. eexists; split_and!; [done|done|]. rewrite lookup_fmap.
    case_bool_decide as H; [rewrite H; simpl; by rewrite fmap_delete|].
    destruct (Memory.dict s !! key) as [v|]; simpl; [|done]. unfold Memory.kstate_of.
    destruct (String.eqb_spec v PENDING) as [->|]; done.
  - intros key s _. f_equal. unfold Memory.peek. rewrite lookup_fmap.
    destruct (Memory.dict s !! key) as [v|]; simpl; [|done].
    unfold Memory.kstate_of. by destruct (String.eqb v PENDING).
  - intros s _. unfold Memory.count. by rewrite map_size_fmap.
Qed.

#[global] Instance Sqlite_laws : IdemStoreLaws Sqlite.store.
Proof.
  split; simpl.
  - intros now key s Ho. unfold Sqlite.reserve_pass, Sqlite.fetch_row, Sqlite.insert_pending.
    rewrite Ho, lookup_fmap. simpl. destruct (Sqlite.view s !! key) as [r|] eqn:E; simpl.
    + unfold Sqlite.kstate_of. by destruct (Sqlite.r_status r).
    + eexists; split_and!; [done| |done]. simpl. by rewrite fmap_insert.
  - intros now key txid s Ho Hk Ht. unfold Sqlite.commit. rewrite Ht, Ho. simpl.
    eexists; split_and!; [done| |done]. simpl. apply map_eq. intros k.
    rewrite lookup_fmap, lookup_alter. case_decide as Hkk; [subst k|].
    + rewrite lookup_insert_eq. rewrite lookup_fmap in Hk.
      destruct (Sqlite.view s !! key); simpl in *; [done | by destruct Hk].
    + by rewrite lookup_insert_ne, lookup_fmap.
  - intros now key txid s Ht. unfold Sqlite.commit. by rewrite Ht.
  - intros key s Ho. unfold Sqlite.release. rewrite Ho. simpl.
    eexists; split_and!; [done|done|]. simpl. unfold Sqlite.delete_pending. rewrite lookup_fmap.
    destruct (Sqlite.view s !! key) as [r|]; simpl; [|done]. unfold Sqlite.kstate_of.
    case_bool_decide as H; [rewrite H; by rewrite fmap_delete | by destruct (Sqlite.r_status r)].
  - intros key s Ho. unfold Sqlite.peek, Sqlite.fetch_row. rewrite Ho, lookup_fmap. simpl.
    destruct (Sqlite.view s !! key) as [r|]; simpl; [|done]. unfold Sqlite.kstate_of.
    by destruct (Sqlite.r_status r).
  - intros s Ho. unfold Sqlite.count. rewrite Ho. simpl. by rewrite map_size_fmap.
Qed.

(** ** Concurrent callers of one store

    Threads that reserve a key and then commit or release it, interleaved in any
    order.  The store is only touched under the condition variable's lock, so an
    interleaving is a sequence of whole passes, commits and releases. *)
Section Concurrent.
Context {S : Type} `{!IdemStore S, !IdemStoreLaws S}.

Inductive tstate :=
| Holding (key : string)                     (** [reserve] returned [None] *)
| Waiting (key : string)                     (** blocked in [wait] *)
| Finished (o : outcome exn (option string)). (** left, with what [reserve] gave *)

Record sys := mkSys { sy_store : S; sy_threads : gmap nat tstate }.

(** A thread is about to run a pass for [key]: it is new, or it was waiting. *)
Definition may_run (i : nat) (key : string) (y : sys) : Prop :=
  sy_threads y !! i = None \/ sy_threads y !! i = Some (Waiting key).

Inductive step : sys -> sys -> Prop :=
| step_acquire i key now y s' :
    may_run i key y -> st_pass Fine Fine now key (sy_store y) = Done (Ret None) s' ->
    step y (mkSys s' (<[i := Holding key]> (sy_threads y)))
| step_answer i key now y o s' :
    may_run i key y -> st_pass Fine Fine now key (sy_store y) = Done o s' -> o <> Ret None ->
    step y (mkSys s' (<[i := Finished o]> (sy_threads y)))
| step_wait i key now y :
    may_run i key y -> st_pass Fine Fine now key (sy_store y) = Wait ->
    step y (mkSys (sy_store y) (<[i := Waiting key]> (sy_threads y)))
| step_timeout i key y :
    sy_threads y !! i = Some (Waiting key) ->
    step y (mkSys (sy_store y)
      (<[i := Finished (Raise (EIdempotencyConflict key))]> (sy_threads y)))
| step_commit i key now txid y s' :
    sy_threads y !! i = Some (Holding key) -> bad_txid txid = false ->
    st_commit Fine Fine now key txid (sy_store y) = (Ret tt, s') ->
    step y (mkSys s' (<[i := Finished (Ret None)]> (sy_threads y)))
| step_release i key y s' :
    sy_threads y !! i = Some (Holding key) ->
    st_release Fine Fine key (sy_store y) = (Ret tt, s') ->
    step y (mkSys s' (<[i := Finished (Ret None)]> (sy_threads y))).

(** A key is pending exactly when one thread holds it. *)
Record sys_inv (y : sys) : Prop := {
  inv_open : st_open (sy_store y) = true;
  inv_held i key : sy_threads y !! i = Some (Holding key) ->
    st_abs (sy_store y) !! key = Some KPending;
  inv_holder key : st_abs (sy_store y) !! key = Some KPending ->
    exists i, sy_threads y !! i = Some (Holding key);
  inv_unique i j key : sy_threads y !! i = Some (Holding key) ->
    sy_threads y !! j = Some (Holding key) -> i = j }.

Lemma may_run_not_holding i key y key' :
  may_run i key y -> sy_threads y !! i <> Some (Holding key').
Proof. intros [->| ->]; done. Qed.

(** What a pass that returns does to an open store. *)
Lemma pass_cases now key s o s' : st_open s = true ->
  st_pass Fine Fine now key s = Done o s' ->
  (o = Ret None /\ st_abs s !! key = None /\ st_abs s' = <[key := KPending]> (st_abs s)
     /\ st_open s' = true) \/ (o <> Ret None /\ s' = s).
Proof.
  intros Ho Hp. pose proof (pass_law now key s Ho) as L.
  destruct (st_abs s !! key) as [[|t|t]|].
  - congruence.
  - rewrite L in Hp. simplify_eq. by right.
  - rewrite L in Hp. simplify_eq. by right.
  - destruct L as (s1 & L & Habs & Ho'). rewrite L in Hp. simplify_eq. by left.
Qed.

(** A step that gives thread [i], not holding anything, a new idle state. *)
Lemma inv_idle_step y i t :
  sys_inv y -> (forall k, sy_threads y !! i <> Some (Holding k)) -> (forall k, t <> Holding k) ->
  sys_inv (mkSys (sy_store y) (<[i := t]> (sy_threads y))).
Proof.
  intros [Ho Hh Hp Hu] Hi Ht. split; simpl; [done| | |].
  - intros j k Hj. destruct (decide (i = j)) as [<-|]; simplify_map_eq; [by destruct (Ht k)|eauto].
  - intros k Hk. destruct (Hp k Hk) as [j Hj]. exists j.
    destruct (decide (i = j)) as [<-|]; [by destruct (Hi k)|]. by simplify_map_eq.
  - intros j1 j2 k H1 H2.
    destruct (decide (i = j1)) as [<-|]; simplify_map_eq; [by destruct (Ht k)|].
    destruct (decide (i = j2)) as [<-|]; simplify_map_eq; [by destruct (Ht k)|]. eauto.
Qed.

(** A step in which the holder [i] of [key] lets go and the key stops pending. *)
Lemma inv_leave y i key s' m :
  sys_inv y -> sy_threads y !! i = Some (Holding key) -> st_open s' = true ->
  st_abs s' = m -> m !! key <> Some KPending ->
  (forall k, k <> key -> m !! k = st_abs (sy_store y) !! k) ->
  sys_inv (mkSys s' (<[i := Finished (Ret None)]> (sy_threads y))).
Proof.
  intros [Ho Hh Hp Hu] Hi Ho' Habs Hm Hk. split; simpl; [done| | |].
  - intros j k Hj. destruct (decide (i = j)) as [<-|]; simplify_map_eq.
    rewrite Hk; [eauto|]. intros ->. eapply n, Hu; eauto.
  - intros k Hk'. rewrite Habs in Hk'. destruct (decide (k = key)) as [->|Hne]; [done|].
    rewrite Hk in Hk' by done. destruct (Hp k Hk') as [j Hj]. exists j.
    destruct (decide (i = j)) as [<-|]; [congruence|]. by simplify_map_eq.
  - intros j1 j2 k H1 H2.
    destruct (decide (i = j1)) as [<-|]; simplify_map_eq.
    destruct (decide (i = j2)) as [<-|]; simplify_map_eq. eauto.
Qed.

Lemma inv_acquire y i key s' :
  sys_inv y -> (forall k, sy_threads y !! i <> Some (Holding k)) -> st_open s' = true ->
  st_abs (sy_store y) !! key = None -> st_abs s' = <[key := KPending]> (st_abs (sy_store y)) ->
  sys_inv (mkSys s' (<[i := Holding key]> (sy_threads y))).
Proof.
  intros [Ho Hh Hp Hu] Hi Ho' Hk Habs.
  assert (Hfree : forall j, sy_threads y !! j <> Some (Holding key)).
  { intros j Hj. apply Hh in Hj. congruence. }
  split; simpl; [done| | |].
  - intros j k Hj. rewrite Habs. destruct (decide (i = j)) as [<-|]; simplify_map_eq; [done|].
    rewrite lookup_insert_ne; [eauto|]. intros ->. by destruct (Hfree j).
  - intros k Hk'. rewrite Habs in Hk'. destruct (decide (key = k)) as [<-|].
    + exists i. by simplify_map_eq.
    + rewrite lookup_insert_ne in Hk' by done. destruct (Hp k Hk') as [j Hj]. exists j.
      destruct (decide (i = j)) as [<-|]; [by destruct (Hi k)|]. by simplify_map_eq.
  - intros j1 j2 k H1 H2.
    destruct (decide (i = j1)) as [<-|]; destruct (decide (i = j2)) as [<-|];
      simplify_map_eq; eauto; by destruct (Hfree j2) || destruct (Hfree j1).
Qed.

Lemma sys_inv_step y y' : sys_inv y -> step y y' -> sys_inv y'.
Proof.
  intros Hinv Hstep. pose proof (inv_open y Hinv) as Ho.
  destruct Hstep as [i key now y s' Hr Hp|i key now y o s' Hr Hp Hne|i key now y Hr Hp
                    |i key y Hi|i key now txid y s' Hi Ht Hc|i key y s' Hi Hc].
  - destruct (pass_cases _ _ _ _ _ Ho Hp) as [(_ & Hk & Habs & Ho')|[? _]]; [|done].
    eapply inv_acquire; eauto using may_run_not_holding.
  - destruct (pass_cases _ _ _ _ _ Ho Hp) as [(? & _)|[_ ->]]; [done|].
    apply inv_idle_step; [done| |done]. eauto using may_run_not_holding.
  - apply inv_idle_step; [done| |done]. eauto using may_run_not_holding.
  - apply inv_idle_step; [done| |done]. intros k. by rewrite Hi.
  - destruct (commit_law now key txid (sy_store y)) as (s1 & Hc' & Habs & Ho');
      [done | eexists; by eapply inv_held | done|].
    rewrite Hc' in Hc. simplify_eq. eapply inv_leave; eauto.
    + by rewrite lookup_insert_eq.
    + intros k Hk. by rewrite lookup_insert_ne.
  - destruct (release_law key (sy_store y)) as (s1 & Hc' & Ho' & Habs); [done|].
    rewrite (inv_held y Hinv i key Hi) in Habs. rewrite Hc' in Hc. simplify_eq.
    eapply inv_leave; eauto.
    + by rewrite lookup_delete_eq.
    + intros k Hk. by rewrite lookup_delete_ne.
Qed.

(** No step takes a committed key's answer away or changes it. *)
Lemma committed_step y y' key txid : sys_inv y -> step y y' ->
  st_abs (sy_store y) !! key = Some (KCommitted txid) ->
  st_abs (sy_store y') !! key = Some (KCommitted txid).
Proof.
  intros Hinv Hstep Hk. pose proof (inv_open y Hinv) as Ho.
  destruct Hstep as [i k now y s' Hr Hp|i k now y o s' Hr Hp Hne| |
                    |i k now t y s' Hi Ht Hc|i k y s' Hi Hc]; simpl; [| |done|done| |].
  - destruct (pass_cases _ _ _ _ _ Ho Hp) as [(_ & Hk' & Habs & _)|[? _]]; [|done].
    rewrite Habs, lookup_insert_ne; [done|congruence].
  - by destruct (pass_cases _ _ _ _ _ Ho Hp) as [(? & _)|[_ ->]].
  - pose proof (inv_held y Hinv i k Hi). destruct (commit_law now k t (sy_store y))
      as (s1 & Hc' & Habs & _); [done|eauto|done|].
    rewrite Hc' in Hc. simplify_eq. rewrite Habs, lookup_insert_ne; congruence.
  - pose proof (inv_held y Hinv i k Hi) as Hp. destruct (release_law k (sy_store y))
      as (s1 & Hc' & _ & Habs); [done|].
    rewrite Hc' in Hc. rewrite Hp in Habs. simplify_eq.
    rewrite Habs, lookup_delete_ne; congruence.
Qed.

Lemma sys_inv_star y y' : sys_inv y -> star step y y' -> sys_inv y'.
Proof. intros H Hs. revert H. induction Hs; eauto using sys_inv_step. Qed.

Lemma sys_inv_init s : st_open s = true ->
  (forall k, st_abs s !! k <> Some KPending) -> sys_inv (mkSys s ∅).
Proof. intros Ho Hp. split; simpl; [done|..]; intros *; [done | by intros ?%Hp | done]. Qed.
End Concurrent.
Arguments sys : clear implicits.

(** ** Two lawful stores are indistinguishable *)
Inductive op := OReserve (key : string) | OCommit (key txid : string) | ORelease (key : string)
  | OPeek (key : string) | OCount.
Inductive answer := AReserve (o : option (outcome exn (option string)))
  | AUnit (o : outcome exn unit) | APeek (o : outcome exn (option string)) | ACount (o : outcome exn Z).

(** One call, with no other caller: a wait times out. *)
Definition call {S : Type} `{!IdemStore S} (now : time) (o : op) (s : S) : answer * S :=
  match o with
  | OReserve key =>
      match reserve 2 [TimedOut] Fine Fine now key s with
      | Some (r, s') => (AReserve (Some r), s')
      | None => (AReserve None, s)
      end
  | OCommit key txid => let '(r, s') := st_commit Fine Fine now key txid s in (AUnit r, s')
  | ORelease key => let '(r, s') := st_release Fine Fine key s in (AUnit r, s')
  | OPeek key => (APeek (st_peek key s), s)
  | OCount => (ACount (st_count s), s)
  end.

Fixpoint calls {S : Type} `{!IdemStore S} (ops : list (time * op)) (s : S) : list answer * S :=
  match ops with
  | [] => ([], s)
  | (now, o) :: rest =>
      let '(a, s') := call now o s in let '(l, s'') := calls rest s' in (a :: l, s'')
  end.

(** The callers' discipline: a key is committed only after it was reserved. *)
Definition op_ok (o : op) (m : gmap string kstate) : Prop :=
  match o with OCommit key _ => is_Some (m !! key) | _ => True end.
Fixpoint disciplined {S : Type} `{!IdemStore S} (ops : list (time * op)) (s : S) : Prop :=
  match ops with
  | [] => True
  | (now, o) :: rest => op_ok o (st_abs s) /\ disciplined rest (snd (call now o s))
  end.

Section Equivalence.
Context {S1 S2 : Type} `{!IdemStore S1, !IdemStoreLaws S1, !IdemStore S2, !IdemStoreLaws S2}.

Definition same (s1 : S1) (s2 : S2) : Prop :=
  st_abs s1 = st_abs s2 /\ st_open s1 = true /\ st_open s2 = true.

Lemma call_same now o s1 s2 : same s1 s2 -> op_ok o (st_abs s1) ->
  fst (call now o s1) = fst (call now o s2) /\
  same (snd (call now o s1)) (snd (call now o s2)).
Proof.
  intros (Habs & H1 & H2) Hok. unfold same. destruct o as [key|key txid|key|key|]; simpl in *.
  - pose proof (pass_law now key s1 H1) as L1. pose proof (pass_law now key s2 H2) as L2.
    rewrite <- Habs in L2. destruct (st_abs s1 !! key) as [[|t|t]|];
      [by rewrite L1, L2; simpl | by rewrite L1, L2; simpl | by rewrite L1, L2; simpl |].
    destruct L1 as (s1' & -> & E1 & O1), L2 as (s2' & -> & E2 & O2). simpl.
    split; [done|]. by rewrite E1, E2, Habs.
  - destruct (bad_txid txid) eqn:Hb; [by rewrite !commit_bad by done; simpl|].
    destruct (commit_law now key txid s1) as (s1' & -> & E1 & O1); [done..|].
    destruct (commit_law now key txid s2) as (s2' & -> & E2 & O2); [done|by rewrite <- Habs|done|].
    simpl. by rewrite E1, E2, Habs.
  - destruct (release_law key s1 H1) as (s1' & -> & O1 & E1).
    destruct (release_law key s2 H2) as (s2' & -> & O2 & E2).
    simpl. rewrite E1, E2, Habs. done.
  - by rewrite !peek_law, Habs by done.
  - by rewrite !count_law, Habs by done.
Qed.

Lemma calls_same ops s1 s2 : same s1 s2 -> disciplined ops s1 ->
  fst (calls ops s1) = fst (calls ops s2).
Proof.
  revert s1 s2. induction ops as [|[now o] ops IH]; intros s1 s2 Hs Hd; simpl; [done|].
  destruct Hd as [Hok Hd]. destruct (call_same now o s1 s2 Hs Hok) as [Ha Hs'].
  destruct (call now o s1) as [a1 s1'], (call now o s2) as [a2 s2']. simpl in *. subst a2.
  specialize (IH s1' s2' Hs' Hd).
  destruct (calls ops s1'), (calls ops s2'). simpl in *. by subst.
Qed.
End Equivalence.

(** ** Properties *)

(** C6: over any interleaving of callers of one lawful store, a key never has
    two holders, and it is pending exactly while some caller holds it. *)
Theorem reserve_mutual_exclusion {S : Type} `{!IdemStore S, !IdemStoreLaws S} (s : S) (y : sys S) :
  st_open s = true -> (forall k, st_abs s !! k <> Some KPending) -> star step (mkSys s ∅) y ->
  (forall i j key, sy_threads y !! i = Some (Holding key) ->
     sy_threads y !! j = Some (Holding key) -> i = j) /\
  (forall key, st_abs (sy_store y) !! key = Some KPending <->
     exists i, sy_threads y !! i = Some (Holding key)).
Proof.
  intros Ho Hp Hs. pose proof (sys_inv_star _ _ (sys_inv_init s Ho Hp) Hs) as [_ Hh Hr Hu].
  split; [done|]. intros key. split; [apply Hr|]. intros [i Hi]. eauto.
Qed.

Definition sqlite0 : Sqlite.store := Sqlite.mkStore "pid" true ∅ ∅.

Lemma reserve_mutual_exclusion_witness : exists y,
  star step (mkSys sqlite0 ∅) y /\ st_abs (sy_store y) !! "k" = Some KPending /\
  exists i, sy_threads y !! i = Some (Holding "k").
Proof.
  set (y := mkSys
    (Sqlite.mkStore "pid" true {["k" := Sqlite.mkRow "" Sqlite.PENDING_ "pid" 1 1]}
       {["k" := Sqlite.mkRow "" Sqlite.PENDING_ "pid" 1 1]}) {[7%nat := Holding "k"]}).
  assert (Hs : star step (mkSys sqlite0 ∅) y).
  { apply star_one. apply (step_acquire 7%nat "k" 1 (mkSys sqlite0 ∅)); [by left | reflexivity]. }
  exists y. split; [exact Hs|]. split; [reflexivity|].
  apply (reserve_mutual_exclusion sqlite0 y); [reflexivity | intros k; done | exact Hs | reflexivity].
Defined.

(** C8: once a key is committed, every later [reserve] of it, after any steps of
    any callers, answers with the same txid. *)
Theorem committed_answer_stable {S : Type} `{!IdemStore S, !IdemStoreLaws S}
    (s : S) (y y' : sys S) (key txid : string) (now : time) :
  st_open s = true -> (forall k, st_abs s !! k <> Some KPending) -> star step (mkSys s ∅) y ->
  st_abs (sy_store y) !! key = Some (KCommitted txid) -> star step y y' ->
  reserve 1 [] Fine Fine now key (sy_store y') = Some (Ret (Some txid), sy_store y').
Proof.
  intros Ho Hp Hs Hk Hs'. pose proof (sys_inv_star _ _ (sys_inv_init s Ho Hp) Hs) as Hinv.
  assert (Hk' : st_abs (sy_store y') !! key = Some (KCommitted txid) /\ sys_inv y').
  { clear Hs. revert Hinv Hk. induction Hs' as [y|y1 y2 y3 H12 _ IH]; [done|].
    intros Hinv Hk. eauto using sys_inv_step, committed_step. }
  destruct Hk' as [Hk' [Ho' _ _ _]]. pose proof (pass_law now key _ Ho') as L.
  rewrite Hk' in L. simpl. by rewrite L.
Qed.

Definition committed_row : Sqlite.row := Sqlite.mkRow "tx1" Sqlite.COMMITTED "old" 0 0.
Definition sqlite1 : Sqlite.store :=
  Sqlite.mkStore "pid" true {["k" := committed_row]} {["k" := committed_row]}.

Lemma sqlite1_idle k : st_abs sqlite1 !! k <> Some KPending.
Proof.
  simpl. rewrite lookup_fmap. destruct (decide (k = "k")) as [->|Hne]; [done|].
  by rewrite lookup_singleton_ne.
Qed.

Lemma committed_answer_stable_witness :
  reserve 1 [] Fine Fine 5 "k" sqlite1 = Some (Ret (Some "tx1"), sqlite1).
Proof.
  apply (committed_answer_stable sqlite1 (mkSys sqlite1 ∅) (mkSys sqlite1 ∅) "k" "tx1" 5);
    [reflexivity | exact sqlite1_idle | constructor | reflexivity | constructor].
Defined.

(** C40: "two implementations with identical semantics": from stores that agree,
    any sequence of calls that commits only reserved keys gets the same answers
    from the in-memory and from the SQLite store. *)
Theorem stores_equivalent (ops : list (time * op)) (s1 : Memory.store) (s2 : Sqlite.store) :
  st_abs s1 = st_abs s2 -> st_open s2 = true -> disciplined ops s1 ->
  fst (calls ops s1) = fst (calls ops s2).
Proof. intros Habs Ho Hd. by apply calls_same. Qed.

Lemma stores_equivalent_witness :
  fst (calls [(1%Q, OReserve "a"); (2%Q, OCommit "a" "tx"); (3%Q, OReserve "a"); (4%Q, OCount)] Memory.init)
  = fst (calls [(1%Q, OReserve "a"); (2%Q, OCommit "a" "tx"); (3%Q, OReserve "a"); (4%Q, OCount)] sqlite0)
  /\ fst (calls [(1%Q, OReserve "a"); (2%Q, OCommit "a" "tx"); (3%Q, OReserve "a"); (4%Q, OCount)] sqlite0)
     = [AReserve (Some (Ret None)); AUnit (Ret tt); AReserve (Some (Ret (Some "tx"))); ACount (Ret 1%Z)].
Proof.
  split; [|reflexivity].
  apply stores_equivalent; [reflexivity | reflexivity | repeat split; by eexists].
Defined.

(** Without that discipline the two differ: committing a key nobody reserved
    is remembered by the in-memory store and is lost by the SQLite store. *)
Theorem commit_unreserved_differs (now : time) (key txid : string) (s1 : Memory.store) (s2 : Sqlite.store) :
  bad_txid txid = false -> Sqlite.conn s2 = true -> Sqlite.view s2 !! key = None ->
  Memory.peek key (snd (Memory.commit key txid s1)) = Some txid /\
  fst (Sqlite.commit Fine Fine now key txid s2) = Ret tt /\
  Sqlite.peek key (snd (Sqlite.commit Fine Fine now key txid s2)) = Ret None.
Proof.
  intros Ht Ho Hk. unfold Memory.commit, Sqlite.commit, Sqlite.peek, Memory.peek, Sqlite.fetch_row.
  destruct s2 as [pid c v d]. simpl in *. subst c. rewrite Ht. simpl.
  rewrite lookup_insert_eq, lookup_alter, decide_True, Hk by done. unfold bad_txid in Ht.
  apply orb_false_iff in Ht as [_ ->]. done.
Qed.

Lemma commit_unreserved_differs_witness :
  Memory.peek "k" (snd (Memory.commit "k" "tx" Memory.init)) = Some "tx" /\
  Sqlite.peek "k" (snd (Sqlite.commit Fine Fine 0 "k" "tx" sqlite0)) = Ret None.
Proof.
  destruct (commit_unreserved_differs 0 "k" "tx" Memory.init sqlite0) as (? & _ & ?);
    [reflexivity..|]. split; assumption.
Defined.

(** C7: after a crash, a new process finds every key that was pending on disk
    unresolved, so reserving it raises instead of broadcasting again; committed
    keys keep their txid and free keys are free. *)
Theorem recovery_refuses_orphans (pid key : string) (now now' : time) (d : gmap string Sqlite.row) :
  exists s, Sqlite.open_store pid Fine Fine now d = (Ret (Z.of_nat (size (filter
      (fun kv => Sqlite.r_status kv.2 = Sqlite.PENDING_) d))), s) /\
  reserve 1 [] Fine Fine now' key s = match d !! key with
    | Some r => Some (match Sqlite.r_status r with
                      | Sqlite.COMMITTED => Ret (Some (Sqlite.r_txid r))
                      | _ => Raise (EUnresolvedIdempotency key (Sqlite.r_created_at r))
                      end, s)
    | None => Some (Ret None, snd (Sqlite.write Fine Fine
                (<[key := Sqlite.mkRow "" Sqlite.PENDING_ pid now' now']>) s))
    end.
Proof.
  eexists. split; [reflexivity|]. simpl. unfold Sqlite.reserve_pass, Sqlite.fetch_row, Sqlite.insert_pending.
  simpl. rewrite !lookup_fmap. destruct (d !! key) as [[t st p c u]|]; simpl; [|done].
  by destruct st.
Qed.
