(* ===== verification/Config.v ===== *)
(** * Configuration ([config.py])

    The environment-derived constants the modelled code reads, how they are
    parsed, and [validate_config]. *)
From S2P Require Import Prelude PyStr Decimal.
Open Scope string_scope.

(** [os.getenv(...).strip().lower() in ("1", "true", "yes", "on")] *)
Definition parse_flag (raw : string) : bool :=
  bool_decide (lower (strip raw) ∈ ["1"; "true"; "yes"; "on"]).

(** [tuple(x.strip() for x in raw.split(",") if x.strip())] *)
Definition parse_csv (raw : string) : list string :=
  List.filter (fun x => negb (String.eqb x "")) (map strip (split_on "," raw)).

(** [try: Decimal(raw) except InvalidOperation: default] *)
Definition decimal_or (raw : string) (default : Dec) : Dec :=
  match dec_of_string raw with Some d => d | None => default end.

(** [ALERT_SEND_THRESHOLD_USDT]: unset, malformed and non-positive all disable it. *)
Definition parse_alert_threshold (env : string) : option Dec :=
  let raw := strip env in
  if String.eqb raw "" then None
  else match dec_of_string raw with
       | Some d => if dec_leb d (dec_of_Z 0) then None else Some d
       | None => None
       end.

Record Config := mkConfig {
  KEY_PROVIDER : string; WALLETS : string; PRIVATE_KEY_FILE : string; KEYSTORE_FILE : string;
  AUTH_TOKEN : string; TRON_NETWORK : string; USDT_CONTRACT : string;
  USDT_FEE_LIMIT_SUN : Z; MIN_TRX_RESERVE : Dec; TRON_HTTP_TIMEOUT : Z;
  TRON_ENERGY_PRICE_SUN_FALLBACK : Z; MAX_ENERGY_BURN_TRX : Dec; FEE_LIMIT_SAFETY_MULT : Dec;
  RISK_BLOCK_LEVEL : string; RISK_USE_EXTERNAL : bool; MISTTRACK_API_KEY : string;
  AUDIT_LOG_FILE : string; SHUTDOWN_TIMEOUT : Z; RATE_LIMIT_MAX : Z;
  TRUSTED_PROXIES : list string }.

Definition USDT_DECIMALS : nat := 6.

(** [Decimal(USDT_FEE_LIMIT_SUN) / Decimal(1_000_000)] *)
Definition fee_limit_trx (c : Config) : Dec := dec_div_pow10 (dec_of_Z (USDT_FEE_LIMIT_SUN c)) 6.

Definition error_if (b : bool) (msg : string) : list string := if b then [msg] else [].
Definition not_in (s : string) (l : list string) : bool := negb (bool_decide (s ∈ l)).

(** [validate_config]: the error messages; the process exits unless there are none. *)
Definition validate_config (c : Config) : list string :=
  error_if (String.eqb (AUTH_TOKEN c) "") "AUTH_TOKEN is not set" ++
  error_if (not_in (KEY_PROVIDER c) ["1password"; "env"; "file"; "keychain"; "encrypted_file"])
    ("KEY_PROVIDER must be one of 1password/env/file/keychain/encrypted_file, got: " +:+ KEY_PROVIDER c) ++
  error_if (String.eqb (KEY_PROVIDER c) "file" && String.eqb (WALLETS c) ""
            && String.eqb (PRIVATE_KEY_FILE c) "")
    "KEY_PROVIDER=file requires PRIVATE_KEY_FILE (or WALLETS=...)" ++
  error_if (String.eqb (KEY_PROVIDER c) "encrypted_file" && String.eqb (KEYSTORE_FILE c) "")
    "KEY_PROVIDER=encrypted_file requires KEYSTORE_FILE" ++
  error_if (not_in (RISK_BLOCK_LEVEL c) ["high"; "medium"; "none"])
    ("RISK_BLOCK_LEVEL must be high/medium/none, got: " +:+ RISK_BLOCK_LEVEL c) ++
  error_if (not_in (TRON_NETWORK c) ["mainnet"; "shasta"; "nile"])
    ("TRON_NETWORK must be mainnet/shasta/nile, got: " +:+ TRON_NETWORK c) ++
  error_if (negb (startswith "T" (USDT_CONTRACT c))
            || negb (String.length (USDT_CONTRACT c) =? 34)%nat)
    ("USDT_CONTRACT is invalid: " +:+ USDT_CONTRACT c) ++
  error_if (SHUTDOWN_TIMEOUT c <? 60)%Z
    ("SHUTDOWN_TIMEOUT too low: " +:+ str_of_Z (SHUTDOWN_TIMEOUT c) +:+ "s (min 60)") ++
  error_if (RATE_LIMIT_MAX c <? 1)%Z
    ("RATE_LIMIT_MAX must be >= 1, got: " +:+ str_of_Z (RATE_LIMIT_MAX c)) ++
  error_if (dec_ltb (MIN_TRX_RESERVE c) (fee_limit_trx c))
    ("MIN_TRX_RESERVE (" +:+ dec_to_string (MIN_TRX_RESERVE c) +:+
     ") must be >= USDT_FEE_LIMIT_SUN/1_000_000 (" +:+ dec_to_string (fee_limit_trx c) +:+ ")") ++
  error_if (TRON_HTTP_TIMEOUT c <? 1)%Z
    ("TRON_HTTP_TIMEOUT must be >= 1, got: " +:+ str_of_Z (TRON_HTTP_TIMEOUT c)) ++
  error_if (TRON_ENERGY_PRICE_SUN_FALLBACK c <? 1)%Z
    ("TRON_ENERGY_PRICE_SUN_FALLBACK must be >= 1, got: " +:+ str_of_Z (TRON_ENERGY_PRICE_SUN_FALLBACK c)) ++
  error_if (dec_ltb (MAX_ENERGY_BURN_TRX c) (dec_of_Z 0))
    ("MAX_ENERGY_BURN_TRX must be >= 0, got: " +:+ dec_to_string (MAX_ENERGY_BURN_TRX c)) ++
  error_if (dec_ltb (FEE_LIMIT_SAFETY_MULT c) (dec_of_Z 1))
    ("FEE_LIMIT_SAFETY_MULT must be >= 1.0, got: " +:+ dec_to_string (FEE_LIMIT_SAFETY_MULT c)).

(** ** What validation guarantees *)

Lemma error_if_nil b m : error_if b m = [] -> b = false.
Proof. by destruct b. Qed.

Lemma not_in_false s l : not_in s l = false -> s ∈ l.
Proof. unfold not_in. intros H. apply negb_false_iff in H. by apply bool_decide_eq_true_1 in H. Qed.

Record config_valid (c : Config) : Prop := {
  cv_auth : AUTH_TOKEN c <> "";
  cv_risk : RISK_BLOCK_LEVEL c ∈ ["high"; "medium"; "none"];
  cv_network : TRON_NETWORK c ∈ ["mainnet"; "shasta"; "nile"];
  cv_reserve : dec_leb (fee_limit_trx c) (MIN_TRX_RESERVE c) = true;
  cv_fallback : (1 <= TRON_ENERGY_PRICE_SUN_FALLBACK c)%Z;
  cv_burn : dec_leb (dec_of_Z 0) (MAX_ENERGY_BURN_TRX c) = true;
  cv_mult : dec_leb (dec_of_Z 1) (FEE_LIMIT_SAFETY_MULT c) = true;
  cv_rate : (1 <= RATE_LIMIT_MAX c)%Z;
  cv_shutdown : (60 <= SHUTDOWN_TIMEOUT c)%Z }.

Lemma validate_config_sound c : validate_config c = [] -> config_valid c.
Proof.
  unfold validate_config. intros H.
  repeat match goal with
  | H : app _ _ = [] |- _ => apply app_nil in H as [? H]
  end.
  repeat match goal with H : error_if _ _ = [] |- _ => apply error_if_nil in H end.
  repeat match goal with
  | H : dec_ltb _ _ = false |- _ => rewrite dec_ltb_nleb in H; apply negb_false_iff in H
  | H : not_in _ _ = false |- _ => apply not_in_false in H
  | H : (_ <? _)%Z = false |- _ => apply Z.ltb_ge in H
  end.
  split; try done. intros E. rewrite E in *. done.
Qed.

(** The defaults of [config.py], with a token, the env provider and an audit file set, and
    external reputation checks off. *)
Definition default_config : Config := {|
  KEY_PROVIDER := "env"; WALLETS := ""; PRIVATE_KEY_FILE := ""; KEYSTORE_FILE := "";
  AUTH_TOKEN := "secret"; TRON_NETWORK := "mainnet";
  USDT_CONTRACT := "TR7NHqjeKQxGTCi8q8ZY4pL8otSzgjLj6t"; USDT_FEE_LIMIT_SUN := 30000000%Z;
  MIN_TRX_RESERVE := mkDec 50%Z 0%Z; TRON_HTTP_TIMEOUT := 15%Z; TRON_ENERGY_PRICE_SUN_FALLBACK := 420%Z;
  MAX_ENERGY_BURN_TRX := mkDec 20%Z 0%Z; FEE_LIMIT_SAFETY_MULT := mkDec 13%Z (-1)%Z;
  RISK_BLOCK_LEVEL := "high"; RISK_USE_EXTERNAL := false; MISTTRACK_API_KEY := "";
  AUDIT_LOG_FILE := "/audit.log"; SHUTDOWN_TIMEOUT := 600%Z; RATE_LIMIT_MAX := 30%Z;
  TRUSTED_PROXIES := [] |}.

Example default_config_valid : validate_config default_config = [].
Proof. vm_compute. reflexivity. Qed.
