(* ===== verification/Delivery.v ===== *)
(** * Delivery state tables

    The row shape and the store operations that [webhooks.WebhookDeliveryStore]
    and [alerts.AlertDeliveryStore] have in common; [P] is the part that differs
    (URL and payload, or chat id and message).  Rows are in insertion order, which
    is the order of their ids. *)
From S2P Require Import Prelude PyStr.
Open Scope Z_scope.

Inductive dstatus := Pending | Delivered | Failed | GivingUp.
#[export] Instance dstatus_eq_dec : EqDecision dstatus.
Proof. solve_decision. Defined.

Section Delivery.
Context {P : Type}.

Record delivery := mkDelivery {
  d_id : Z; d_audit_event_id : string; d_event : string; d_what : P;
  d_status : dstatus; d_attempts : Z; d_next_attempt_at : time;
  d_last_response_at : option time; d_last_response_code : option Z;
  d_last_error : option string; d_created_at : time }.

Record store := mkStore { rows : list delivery; next_id : Z }.
Definition empty : store := mkStore [] 1.

Definition enqueue (now : time) (audit_event_id event : string) (what : P) (s : store)
    : Z * store :=
  (next_id s,
   mkStore (rows s ++ [mkDelivery (next_id s) audit_event_id event what Pending 0 now
                         None None None now]) (next_id s + 1)).

Definition is_due (now : time) (d : delivery) : bool :=
  bool_decide (d_status d = Pending) && Qle_bool (d_next_attempt_at d) now.

Definition take_due (now : time) (limit : nat) (s : store) : list delivery :=
  firstn limit (sort_by (fun a b => Qle_bool (d_next_attempt_at a) (d_next_attempt_at b))
                  (List.filter (is_due now) (rows s))).

(** What [update_outcome] writes. *)
Record outcome_row := mkOutcome {
  o_status : dstatus; o_attempts : Z; o_next_attempt_at : time;
  o_last_response_at : option time; o_last_response_code : option Z; o_last_error : option string }.

Definition apply_outcome (o : outcome_row) (d : delivery) : delivery :=
  mkDelivery (d_id d) (d_audit_event_id d) (d_event d) (d_what d) (o_status o) (o_attempts o)
    (o_next_attempt_at o) (o_last_response_at o) (o_last_response_code o) (o_last_error o)
    (d_created_at d).

Definition update_outcome (id : Z) (o : outcome_row) (s : store) : store :=
  mkStore (map (fun d => if d_id d =? id then apply_outcome o d else d) (rows s)) (next_id s).

Definition list_recent (limit : nat) (s : store) : list delivery :=
  firstn limit (sort_by (fun a b => Qle_bool (d_created_at b) (d_created_at a)) (rows s)).

Definition get (id : Z) (s : store) : option delivery :=
  List.find (fun d => d_id d =? id) (rows s).

Definition force_retry (now : time) (id : Z) (s : store) : bool * store :=
  match get id s with
  | None => (false, s)
  | Some rec =>
      if bool_decide (d_status rec = GivingUp) || bool_decide (d_status rec = Failed) then
        (true, update_outcome id (mkOutcome Pending (d_attempts rec) now
                 (d_last_response_at rec) (d_last_response_code rec) (d_last_error rec)) s)
      else (false, s)
  end.

(** Ids are distinct and below the next one. *)
Definition store_wf (s : store) : Prop :=
  List.NoDup (map d_id (rows s)) /\ Forall (fun d => d_id d < next_id s) (rows s).

Lemma update_ids id o s : map d_id (rows (update_outcome id o s)) = map d_id (rows s).
Proof. simpl. rewrite map_map. apply map_ext. intros d. by destruct (d_id d =? id). Qed.

Lemma enqueue_wf now a e w s : store_wf s -> store_wf (snd (enqueue now a e w s)).
Proof.
  intros [Hn Hb]. split; simpl.
  - rewrite map_app. simpl. apply (Permutation_NoDup (l := next_id s :: map d_id (rows s)));
      [apply Permutation_cons_append|]. constructor; [|done].
    intros (d & Hd & Hin)%in_map_iff. rewrite Forall_forall in Hb.
    apply list_elem_of_In in Hin. specialize (Hb d Hin). simpl in Hb. lia.
  - apply Forall_app; split; [|repeat constructor; simpl; lia].
    eapply Forall_impl; [exact Hb|]. simpl. lia.
Qed.

Lemma update_wf id o s : store_wf s -> store_wf (update_outcome id o s).
Proof.
  intros [Hn Hb]. split; [by rewrite update_ids|]. simpl.
  rewrite Forall_forall in *. intros d Hd. apply list_elem_of_In, in_map_iff in Hd as (d' & <- & Hd').
  apply list_elem_of_In in Hd'. specialize (Hb d' Hd'). simpl in Hb. by destruct (d_id d' =? id).
Qed.

Lemma force_retry_wf now id s : store_wf s -> store_wf (snd (force_retry now id s)).
Proof.
  intros H. unfold force_retry. destruct (get id s); [|done].
  destruct (_ || _); [by apply update_wf | done].
Qed.

Lemma get_update id id' o s :
  get id' (update_outcome id o s) =
  if id' =? id then apply_outcome o <$> get id' s else get id' s.
Proof.
  unfold get. simpl. induction (rows s) as [|d l IH]; simpl; [by destruct (id' =? id)|].
  destruct (Z.eqb_spec (d_id d) id) as [E|E]; simpl;
  destruct (Z.eqb_spec (d_id d) id') as [E'|E'], (Z.eqb_spec id' id); simplify_eq; try done.
Qed.

(** [take_due] gives due rows only, oldest first, at most [limit] of them. *)
Lemma take_due_sound now limit s d : In d (take_due now limit s) ->
  In d (rows s) /\ d_status d = Pending /\ (d_next_attempt_at d <= now)%Q.
Proof.
  unfold take_due. intros H.
  assert (In d (sort_by (fun a b => Qle_bool (d_next_attempt_at a) (d_next_attempt_at b))
    (List.filter (is_due now) (rows s)))) as H'.
  { rewrite <- (firstn_skipn limit). apply in_or_app. by left. }
  apply sort_by_elem, List.filter_In in H' as [Hin Hdue].
  unfold is_due in Hdue. bcases. by qcases.
Qed.

Lemma StronglySorted_firstn {A} (R : A -> A -> Prop) n l :
  StronglySorted R l -> StronglySorted R (firstn n l).
Proof.
  revert n. induction l as [|x l IH]; intros n H; [by destruct n|].
  destruct n; simpl; [constructor|]. inversion H as [|? ? Hs Hf]; subst.
  constructor; [by apply IH|]. rewrite List.Forall_forall in *. intros y Hy. apply Hf.
  rewrite <- (firstn_skipn n l). apply in_or_app. by left.
Qed.

Lemma take_due_sorted now limit s :
  StronglySorted (fun a b => Qle_bool (d_next_attempt_at a) (d_next_attempt_at b) = true)
    (take_due now limit s).
Proof.
  apply StronglySorted_firstn, sort_by_sorted.
  - intros x y H. apply Qle_bool_nle in H. apply Qle_bool_iff. lra.
  - intros x y z H1 H2. apply Qle_bool_iff in H1, H2. apply Qle_bool_iff. lra.
Qed.

Lemma take_due_length now limit s : (List.length (take_due now limit s) <= limit)%nat.
Proof. apply firstn_le_length. Qed.

(** When the limit is not reached no due row is left out. *)
Lemma take_due_complete now limit s d :
  (List.length (rows s) <= limit)%nat -> In d (rows s) -> is_due now d = true ->
  In d (take_due now limit s).
Proof.
  intros Hl Hin Hd. unfold take_due. rewrite firstn_all2.
  - apply sort_by_elem. by apply List.filter_In.
  - rewrite sort_by_length. etrans; [apply List.filter_length_le | done].
Qed.
End Delivery.
Arguments delivery : clear implicits.
Arguments store : clear implicits.
