(* ===== verification/AuditEntry.v ===== *)
(** * The audit entry: the dict [audit.record] builds and hands to its consumers *)
From S2P Require Import Prelude PyStr.
Open Scope string_scope.

Record entry := mkEntry {
  a_id : string; a_timestamp : string; a_event : string; a_wallet : string;
  a_from_address : string; a_to_address : string; a_amount : string; a_asset : string;
  a_txid : string; a_idempotency_key : string; a_client_ip : string; a_token_id : string;
  a_result : string;
  a_details : string   (** the empty string: the key is absent *) }.
#[export] Instance entry_eq_dec : EqDecision entry.
Proof. solve_decision. Defined.

(** A SEND_REJECTED whose details mention the sanctions check
    ([alerts._is_sanctions_hit]). *)
Definition is_sanctions_hit (e : entry) : bool :=
  if negb (String.eqb (a_event e) "SEND_REJECTED") then false
  else contains "sanctions" (lower (a_details e)).
