(* ===== verification/Alerts.v ===== *)
(** * Operator alerts ([alerts.py]): rules, quiet hours, messages, enqueueing *)
From S2P Require Import Prelude PyStr Decimal AuditEntry Delivery.
Open Scope string_scope.

Definition meets_threshold (e : entry) (threshold : option Dec) : bool :=
  match threshold with
  | None => false
  | Some t =>
      if negb (String.eqb (a_event e) "SEND_SUCCESS") then false
      else match dec_of_string (str_or (a_amount e) "0") with
           | Some d => dec_leb t d
           | None => false
           end
  end.

Definition in_quiet_hours (spec : string) (now_utc_hour : Z) : bool :=
  if String.eqb spec "" || negb (contains "-" spec) then false else
  match split_once "-" spec with
  | None => false
  | Some (start_s, end_s) =>
      match int_of_str start_s, int_of_str end_s with
      | Some start, Some end_ =>
          (if negb ((0 <=? start) && (start <=? 23) && ((0 <=? end_) && (end_ <=? 23))) then false
           else if start =? end_ then false
           else if start <? end_ then (start <=? now_utc_hour) && (now_utc_hour <? end_)
           else (start <=? now_utc_hour) || (now_utc_hour <? end_))%Z
      | _, _ => false
      end
  end.

Definition bypasses_quiet_hours (e : entry) : bool :=
  if String.eqb (a_event e) "SEND_FAILED" then true
  else if is_sanctions_hit e then true else false.

(** [_short(value, max_len=200)] *)
Definition short (value : string) : string :=
  let s := strip value in
  if (String.length s <=? 200)%nat then s else str_take 199 s +:+ "…".

(** [_esc] *)
Definition esc (s : string) : string :=
  replace_char ">" "&gt;" (replace_char "<" "&lt;" (replace_char "&" "&amp;" s)).

(** [if entry.get(k): lines.append(...)] *)
Definition line_if (v : string) (l : string) : list string :=
  if String.eqb v "" then [] else [l].

Definition NL : string := one "010".

(** The prefix and title of a message. *)
Definition headline (e : entry) (threshold : option Dec) : string * string :=
  let event := str_or (a_event e) "?" in
  if is_sanctions_hit e then ("🚨", "OFAC SANCTIONS REJECT")
  else if String.eqb event "SEND_FAILED" then ("❌", "SEND FAILED")
  else if String.eqb event "SEND_REJECTED" then ("⛔", "SEND REJECTED")
  else if String.eqb event "WEBHOOK_GIVEUP" then ("⚠️", "WEBHOOK GIVEUP")
  else if meets_threshold e threshold then
    ("💰", "HIGH-VALUE SEND ≥ " +:+
       match threshold with Some t => dec_to_string t | None => "None" end +:+ " USDT")
  else ("ℹ️", event).

(** [now_iso]: the clock, read when the entry has no timestamp. *)
Definition format_message (now_iso : string) (e : entry) (threshold : option Dec) : string :=
  let '(prefix, title) := headline e threshold in
  let ts := str_or (a_timestamp e) now_iso in
  join NL (
    [prefix +:+ " <b>" +:+ esc title +:+ "</b>"; ""] ++
    line_if (a_wallet e) ("Wallet: <code>" +:+ esc (a_wallet e) +:+ "</code>") ++
    line_if (a_from_address e) ("From:   <code>" +:+ esc (a_from_address e) +:+ "</code>") ++
    line_if (a_to_address e) ("To:     <code>" +:+ esc (a_to_address e) +:+ "</code>") ++
    line_if (a_amount e) ("Amount: <b>" +:+ esc (a_amount e) +:+ " " +:+
                          esc (str_or (a_asset e) "USDT") +:+ "</b>") ++
    line_if (a_txid e) ("Txid:   <code>" +:+ esc (a_txid e) +:+ "</code>") ++
    line_if (a_idempotency_key e) ("Key:    <code>" +:+ esc (a_idempotency_key e) +:+ "</code>") ++
    line_if (a_token_id e) ("Token:  <code>" +:+ esc (a_token_id e) +:+ "</code>") ++
    line_if (a_result e) ("Result: <code>" +:+ esc (a_result e) +:+ "</code>") ++
    line_if (a_details e) ("Details: " +:+ esc (short (a_details e))) ++
    [""; "<i>" +:+ esc ts +:+ "</i>"])%list.

(** The module's globals.  [al_store] is [None] when alerts are off. *)
Record state := mkState {
  al_store : option (store (string * string));   (** rows carry (chat_id, message) *)
  al_chat_id : string; al_bot_token : string; al_event_filter : list string;
  al_threshold : option Dec; al_sanctions_notify : bool; al_quiet_spec : string }.

Definition set_store (s : option (store (string * string))) (a : state) : state :=
  mkState s (al_chat_id a) (al_bot_token a) (al_event_filter a) (al_threshold a)
    (al_sanctions_notify a) (al_quiet_spec a).

(** [init_alerts]: the old store is dropped; without a token or a chat the
    feature is off (the other globals keep their values); [disk]: the rows of the database. *)
Definition init_alerts (disk : store (string * string)) (bot_token chat_id : string) (event_filter : list string)
    (threshold : option Dec) (sanctions_notify : bool) (quiet : string) (a : state) : state :=
  if String.eqb bot_token "" || String.eqb chat_id "" then
    mkState None "" "" (al_event_filter a) (al_threshold a) (al_sanctions_notify a) (al_quiet_spec a)
  else mkState (Some disk) chat_id bot_token event_filter threshold sanctions_notify quiet.

Definition is_configured (a : state) : bool :=
  negb (String.eqb (al_bot_token a) "") && negb (String.eqb (al_chat_id a) "")
  && match al_store a with Some _ => true | None => false end.

Definition matches_rule (a : state) (e : entry) : bool :=
  if negb (is_configured a) then false
  else if bool_decide (a_event e ∈ al_event_filter a) then true
  else if meets_threshold e (al_threshold a) then true
  else al_sanctions_notify a && is_sanctions_hit e.

(** Whether quiet hours drop the entry. *)
Definition suppressed (a : state) (now_utc_hour : Z) (e : entry) : bool :=
  negb (String.eqb (al_quiet_spec a) "")
  && (in_quiet_hours (al_quiet_spec a) now_utc_hour && negb (bypasses_quiet_hours e)).

(** [notify_event]: the message to enqueue, if any. *)
Definition alert_for (now_iso : string) (now_utc_hour : Z) (a : state) (e : entry) : option string :=
  if negb (is_configured a) then None
  else if negb (matches_rule a e) then None
  else if suppressed a now_utc_hour e then None
  else Some (format_message now_iso e (al_threshold a)).

(** The enqueue; [None] store cannot happen when configured. *)
Definition enqueue_alert (now : time) (message : string) (e : entry) (a : state) : state :=
  match al_store a with
  | Some s => set_store (Some (snd (enqueue now (a_id e) (a_event e) (al_chat_id a, message) s))) a
  | None => a
  end.

(** ** Lemmas *)

Lemma bypass_spec e : bypasses_quiet_hours e = true <->
  a_event e = "SEND_FAILED" \/ is_sanctions_hit e = true.
Proof.
  unfold bypasses_quiet_hours. destruct (String.eqb_spec (a_event e) "SEND_FAILED"); [by split; auto|].
  destruct (is_sanctions_hit e); split; naive_solver.
Qed.

Lemma critical_not_suppressed a h e : bypasses_quiet_hours e = true -> suppressed a h e = false.
Proof. intros H. unfold suppressed. rewrite H. by rewrite !andb_false_r. Qed.
