(* ===== verification/Webhooks.v ===== *)
(** * Webhook enqueueing ([webhooks.py], request side)

    Called by [audit.record] on the request path: one row per target URL.  The
    delivery worker is in [Workers]. *)
From S2P Require Import Prelude PyStr Decimal AuditEntry Delivery.
From Stdlib Require Import Qabs.
Open Scope string_scope.

(** The module's globals; rows carry (url, payload), the payload being the
    audit entry the JSON text encodes. *)
Record state := mkState {
  wh_store : option (store (string * entry));
  wh_event_filter : list string; wh_target_urls : list string }.

Definition set_store (s : option (store (string * entry))) (h : state) : state :=
  mkState s (wh_event_filter h) (wh_target_urls h).

(** [init_webhooks]: off without URLs, and refused without a signing secret; [disk]: the
    rows of the database, none when there is no path. *)
Definition init_webhooks (disk : store (string * entry)) (urls : list string) (signing_secret : string)
    (event_filter : list string) (h : state) : state :=
  match urls with
  | [] => set_store None h
  | _ => if String.eqb signing_secret "" then set_store None h
         else mkState (Some disk) event_filter urls
  end.

(** [enqueue_event_for_delivery]: the early returns. *)
Definition wants (h : state) (event : string) : bool :=
  match wh_store h, wh_target_urls h with
  | Some _, _ :: _ => bool_decide (event ∈ wh_event_filter h)
  | _, _ => false
  end.

Definition enqueue_url (now : time) (e : entry) (url : string) (h : state) : state :=
  match wh_store h with
  | Some s => set_store (Some (snd (enqueue now (a_id e) (a_event e) (url, e) s))) h
  | None => h
  end.

(** ** HMAC signatures *)
Section Signing.
(** [hmac.new(secret, msg, sha256).hexdigest()] *)
Context (hmac_hex : string -> string -> string).

Definition sign_payload (secret : string) (timestamp : Z) (body : string) : string :=
  "t=" +:+ str_of_Z timestamp +:+ ",v1=" +:+ hmac_hex secret (str_of_Z timestamp +:+ "." +:+ body).

(** The dict the header's [k=v] parts build: later parts win. *)
Fixpoint header_parts (ps : list string) (parts : gmap string string) : gmap string string :=
  match ps with
  | [] => parts
  | p :: ps =>
      match split_once "=" p with
      | Some (k, v) => header_parts ps (<[strip k := strip v]> parts)
      | None => header_parts ps parts
      end
  end.

Definition verify_signature (now : time) (secret header body : string) (tolerance_sec : Z) : bool :=
  if String.eqb secret "" || String.eqb header "" then false else
  let parts := header_parts (split_on "," header) ∅ in
  match parts !! "t", parts !! "v1" with
  | Some t, Some v1 =>
      match int_of_str t with
      | None => false
      | Some ts =>
          if Qltb (inject_Z tolerance_sec) (Qabs.Qabs (now - inject_Z ts)) then false
          else String.eqb (hmac_hex secret (str_of_Z ts +:+ "." +:+ body)) v1
      end
  | _, _ => false
  end.
End Signing.

(** ** Signatures *)
Lemma split_on_none sep a : str_forall (fun c => negb (Ascii.eqb c sep)) a = true -> split_on sep a = [a].
Proof.
  induction a as [|c a IH]; [done|]. simpl. intros [Hc Ha]%andb_true_iff. apply negb_true_iff in Hc. by rewrite Hc, IH.
Qed.
Lemma split_on_app sep a b : str_forall (fun c => negb (Ascii.eqb c sep)) a = true ->
  split_on sep (a +:+ String sep b) = a :: split_on sep b.
Proof.
  induction a as [|c a IH]; simpl; [by rewrite Ascii.eqb_refl|]. intros [Hc Ha]%andb_true_iff.
  apply negb_true_iff in Hc. by rewrite Hc, IH.
Qed.
(** The text of a number and of a digest has no separator and no white space. *)
Definition word_char (c : ascii) : bool := negb (is_space c || Ascii.eqb c "," || Ascii.eqb c "=").
Definition hex_char (c : ascii) : bool := is_digit c || bool_decide (c ∈ ["a"; "b"; "c"; "d"; "e"; "f"]%char).
Lemma hex_word c : hex_char c = true -> word_char c = true.
Proof. destruct c as [b0 b1 b2 b3 b4 b5 b6 b7]. by destruct b0, b1, b2, b3, b4, b5, b6, b7. Qed.
Lemma number_word n : str_forall word_char (str_of_Z n) = true.
Proof.
  assert (H : forall d, (0 <= d)%Z -> str_forall word_char (digs d) = true).
  { intros d Hd. eapply str_forall_impl; [|apply (digs_spec d Hd)]. intros c Hc. apply hex_word. unfold hex_char. by rewrite Hc. }
  unfold str_of_Z. destruct (Z.ltb_spec n 0); [|apply H; lia]. cbn. apply H. lia.
Qed.
Lemma word_facts s : str_forall word_char s = true ->
  strip s = s /\ str_forall (fun c => negb (Ascii.eqb c ",")) s = true.
Proof.
  intros H. split; [apply strip_plain|]; revert H; apply str_forall_impl; intros c; unfold word_char;
    rewrite !negb_orb; intros H; bcases; bcases; by rewrite ?negb_involutive; rewrite ?H; rewrite ?H0; rewrite ?H1.
Qed.

(** A receiver accepts a signature exactly when it is fresh and was made for this
    body under this secret: what [sign_payload] writes is parsed back, the time stamp is
    within the tolerance, and the HMAC of the time stamp and body is the one sent. *)
Theorem signature_checked (hmac_hex : string -> string -> string) (now : time) (secret secret' body body' : string)
    (ts tolerance_sec : Z) :
  (forall key msg, str_forall hex_char (hmac_hex key msg) = true) ->
  verify_signature hmac_hex now secret' (sign_payload hmac_hex secret ts body) body' tolerance_sec = true <->
  secret' <> "" /\ (Qabs (now - inject_Z ts) <= inject_Z tolerance_sec)%Q /\
  hmac_hex secret' (str_of_Z ts +:+ "." +:+ body') = hmac_hex secret (str_of_Z ts +:+ "." +:+ body).
Proof.
  intros Hhex. set (mac := hmac_hex secret (str_of_Z ts +:+ "." +:+ body)).
  assert (Hmac : str_forall word_char mac = true) by (eapply str_forall_impl; [apply hex_word | apply Hhex]).
  destruct (word_facts _ Hmac) as [Hms Hmc], (word_facts _ (number_word ts)) as [Hts Htc].
  assert (Hparts : header_parts (split_on "," (sign_payload hmac_hex secret ts body)) ∅ =
                   <["v1" := mac]> (<["t" := str_of_Z ts]> ∅)).
  { unfold sign_payload. fold mac.
    change ("t=" +:+ str_of_Z ts +:+ ",v1=" +:+ mac) with ("t=" +:+ (str_of_Z ts +:+ String "," ("v1=" +:+ mac))).
    rewrite <- append_assoc, split_on_app by (by rewrite str_forall_append, Htc). rewrite split_on_none by (by rewrite str_forall_append, Hmc).
    cbn [header_parts]. change ("t=" +:+ str_of_Z ts) with ("t" +:+ String "=" (str_of_Z ts)).
    change ("v1=" +:+ mac) with ("v1" +:+ String "=" mac). rewrite !split_once_app by done.
    change (strip "t") with "t". change (strip "v1") with "v1". by rewrite Hts, Hms. }
  unfold verify_signature. change (String.eqb (sign_payload hmac_hex secret ts body) "") with false.
  rewrite orb_false_r, Hparts, (lookup_insert_ne _ "v1" "t"), !lookup_insert_eq by done. rewrite int_of_str_str.
  destruct (String.eqb_spec secret' ""); [naive_solver|].
  destruct (Qltb (inject_Z tolerance_sec) (Qabs (now - inject_Z ts))) eqn:Hq; qcases.
  - split; [done|]. intros (_ & H & _). lra.
  - rewrite String.eqb_eq. naive_solver.
Qed.

Definition demo_hmac (key msg : string) : string := str_of_Z (Z.of_nat (String.length key * 1000 + String.length msg)).
Lemma demo_hmac_hex key msg : str_forall hex_char (demo_hmac key msg) = true.
Proof.
  unfold demo_hmac, str_of_Z. destruct (Z.ltb_spec (Z.of_nat (String.length key * 1000 + String.length msg)) 0); [lia|].
  eapply str_forall_impl; [|apply digs_spec; lia]. intros c Hc. unfold hex_char. by rewrite Hc.
Qed.
Lemma signature_checked_witness :
  verify_signature demo_hmac 1060%Q "key" (sign_payload demo_hmac "key" 1000 "body") "body" 300 = true /\
  verify_signature demo_hmac 1060%Q "key" (sign_payload demo_hmac "key" 1000 "body") "other body" 300 <> true.
Proof.
  split.
  - apply (signature_checked demo_hmac 1060%Q "key" "key" "body" "body" 1000 300 demo_hmac_hex).
    split; [done|]. split; [|done]. vm_compute. discriminate.
  - intros H. apply (signature_checked demo_hmac 1060%Q "key" "key" "body" "other body" 1000 300 demo_hmac_hex) in H.
    destruct H as (_ & _ & H). vm_compute in H. discriminate.
Defined.
