(* ===== verification/World.v ===== *)
(** * The process state and its environment

    [World]: the state the request path reads and writes.  [Env]: everything
    outside the process (TronGrid through tronpy, the clock, the disk, HTTP),
    as answers indexed by the number of outside calls made so far, so two calls
    may get different answers and any call may raise or kill the process. *)
From S2P Require Import Prelude PyStr Decimal Effects RiskTypes Exceptions Config AuditEntry.
From S2P Require Alerts Webhooks.
Open Scope string_scope.

(** What [txn.broadcast()] answers: not a dict, or a dict with these fields. *)
Inductive broadcast_result :=
| NotADict (cls : string)
| BDict (result_is_true : bool) (code message txid : string) (repr : string).

(** A signed TRC-20 transfer. *)
Record transfer := mkTransfer {
  t_from : string; t_to : string; t_amount_raw : Z; t_fee_limit : Z }.

(** [client.get_account(address)]: the fields the code reads. *)
Record account := mkAccount { acc_empty : bool; create_time : Z; latest_opration_time : Z }.

(** TronScan's and MistTrack's answers, reduced to what the code reads. *)
Record tronscan_data := mkTronscan {
  ts_isBlack : bool; ts_list : list (bool * string * string);  (** black, blackType, source *)
  ts_redTag : string; ts_scamTag : string }.
Record misttrack_data := mkMisttrack {
  mt_score : option Q; mt_score_text : string; mt_detail : list (string * string) }. (** type, label *)

Record Env := mkEnv {
  env_now : nat -> time;
  env_iso : nat -> string;                    (** [datetime.now(UTC).isoformat()] *)
  env_hour : nat -> Z;                        (** [datetime.now(UTC).hour] *)
  env_sql : nat -> fate exn;                  (** one SQL statement or commit *)
  env_sql_update : nat -> fate exn;           (** the UPDATE of the store's [commit] *)
  env_disk : nat -> fate exn;                 (** opening, or writing and syncing, the audit file *)
  env_hooks : nat -> fate exn;                (** one statement on the webhook or alert tables *)
  b58decode_check : string -> option (list Z);
  get_contract_usdt : nat -> outcome exn unit;
  get_account_balance : nat -> string -> outcome exn Dec;
  balanceOf : nat -> string -> outcome exn Z;
  isBlackListed : nat -> string -> outcome exn bool;
  get_account : nat -> string -> outcome exn account;
  get_contract : nat -> string -> outcome exn bool;          (** is the object truthy *)
  get_chain_parameters : nat -> outcome exn (list (string * option Z));
  encode_single : string -> Z -> outcome exn string;
  get_estimated_energy : nat -> string -> string -> outcome exn (option Z);
  get_account_resource : nat -> string -> outcome exn (string -> option Z);
  get_latest_block_number : nat -> outcome exn unit;
  build_and_sign : nat -> string -> transfer -> outcome exn unit;   (** the private key *)
  broadcast : nat -> transfer -> outcome exn broadcast_result;
  tronscan : nat -> string -> outcome exn tronscan_data;
  misttrack : nat -> string -> outcome exn misttrack_data }.

(** A concrete environment in which everything works: every address is valid, every
    account holds 100 TRX and 5 USDT, the node accepts every transfer. *)
Definition sample_env : Env := {|
  env_now n := inject_Z (Z.of_nat n); env_iso _ := "2026-04-29T12:00:00+00:00"; env_hour _ := 12%Z;
  env_sql _ := Fine; env_sql_update _ := Fine; env_disk _ := Fine; env_hooks _ := Fine;
  b58decode_check _ := Some (65%Z :: repeat 1%Z 20);
  get_contract_usdt _ := Ret tt; get_account_balance _ _ := Ret (dec_of_Z 100);
  balanceOf _ _ := Ret 5000000%Z; isBlackListed _ _ := Ret false;
  get_account _ _ := Ret (mkAccount false 1 1);
  get_contract _ _ := Raise (EOther "AddressNotFound" "contract not found");
  get_chain_parameters _ := Ret [("getEnergyFee", Some 210%Z)];
  encode_single _ _ := Ret "00"; get_estimated_energy _ _ _ := Ret (Some 65000%Z);
  get_account_resource _ _ := Ret (fun _ => Some 0%Z); get_latest_block_number _ := Ret tt;
  build_and_sign _ _ _ := Ret tt;
  broadcast _ _ := Ret (BDict true "" "" "tx1" "{}");
  tronscan _ _ := Ret (mkTronscan false [] "" ""); misttrack _ _ := Ret (mkMisttrack None "?" []) |}.

(** Prometheus updates, in order. *)
Inductive metric :=
| TxRejected (reason : string)
| TxDuplicate
| TxBroadcast (result : string)
| TxDuration (result : string) (seconds : time)
| EnergyEstimated (energy : Z)
| EnergyBurn (trx : Dec)
| FeeLimitSun (sun : Z)
| Balances (trx usdt : Dec)
| ResourceSnapshot (energy_available bandwidth_free bandwidth_paid tron_power : Z)
| IdempotencySize (n : Z)
| NodeConnected (ok : bool)
| Uptime (seconds : Z).

(** [TronClient]'s caches. *)
Record tron_state := mkTron {
  usdt_contract : bool; energy_price : option Z; energy_price_fetched_at : time }.
Definition tron0 : tron_state := mkTron false None 0.

(** [audit.py]'s globals; [au_file] is what the durable file holds. *)
Record audit_state := mkAudit {
  au_process_id : string; au_seq : Z; au_open : bool; au_open_failed : bool;
  au_file : list entry; au_log : list entry (** the "payouts.audit" logger *) }.

(** A broadcast call, the idempotency key of the request it was made for, and the
    node's answer.  A ghost record of the money path; the code keeps no such list. *)
Record attempt := mkAttempt {
  at_key : string; at_tx : transfer; at_answer : outcome exn broadcast_result }.

Record World (S : Type) := mkWorld {
  w_tick : nat; w_idem : S; w_audit : audit_state; w_hooks : Webhooks.state;
  w_alerts : Alerts.state; w_tron : tron_state; w_metrics : list metric;
  w_slept : Z; w_attempts : list attempt }.
Arguments mkWorld {S}. Arguments w_tick {S}. Arguments w_idem {S}. Arguments w_audit {S}.
Arguments w_hooks {S}. Arguments w_alerts {S}. Arguments w_tron {S}. Arguments w_metrics {S}.
Arguments w_slept {S}. Arguments w_attempts {S}.

Section Setters.
Context {S : Type}.
Implicit Types w : World S.
Definition set_tick (n : nat) w := mkWorld n (w_idem w) (w_audit w) (w_hooks w) (w_alerts w)
  (w_tron w) (w_metrics w) (w_slept w) (w_attempts w).
Definition set_idem (s : S) w := mkWorld (w_tick w) s (w_audit w) (w_hooks w) (w_alerts w)
  (w_tron w) (w_metrics w) (w_slept w) (w_attempts w).
Definition set_audit a w := mkWorld (w_tick w) (w_idem w) a (w_hooks w) (w_alerts w)
  (w_tron w) (w_metrics w) (w_slept w) (w_attempts w).
Definition set_hooks h w := mkWorld (w_tick w) (w_idem w) (w_audit w) h (w_alerts w)
  (w_tron w) (w_metrics w) (w_slept w) (w_attempts w).
Definition set_alerts a w := mkWorld (w_tick w) (w_idem w) (w_audit w) (w_hooks w) a
  (w_tron w) (w_metrics w) (w_slept w) (w_attempts w).
Definition set_tron t w := mkWorld (w_tick w) (w_idem w) (w_audit w) (w_hooks w) (w_alerts w)
  t (w_metrics w) (w_slept w) (w_attempts w).
Definition set_metrics m w := mkWorld (w_tick w) (w_idem w) (w_audit w) (w_hooks w) (w_alerts w)
  (w_tron w) m (w_slept w) (w_attempts w).
Definition set_slept n w := mkWorld (w_tick w) (w_idem w) (w_audit w) (w_hooks w) (w_alerts w)
  (w_tron w) (w_metrics w) n (w_attempts w).
Definition set_attempts l w := mkWorld (w_tick w) (w_idem w) (w_audit w) (w_hooks w) (w_alerts w)
  (w_tron w) (w_metrics w) (w_slept w) l.
End Setters.

(** ** Primitives *)
Section Primitives.
Context {S : Type}.
Abbreviation MW := (M (World S) exn).

(** One call out of the process. *)
Definition ext {A} (f : nat -> outcome exn A) : MW A :=
  fun w => (f (w_tick w), set_tick (Datatypes.S (w_tick w)) w).
Definition fate_outcome (f : fate exn) : outcome exn unit :=
  match f with Fine => Ret tt | Fails e => Raise e | Dies => Crash end.
Definition now (E : Env) : MW time := ext (fun n => Ret (env_now E n)).
Definition emit (m : metric) : MW unit := modify (fun w => set_metrics (w_metrics w ++ [m]) w).
(** [time.sleep(n)]: the process may be killed while it sleeps. *)
Definition sleep (n : Z) : MW unit := modify (fun w => set_slept (w_slept w + n)%Z w).

(** [except Exception as exc: h exc] *)
Definition try_except {A} (m : MW A) (h : exn -> MW A) : MW A :=
  catch m (fun e => if is_Exception e then Some (h e) else None).
(** [except BaseException: cleanup; raise] *)
Definition on_exception {A} (m : MW A) (cleanup : MW unit) : MW A :=
  catch m (fun e => Some (do! cleanup in raise e)).
(** [except Exception: <log>] around a statement. *)
Definition swallow (m : MW unit) : MW unit := try_except m (fun _ => ret tt).

(** ** What a program leaves alone: the idempotency store and the money path *)
Definition same_core (w w' : World S) : Prop :=
  w_idem w' = w_idem w /\ w_attempts w' = w_attempts w.
#[global] Instance same_core_preorder : PreOrder same_core.
Proof. split; [done|]. intros x y z [H1 H2] [H3 H4]. split; congruence. Qed.

#[global] Instance frame_ext {A} (f : nat -> outcome exn A) : Frame same_core (ext f).
Proof. done. Qed.
#[global] Instance frame_now E : Frame same_core (now E).
Proof. done. Qed.
#[global] Instance frame_emit m : Frame same_core (emit m).
Proof. done. Qed.
#[global] Instance frame_sleep n : Frame same_core (sleep n).
Proof. done. Qed.
#[global] Instance frame_try_except {A} (m : MW A) h :
  Frame same_core m -> (forall e, Frame same_core (h e)) -> Frame same_core (try_except m h).
Proof.
  intros Hm Hh. apply frame_catch; [apply _|done|].
  intros e r. destruct (is_Exception e); [|done]. by intros [= <-].
Qed.
#[global] Instance frame_swallow m : Frame same_core m -> Frame same_core (swallow m).
Proof. intros. unfold swallow. apply _. Qed.

(** ** Programs that raise no [Exception], only (like every program) interrupts *)
Class Quiet {A} (m : MW A) : Prop :=
  quiet_ok w e : fst (m w) = Raise e -> is_Exception e = false.
#[global] Instance quiet_ret {A} (a : A) : Quiet (ret a).
Proof. done. Qed.
#[global] Instance quiet_gets {A} (f : World S -> A) : Quiet (gets f).
Proof. done. Qed.
#[global] Instance quiet_modify f : Quiet (modify f).
Proof. done. Qed.
#[global] Instance quiet_emit m : Quiet (emit m).
Proof. done. Qed.
#[global] Instance quiet_now E : Quiet (now E).
Proof. done. Qed.
#[global] Instance quiet_bind {A B} (m : MW A) (k : A -> MW B) :
  Quiet m -> (forall a, Quiet (k a)) -> Quiet (bind m k).
Proof.
  intros Hm Hk w e. unfold bind. specialize (Hm w).
  destruct (m w) as [[a|e'|] w']; simpl in *; [apply Hk | intros [= <-]; auto | done].
Qed.
#[global] Instance quiet_when b m : Quiet m -> Quiet (when b m).
Proof. intros. by destruct b. Qed.
#[global] Instance quiet_for_each {A} (l : list A) f :
  (forall a, Quiet (f a)) -> Quiet (for_each l f).
Proof. intros. induction l; simpl; apply _. Qed.
#[global] Instance quiet_try_except {A} (m : MW A) h :
  (forall e, Quiet (h e)) -> Quiet (try_except m h).
Proof.
  intros Hh w e. unfold try_except, catch.
  destruct (m w) as [[a|e'|] w']; simpl; [done| |done].
  destruct (is_Exception e') eqn:He; simpl; [apply Hh | by intros [= <-]].
Qed.
#[global] Instance quiet_swallow m : Quiet (swallow m).
Proof. unfold swallow. apply _. Qed.
Lemma wp_quiet {A} (m : MW A) Q w :
  Quiet m -> (forall o w', (forall e, o = Raise e -> is_Exception e = false) -> Q o w') -> wp m Q w.
Proof. intros Hm HQ. apply HQ. intros e. apply Hm. Qed.
End Primitives.

#[global] Typeclasses Opaque ext now emit sleep try_except on_exception swallow.

(** [frames]: a frame condition by the structure of the program. *)
Ltac frames :=
  repeat first [progress intros | solve [apply _] | apply frame_bind | apply frame_try_except
               | apply frame_swallow | apply frame_when | apply frame_for_each
               | solve [apply frame_modify; intros ?; split; reflexivity]
               | case_match | progress cbv zeta].

Ltac quiets :=
  repeat first [solve [apply _] | progress intros | apply quiet_bind | apply quiet_try_except
               | apply quiet_when | apply quiet_for_each | case_match].
