(* ===== verification/TronClient.v ===== *)
(** * The RPC layer ([tron_client.py]) and signing ([wallet.py])

    Every RPC is one call of the environment.  [with_retry] repeats idempotent
    reads; [send_usdt] makes one broadcast and records it. *)
From S2P Require Import Prelude PyStr Decimal Effects RiskTypes Exceptions Config AuditEntry World.
Open Scope string_scope.
Open Scope Z_scope.

Definition MIN_FEE_LIMIT_SUN : Z := 5000000.
Definition ENERGY_PRICE_TTL_SEC : time := 3600%Q.
Definition MAX_RETRIES : Z := 3.
Definition RETRY_DELAY : Z := 2.

Definition is_transient_error (exc : exn) : bool :=
  let msg := exn_str exc in
  if contains "429" msg || contains "Too Many Requests" msg then true
  else if existsb (fun c => contains c msg) ["500"; "502"; "503"; "504"] then true
  else let name := lower (exn_class exc) in
       if contains "timeout" name || contains "connection" name then true
       else if contains "timed out" (lower msg) then true else false.

(** [if "not found" in str(exc).lower() or "addressnotfound" in cls] *)
Definition is_not_found (exc : exn) : bool :=
  contains "not found" (lower (exn_str exc)) || contains "addressnotfound" (lower (exn_class exc)).

(** [Decimal(raw) / Decimal(10 ** USDT_DECIMALS)] *)
Definition usdt_of_raw (raw : Z) : Dec := dec_div_pow10 (dec_of_Z raw) USDT_DECIMALS.
(** [int(amount * Decimal(10 ** USDT_DECIMALS))] *)
Definition raw_of_usdt (amount : Dec) : Z := dec_to_int (dec_mul amount (dec_pow10 USDT_DECIMALS)).

(** [int(r.get(k, 0) or 0)] *)
Definition int_or_0 (v : option Z) : Z := match v with Some n => n | None => 0 end.

Record resource_summary := mkRes {
  energy_available : Z; energy_limit : Z; bandwidth_free_available : Z;
  bandwidth_paid_available : Z; tron_power : Z }.

Record dest_info := mkDest { di_exists : bool; di_trx : Dec; di_usdt : Dec }.

(** The price in a [get_chain_parameters] answer: the first positive energy fee. *)
Definition price_from (fallback : Z) (params : list (string * option Z)) : Z :=
  match List.find (fun p => (String.eqb p.1 "getEnergyFee" || String.eqb p.1 "EnergyFee")
                            && match p.2 with Some v => 0 <? v | None => false end) params with
  | Some (_, Some v) => v
  | _ => fallback
  end.

(** A wallet: name, address, and the private key until [destroy] drops it. *)
Record wallet := mkWallet {
  wl_name : string; wl_address : string; wl_priv_key : option string }.
Definition destroy_wallet (w : wallet) : wallet := mkWallet (wl_name w) (wl_address w) None.

Section Client.
Context {S : Type} (E : Env) (c : Config).
Abbreviation MW := (M (World S) exn).

(** [_with_retry]; [left] counts the attempts after this one, so that
    [attempt = MAX_RETRIES - left] and [attempt < MAX_RETRIES] says [left] is
    not 0. *)
Fixpoint retry_at (left : nat) {A} (fn : MW A) : MW A :=
  try_except fn (fun exc =>
    match left with
    | Datatypes.S left' =>
        if is_transient_error exc then
          do! sleep (RETRY_DELAY * (MAX_RETRIES - Z.of_nat left)) in retry_at left' fn
        else raise exc
    | O => raise exc
    end).
Definition with_retry {A} (fn : MW A) : MW A := retry_at (Z.to_nat (MAX_RETRIES - 1)) fn.

Definition get_usdt_contract : MW unit :=
  let! t := gets w_tron in
  if usdt_contract t then ret tt
  else
    do! with_retry (ext (get_contract_usdt E)) in
    modify (fun w => set_tron (mkTron true (energy_price (w_tron w))
                                 (energy_price_fetched_at (w_tron w))) w).

Definition get_trx_balance_for (address : string) : MW Dec :=
  try_except (with_retry (ext (fun n => get_account_balance E n address)))
    (fun exc => if is_not_found exc then ret (dec_of_Z 0) else raise exc).

Definition get_usdt_balance_for (address : string) : MW Dec :=
  do! get_usdt_contract in
  let! raw := with_retry (ext (fun n => balanceOf E n address)) in
  ret (usdt_of_raw raw).

Definition check_connection : MW bool :=
  try_except (do! ext (get_latest_block_number E) in ret true) (fun _ => ret false).

Definition get_account_resource_for (address : string) : MW (string -> option Z) :=
  with_retry (ext (fun n => get_account_resource E n address)).

Definition summarise (r : string -> option Z) : resource_summary :=
  let g k := int_or_0 (r k) in
  mkRes (Z.max 0 (g "EnergyLimit" - g "EnergyUsed")) (g "EnergyLimit")
    (Z.max 0 (g "freeNetLimit" - g "freeNetUsed")) (Z.max 0 (g "NetLimit" - g "NetUsed"))
    (g "tronPowerLimit").

Definition get_resource_summary_for (address : string) : MW resource_summary :=
  let! r := try_except (let! r := get_account_resource_for address in ret (Some r))
              (fun _ => ret None) in
  ret (match r with Some r => summarise r | None => mkRes 0 0 0 0 0 end).

(** The cached price, when it is there and younger than the TTL. *)
Definition fresh_price (now : time) (t : tron_state) : option Z :=
  match energy_price t with
  | Some p => if Qltb (now - energy_price_fetched_at t) ENERGY_PRICE_TTL_SEC then Some p else None
  | None => None
  end.
Definition set_price (p : Z) (at_ : time) : MW unit :=
  modify (fun w => set_tron (mkTron (usdt_contract (w_tron w)) (Some p) at_) w).

Definition energy_price_sun : MW Z :=
  let! now1 := now E in
  let! t := gets w_tron in
  match fresh_price now1 t with
  | Some p => ret p
  | None =>
      let! now2 := now E in
      let! t := gets w_tron in
      match fresh_price now2 t with
      | Some p => ret p
      | None =>
          do! try_except
            (let! params := with_retry (ext (get_chain_parameters E)) in
             set_price (price_from (TRON_ENERGY_PRICE_SUN_FALLBACK c) params) now2)
            (fun _ =>
               let! t := gets w_tron in
               match energy_price t with
               | None => set_price (TRON_ENERGY_PRICE_SUN_FALLBACK c) now2
               | Some p => set_price p now2
               end) in
          let! t := gets w_tron in
          match energy_price t with
          | Some p => ret p
          | None => raise EAssertion    (** not reached: the price was just set *)
          end
      end
  end.

Definition estimate_transfer_energy (from_address to_address : string) (amount : Dec)
    : MW (option Z) :=
  let! param := try_except
    (let! p := ext (fun _ => encode_single E to_address (raw_of_usdt amount)) in ret (Some p))
    (fun _ => ret None) in
  match param with
  | None => ret None
  | Some param =>
      try_except
        (let! estimate := with_retry (ext (fun n => get_estimated_energy E n from_address param)) in
         let energy := int_or_0 estimate in
         if energy <=? 0 then ret None else ret (Some energy))
        (fun _ => ret None)
  end.

(** The clamp of an estimate's cost. *)
Definition fee_limit_from (energy price : Z) : Z :=
  let sun := dec_to_int (dec_mul (dec_mul (dec_of_Z energy) (dec_of_Z price))
                           (FEE_LIMIT_SAFETY_MULT c)) in
  Z.max MIN_FEE_LIMIT_SUN (Z.min (USDT_FEE_LIMIT_SUN c) sun).

(** [if not estimated_energy: return USDT_FEE_LIMIT_SUN] *)
Definition compute_fee_limit_sun (estimated_energy : option Z) : MW Z :=
  let e := int_or_0 estimated_energy in
  if e =? 0 then ret (USDT_FEE_LIMIT_SUN c)
  else let! price := energy_price_sun in ret (fee_limit_from e price).

Definition get_destination_info (to_address : string) : MW dest_info :=
  do! get_usdt_contract in
  let! (exists_, trx) := try_except
    (let! trx := ext (fun n => get_account_balance E n to_address) in ret (true, trx))
    (fun exc => if is_not_found exc then ret (false, dec_of_Z 0) else ret (true, dec_of_Z 0)) in
  let! usdt := try_except
    (let! raw := ext (fun n => balanceOf E n to_address) in ret (usdt_of_raw raw))
    (fun _ => ret (dec_of_Z 0)) in
  ret (mkDest exists_ trx usdt).

(** ** Signing and broadcasting ([Wallet.send_usdt]) *)

Definition runtime_error (msg : string) : exn := EOther "RuntimeError" msg.

(** What [send_usdt] makes of the node's answer. *)
Definition read_answer (r : broadcast_result) : exn + string :=
  match r with
  | NotADict cls => inl (runtime_error ("unexpected broadcast response type: " +:+ cls))
  | BDict ok code message txid repr =>
      if negb ok then
        inl (runtime_error ("broadcast rejected: code=" +:+ str_or code "UNKNOWN" +:+
                              " message=" +:+ py_repr message))
      else if String.eqb txid "" then
        inl (runtime_error ("broadcast returned empty txid: " +:+ repr))
      else inr txid
  end.

(** The fee limit put on the transaction. *)
Definition clamp_fee_limit (fee_limit_sun : option Z) : Z :=
  Z.max MIN_FEE_LIMIT_SUN (Z.min (USDT_FEE_LIMIT_SUN c)
    (match fee_limit_sun with Some n => n | None => USDT_FEE_LIMIT_SUN c end)).

(** [txn.broadcast()]; [key] is ghost. *)
Definition broadcast_tx (key : string) (tx : transfer) : MW broadcast_result :=
  fun w => let r := broadcast E (w_tick w) tx in
    (r, set_attempts (w_attempts w ++ [mkAttempt key tx r])%list
          (set_tick (Datatypes.S (w_tick w)) w)).

(** [Wallet.send_usdt]; [key] is ghost: whose request this is. *)
Definition send_usdt (key : string) (wl : wallet) (to_address : string) (amount : Dec)
    (fee_limit_sun : option Z) : MW string :=
  match wl_priv_key wl with
  | None => raise (runtime_error ("wallet " +:+ py_repr (wl_name wl) +:+ ": priv_key already destroyed"))
  | Some pk =>
      let tx := mkTransfer (wl_address wl) to_address (raw_of_usdt amount)
                  (clamp_fee_limit fee_limit_sun) in
      do! ext (fun n => build_and_sign E n pk tx) in
      let! result := broadcast_tx key tx in
      match read_answer result with
      | inr txid => ret txid
      | inl e => raise e
      end
  end.

(** ** Frames: reads leave the store and the money path alone *)

#[global] Instance frame_retry_at left {A} (fn : MW A) :
  Frame same_core fn -> Frame same_core (retry_at left fn).
Proof. intros. induction left; simpl; apply _. Qed.
#[global] Instance frame_with_retry {A} (fn : MW A) :
  Frame same_core fn -> Frame same_core (with_retry fn).
Proof. intros. by apply frame_retry_at. Qed.
#[global] Instance frame_set_price p at_ : Frame same_core (set_price p at_).
Proof. done. Qed.
#[global] Instance frame_get_usdt_contract : Frame same_core get_usdt_contract.
Proof. unfold get_usdt_contract. frames. Qed.
#[global] Instance frame_get_trx_balance_for a : Frame same_core (get_trx_balance_for a).
Proof. unfold get_trx_balance_for. frames. Qed.
#[global] Instance frame_get_usdt_balance_for a : Frame same_core (get_usdt_balance_for a).
Proof. unfold get_usdt_balance_for. frames. Qed.
#[global] Instance frame_get_resource_summary_for a : Frame same_core (get_resource_summary_for a).
Proof. unfold get_resource_summary_for, get_account_resource_for. frames. Qed.
#[global] Instance frame_energy_price_sun : Frame same_core energy_price_sun.
Proof. unfold energy_price_sun. frames. Qed.
#[global] Instance frame_estimate a b amt : Frame same_core (estimate_transfer_energy a b amt).
Proof. unfold estimate_transfer_energy. frames. Qed.
#[global] Instance frame_compute_fee_limit_sun e : Frame same_core (compute_fee_limit_sun e).
Proof. unfold compute_fee_limit_sun. frames. Qed.
#[global] Instance frame_get_destination_info a : Frame same_core (get_destination_info a).
Proof. unfold get_destination_info. frames. Qed.
#[global] Instance frame_check_connection : Frame same_core check_connection.
Proof. unfold check_connection. frames. Qed.
End Client.

(** ** The retry loop *)
Section Retry.
Context {S : Type}.
Implicit Types w : World S.

(** [w'] is [w] some outside calls and some sleep later. *)
Definition later (calls : nat) (slept : Z) w : World S :=
  set_slept (w_slept w + slept) (set_tick (w_tick w + calls) w).

(** What a run of the loop from attempt [3 - left] on does. *)
Definition retry_run {A} (f : nat -> outcome exn A) (w : World S) (left k : nat) (slept : Z)
    (o : outcome exn A) : Prop :=
  (k <= left)%nat /\ o = f (w_tick w + k)%nat /\
  (forall i, (i < k)%nat -> exists e, f (w_tick w + i)%nat = Raise e /\
     is_Exception e = true /\ is_transient_error e = true) /\
  (forall e, o = Raise e -> is_Exception e = true -> is_transient_error e = true -> k = left).

Lemma later_1 w : set_tick (Datatypes.S (w_tick w)) w = later 1 0 w.
Proof. unfold later. destruct w; simpl. by rewrite Nat.add_1_r, Z.add_0_r. Qed.
Lemma later_later a s b t w : later a s (later b t w) = later (b + a) (t + s) w.
Proof. unfold later; simpl. by rewrite Nat.add_assoc, Z.add_assoc. Qed.

Lemma run_once {A} (f : nat -> outcome exn A) w left :
  (forall e, f (w_tick w) = Raise e -> is_Exception e = true -> is_transient_error e = true ->
     left = 0%nat) ->
  exists k s o, (f (w_tick w), set_tick (Datatypes.S (w_tick w)) w) = (o, later (k + 1) s w) /\
    retry_run f w left k s o /\
    s = Z.of_nat k * (2 * (MAX_RETRIES - Z.of_nat left) + Z.of_nat k - 1).
Proof.
  intros H. exists 0%nat, 0, (f (w_tick w)). split; [|split; [split_and!|]]; try lia.
  - by rewrite later_1.
  - by rewrite Nat.add_0_r.
  - intros e He H1 H2. symmetry. eauto.
Qed.

Lemma retry_at_run {A} (f : nat -> outcome exn A) left : forall w, exists k s o,
  retry_at left (ext f) w = (o, later (k + 1) s w) /\ retry_run f w left k s o /\
  s = Z.of_nat k * (2 * (MAX_RETRIES - Z.of_nat left) + Z.of_nat k - 1).
Proof.
  induction left as [|left IH]; intros w; simpl; unfold try_except, catch; simpl.
  - replace (match f (w_tick w) with _ => _ end) with (f (w_tick w), set_tick (Datatypes.S (w_tick w)) w)
      by (destruct (f (w_tick w)) as [|e|]; [|destruct (is_Exception e)|]; done).
    apply run_once. done.
  - destruct (f (w_tick w)) as [a|e|] eqn:Hf; simpl;
      [ | destruct (is_Exception e) eqn:Hx; [destruct (is_transient_error e) eqn:Ht|] | ].
    2: { set (d := RETRY_DELAY * (MAX_RETRIES - Z.of_nat (Datatypes.S left))).
      destruct (IH (later 1 d w)) as (k & s & o & Hr & (Hk & Ho & Hfail & Hlast) & Hs).
      exists (Datatypes.S k), (d + s), o. unfold bind. simpl.
      simpl in Ho, Hfail. rewrite Nat.add_1_r in Ho, Hfail.
      split; [|split; [split_and!|]].
      - rewrite later_later in Hr. simpl in Hr |- *. rewrite <- Hr. f_equal.
        unfold later; simpl. by rewrite Nat.add_1_r.
      - lia.
      - rewrite Ho. f_equal. lia.
      - intros [|i] Hi; [rewrite Nat.add_0_r; eauto|]. rewrite <- Nat.add_succ_comm. apply Hfail. lia.
      - intros e' He H1 H2. f_equal. eauto.
      - rewrite Hs. unfold d, RETRY_DELAY, MAX_RETRIES. lia. }
    all: unfold raise; simpl; rewrite <- Hf; apply run_once; intros; congruence.
Qed.

Lemma with_retry_later {A} (f : nat -> outcome exn A) w : exists k s,
  with_retry (ext f) w = (f (w_tick w + k)%nat, later (k + 1) s w).
Proof. destruct (retry_at_run f 2 w) as (k & s & o & H & (_ & -> & _) & _). eauto. Qed.
End Retry.

(** ** Facts *)

Lemma price_from_pos fallback params : 1 <= fallback -> 1 <= price_from fallback params.
Proof.
  intros H. unfold price_from. destruct (List.find _ params) as [[k [v|]]|] eqn:Hf; [|done..].
  apply find_some in Hf as [_ Hv]. bcases. simpl in *. bcases. lia.
Qed.

(** What [send_usdt] makes of the broadcast call. *)
Definition answer_outcome (r : outcome exn broadcast_result) : outcome exn string :=
  match r with
  | Ret b => match read_answer b with inr t => Ret t | inl e => Raise e end
  | Raise e => Raise e
  | Crash => Crash
  end.

(** What one [send_usdt] does to the world. *)
Definition sent (E : Env) (c : Config) (key : string) (wl : wallet) (to_address : string) (amount : Dec)
    (fee : option Z) {S} (o : outcome exn string) (w w' : World S) : Prop :=
  let tx := mkTransfer (wl_address wl) to_address (raw_of_usdt amount) (clamp_fee_limit c fee) in
  w_idem w' = w_idem w /\
  ((w_attempts w' = w_attempts w /\ (forall txid, o <> Ret txid)) \/
   (exists n, is_Some (wl_priv_key wl) /\
      w_attempts w' = (w_attempts w ++ [mkAttempt key tx (broadcast E n tx)])%list /\
      o = answer_outcome (broadcast E n tx))).

Lemma send_usdt_sent {S} E c key wl to_address amount fee (w : World S) :
  wp (send_usdt E c key wl to_address amount fee)
     (fun o w' => sent E c key wl to_address amount fee o w w') w.
Proof.
  unfold send_usdt. destruct (wl_priv_key wl) as [pk|] eqn:Hpk; [|split; [done | by left]].
  set (tx := mkTransfer _ _ _ _).
  apply wp_bind. unfold wp at 1, ext. simpl.
  destruct (build_and_sign _ _ _ _); [|split; [done | by left; split] ..].
  apply wp_bind. unfold wp at 1, broadcast_tx. simpl.
  set (w1 := set_attempts _ _). set (n := Datatypes.S _).
  assert (sent E c key wl to_address amount fee (answer_outcome (broadcast E n tx)) w w1) as H.
  { split; [done|]. right. exists n. split_and!; [by eexists | done | done]. }
  clearbody w1. revert H. unfold answer_outcome.
  destruct (broadcast E n tx) as [b|e|]; [destruct (read_answer b)|..]; intros H; exact H.
Qed.

Lemma clamp_bounds c fee :
  MIN_FEE_LIMIT_SUN <= clamp_fee_limit c fee <= Z.max MIN_FEE_LIMIT_SUN (USDT_FEE_LIMIT_SUN c).
Proof. unfold clamp_fee_limit. lia. Qed.

(** A retried read runs at most three times, sleeps 0, 2 or 6 seconds in all,
    repeats only after transient exceptions, answers what its last attempt answered,
    and gives up on a transient exception only at the third. *)
Theorem with_retry_bounded {S : Type} {A : Type} (f : nat -> outcome exn A) (w : World S) :
  exists n : nat, (1 <= n <= 3)%nat /\
    fst (with_retry (ext f) w) = f (w_tick w + n - 1)%nat /\
    w_tick (snd (with_retry (ext f) w)) = (w_tick w + n)%nat /\
    w_slept (snd (with_retry (ext f) w)) = w_slept w + Z.of_nat n * (Z.of_nat n - 1) /\
    (forall i, (i < n - 1)%nat -> exists e, f (w_tick w + i)%nat = Raise e /\
       is_Exception e = true /\ is_transient_error e = true) /\
    (forall e, fst (with_retry (ext f) w) = Raise e -> is_Exception e = true ->
       is_transient_error e = true -> n = 3%nat).
Proof.
  destruct (retry_at_run f 2 w) as (k & s & o & H & (Hk & Ho & Hf & Hl) & Hs).
  unfold with_retry. change (Z.to_nat (MAX_RETRIES - 1)) with 2%nat. rewrite H.
  exists (k + 1)%nat. unfold later; simpl. split_and!; try lia.
  - rewrite Ho. f_equal. lia.
  - rewrite Hs. unfold MAX_RETRIES. lia.
  - intros i Hi. apply Hf. lia.
  - intros e He H1 H2. specialize (Hl e He H1 H2). lia.
Qed.

(** C9: an amount with at most 6 decimals and 28 significant digits reaches the
    transfer as exactly amount * 10^6 units, with no rounding. *)
Theorem amount_exact (amount : Dec) :
  -6 <= dexp amount -> Z.abs (coef amount) < 10 ^ 28 ->
  raw_of_usdt amount = coef amount * 10 ^ (dexp amount + 6).
Proof. intros H1 H2. by apply (dec_scale_exact amount 6). Qed.

Lemma amount_exact_witness : raw_of_usdt (mkDec 2450572 (-4)) = 245057200.
Proof. rewrite (amount_exact (mkDec 2450572 (-4))); [reflexivity | simpl; lia | reflexivity]. Defined.

(** The chain's answer is unavailable: every fetch raises an [Exception]. *)
Definition chain_down (E : Env) : Prop :=
  forall n, exists e, get_chain_parameters E n = Raise e /\ is_Exception e = true.

Lemma fresh_price_cached now t p : fresh_price now t = Some p -> energy_price t = Some p.
Proof. unfold fresh_price. cases. Qed.

(** The energy price: with a positive fallback and cache, whatever is returned
    is positive and cached, and no RPC failure is raised; within the TTL the cached
    price is answered with one clock reading and no RPC; and when the chain is down
    the last known price is kept, or the fallback taken if there never was one. *)
Theorem energy_price_sun_spec {S : Type} (E : Env) (c : Config) (w : World S)
    (Hfall : 1 <= TRON_ENERGY_PRICE_SUN_FALLBACK c)
    (Hcache : forall p, energy_price (w_tron w) = Some p -> 1 <= p) :
  match energy_price_sun E c w with
  | (Ret p, w') => 1 <= p /\ energy_price (w_tron w') = Some p
  | (Raise e, _) => is_Exception e = false
  | (Crash, _) => True
  end /\
  (forall p, fresh_price (env_now E (w_tick w)) (w_tron w) = Some p ->
     energy_price_sun E c w = (Ret p, set_tick (Datatypes.S (w_tick w)) w)) /\
  (chain_down E -> fst (energy_price_sun E c w) =
     Ret (default (TRON_ENERGY_PRICE_SUN_FALLBACK c) (energy_price (w_tron w)))).
Proof.
  unfold energy_price_sun. set (R := with_retry _). unfold bind, now, ext, gets; simpl.
  destruct (fresh_price _ _) as [p|] eqn:H1.
  { apply fresh_price_cached in H1 as Hc. split_and!; [by simpl; eauto | naive_solver |].
    intros _. simpl. by rewrite Hc. }
  match goal with |- context [fresh_price ?a ?b] => destruct (fresh_price a b) as [p|] eqn:H2 end.
  { apply fresh_price_cached in H2 as Hc. simpl in Hc. split_and!; [by simpl; eauto | done |].
    intros _. simpl. by rewrite Hc. }
  unfold try_except, catch.
  match goal with |- context [R ?w1] => destruct (with_retry_later (get_chain_parameters E) w1) as (k & s & Hr) end.
  fold R in Hr. rewrite Hr. simpl. pose proof (price_from_pos (TRON_ENERGY_PRICE_SUN_FALLBACK c)) as Hp.
  destruct (get_chain_parameters _ _) as [params|e|] eqn:Hg; simpl.
  - split; [by eauto|]. split; [done|]. intros Hd.
    edestruct Hd as (e & He & _). rewrite Hg in He. done.
  - destruct (is_Exception e) eqn:Hx; simpl.
    + destruct (energy_price (w_tron w)) as [p|] eqn:Hc; simpl;
        (split; [by eauto|]; split; [done|]; by intros _).
    + split; [done|]. split; [done|]. intros Hd.
      edestruct Hd as (e' & He & Hx'). rewrite Hg in He. congruence.
  - split; [done|]. split; [done|]. intros Hd.
    edestruct Hd as (e' & He & Hx'). rewrite Hg in He. done.
Qed.

Lemma energy_price_sun_spec_witness :
  let w := mkWorld 0 tt (mkAudit "p" 0 false false [] []) (Webhooks.mkState None [] [])
             (Alerts.mkState None "" "" [] None false "") (mkTron false (Some 210) 0) [] 0 [] in
  1 <= TRON_ENERGY_PRICE_SUN_FALLBACK default_config /\
  energy_price_sun sample_env default_config w = (Ret 210, set_tick 1 w).
Proof.
  intros w. split; [by vm_compute|].
  apply (energy_price_sun_spec sample_env default_config w); [by vm_compute | | by vm_compute].
  intros p [= <-]. lia.
Defined.

#[global] Typeclasses Opaque retry_at with_retry get_usdt_contract get_trx_balance_for get_usdt_balance_for
  get_resource_summary_for energy_price_sun estimate_transfer_energy compute_fee_limit_sun
  get_destination_info check_connection send_usdt.
