(* ===== verification/WalletPool.v ===== *)
(** * The pool of loaded wallets ([wallet_pool.py]) *)
From S2P Require Import Prelude PyStr Decimal Effects RiskTypes Exceptions Config AuditEntry World TronClient.
Open Scope string_scope.

Record pool := mkPool { p_wallets : gmap string wallet; p_initialized : bool }.
Definition pool0 : pool := mkPool ∅ false.

(** [init]: [{w.name: w for w in wallets}], later names win. *)
Definition init (ws : list wallet) (_ : pool) : pool :=
  mkPool (foldl (fun m w => <[wl_name w := w]> m) ∅ ws) true.

(** [destroy]: each wallet object loses its key before the dict is cleared.  The
    destroyed objects are returned too: other holders of them see the change. *)
Definition destroy (p : pool) : list wallet * pool :=
  (map (fun '(_, w) => destroy_wallet w) (map_to_list (p_wallets p)), mkPool ∅ false).

Definition names (p : pool) : list string := sort_by String.leb (map fst (map_to_list (p_wallets p))).

(** [[self._wallets[n] for n in self.names()]] *)
Definition all (p : pool) : list wallet := omap (fun n => p_wallets p !! n) (names p).
Definition count (p : pool) : Z := Z.of_nat (size (p_wallets p)).

Definition get (name : string) (p : pool) : wallet + exn :=
  match p_wallets p !! name with
  | Some w => inl w
  | None => inr (EPoolNotFound name (names p))
  end.

Section Pool.
Context {S : Type} (E : Env).
Abbreviation MW := (M (World S) exn).

Definition auto_pick_failed : exn := EPoolAutoPickFailed "could not fetch USDT balance for any wallet".

(** The loop of [_auto_pick_max_usdt]. *)
Fixpoint auto_pick_loop (ws : list wallet) (best : option wallet) (best_balance : Dec)
    (any_ok : bool) : MW (option wallet * bool) :=
  match ws with
  | [] => ret (best, any_ok)
  | w :: ws =>
      let! bal := try_except (let! b := get_usdt_balance_for E (wl_address w) in ret (Some b))
                    (fun _ => ret None) in
      match bal with
      | None => auto_pick_loop ws best best_balance any_ok
      | Some bal =>
          if dec_ltb best_balance bal then auto_pick_loop ws (Some w) bal true
          else auto_pick_loop ws best best_balance true
      end
  end.

Definition auto_pick_max_usdt (p : pool) : MW wallet :=
  let! (best, any_ok) := auto_pick_loop (all p) None (dec_of_Z (-1)) false in
  match best with
  | Some w => if any_ok then ret w else raise auto_pick_failed
  | None => raise auto_pick_failed
  end.

(** [resolve(name, tron_client=..., policy=...)]; [has_client]: the client is not None. *)
Definition resolve (name : option string) (has_client : bool) (policy : string) (p : pool) : MW wallet :=
  if (count p =? 0)%Z then raise EPoolEmpty else
  if negb (String.eqb (default "" name) "") then
    match get (default "" name) p with inl w => ret w | inr e => raise e end
  else if (count p =? 1)%Z then
    match map_to_list (p_wallets p) with
    | (_, w) :: _ => ret w
    | [] => raise EPoolEmpty        (** not reached: one entry *)
    end
  else if negb (String.eqb policy "max-usdt") then
    raise (EPoolError ("unknown auto-pick policy: " +:+ py_repr policy))
  else if negb has_client then
    raise (EPoolError ("multi-wallet pool needs an explicit `wallet` parameter " +:+
                       "or a tron_client for auto-pick"))
  else auto_pick_max_usdt p.

#[global] Instance frame_auto_pick_loop ws b bb ok : Frame same_core (auto_pick_loop ws b bb ok).
Proof. revert b bb ok. induction ws as [|w ws IH]; intros; simpl; frames. Qed.
#[global] Instance frame_auto_pick p : Frame same_core (auto_pick_max_usdt p).
Proof. unfold auto_pick_max_usdt. frames. Qed.
#[global] Instance frame_resolve n h pol p : Frame same_core (resolve n h pol p).
Proof. unfold resolve. frames. Qed.
End Pool.

#[global] Typeclasses Opaque auto_pick_loop auto_pick_max_usdt resolve.

(** ** The pool's invariant and its listing *)

(** A wallet is filed under its own name. *)
Definition pool_wf (p : pool) : Prop := map_Forall (fun n w => wl_name w = n) (p_wallets p).

Lemma init_wf ws p : pool_wf (init ws p).
Proof.
  unfold pool_wf, init. simpl.
  assert (forall m : gmap string wallet, map_Forall (fun n w => wl_name w = n) m ->
    map_Forall (fun n w => wl_name w = n) (foldl (fun m w => <[wl_name w := w]> m) m ws)) as H.
  { induction ws as [|w ws IH]; intros m Hm; simpl; [done|]. apply IH. by apply map_Forall_insert_2. }
  apply H, map_Forall_empty.
Qed.

Lemma destroy_wf p : pool_wf (snd (destroy p)) /\ Forall (fun w => wl_priv_key w = None) (fst (destroy p)).
Proof.
  split; [apply map_Forall_empty|]. simpl. apply Forall_fmap, Forall_true. by intros [].
Qed.

Lemma names_spec n p : In n (names p) <-> is_Some (p_wallets p !! n).
Proof.
  unfold names. rewrite sort_by_elem, in_map_iff. split.
  - intros ([n' w] & <- & H). apply list_elem_of_In, elem_of_map_to_list in H. by eexists.
  - intros [w Hw]. exists (n, w). split; [done|]. by apply list_elem_of_In, elem_of_map_to_list.
Qed.

Lemma all_spec w p : pool_wf p -> In w (all p) <-> p_wallets p !! wl_name w = Some w.
Proof.
  intros Hwf. rewrite <- list_elem_of_In. unfold all. rewrite list_elem_of_omap. split.
  - intros (n & _ & Hn). by rewrite (Hwf n w Hn).
  - intros Hw. exists (wl_name w). split; [|done]. apply list_elem_of_In, names_spec. by eexists.
Qed.

(** ** The auto-pick *)

(** The balance lookups of a pick, on their own. *)
Fixpoint lookups {S} (E : Env) (ws : list wallet) : M (World S) exn (list (option Dec)) :=
  match ws with
  | [] => ret []
  | w :: ws =>
      let! bal := try_except (let! b := get_usdt_balance_for E (wl_address w) in ret (Some b))
                    (fun _ => ret None) in
      let! rest := lookups E ws in
      ret (bal :: rest)
  end.

(** The first wallet with the largest balance above [bb]. *)
Fixpoint best_of (ws : list wallet) (bals : list (option Dec)) (b : option wallet) (bb : Dec)
    : option wallet :=
  match ws, bals with
  | w :: ws, Some bal :: bals => if dec_ltb bb bal then best_of ws bals (Some w) bal else best_of ws bals b bb
  | w :: ws, None :: bals => best_of ws bals b bb
  | _, _ => b
  end.

Lemma auto_pick_loop_lookups {S} (E : Env) ws : forall b bb ok (w : World S),
  match lookups E ws w with
  | (Ret bals, w') => auto_pick_loop E ws b bb ok w =
      (Ret (best_of ws bals b bb, ok || existsb (fun o => match o with Some _ => true | None => false end) bals), w')
      /\ List.length bals = List.length ws
  | (Raise e, w') => auto_pick_loop E ws b bb ok w = (Raise e, w')
  | (Crash, w') => auto_pick_loop E ws b bb ok w = (Crash, w')
  end.
Proof.
  induction ws as [|wl ws IH]; intros b bb ok w; [simpl; by rewrite orb_false_r|].
  cbn [lookups auto_pick_loop]. set (look := try_except _ _). unfold bind, ret.
  destruct (look w) as [[[bal|]|e|] w1]; [| |done..].
  - specialize (IH (if dec_ltb bb bal then Some wl else b) (if dec_ltb bb bal then bal else bb) true w1).
    destruct (lookups E ws w1) as [[bals|e|] w2]; destruct (dec_ltb bb bal) eqn:Hd; [..|done | done | done | done].
    all: destruct IH as [IH Hl]; rewrite IH; simpl; by rewrite ?Hd, Hl, ?orb_true_r.
  - specialize (IH b bb ok w1). destruct (lookups E ws w1) as [[bals|e|] w2]; [|done..].
    destruct IH as [IH Hl]. rewrite IH. simpl. by rewrite Hl.
Qed.

(** What [best_of] returns: the running best, or a wallet whose balance is strictly
    above the running best and all before it and not below any after it. *)
Lemma best_of_spec ws : forall bals b bb, List.length bals = List.length ws ->
  match best_of ws bals b bb with
  | r => (r = b /\ forall i bal, bals !! i = Some (Some bal) -> dec_leb bal bb = true) \/
         (exists i w bal, r = Some w /\ ws !! i = Some w /\ bals !! i = Some (Some bal) /\
            dec_ltb bb bal = true /\
            (forall j bal', bals !! j = Some (Some bal') -> dec_leb bal' bal = true) /\
            (forall j bal', (j < i)%nat -> bals !! j = Some (Some bal') -> dec_ltb bal' bal = true))
  end.
Proof.
  assert (Hlt : forall x y z, dec_leb x y = true -> dec_ltb y z = true -> dec_ltb x z = true).
  { intros x y z H1 H2. rewrite !dec_ltb_nleb in *. apply negb_true_iff in H2. apply negb_true_iff.
    destruct (dec_leb z x) eqn:Hz; [|done]. by rewrite (dec_leb_trans z x y Hz H1) in H2. }
  assert (Hle : forall x y, dec_ltb x y = true -> dec_leb x y = true).
  { intros x y H. rewrite dec_ltb_nleb in H. apply negb_true_iff in H. by apply dec_leb_total. }
  assert (Hnlt : forall x y, dec_ltb x y = false -> dec_leb y x = true).
  { intros x y H. rewrite dec_ltb_nleb in H. by apply negb_false_iff in H. }
  assert (Hrefl : forall x, dec_leb x x = true).
  { intros x. destruct (dec_leb x x) eqn:Hx; [done|]. apply dec_leb_total in Hx as Hx'. congruence. }
  induction ws as [|wl ws IH]; intros [|[bal|] bals] b bb Hl; simplify_eq/=.
  - left. split; [done|]. by intros [].
  - destruct (dec_ltb bb bal) eqn:Hb.
    + right. destruct (IH bals (Some wl) bal Hl) as [[Hr Hall] | (i & w & bl & Hr & Hw & Hbl & Hgt & Hall & Hbef)].
      * exists 0%nat, wl, bal. split_and!; try done; [|intros; lia].
        intros [|j] bal' Hj; simplify_eq/=; eauto.
      * exists (Datatypes.S i), w, bl. split_and!; try done; [by eauto| |].
        -- intros [|j] bal' Hj; simplify_eq/=; eauto.
        -- intros [|j] bal' Hij Hj; simplify_eq/=; [done|]. apply (Hbef j); [lia | done].
    + destruct (IH bals b bb Hl) as [[Hr Hall] | (i & w & bl & Hr & Hw & Hbl & Hgt & Hall & Hbef)].
      * left. split; [done|]. intros [|j] bal' Hj; simplify_eq/=; eauto.
      * right. exists (Datatypes.S i), w, bl. split_and!; try done.
        -- intros [|j] bal' Hj; simplify_eq/=; eauto.
        -- intros [|j] bal' Hij Hj; simplify_eq/=; [eauto|]. apply (Hbef j); [lia | done].
  - destruct (IH bals b bb Hl) as [[Hr Hall] | (i & w & bl & Hr & Hw & Hbl & Hgt & Hall & Hbef)].
    + left. split; [done|]. intros [|j] bal' Hj; simplify_eq/=; eauto.
    + right. exists (Datatypes.S i), w, bl. split_and!; try done.
      * intros [|j] bal' Hj; simplify_eq/=; eauto.
      * intros [|j] bal' Hij Hj; simplify_eq/=. apply (Hbef j); [lia | done].
Qed.

Lemma all_one p n wl : map_to_list (p_wallets p) = [(n, wl)] -> all p = [wl].
Proof.
  intros H. unfold all, names. rewrite H. simpl.
  assert (p_wallets p !! n = Some wl) as ->; [|done].
  apply elem_of_map_to_list. rewrite H. by left.
Qed.

Lemma size_one p : count p = 1%Z -> exists wl, (exists n, map_to_list (p_wallets p) = [(n, wl)]) /\ all p = [wl].
Proof.
  unfold count. intros Hc. pose proof (length_map_to_list (p_wallets p)) as Hl.
  destruct (map_to_list (p_wallets p)) as [|[n wl] [|]] eqn:Hm; simpl in Hl; try lia.
  exists wl. split; [by exists n | by apply (all_one p n)].
Qed.

(** What the auto-pick returns was listed. *)
Lemma auto_pick_loop_in {S} (E : Env) ws : forall b bb ok (w : World S) wl ok',
  fst (auto_pick_loop E ws b bb ok w) = Ret (Some wl, ok') -> In wl ws \/ b = Some wl.
Proof.
  intros b bb ok w wl ok' H. pose proof (auto_pick_loop_lookups E ws b bb ok w) as Hl.
  destruct (lookups E ws w) as [[bals|e|] w']; [destruct Hl as [Hr Hlen]| |]; [|by rewrite Hl in H..].
  rewrite Hr in H. simpl in H. injection H as H _.
  destruct (best_of_spec ws bals b bb Hlen) as [[Hb _]|(i & wl' & bal & Hb & Hi & _)]; [right|left].
  - congruence.
  - apply list_elem_of_In. eapply list_elem_of_lookup_2. rewrite Hi. congruence.
Qed.

Lemma auto_pick_in {S} (E : Env) p (w : World S) wl :
  fst (auto_pick_max_usdt E p w) = Ret wl -> In wl (all p).
Proof.
  unfold auto_pick_max_usdt, bind. pose proof (auto_pick_loop_in E (all p) None (dec_of_Z (-1)) false w) as H.
  destruct (auto_pick_loop _ _ _ _ _ w) as [[[[wl'|] ok]|e|] w']; [|done..].
  destruct ok; [|done]. intros [= <-]. by destruct (H wl' true).
Qed.

Lemma resolve_in {S} (E : Env) name p (w : World S) wl : pool_wf p ->
  fst (resolve E name true "max-usdt" p w) = Ret wl -> In wl (all p).
Proof.
  unfold resolve. intros Hwf. destruct (Z.eqb_spec (count p) 0); [done|].
  destruct (negb (String.eqb (default "" name) "")).
  { unfold get. destruct (p_wallets p !! default "" name) as [wl'|] eqn:Hw; [|done].
    intros [= <-]. apply all_spec; [done|]. by rewrite (Hwf _ _ Hw). }
  destruct (Z.eqb_spec (count p) 1) as [Hc|].
  { destruct (size_one p Hc) as (wl' & [n' Hm] & ->). rewrite Hm. intros [= <-]. by left. }
  simpl. intros Hr. by eapply auto_pick_in.
Qed.

(** The auto-pick returns a pool wallet whose live USDT balance is the largest
    of all the lookups that worked, the first name in order among equals; wallets
    whose lookup failed are skipped; it fails only when no lookup gave a balance
    above -1. *)
Theorem auto_pick_max {S : Type} (E : Env) (p : pool) (w : World S) :
  match lookups E (all p) w with
  | (Ret bals, w') =>
      snd (auto_pick_max_usdt E p w) = w' /\ List.length bals = List.length (all p) /\
      match fst (auto_pick_max_usdt E p w) with
      | Ret wl => exists i bal, all p !! i = Some wl /\ bals !! i = Some (Some bal) /\
          (forall j bal', bals !! j = Some (Some bal') -> dec_leb bal' bal = true) /\
          (forall j bal', (j < i)%nat -> bals !! j = Some (Some bal') -> dec_ltb bal' bal = true)
      | Raise e => e = auto_pick_failed /\
          forall j bal, bals !! j = Some (Some bal) -> dec_leb bal (dec_of_Z (-1)) = true
      | Crash => False
      end
  | (Raise e, w') => auto_pick_max_usdt E p w = (Raise e, w')
  | (Crash, w') => auto_pick_max_usdt E p w = (Crash, w')
  end.
Proof.
  pose proof (auto_pick_loop_lookups E (all p) None (dec_of_Z (-1)) false w) as H.
  unfold auto_pick_max_usdt, bind.
  destruct (lookups E (all p) w) as [[bals|e|] w']; [|by rewrite H..].
  destruct H as [-> Hl].
  destruct (best_of_spec (all p) bals None (dec_of_Z (-1)) Hl)
    as [[-> Hall] | (i & wl & bal & -> & Hw & Hb & _ & Hmax & Hbef)]; simpl; [done|].
  replace (existsb _ bals) with true; [simpl; split_and!; eauto 10|].
  symmetry. apply existsb_exists. exists (Some bal). split; [|done].
  apply list_elem_of_In. by eapply list_elem_of_lookup_2.
Qed.

(** [resolve]: an empty pool is refused; a name must match exactly and gives the
    wallet filed under it; without a name the only wallet is used with no RPC, and
    with several the auto-pick decides; a resolved wallet is always one of the pool. *)
Theorem resolve_spec {S : Type} (E : Env) (name : option string) (p : pool) (w : World S)
    (Hwf : pool_wf p) :
  (count p = 0%Z -> fst (resolve E name true "max-usdt" p w) = Raise EPoolEmpty) /\
  (count p <> 0%Z -> forall n, name = Some n -> n <> "" ->
     resolve E name true "max-usdt" p w =
       (match p_wallets p !! n with Some wl => Ret wl | None => Raise (EPoolNotFound n (names p)) end, w)) /\
  (count p = 1%Z -> default "" name = "" -> exists wl, all p = [wl] /\
     resolve E name true "max-usdt" p w = (Ret wl, w)) /\
  (forall wl, fst (resolve E name true "max-usdt" p w) = Ret wl -> In wl (all p)).
Proof.
  unfold resolve. split_and!.
  - by intros ->.
  - intros Hc n -> Hn. rewrite (proj2 (Z.eqb_neq _ _) Hc).
    destruct (String.eqb_spec (default "" (Some n)) ""); [done|]. simpl. unfold get.
    by destruct (p_wallets p !! n).
  - intros Hc Hn. rewrite Hc, Hn. simpl.
    destruct (size_one p Hc) as (wl & [n Hm] & Hall). exists wl. split; [done|]. by rewrite Hm.
  - intros wl. by apply resolve_in.
Qed.

Lemma resolve_spec_witness :
  let wl := mkWallet "main" "TMain" (Some "k") in
  let w := mkWorld 0 tt (mkAudit "p" 0 false false [] []) (Webhooks.mkState None [] [])
             (Alerts.mkState None "" "" [] None false "") tron0 [] 0 [] in
  resolve sample_env (Some "other") true "max-usdt" (init [wl] pool0) w =
    (Raise (EPoolNotFound "other" ["main"]), w).
Proof.
  intros wl w.
  destruct (resolve_spec sample_env (Some "other") (init [wl] pool0) w (init_wf _ _)) as (_ & H & _).
  etrans; [apply (H ltac:(by vm_compute) "other" eq_refl ltac:(by vm_compute))|].
  vm_compute. reflexivity.
Defined.
