(* ===== verification/Sanctions.v ===== *)
(** * The OFAC list ([sanctions.py]) *)
From S2P Require Import Prelude PyStr Exceptions.
Open Scope string_scope.

Inductive origin := NotLoaded | FromUrl | FromCache | FromNothing.

(** The module's globals, and what the cache file holds. *)
Record state := mkState {
  addresses : option (gset string); loaded_from : origin; cache_file : option string }.
Definition state0 (cache : option string) : state := mkState None NotLoaded cache.

(** [if not line or line.startswith("#"): continue] *)
Definition keeps (line : string) : bool := negb (String.eqb line "" || startswith "#" line).

Definition parse (text : string) : gset string :=
  list_to_set (List.filter keeps (map strip (splitlines text))).

(** The [OSError] classes a file write raises. *)
Definition is_OSError (e : exn) : bool :=
  bool_decide (exn_class e ∈ ["OSError"; "PermissionError"; "FileNotFoundError"; "FileExistsError";
    "NotADirectoryError"; "IsADirectoryError"; "InterruptedError"; "BlockingIOError"; "TimeoutError"]).

Definition use (text : string) (from : origin) (st : state) : state :=
  mkState (Some (parse text)) from (cache_file st).
Definition set_cache (f : option string) (st : state) : state :=
  mkState (addresses st) (loaded_from st) f.

Definition loaded_size (st : state) : Z :=
  match addresses st with Some a => Z.of_nat (size a) | None => 0%Z end.

(** Steps 2 and 3 of [load]: the cache file, else the empty list. *)
Definition load_fallback (read : string -> outcome exn string) (st : state) : outcome exn Z * state :=
  let nothing := (Ret 0%Z, mkState (Some ∅) FromNothing (cache_file st)) in
  match cache_file st with
  | None => nothing
  | Some file =>
      match read file with
      | Ret text => let st' := use text FromCache st in (Ret (loaded_size st'), st')
      | Raise e => if is_Exception e then nothing else (Raise e, st)
      | Crash => (Crash, st)
      end
  end.

(** [load]: [fetched] is the download, [write] the fate of the cache write and
    [torn] what a failed write leaves in the file, [read] the reading of the file. *)
Definition load (refresh : bool) (fetched : outcome exn string) (write : fate exn)
    (torn : option string) (read : string -> outcome exn string) (st : state) : outcome exn Z * state :=
  if negb refresh then load_fallback read st else
  match fetched with
  | Ret text =>
      match write with
      | Fine => let st' := use text FromUrl (set_cache (Some text) st) in (Ret (loaded_size st'), st')
      | Fails e =>
          let st1 := set_cache torn st in
          if is_OSError e then let st' := use text FromUrl st1 in (Ret (loaded_size st'), st')
          else if is_Exception e then load_fallback read st1
          else (Raise e, st1)
      | Dies => (Crash, set_cache torn st)
      end
  | Raise e => if is_Exception e then load_fallback read st else (Raise e, st)
  | Crash => (Crash, st)
  end.

(** [contains]: [None] when no list was ever loaded. *)
Definition contains (st : state) (address : string) : option bool :=
  match addresses st with
  | None => None
  | Some a => Some (bool_decide (address ∈ a))
  end.

Record status_info := mkStatus { si_loaded : bool; si_from : origin; si_size : Z }.
Definition status (st : state) : status_info :=
  mkStatus (match addresses st with Some _ => true | None => false end) (loaded_from st) (loaded_size st).

(** ** Lemmas *)

Lemma parse_spec a text :
  a ∈ parse text <-> keeps a = true /\ exists raw, In raw (splitlines text) /\ strip raw = a.
Proof.
  unfold parse. rewrite elem_of_list_to_set, list_elem_of_In, List.filter_In, in_map_iff. naive_solver.
Qed.

Lemma fallback_loads read st n st' : load_fallback read st = (Ret n, st') ->
  n = loaded_size st' /\ is_Some (addresses st') /\
  (loaded_from st' = FromNothing -> addresses st' = Some ∅).
Proof.
  unfold load_fallback. intros H.
  destruct (cache_file st) as [f|]; [destruct (read f) as [t|e|]; [|destruct (is_Exception e)|]|];
    simplify_eq/=; split_and!; eauto; done.
Qed.

(** A load that returns leaves a list in memory, so [contains] answers
    True or False and never "not loaded"; after a download the answer is whether a
    line of the text is the address; and when no source is available the list is
    empty, so every address, sanctioned or not, is reported as not sanctioned. *)
Theorem load_fails_open (refresh : bool) (fetched : outcome exn string) (write : fate exn)
    (torn : option string) (read : string -> outcome exn string) (st st' : state) (n : Z) :
  load refresh fetched write torn read st = (Ret n, st') ->
  si_loaded (status st') = true /\ n = si_size (status st') /\
  (forall a, contains st' a <> None) /\
  (si_from (status st') = FromNothing -> forall a, contains st' a = Some false) /\
  (forall text, refresh = true -> fetched = Ret text -> write = Fine ->
     cache_file st' = Some text /\
     forall a, contains st' a = Some true <->
       keeps a = true /\ exists raw, In raw (splitlines text) /\ strip raw = a).
Proof.
  intros H.
  assert (n = loaded_size st' /\ is_Some (addresses st') /\
          (loaded_from st' = FromNothing -> addresses st' = Some ∅)) as (Hn & [l Hl] & He).
  { unfold load in H.
    destruct refresh; simpl in H; [|by eapply fallback_loads].
    destruct fetched as [text|e|]; [|destruct (is_Exception e); [by eapply fallback_loads | done] | done].
    destruct write as [|e|]; [simplify_eq/=; split_and!; eauto; done | | done].
    destruct (is_OSError e); [simplify_eq/=; split_and!; eauto; done|].
    destruct (is_Exception e); [by eapply fallback_loads | done]. }
  unfold contains, status; simpl. split_and!; [by rewrite Hl | done | by rewrite Hl | |].
  - intros Hf a. by rewrite (He Hf).
  - intros text -> -> ->. simpl in H. injection H as H1 H2. subst st'. split; [done|]. intros a.
    simpl. rewrite <- parse_spec, (inj_iff Some). apply bool_decide_eq_true.
Qed.

Lemma load_fails_open_witness : exists st',
  load true (Raise (EOther "ConnectionError" "")) Fine None (fun _ => Crash) (state0 None) = (Ret 0%Z, st') /\
  contains st' "TSanctioned" = Some false.
Proof.
  eexists. split; [reflexivity|].
  apply (load_fails_open true (Raise (EOther "ConnectionError" "")) Fine None (fun _ => Crash) (state0 None) _ 0);
    reflexivity.
Defined.
