(* ===== verification/Risk.v ===== *)
(** * Recipient risk assessment ([risk.py]) *)
From S2P Require Import Prelude PyStr Decimal Effects RiskTypes Exceptions Config AuditEntry World TronClient.
From S2P Require Sanctions.
Open Scope string_scope.

Definition KNOWN_BURN_ADDRESSES : gset string := {[ "T9yD14Nj9j7xAB4dbGeiX9h8unkKHxuWwb" ]}.

Definition level_from (checks : list RiskCheck) : RiskLevel :=
  let has_high_fail :=
    existsb (fun c => bool_decide (rc_status c = FAIL) && String.eqb (rc_severity c) "high") checks in
  let has_warn := existsb (fun c => bool_decide (rc_status c = WARN)) checks in
  let has_fail := existsb (fun c => bool_decide (rc_status c = FAIL)) checks in
  if has_high_fail then HIGH else if has_fail || has_warn then MEDIUM else LOW.

Definition should_block (level : RiskLevel) (block_at : string) : bool :=
  let block_at := lower block_at in
  if String.eqb block_at "none" then false
  else if bool_decide (level = HIGH) || bool_decide (level = INVALID) then true
  else if String.eqb block_at "medium" && bool_decide (level = MEDIUM) then true
  else false.

(** [dict.update], keeping the order of the first insertion. *)
Definition summary_set (k : string) (v : summary_value) (d : list (string * summary_value))
    : list (string * summary_value) :=
  if existsb (fun p => String.eqb p.1 k) d
  then map (fun p => if String.eqb p.1 k then (k, v) else p) d
  else (d ++ [(k, v)])%list.

Section Risk.
Context {S : Type} (E : Env) (c : Config) (sanc : Sanctions.state).
Abbreviation MW := (M (World S) exn).

Definition check_validity (address : string) : RiskCheck :=
  if negb (startswith "T" address) then
    mkCheck "validity" FAIL "address must start with T" "high"
  else match b58decode_check E address with
  | None => mkCheck "validity" FAIL "invalid base58check encoding" "high"
  | Some decoded =>
      if negb (List.length decoded =? 21)%nat then
        mkCheck "validity" FAIL ("decoded length " +:+ str_of_Z (Z.of_nat (List.length decoded)) +:+
                                 " != 21 bytes") "high"
      else if negb (hd 0%Z decoded =? 65)%Z then
        mkCheck "validity" FAIL "wrong TRON prefix byte" "high"
      else check "validity" OK "valid TRON base58 address"
  end.

Definition check_burn_address (address : string) : RiskCheck :=
  if bool_decide (address ∈ KNOWN_BURN_ADDRESSES) then
    mkCheck "burn_address" FAIL "address is on the known burn / null list" "high"
  else match b58decode_check E address with
  | Some decoded =>
      if forallb (fun b => b =? 0)%Z (tl decoded) then
        mkCheck "burn_address" FAIL "address decodes to a zero-body pattern (functional burn)" "high"
      else check "burn_address" OK "not a known burn pattern"
  | None => check "burn_address" OK "not a known burn pattern"
  end.

Definition check_activation (address : string) : MW (RiskCheck * option account) :=
  try_except
    (let! a := ext (fun n => get_account E n address) in
     if acc_empty a || (create_time a =? 0)%Z then
       ret (mkCheck "activation" WARN "address NOT activated on chain (account record empty)" "warn", Some a)
     else ret (check "activation" OK "activated on chain", Some a))
    (fun exc =>
       if is_not_found exc then
         ret (mkCheck "activation" WARN
                ("address NOT activated on chain — recipient must activate " +:+
                 "(receive a small TRX) before they can move the USDT") "warn", None)
       else ret (check "activation" SKIP ("could not query account: " +:+ exn_class exc), None)).

Definition check_smart_contract (address : string) : MW RiskCheck :=
  try_except
    (let! contract := ext (fun n => get_contract E n address) in
     if contract then
       ret (mkCheck "smart_contract" FAIL
              ("destination is a smart contract — sending USDT to a contract " +:+
               "that does not handle TRC-20 incoming transfers will lock the " +:+
               "funds. Verify recipient supports TRC-20 receive.") "high")
     else ret (check "smart_contract" OK "not a smart contract"))
    (fun _ => ret (check "smart_contract" OK "not a smart contract")).

Definition check_usdt_blacklist (address : string) : MW RiskCheck :=
  try_except
    (do! get_usdt_contract E in
     let! is_blacklisted := ext (fun n => isBlackListed E n address) in
     if is_blacklisted then
       ret (mkCheck "usdt_blacklist" FAIL
              ("address is on Tether's USDT blacklist — broadcast WILL succeed " +:+
               "but on-chain transfer will REVERT and burn fee_limit") "high")
     else ret (check "usdt_blacklist" OK "not on Tether blacklist"))
    (fun exc => ret (check "usdt_blacklist" SKIP ("could not query Tether blacklist: " +:+ exn_class exc))).

Definition check_sanctions (address : string) : RiskCheck :=
  match Sanctions.contains sanc address with
  | None => check "sanctions" SKIP
              ("OFAC SDN list not loaded — re-check `sanctions.status()` " +:+
               "and ensure SANCTIONS_LIST_URL was reachable at boot")
  | Some true => mkCheck "sanctions" FAIL
              ("address is on the OFAC SDN sanctions list — sending here " +:+
               "may violate US sanctions, regardless of whether the " +:+
               "transaction lands on-chain") "high"
  | Some false => check "sanctions" OK "not on OFAC SDN sanctions list"
  end.

Definition check_balance (address : string) : MW (RiskCheck * list (string * summary_value)) :=
  try_except
    (let! info := get_destination_info E address in
     let cold := dec_is_zero (di_usdt info) in
     let msg := "recipient holds " +:+ dec_to_string (di_usdt info) +:+ " USDT, " +:+
                dec_to_string (di_trx info) +:+ " TRX" in
     let msg := if cold then msg +:+ " (USDT cold — first transfer will need ~32k energy)" else msg in
     ret (check "balance" OK msg,
          [("trx_balance", SStr (dec_to_string (di_trx info)));
           ("usdt_balance", SStr (dec_to_string (di_usdt info)));
           ("warmth", SStr (if cold then "cold" else "warm"))]))
    (fun exc => ret (check "balance" SKIP ("could not query balance: " +:+ exn_class exc), [])).

(** [data]'s flags, in order. *)
Definition tronscan_flags (data : tronscan_data) : list string :=
  ((if ts_isBlack data then ["flagged isBlack"] else []) ++
   omap (fun '(black, blackType, source) =>
           if black : bool
           then Some ("blacklisted (" +:+ str_or blackType (str_or source "unknown") +:+ ")")
           else None) (ts_list data) ++
   (let tags := str_or (ts_redTag data) (ts_scamTag data) in
    if String.eqb tags "" then [] else ["red-tagged: " +:+ tags]))%list.

Definition check_external_tronscan (address : string) : MW RiskCheck :=
  let! data := try_except (let! d := ext (fun n => tronscan E n address) in ret (inl d))
                 (fun exc => ret (inr exc)) in
  match data with
  | inr exc => ret (check "external_tronscan" SKIP ("TronScan unreachable: " +:+ exn_class exc))
  | inl d =>
      match tronscan_flags d with
      | [] => ret (check "external_tronscan" OK "no TronScan flags")
      | flags => ret (mkCheck "external_tronscan" FAIL ("TronScan flags: " +:+ join "; " flags) "high")
      end
  end.

Definition high_tags (d : misttrack_data) : list string :=
  map snd (List.filter (fun t => bool_decide (lower t.1 ∈ ["high"; "fatal"])) (mt_detail d)).

Definition misttrack_verdict (d : misttrack_data) : RiskCheck :=
  let score_str := "score=" +:+ mt_score_text d in
  match high_tags d with
  | [] =>
      if match mt_score d with Some s => Qle_bool 60 s | None => false end then
        mkCheck "external_misttrack" FAIL ("MistTrack " +:+ score_str +:+ " (>=60 considered risky)") "high"
      else check "external_misttrack" OK ("MistTrack " +:+ score_str +:+ ", no high-severity tags")
  | tags => mkCheck "external_misttrack" FAIL
              ("MistTrack " +:+ score_str +:+ " high-severity tags: " +:+ join ", " tags) "high"
  end.

Definition check_external_misttrack (address : string) : MW RiskCheck :=
  if String.eqb (MISTTRACK_API_KEY c) "" then
    ret (check "external_misttrack" SKIP "MISTTRACK_API_KEY not set — skipping AML lookup")
  else
    try_except
      (let! d := ext (fun n => misttrack E n address) in ret (misttrack_verdict d))
      (fun exc => ret (check "external_misttrack" SKIP ("MistTrack unreachable: " +:+ exn_class exc))).

(** What [assess_risk] copies from the account into the summary. *)
Definition account_summary (a : option account) : list (string * summary_value) :=
  match a with
  | Some a =>
      if acc_empty a then []
      else ((if (create_time a =? 0)%Z then [] else [("create_time_ms", SInt (create_time a))]) ++
            (if (latest_opration_time a =? 0)%Z then []
             else [("latest_opration_time_ms", SInt (latest_opration_time a))]))%list
  | None => []
  end.

Definition assess_risk (address : string) (external : bool) : MW RiskReport :=
  let validity := check_validity address in
  if bool_decide (rc_status validity = FAIL) then ret (mkReport address INVALID [validity] [])
  else
    let burn := check_burn_address address in
    let! (activation, acct) := check_activation address in
    let! contract := check_smart_contract address in
    let! blacklist := check_usdt_blacklist address in
    let sanctions := check_sanctions address in
    let! (balance, balance_summary) := check_balance address in
    let summary := fold_left (fun d p => summary_set p.1 p.2 d) balance_summary (account_summary acct) in
    let checks := [validity; burn; activation; contract; blacklist; sanctions; balance] in
    let! checks :=
      if external then
        let! ts := check_external_tronscan address in
        let! mt := check_external_misttrack address in
        ret (checks ++ [ts; mt])%list
      else ret checks in
    ret (mkReport address (level_from checks) checks summary).

#[global] Instance frame_check_activation a : Frame same_core (check_activation a).
Proof. unfold check_activation. frames. Qed.
#[global] Instance frame_check_smart_contract a : Frame same_core (check_smart_contract a).
Proof. unfold check_smart_contract. frames. Qed.
#[global] Instance frame_check_usdt_blacklist a : Frame same_core (check_usdt_blacklist a).
Proof. unfold check_usdt_blacklist. frames. Qed.
#[global] Instance frame_check_balance a : Frame same_core (check_balance a).
Proof. unfold check_balance. frames. Qed.
#[global] Instance frame_tronscan a : Frame same_core (check_external_tronscan a).
Proof. unfold check_external_tronscan. frames. Qed.
#[global] Instance frame_misttrack a : Frame same_core (check_external_misttrack a).
Proof. unfold check_external_misttrack. frames. Qed.
#[global] Instance frame_assess_risk a ext_ : Frame same_core (assess_risk a ext_).
Proof. unfold assess_risk. frames. Qed.
End Risk.

(** ** Facts *)

Lemma level_from_spec l :
  match level_from l with
  | HIGH => exists c, In c l /\ rc_status c = FAIL /\ rc_severity c = "high"
  | MEDIUM => (forall c, In c l -> rc_status c = FAIL -> rc_severity c <> "high") /\
              exists c, In c l /\ (rc_status c = FAIL \/ rc_status c = WARN)
  | LOW => forall c, In c l -> rc_status c = OK \/ rc_status c = SKIP
  | INVALID => False
  end.
Proof.
  unfold level_from. destruct (existsb _ l) eqn:Hh.
  - apply existsb_exists in Hh as (c & Hc & H). bcases. apply String.eqb_eq in H0. eauto.
  - assert (forall c, In c l -> rc_status c = FAIL -> rc_severity c <> "high") as Hnh.
    { intros c Hc Hf Hs. assert (existsb (fun c => bool_decide (rc_status c = FAIL) &&
        String.eqb (rc_severity c) "high") l = true); [|congruence].
      apply existsb_exists. exists c. split; [done|]. rewrite Hs, bool_decide_eq_true_2 by done. done. }
    clear Hh. destruct (existsb _ l || existsb _ l) eqn:H.
    + split; [done|]. apply orb_true_iff in H as [H|H];
        apply existsb_exists in H as (c & Hc & H); bcases; eauto.
    + apply orb_false_iff in H as [H1 H2]. intros c Hc.
      assert (rc_status c <> FAIL).
      { intros Hf. assert (existsb (fun c => bool_decide (rc_status c = FAIL)) l = true); [|congruence].
        apply existsb_exists. exists c. by rewrite Hf. }
      assert (rc_status c <> WARN).
      { intros Hf. assert (existsb (fun c => bool_decide (rc_status c = WARN)) l = true); [|congruence].
        apply existsb_exists. exists c. by rewrite Hf. }
      destruct (rc_status c); auto; congruence.
Qed.

Lemma high_if l c : In c l -> rc_status c = FAIL -> rc_severity c = "high" -> level_from l = HIGH.
Proof.
  intros Hc Hf Hs. unfold level_from.
  replace (existsb _ l) with true; [done|]. symmetry. apply existsb_exists.
  exists c. split; [done|]. rewrite Hs, bool_decide_eq_true_2 by done. done.
Qed.

#[export] Instance quiet_assess_risk {S} E c sanc a ext_ : Quiet (S:=S) (assess_risk E c sanc a ext_).
Proof.
  unfold assess_risk, check_activation, check_smart_contract, check_usdt_blacklist, check_balance,
    check_external_tronscan, check_external_misttrack. quiets.
Qed.

(** What no RPC answer can change: [addr] is on the loaded list, or is a burn address. *)
Definition locally_bad (E : Env) (sanc : Sanctions.state) (addr : string) : Prop :=
  Sanctions.contains sanc addr = Some true \/ rc_status (check_burn_address E addr) = FAIL.

Definition report_ok (E : Env) (sanc : Sanctions.state) (addr : string) (r : RiskReport) : Prop :=
  rr_address r = addr /\
  (rr_level r = INVALID <-> rc_status (check_validity E addr) = FAIL) /\
  (rr_level r <> INVALID -> rr_level r = level_from (rr_checks r)) /\
  (locally_bad E sanc addr -> rr_level r = HIGH \/ rr_level r = INVALID).

Lemma burn_severity E a : rc_status (check_burn_address E a) = FAIL ->
  rc_severity (check_burn_address E a) = "high".
Proof. unfold check_burn_address. cases. Qed.

Lemma report_ok_checks E sanc addr l more s :
  rc_status (check_validity E addr) <> FAIL ->
  let cs := (check_validity E addr :: check_burn_address E addr :: l ++ check_sanctions sanc addr :: more)%list in
  report_ok E sanc addr (mkReport addr (level_from cs) cs s).
Proof.
  intros Hv cs. split_and!; simpl.
  - done.
  - split; [|done]. intros H. pose proof (level_from_spec cs) as Hl. by rewrite H in Hl.
  - done.
  - intros [H|H]; left.
    + apply (high_if _ (check_sanctions sanc addr)); [|unfold check_sanctions; by rewrite H..].
      right; right. apply in_or_app. right. by left.
    + apply (high_if _ (check_burn_address E addr)); [right; by left | done | by apply burn_severity].
Qed.

Lemma should_block_high level block_at :
  level = HIGH \/ level = INVALID -> lower block_at <> "none" -> should_block level block_at = true.
Proof.
  unfold should_block. intros Hl Hb. destruct (String.eqb_spec (lower block_at) "none"); [done|].
  by destruct Hl as [-> | ->].
Qed.

Lemma assess_risk_report {S} E c sanc addr ext_ (w : World S) r :
  fst (assess_risk E c sanc addr ext_ w) = Ret r -> report_ok E sanc addr r.
Proof.
  revert r. change (wp (assess_risk E c sanc addr ext_)
    (fun o _ => forall r, o = Ret r -> report_ok E sanc addr r) w).
  unfold assess_risk. case_bool_decide as Hv.
  - intros r [= <-]. split_and!; simpl; auto; done.
  - apply wp_bind_any; [intros [act acct] w1 | done..].
    apply wp_bind_any; [intros con w2 | done..].
    apply wp_bind_any; [intros bl w3 | done..].
    apply wp_bind_any; [intros [bal bsum] w4 | done..].
    apply wp_bind. destruct ext_.
    + apply wp_bind_any; [intros ts w5 | done..].
      apply wp_bind_any; [intros mt w6 | done..].
      intros r [= <-]. by apply (report_ok_checks E sanc addr [act; con; bl] [bal; ts; mt]).
    + intros r [= <-]. by apply (report_ok_checks E sanc addr [act; con; bl] [bal]).
Qed.


#[global] Typeclasses Opaque assess_risk.
