(* ===== verification/AuditLog.v ===== *)
(** * The audit trail ([audit.py]) and its consumers on the request path

    [au_file] lists the entries whose write and fsync succeeded; a write that
    fails, or dies, adds nothing to it. *)
From S2P Require Import Prelude PyStr Decimal Effects RiskTypes Exceptions Config AuditEntry World.
From S2P Require Delivery Webhooks Alerts.
Open Scope string_scope.

(** An entry without its id and timestamp: what the caller of [record] gives. *)
Definition draft := string -> string -> entry.

Section Audit.
Context {S : Type} (E : Env) (c : Config).
Abbreviation MW := (M (World S) exn).

Definition disk : MW unit := ext (fun n => fate_outcome (env_disk E n)).
Definition hooks_db : MW unit := ext (fun n => fate_outcome (env_hooks E n)).

Definition upd_audit (f : audit_state -> audit_state) : MW unit :=
  modify (fun w => set_audit (f (w_audit w)) w).
Definition bump_seq (a : audit_state) : audit_state :=
  mkAudit (au_process_id a) (au_seq a + 1) (au_open a) (au_open_failed a) (au_file a) (au_log a).
Definition set_open (open failed : bool) (a : audit_state) : audit_state :=
  mkAudit (au_process_id a) (au_seq a) open failed (au_file a) (au_log a).
Definition log_entry (e : entry) (a : audit_state) : audit_state :=
  mkAudit (au_process_id a) (au_seq a) (au_open a) (au_open_failed a) (au_file a) (au_log a ++ [e])%list.
Definition file_entry (e : entry) (a : audit_state) : audit_state :=
  mkAudit (au_process_id a) (au_seq a) (au_open a) (au_open_failed a) (au_file a ++ [e])%list (au_log a).

Definition record_id (process_id : string) (seq : Z) : string := process_id +:+ "-" +:+ str_of_Z seq.

Definition next_record_id : MW string :=
  do! upd_audit bump_seq in
  let! a := gets w_audit in ret (record_id (au_process_id a) (au_seq a)).

(** [_get_audit_file]: is there a handle? *)
Definition get_audit_file : MW bool :=
  let! a := gets w_audit in
  if String.eqb (AUDIT_LOG_FILE c) "" || au_open_failed a then ret false
  else if au_open a then ret true
  else try_except (do! disk in do! upd_audit (set_open true false) in ret true)
         (fun _ => do! upd_audit (set_open false true) in ret false).

Definition write_durable (e : entry) : MW unit :=
  let! fp := get_audit_file in
  if negb fp then
    let! a := gets w_audit in
    if au_open_failed a then
      raise (EAuditWrite ("Durable audit configured (" +:+ AUDIT_LOG_FILE c +:+ ") but file " +:+
                          "open failed earlier — refusing to write"))
    else ret tt
  else
    try_except (do! disk in upd_audit (file_entry e))
      (fun exc => raise (EAuditWrite ("audit write failed: " +:+ exn_str exc))).

(** [webhooks.enqueue_event_for_delivery] *)
Definition enqueue_event_for_delivery (e : entry) : MW unit :=
  let! h := gets w_hooks in
  if negb (Webhooks.wants h (a_event e)) then ret tt
  else for_each (Webhooks.wh_target_urls h) (fun url =>
    swallow (let! t := now E in
             do! hooks_db in
             modify (fun w => set_hooks (Webhooks.enqueue_url t e url (w_hooks w)) w))).

(** [alerts.notify_event]; the clock is read whether or not it is needed. *)
Definition notify_event (e : entry) : MW unit :=
  let! hour := ext (fun n => Ret (env_hour E n)) in
  let! iso := ext (fun n => Ret (env_iso E n)) in
  let! a := gets w_alerts in
  match Alerts.alert_for iso hour a e with
  | None => ret tt
  | Some message =>
      swallow (let! t := now E in
               do! hooks_db in
               modify (fun w => set_alerts (Alerts.enqueue_alert t message e (w_alerts w)) w))
  end.

Definition record (d : draft) : MW unit :=
  let! id := next_record_id in
  let! ts := ext (fun n => Ret (env_iso E n)) in
  let e := d id ts in
  do! upd_audit (log_entry e) in
  do! write_durable e in
  do! swallow (enqueue_event_for_delivery e) in
  swallow (notify_event e).

(** [close_audit_file]: flush, fsync and close, errors swallowed. *)
Definition close_audit_file : MW unit :=
  let! a := gets w_audit in
  when (au_open a)
    (do! swallow disk in upd_audit (fun a => set_open false (au_open_failed a) a)).

#[global] Instance frame_upd_audit f : Frame same_core (upd_audit f).
Proof. done. Qed.
#[global] Instance frame_record d : Frame same_core (record d).
Proof.
  unfold record, next_record_id, write_durable, get_audit_file, disk, enqueue_event_for_delivery,
    notify_event, hooks_db. frames.
Qed.

#[global] Instance frame_close_audit_file : Frame same_core close_audit_file.
Proof. unfold close_audit_file, disk. frames. Qed.

(** ** What [record] leaves alone: all but the clock, the audit state and the two queues *)
Definition same_audit (w w' : World S) : Prop := w_audit w' = w_audit w.
#[local] Instance same_audit_preorder : PreOrder same_audit.
Proof. split; [done|]. intros x y z H1 H2. by etrans. Qed.
#[local] Instance frame_audit_ext {A} (f : nat -> outcome exn A) : Frame same_audit (ext f).
Proof. done. Qed.
#[local] Instance frame_audit_now : Frame same_audit (now E).
Proof. done. Qed.
#[local] Instance frame_audit_db : Frame same_audit hooks_db.
Proof. done. Qed.
Lemma frame_audit_swallow m : Frame same_audit m -> Frame same_audit (swallow m).
Proof.
  intros Hm. apply frame_catch; [apply _ | done|].
  intros e r. destruct (is_Exception e); [|done]. intros [= <-]. by intros w.
Qed.

Lemma frame_audit_hooks e : Frame same_audit (enqueue_event_for_delivery e).
Proof.
  unfold enqueue_event_for_delivery, hooks_db. apply frame_bind; [apply _..|]. intros h.
  case_match; [apply _|]. apply frame_for_each; [apply _|]. intros u. apply frame_audit_swallow.
  repeat (apply frame_bind; [apply _..|]; intros). done.
Qed.
Lemma frame_audit_notify e : Frame same_audit (notify_event e).
Proof.
  unfold notify_event, hooks_db. repeat (apply frame_bind; [apply _..|]; intros).
  case_match; [|apply _]. apply frame_audit_swallow.
  repeat (apply frame_bind; [apply _..|]; intros). done.
Qed.

Lemma wp_swallow_frame m Q w : Frame same_audit m ->
  (forall o w', w_audit w' = w_audit w -> (forall e, o = Raise e -> is_Exception e = false) -> Q o w') ->
  wp (swallow m) Q w.
Proof.
  intros Hm HQ. apply HQ; [by apply frame_audit_swallow|]. intros e. apply quiet_swallow.
Qed.
End Audit.

#[global] Typeclasses Opaque record.

(** ** What [record] does to the audit state *)
Section RecordSpec.
Context {S : Type} (E : Env) (c : Config) (d : draft).
Implicit Types w : World S.

Definition entry_of w : entry :=
  d (record_id (au_process_id (w_audit w)) (au_seq (w_audit w) + 1)) (env_iso E (w_tick w)).

(** The entry is logged, and durable or not ([dur]). *)
Definition logged w w' (dur : bool) : Prop :=
  au_process_id (w_audit w') = au_process_id (w_audit w) /\
  au_seq (w_audit w') = (au_seq (w_audit w) + 1)%Z /\
  au_log (w_audit w') = (au_log (w_audit w) ++ [entry_of w])%list /\
  au_file (w_audit w') = (au_file (w_audit w) ++ if dur then [entry_of w] else [])%list.

Definition durable_configured : bool := negb (String.eqb (AUDIT_LOG_FILE c) "").

Definition record_post w (o : outcome exn unit) w' : Prop :=
  match o with
  | Ret _ => logged w w' durable_configured /\ au_open_failed (w_audit w) = false
  | Raise x => exists dur, logged w w' dur /\
      (is_Exception x = true -> (exists m, x = EAuditWrite m) /\ dur = false /\
         (durable_configured = true \/ au_open_failed (w_audit w) = true))
  | Crash => exists dur, logged w w' dur
  end.

Lemma record_hooks w w1 dur :
  logged w w1 dur ->
  (forall o w', logged w w' dur -> (forall e, o = Raise e -> is_Exception e = false) -> record_post w o w') ->
  wp (do! swallow (enqueue_event_for_delivery E (entry_of w)) in swallow (notify_event E (entry_of w)))
     (record_post w) w1.
Proof.
  intros Hl HQ. apply wp_bind. apply wp_swallow_frame; [apply frame_audit_hooks|].
  intros o w2 Ha Hx. assert (logged w w2 dur) by (unfold logged; rewrite Ha; done).
  destruct o as [a|e|]; [|by apply HQ|by apply HQ].
  apply wp_swallow_frame; [apply frame_audit_notify|]. intros o w3 Hb Hy.
  apply HQ; [|done]. unfold logged. rewrite Hb. done.
Qed.

Lemma write_durable_wp w w1 :
  logged w w1 false -> au_open_failed (w_audit w1) = au_open_failed (w_audit w) ->
  wp (write_durable E c (entry_of w)) (fun o w' =>
    match o with
    | Ret _ => logged w w' durable_configured /\ au_open_failed (w_audit w) = false
    | _ => record_post w o w'
    end) w1.
Proof.
  intros (Hp & Hs & Hl & Hf) Ho. rewrite app_nil_r in Hf.
  unfold wp, write_durable, get_audit_file, bind, gets, try_except, catch, disk, ext, upd_audit, modify,
    record_post, logged, durable_configured; simpl. rewrite Ho.
  destruct (String.eqb (AUDIT_LOG_FILE c) ""); simpl.
  { rewrite Ho. destruct (au_open_failed (w_audit w)); simpl; [|by rewrite app_nil_r].
    exists false. rewrite app_nil_r. eauto 10. }
  destruct (au_open_failed (w_audit w)) eqn:Hof; simpl.
  { rewrite Ho. simpl. exists false. rewrite app_nil_r. eauto 10. }
  (* the file is open, or opened now; then the write *)
  destruct (au_open (w_audit w1)); simpl;
    [|destruct (env_disk E (w_tick w1)) as [|x|]; simpl;
      [|destruct (is_Exception x) eqn:Hx; simpl|]];
    try (destruct (env_disk E _) as [|y|]; simpl; [|destruct (is_Exception y) eqn:Hy; simpl|]).
  all: rewrite ?Hp, ?Hs, ?Hl, ?Hf.
  all: match goal with
       | |- (_ /\ _) /\ _ => split_and!; reflexivity
       | |- exists _, _ /\ _ => exists false; rewrite app_nil_r;
           first [split_and!; reflexivity | split; [split_and!; reflexivity|]]
       end.
  all: intros He; first [by rewrite He in Hx | by rewrite He in Hy | split_and!; [by eexists | done | by left]].
Qed.

Lemma record_wp w : wp (record E c d) (record_post w) w.
Proof.
  unfold record, next_record_id. repeat (apply wp_bind; unfold wp at 1; simpl).
  fold (entry_of w). eapply wp_mono; [|apply (write_durable_wp w)].
  - intros o w1 H. destruct o as [a|e|]; [|exact H..]. destruct H as [H Hof].
    eapply record_hooks; [exact H|]. intros o w' Hl Hx. destruct o as [|e|]; simpl; [done| |by eauto].
    exists durable_configured. split; [done|]. rewrite (Hx e eq_refl). done.
  - unfold logged; simpl. by rewrite app_nil_r.
  - done.
Qed.
End RecordSpec.

(** ** Record ids *)

(** A draft is given the id and the time it is called with. *)
Definition draft_ok (d : draft) : Prop := forall id ts, a_id (d id ts) = id /\ a_timestamp (d id ts) = ts.

(** Every id this process logged is one of the sequence numbers it has used, and
    none was used twice; what is durable was logged. *)
Definition audit_wf (a : audit_state) : Prop :=
  (0 <= au_seq a)%Z /\
  List.NoDup (map a_id (au_log a)) /\
  (forall e, In e (au_log a) -> exists k, (1 <= k <= au_seq a)%Z /\ a_id e = record_id (au_process_id a) k).

Lemma record_id_inj pid k k' : record_id pid k = record_id pid k' -> k = k'.
Proof.
  unfold record_id. intros H. apply str_of_Z_inj.
  induction pid as [|ch pid IH]; [by injection H | apply IH; by injection H].
Qed.

Lemma logged_wf {S} E d (w w' : World S) dur :
  draft_ok d -> logged E d w w' dur -> audit_wf (w_audit w) -> audit_wf (w_audit w').
Proof.
  intros Hd (Hp & Hs & Hl & _) (H0 & Hn & Hid). unfold audit_wf. rewrite Hp, Hs, Hl, map_app. simpl.
  assert (a_id (entry_of E d w) = record_id (au_process_id (w_audit w)) (au_seq (w_audit w) + 1)) as He
    by apply Hd.
  split_and!; [lia| |].
  - apply (Permutation_NoDup (Permutation_cons_append _ _)). constructor; [|done].
    intros (e & Heq & Hin)%in_map_iff. destruct (Hid e Hin) as (k & Hk & Hk').
    rewrite He in Heq. rewrite Heq in Hk'. apply record_id_inj in Hk'. lia.
  - intros e [Hin|[<-|[]]]%in_app_or.
    + destruct (Hid e Hin) as (k & Hk & Hk'). exists k. split; [lia | done].
    + exists (au_seq (w_audit w) + 1)%Z. split; [lia | done].
Qed.

(** The audit calls of a process, each with whatever outcome. *)
Definition records {S} (E : Env) (c : Config) (ds : list draft) (w : World S) : World S :=
  fold_left (fun w d => snd (record E c d w)) ds w.

Lemma records_wf {S} E c ds : forall (w : World S), Forall draft_ok ds -> audit_wf (w_audit w) ->
  audit_wf (w_audit (records E c ds w)) /\
  List.length (au_log (w_audit (records E c ds w))) = (List.length (au_log (w_audit w)) + List.length ds)%nat.
Proof.
  induction ds as [|d ds IH]; intros w Hd Hw; simpl; [split; [done | lia]|].
  inversion Hd as [|? ? Hd1 Hd2]; subst.
  assert (exists dur, logged E d w (snd (record E c d w)) dur) as [dur Hl].
  { pose proof (record_wp E c d w) as H. unfold wp, record_post in H.
    destruct (fst (record E c d w)); [destruct H; by eexists | destruct H as (dur & H & _); by eexists | done]. }
  destruct (IH _ Hd2 (logged_wf _ _ _ _ _ Hd1 Hl Hw)) as [H1 H2]. split; [done|].
  rewrite H2. destruct Hl as (_ & _ & -> & _). rewrite length_app. simpl. lia.
Qed.

(** C12: [record] returns only with the entry logged and, when AUDIT_LOG_FILE is
    set, written and fsynced; when it cannot be made durable the call raises
    AuditWriteError and nothing else; a webhook or alert failure is never raised. *)
Theorem record_durable {S : Type} (E : Env) (c : Config) (d : draft) (w : World S) :
  let w' := snd (record E c d w) in
  let e := d (record_id (au_process_id (w_audit w)) (au_seq (w_audit w) + 1)) (env_iso E (w_tick w)) in
  au_log (w_audit w') = (au_log (w_audit w) ++ [e])%list /\
  match fst (record E c d w) with
  | Ret _ =>
      au_file (w_audit w') =
        if String.eqb (AUDIT_LOG_FILE c) "" then au_file (w_audit w)
        else (au_file (w_audit w) ++ [e])%list
  | Raise x => is_Exception x = true ->
      (exists m, x = EAuditWrite m) /\ au_file (w_audit w') = au_file (w_audit w)
  | Crash => True
  end.
Proof.
  intros w' e. pose proof (record_wp E c d w) as H. unfold wp, record_post, durable_configured in H. fold w' in H.
  destruct (fst (record E c d w)) as [|x|].
  - destruct H as [(_ & _ & Hl & Hf) _]. split; [done|]. rewrite Hf.
    by destruct (String.eqb _ _); simpl; rewrite ?app_nil_r.
  - destruct H as (dur & (_ & _ & Hl & Hf) & Hx). split; [done|]. intros Hex.
    destruct (Hx Hex) as (Hm & -> & _). split; [done|]. by rewrite Hf, app_nil_r.
  - destruct H as (dur & (_ & _ & Hl & _)). done.
Qed.

(** Over any sequence of audit calls, failed writes included, every call logs
    one entry and no two entries of a process run have the same id. *)
Theorem record_ids_distinct {S : Type} (E : Env) (c : Config) (ds : list draft) (w : World S) :
  Forall draft_ok ds -> audit_wf (w_audit w) ->
  let log := au_log (w_audit (records E c ds w)) in
  List.NoDup (map a_id log) /\
  List.length log = (List.length (au_log (w_audit w)) + List.length ds)%nat.
Proof. intros Hd Hw. destruct (records_wf E c ds w Hd Hw) as [(_ & Hn & _) Hl]. done. Qed.

Definition sample_world : World unit :=
  mkWorld 0 tt (mkAudit "p" 0 false false [] []) (Webhooks.mkState None [] [])
    (Alerts.mkState None "" "" [] None false "") tron0 [] 0 [].
Definition sample_draft : draft := fun id ts =>
  mkEntry id ts "SEND_SUCCESS" "main" "TFrom" "TTo" "5" "USDT" "tx1" "k1" "ip" "t" "broadcast" "".

Lemma record_ids_distinct_witness :
  map a_id (au_log (w_audit (records sample_env default_config [sample_draft; sample_draft] sample_world)))
    = ["p-1"; "p-2"] /\
  List.NoDup (map a_id
    (au_log (w_audit (records sample_env default_config [sample_draft; sample_draft] sample_world)))).
Proof.
  split; [vm_compute; reflexivity|].
  apply (record_ids_distinct sample_env default_config [sample_draft; sample_draft] sample_world).
  - by repeat constructor.
  - split_and!; [done | constructor | done].
Defined.
