(* ===== verification/Send.v ===== *)
(** * POST /api/v1/send ([routes.py], [models.SendRequest])

    [send] is the whole handler, over any idempotency store.  The route holds
    [_send_lock], so one request at a time uses the store: a reserve that finds its
    key pending waits in vain and times out. *)
From S2P Require Import Prelude PyStr Decimal Effects RiskTypes Exceptions Idempotency Config AuditEntry World TronClient WalletPool Risk AuditLog.
From S2P Require Sanctions.
Open Scope string_scope.

Record SendRequest := mkSendRequest {
  to_address : string; amount : Dec; idempotency_key : string; rq_wallet : option string }.

(** pydantic's validation: field bounds, then [amount_max_decimals]. *)
Definition request_valid (r : SendRequest) : bool :=
  (String.length (to_address r) =? 34)%nat &&
  dec_ltb (dec_of_Z 0) (amount r) && negb (dexp (amount r) <? -6)%Z &&
  (1 <=? String.length (idempotency_key r))%nat && (String.length (idempotency_key r) <=? 128)%nat &&
  match rq_wallet r with Some n => (String.length n <=? 64)%nat | None => true end.

Record SendResponse := mkSendResponse {
  sr_txid : string; sr_from : string; sr_wallet : string; sr_to : string; sr_amount : string;
  sr_key : string; sr_status : string }.

(** [f"{x:.2f}"] *)
Definition fmt_2f (x : Q) : string :=
  let n := Qnum x * 100 in
  let d := Zpos (Qden x) in
  let m := half_even (Z.abs n / d) (Z.abs n mod d) d in
  (if (n <? 0)%Z then "-" else "") +:+ str_of_Z (m / 100) +:+ "." +:+
  digs (m / 10 mod 10) +:+ digs (m mod 10).

Section Send.
Context {S : Type} `{!IdemStore S} (E : Env) (c : Config) (p : pool) (sanc : Sanctions.state)
        (fuel : nat).
Abbreviation MW := (M (World S) exn).

(** ** The store, as the handler calls it *)
Definition on_store {A} (op : S -> outcome exn A * S) : MW A :=
  fun w => let '(o, s) := op (w_idem w) in (o, set_idem s w).
Definition sql : MW (fate exn) := ext (fun n => Ret (env_sql E n)).

(** [idempotency.reserve]; fuel that runs out is a request that never returns. *)
Fixpoint reserve_loop (fuel : nat) (key : string) : MW (option string) :=
  match fuel with
  | O => fun w => (Crash, w)
  | Datatypes.S fuel =>
      let! fx := sql in
      let! fc := sql in
      let! t := now E in
      let! s := gets w_idem in
      match st_pass fx fc t key s with
      | Done o s' => on_store (fun _ => (o, s'))
      | Again s' => do! on_store (fun _ => (Ret tt, s')) in reserve_loop fuel key
      | Wait => raise (EIdempotencyConflict key)
      end
  end.
Definition idem_reserve (key : string) : MW (option string) := reserve_loop fuel key.

Definition idem_commit (key txid : string) : MW unit :=
  let! fx := ext (fun n => Ret (env_sql_update E n)) in
  let! fc := sql in
  let! t := now E in
  on_store (st_commit fx fc t key txid).

Definition idem_release (key : string) : MW unit :=
  let! fx := sql in
  let! fc := sql in
  on_store (st_release fx fc key).

Definition idem_count : MW Z := on_store (fun s => (st_count s, s)).

(** ** The steps of the handler *)

(** [_resolve_wallet] *)
Definition resolve_wallet (name : option string) : MW wallet :=
  catch (resolve E name true "max-usdt" p) (fun exc =>
    match exc with
    | EPoolNotFound n av => Some (raise (EPayout (WalletNotFoundError n av)))
    | EPoolEmpty => Some (raise (EPayout WalletPoolEmptyError))
    | EPoolAutoPickFailed m => Some (raise (EPayout (WalletAutoPickFailed m)))
    | _ => None
    end).

(** [_validate_tron_address]: the reason an address is refused. *)
Definition address_error (address : string) : option string :=
  if negb (startswith "T" address) then Some "must start with T"
  else match b58decode_check E address with
  | None => Some "invalid base58check encoding"
  | Some decoded =>
      if negb (List.length decoded =? 21)%nat then Some "decoded length must be 21 bytes"
      else if negb (hd 0%Z decoded =? 65)%Z then Some "invalid TRON address prefix byte"
      else None
  end.
Definition validate_tron_address (address : string) : MW unit :=
  match address_error address with
  | None => ret tt
  | Some reason => do! emit (TxRejected "invalid_address") in raise (EPayout (InvalidAddress address reason))
  end.

Section Request.
Context (rq : SendRequest) (client_ip token_id : string).

(** [audit.record(event, wallet=..., from_address=..., ...)] as the handler calls it. *)
Definition entry_for (wl : wallet) (event txid result details : string) : draft := fun id ts =>
  mkEntry id ts event (wl_name wl) (wl_address wl) (to_address rq) (dec_to_string (amount rq)) "USDT"
    txid (idempotency_key rq) client_ip token_id result details.
Definition audit_event (wl : wallet) (event txid result details : string) : MW unit :=
  record E c (entry_for wl event txid result details).
Definition reject {A} (wl : wallet) (reason details : string) (exc : payout_error) : MW A :=
  do! audit_event wl "SEND_REJECTED" "" reason details in
  do! emit (TxRejected reason) in
  raise (EPayout exc).

(** The risk preflight: the level for the audit trail, or a refusal. *)
Definition risk_preflight (wl : wallet) : MW string :=
  if String.eqb (RISK_BLOCK_LEVEL c) "none" then ret "skipped"
  else
    let! report := assess_risk E c sanc (to_address rq) (RISK_USE_EXTERNAL c) in
    let level := level_value (rr_level report) in
    if should_block (rr_level report) (RISK_BLOCK_LEVEL c) then
      reject wl "risk_too_high"
        ("level=" +:+ level +:+ " failed=" +:+
         str_or (join "," (failed_checks (rr_checks report))) "none")
        (RiskTooHigh level report)
    else ret level.

(** The duplicate answer. *)
Definition answer_duplicate (wl : wallet) (txid : string) : MW SendResponse :=
  do! audit_event wl "SEND_DUPLICATE" txid "duplicate" "" in
  do! emit TxDuplicate in
  ret (mkSendResponse txid (wl_address wl) (wl_name wl) (to_address rq)
         (dec_to_string (amount rq)) (idempotency_key rq) "duplicate").

(** The checks between the reservation and the broadcast: the fee limit. *)
Definition preflight (wl : wallet) : MW Z :=
  let! balance := get_usdt_balance_for E (wl_address wl) in
  do! when (dec_ltb balance (amount rq))
    (reject wl "insufficient_usdt" ("have=" +:+ dec_to_string balance)
       (InsufficientBalance "USDT" (dec_to_string balance) (dec_to_string (amount rq)))) in
  let! trx_balance := get_trx_balance_for E (wl_address wl) in
  do! when (dec_ltb trx_balance (MIN_TRX_RESERVE c))
    (reject wl "insufficient_trx" ("have=" +:+ dec_to_string trx_balance)
       (InsufficientBalance "TRX" (dec_to_string trx_balance) (dec_to_string (MIN_TRX_RESERVE c)))) in
  do! emit (Balances trx_balance balance) in
  let! _ := get_destination_info E (to_address rq) in
  let! estimated_energy := estimate_transfer_energy E (wl_address wl) (to_address rq) (amount rq) in
  let energy := int_or_0 estimated_energy in
  do! when (negb (energy =? 0)%Z)
    (let! energy_price := energy_price_sun E c in
     let burn := dec_div_pow10 (dec_mul (dec_of_Z energy) (dec_of_Z energy_price)) 6 in
     do! emit (EnergyEstimated energy) in
     do! emit (EnergyBurn burn) in
     when (dec_ltb (dec_of_Z 0) (MAX_ENERGY_BURN_TRX c) && dec_ltb (MAX_ENERGY_BURN_TRX c) burn)
       (reject wl "energy_too_expensive"
          ("energy=" +:+ str_of_Z energy +:+ " burn=" +:+ dec_to_string burn +:+ " TRX limit=" +:+
           dec_to_string (MAX_ENERGY_BURN_TRX c) +:+ " TRX")
          (EnergyTooExpensive energy (dec_to_string burn) (dec_to_string (MAX_ENERGY_BURN_TRX c))))) in
  let! fee_limit_sun := compute_fee_limit_sun E c estimated_energy in
  do! emit (FeeLimitSun fee_limit_sun) in
  ret fee_limit_sun.

(** [except PayoutError: raise]; [except Exception]: audited and turned into
    TransactionFailed. *)
Definition checked_preflight (wl : wallet) : MW Z :=
  catch (preflight wl) (fun exc =>
    if is_PayoutError exc then None
    else if is_Exception exc then Some (
      let! _ := now E in
      do! audit_event wl "SEND_FAILED" "" "rpc_failed" (exn_class exc +:+ ": " +:+ exn_str exc) in
      do! emit (TxRejected "rpc_failed") in
      raise (EPayout (TransactionFailed ("pre-broadcast RPC failed: " +:+ exn_str exc))))
    else None).

Definition broadcast_step (wl : wallet) (started : time) (fee_limit_sun : Z) : MW string :=
  try_except
    (do! get_usdt_contract E in
     send_usdt E c (idempotency_key rq) wl (to_address rq) (amount rq) (Some fee_limit_sun))
    (fun exc =>
       let! t := now E in
       do! audit_event wl "SEND_FAILED" "" "tx_failed" (exn_str exc) in
       do! emit (TxBroadcast "failed") in
       do! emit (TxDuration "failed" (t - started)%Q) in
       raise (EPayout (TransactionFailed (exn_str exc)))).

(** What the reservation protects: [except BaseException: release; raise]. *)
Definition guarded_send (wl : wallet) (started : time) : MW string :=
  on_exception
    (let! fee_limit_sun := checked_preflight wl in
     let! txid := broadcast_step wl started fee_limit_sun in
     do! idem_commit (idempotency_key rq) txid in
     ret txid)
    (idem_release (idempotency_key rq)).

Definition answer_success (wl : wallet) (started : time) (risk_level txid : string) : MW SendResponse :=
  let! t := now E in
  let elapsed := (t - started)%Q in
  do! audit_event wl "SEND_SUCCESS" txid "broadcast"
        ("elapsed=" +:+ fmt_2f elapsed +:+ "s risk=" +:+ risk_level) in
  do! emit (TxBroadcast "success") in
  do! emit (TxDuration "success" elapsed) in
  let! n := idem_count in
  do! emit (IdempotencySize n) in
  ret (mkSendResponse txid (wl_address wl) (wl_name wl) (to_address rq)
         (dec_to_string (amount rq)) (idempotency_key rq) "broadcast").

(** [_send_impl] *)
Definition send : MW SendResponse :=
  let! started := now E in
  let! wl := resolve_wallet (rq_wallet rq) in
  do! validate_tron_address (to_address rq) in
  let! risk_level := risk_preflight wl in
  let! existing := idem_reserve (idempotency_key rq) in
  match existing with
  | Some txid => answer_duplicate wl txid
  | None =>
      let! txid := guarded_send wl started in
      answer_success wl started risk_level txid
  end.

#[local] Typeclasses Opaque on_store.
#[global] Instance frame_reject {A} wl r d e : Frame same_core (reject (A:=A) wl r d e).
Proof. unfold reject, audit_event. frames. Qed.
#[global] Instance frame_resolve_wallet n : Frame same_core (resolve_wallet n).
Proof.
  apply frame_catch; [apply _..|]. intros e r H. destruct e; simplify_eq; apply _.
Qed.
#[global] Instance frame_validate a : Frame same_core (validate_tron_address a).
Proof. unfold validate_tron_address. frames. Qed.
#[global] Instance frame_risk_preflight wl : Frame same_core (risk_preflight wl).
Proof. unfold risk_preflight. frames. Qed.
#[global] Instance frame_duplicate wl t : Frame same_core (answer_duplicate wl t).
Proof. unfold answer_duplicate, audit_event. frames. Qed.
#[global] Instance frame_preflight wl : Frame same_core (preflight wl).
Proof. unfold preflight. frames. Qed.
#[global] Instance frame_checked wl : Frame same_core (checked_preflight wl).
Proof.
  apply frame_catch; [apply _..|]. intros e r. destruct (is_PayoutError e); [done|].
  destruct (is_Exception e); [|done]. intros [= <-]. unfold audit_event. frames.
Qed.
#[global] Instance frame_idem_count : Frame same_core idem_count.
Proof. intros w. split; destruct w; done. Qed.
#[global] Instance frame_success wl st r t : Frame same_core (answer_success wl st r t).
Proof. unfold answer_success, audit_event. frames. Qed.
End Request.
End Send.
