(* ===== verification/IdemGuard.v ===== *)
(** * What a store keeps when its SQL statements fail

    [IdemStoreLaws] says what the operations do when every statement works.  These
    laws say what survives when statements raise or the process dies: the facts the
    at-most-once argument of [Safety] needs of a store. *)
From S2P Require Import Prelude PyStr Exceptions Idempotency.
Open Scope string_scope.

Class IdemGuard (S : Type) `{!IdemStore S} := {
  held : string -> S -> Prop;      (** never given out again, by this process or a later one *)
  reserved : string -> S -> Prop;  (** given out by [reserve], and recorded for a later process *)
  lasting : string -> S -> Prop;   (** recorded for a later process *)
  restart : S -> S -> Prop }.      (** the process died; another opened what it left *)

Class IdemGuardLaws (S : Type) `{!IdemStore S, !IdemGuard S} : Prop := {
  held_lasting k s : held k s -> lasting k s;
  reserved_lasting k s : reserved k s -> lasting k s;
  held_not_reserved k s : held k s -> reserved k s -> False;
  pass_held k key fx fc now s : held k s ->
    match st_pass fx fc now key s with
    | Done o s' => held k s' /\ (k = key -> o <> Ret None)
    | Again s' => held k s'
    | Wait => True
    end;
  pass_reserved key fx fc now s s' :
    st_pass fx fc now key s = Done (Ret None) s' -> reserved key s';
  commit_keeps k key txid fx fc now s : held k s -> held k (snd (st_commit fx fc now key txid s));
  commit_held key txid fx fc now s : reserved key s -> bad_txid txid = false ->
    (forall e, fx <> Fails e) ->
    match st_commit fx fc now key txid s with
    | (Crash, s') => lasting key s'
    | (_, s') => held key s'
    end;
  release_keeps k key fx fc s : held k s -> held k (snd (st_release fx fc key s));
  restart_held k s s' : restart s s' -> lasting k s -> held k s' }.

(** ** The in-memory store: nothing fails, nothing survives *)
#[global] Instance Memory_guard : IdemGuard Memory.store := {
  held k s := exists v, Memory.dict s !! k = Some v /\ v <> PENDING;
  reserved k s := Memory.dict s !! k = Some PENDING;
  lasting _ _ := True;
  restart _ _ := False }.

#[global] Instance Memory_guard_laws : IdemGuardLaws Memory.store.
Proof.
  split; simpl; try done.
  - intros k s (v & Hv & Hn) H. congruence.
  - intros k key _ _ _ s (v & Hv & Hn). unfold Memory.reserve_pass.
    destruct (Memory.dict s !! key) as [v'|] eqn:Hk.
    + destruct (String.eqb_spec v' PENDING); [done|]. split; [by exists v | done].
    + split; [|intros ->; congruence]. exists v. simpl. rewrite lookup_insert_ne; [done|]. congruence.
  - intros key _ _ _ s s'. unfold Memory.reserve_pass.
    destruct (Memory.dict s !! key) as [v'|]; [by destruct (String.eqb v' PENDING)|].
    intros [= <-]. simpl. apply lookup_insert_eq.
  - intros k key txid _ _ _ s (v & Hv & Hn). unfold Memory.commit.
    destruct (bad_txid txid) eqn:Hb; simpl; [by exists v|].
    destruct (decide (key = k)) as [->|]; [|exists v; by rewrite lookup_insert_ne].
    exists txid. rewrite lookup_insert_eq. split; [done|]. unfold bad_txid in Hb.
    apply orb_false_iff in Hb as [_ Hb]. by apply String.eqb_neq in Hb.
  - intros key txid _ _ _ s _ Hb _. unfold Memory.commit. rewrite Hb. simpl.
    exists txid. rewrite lookup_insert_eq. split; [done|]. unfold bad_txid in Hb.
    apply orb_false_iff in Hb as [_ Hb]. by apply String.eqb_neq in Hb.
  - intros k key _ _ s (v & Hv & Hn). unfold Memory.release. simpl.
    case_bool_decide; simpl; [|by exists v]. exists v. rewrite lookup_delete_ne; [done|]. congruence.
Qed.

(** ** The SQLite store *)
#[global] Instance Sqlite_guard : IdemGuard Sqlite.store := {
  held k s := (exists r, Sqlite.view s !! k = Some r /\ Sqlite.r_status r <> Sqlite.PENDING_) /\
              is_Some (Sqlite.disk s !! k);
  reserved k s := Sqlite.conn s = true /\
              (exists r, Sqlite.view s !! k = Some r /\ Sqlite.r_status r = Sqlite.PENDING_) /\
              is_Some (Sqlite.disk s !! k);
  lasting k s := is_Some (Sqlite.disk s !! k);
  restart s s' := exists pid fx fc now n, Sqlite.open_store pid fx fc now (Sqlite.disk s) = (Ret n, s') }.

(** A write that keeps a row that is not pending keeps what holds its key. *)
Lemma Sqlite_write_held k fx fc upd s :
  (forall r v, v !! k = Some r -> Sqlite.r_status r <> Sqlite.PENDING_ ->
     exists r', upd v !! k = Some r' /\ Sqlite.r_status r' <> Sqlite.PENDING_) ->
  held k s -> held k (snd (Sqlite.write fx fc upd s)).
Proof.
  intros Hu [(r & Hr & Hs) Hd]. destruct (Hu r _ Hr Hs) as (r' & Hr' & Hs').
  unfold Sqlite.write, Sqlite.execute, Sqlite.db_commit.
  destruct fx; simpl; [destruct fc; simpl|..]; split; eauto; eexists; done.
Qed.

#[global] Instance Sqlite_guard_laws : IdemGuardLaws Sqlite.store.
Proof.
  split.
  - by intros k s [_ H].
  - by intros k s (_ & _ & H).
  - intros k s [(r & Hr & Hs) _] (_ & (r' & Hr' & Hs') & _). simplify_eq.
  - intros k key fx fc now s [(r & Hr & Hs) Hd]. simpl. unfold Sqlite.reserve_pass, Sqlite.fetch_row.
    destruct (Sqlite.conn s); simpl; [|by split; [split; eauto|]].
    destruct (Sqlite.view s !! key) as [rk|] eqn:Hk; simpl.
    { destruct (Sqlite.r_status rk) eqn:Hrk; simpl; [done|..]; (split; [split; eauto | done]). }
    assert (key <> k) by congruence. unfold Sqlite.insert_pending. rewrite Hk.
    destruct fx; simpl; [destruct fc; simpl|..]; repeat case_match; simplify_eq/=;
      repeat (split || (intros ->; done)); eauto;
      rewrite ?lookup_insert_ne by done; eauto; by eexists.
  - intros key fx fc now s s'. simpl. unfold Sqlite.reserve_pass, Sqlite.fetch_row.
    destruct (Sqlite.conn s) eqn:Hc; simpl; [|done].
    destruct (Sqlite.view s !! key) as [rk|] eqn:Hk; simpl; [by destruct (Sqlite.r_status rk)|].
    unfold Sqlite.insert_pending. rewrite Hk.
    destruct fx; simpl; [destruct fc; simpl|..]; intros H; repeat case_match; simplify_eq/=.
    split; [done|]. rewrite !lookup_insert_eq. split; [by eexists | by eexists].
  - intros k key txid fx fc now s H. simpl. unfold Sqlite.commit.
    destruct (bad_txid txid); [done|]. destruct (negb (Sqlite.conn s)); [done|].
    apply Sqlite_write_held; [|done]. intros r v Hr Hs.
    destruct (decide (key = k)) as [->|Hne].
    + rewrite lookup_alter_eq, Hr. by eexists.
    + rewrite lookup_alter_ne by done. eauto.
  - intros key txid fx fc now s (Hc & (r & Hr & Hs) & Hd) Hb Hf. simpl. unfold Sqlite.commit.
    rewrite Hb, Hc. simpl. unfold Sqlite.write, Sqlite.execute, Sqlite.db_commit.
    destruct fx as [|e|]; [|by destruct (Hf e)|done]. destruct fc; simpl.
    all: try (rewrite !lookup_alter_eq, Hr; simpl; split; [by eexists|]; eauto; by eexists).
    done.
  - intros k key fx fc s H. simpl. unfold Sqlite.release. destruct (negb (Sqlite.conn s)); [done|].
    apply Sqlite_write_held; [|done]. intros r v Hr Hs. unfold Sqlite.delete_pending.
    destruct (v !! key) as [rk|] eqn:Hk; [|eauto]. case_bool_decide; [|eauto].
    exists r. rewrite lookup_delete_ne; [done|]. congruence.
  - intros k s s' (pid & fx & fc & now & n & H) [r Hr]. unfold Sqlite.open_store, Sqlite.recover_orphans in H.
    unfold Sqlite.write, Sqlite.execute, Sqlite.db_commit in H.
    destruct fx; simpl in H; [destruct fc; simpl in H|..]; simplify_eq/=.
    rewrite lookup_fmap, Hr. simpl. split; [|by eexists].
    eexists. split; [done|]. unfold Sqlite.promote. destruct (Sqlite.r_status r) eqn:Hs; simpl; congruence.
Qed.
