(* ===== verification/Safety.v ===== *)
(** * At most one payout per idempotency key

    The histories of the service: requests to [/send] one after another, each with
    any outcome, and crashes followed by restarts.  The invariant is proved against
    the guard interface of the store, so it covers both implementations. *)
From S2P Require Import Prelude PyStr Decimal Effects RiskTypes Exceptions Idempotency IdemGuard Config AuditEntry World TronClient WalletPool Risk AuditLog Send.
From S2P Require Sanctions Webhooks Alerts.
Open Scope string_scope.

(** The node refused the broadcast, or the call raised (the client treats both as
    "not sent").  The other answers are an acceptance and a crash of the process
    before the answer was read. *)
Definition refused (a : attempt) : bool :=
  match at_answer a with
  | Ret b => match read_answer b with inl _ => true | inr _ => false end
  | Raise _ => true
  | Crash => false
  end.

(** A key is broadcast again only after a refusal. *)
Definition once (l : list attempt) : Prop := forall i j a b, (i < j)%nat ->
  l !! i = Some a -> l !! j = Some b -> at_key a = at_key b -> refused a = true.

Lemma once_snoc l a : once l ->
  (forall b, In b l -> at_key b = at_key a -> refused b = true) -> once (l ++ [a]).
Proof.
  intros Ho Ha i j x y Hij Hi Hj Hk.
  assert (j < List.length (l ++ [a]))%nat as Hlen by (eapply lookup_lt_Some; exact Hj).
  rewrite length_app in Hlen. simpl in Hlen.
  rewrite lookup_app_l in Hi by lia.
  destruct (decide (j < List.length l)%nat).
  - rewrite lookup_app_l in Hj by done. by eapply (Ho i j).
  - replace j with (List.length l) in Hj by lia. rewrite list_lookup_middle in Hj by done.
    simplify_eq. apply Ha; [|done]. apply list_elem_of_In. by eapply list_elem_of_lookup_2.
Qed.

(** What the node may answer, and which statement may not fail. *)
Record sound_env (E : Env) : Prop := {
  update_works : forall n e, env_sql_update E n <> Fails e;
  txid_real : forall n tx b txid, broadcast E n tx = Ret b -> read_answer b = inr txid ->
    bad_txid txid = false }.

Section Safety.
Context {S : Type} `{!IdemStore S, !IdemGuard S, !IdemGuardLaws S}.
Context (E : Env) (HE : sound_env E).
Context (c : Config).
Implicit Types w : World S.

(** Between requests: every key that may have been paid is held. *)
Definition settled w : Prop := once (w_attempts w) /\
  forall a, In a (w_attempts w) -> refused a = false -> held (at_key a) (w_idem w).
(** After a crash: it is recorded for the next process. *)
Definition crashed w : Prop := once (w_attempts w) /\
  forall a, In a (w_attempts w) -> refused a = false -> lasting (at_key a) (w_idem w).
(** While a request holds [key]. *)
Definition holding (key : string) w : Prop := settled w /\ reserved key (w_idem w).
(** After a broadcast for [key], before the commit. *)
Definition paying (key : string) w : Prop := once (w_attempts w) /\ reserved key (w_idem w) /\
  forall a, In a (w_attempts w) -> refused a = false -> at_key a = key \/ held (at_key a) (w_idem w).

Lemma settled_crashed w : settled w -> crashed w.
Proof. intros [Ho Hh]. split; [done|]. intros a Ha Hr. by apply held_lasting, Hh. Qed.
Lemma holding_paying key w : holding key w -> paying key w.
Proof. intros [[Ho Hh] Hr]. split_and!; auto. Qed.
Lemma paying_crashed key w : paying key w -> crashed w.
Proof.
  intros (Ho & Hr & Hh). split; [done|]. intros a Ha Hf.
  destruct (Hh a Ha Hf) as [-> | H]; [by apply reserved_lasting | by apply held_lasting].
Qed.

(** The postcondition of a step: settled, or crashed with the process. *)
Definition after {A} (Q : A -> World S -> Prop) (o : outcome exn A) w : Prop :=
  match o with Ret a => Q a w | Raise _ => settled w | Crash => crashed w end.

Definition core_closed (P : World S -> Prop) : Prop :=
  forall w w', same_core w w' -> P w -> P w'.
Lemma settled_core : core_closed settled.
Proof. intros w w' [Hi Ha] H. unfold settled. rewrite Hi, Ha. done. Qed.
Lemma holding_core key : core_closed (holding key).
Proof. intros w w' [Hi Ha] H. unfold holding, settled. rewrite Hi, Ha. done. Qed.
Lemma paying_core key : core_closed (paying key).
Proof. intros w w' [Hi Ha] H. unfold paying. rewrite Hi, Ha. done. Qed.

(** A framed step in front of a continuation, and at the end. *)
Lemma wp_core_bind {A B} (m : M (World S) exn A) (k : A -> M (World S) exn B) P Q w :
  Frame same_core m -> core_closed P -> (forall w, P w -> settled w) -> P w ->
  (forall a w', P w' -> wp (k a) (after Q) w') -> wp (bind m k) (after Q) w.
Proof.
  intros Hf HP Hs Hw Hk. apply wp_bind. apply (wp_frame same_core m); [done|].
  intros o w' Hw'. apply (HP _ _ Hw') in Hw. destruct o; simpl; [by apply Hk | by apply Hs|].
  by apply settled_crashed, Hs.
Qed.
Lemma wp_core {A} (m : M (World S) exn A) P (Q : A -> World S -> Prop) w :
  Frame same_core m -> core_closed P -> (forall w, P w -> settled w) -> P w ->
  (forall a w', P w' -> Q a w') -> wp m (after Q) w.
Proof.
  intros Hf HP Hs Hw HQ. apply (wp_frame same_core m); [done|].
  intros o w' Hw'. apply (HP _ _ Hw') in Hw. destruct o; simpl; [by apply HQ | by apply Hs|].
  by apply settled_crashed, Hs.
Qed.

Lemma held_pass w key fx fc t : settled w ->
  match st_pass fx fc t key (w_idem w) with
  | Done o s' => settled (set_idem s' w)
  | Again s' => settled (set_idem s' w)
  | Wait => True
  end.
Proof.
  intros [Ho Hh]. destruct (st_pass _ _ _ _ _) as [o s'|s'|] eqn:Hp; [| |done].
  all: split; [done|]; intros a Ha Hr; simpl;
    pose proof (pass_held (at_key a) key fx fc t (w_idem w) (Hh a Ha Hr)) as H; rewrite Hp in H.
  - apply H.
  - exact H.
Qed.

Lemma reserve_wp fuel key w : settled w ->
  wp (reserve_loop E fuel key)
     (after (fun r w' => match r with None => holding key w' | Some _ => settled w' end)) w.
Proof.
  revert w. induction fuel as [|fuel IH]; intros w Hw; [by apply settled_crashed|].
  simpl. do 4 (apply wp_bind; unfold wp at 1; simpl).
  match goal with |- wp _ _ ?w1 => set (w' := w1) end.
  assert (settled w') as Hw' by exact Hw. fold (env_now E). 
  match goal with |- context [st_pass ?fx ?fc ?t _ _] =>
    pose proof (held_pass w' key fx fc t Hw') as Hs;
    pose proof (fun s' => pass_reserved key fx fc t (w_idem w') s') as Hr
  end.
  change (w_idem (set_tick _ _)) with (w_idem w').
  destruct (st_pass _ _ _ _ _) as [o s'|s'|]; [| |done].
  - destruct o as [[txid|]|e|]; [exact Hs | | exact Hs | by apply settled_crashed].
    split; [exact Hs | by apply Hr].
  - apply wp_bind. unfold wp at 1. simpl. by apply IH.
Qed.

Lemma release_wp key w : settled w -> wp (idem_release E key) (after (fun _ => settled)) w.
Proof.
  intros [Ho Hh]. unfold idem_release. do 2 (apply wp_bind; unfold wp at 1; simpl).
  unfold wp, on_store; simpl.
  match goal with |- context [st_release ?fx ?fc _ _] =>
    pose proof (fun k => release_keeps k key fx fc (w_idem w)) as Hk;
    destruct (st_release fx fc key (w_idem w)) as [o s'] end.
  simpl in *. assert (settled (set_idem s' w)) as Hs.
  { split; [done|]. intros a Ha Hr. simpl. by apply Hk, Hh. }
  destruct o; simpl; [exact Hs | exact Hs | by apply settled_crashed in Hs].
Qed.

Lemma commit_wp key txid w : paying key w -> bad_txid txid = false ->
  wp (idem_commit E key txid) (after (fun _ => settled)) w.
Proof.
  intros (Ho & Hr & Hh) Hb. unfold idem_commit. do 3 (apply wp_bind; unfold wp at 1; simpl).
  unfold wp, on_store; simpl.
  match goal with |- context [st_commit ?fx ?fc ?t _ _ _] =>
    pose proof (fun k => commit_keeps k key txid fx fc t (w_idem w)) as Hk;
    pose proof (commit_held key txid fx fc t (w_idem w) Hr Hb (update_works E HE _)) as Hc;
    destruct (st_commit fx fc t key txid (w_idem w)) as [o s'] end.
  simpl in *.
  assert (forall a, In a (w_attempts w) -> refused a = false -> at_key a <> key -> held (at_key a) s') as Hoth.
  { intros a Ha Hf Hne. apply Hk. by destruct (Hh a Ha Hf). }
  destruct o as [[]|e|]; (split; [exact Ho|]); intros a Ha Hf; simpl;
    (destruct (decide (at_key a = key)) as [->|Hne]; [exact Hc|]); auto using held_lasting.
Qed.

(** The broadcast: accepted, the request is paying; raised, it still holds. *)
Lemma send_usdt_wp key wl to_ amt fee w : holding key w ->
  wp (send_usdt E c key wl to_ amt fee) (fun o w' =>
    match o with
    | Ret txid => paying key w' /\ bad_txid txid = false
    | Raise _ => holding key w'
    | Crash => crashed w'
    end) w.
Proof.
  intros [[Ho Hh] Hr]. eapply wp_mono; [|apply send_usdt_sent].
  intros o w' [Hi [[Ha Hne] | (n & _ & Ha & ->)]].
  - assert (holding key w') as Hw' by (split; [split|]; rewrite ?Ha, ?Hi; done).
    destruct o as [txid|e|]; [by destruct (Hne txid) | done | by apply settled_crashed, Hw'].
  - set (tx := mkTransfer _ _ _ _) in *. set (a := mkAttempt key tx (broadcast E n tx)) in *.
    assert (once (w_attempts w')) as Ho'.
    { rewrite Ha. apply once_snoc; [done|]. intros b Hb Hk.
      destruct (refused b) eqn:Hf; [done|]. destruct (held_not_reserved key (w_idem w)); [|done].
      specialize (Hh b Hb Hf). by rewrite Hk in Hh. }
    assert (paying key w') as Hp.
    { split_and!; [done | by rewrite Hi|]. intros b Hb Hf. rewrite Ha in Hb.
      apply in_app_or in Hb as [Hb|[<-|[]]]; [right; rewrite Hi; auto | by left]. }
    unfold answer_outcome. destruct (broadcast E n tx) as [b|e|] eqn:Hbr; [|..].
    + destruct (read_answer b) as [e|txid] eqn:Hread.
      * assert (refused a = true) by (unfold refused, a; simpl; by rewrite Hread).
        split; [|by rewrite Hi]. split; [done|]. intros x Hx Hf. rewrite Ha in Hx.
        apply in_app_or in Hx as [Hx|[<-|[]]]; [rewrite Hi; auto | congruence].
      * split; [done|]. by eapply (txid_real E HE).
    + split; [|by rewrite Hi]. split; [done|]. intros x Hx Hf. rewrite Ha in Hx.
      apply in_app_or in Hx as [Hx|[<-|[]]]; [rewrite Hi; auto | done].
    + by eapply paying_crashed.
Qed.

Section Handler.
Context (p : pool) (sanc : Sanctions.state) (fuel : nat) (rq : SendRequest) (ip tok : string).
Abbreviation key := (idempotency_key rq).

Lemma holding_settled w : holding key w -> settled w.
Proof. by intros [? _]. Qed.

(** A failed step leaves the key held by the request: [release] may run. *)
Definition step_ok {A} (Q : A -> World S -> Prop) (o : outcome exn A) w : Prop :=
  match o with Ret a => Q a w | Raise _ => holding key w | Crash => crashed w end.

(** An [except] clause that audits and raises again. *)
Lemma wp_handler {A} (m : M (World S) exn A) h (Q : A -> World S -> Prop) w :
  (forall e r, h e = Some r -> Frame same_core r /\ NoRet r) ->
  wp m (step_ok Q) w -> wp (catch m h) (step_ok Q) w.
Proof.
  intros Hh Hm. apply wp_catch. eapply wp_mono; [|exact Hm].
  intros [a|e|] w' Hw'; [done| |done]. simpl in Hw'. destruct (h e) as [r|] eqn:Hr; [|done].
  destruct (Hh e r Hr) as [Hf Hn]. pose proof (holding_core key _ _ (Hf w') Hw') as Hk.
  unfold wp, step_ok. specialize (Hn w'). destruct (fst (r w')) as [a|e'|] eqn:He; [by destruct (Hn a)|done|].
  by apply settled_crashed, holding_settled.
Qed.

Lemma broadcast_wp wl started fee w : holding key w ->
  wp (broadcast_step E c rq ip tok wl started fee)
     (step_ok (fun txid w' => paying key w' /\ bad_txid txid = false)) w.
Proof.
  intros Hw. apply wp_handler.
  - intros e r. destruct (is_Exception e); [|done]. intros [= <-]. unfold audit_event. split; [frames | apply _].
  - apply wp_bind. apply (wp_frame same_core); [apply _|]. intros o w1 Hc. apply (holding_core key _ _ Hc) in Hw.
    destruct o as [[]|e|]; [|exact Hw | by apply settled_crashed, holding_settled].
    eapply wp_mono; [|by apply send_usdt_wp]. intros [txid|e|] w2 H; exact H.
Qed.

Lemma guarded_wp wl started w : holding key w ->
  wp (guarded_send E c rq ip tok wl started) (after (fun _ => settled)) w.
Proof.
  intros Hw. apply wp_catch.
  eapply (wp_mono _ (after (fun _ => settled))).
  { intros [a|e|] w1 H1; [exact H1| |exact H1]. apply wp_bind.
    eapply wp_mono; [|by apply release_wp]. intros [a|e'|] w2 H2; exact H2. }
  apply wp_bind. apply (wp_frame same_core); [apply _|]. intros o w1 Hc. apply (holding_core key _ _ Hc) in Hw.
  destruct o as [fee|e|]; [|by apply holding_settled | by apply settled_crashed, holding_settled].
  apply wp_bind. eapply wp_mono; [|by apply (broadcast_wp wl started fee)].
  intros [txid|e|] w2 H2; [|by apply holding_settled | exact H2]. destruct H2 as [Hp Hb].
  apply wp_bind. eapply wp_mono; [|by apply (commit_wp key txid)].
  intros [a|e|] w3 H3; exact H3.
Qed.

(** The whole handler. *)
Lemma send_wp w : settled w ->
  wp (send E c p sanc fuel rq ip tok) (after (fun _ => settled)) w.
Proof.
  intros Hw. unfold send.
  apply (wp_core_bind _ _ settled); [apply _ | apply settled_core | done | done | intros started w1 H1].
  apply (wp_core_bind _ _ settled); [apply _ | apply settled_core | done | done | intros wl w2 H2].
  apply (wp_core_bind _ _ settled); [apply _ | apply settled_core | done | done | intros [] w3 H3].
  apply (wp_core_bind _ _ settled); [apply _ | apply settled_core | done | done | intros lvl w4 H4].
  apply wp_bind. eapply wp_mono; [|by apply reserve_wp]. intros [ex|e|] w5 H5; [|exact H5..].
  destruct ex as [txid|].
  - by apply (wp_core _ settled); [apply _ | apply settled_core | ..].
  - apply wp_bind. eapply wp_mono; [|by apply guarded_wp]. intros [txid|e|] w6 H6; [|exact H6..].
    by apply (wp_core _ settled); [apply _ | apply settled_core | ..].
Qed.
End Handler.
End Safety.

(** ** Histories *)
Section Histories.
Context {S : Type} `{!IdemStore S, !IdemGuard S}.
Context (E : Env).
Implicit Types w : World S.

(** A new process on what the old one left: its own record ids, empty caches and
    queues, the durable audit file, and the store [restart] opened. *)
Definition boot (pid : string) (tick : nat) (s' : S) (h : Webhooks.state) (al : Alerts.state) w : World S :=
  mkWorld tick s' (mkAudit pid 0 false false (au_file (w_audit w)) []) h al tron0 [] 0 (w_attempts w).

Inductive history_step : World S -> World S -> Prop :=
| Served c p sanc fuel rq ip tok w :
    fst (send E c p sanc fuel rq ip tok w) <> Crash ->
    history_step w (snd (send E c p sanc fuel rq ip tok w))
| Killed c p sanc fuel rq ip tok w pid tick s' h al :    (** at any point of a request *)
    restart (w_idem (snd (send E c p sanc fuel rq ip tok w))) s' ->
    history_step w (boot pid tick s' h al (snd (send E c p sanc fuel rq ip tok w)))
| Restarted w pid tick s' h al :                         (** between requests *)
    restart (w_idem w) s' -> history_step w (boot pid tick s' h al w)
| OtherCall w w' :                                       (** any call that pays nobody *)
    same_core w w' -> history_step w w'.

Context `{!IdemGuardLaws S} (HE : sound_env E).

Lemma boot_settled pid tick s' h al w : restart (w_idem w) s' -> crashed w ->
  settled (boot pid tick s' h al w).
Proof.
  intros Hr [Ho Hl]. split; [done|]. intros a Ha Hf. simpl in *. eapply restart_held; [done|]. by apply Hl.
Qed.

Lemma history_step_settled w w' : settled w -> history_step w w' -> settled w'.
Proof.
  intros Hw Hs. destruct Hs as [c p sanc fuel rq ip tok w Hc
    | c p sanc fuel rq ip tok w pid tick s' h al Hr | w pid tick s' h al Hr | w w' Hc].
  - pose proof (send_wp E HE c p sanc fuel rq ip tok w Hw) as H. unfold wp, after in H.
    by destruct (fst (send _ _ _ _ _ _ _ _ w)).
  - pose proof (send_wp E HE c p sanc fuel rq ip tok w Hw) as H. unfold wp, after in H.
    apply boot_settled; [done|]. destruct (fst (send _ _ _ _ _ _ _ _ w)); auto using settled_crashed.
  - apply boot_settled; [done | by apply settled_crashed].
  - by eapply settled_core.
Qed.
End Histories.


(** ** A concrete service: one wallet, the SQLite store *)
Definition demo_wallet : wallet := mkWallet "main" "TMain" (Some "k").
Definition demo_pool : pool := init [demo_wallet] pool0.
Definition demo_request : SendRequest :=
  mkSendRequest "TRecipient00000000000000000000000A" (mkDec 25 (-1)) "key-1" None.
Definition demo_world : World Sqlite.store :=
  mkWorld 0 (Sqlite.mkStore "pid1" true ∅ ∅) (mkAudit "p1" 0 false false [] [])
    (Webhooks.mkState None [] []) (Alerts.mkState None "" "" [] None false "") tron0 [] 0 [].
Definition demo_send (E : Env) (w : World Sqlite.store) : outcome exn SendResponse * World Sqlite.store :=
  send E default_config demo_pool (Sanctions.mkState (Some ∅) Sanctions.FromCache None) 3 demo_request "ip" "t" w.

Lemma demo_step w : fst (demo_send sample_env w) <> Crash ->
  history_step sample_env w (snd (demo_send sample_env w)).
Proof.
  exact (Served sample_env default_config demo_pool (Sanctions.mkState (Some ∅) Sanctions.FromCache None)
           3 demo_request "ip" "t" w).
Qed.

Example demo_sends_once :
  let r1 := demo_send sample_env demo_world in
  let r2 := demo_send sample_env (snd r1) in
  (sr_status <$> (match fst r1 with Ret r => Some r | _ => None end)) = Some "broadcast" /\
  (sr_status <$> (match fst r2 with Ret r => Some r | _ => None end)) = Some "duplicate" /\
  List.length (w_attempts (snd r2)) = 1%nat.
Proof. vm_compute. done. Qed.

(** ** Functional behaviour of the handler *)

(** [sample_env] with another store, broadcast and UPDATE behaviour. *)
Definition env_with (upd : nat -> fate exn) (bcast : nat -> transfer -> outcome exn broadcast_result) : Env := {|
  env_now := env_now sample_env; env_iso := env_iso sample_env; env_hour := env_hour sample_env;
  env_sql := env_sql sample_env; env_sql_update := upd; env_disk := env_disk sample_env;
  env_hooks := env_hooks sample_env; b58decode_check := b58decode_check sample_env;
  get_contract_usdt := get_contract_usdt sample_env;
  get_account_balance := get_account_balance sample_env; balanceOf := balanceOf sample_env;
  isBlackListed := isBlackListed sample_env; get_account := get_account sample_env;
  get_contract := get_contract sample_env; get_chain_parameters := get_chain_parameters sample_env;
  encode_single := encode_single sample_env; get_estimated_energy := get_estimated_energy sample_env;
  get_account_resource := get_account_resource sample_env;
  get_latest_block_number := get_latest_block_number sample_env;
  build_and_sign := build_and_sign sample_env; broadcast := bcast;
  tronscan := tronscan sample_env; misttrack := misttrack sample_env |}.


(** C31: what protects a key is undone when the UPDATE that records the txid raises:
    with that one SQL statement failing once and everything else working, a
    request broadcasts and answers an error, and a retry with the same key
    broadcasts a second accepted transfer. *)
Theorem failed_update_pays_twice : exists (n0 : nat) (E : Env) (a b : attempt),
  (forall n, n <> n0 -> env_sql_update E n = Fine) /\ (forall n, env_sql E n = Fine) /\
  let r1 := demo_send E demo_world in
  let r2 := demo_send E (snd r1) in
  (exists e, fst r1 = Raise e) /\ (exists r, fst r2 = Ret r /\ sr_status r = "broadcast") /\
  w_attempts (snd r2) = [a; b] /\ at_key a = at_key b /\ at_tx a = at_tx b /\
  refused a = false /\ refused b = false.
Proof.
  exists 22%nat, (env_with (fun n => if (n =? 22)%nat then Fails (EOther "OperationalError" "database is locked")
                               else Fine) (broadcast sample_env)).
  eexists _, _. split; [|split; [done|]].
  { intros n Hn. simpl. by destruct (Nat.eqb_spec n 22). }
  cbv zeta. split_and!.
  - eexists. vm_compute. reflexivity.
  - eexists. split; vm_compute; reflexivity.
  - vm_compute. reflexivity.
  - reflexivity.
  - reflexivity.
  - reflexivity.
  - reflexivity.
Qed.

(** A broadcast whose answer is lost (the client times out) frees the key: the
    node may have accepted it, and a retry with the same key broadcasts again. *)
Theorem lost_answer_rebroadcasts : exists (E : Env) (a b : attempt),
  sound_env E /\
  let r1 := demo_send E demo_world in
  let r2 := demo_send E (snd r1) in
  (exists m, fst r1 = Raise (EPayout (TransactionFailed m))) /\
  w_attempts (snd r2) = [a; b] /\ at_key a = at_key b /\
  at_answer a = Raise (EOther "ReadTimeout" "timed out") /\ refused b = false.
Proof.
  exists (env_with (fun _ => Fine) (fun n tx => if (n <? 30)%nat then Raise (EOther "ReadTimeout" "timed out")
                                     else Ret (BDict true "" "" "tx1" "{}"))).
  eexists _, _. split.
  { split; [done|]. intros n tx b txid. simpl. destruct (n <? 30)%nat; [done|]. intros [= <-] [= <-]. done. }
  cbv zeta. split_and!.
  - eexists. vm_compute. reflexivity.
  - vm_compute. reflexivity.
  - reflexivity.
  - reflexivity.
  - reflexivity.
Qed.
