(* ===== verification/SendSpec.v ===== *)
(** * What [/send] guarantees about each broadcast, and about each key

    Proved about the handler of [Send] over any store. *)
From S2P Require Import Prelude PyStr Decimal Effects RiskTypes Exceptions Idempotency Config AuditEntry World TronClient WalletPool Risk AuditLog Send Safety.
From S2P Require Sanctions.
Open Scope string_scope.

Section Checks.
Context {S : Type} `{!IdemStore S} (E : Env) (c : Config) (p : pool) (sanc : Sanctions.state)
        (fuel : nat).
Implicit Types w : World S.

Lemma rets_with_retry {A} (f : nat -> outcome exn A) :
  Rets (W:=World S) (with_retry (ext f)) (fun a => exists n, f n = Ret a).
Proof. intros w a. destruct (with_retry_later f w) as (k & s & ->). simpl. by eexists. Qed.

Lemma rets_usdt_balance a :
  Rets (W:=World S) (get_usdt_balance_for E a)
       (fun d => exists n raw, balanceOf E n a = Ret raw /\ d = usdt_of_raw raw).
Proof.
  apply rets_bind_any. intros _. eapply rets_bind; [apply rets_with_retry|].
  intros raw [n H]. apply rets_ret. eauto.
Qed.

(** A TRX balance is what the node answered, or 0 for an unknown account. *)
Lemma rets_trx_balance a :
  Rets (W:=World S) (get_trx_balance_for E a)
       (fun d => (exists n, get_account_balance E n a = Ret d) \/ d = dec_of_Z 0).
Proof.
  apply rets_catch.
  - intros w d Hd. left. by eapply rets_with_retry.
  - intros e r. destruct (is_Exception e); [|done]. intros [= <-].
    destruct (is_not_found e); [apply rets_ret; by right | apply rets_no_ret, _].
Qed.

(** The sender can pay: both balances, as the node gave them. *)
Definition can_pay (rq : SendRequest) (wl : wallet) : Prop :=
  (exists n raw, balanceOf E n (wl_address wl) = Ret raw /\
     dec_leb (amount rq) (usdt_of_raw raw) = true) /\
  (exists trx, dec_leb (MIN_TRX_RESERVE c) trx = true /\
     ((exists n, get_account_balance E n (wl_address wl) = Ret trx) \/ trx = dec_of_Z 0)).

#[local] Instance no_ret_reject {A} rq ip tok wl r d e :
  NoRet (W:=World S) (reject (A:=A) E c rq ip tok wl r d e).
Proof. unfold reject. apply _. Qed.

Lemma rets_preflight rq ip tok wl :
  Rets (W:=World S) (checked_preflight E c rq ip tok wl) (fun _ => can_pay rq wl).
Proof.
  apply rets_catch.
  - eapply rets_bind; [apply rets_usdt_balance | intros bal (n & raw & Hn & ->)].
    eapply rets_bind; [apply rets_when, _ | intros [] Hb].
    eapply rets_bind; [apply rets_trx_balance | intros trx Ht].
    eapply rets_bind; [apply rets_when, _ | intros [] Hr].
    intros w fee _. rewrite dec_ltb_nleb in Hb, Hr. apply negb_false_iff in Hb, Hr.
    split; eauto.
  - intros e r. destruct (is_PayoutError e); [done|]. destruct (is_Exception e); [|done].
    intros [= <-]. apply rets_no_ret, _.
Qed.

Lemma rets_resolve n : pool_wf p ->
  Rets (W:=World S) (resolve_wallet E p n) (fun wl => In wl (all p)).
Proof.
  intros Hp. apply rets_catch.
  - intros w wl Hw. by eapply resolve_in.
  - intros e r. destruct e; try done; intros [= <-]; apply rets_no_ret, _.
Qed.

Lemma rets_validate a : Rets (W:=World S) (validate_tron_address E a) (fun _ => address_error E a = None).
Proof.
  unfold validate_tron_address. destruct (address_error E a); [apply rets_no_ret, _ | by apply rets_ret].
Qed.

(** The recipient is not refused on local grounds. *)
Definition recipient_ok (a : string) : Prop :=
  address_error E a = None /\ (lower (RISK_BLOCK_LEVEL c) <> "none" -> ~ locally_bad E sanc a).

Lemma rets_risk rq ip tok wl :
  Rets (W:=World S) (risk_preflight E c sanc rq ip tok wl)
       (fun _ => lower (RISK_BLOCK_LEVEL c) <> "none" -> ~ locally_bad E sanc (to_address rq)).
Proof.
  unfold risk_preflight. destruct (String.eqb_spec (RISK_BLOCK_LEVEL c) "none") as [Hn|Hn].
  { apply rets_ret. by rewrite Hn. }
  eapply rets_bind.
  { intros w r Hr. exact (assess_risk_report _ _ _ _ _ w r Hr). }
  intros r (_ & _ & _ & Hbad). destruct (should_block _ _) eqn:Hb; [apply rets_no_ret, _|].
  apply rets_ret. intros Hl Hloc. rewrite (should_block_high _ _ (Hbad Hloc) Hl) in Hb. done.
Qed.

(** ** The broadcast of a request *)
Definition payment (rq : SendRequest) (a : attempt) : Prop := exists wl,
  In wl (all p) /\ is_Some (wl_priv_key wl) /\ can_pay rq wl /\ recipient_ok (to_address rq) /\
  at_key a = idempotency_key rq /\ t_from (at_tx a) = wl_address wl /\
  t_to (at_tx a) = to_address rq /\ t_amount_raw (at_tx a) = raw_of_usdt (amount rq) /\
  (MIN_FEE_LIMIT_SUN <= t_fee_limit (at_tx a) <= Z.max MIN_FEE_LIMIT_SUN (USDT_FEE_LIMIT_SUN c))%Z.

(** Nothing was broadcast, or one transfer that passed the checks. *)
Definition one_payment (rq : SendRequest) w w' : Prop :=
  w_attempts w' = w_attempts w \/
  exists a, w_attempts w' = (w_attempts w ++ [a])%list /\ payment rq a.

(** A framed step whose result satisfies [P], in front of [k]. *)
Lemma wp_step {A B} (m : M (World S) exn A) (k : A -> M (World S) exn B) (P : A -> Prop) rq w0 w :
  Frame same_core m -> Rets m P -> w_attempts w = w_attempts w0 ->
  (forall a w', P a -> w_attempts w' = w_attempts w0 -> wp (k a) (fun _ w' => one_payment rq w0 w') w') ->
  wp (bind m k) (fun _ w' => one_payment rq w0 w') w.
Proof.
  intros Hf HP Hw Hk. apply wp_bind. unfold wp at 1.
  destruct (Hf w) as [_ Ha]. rewrite Hw in Ha.
  destruct (fst (m w)) as [a|e|] eqn:Hm; [apply Hk; [by eapply HP | done] | by left | by left].
Qed.
Lemma wp_idle {A} (m : M (World S) exn A) rq w0 w :
  Frame same_core m -> one_payment rq w0 w -> wp m (fun _ w' => one_payment rq w0 w') w.
Proof. intros Hf Hw. apply (wp_frame same_core m); [done|]. intros _ w' [_ Ha]. unfold one_payment. by rewrite Ha. Qed.

Lemma reserve_attempts fuel' key w :
  wp (reserve_loop E fuel' key) (fun _ w' => w_attempts w' = w_attempts w) w.
Proof.
  revert w. induction fuel' as [|f IH]; intros w; [done|]. simpl.
  do 4 (apply wp_bind; unfold wp at 1; simpl).
  destruct (st_pass _ _ _ _ _) as [o s'|s'|]; [done| |done].
  apply wp_bind. unfold wp at 1. simpl. eapply wp_mono; [|apply IH]. intros o w' ->. done.
Qed.

(** The store's operations broadcast nothing. *)
Lemma wp_store {A} (op : S -> outcome exn A * S) (Q : World S -> Prop) w :
  (forall w', w_attempts w' = w_attempts w -> Q w') -> wp (on_store op) (fun _ w' => Q w') w.
Proof. intros HQ. unfold wp, on_store. destruct (op (w_idem w)). by apply HQ. Qed.
Lemma release_attempts key rq w0 w : one_payment rq w0 w ->
  wp (idem_release E key) (fun _ w' => one_payment rq w0 w') w.
Proof.
  intros H. unfold idem_release. do 2 (apply wp_bind; unfold wp at 1; simpl).
  apply wp_store. intros w' Ha. unfold one_payment. by rewrite Ha.
Qed.
Lemma commit_attempts key txid rq w0 w : one_payment rq w0 w ->
  wp (idem_commit E key txid) (fun _ w' => one_payment rq w0 w') w.
Proof.
  intros H. unfold idem_commit. do 3 (apply wp_bind; unfold wp at 1; simpl).
  apply wp_store. intros w' Ha. unfold one_payment. by rewrite Ha.
Qed.

Lemma send_usdt_payment rq wl fee w0 w :
  In wl (all p) -> can_pay rq wl -> recipient_ok (to_address rq) -> w_attempts w = w_attempts w0 ->
  wp (send_usdt E c (idempotency_key rq) wl (to_address rq) (amount rq) fee)
     (fun _ w' => one_payment rq w0 w') w.
Proof.
  intros Hwl Hpay Hrec Hw. eapply wp_mono; [|apply send_usdt_sent].
  intros o w' [_ [[Ha _] | (n & Hpk & Ha & _)]]; [left; congruence|].
  right. eexists. rewrite Ha, Hw. split; [done|]. exists wl. simpl. split_and!; try done; apply clamp_bounds.
Qed.

Lemma guarded_payment rq ip tok wl started w0 w :
  In wl (all p) -> recipient_ok (to_address rq) -> w_attempts w = w_attempts w0 ->
  wp (guarded_send E c rq ip tok wl started) (fun _ w' => one_payment rq w0 w') w.
Proof.
  intros Hwl Hrec Hw. apply wp_catch.
  eapply (wp_mono _ (fun _ w' => one_payment rq w0 w')).
  { intros [a|e|] w1 H1; [exact H1| |exact H1]. apply wp_bind.
    eapply wp_mono; [|by apply release_attempts]. intros [a|e'|] w2 H2; exact H2. }
  eapply wp_step; [apply _ | apply rets_preflight | done | intros fee w1 Hpay H1].
  apply wp_bind. eapply (wp_mono _ (fun _ w' => one_payment rq w0 w')).
  { intros [txid|e|] w2 H2; [|exact H2..]. apply wp_bind.
    eapply wp_mono; [|by apply commit_attempts]. intros [a|e|] w3 H3; exact H3. }
  apply wp_catch. eapply (wp_mono _ (fun _ w' => one_payment rq w0 w')).
  { intros [a|e|] w2 H2; [exact H2| |exact H2]. destruct (is_Exception e); [|exact H2].
    apply wp_idle; [unfold audit_event; frames | exact H2]. }
  eapply (wp_step _ _ (fun _ => True)); [apply _ | done | done | intros [] w2 _ H2].
  by apply send_usdt_payment.
Qed.

Lemma send_one_payment rq ip tok w : pool_wf p ->
  wp (send E c p sanc fuel rq ip tok) (fun _ w' => one_payment rq w w') w.
Proof.
  intros Hp. unfold send.
  apply (wp_step _ _ (fun _ => True)); [apply _ | done | done | intros started w1 _ H1].
  eapply wp_step; [apply _ | by apply rets_resolve | done | intros wl w2 Hwl H2].
  eapply wp_step; [apply _ | apply rets_validate | done | intros [] w3 Hval H3].
  eapply wp_step; [apply _ | apply rets_risk | done | intros lvl w4 Hrisk H4].
  apply wp_bind. eapply wp_mono; [|apply (reserve_attempts fuel (idempotency_key rq) w4)].
  intros [[txid|]|e|] w5 H5; simpl in H5; rewrite H4 in H5; [| |by left..].
  { apply wp_idle; [apply _ | by left]. }
  apply wp_bind. eapply wp_mono; [|by apply (guarded_payment rq ip tok wl started w w5)].
  intros [txid|e|] w6 H6; [|exact H6..]. apply wp_idle; [apply _ | exact H6].
Qed.
End Checks.

(** ** The key after a request, when no SQL statement fails *)
Section Settles.
Context {S : Type} `{!IdemStore S, !IdemStoreLaws S} (E : Env).
Context (Hsql : forall n, env_sql E n = Fine) (Hupd : forall n, env_sql_update E n = Fine).
Context (Htxid : forall n tx b txid, broadcast E n tx = Ret b -> read_answer b = inr txid ->
           bad_txid txid = false).
Implicit Types w : World S.

Definition key_is (s0 : S) (key : string) (v : option kstate) w : Prop :=
  st_open (w_idem w) = true /\ st_abs (w_idem w) !! key = v /\
  (forall k, k <> key -> st_abs (w_idem w) !! k = st_abs s0 !! k).

Lemma key_is_core s0 key v w w' : same_core w w' -> key_is s0 key v w -> key_is s0 key v w'.
Proof. intros [Hi _]. unfold key_is. by rewrite Hi. Qed.

Lemma reserve_key fuel s0 key v w : fuel <> 0%nat -> v <> Some KPending -> key_is s0 key v w ->
  wp (reserve_loop E fuel key) (fun o w' => w_attempts w' = w_attempts w /\
    match v with
    | None => o = Ret None /\ key_is s0 key (Some KPending) w'
    | Some (KCommitted t) => o = Ret (Some t) /\ key_is s0 key v w'
    | Some _ => (exists e, o = Raise e) /\ key_is s0 key v w'
    end) w.
Proof.
  intros Hf Hv (Ho & Hk & Hoth). destruct fuel as [|f]; [done|]. simpl.
  do 4 (apply wp_bind; unfold wp at 1; simpl). rewrite !Hsql.
  match goal with |- context [st_pass _ _ ?t _ _] => pose proof (pass_law t key (w_idem w) Ho) as H end.
  rewrite Hk in H. destruct v as [[|t|t]|]; [done|..].
  1, 2: rewrite H; unfold wp, on_store; simpl; split; [done|]; split; [by eauto|]; by split_and!.
  destruct H as (s' & -> & Ha & Ho'). unfold wp, on_store; simpl. split; [done|]. split; [done|].
  split_and!; simpl; [done | by rewrite Ha, lookup_insert_eq|].
  intros k Hne. rewrite Ha, lookup_insert_ne by done. by apply Hoth.
Qed.

Lemma commit_key s0 key txid w : key_is s0 key (Some KPending) w -> bad_txid txid = false ->
  wp (idem_commit E key txid) (fun o w' => o = Ret tt /\ key_is s0 key (Some (KCommitted txid)) w') w.
Proof.
  intros (Ho & Hk & Hoth) Hb. unfold idem_commit. do 3 (apply wp_bind; unfold wp at 1; simpl).
  rewrite Hsql, Hupd. unfold wp, on_store; simpl.
  match goal with |- context [st_commit _ _ ?t _ _ _] =>
    destruct (commit_law t key txid (w_idem w) Ho ltac:(rewrite Hk; by eexists) Hb) as (s' & Hc & Ha & Ho') end.
  rewrite Hc. simpl. split; [done|]. split_and!; simpl; [done | by rewrite Ha, lookup_insert_eq|].
  intros k Hne. rewrite Ha, lookup_insert_ne by done. by apply Hoth.
Qed.

Lemma release_key s0 key w : key_is s0 key (Some KPending) w ->
  wp (idem_release E key) (fun o w' => o = Ret tt /\ key_is s0 key None w') w.
Proof.
  intros (Ho & Hk & Hoth). unfold idem_release. do 2 (apply wp_bind; unfold wp at 1; simpl).
  rewrite !Hsql. unfold wp, on_store; simpl.
  destruct (release_law key (w_idem w) Ho) as (s' & Hr & Ho' & Ha). rewrite Hk in Ha. rewrite Hr. simpl.
  split; [done|]. split_and!; simpl; [done | by rewrite Ha, lookup_delete_eq|].
  intros k Hne. rewrite Ha, lookup_delete_ne by done. by apply Hoth.
Qed.

Context (c : Config) (p : pool) (sanc : Sanctions.state) (fuel : nat) (Hfuel : fuel <> 0%nat)
        (rq : SendRequest) (ip tok : string).
Abbreviation key := (idempotency_key rq).

(** An [except] clause that audits and raises: it does not touch the key. *)
Lemma handler_key {A} s0 key' v (r : M (World S) exn A) (P : A -> Prop) w :
  Frame same_core r -> NoRet r -> key_is s0 key' v w ->
  wp r (fun o w' => key_is s0 key' v w' /\ forall a, o = Ret a -> P a) w.
Proof.
  intros Hf Hn Hw. split; [by apply (key_is_core s0 key' v w)|]. intros a Ha. by destruct (Hn w a).
Qed.

Lemma broadcast_key s0 wl started fee w : key_is s0 key (Some KPending) w ->
  wp (broadcast_step E c rq ip tok wl started fee) (fun o w' =>
    key_is s0 key (Some KPending) w' /\ forall txid, o = Ret txid -> bad_txid txid = false) w.
Proof.
  intros Hw. apply wp_catch. eapply (wp_mono _ (fun o w' =>
    key_is s0 key (Some KPending) w' /\ forall txid, o = Ret txid -> bad_txid txid = false)).
  { intros [txid|e|] w3 [H3 Hb]; [done| |done]. destruct (is_Exception e); [|done].
    apply handler_key; [unfold audit_event; frames | apply _ | done]. }
  apply wp_bind. eapply (wp_frame same_core); [apply _|]. intros o w2 Hc2.
  apply (key_is_core s0 key _ _ _ Hc2) in Hw. destruct o as [[]|e|]; [|done..].
  eapply wp_mono; [|apply send_usdt_sent]. intros o w3 [Hi Hs].
  split; [unfold key_is in *; by rewrite Hi|].
  intros txid ->. destruct Hs as [[_ Hn] | (n & _ & _ & Hans)]; [by destruct (Hn txid)|].
  unfold answer_outcome in Hans. destruct (broadcast E n _) as [b|e|] eqn:Hbr; [|done..].
  destruct (read_answer b) eqn:Hread; [done|]. injection Hans as ->. by eapply Htxid.
Qed.

(** The whole protected part: committed with the returned txid, or free again. *)
Lemma guarded_key s0 wl started w : key_is s0 key (Some KPending) w ->
  wp (guarded_send E c rq ip tok wl started) (fun o w' =>
    match o with
    | Ret txid => key_is s0 key (Some (KCommitted txid)) w'
    | Raise _ => key_is s0 key None w'
    | Crash => True
    end) w.
Proof.
  intros Hw. apply wp_catch.
  eapply (wp_mono _ (fun o w' => match o with
    | Ret txid => key_is s0 key (Some (KCommitted txid)) w'
    | Raise _ => key_is s0 key (Some KPending) w'
    | Crash => True
    end)).
  { intros [a|e|] w1 H1; [exact H1| |exact H1]. apply wp_bind.
    eapply wp_mono; [|by apply (release_key s0)]. intros o w2 [-> H2]. exact H2. }
  apply wp_bind. eapply (wp_frame same_core); [apply _|]. intros o w1 Hc.
  apply (key_is_core s0 key _ _ _ Hc) in Hw. destruct o as [fee|e|]; [|done..].
  apply wp_bind. eapply (wp_mono _ (fun o w' => key_is s0 key (Some KPending) w' /\
    forall txid, o = Ret txid -> bad_txid txid = false)).
  { intros [txid|e|] w2 [H2 Hb]; [|done..]. apply wp_bind.
    eapply wp_mono; [|by apply (commit_key s0 key txid), Hb]. intros o w3 [-> H3]. exact H3. }
  apply (broadcast_key s0 wl started fee w1). exact Hw.
Qed.

(** ** The handler *)

(** What a request may leave of its key, by what the key was before. *)
Definition settled_key s0 (v : option kstate) (o : outcome exn SendResponse) w w' : Prop :=
  match v with
  | None => exists v', key_is s0 key v' w' /\ v' <> Some KPending /\
      forall r, o = Ret r -> v' = Some (KCommitted (sr_txid r))
  | Some (KCommitted t) => key_is s0 key v w' /\ w_attempts w' = w_attempts w /\
      forall r, o = Ret r -> sr_txid r = t /\ sr_status r = "duplicate"
  | Some _ => key_is s0 key v w' /\ w_attempts w' = w_attempts w /\ forall r, o <> Ret r
  end.

Lemma settled_early s0 v w w' (o : outcome exn SendResponse) : v <> Some KPending ->
  key_is s0 key v w' -> w_attempts w' = w_attempts w -> (forall r, o <> Ret r) ->
  settled_key s0 v o w w'.
Proof.
  intros Hv Hk Ha Ho. unfold settled_key. destruct v as [[|t|t]|]; [done|..].
  - split_and!; [done..|]. intros r Hr. by destruct (Ho r).
  - done.
  - exists None. split_and!; [done..|]. intros r Hr. by destruct (Ho r).
Qed.

Lemma wp_early {A} s0 v (m : M (World S) exn A) (k : A -> M (World S) exn SendResponse) w0 w :
  Frame same_core m -> v <> Some KPending -> key_is s0 key v w -> w_attempts w = w_attempts w0 ->
  (forall a w', key_is s0 key v w' -> w_attempts w' = w_attempts w0 ->
     wp (k a) (fun o w' => o = Crash \/ settled_key s0 v o w0 w') w') ->
  wp (bind m k) (fun o w' => o = Crash \/ settled_key s0 v o w0 w') w.
Proof.
  intros Hf Hv Hk Ha Hc. apply wp_bind. eapply (wp_frame same_core); [apply _|]. intros o w1 H1.
  pose proof (key_is_core s0 key v _ _ H1 Hk) as Hk1. destruct H1 as [_ Ha1]. rewrite Ha in Ha1.
  destruct o as [a|e|]; [by apply Hc | right; by apply settled_early | by left].
Qed.

Lemma rets_duplicate wl t : Rets (W:=World S) (answer_duplicate E c rq ip tok wl t)
  (fun r => sr_txid r = t /\ sr_status r = "duplicate").
Proof. do 2 (apply rets_bind_any; intros ?). by apply rets_ret. Qed.
Lemma rets_success wl st lvl t : Rets (W:=World S) (answer_success E c rq ip tok wl st lvl t)
  (fun r => sr_txid r = t /\ sr_status r = "broadcast").
Proof. do 6 (apply rets_bind_any; intros ?). by apply rets_ret. Qed.

(** A framed last step that returns [t]'s answer. *)
Lemma wp_answer s0 v (m : M (World S) exn SendResponse) P w0 w :
  Frame same_core m -> Rets m P -> key_is s0 key v w ->
  (forall o w', key_is s0 key v w' -> w_attempts w' = w_attempts w -> (forall r, o = Ret r -> P r) ->
     o = Crash \/ settled_key s0 (st_abs s0 !! key) o w0 w') ->
  wp m (fun o w' => o = Crash \/ settled_key s0 (st_abs s0 !! key) o w0 w') w.
Proof.
  intros Hf HP Hk HQ. pose proof (Hf w) as H. apply HQ; [by apply (key_is_core s0 key v w) | apply H|].
  intros r. apply HP.
Qed.

Lemma send_key v w : st_open (w_idem w) = true -> st_abs (w_idem w) !! key = v -> v <> Some KPending ->
  wp (send E c p sanc fuel rq ip tok) (fun o w' => o = Crash \/ settled_key (w_idem w) v o w w') w.
Proof.
  intros Ho Hv Hp. set (s0 := w_idem w). assert (key_is s0 key v w) as Hk by done. unfold send.
  apply (wp_early s0 v); [apply _ | done | done | done | intros started w1 K1 A1].
  apply (wp_early s0 v); [apply _ | done | done | done | intros wl w2 K2 A2].
  apply (wp_early s0 v); [apply _ | done | done | done | intros [] w3 K3 A3].
  apply (wp_early s0 v); [apply _ | done | done | done | intros lvl w4 K4 A4].
  apply wp_bind. eapply wp_mono; [|by apply (reserve_key fuel s0 key v)].
  intros o w5 [A5 H5]. rewrite A4 in A5. destruct v as [[|t|t]|]; [done|..].
  - destruct H5 as [-> K5]. rewrite <- Hv.
    eapply wp_answer; [apply _ | apply rets_duplicate | exact K5|].
    intros o w6 K6 A6 Hr. right. rewrite Hv. split; [done|]. split; [congruence | done].
  - destruct H5 as [[e ->] K5]. right. split; [done|]. split; [done|]. done.
  - destruct H5 as [-> K5]. apply wp_bind. eapply wp_mono; [|by apply (guarded_key s0)].
    intros [txid|e|] w6 K6; [| |by left].
    + rewrite <- Hv. eapply wp_answer; [apply _ | apply rets_success | exact K6|].
      intros o w7 K7 _ Hr. right. rewrite Hv. exists (Some (KCommitted txid)). split_and!; [done..|].
      intros r ->. by destruct (Hr r eq_refl) as [-> _].
    + right. exists None. done.
Qed.
End Settles.

(** C3: every broadcast passed its checks.  A request makes at most one broadcast;
    it is signed by a wallet of the pool that still has its key, whose USDT balance
    and TRX balance, as the node gave them, cover the amount and the reserve; the
    recipient is a well-formed address and, unless blocking is off, neither on the
    loaded sanctions list nor a burn address; recipient and amount are the
    request's; and the fee limit is at least 5 TRX and at most the larger of 5 TRX
    and the configured ceiling. *)
Theorem broadcast_checked {S : Type} `{!IdemStore S} (E : Env) (c : Config) (p : pool)
    (sanc : Sanctions.state) (fuel : nat) (rq : SendRequest) (ip tok : string) (w : World S) :
  pool_wf p ->
  let w' := snd (send E c p sanc fuel rq ip tok w) in
  w_attempts w' = w_attempts w \/
  exists a wl, w_attempts w' = (w_attempts w ++ [a])%list /\
    In wl (all p) /\ is_Some (wl_priv_key wl) /\ t_from (at_tx a) = wl_address wl /\
    can_pay E c rq wl /\ recipient_ok E c sanc (to_address rq) /\
    at_key a = idempotency_key rq /\ t_to (at_tx a) = to_address rq /\
    t_amount_raw (at_tx a) = raw_of_usdt (amount rq) /\
    (MIN_FEE_LIMIT_SUN <= t_fee_limit (at_tx a) <= Z.max MIN_FEE_LIMIT_SUN (USDT_FEE_LIMIT_SUN c))%Z.
Proof.
  intros Hp w'. destruct (send_one_payment E c p sanc fuel rq ip tok w Hp) as [H | (a & Ha & wl & H)];
    [by left|]. right. exists a, wl.
  destruct H as (Hin & Hpk & Hpay & Hrec & Hk & Hf & Hto & Hamt & Hfee).
  split_and!; try done; apply Hfee.
Qed.

Lemma broadcast_checked_witness :
  let w' := snd (demo_send sample_env demo_world) in
  w_attempts w' <> [] /\
  exists a, w_attempts w' = [a] /\ t_amount_raw (at_tx a) = raw_of_usdt (amount demo_request).
Proof.
  intros w'. split; [vm_compute; discriminate|].
  destruct (broadcast_checked sample_env default_config demo_pool
    (Sanctions.mkState (Some ∅) Sanctions.FromCache None) 3 demo_request "ip" "t" demo_world (init_wf _ _))
    as [H | (a & wl & Ha & H)].
  - exfalso. vm_compute in H. discriminate.
  - exists a. split; [exact Ha | apply H].
Defined.

(** What the store of a world holds for a key. *)
Definition key_entry {S : Type} `{!IdemStore S} (w : World S) (key : string) : option kstate :=
  st_abs (w_idem w) !! key.

(** C5: the life of a key, when no SQL statement fails.  A request that does not
    die leaves its key free or committed, never pending, and no other key changed;
    what it answers is the txid the store now holds; a committed key is answered
    with its txid and a key in UNKNOWN state is refused, neither broadcasting
    anything nor changing. *)
Theorem send_settles_key {S : Type} `{!IdemStore S, !IdemStoreLaws S} (E : Env) (c : Config) (p : pool)
    (sanc : Sanctions.state) (fuel : nat) (rq : SendRequest) (ip tok : string) (w : World S)
    (Hsql : forall n, env_sql E n = Fine) (Hupd : forall n, env_sql_update E n = Fine)
    (Htxid : forall n tx b txid, broadcast E n tx = Ret b -> read_answer b = inr txid ->
       bad_txid txid = false)
    (Hfuel : fuel <> 0%nat) (Hopen : st_open (w_idem w) = true)
    (Hidle : key_entry w (idempotency_key rq) <> Some KPending) :
  let o := fst (send E c p sanc fuel rq ip tok w) in
  let w' := snd (send E c p sanc fuel rq ip tok w) in
  let before := key_entry w (idempotency_key rq) in
  let after := key_entry w' (idempotency_key rq) in
  o <> Crash ->
  after <> Some KPending /\
  (forall k, k <> idempotency_key rq -> key_entry w' k = key_entry w k) /\
  (forall r, o = Ret r -> after = Some (KCommitted (sr_txid r))) /\
  (before <> None -> after = before /\ w_attempts w' = w_attempts w) /\
  (forall t r, before = Some (KCommitted t) -> o = Ret r -> sr_txid r = t /\ sr_status r = "duplicate") /\
  (forall t, before = Some (KUnknown t) -> forall r, o <> Ret r).
Proof.
  intros o w' before after Ho.
  pose proof (send_key E Hsql Hupd Htxid c p sanc fuel Hfuel rq ip tok before w Hopen eq_refl Hidle) as H.
  unfold wp in H. fold o w' in H. destruct H as [H|H]; [done|]. unfold settled_key in H.
  destruct before as [[|t|t]|] eqn:Hb; [done|..].
  - destruct H as ((_ & Hk & Hoth) & Ha & Hr). unfold after, key_entry. rewrite Hk.
    split_and!; try done; [|naive_solver]. intros r Hro. by destruct (Hr r Hro) as [-> _].
  - destruct H as ((_ & Hk & Hoth) & Ha & Hr). unfold after, key_entry. rewrite Hk.
    split_and!; try done. intros r Hro. by destruct (Hr r).
  - destruct H as (v' & (_ & Hk & Hoth) & Hv & Hr). unfold after, key_entry. rewrite Hk. by split_and!.
Qed.

Lemma send_settles_key_witness :
  let r2 := demo_send sample_env (snd (demo_send sample_env demo_world)) in
  key_entry (snd r2) "key-1" <> Some KPending /\
  w_attempts (snd r2) = w_attempts (snd (demo_send sample_env demo_world)).
Proof.
  intros r2.
  destruct (send_settles_key sample_env default_config demo_pool
    (Sanctions.mkState (Some ∅) Sanctions.FromCache None) 3 demo_request "ip" "t"
    (snd (demo_send sample_env demo_world))) as (H1 & _ & _ & H2 & _).
  - done.
  - done.
  - intros n tx b txid [= <-] [= <-]. reflexivity.
  - done.
  - vm_compute. reflexivity.
  - vm_compute. discriminate.
  - vm_compute. discriminate.
  - split; [exact H1|]. apply H2. vm_compute. discriminate.
Defined.
