(* ===== verification/Readers.v ===== *)
(** * Programs that only read the world outside

    The RPC reads of [TronClient], the checks of [Risk] and the choice of a wallet change
    nothing but the clock, the caches of the client and the time slept.  A relation between
    worlds that these three cannot break ([Reading]) is a frame of all of them. *)
From S2P Require Import Prelude PyStr Decimal Effects RiskTypes Exceptions Config AuditEntry World TronClient WalletPool Risk Idempotency Send.
From S2P Require Sanctions.
Open Scope string_scope.

Class Reading {S : Type} (R : World S -> World S -> Prop) : Prop := {
  reading_preorder :: PreOrder R;
  reading_tick n w : R w (set_tick n w);
  reading_tron t w : R w (set_tron t w);
  reading_slept n w : R w (set_slept n w) }.

Section Reading.
Context {S : Type} (R : World S -> World S -> Prop) `{!Reading R}.
Abbreviation MW := (M (World S) exn).
Abbreviation F m := (Frame R m).

#[export] Instance reading_ext {A} (f : nat -> outcome exn A) : F (ext f).
Proof. intros w. apply reading_tick. Qed.
#[export] Instance reading_now E : F (now E).
Proof. unfold now. apply _. Qed.
#[export] Instance reading_sleep n : F (sleep n).
Proof. intros w. apply reading_slept. Qed.
#[export] Instance reading_try {A} (m : MW A) h : F m -> (forall e, F (h e)) -> F (try_except m h).
Proof.
  intros Hm Hh. apply frame_catch; [apply _|done|]. intros e r. destruct (is_Exception e); [|done]. by intros [= <-].
Qed.
#[export] Instance reading_swallow (m : MW unit) : F m -> F (swallow m).
Proof. intros. unfold swallow. apply _. Qed.
#[export] Instance reading_retry {A} left (fn : MW A) : F fn -> F (retry_at left fn).
Proof. intros. induction left; simpl; apply _. Qed.
#[export] Instance reading_with_retry {A} (fn : MW A) : F fn -> F (with_retry fn).
Proof. intros. by apply reading_retry. Qed.
Lemma reading_modify_tron (f : World S -> tron_state) : Frame (E:=exn) R (modify (fun w => set_tron (f w) w)).
Proof. apply frame_modify. intros w. apply reading_tron. Qed.
End Reading.

(** By the structure of the program. *)
Ltac reads :=
  repeat first [progress intros | solve [apply _] | apply frame_bind | apply reading_try
               | apply reading_swallow | apply frame_when | apply frame_for_each
               | apply reading_modify_tron | case_match | progress cbv zeta].

Section Programs.
Context {S : Type} (R : World S -> World S -> Prop) `{!Reading R} (E : Env) (c : Config).
Abbreviation F m := (Frame (W:=World S) R m).

#[export] Instance reading_usdt_contract : F (get_usdt_contract E).
Proof. unfold get_usdt_contract. reads. Qed.
#[export] Instance reading_usdt_balance a : F (get_usdt_balance_for E a).
Proof. unfold get_usdt_balance_for. reads. Qed.
#[export] Instance reading_trx_balance a : F (get_trx_balance_for E a).
Proof. unfold get_trx_balance_for. reads. Qed.
#[export] Instance reading_resources a : F (get_resource_summary_for E a).
Proof. unfold get_resource_summary_for, get_account_resource_for. reads. Qed.
#[export] Instance reading_price : F (energy_price_sun E c).
Proof. unfold energy_price_sun, set_price. reads. Qed.
#[export] Instance reading_fee e : F (compute_fee_limit_sun E c e).
Proof. unfold compute_fee_limit_sun. reads. Qed.
#[export] Instance reading_estimate a b amt : F (estimate_transfer_energy E a b amt).
Proof. unfold estimate_transfer_energy. reads. Qed.
#[export] Instance reading_destination a : F (get_destination_info E a).
Proof. unfold get_destination_info. reads. Qed.
#[export] Instance reading_connection : F (check_connection E).
Proof. unfold check_connection. reads. Qed.
#[export] Instance reading_assess_risk sanc a ext_ : F (assess_risk E c sanc a ext_).
Proof.
  unfold assess_risk, check_activation, check_smart_contract, check_usdt_blacklist, check_balance,
    check_external_tronscan, check_external_misttrack. reads.
Qed.
#[export] Instance reading_pick_loop ws b bb ok : F (auto_pick_loop E ws b bb ok).
Proof. revert b bb ok. induction ws as [|w ws IH]; intros; simpl; reads. Qed.
#[export] Instance reading_resolve n p : F (resolve_wallet E p n).
Proof.
  apply frame_catch; [apply _| |].
  - unfold resolve, auto_pick_max_usdt. reads.
  - intros e r H. destruct e; simplify_eq; apply _.
Qed.
#[export] Instance reading_sql : F (sql E).
Proof. unfold sql. apply _. Qed.
End Programs.
