(* ===== verification/Ledger.v ===== *)
(** * What the service says of its payments

    Every answer of [/send] and every payout entry of the durable audit file names a
    transfer the node accepted, over any history and whatever fails: no hypothesis is made
    about the environment.  What a store may answer is stated as a class of its own
    ([IdemTrace]), which both stores implement. *)
From S2P Require Import Prelude PyStr Decimal Effects RiskTypes Exceptions Idempotency IdemGuard Config AuditEntry World TronClient WalletPool Risk AuditLog Send Safety Readers.
From S2P Require Sanctions Webhooks Alerts.
Open Scope string_scope.

(** ** Where the txids of a store come from *)

(** [recorded k t s]: this process or a later one may answer [t] for [k]. *)
Class IdemTrace (S : Type) := recorded : string -> string -> S -> Prop.
Class IdemTraceLaws (S : Type) `{!IdemStore S, !IdemGuard S, !IdemTrace S} : Prop := {
  pass_trace key fx fc now s :
    match st_pass fx fc now key s with
    | Done o s' => (forall k t, recorded k t s' -> recorded k t s) /\ (forall t, o = Ret (Some t) -> recorded key t s)
    | Again s' => forall k t, recorded k t s' -> recorded k t s
    | Wait => True
    end;
  commit_trace key txid fx fc now s k t :
    recorded k t (snd (st_commit fx fc now key txid s)) -> recorded k t s \/ (k = key /\ t = txid);
  release_trace key fx fc s k t : recorded k t (snd (st_release fx fc key s)) -> recorded k t s;
  restart_trace s s' k t : restart s s' -> recorded k t s' -> recorded k t s }.

#[export] Instance Memory_trace : IdemTrace Memory.store := fun k t s =>
  Memory.dict s !! k = Some t /\ t <> PENDING.
#[export] Instance Memory_trace_laws : IdemTraceLaws Memory.store.
Proof.
  split; unfold recorded, Memory_trace; cbn.
  - intros key _ _ _ s. unfold Memory.reserve_pass. destruct (Memory.dict s !! key) as [v|] eqn:Hv.
    + destruct (String.eqb_spec v PENDING); cbn; [done|]. split; [done|]. by intros t [= <-].
    + split; [|done]. intros k t [H Ht]. split; [|done]. cbn in H.
      by apply lookup_insert_Some in H as [[<- <-]|[_ H]].
  - intros key txid _ _ _ s k t. unfold Memory.commit. destruct (bad_txid txid); [by left|]. cbn.
    intros [H Ht]. apply lookup_insert_Some in H as [[<- <-]|[_ H]]; auto.
  - intros key _ _ s k t. case_bool_decide; [|done]. cbn. intros [H1 Ht]. split; [|done].
    by apply lookup_delete_Some in H1 as [_ H1].
  - done.
Qed.

(** A committed row with this txid. *)
Definition row_says (m : gmap string Sqlite.row) (k t : string) : Prop :=
  exists r, m !! k = Some r /\ Sqlite.r_status r = Sqlite.COMMITTED /\ Sqlite.r_txid r = t.
#[export] Instance Sqlite_trace : IdemTrace Sqlite.store := fun k t s =>
  row_says (Sqlite.view s) k t \/ row_says (Sqlite.disk s) k t.

(** A write leaves behind what the view held before or after its statement. *)
Lemma write_says fx fc upd s k t (P : Prop) :
  (row_says (upd (Sqlite.view s)) k t -> recorded k t s \/ P) ->
  recorded k t (snd (Sqlite.write fx fc upd s)) -> recorded k t s \/ P.
Proof.
  intros Hu. unfold Sqlite.write, Sqlite.execute, Sqlite.db_commit.
  destruct fx; [destruct fc|..]; unfold recorded, Sqlite_trace in *; cbn; intros [H|H]; auto.
Qed.

#[export] Instance Sqlite_trace_laws : IdemTraceLaws Sqlite.store.
Proof.
  split; cbn [st_pass st_commit st_release restart Sqlite.ops Sqlite_guard].
  - intros key fx fc now s. unfold Sqlite.reserve_pass, Sqlite.fetch_row.
    destruct (Sqlite.conn s); cbn; [|by split].
    destruct (Sqlite.view s !! key) as [r|] eqn:Hr; cbn.
    { destruct (Sqlite.r_status r) eqn:Hs; cbn; [done| |by split]. split; [done|].
      intros t [= <-]. left. by exists r. }
    assert (forall s' k t, Sqlite.view s' = <[key := Sqlite.mkRow "" Sqlite.PENDING_ (Sqlite.process_id s) now now]> (Sqlite.view s) ->
      (Sqlite.disk s' = Sqlite.disk s \/ Sqlite.disk s' = Sqlite.view s') -> recorded k t s' -> recorded k t s) as H.
    { intros s' k t Hv Hd. assert (row_says (Sqlite.view s') k t -> row_says (Sqlite.view s) k t) as Hrow.
      { intros (r & H1 & H2 & H3). rewrite Hv in H1. apply lookup_insert_Some in H1 as [[<- <-]|[_ H1]]; [done|by exists r]. }
      intros [H|H]; [left; auto|]. destruct Hd as [Hd|Hd]; rewrite Hd in H; [by right|left; auto]. }
    unfold Sqlite.insert_pending. rewrite Hr. destruct fx as [|e|]; cbn.
    + destruct fc as [|e|]; cbn; [|destruct (Sqlite.is_integrity_error e)|]; cbn; try split; try done;
        intros k t; apply H; cbn; auto.
    + destruct (Sqlite.is_integrity_error e); cbn; [done|by split].
    + by split.
  - intros key txid fx fc now s k t. unfold Sqlite.commit. destruct (bad_txid txid); [by left|].
    destruct (negb (Sqlite.conn s)); [by left|]. apply write_says. intros (r & Hr & Hs & Ht).
    destruct (decide (k = key)) as [->|Hne].
    + rewrite lookup_alter_eq in Hr. destruct (Sqlite.view s !! key); [|done]. right. simplify_eq/=. done.
    + rewrite lookup_alter_ne in Hr by done. left. left. by exists r.
  - intros key fx fc s k t. unfold Sqlite.release. destruct (negb (Sqlite.conn s)); [done|].
    intros H. apply (write_says fx fc (Sqlite.delete_pending key) s k t False) in H as [H|[]]; [done|].
    intros (r & Hr & Hs & Ht). left. left. exists r. split; [|done]. unfold Sqlite.delete_pending in Hr.
    destruct (Sqlite.view s !! key); [|done]. case_bool_decide; [|done]. by apply lookup_delete_Some in Hr as [_ Hr].
  - intros s s' k t (pid & fx & fc & now & n & H). unfold Sqlite.open_store, Sqlite.recover_orphans in H.
    assert (s' = snd (Sqlite.write fx fc (fun v => Sqlite.promote now <$> v) (Sqlite.mkStore pid true (Sqlite.disk s) (Sqlite.disk s)))) as ->.
    { by destruct (Sqlite.write _ _ _ _) as [[]]; simplify_eq/=. }
    intros Hrec. apply (write_says _ _ _ _ k t False) in Hrec as [[Hr|Hr]|[]]; [by right|by right|].
    intros (r & Hr & Hs & Ht). left. left. cbn in *. rewrite lookup_fmap in Hr.
    destruct (Sqlite.disk s !! k) as [r0|] eqn:H0; [|done]. cbn in Hr. simplify_eq/=. exists r0. split; [done|].
    revert Hs. unfold Sqlite.promote. destruct (Sqlite.r_status r0) eqn:H1; cbn; rewrite ?H1; done.
Qed.

(** ** Payments *)

(** The node accepted this broadcast for [key] as [txid]. *)
Definition accepted (key txid : string) (a : attempt) : Prop :=
  at_key a = key /\ exists b, at_answer a = Ret b /\ read_answer b = inr txid.
(** ... from this wallet to this address, of this amount. *)
Definition moves (from_ to_ : string) (amt : Dec) (a : attempt) : Prop :=
  t_from (at_tx a) = from_ /\ t_to (at_tx a) = to_ /\ t_amount_raw (at_tx a) = raw_of_usdt amt.
Definition paid (l : list attempt) (key txid : string) : Prop := exists a, In a l /\ accepted key txid a.
Definition paid_as (l : list attempt) (key txid from_ to_ : string) (amt : Dec) : Prop :=
  exists a, In a l /\ accepted key txid a /\ moves from_ to_ amt a.

(** What an audit entry claims. *)
Definition entry_true (l : list attempt) (e : entry) : Prop :=
  (a_event e = "SEND_SUCCESS" -> exists amt, dec_of_string (a_amount e) = Some amt /\
     paid_as l (a_idempotency_key e) (a_txid e) (a_from_address e) (a_to_address e) amt) /\
  (a_event e = "SEND_DUPLICATE" -> paid l (a_idempotency_key e) (a_txid e)).
(** What an answer claims. *)
Definition answer_true (l : list attempt) (rq : SendRequest) (r : SendResponse) : Prop :=
  paid l (idempotency_key rq) (sr_txid r) /\
  (sr_status r <> "duplicate" ->
   paid_as l (idempotency_key rq) (sr_txid r) (sr_from r) (to_address rq) (amount rq)).

Lemma paid_app l l' key txid : paid l key txid -> paid (l ++ l') key txid.
Proof. intros (a & Ha & H). exists a. split; [|done]. apply in_or_app. by left. Qed.
Lemma paid_as_app l l' key txid f t amt : paid_as l key txid f t amt -> paid_as (l ++ l') key txid f t amt.
Proof. intros (a & Ha & H). exists a. split; [|done]. apply in_or_app. by left. Qed.
Lemma paid_as_paid l key txid f t amt : paid_as l key txid f t amt -> paid l key txid.
Proof. intros (a & Ha & H & _). by exists a. Qed.
Lemma entry_true_app l l' e : entry_true l e -> entry_true (l ++ l') e.
Proof.
  intros [H1 H2]. split; intros He.
  - destruct (H1 He) as (amt & Hp & H). exists amt. split; [done|]. by apply paid_as_app.
  - by apply paid_app, H2.
Qed.
Lemma answer_true_app l l' rq r : answer_true l rq r -> answer_true (l ++ l') rq r.
Proof. intros [H1 H2]. split; [by apply paid_app|]. intros H. by apply paid_as_app, H2. Qed.

(** ** What else goes into the audit file *)
Definition about_payout (e : entry) : bool :=
  String.eqb (a_event e) "SEND_SUCCESS" || String.eqb (a_event e) "SEND_DUPLICATE".
Lemma other_true l e : about_payout e = false -> entry_true l e.
Proof. intros [H1 H2]%orb_false_iff. apply String.eqb_neq in H1, H2. by split. Qed.

Section Frames.
Context {S : Type}.
Implicit Types w : World S.

(** The file got entries that claim no payment. *)
Definition tells w w' : Prop := exists es,
  au_file (w_audit w') = (au_file (w_audit w) ++ es)%list /\ Forall (fun e => about_payout e = false) es.
Lemma tells_same w w' : au_file (w_audit w') = au_file (w_audit w) -> tells w w'.
Proof. intros H. exists []. rewrite app_nil_r. by split. Qed.
#[export] Instance tells_reading : Reading tells.
Proof.
  split; [|intros; by apply tells_same..]. split; [intros w; by apply tells_same|].
  intros x y z (a & Ha & Ha') (b & Hb & Hb'). exists (a ++ b)%list. rewrite Hb, Ha, app_assoc. split; [done|].
  by apply Forall_app.
Qed.
#[export] Instance tells_emit m : Frame tells (emit m).
Proof. intros w. by apply tells_same. Qed.
#[export] Instance tells_on_store {A} (op : S -> outcome exn A * S) : Frame tells (on_store op).
Proof. intros w. unfold on_store. destruct (op (w_idem w)). by apply tells_same. Qed.

(** What [record] adds to the file. *)
Lemma record_file E c d w : exists es, au_file (w_audit (snd (record E c d w))) = (au_file (w_audit w) ++ es)%list /\
  (es = [] \/ es = [entry_of E d w]).
Proof.
  pose proof (record_wp E c d w) as H. unfold wp, record_post, logged in H.
  assert (exists dur : bool, au_file (w_audit (snd (record E c d w))) =
    (au_file (w_audit w) ++ if dur then [entry_of E d w] else [])%list) as [dur Hd].
  { destruct (fst _); [destruct H as [(_ & _ & _ & H) _]; by eexists|
      destruct H as (dur & (_ & _ & _ & H) & _); by eexists|destruct H as (dur & _ & _ & _ & H); by eexists]. }
  exists (if dur then [entry_of E d w] else []). destruct dur; auto.
Qed.
Lemma tells_record E c d : (forall id ts, about_payout (d id ts) = false) -> Frame tells (record E c d).
Proof.
  intros Hd w. destruct (record_file E c d w) as (es & H & Hes). exists es. split; [done|].
  destruct Hes as [->| ->]; repeat constructor. apply Hd.
Qed.
End Frames.

(** ** The handler keeps the books *)
Section Books.
Context {S : Type} `{!IdemStore S, !IdemGuard S, !IdemTrace S, !IdemTraceLaws S}.
Context (E : Env) (c : Config) (past : list (SendRequest * SendResponse)).
Implicit Types w : World S.
Abbreviation MW := (M (World S) exn).

(** What the store may answer was paid, the audit file claims only payments made, and so
    did the answers of the past. *)
Definition truthful w : Prop :=
  (forall k t, recorded k t (w_idem w) -> paid (w_attempts w) k t) /\
  Forall (entry_true (w_attempts w)) (au_file (w_audit w)) /\
  Forall (fun x => answer_true (w_attempts w) x.1 x.2) past.
(** Whatever the outcome, and [Q] of what is returned. *)
Definition kept {A} (Q : A -> World S -> Prop) (o : outcome exn A) w : Prop :=
  truthful w /\ forall a, o = Ret a -> Q a w.

Lemma truthful_tells w w' : same_core w w' -> tells w w' -> truthful w -> truthful w'.
Proof.
  intros [Hi Ha] (es & Hf & Hes) (H1 & H2 & H3). split_and!; rewrite ?Hi, Ha; [done| |done]. rewrite Hf. apply Forall_app. split; [done|].
  eapply Forall_impl; [exact Hes|]. apply other_true.
Qed.
Lemma wp_read {A B} (m : MW A) (k : A -> MW B) Q w : Frame same_core m -> Frame tells m -> truthful w ->
  (forall a w', truthful w' -> w_attempts w' = w_attempts w -> wp (k a) (kept Q) w') -> wp (bind m k) (kept Q) w.
Proof.
  intros Hc Ht Hw Hk. apply wp_bind. unfold wp at 1. pose proof (truthful_tells _ _ (Hc w) (Ht w) Hw) as Hw'.
  destruct (fst (m w)) as [a|e|]; [apply Hk; [done|apply Hc]|by split|by split].
Qed.
(** A step whose result the rest uses. *)
Lemma wp_kept {A B} (m : MW A) (k : A -> MW B) P Q w : wp m (kept P) w ->
  (forall a w', truthful w' -> P a w' -> wp (k a) (kept Q) w') -> wp (bind m k) (kept Q) w.
Proof.
  intros Hm Hk. apply wp_bind. eapply wp_mono; [|exact Hm]. intros [a|e|] w' [Hw' Ha]; [|by split..].
  apply Hk; [done|]. by apply Ha.
Qed.
Lemma wp_untouched {A} (m : MW A) Q w : Frame same_core m -> Frame tells m -> truthful w ->
  (forall a w', w_attempts w' = w_attempts w -> Q a w') -> wp m (kept Q) w.
Proof.
  intros Hc Ht Hw HQ. unfold wp. split; [by apply (truthful_tells w)|]. intros a _. apply HQ, Hc.
Qed.
Lemma wp_fails {A} (m : MW A) Q w : Frame same_core m -> Frame tells m -> NoRet m -> truthful w -> wp m (kept Q) w.
Proof.
  intros Hc Ht Hn Hw. unfold wp. split; [by apply (truthful_tells w)|]. intros a Ha. by destruct (Hn w a).
Qed.

(** *** The store *)
Lemma set_idem_truthful s w : truthful w -> (forall k t, recorded k t s -> paid (w_attempts w) k t) ->
  truthful (set_idem s w).
Proof. by intros [_ H] Hs. Qed.

Lemma reserve_kept fuel key w : truthful w ->
  wp (reserve_loop E fuel key) (kept (fun r w' => forall t, r = Some t -> paid (w_attempts w') key t)) w.
Proof.
  revert w. induction fuel as [|fuel IH]; intros w Hw; [by split|]. simpl.
  do 4 (apply wp_bind; unfold wp at 1; simpl).
  match goal with |- context [st_pass ?fx ?fc ?t _ ?s] => pose proof (pass_trace key fx fc t s) as Hp end.
  match goal with |- context [set_tick ?n ?w1] => set (w' := set_tick n w1) in * end.
  assert (truthful w') as Hw' by exact Hw.
  change (w_idem w) with (w_idem w') in *. destruct (st_pass _ _ _ _ _) as [o s'|s'|]; [| |by split].
  - destruct Hp as [H1 H2]. unfold wp, on_store; simpl. split; [apply set_idem_truthful; [done|]; intros k t Hk; apply Hw'; auto|].
    intros r -> t ->. apply Hw'. by apply H2.
  - apply wp_bind. unfold wp at 1. simpl. apply IH. apply set_idem_truthful; [done|]. intros k t Hk. apply Hw'; auto.
Qed.

Lemma release_kept key w : truthful w -> wp (idem_release E key) (kept (fun _ _ => True)) w.
Proof.
  intros Hw. unfold idem_release. do 2 (apply wp_bind; unfold wp at 1; simpl). unfold wp, on_store; simpl.
  match goal with |- context [st_release ?fx ?fc _ _] =>
    pose proof (release_trace key fx fc (w_idem w)) as Hr; destruct (st_release fx fc key (w_idem w)) as [o s'] end.
  split; [|done]. apply (set_idem_truthful s' (set_tick _ w)); [done|]. intros k t Hk. apply Hw; auto.
Qed.

Lemma commit_kept key txid w : truthful w -> paid (w_attempts w) key txid ->
  wp (idem_commit E key txid) (kept (fun _ w' => w_attempts w' = w_attempts w)) w.
Proof.
  intros Hw Hp. unfold idem_commit. do 3 (apply wp_bind; unfold wp at 1; simpl). unfold wp, on_store; simpl.
  match goal with |- context [st_commit ?fx ?fc ?t _ _ _] =>
    pose proof (commit_trace key txid fx fc t (w_idem w)) as Hr; destruct (st_commit fx fc t key txid (w_idem w)) as [o s'] end.
  split; [|done]. apply (set_idem_truthful s' (set_tick _ w)); [done|]. intros k t Hk.
  destruct (Hr k t Hk) as [H|[-> ->]]; [by apply Hw|done].
Qed.

(** *** The broadcast *)
Lemma send_usdt_kept key wl to_ amt fee w : truthful w ->
  wp (send_usdt E c key wl to_ amt fee)
     (kept (fun txid w' => paid_as (w_attempts w') key txid (wl_address wl) to_ amt)) w.
Proof.
  intros Hw. assert (Frame tells (send_usdt (S:=S) E c key wl to_ amt fee)) as Ht.
  { unfold send_usdt. reads. intros w0. by apply tells_same. }
  pose proof (send_usdt_sent E c key wl to_ amt fee w) as H. unfold wp in *.
  destruct (Ht w) as (es & Hf & Hes). destruct Hw as (H1 & H2 & H3).
  assert (forall l, Forall (entry_true (w_attempts w ++ l)) (au_file (w_audit (snd (send_usdt E c key wl to_ amt fee w))))) as Hfile.
  { intros l. rewrite Hf. apply Forall_app. split; eapply Forall_impl; [exact H2| |exact Hes|].
    - intros e. apply entry_true_app.
    - intros e. apply other_true. }
  destruct H as [Hi [[Ha Hne]|(n & _ & Ha & Ho)]].
  - split; [|intros txid Hx; by destruct (Hne txid)]. split_and!; rewrite ?Hi, Ha; [done| |done].
    specialize (Hfile []). by rewrite app_nil_r in Hfile.
  - split; [split_and!; rewrite ?Hi, Ha|].
    + intros k t Hk. by apply paid_app, H1.
    + apply Hfile.
    + eapply Forall_impl; [exact H3|]. intros x. apply answer_true_app.
    + intros txid Hx. rewrite Ha. eexists. split; [apply in_or_app; right; left; reflexivity|].
      rewrite Ho in Hx. unfold answer_outcome in Hx. destruct (broadcast E n _) as [b|e|] eqn:Hb; [|done..].
      destruct (read_answer b) as [e|t] eqn:Hr; simplify_eq. split; [|done]. split; [done|]. cbn. by exists b.
Qed.

(** *** The audit trail *)
Section Request.
Context (p : pool) (sanc : Sanctions.state) (fuel : nat) (rq : SendRequest) (ip tok : string).
Abbreviation key := (idempotency_key rq).

Lemma tells_audit wl ev txid res det : about_payout (mkEntry "" "" ev "" "" "" "" "" "" "" "" "" "" "") = false ->
  Frame tells (audit_event (S:=S) E c rq ip tok wl ev txid res det).
Proof. intros H. by apply tells_record. Qed.
Lemma tells_reject {A} wl reason details exc : Frame tells (reject (S:=S) (A:=A) E c rq ip tok wl reason details exc).
Proof. unfold reject. apply frame_bind; [apply _|by apply tells_audit|]. intros _. reads. Qed.

(** An entry that is true may be written. *)
Lemma audit_kept wl ev txid res det w : truthful w ->
  (forall id ts, entry_true (w_attempts w) (entry_for rq ip tok wl ev txid res det id ts)) ->
  wp (audit_event E c rq ip tok wl ev txid res det) (kept (fun _ w' => w_attempts w' = w_attempts w)) w.
Proof.
  intros (H1 & H2 & H3) He. unfold audit_event, wp.
  destruct (record_file E c (entry_for rq ip tok wl ev txid res det) w) as (es & Hf & Hes).
  destruct (frame_record E c (entry_for rq ip tok wl ev txid res det) w) as [Hi Ha].
  split; [|done]. split_and!; rewrite ?Hi, Ha; [done| |done]. rewrite Hf. apply Forall_app. split; [done|].
  destruct Hes as [->| ->]; repeat constructor; apply He.
Qed.

Ltac tframes := repeat first [progress intros | solve [apply _]
  | lazymatch goal with
    | |- Frame _ (reject _ _ _ _ _ _ _ _ _) => apply tells_reject
    | |- Frame _ (audit_event _ _ _ _ _ _ _ _ _ _) => apply tells_audit; reflexivity
    end
  | apply frame_bind | apply reading_try | apply frame_when | case_match | progress cbv zeta].

#[local] Instance tells_validate a : Frame tells (validate_tron_address (S:=S) E a).
Proof. unfold validate_tron_address. tframes. Qed.
#[local] Instance tells_risk wl : Frame tells (risk_preflight (S:=S) E c sanc rq ip tok wl).
Proof. unfold risk_preflight. tframes. Qed.
#[local] Instance tells_preflight wl : Frame tells (preflight (S:=S) E c rq ip tok wl).
Proof. unfold preflight. tframes. Qed.
#[local] Instance tells_checked wl : Frame tells (checked_preflight (S:=S) E c rq ip tok wl).
Proof.
  apply frame_catch; [apply _..|]. intros e r. destruct (is_PayoutError e); [done|].
  destruct (is_Exception e); [|done]. intros [= <-]. tframes.
Qed.

(** *** The steps *)
Lemma broadcast_kept wl started fee w : truthful w ->
  wp (broadcast_step E c rq ip tok wl started fee)
     (kept (fun txid w' => paid_as (w_attempts w') key txid (wl_address wl) (to_address rq) (amount rq))) w.
Proof.
  intros Hw. apply wp_catch. eapply wp_mono; [|apply wp_read; [apply _|apply _|exact Hw|intros [] w1 Hw1 Hl1; by apply send_usdt_kept]].
  intros [txid|e|] w2 [H2 Ha]; [by split| |by split]. destruct (is_Exception e); [|by split].
  apply wp_fails; [unfold audit_event; frames|tframes|apply _|done].
Qed.

Lemma guarded_kept wl started w : truthful w ->
  wp (guarded_send E c rq ip tok wl started)
     (kept (fun txid w' => paid_as (w_attempts w') key txid (wl_address wl) (to_address rq) (amount rq))) w.
Proof.
  intros Hw. apply wp_catch.
  eapply (wp_mono _ (kept (fun txid w' => paid_as (w_attempts w') key txid (wl_address wl) (to_address rq) (amount rq)))).
  { intros [txid|e|] w1 [H1 Ha]; [by split| |by split]. cbn beta iota. eapply wp_kept; [by apply release_kept|]. cbn beta.
    intros [] w2 H2 _. by split. }
  apply wp_read; [apply _|apply _|done|intros fee w1 H1 _].
  eapply wp_kept; [by apply broadcast_kept|]. cbn beta. intros txid w2 H2 Hp.
  eapply wp_kept; [apply commit_kept; [done|by eapply paid_as_paid]|]. cbn beta. intros [] w3 H3 Ha.
  apply wp_ret. split; [done|]. intros t [= <-]. by rewrite Ha.
Qed.

Lemma success_kept wl started level txid w : truthful w ->
  paid_as (w_attempts w) key txid (wl_address wl) (to_address rq) (amount rq) ->
  wp (answer_success E c rq ip tok wl started level txid) (kept (fun r w' => answer_true (w_attempts w') rq r)) w.
Proof.
  intros Hw Hp. unfold answer_success.
  apply wp_read; [apply _|apply _|done|intros t w1 H1 Ha1]. cbv zeta. rewrite <- Ha1 in Hp.
  eapply wp_kept; [apply audit_kept; [done|]|cbn beta; intros [] w2 H2 Ha2].
  { intros id ts. split; [|done]. intros _. exists (amount rq). cbn. by rewrite dec_string_inverse. }
  rewrite <- Ha2 in Hp.
  apply wp_read; [apply _|apply _|done|intros [] w3 H3 Ha3].
  apply wp_read; [apply _|apply _|done|intros [] w4 H4 Ha4].
  apply wp_read; [apply _|unfold idem_count; apply _|done|intros n w5 H5 Ha5].
  apply wp_read; [apply _|apply _|done|intros [] w6 H6 Ha6].
  apply wp_ret. split; [done|]. intros r [= <-]. rewrite Ha6, Ha5, Ha4, Ha3.
  split; cbn; [by eapply paid_as_paid|done].
Qed.

Lemma duplicate_kept wl txid w : truthful w -> paid (w_attempts w) key txid ->
  wp (answer_duplicate E c rq ip tok wl txid) (kept (fun r w' => answer_true (w_attempts w') rq r)) w.
Proof.
  intros Hw Hp. unfold answer_duplicate.
  eapply wp_kept; [apply audit_kept; [done|]|cbn beta; intros [] w1 H1 Ha1].
  { intros id ts. by split. }
  apply wp_read; [apply _|apply _|done|cbn beta; intros [] w2 H2 Ha2].
  apply wp_ret. split; [done|]. intros r [= <-]. rewrite Ha2, Ha1. split; cbn; [done|by intros []].
Qed.

(** The whole handler. *)
Lemma send_kept w : truthful w ->
  wp (send E c p sanc fuel rq ip tok) (kept (fun r w' => answer_true (w_attempts w') rq r)) w.
Proof.
  intros Hw. unfold send.
  apply wp_read; [apply _|apply _|done|intros started w1 H1 _].
  apply wp_read; [apply _|apply _|done|intros wl w2 H2 _].
  apply wp_read; [apply _|apply _|done|intros [] w3 H3 _].
  apply wp_read; [apply _|apply _|done|intros level w4 H4 _].
  eapply wp_kept; [by apply reserve_kept|]. cbn beta. intros [txid|] w5 H5 Hp.
  - apply duplicate_kept; [done|]. by apply Hp.
  - eapply wp_kept; [by apply guarded_kept|]. cbn beta. intros txid w6 H6 Hp6. by apply success_kept.
Qed.
End Request.
End Books.

(** ** Histories *)
Section History.
Context {S : Type} `{!IdemStore S, !IdemGuard S, !IdemTrace S}.
Context (E : Env).
Implicit Types w : World S.

(** The life of the service, with the answers it gave.  [Other]: anything else that neither
    pays nor writes of payouts (the other endpoints, the poller, the workers). *)
Inductive history : World S -> list (SendRequest * SendResponse) -> World S -> Prop :=
| Fresh w : history w [] w
| Served c p sanc fuel rq ip tok w0 l w :
    history w0 l w ->
    history w0 (l ++ match fst (send E c p sanc fuel rq ip tok w) with Ret r => [(rq, r)] | _ => [] end)
      (snd (send E c p sanc fuel rq ip tok w))
| Rebooted w0 l w pid tick s' h al :       (** after a crash at any point, or between requests *)
    history w0 l w -> restart (w_idem w) s' -> history w0 l (boot pid tick s' h al w)
| Other w0 l w w' : history w0 l w -> same_core w w' -> tells w w' -> history w0 l w'.

Context `{!IdemTraceLaws S}.

Lemma history_truthful w0 l w : truthful [] w0 -> history w0 l w -> truthful l w.
Proof.
  intros H0. induction 1 as [w|c p sanc fuel rq ip tok w0 l w _ IH|w0 l w pid tick s' h al _ IH Hr|w0 l w w' _ IH Hc Ht]; [done|..].
  - specialize (IH H0). destruct (send_kept E c l p sanc fuel rq ip tok w IH) as [(H1 & H2 & H3) Hans].
    split_and!; [done..|]. apply Forall_app. split; [done|].
    destruct (fst (send _ _ _ _ _ _ _ _ w)) as [r|e|]; repeat constructor; by apply Hans.
  - destruct (IH H0) as (H1 & H2 & H3). split_and!; [|done..]. intros k t Hk. apply H1. by eapply restart_trace.
  - by apply (truthful_tells l w), IH.
Qed.
End History.

(** ** The properties *)


Lemma demo_unrecorded k t : ~ recorded k t (w_idem demo_world).
Proof. intros [(r & H & _)|(r & H & _)]; cbn in H; by rewrite lookup_empty in H. Qed.


(** A key that is used again for another payment is answered as if that payment had been
    made: the second answer carries the txid of the first transfer beside the recipient and
    the amount of the second request, of which nothing was sent. *)
Theorem duplicate_names_other_payment : exists (rq : SendRequest) (r : SendResponse) (a : attempt),
  let w := snd (demo_send sample_env demo_world) in
  let second := send sample_env default_config demo_pool (Sanctions.mkState (Some ∅) Sanctions.FromCache None) 3 rq "ip" "t" w in
  fst second = Ret r /\ w_attempts (snd second) = [a] /\
  idempotency_key rq = idempotency_key demo_request /\ accepted (idempotency_key rq) (sr_txid r) a /\
  sr_to r = to_address rq /\ t_to (at_tx a) <> sr_to r /\
  sr_amount r = dec_to_string (amount rq) /\ t_amount_raw (at_tx a) <> raw_of_usdt (amount rq).
Proof.
  exists (mkSendRequest "TOtherRecipient0000000000000000000" (mkDec 4 0) "key-1" None).
  eexists _, _. cbv zeta. split_and!; [vm_compute; reflexivity|vm_compute; reflexivity|..]; try reflexivity.
  - split; [reflexivity|]. eexists. split; reflexivity.
  - vm_compute. discriminate.
  - vm_compute. discriminate.
Qed.
