(* ===== verification/RateLimit.v ===== *)
(** * Token-bucket rate limiting ([rate_limit_bucket.py], [net.py], the middleware
    of [server.create_app])

    Token counts are Python floats; the model computes with exact rationals. *)
From S2P Require Import Prelude PyStr Exceptions Config.
Open Scope string_scope.
Open Scope Q_scope.

Record BucketParams := mkParams { capacity : Z; refill_per_sec : Q }.
(** [__post_init__] *)
Definition params_ok (p : BucketParams) : bool :=
  (1 <=? capacity p)%Z && Qltb 0 (refill_per_sec p).

Record bucket := mkBucket { tokens : Q; updated_at : time }.
Abbreviation buckets := (gmap (string * string) bucket).

(** [min(float(capacity), tokens + elapsed * refill)], elapsed at least 0 *)
Definition refilled (p : BucketParams) (now : time) (b : bucket) : Q :=
  Qmin2 (inject_Z (capacity p)) (tokens b + Qmax2 0 (now - updated_at b) * refill_per_sec p).

(** [_check_sqlite]: one transaction; when it fails it is rolled back. *)
Definition check_sqlite (f : fate exn) (key : string * string) (p : BucketParams) (now : time) (s : buckets)
    : outcome exn bool * buckets :=
  match f with
  | Fails e => (Raise e, s)
  | Dies => (Crash, s)
  | Fine =>
      match s !! key with
      | None =>
          let t := inject_Z (capacity p) - 1 in
          (Ret (Qle_bool 0 t), <[key := mkBucket (Qmax2 t 0) now]> s)
      | Some b =>
          let current := refilled p now b in
          if Qltb current 1 then (Ret false, <[key := mkBucket current now]> s)
          else (Ret true, <[key := mkBucket (current - 1) now]> s)
      end
  end.

(** [_check_memory] *)
Definition check_memory (key : string * string) (p : BucketParams) (now : time) (s : buckets)
    : bool * buckets :=
  match s !! key with
  | None => (true, <[key := mkBucket (inject_Z (capacity p) - 1) now]> s)
  | Some b =>
      let t := refilled p now b in
      if Qltb t 1 then (false, <[key := mkBucket t now]> s)
      else (true, <[key := mkBucket (t - 1) now]> s)
  end.

(** [sweep_idle]: the number of rows removed. *)
Definition sweep_idle (now idle_threshold_sec : time) (s : buckets) : Z * buckets :=
  let cutoff := now - idle_threshold_sec in
  let s' := filter (fun kv : (string * string) * bucket => Qltb (updated_at kv.2) cutoff = false) s in
  ((Z.of_nat (size s) - Z.of_nat (size s'))%Z, s').

(** [_RateLimiter.check]: before the limiter is initialised everything passes; the
    parameters are checked at every call ([params_ok]). *)
Definition params_error (p : BucketParams) : exn := EValue "BucketParams".
Definition limiter_check (limiter : option buckets) (p : BucketParams) (now : time) (client_ip : string)
    : outcome exn bool * option buckets :=
  match limiter with
  | None => (Ret true, None)
  | Some s =>
      if negb (params_ok p) then (Raise (params_error p), Some s)
      else let '(ok, s') := check_memory ("ip", client_ip) p now s in (Ret ok, Some s')
  end.

(** [client_address]: [peer] is the direct peer, [xff] the X-Forwarded-For header. *)
Definition client_address (trusted : list string) (peer : option string) (xff : string) : string :=
  let direct := default "unknown" peer in
  if String.eqb direct "unknown" || bool_decide (trusted = []) then direct
  else if negb (bool_decide (direct ∈ trusted)) then direct
  else
    let xff := strip xff in
    if String.eqb xff "" then direct
    else let first := strip (hd "" (split_on "," xff)) in str_or first direct.

(** [main_middleware]: [None]: the request goes on; [Some]: the status answered. *)
Definition exempt (path : string) : bool :=
  bool_decide (path ∈ ["/api/v1/health"; "/api/v1/health/live"; "/api/v1/metrics"]).
Definition main_middleware (trusted : list string) (p : BucketParams) (now : time)
    (path : string) (peer : option string) (xff : string) (limiter : option buckets)
    : outcome exn (option Z) * option buckets :=
  if exempt path then (Ret None, limiter)
  else let '(ok, limiter') := limiter_check limiter p now (client_address trusted peer xff) in
       (match ok with
        | Ret ok => Ret (if ok then None else Some 429%Z)
        | Raise e => Raise e
        | Crash => Crash
        end, limiter').

(** ** Facts *)

Lemma params_ok_spec p : params_ok p = true -> (1 <= capacity p)%Z /\ 0 < refill_per_sec p.
Proof. unfold params_ok. intros H. bcases. split; [done|]. by apply Qltb_lt. Qed.

Lemma inject_1 n : (1 <= n)%Z -> 1 <= inject_Z n.
Proof. intros H. change 1 with (inject_Z 1). by rewrite <- Zle_Qle. Qed.

(** What one check does to its bucket. *)
Lemma check_memory_bucket key p now s :
  exists b, snd (check_memory key p now s) !! key = Some b /\
    (forall k, k <> key -> snd (check_memory key p now s) !! k = s !! k) /\
    updated_at b = now /\
    let t := match s !! key with Some b => refilled p now b | None => inject_Z (capacity p) end in
    tokens b == t - (if fst (check_memory key p now s) then 1 else 0).
Proof.
  unfold check_memory. destruct (s !! key) as [b|]; [destruct (Qltb _ _)|]; eexists; simpl;
    (split; [apply lookup_insert_eq|]); (split; [intros k Hk; by rewrite lookup_insert_ne|]);
    (split; [done|]); simpl; lra.
Qed.

(** ** The requests a limiter lets through *)

(** The checks of one key at the given times: how many passed. *)
Fixpoint admitted (key : string * string) (p : BucketParams) (times : list time) (s : buckets) : Z :=
  match times with
  | [] => 0%Z
  | t :: ts =>
      let '(ok, s') := check_memory key p t s in
      ((if ok then 1 else 0) + admitted key p ts s')%Z
  end.

(** The clock does not go back. *)
Fixpoint clock_ok (from : time) (times : list time) : Prop :=
  match times with [] => True | t :: ts => from <= t /\ clock_ok t ts end.

(** A refill is at most the elapsed time's worth, and never negative. *)
Lemma refilled_bounds p now b : params_ok p = true -> 0 <= tokens b -> updated_at b <= now ->
  0 <= refilled p now b <= tokens b + (now - updated_at b) * refill_per_sec p /\
  refilled p now b <= inject_Z (capacity p).
Proof.
  intros [Hc Hr]%params_ok_spec Ht Hu. apply inject_1 in Hc. unfold refilled.
  assert (0 <= (now - updated_at b) * refill_per_sec p) by (apply Qmult_le_0_compat; lra).
  qcases; repeat split; lra.
Qed.

Lemma check_known key p now s b : params_ok p = true -> s !! key = Some b ->
  0 <= tokens b -> updated_at b <= now ->
  exists b', snd (check_memory key p now s) !! key = Some b' /\ updated_at b' = now /\ 0 <= tokens b' /\
    tokens b' + (if fst (check_memory key p now s) then 1 else 0) <=
      tokens b + (now - updated_at b) * refill_per_sec p.
Proof.
  intros Hp Hb Ht Hu. destruct (refilled_bounds p now b Hp Ht Hu) as [[H1 H2] _].
  unfold check_memory. rewrite Hb. destruct (Qltb (refilled p now b) 1) eqn:Hq; simpl;
    eexists; (split; [apply lookup_insert_eq|]); simpl; (split; [done|]).
  - split; lra.
  - apply Qltb_nlt in Hq. split; lra.
Qed.

(** Over checks at times [ts] of a bucket last used at [u]. *)
Lemma admitted_known key p ts : forall s b, params_ok p = true -> s !! key = Some b ->
  0 <= tokens b -> clock_ok (updated_at b) ts ->
  inject_Z (admitted key p ts s) <=
    tokens b + (List.last ts (updated_at b) - updated_at b) * refill_per_sec p.
Proof.
  induction ts as [|t ts IH]; intros s b Hp Hb Ht Hc; cbn [admitted List.last].
  - change (inject_Z 0) with 0. lra.
  - destruct Hc as [Hu Hc]. destruct (check_known key p t s b Hp Hb Ht Hu) as (b' & Hb' & Hu' & Ht' & Hsum).
    destruct (check_memory key p t s) as [ok s']. simpl in *. subst t.
    specialize (IH s' b' Hp Hb' Ht' Hc).
    assert (inject_Z ((if ok then 1 else 0) + admitted key p ts s') ==
            (if ok then 1 else 0) + inject_Z (admitted key p ts s')) as ->.
    { rewrite inject_Z_plus. by destruct ok. }
    assert (match ts with [] => updated_at b' | _ => List.last ts (updated_at b) end =
            List.last ts (updated_at b')) as Hlast.
    { destruct ts as [|x ts]; [done|]. clear. revert x. induction ts; intros; simpl in *; auto. }
    rewrite Hlast. set (l := List.last ts (updated_at b')) in *.
    assert ((l - updated_at b) * refill_per_sec p ==
      (updated_at b' - updated_at b) * refill_per_sec p + (l - updated_at b') * refill_per_sec p) as -> by ring.
    lra.
Qed.

(** Over any run of checks of one key whose clock does not go back, the
    requests let through are at most the capacity plus the refill rate times the
    time between the first and the last check. *)
Theorem admitted_bounded (key : string * string) (p : BucketParams) (t : time) (ts : list time) :
  params_ok p = true -> clock_ok t ts ->
  inject_Z (admitted key p (t :: ts) ∅) <=
    inject_Z (capacity p) + (List.last ts t - t) * refill_per_sec p.
Proof.
  intros Hp Hc. pose proof (params_ok_spec p Hp) as [Hcap _]. apply inject_1 in Hcap.
  cbn [admitted]. unfold check_memory at 1. rewrite lookup_empty.
  set (s' := <[key := _]> ∅).
  pose proof (admitted_known key p ts s' (mkBucket (inject_Z (capacity p) - 1) t) Hp
    (lookup_insert_eq _ _ _) ltac:(simpl; lra) Hc) as H. simpl in H.
  rewrite inject_Z_plus. change (inject_Z 1) with 1. lra.
Qed.

Lemma admitted_bounded_witness :
  admitted ("ip", "a") (mkParams 2 (1#2)) [0; 0; 1; 3] ∅ = 3%Z /\
  inject_Z (admitted ("ip", "a") (mkParams 2 (1#2)) [0; 0; 1; 3] ∅) <= inject_Z 2 + (3 - 0) * (1#2).
Proof.
  split; [vm_compute; reflexivity|].
  apply (admitted_bounded ("ip", "a") (mkParams 2 (1#2)) 0 [0; 1; 3]); [reflexivity|].
  simpl. repeat split; lra.
Defined.

(** The SQLite limiter, when its transaction works, and the in-memory one are
    the same function; when the transaction fails no token is taken. *)
Theorem limiters_agree (key : string * string) (p : BucketParams) (now : time) (s : buckets) (e : exn) :
  params_ok p = true ->
  check_sqlite Fine key p now s = (Ret (fst (check_memory key p now s)), snd (check_memory key p now s)) /\
  check_sqlite (Fails e) key p now s = (Raise e, s).
Proof.
  intros [Hc _]%params_ok_spec. split; [|done]. unfold check_sqlite, check_memory.
  destruct (s !! key) as [b|]; [by destruct (Qltb _ _)|]. simpl.
  assert (Qle_bool 0 (inject_Z (capacity p) - 1) = true) as ->.
  { apply Qle_bool_iff. apply inject_1 in Hc. lra. }
  do 3 f_equal. unfold Qmax2. destruct (Qle_bool (inject_Z (capacity p) - 1) 0) eqn:E; [|done].
  apply Qle_bool_iff in E. assert (capacity p = 1%Z) as ->; [|done].
  assert (inject_Z (capacity p) <= inject_Z 1) as H by (change (inject_Z 1) with 1; lra).
  rewrite <- Zle_Qle in H. lia.
Qed.

Lemma limiters_agree_witness :
  check_sqlite Fine ("ip", "a") (mkParams 1 1) 0 ∅ = (Ret true, <[("ip", "a") := mkBucket 0 0]> ∅).
Proof.
  etrans; [apply (limiters_agree ("ip", "a") (mkParams 1 1) 0 ∅ EAssertion); reflexivity|].
  vm_compute. reflexivity.
Defined.

(** Sweeping changes no answer.  When the idle threshold is long enough to
    refill a bucket, a check answers the same, and leaves the same number of
    tokens, whether or not idle buckets were swept before it. *)
Theorem sweep_transparent (key : string * string) (p : BucketParams) (idle swept now : time) (s : buckets) :
  params_ok p = true -> inject_Z (capacity p) <= idle * refill_per_sec p -> swept <= now ->
  (forall b, s !! key = Some b -> 0 <= tokens b) ->
  let s1 := snd (sweep_idle swept idle s) in
  fst (check_memory key p now s1) = fst (check_memory key p now s) /\
  exists b b', snd (check_memory key p now s1) !! key = Some b /\
    snd (check_memory key p now s) !! key = Some b' /\ tokens b == tokens b' /\
    updated_at b = updated_at b'.
Proof.
  intros Hp Hidle Hnow Hpos s1. pose proof (params_ok_spec p Hp) as [Hc Hr]. apply inject_1 in Hc.
  assert (s1 !! key = s !! key \/ (s1 !! key = None /\ exists b, s !! key = Some b /\ updated_at b < swept - idle)) as H.
  { unfold s1, sweep_idle; simpl. rewrite map_lookup_filter. destruct (s !! key) as [b|] eqn:E; [|by left]. simpl.
    destruct (Qltb (updated_at b) (swept - idle)) eqn:Hq.
    - right. rewrite option_guard_False by (simpl; congruence). apply Qltb_lt in Hq. eauto.
    - left. by rewrite option_guard_True by done. }
  unfold check_memory. destruct H as [-> | (-> & b & Hb & Hlt)].
  - destruct (s !! key) as [b|]; [destruct (Qltb _ _)|]; simpl; (split; [done|]); do 2 eexists;
      split_and!; try apply lookup_insert_eq; done.
  - rewrite Hb. assert (refilled p now b == inject_Z (capacity p)) as Hfull.
    { unfold refilled. specialize (Hpos b Hb). assert (0 < idle) by nra.
      assert (idle * refill_per_sec p <= (now - updated_at b) * refill_per_sec p) by (apply Qmult_le_compat_r; lra).
      qcases; lra. }
    destruct (Qltb (refilled p now b) 1) eqn:Hq; [apply Qltb_lt in Hq; lra|]. simpl. split; [done|].
    do 2 eexists. split_and!; [apply lookup_insert_eq | apply lookup_insert_eq | simpl; lra | done].
Qed.

Lemma sweep_transparent_witness :
  let s := <[("ip", "a") := mkBucket 0 0]> (∅ : buckets) in
  let s1 := snd (sweep_idle 4000 3600 s) in
  s1 !! ("ip", "a") = None /\
  fst (check_memory ("ip", "a") (mkParams 30 (1#2)) 4001 s1) =
  fst (check_memory ("ip", "a") (mkParams 30 (1#2)) 4001 s).
Proof.
  intros s s1. split; [vm_compute; reflexivity|].
  apply (sweep_transparent ("ip", "a") (mkParams 30 (1#2)) 3600 4000 4001 s);
    [reflexivity | vm_compute; discriminate | lra|].
  intros b Hb. unfold s in Hb. rewrite lookup_insert_eq in Hb. injection Hb as <-. simpl. lra.
Defined.

(** The forwarded address cannot be spoofed: unless the direct peer is one of
    the configured trusted proxies, the address used for rate limiting and the
    audit trail is the peer's, whatever header is sent; and a request limited by
    the middleware never reaches a handler, while the health and metrics paths
    are never limited. *)
Theorem client_address_trusted (trusted : list string) (p : BucketParams) (now : time) (path : string)
    (peer : string) (xff : string) (s : buckets) :
  (peer ∉ trusted -> client_address trusted (Some peer) xff = peer) /\
  (exempt path = true -> main_middleware trusted p now path (Some peer) xff (Some s) = (Ret None, Some s)) /\
  (exempt path = false -> params_ok p = true ->
   let '(ok, s') := check_memory ("ip", client_address trusted (Some peer) xff) p now s in
   main_middleware trusted p now path (Some peer) xff (Some s) =
     (Ret (if ok then None else Some 429%Z), Some s')) /\
  (exempt path = false -> params_ok p = false ->
   main_middleware trusted p now path (Some peer) xff (Some s) = (Raise (params_error p), Some s)).
Proof.
  split_and!.
  - intros H. unfold client_address. simpl. destruct (_ || _); [done|].
    by rewrite bool_decide_eq_false_2.
  - intros H. unfold main_middleware. by rewrite H.
  - intros H Hp. unfold main_middleware. rewrite H. unfold limiter_check. rewrite Hp. by destruct (check_memory _ _ _ _).
  - intros H Hp. unfold main_middleware. rewrite H. unfold limiter_check. by rewrite Hp.
Qed.
