(* ===== verification/Tokens.v ===== *)
(** * API tokens and scopes ([tokens.py], the X-API-Key path of [security.py])

    [hash_token] (scrypt) and the random ids, salts and plaintexts are parameters. *)
From S2P Require Import Prelude PyStr.
Open Scope string_scope.

Definition TOKEN_PREFIX : string := "skr_".
Definition ALL_SCOPES : gset string := {["admin"; "send"; "read"; "metrics"]}.

(** [_IMPLIES.get(s, frozenset({s}))] *)
Definition implies (s : string) : gset string :=
  if String.eqb s "admin" then {["admin"; "send"; "read"; "metrics"]}
  else if String.eqb s "send" then {["send"; "read"]}
  else if String.eqb s "read" then {["read"]}
  else if String.eqb s "metrics" then {["metrics"]}
  else {[s]}.

Definition expand_scopes (scopes : gset string) : gset string := ⋃ (map implies (elements scopes)).
Definition scope_satisfies (token_scopes : gset string) (required : string) : bool :=
  bool_decide (required ∈ expand_scopes token_scopes).

Inductive token_error :=
| TokenError (msg : string)
| TokenInvalid (msg : string)
| TokenRevoked (id revoked_at : string)
| InsufficientScope (required : string) (has : list string).

Fixpoint validate_loop (scopes : list string) (out : gset string) : token_error + gset string :=
  match scopes with
  | [] => inr out
  | s :: rest =>
      let s := lower (strip s) in
      if bool_decide (s ∈ ALL_SCOPES) then validate_loop rest ({[s]} ∪ out)
      else inl (TokenError ("unknown scope " +:+ py_repr s +:+ " (valid: ['admin', 'metrics', 'read', 'send'])"))
  end.
Definition validate_scopes (scopes : list string) : token_error + gset string :=
  match scopes with [] => inl (TokenError "token must have at least one scope") | _ => validate_loop scopes ∅ end.

(** One row; [_persist] and [_row_to_dict] keep its fields. *)
Record TokenRecord := mkToken {
  t_id : string; t_name : string; t_hash : string; t_salt : string; t_scopes : gset string;
  t_created_at : string; t_last_used_at : option string; t_revoked_at : option string;
  t_created_by : string }.

(** The store: rows in the order [_all] gives them; [persistent]: SQLite or a dict. *)
Record TokenStore := mkStore { persistent : bool; rows : list TokenRecord }.

Definition upd_rows (f : list TokenRecord -> list TokenRecord) (s : TokenStore) : TokenStore :=
  mkStore (persistent s) (f (rows s)).

(** INSERT OR REPLACE *)
Definition persist (r : TokenRecord) : list TokenRecord -> list TokenRecord :=
  fun l => if existsb (fun x => String.eqb (t_id x) (t_id r)) l
           then map (fun x => if String.eqb (t_id x) (t_id r) then r else x) l
           else (l ++ [r])%list.

(** [revoked_at IS NULL] / [not d["revoked_at"]] *)
Definition is_active (r : TokenRecord) : bool := match t_revoked_at r with Some _ => false | None => true end.
Definition all_active (s : TokenStore) : list TokenRecord := List.filter is_active (rows s).

Definition set_revoked (now : string) (r : TokenRecord) : TokenRecord :=
  mkToken (t_id r) (t_name r) (t_hash r) (t_salt r) (t_scopes r) (t_created_at r)
    (t_last_used_at r) (Some now) (t_created_by r).
Definition set_last_used (now : string) (r : TokenRecord) : TokenRecord :=
  mkToken (t_id r) (t_name r) (t_hash r) (t_salt r) (t_scopes r) (t_created_at r)
    (Some now) (t_revoked_at r) (t_created_by r).

(** [revoke]: the SQL has [AND revoked_at IS NULL]; the dict is overwritten. *)
Definition revoke (now id : string) (s : TokenStore) : TokenStore :=
  upd_rows (map (fun r => if String.eqb (t_id r) id && (negb (persistent s) || is_active r)
                          then set_revoked now r else r)) s.

Definition list_tokens (include_revoked : bool) (s : TokenStore) : list TokenRecord :=
  if include_revoked then rows s else all_active s.

Definition get (id : string) (s : TokenStore) : option TokenRecord :=
  List.find (fun r => String.eqb (t_id r) id) (rows s).

Section Hashing.
Context (hash_token : string -> string -> string).   (** plaintext, salt *)

Definition matches (plaintext : string) (r : TokenRecord) : bool :=
  String.eqb (hash_token plaintext (t_salt r)) (t_hash r).

(** [create]: the random values and the clock are given. *)
Definition create (plaintext salt id now : string) (name : string) (scopes : list string)
    (created_by : string) (s : TokenStore) : (token_error + TokenRecord * string) * TokenStore :=
  if String.eqb (strip name) "" then (inl (TokenError "token name must not be empty"), s)
  else match validate_scopes scopes with
       | inl e => (inl e, s)
       | inr canon =>
           let r := mkToken id (strip name) (hash_token plaintext salt) salt canon now None None created_by in
           (inr (r, plaintext), upd_rows (persist r) s)
       end.

(** [_check_legacy_token] *)
Definition check_legacy_token (AUTH_TOKEN plaintext : string) : bool :=
  negb (String.eqb AUTH_TOKEN "") && String.eqb plaintext AUTH_TOKEN.

(** [verify] *)
Definition verify (AUTH_TOKEN now plaintext required_scope : string) (s : TokenStore)
    : (token_error + string) * TokenStore :=
  if String.eqb plaintext "" then (inl (TokenInvalid "empty token"), s)
  else if check_legacy_token AUTH_TOKEN plaintext then
    (if scope_satisfies {["admin"]} required_scope then inr "legacy"
     else inl (InsufficientScope required_scope ["admin"]), s)
  else match List.find (matches plaintext) (all_active s) with
  | Some d =>
      if negb (scope_satisfies (t_scopes d) required_scope) then
        (inl (InsufficientScope required_scope (elements (t_scopes d))), s)
      else (inr (t_id d),
            upd_rows (map (fun r => if String.eqb (t_id r) (t_id d) then set_last_used now r else r)) s)
  | None =>
      match List.find (fun r => negb (is_active r) && matches plaintext r) (rows s) with
      | Some d => (inl (TokenRevoked (t_id d) (default "" (t_revoked_at d))), s)
      | None => (inl (TokenInvalid "token does not match any record"), s)
      end
  end.

(** [_verify_with_scope]: an HTTP status, or the caller's token id. *)
Definition verify_with_scope (AUTH_TOKEN now api_key required_scope : string) (s : TokenStore)
    : (Z + string) * TokenStore :=
  if String.eqb api_key "" then (inl 401%Z, s)
  else if check_legacy_token AUTH_TOKEN api_key then (inr "legacy", s)
  else match verify AUTH_TOKEN now api_key required_scope s with
       | (inr id, s') => (inr id, s')
       | (inl (InsufficientScope _ _), s') => (inl 403%Z, s')
       | (inl (TokenInvalid _), s') | (inl (TokenRevoked _ _), s') => (inl 401%Z, s')
       | (inl (TokenError _), s') => (inl 500%Z, s')
       end.
End Hashing.

(** ** Scopes *)

Lemma expand_spec scopes r : r ∈ expand_scopes scopes <-> exists t, t ∈ scopes /\ r ∈ implies t.
Proof.
  unfold expand_scopes. rewrite elem_of_union_list. split.
  - intros (X & HX & Hr). apply list_elem_of_fmap in HX as (t & -> & Ht). exists t.
    split; [by apply elem_of_elements | done].
  - intros (t & Ht & Hr). exists (implies t). split; [|done].
    apply list_elem_of_fmap. exists t. split; [done | by apply elem_of_elements].
Qed.

(** Case analysis on the string tests in sight. *)
Ltac scope_cases :=
  repeat match goal with |- context [String.eqb ?a ?b] => destruct (String.eqb_spec a b); subst end;
  repeat match goal with H : context [String.eqb ?a ?b] |- _ => destruct (String.eqb_spec a b); subst end.

Lemma implies_refl s : s ∈ implies s.
Proof. unfold implies. scope_cases; set_solver. Qed.

Lemma implies_trans a b r : b ∈ implies a -> r ∈ implies b -> r ∈ implies a.
Proof. unfold implies. intros Hb Hr. scope_cases; set_solver. Qed.

Lemma validate_loop_spec scopes : forall out canon, validate_loop scopes out = inr canon ->
  canon = list_to_set (map (fun s => lower (strip s)) scopes) ∪ out /\
  Forall (fun s => lower (strip s) ∈ ALL_SCOPES) scopes.
Proof.
  induction scopes as [|s l IH]; intros out canon; simpl; [intros [= <-]; split; [set_solver | constructor]|].
  case_bool_decide as Hs; [|done]. intros H. apply IH in H as [-> Hf]. split; [set_solver | by constructor].
Qed.

(** ** The rows' invariant: ids are distinct *)
Definition store_wf (s : TokenStore) : Prop := List.NoDup (map t_id (rows s)).

Lemma find_some_spec {A} (f : A -> bool) l x : List.find f l = Some x -> In x l /\ f x = true.
Proof. apply find_some. Qed.

Lemma map_ids f l : (forall r, t_id (f r) = t_id r) -> map t_id (map f l) = map t_id l.
Proof. intros H. rewrite map_map. apply map_ext. done. Qed.

Lemma revoke_wf now id s : store_wf s -> store_wf (revoke now id s).
Proof. unfold store_wf, revoke. simpl. intros H. rewrite map_ids; [done|]. intros r. by destruct (_ && _). Qed.

Lemma persist_wf r l : List.NoDup (map t_id l) -> List.NoDup (map t_id (persist r l)).
Proof.
  intros H. unfold persist. destruct (existsb _ l) eqn:E.
  - rewrite map_ids; [done|]. intros x. destruct (String.eqb_spec (t_id x) (t_id r)); done.
  - rewrite map_app. apply (Permutation_NoDup (Permutation_cons_append _ _)). constructor; [|done].
    intros (x & Hx & Hin)%in_map_iff. assert (existsb (fun x => String.eqb (t_id x) (t_id r)) l = true); [|congruence].
    apply existsb_exists. exists x. split; [done|]. by apply String.eqb_eq.
Qed.

Lemma create_wf h pl salt id now name scopes by_ s : store_wf s ->
  store_wf (snd (create h pl salt id now name scopes by_ s)).
Proof.
  intros H. unfold create. destruct (String.eqb (strip name) ""); [done|].
  destruct (validate_scopes scopes); [done|]. by apply persist_wf.
Qed.

Lemma verify_wf h auth now pl req s : store_wf s -> store_wf (snd (verify h auth now pl req s)).
Proof.
  intros H. unfold verify. destruct (String.eqb pl ""); [done|]. destruct (check_legacy_token auth pl); [done|].
  destruct (List.find _ _) as [d|]; [|by destruct (List.find _ _)].
  destruct (negb _); [done|]. unfold store_wf. simpl. rewrite map_ids; [done|].
  intros r. by destruct (String.eqb _ _).
Qed.

(** Who a row authenticates: every way [verify] can return. *)
Lemma verify_sound h auth now pl req s id s' :
  verify h auth now pl req s = (inr id, s') ->
  pl <> "" /\
  ((id = "legacy" /\ auth <> "" /\ pl = auth) \/
   exists d, In d (rows s) /\ t_id d = id /\ is_active d = true /\ matches h pl d = true /\
     scope_satisfies (t_scopes d) req = true).
Proof.
  unfold verify. destruct (String.eqb_spec pl "") as [|Hpl]; [done|].
  destruct (check_legacy_token auth pl) eqn:Hl.
  - unfold check_legacy_token in Hl. bcases. apply String.eqb_neq in H. apply String.eqb_eq in H0.
    destruct (scope_satisfies _ _); [|done]. intros [= <- <-]. split; [done|]. by left.
  - destruct (List.find _ (all_active s)) as [d|] eqn:Hd; [|intros H; by case_match].
    apply find_some_spec in Hd as [Hin Hm]. apply List.filter_In in Hin as [Hin Ha].
    destruct (scope_satisfies (t_scopes d) req) eqn:Hs; simpl; [|done]. intros [= <- <-].
    split; [done|]. right. by exists d.
Qed.

(** Who [_verify_with_scope] lets through. *)
Lemma with_scope_sound h auth now api_key req s id s' :
  verify_with_scope h auth now api_key req s = (inr id, s') ->
  api_key <> "" /\
  ((id = "legacy" /\ auth <> "" /\ api_key = auth) \/
   exists d, In d (rows s) /\ t_id d = id /\ is_active d = true /\ matches h api_key d = true /\
     scope_satisfies (t_scopes d) req = true).
Proof.
  unfold verify_with_scope. destruct (String.eqb_spec api_key "") as [|Hk]; [done|].
  destruct (check_legacy_token auth api_key) eqn:Hl.
  - unfold check_legacy_token in Hl. bcases. apply String.eqb_neq in H. apply String.eqb_eq in H0.
    intros [= <- <-]. split; [done|]. by left.
  - destruct (verify h auth now api_key req s) as [[[]|i] s1] eqn:Hv; try done. intros [= <- <-].
    by apply verify_sound in Hv.
Qed.

(** Scopes.  A token satisfies a requirement exactly when one of its scopes
    implies it; admin satisfies every known scope, send implies read, read never
    implies send, and nothing but admin and metrics implies metrics. *)
Theorem scope_hierarchy (scopes : gset string) (r : string) :
  (scope_satisfies scopes r = true <-> exists t, t ∈ scopes /\ r ∈ implies t) /\
  (forall s, s ∈ ALL_SCOPES -> scope_satisfies {["admin"]} s = true) /\
  (scope_satisfies {["send"]} "read" = true /\ scope_satisfies {["read"]} "send" = false) /\
  (scope_satisfies scopes "metrics" = true <-> "admin" ∈ scopes \/ "metrics" ∈ scopes).
Proof.
  unfold scope_satisfies. split_and!.
  - by rewrite bool_decide_eq_true, expand_spec.
  - intros s Hs. apply bool_decide_eq_true, expand_spec. exists "admin". split; [set_solver|].
    unfold implies, ALL_SCOPES in *. set_solver.
  - reflexivity.
  - reflexivity.
  - rewrite bool_decide_eq_true, expand_spec. unfold implies. split.
    + intros (t & Ht & Hr). scope_cases; set_solver.
    + intros [H|H]; [exists "admin" | exists "metrics"]; simpl; set_solver.
Qed.

(** C10: authentication is sound.  A request passes only with the configured legacy
    key or with a key whose hash under some row's salt is that row's, the row being
    active and its scopes covering the requirement; the id given to the audit trail
    is that row's; an empty key never passes. *)
Theorem verify_with_scope_sound (h : string -> string -> string) (auth now api_key req id : string)
    (s s' : TokenStore) :
  verify_with_scope h auth now api_key req s = (inr id, s') ->
  api_key <> "" /\
  ((id = "legacy" /\ auth <> "" /\ api_key = auth) \/
   exists d, In d (rows s) /\ t_id d = id /\ t_revoked_at d = None /\
     h api_key (t_salt d) = t_hash d /\ exists t, t ∈ t_scopes d /\ req ∈ implies t).
Proof.
  intros H. apply with_scope_sound in H as (Hk & [Hl|(d & Hin & Hid & Ha & Hm & Hs)]); (split; [done|]); [by left|].
  right. exists d. split_and!; [done | done | | by apply String.eqb_eq | ].
  - unfold is_active in Ha. by destruct (t_revoked_at d).
  - by apply bool_decide_eq_true, expand_spec in Hs.
Qed.

Definition demo_hash (pl salt : string) : string := pl +:+ "/" +:+ salt.
Definition demo_row : TokenRecord :=
  mkToken "id1" "bot" (demo_hash "skr_x" "salt") "salt" {["send"]} "2026" None None "operator".

Lemma verify_with_scope_sound_witness : exists s',
  verify_with_scope demo_hash "" "now" "skr_x" "read" (mkStore true [demo_row]) = (inr "id1", s') /\ "skr_x" <> "".
Proof.
  eexists. split; [vm_compute; reflexivity|].
  apply (verify_with_scope_sound demo_hash "" "now" "skr_x" "read" "id1" (mkStore true [demo_row])
    (mkStore true [set_last_used "now" demo_row])).
  vm_compute. reflexivity.
Defined.

(** Revoking is remembered by every later operation but a [create] of the same id. *)
Lemma revoked_rows now id s r : store_wf s -> In r (rows (revoke now id s)) -> t_id r = id ->
  is_active r = false.
Proof.
  intros _ Hin Hid. unfold revoke in Hin. simpl in Hin. apply in_map_iff in Hin as (x & <- & _).
  destruct (String.eqb_spec (t_id x) id) as [He|He]; simpl in *.
  - destruct (negb (persistent s)); simpl; [done|]. destruct (is_active x) eqn:Ha; [done | exact Ha].
  - done.
Qed.

(** A revoked token is refused: after [revoke] no key authenticates as the
    revoked id (a legacy key authenticates as "legacy"), and a key that only
    matches revoked rows gets TokenRevoked, answered 401. *)
Theorem revoke_refuses (h : string -> string -> string) (auth now now' id key req : string) (s : TokenStore) :
  store_wf s -> id <> "legacy" ->
  fst (verify h auth now' key req (revoke now id s)) <> inr id /\
  (check_legacy_token auth key = false -> key <> "" ->
   (forall r, In r (rows s) -> matches h key r = true -> t_id r = id) ->
   (exists r, In r (rows s) /\ matches h key r = true) ->
   exists t, fst (verify h auth now' key req (revoke now id s)) = inl (TokenRevoked id t) /\
     fst (verify_with_scope h auth now' key req (revoke now id s)) = inl 401%Z).
Proof.
  intros Hwf Hid. split.
  - intros H. destruct (verify _ _ _ _ _ _) as [o s'] eqn:Hv. simpl in H. subst o.
    apply verify_sound in Hv as (_ & [[-> _] | (d & Hin & Hd & Ha & _)]); [done|].
    by rewrite (revoked_rows now id s d Hwf Hin Hd) in Ha.
  - intros Hl Hk Hall (r & Hr & Hm).
    assert (forall x, In x (rows (revoke now id s)) -> matches h key x = true -> t_id x = id) as Hall'.
    { intros x Hx. unfold revoke in Hx. simpl in Hx. apply in_map_iff in Hx as (y & <- & Hy).
      destruct (_ && _); [|by apply Hall]. intros Hmy. apply (Hall y Hy Hmy). }
    assert (exists x, In x (rows (revoke now id s)) /\ matches h key x = true) as (x & Hx & Hmx).
    { exists (if String.eqb (t_id r) id && (negb (persistent s) || is_active r) then set_revoked now r else r).
      split; [simpl; apply in_map_iff; by exists r|]. by destruct (_ && _). }
    assert (exists t, fst (verify h auth now' key req (revoke now id s)) = inl (TokenRevoked id t)) as [t Ht].
    { unfold verify. destruct (String.eqb_spec key ""); [done|]. rewrite Hl.
      destruct (List.find (matches h key) (all_active (revoke now id s))) as [d|] eqn:Hd.
      { apply find_some in Hd as [Hd Hmd]. apply List.filter_In in Hd as [Hd Ha].
        by rewrite (revoked_rows now id s d Hwf Hd (Hall' d Hd Hmd)) in Ha. }
      destruct (List.find _ (rows _)) as [d|] eqn:Hd2.
      - apply find_some in Hd2 as [Hd2 Hm2]. apply andb_true_iff in Hm2 as [_ Hm2].
        rewrite (Hall' d Hd2 Hm2). by eexists.
      - exfalso. apply (List.find_none _ _ Hd2) in Hx as Hn. rewrite Hmx, andb_true_r in Hn.
        rewrite (revoked_rows now id s x Hwf Hx (Hall' x Hx Hmx)) in Hn. done. }
    exists t. split; [done|]. unfold verify_with_scope. destruct (String.eqb_spec key ""); [done|]. rewrite Hl.
    destruct (verify _ _ _ _ _ _) as [o s'] eqn:Hv. simpl in *. by subst o.
Qed.

Lemma revoke_refuses_witness :
  fst (verify demo_hash "" "later" "skr_x" "read" (revoke "now" "id1" (mkStore true [demo_row]))) <> inr "id1".
Proof.
  apply (revoke_refuses demo_hash "" "now" "later" "id1" "skr_x" "read" (mkStore true [demo_row])).
  - by repeat constructor; simpl; intros H.
  - done.
Defined.

(** The two backends of [revoke] differ: SQLite keeps the first revocation
    time, the in-memory store overwrites it, so only the former is idempotent. *)
Theorem revoke_idempotence (now now' id : string) (l : list TokenRecord) :
  revoke now' id (revoke now id (mkStore true l)) = revoke now id (mkStore true l) /\
  (now <> now' -> (exists r, In r l /\ t_id r = id) ->
   revoke now' id (revoke now id (mkStore false l)) <> revoke now id (mkStore false l)).
Proof.
  split.
  - unfold revoke, upd_rows. simpl. f_equal. rewrite map_map. apply map_ext. intros r.
    destruct (String.eqb_spec (t_id r) id) as [He|He]; simpl; [|by rewrite (proj2 (String.eqb_neq _ _) He)].
    destruct (is_active r) eqn:Ha; simpl; by rewrite ?Ha, ?andb_false_r, ?He, ?String.eqb_refl.
  - intros Hne (r & Hr & Hid) H. unfold revoke, upd_rows in H. simpl in H. injection H as H. rewrite map_map in H.
    pose proof (ext_in_map H r Hr) as Hr'. apply (f_equal t_revoked_at) in Hr'.
    rewrite Hid, String.eqb_refl in Hr'. simpl in Hr'. rewrite Hid, String.eqb_refl in Hr'. simpl in Hr'.
    congruence.
Qed.

Lemma revoke_idempotence_witness :
  revoke "t2" "id1" (revoke "t1" "id1" (mkStore false [demo_row])) <> revoke "t1" "id1" (mkStore false [demo_row]).
Proof. apply (revoke_idempotence "t1" "t2" "id1" [demo_row]); [done|]. exists demo_row. split; [by left | done]. Defined.
