(* ===== verification/Poller.v ===== *)
(** * The receipt poller ([receipt_poller.py]) and GET /tx/{txid}/status

    A daemon thread with its own table, [tx_status], next to the idempotency table.
    It reads the committed keys and writes [tx_status] and the audit log only. *)
From S2P Require Import Prelude PyStr Decimal Effects RiskTypes Exceptions Config AuditEntry World AuditLog.
Open Scope string_scope.

Definition TERMINAL_STATUSES : gset string :=
  {["SUCCESS"; "OUT_OF_ENERGY"; "REVERT"; "BAD_JUMP_DESTINATION"; "OUT_OF_TIME"; "STACK_TOO_SMALL";
    "STACK_TOO_LARGE"; "ILLEGAL_OPERATION"; "STACK_OVERFLOW"; "JVM_STACK_OVER_FLOW"; "TRANSFER_FAILED";
    "UNKNOWN"; "GIVEUP"]}.
Definition RETRY_STATUSES : gset string := {["NOT_FOUND"; "RPC_ERROR"; "PENDING"]}.

(** One row of [tx_status]. *)
Record TxStatus := mkTx {
  x_txid : string; x_key : option string; x_first_seen : time; x_last_checked : option time;
  x_status : option string; x_block : option Z; x_error : option string; x_resolved_at : option time }.

(** [get_transaction_info]'s answer: the fields the code reads; [None]: empty. *)
Record receipt := mkReceipt { ri_result : string; ri_blockNumber : option Z; ri_block_number : option Z }.

(** [info.get("blockNumber") or info.get("block_number")] *)
Definition block_of (r : receipt) : option Z :=
  match ri_blockNumber r with
  | Some n => if (n =? 0)%Z then ri_block_number r else Some n
  | None => ri_block_number r
  end.

(** [_classify_receipt]: the status, the block, the error. *)
Definition classify_receipt (info : exn + option receipt) : string * option Z * option string :=
  match info with
  | inl exc =>
      if contains "not found" (lower (exn_str exc))
         || contains "transactionnotfound" (lower (exn_class exc)) then ("NOT_FOUND", None, None)
      else ("RPC_ERROR", None, Some (exn_class exc +:+ ": " +:+ exn_str exc))
  | inr None => ("NOT_FOUND", None, None)
  | inr (Some r) =>
      if negb (String.eqb (ri_result r) "") && negb (String.eqb (ri_result r) "SUCCESS")
      then (upper (ri_result r), block_of r, None)
      else match block_of r with
           | Some n => ("SUCCESS", Some n, None)
           | None => ("PENDING", None, None)
           end
  end.

(** A committed row of the idempotency table, and a candidate. *)
Record committed := mkCommitted { cm_key : string; cm_txid : string; cm_created_at : time }.
Record candidate := mkCand {
  cd_txid : string; cd_key : string; cd_first_seen : option time; cd_last_checked : option time }.

Abbreviation table := (gmap string TxStatus).

(** [_next_candidates_sqlite]: LEFT JOIN, filter, ORDER BY last_checked, LIMIT. *)
Definition next_candidates (cutoff : time) (batch : nat) (rows : list committed) (t : table) : list candidate :=
  let join := map (fun i =>
      let s := t !! cm_txid i in
      (mkCand (cm_txid i) (cm_key i) (x_first_seen <$> s) (s ≫= x_last_checked),
       Qle_bool cutoff (cm_created_at i) &&
       match s ≫= x_resolved_at with None => true | Some _ => false end)) rows in
  firstn batch
    (sort_by (fun a b => Qle_bool (default 0%Q (cd_last_checked a)) (default 0%Q (cd_last_checked b)))
       (map fst (List.filter snd join))).

(** [_upsert]: a conflicting row keeps its first_seen and key. *)
Definition upsert (r : TxStatus) (t : table) : table :=
  <[x_txid r := match t !! x_txid r with
                | Some o => mkTx (x_txid r) (x_key o) (x_first_seen o) (x_last_checked r) (x_status r)
                              (x_block r) (x_error r) (x_resolved_at r)
                | None => r
                end]> t.

(** The row [_poll_one] writes. *)
Definition poll_record (giveup_hours : Q) (giveup_text : Q -> string) (now : time) (cand : candidate)
    (info : exn + option receipt) : TxStatus :=
  let first_seen := default now (cd_first_seen cand) in
  let '(status, block, error) := classify_receipt info in
  let age_hours := ((now - first_seen) / 3600)%Q in
  let '(status, error) :=
    if String.eqb status "NOT_FOUND" && Qle_bool giveup_hours age_hours
    then ("GIVEUP", Some (giveup_text age_hours)) else (status, error) in
  let is_terminal := bool_decide (status ∈ TERMINAL_STATUSES) in
  mkTx (cd_txid cand) (Some (cd_key cand)) first_seen (Some now)
    (if is_terminal then Some status else None) block error (if is_terminal then Some now else None).

(** The RECEIPT_RESOLVED audit entry. *)
Definition receipt_draft (r : TxStatus) (status : string) : draft := fun id ts =>
  mkEntry id ts "RECEIPT_RESOLVED" "" "" "" "" "USDT" (x_txid r) (default "" (x_key r)) "" "" (lower status)
    (join " " (("status=" +:+ status) ::
       (match x_block r with Some n => if (n =? 0)%Z then [] else ["block=" +:+ str_of_Z n] | None => [] end) ++
       (match x_error r with Some e => ["err=" +:+ e] | None => [] end))%list).

Section Poller.
Context {S : Type} (E : Env) (c : Config).
(** tronpy's [get_transaction_info]. *)
Context (get_transaction_info : nat -> string -> outcome exn (option receipt)).
Context (lookback_hours giveup_hours : Q) (batch : nat) (giveup_text : Q -> string).

(** The poller's state is its table, beside the process state. *)
Abbreviation PM := (M (World S * table) exn).
Definition on_world {A} (m : M (World S) exn A) : PM A :=
  fun '(w, t) => let '(o, w') := m w in (o, (w', t)).

(** [_emit_receipt_audit]: errors are logged. *)
Definition emit_receipt_audit (r : TxStatus) (status : string) : PM unit :=
  on_world (swallow (record E c (receipt_draft r status))).

(** [_poll_one] *)
Definition poll_one (cand : candidate) : PM unit :=
  let! now := on_world (now E) in
  let! info := on_world (try_except
    (let! i := ext (fun n => get_transaction_info n (cd_txid cand)) in ret (inr i))
    (fun e => ret (inl e))) in
  let r := poll_record giveup_hours giveup_text now cand info in
  do! modify (fun '(w, t) => (w, upsert r t)) in
  match x_status r with
  | Some status => emit_receipt_audit r status
  | None => ret tt
  end.

(** [_tick], on the committed rows the query sees. *)
Definition tick (rows : list committed) : PM unit :=
  let! now := on_world (now E) in
  let! t := gets snd in
  for_each (next_candidates (now - lookback_hours * 3600)%Q batch rows t) poll_one.

(** The body of [_run]'s loop: nothing stops the thread. *)
Definition run_once (rows : list committed) : PM unit :=
  catch (tick rows) (fun e => if is_Exception e then Some (ret tt) else None).
End Poller.

(** [get_status] and the endpoint's answer: known, and the row. *)
Definition get_status (txid : string) (t : table) : option TxStatus := t !! txid.
Definition tx_status_endpoint (poller : option table) (txid : string) : bool * option TxStatus :=
  match poller with
  | None => (false, None)
  | Some t => match get_status txid t with None => (false, None) | Some r => (true, Some r) end
  end.

(** [lag_seconds]: since the oldest committed key without a resolved receipt. *)
Definition lag_seconds (now : time) (rows : list committed) (t : table) : Q :=
  match map cm_created_at (List.filter (fun i =>
          match t !! cm_txid i ≫= x_resolved_at with None => true | Some _ => false end) rows) with
  | [] => 0
  | x :: xs => Qmax2 0 (now - fold_left Qmin2 xs x)%Q
  end.

(** ** Facts *)

Lemma candidate_unresolved cutoff batch rows t cd :
  In cd (next_candidates cutoff batch rows t) ->
  (exists i, In i rows /\ cm_txid i = cd_txid cd /\ cm_key i = cd_key cd /\ (cutoff <= cm_created_at i)%Q) /\
  t !! cd_txid cd ≫= x_resolved_at = None /\ cd_first_seen cd = x_first_seen <$> t !! cd_txid cd.
Proof.
  unfold next_candidates. intros H.
  match type of H with In _ (firstn _ ?l) => assert (In cd l) as H' end.
  { rewrite <- (firstn_skipn batch). apply in_or_app. by left. }
  apply sort_by_elem, in_map_iff in H' as ([cd' b] & <- & Hin). apply List.filter_In in Hin as [Hin Hb].
  apply in_map_iff in Hin as (i & [= <- <-] & Hi). simpl in *. bcases.
  split_and!; [exists i; split_and!; try done; by apply Qle_bool_iff | by destruct (t !! cm_txid i ≫= x_resolved_at) | done].
Qed.

(** A row that is resolved. *)
Definition resolved (t : table) (txid : string) (r : TxStatus) : Prop :=
  t !! txid = Some r /\ x_resolved_at r <> None.

Lemma poll_record_fields g txt now cd info :
  let r := poll_record g txt now cd info in
  x_txid r = cd_txid cd /\ x_key r = Some (cd_key cd) /\ x_last_checked r = Some now /\
  x_first_seen r = default now (cd_first_seen cd) /\
  match x_status r with
  | Some st => st ∈ TERMINAL_STATUSES /\ x_resolved_at r = Some now
  | None => x_resolved_at r = None
  end.
Proof.
  unfold poll_record. destruct (classify_receipt info) as [[st b] e]. generalize TERMINAL_STATUSES; intros T.
  destruct (_ && _); simpl; (split_and!; try reflexivity);
    (case_bool_decide; [split; [assumption | reflexivity] | reflexivity]).
Qed.

Section PollerFrames.
Context {S : Type} (E : Env) (c : Config).
Context (rpc : nat -> string -> outcome exn (option receipt)).
Context (lookback g : Q) (batch : nat) (txt : Q -> string).
Abbreviation st := (World S * table)%type.

(** What does not change: the row of [x]. *)
Definition keeps (x : string) (s s' : st) : Prop := s'.2 !! x = s.2 !! x.
#[local] Instance keeps_preorder x : PreOrder (keeps x).
Proof. split; [done|]. intros a b d H1 H2. unfold keeps in *. congruence. Qed.

Lemma keeps_on_world {A} x (m : M (World S) exn A) : Frame (keeps x) (on_world m).
Proof. intros [w t]. unfold on_world. by destruct (m w). Qed.

Lemma poll_one_keeps x cand : x <> cd_txid cand -> Frame (keeps x) (poll_one E c rpc g txt cand).
Proof.
  intros Hx. unfold poll_one. apply frame_bind; [apply _ | apply keeps_on_world | intros t0].
  apply frame_bind; [apply _ | apply keeps_on_world | intros info].
  apply frame_bind; [apply _ | | intros _].
  - pose proof (poll_record_fields g txt t0 cand info) as [Hid _].
    intros [w t]. unfold keeps, upsert, modify. cbn [fst snd]. rewrite Hid.
    rewrite lookup_insert_ne by done. done.
  - case_match; [apply keeps_on_world | apply frame_ret, _].
Qed.

Lemma for_each_keeps x l : (forall cd, In cd l -> x <> cd_txid cd) ->
  Frame (keeps x) (for_each l (poll_one E c rpc g txt)).
Proof.
  induction l as [|cd l IH]; intros H; simpl; [apply frame_ret, _|].
  apply frame_bind; [apply _ | apply poll_one_keeps, H; by left | intros _; apply IH; intros; apply H; by right].
Qed.

(** One run of the loop body from a table [t]. *)
Lemma run_once_table rows (s : st) x :
  (forall cutoff cd, In cd (next_candidates cutoff batch rows s.2) -> x <> cd_txid cd) ->
  (snd (run_once E c rpc lookback g batch txt rows s)).2 !! x = s.2 !! x.
Proof.
  intros Hx. destruct s as [w t]. unfold run_once, catch, tick, bind, on_world, now, ext, gets. simpl in *.
  set (l := next_candidates _ _ _ _). set (w1 := set_tick _ _).
  pose proof (for_each_keeps x l (Hx _) (w1, t)) as H. unfold keeps in H. simpl in H.
  destruct (for_each l _ (w1, t)) as [[a|e|] s']; simpl in *; [done| |done].
  by destruct (is_Exception e).
Qed.

(** What the clock and the audit entry of a receipt leave alone, a run leaves alone. *)
Section WorldFrames.
Context (R : World S -> World S -> Prop) `{!PreOrder R} (Htick : forall n w, R w (set_tick n w)).
Context (Hrecord : forall r status, Frame R (record E c (receipt_draft r status))).
Definition in_first (s s' : st) : Prop := R s.1 s'.1.
#[local] Instance in_first_preorder : PreOrder in_first.
Proof using PreOrder0. split; [intros s; unfold in_first; reflexivity|]. intros a b d. unfold in_first. apply transitivity. Qed.
Lemma first_on_world {A} (m : M (World S) exn A) : Frame R m -> Frame in_first (on_world m).
Proof. intros Hm [w t]. unfold on_world, in_first. specialize (Hm w). by destruct (m w). Qed.
Lemma first_ext {A} (f : nat -> outcome exn A) : Frame in_first (on_world (ext f)).
Proof using Htick. apply first_on_world. intros w. apply Htick. Qed.
Lemma first_try {A} (m : M (World S) exn A) h : Frame R m -> (forall e, Frame R (h e)) -> Frame in_first (on_world (try_except m h)).
Proof using PreOrder0.
  intros Hm Hh. apply first_on_world, frame_catch; [apply _|done|]. intros e r. destruct (is_Exception e); [|done]. by intros [= <-].
Qed.
Lemma poll_one_first cand : Frame in_first (poll_one E c rpc g txt cand).
Proof using PreOrder0 Htick Hrecord.
  unfold poll_one. apply frame_bind; [apply _ | apply first_ext | intros t0].
  apply frame_bind; [apply _ | apply first_try; [|intros; apply _] | intros info].
  { apply frame_bind; [apply _ | intros w; apply Htick | intros; apply _]. }
  apply frame_bind; [apply _ | intros [w t]; unfold in_first; reflexivity | intros _].
  case_match; [apply first_try; [apply Hrecord | intros; apply _] | apply frame_ret, _].
Qed.
Lemma run_once_first rows : Frame in_first (run_once E c rpc lookback g batch txt rows).
Proof using PreOrder0 Htick Hrecord.
  apply frame_catch; [apply _ | |].
  - apply frame_bind; [apply _ | apply first_ext | intros n].
    apply frame_bind; [apply _ | apply frame_gets, _ | intros t0].
    apply frame_for_each; [apply _ | intros cd; apply poll_one_first].
  - intros e m. destruct (is_Exception e); [|done]. intros [= <-]. apply frame_ret, _.
Qed.
End WorldFrames.
Lemma run_once_pays rows (s : st) : same_core s.1 (snd (run_once E c rpc lookback g batch txt rows s)).1.
Proof. apply (run_once_first same_core); [done|]. intros. apply _. Qed.
End PollerFrames.

(** The poller is postmortem only: whatever the RPCs and the audit file do, a
    tick broadcasts nothing and leaves the idempotency store alone; a resolved
    receipt is never polled again and its row never changes; and a tick that fails
    does not stop the thread. *)
Theorem poller_read_only {S : Type} (E : Env) (c : Config)
    (rpc : nat -> string -> outcome exn (option receipt)) (lookback giveup : Q) (batch : nat)
    (txt : Q -> string) (rows : list committed) (w : World S) (t : table) :
  let r := run_once E c rpc lookback giveup batch txt rows (w, t) in
  w_attempts (snd r).1 = w_attempts w /\ w_idem (snd r).1 = w_idem w /\
  (forall x row, t !! x = Some row -> x_resolved_at row <> None ->
     (snd r).2 !! x = Some row /\ forall cutoff cd, In cd (next_candidates cutoff batch rows t) -> cd_txid cd <> x) /\
  (forall e, fst r = Raise e -> is_Exception e = false).
Proof.
  intros r. destruct (run_once_pays E c rpc lookback giveup batch txt rows (w, t)) as [Hi Ha].
  split; [done|]. split; [done|]. split.
  - intros x row Hx Hres.
    assert (forall cutoff cd, In cd (next_candidates cutoff batch rows t) -> cd_txid cd <> x) as Hc.
    { intros cutoff cd Hcd <-. apply candidate_unresolved in Hcd as (_ & Hn & _). rewrite Hx in Hn. done. }
    split; [|done]. unfold r. rewrite run_once_table; [done|]. simpl. intros cutoff cd Hcd Heq. by eapply Hc.
  - intros e. unfold r, run_once, catch. destruct (tick _ _ _ _ _ _ _ _ _) as [[a|e'|] s']; simpl; [done| |done].
    destruct (is_Exception e') eqn:He; simpl; [done | by intros [= <-]].
Qed.

(** A receipt is announced at most once: when a poll reaches a terminal status
    the row is resolved before the audit entry is written, so a failed audit write
    is not repeated: whatever it did, the transaction is never a candidate again. *)
Theorem resolved_before_audit {S : Type} (E : Env) (c : Config)
    (rpc : nat -> string -> outcome exn (option receipt)) (giveup : Q) (txt : Q -> string)
    (cand : candidate) (w w' : World S) (t t' : table) (o : outcome exn unit) :
  poll_one E c rpc giveup txt cand (w, t) = (o, (w', t')) -> o = Ret tt ->
  x_status <$> t' !! cd_txid cand <> Some None ->
  exists row, t' !! cd_txid cand = Some row /\ x_resolved_at row <> None /\
    forall cutoff batch rows cd, In cd (next_candidates cutoff batch rows t') -> cd_txid cd <> cd_txid cand.
Proof.
  unfold poll_one, bind, on_world, modify, now, ext. simpl.
  destruct (try_except _ _ _) as [[info|e|] w1]; [|by intros [= <- _]..].
  set (r := poll_record _ _ _ _ _). intros H -> Hst.
  pose proof (poll_record_fields giveup txt (env_now E (w_tick w)) cand info) as (Hid & _ & _ & _ & Hres).
  fold r in Hid, Hres.
  assert (t' = upsert r t) as Ht'.
  { destruct (x_status r) as [s|]; [|by injection H]. unfold emit_receipt_audit, on_world in H.
    destruct (swallow _ _) as [o1 w2]. by injection H. }
  assert (exists row, t' !! cd_txid cand = Some row /\ x_status row = x_status r /\ x_resolved_at row = x_resolved_at r)
    as (row & Hrow & Hs & Hr).
  { rewrite Ht'. unfold upsert. rewrite Hid, lookup_insert_eq. destruct (t !! cd_txid cand); eexists; done. }
  rewrite Hrow in Hst. simpl in Hst. rewrite Hs in Hst.
  destruct (x_status r) as [s|] eqn:Hxs; [|done]. destruct Hres as [_ Hres].
  exists row. split_and!; [done | by rewrite Hr, Hres|].
  intros cutoff batch rows cd Hcd Heq. apply candidate_unresolved in Hcd as (_ & Hn & _).
  rewrite Heq, Hrow in Hn. simpl in Hn. rewrite Hr, Hres in Hn. done.
Qed.

Definition demo_cand : candidate := mkCand "tx1" "key-1" None None.
Definition ok_rpc (_ : nat) (_ : string) : outcome exn (option receipt) := Ret (Some (mkReceipt "" (Some 7%Z) None)).

Lemma resolved_before_audit_witness : exists row,
  (snd (poll_one sample_env default_config ok_rpc 24 (fun _ => "") demo_cand (sample_world, ∅))).2 !! "tx1" = Some row
  /\ x_resolved_at row <> None.
Proof.
  destruct (resolved_before_audit sample_env default_config ok_rpc 24 (fun _ => "") demo_cand sample_world
    (snd (poll_one sample_env default_config ok_rpc 24 (fun _ => "") demo_cand (sample_world, ∅))).1 ∅
    (snd (poll_one sample_env default_config ok_rpc 24 (fun _ => "") demo_cand (sample_world, ∅))).2 (Ret tt))
    as (row & H1 & H2 & _).
  - vm_compute. reflexivity.
  - reflexivity.
  - vm_compute. discriminate.
  - exists row. split; [exact H1 | exact H2].
Defined.

(** The classification: a receipt with a block and no failure code is SUCCESS,
    no receipt is retried, an error code is passed on upper-cased; but not every
    answer is in the two documented sets: an execution error the sets do not list
    is neither terminal nor retried-by-name, so the row is never resolved. *)
Theorem classify_receipt_spec (info : exn + option receipt) :
  let '(st, block, err) := classify_receipt info in
  match info with
  | inl exc => st ∈ RETRY_STATUSES /\ block = None
  | inr None => st = "NOT_FOUND"
  | inr (Some r) =>
      (ri_result r = "" \/ ri_result r = "SUCCESS" ->
         (st = "SUCCESS" <-> block_of r <> None) /\ (st = "PENDING" <-> block_of r = None)) /\
      (ri_result r <> "" -> ri_result r <> "SUCCESS" -> st = upper (ri_result r) /\ block = block_of r)
  end /\
  (let '(st, _, _) := classify_receipt (inr (Some (mkReceipt "OUT_OF_MEMORY" (Some 7%Z) None))) in
   (st ∉ TERMINAL_STATUSES) /\ (st ∉ RETRY_STATUSES)).
Proof.
  unfold classify_receipt at 1. destruct info as [exc|[r|]].
  - destruct (_ || _); (split; [|split; vm_compute; set_solver]); (split; [|done]); unfold RETRY_STATUSES; set_solver.
  - destruct (String.eqb_spec (ri_result r) "") as [He|He], (String.eqb_spec (ri_result r) "SUCCESS") as [Hs|Hs]; simpl.
    1: congruence.
    1, 2: destruct (block_of r); (split; [split; [|done]; intros _; split; split; done | split; vm_compute; set_solver]).
    split; [|split; vm_compute; set_solver]. split; [by intros [?|?] | done].
  - split; [done|]. split; vm_compute; set_solver.
Qed.
