(* ===== verification/Workers.v ===== *)
(** * The delivery workers ([webhooks.WebhookWorker], [alerts.AlertWorker])

    Each is a daemon thread over its delivery table.  An attempt is one POST; what
    follows an attempt is the same code in both modules but for the audit entry a
    webhook give-up writes.  [json_dumps] and the HMAC are parameters.  The threads on the
    state of the service are in [AlertService] and [WebhookService]. *)
From S2P Require Import Prelude PyStr Exceptions AuditEntry Delivery.
From S2P Require Webhooks Alerts.
Open Scope string_scope.
Open Scope Z_scope.

(** What [session.post] did: a status code and body, or an exception's text. *)
Inductive answer := Http (code : Z) (body : string) | Failed_ (error : string).

(** [if attempts >= len(self._backoff)] *)
Definition gives_up (backoff : list time) (attempts : Z) : bool := Z.of_nat (List.length backoff) <=? attempts.

(** [_handle_failure]: the row it writes at time [now]. *)
Definition handle_failure (backoff : list time) (now : time) (attempts : Z) (code : option Z) (error : string)
    : outcome_row :=
  if gives_up backoff attempts
  then mkOutcome GivingUp attempts 0 (Some now) code (Some error)
  else mkOutcome Pending attempts (now + nth (Z.to_nat attempts) backoff 0)%Q (Some now) code (Some error).

(** [_deliver_one]: the row written for one attempt. *)
Definition deliver_outcome {P} (backoff : list time) (now : time) (d : delivery P) (a : answer) : outcome_row :=
  let attempts := d_attempts d + 1 in
  match a with
  | Http code body =>
      if (200 <=? code) && (code <? 300)
      then mkOutcome Delivered attempts 0 (Some now) (Some code) None
      else handle_failure backoff now attempts (Some code) ("HTTP " +:+ str_of_Z code +:+ ": " +:+ str_take 200 body)
  | Failed_ error => handle_failure backoff now attempts None error
  end.

Section Worker.
Context {P : Type} (backoff : list time).

(** [_deliver_one] on the table. *)
Definition deliver_one (now : time) (a : answer) (d : delivery P) (s : store P) : store P :=
  update_outcome (d_id d) (deliver_outcome backoff now d a) s.

(** One turn of [run]: the due rows, each with its answer; fewer answers: stopped. *)
Fixpoint deliver_all (now : time) (ds : list (delivery P)) (answers : list answer) (s : store P) : store P :=
  match ds, answers with
  | d :: ds, a :: answers => deliver_all now ds answers (deliver_one now a d s)
  | _, _ => s
  end.
Definition run_tick (now : time) (answers : list answer) (s : store P) : store P :=
  deliver_all now (take_due now 50 s) answers s.
End Worker.

(** ** The webhook side *)
Section Webhook.
Context (hmac_hex : string -> string -> string) (json_dumps : entry -> string).

Record post := mkPost { p_url : string; p_body : string; p_headers : list (string * string) }.

(** The request [_deliver_one] sends; [ts] is [int(time.time())]. *)
Definition webhook_post (secret : string) (ts : Z) (d : delivery (string * entry)) : post :=
  let payload := json_dumps (d_what d).2 in
  mkPost (d_what d).1 payload
    [("Content-Type", "application/json");
     ("X-SKR-Signature", Webhooks.sign_payload hmac_hex secret ts payload);
     ("X-SKR-Event", d_event d); ("X-SKR-Delivery-Id", str_of_Z (d_id d));
     ("User-Agent", "skr-crypto-webhook/1")].
End Webhook.

(** The WEBHOOK_GIVEUP audit entry, when an attempt gives up. *)
Definition webhook_giveup (backoff : list time) (now : time) (d : delivery (string * entry)) (a : answer)
    : option (string -> string -> entry) :=
  let o := deliver_outcome backoff now d a in
  match o_status o with
  | GivingUp => Some (fun id ts => mkEntry id ts "WEBHOOK_GIVEUP" "" "" "" "" "USDT" "" "" "" "" "giveup"
      ("delivery_id=" +:+ str_of_Z (d_id d) +:+ " event=" +:+ d_event d +:+ " url=" +:+ (d_what d).1 +:+
       " attempts=" +:+ str_of_Z (o_attempts o) +:+ " last_code=" +:+
       match o_last_response_code o with Some c => str_of_Z c | None => "None" end +:+
       " err=" +:+ default "" (o_last_error o)))
  | _ => None
  end.

(** ** The alert side *)

(** [_redact_token] and the Telegram call. *)
Definition redact_token (url token : string) : string :=
  if String.eqb token "" then url else replace token "<redacted>" url.
Definition telegram_url (bot_token : string) : string :=
  "https://api.telegram.org/bot" +:+ bot_token +:+ "/sendMessage".
(** [telegram_send_message]: the URL and the JSON fields. *)
Definition telegram_send_message (bot_token chat_id text : string) : string * list (string * string) :=
  (telegram_url bot_token,
   [("chat_id", chat_id); ("text", text); ("parse_mode", "HTML"); ("disable_web_page_preview", "true")]).

(** ** The life of a delivery *)

Section Lifecycle.
Context {P : Type} (backoff : list time).
Implicit Types s : store P.
Implicit Types d : delivery P.

Definition max_attempts : Z := Z.max 1 (Z.of_nat (List.length backoff)).

(** Pending rows have attempts left, and none has used more than the schedule. *)
Definition row_ok (d : delivery P) : Prop :=
  0 <= d_attempts d <= max_attempts /\
  (d_status d = Pending -> d_attempts d < max_attempts) /\
  (d_status d = GivingUp -> d_attempts d = max_attempts).
Definition rows_ok s : Prop := forall d, In d (rows s) -> row_ok d.

Lemma deliver_outcome_spec now d a :
  let o := deliver_outcome backoff now d a in
  o_attempts o = d_attempts d + 1 /\
  match o_status o with
  | Delivered => True
  | GivingUp => Z.of_nat (List.length backoff) <= d_attempts d + 1
  | Pending => d_attempts d + 1 < Z.of_nat (List.length backoff) /\
      o_next_attempt_at o = (now + nth (Z.to_nat (d_attempts d + 1)) backoff 0)%Q
  | Failed => False
  end.
Proof.
  unfold deliver_outcome, handle_failure, gives_up.
  destruct a as [code body|e]; [destruct (_ && _); [done|]|];
    destruct (Z.leb_spec (Z.of_nat (List.length backoff)) (d_attempts d + 1)); simpl; auto.
Qed.

Lemma deliver_row_ok now d a : d_status d = Pending -> row_ok d ->
  row_ok (apply_outcome (deliver_outcome backoff now d a) d).
Proof.
  intros Hp (Hb & Hlt & _). specialize (Hlt Hp).
  destruct (deliver_outcome_spec now d a) as [Ha Hs]. unfold row_ok, apply_outcome; simpl. rewrite Ha.
  destruct (o_status _); unfold max_attempts in *; split_and!; try lia; try done.
Qed.

(** The worker only ever looks at rows as they are: [d] is the row with its id. *)
Definition current s (d : delivery P) : Prop := In d (rows s) /\ d_status d = Pending.

Lemma in_update id o s d : In d (rows (update_outcome id o s)) ->
  exists d0, In d0 (rows s) /\ d = if d_id d0 =? id then apply_outcome o d0 else d0.
Proof. simpl. intros (d0 & <- & H)%in_map_iff. by exists d0. Qed.

Lemma ids_unique s d d' : store_wf s -> In d (rows s) -> In d' (rows s) -> d_id d = d_id d' -> d = d'.
Proof.
  intros [Hn _]. induction (rows s) as [|x l IH]; simpl in *; [done|].
  inversion Hn as [|? ? Hx Hl]; subst.
  intros [->|H1] [->|H2] He; [done| | |by apply IH]; exfalso; apply Hx; apply in_map_iff; eauto.
Qed.

Lemma deliver_one_ok now a d s : store_wf s -> rows_ok s -> current s d ->
  rows_ok (deliver_one backoff now a d s) /\ store_wf (deliver_one backoff now a d s).
Proof.
  intros Hwf Hok [Hin Hp]. split; [|by apply update_wf].
  intros x Hx. apply in_update in Hx as (x0 & Hx0 & ->).
  destruct (Z.eqb_spec (d_id x0) (d_id d)) as [He|He]; [|by apply Hok].
  rewrite (ids_unique s x0 d Hwf Hx0 Hin He). apply deliver_row_ok; auto.
Qed.

(** The rest of a batch stays as it was read: the worker is the only writer. *)
Lemma deliver_all_ok now ds : forall answers s, store_wf s -> rows_ok s ->
  List.NoDup (map d_id ds) -> (forall d, In d ds -> current s d) ->
  rows_ok (deliver_all backoff now ds answers s) /\ store_wf (deliver_all backoff now ds answers s).
Proof.
  induction ds as [|d ds IH]; intros answers s Hwf Hok Hn Hc; simpl; [done|].
  destruct answers as [|a answers]; [done|]. inversion Hn as [|? ? Hd Hn']; subst.
  destruct (deliver_one_ok now a d s Hwf Hok (Hc d (or_introl eq_refl))) as [Hok' Hwf'].
  apply IH; [done..|]. intros x Hx. destruct (Hc x (or_intror Hx)) as [Hin Hp]. split; [|done].
  unfold deliver_one, update_outcome. simpl. apply in_map_iff. exists x. split; [|done].
  destruct (Z.eqb_spec (d_id x) (d_id d)) as [He|]; [|done].
  exfalso. apply Hd. rewrite <- He. by apply in_map.
Qed.

(** What happens to a table without an operator's [force_retry]. *)
Inductive table_step : store P -> store P -> Prop :=
| Enqueued now id event what s : table_step s (snd (enqueue now id event what s))
| Ticked now answers s : table_step s (run_tick backoff now answers s).

Lemma NoDup_firstn {A} (l : list A) n : List.NoDup l -> List.NoDup (firstn n l).
Proof.
  revert n. induction l as [|x l IH]; intros [|n] H; simpl; try constructor; inversion H; subst; auto.
  intros Hin. apply H2. rewrite <- (firstn_skipn n l). apply in_or_app. by left.
Qed.

Lemma take_due_ids now limit s : store_wf s -> List.NoDup (map d_id (take_due now limit s)).
Proof.
  intros [Hn _]. unfold take_due. rewrite <- firstn_map. apply NoDup_firstn.
  apply (Permutation_NoDup (l := map d_id (List.filter (is_due now) (rows s)))).
  - apply Permutation_map. symmetry. apply sort_by_perm.
  - induction (rows s) as [|d l IH]; simpl in *; [constructor|]. inversion Hn as [|? ? Hd Hl]; subst.
    destruct (is_due now d); simpl; [|auto]. constructor; [|auto].
    intros (x & Hx & Hin)%in_map_iff. apply Hd. apply List.filter_In in Hin as [Hin _].
    apply in_map_iff. by exists x.
Qed.

Definition table_inv s : Prop := store_wf s /\ rows_ok s.

Lemma table_step_inv s s' : table_inv s -> table_step s s' -> table_inv s'.
Proof.
  intros [Hwf Hok] Hs. destruct Hs as [now id event what s | now answers s].
  - split; [by apply enqueue_wf|]. intros d Hd. simpl in Hd. apply in_app_or in Hd as [Hd|[<-|[]]]; [auto|].
    unfold row_ok, max_attempts; simpl. split_and!; [lia..|done].
  - destruct (deliver_all_ok now (take_due now 50 s) answers s Hwf Hok (take_due_ids now 50 s Hwf)) as [H1 H2].
    { intros d Hd. apply take_due_sound in Hd as (Hin & Hp & _). done. }
    split; [exact H2 | exact H1].
Qed.
End Lifecycle.

(** Delivery attempts are bounded: in any table reached by enqueueing and worker
    turns, whatever the targets answer, no row has more attempts than the backoff
    schedule has entries (at least one), a pending row has attempts left, and a row
    is given up exactly when the schedule is used up. *)
Theorem attempts_bounded {P : Type} (backoff : list time) (s : store P) :
  star (table_step backoff) Delivery.empty s ->
  forall d, In d (rows s) ->
    0 <= d_attempts d <= Z.max 1 (Z.of_nat (List.length backoff)) /\
    (d_status d = Pending -> d_attempts d < Z.max 1 (Z.of_nat (List.length backoff))) /\
    (d_status d = GivingUp -> d_attempts d = Z.max 1 (Z.of_nat (List.length backoff))).
Proof.
  intros Hs. assert (table_inv backoff s) as [_ Hok]; [|exact Hok].
  apply (star_invariant (table_step backoff) (table_inv backoff) Delivery.empty s); [apply table_step_inv | | done].
  split; [|by intros d []]. split; [constructor | constructor].
Qed.

Lemma attempts_bounded_witness : exists s : store unit,
  star (table_step [0%Q; 30%Q]) Delivery.empty s /\
  forall d, In d (rows s) -> d_attempts d <= 2.
Proof.
  exists (run_tick [0%Q; 30%Q] 1%Q [Failed_ "timeout"] (snd (enqueue 0%Q "p-1" "SEND_SUCCESS" tt Delivery.empty))).
  assert (star (table_step [0%Q; 30%Q]) Delivery.empty
    (run_tick [0%Q; 30%Q] 1%Q [Failed_ "timeout"] (snd (enqueue 0%Q "p-1" "SEND_SUCCESS" tt Delivery.empty)))) as Hs.
  { eapply star_step; [apply Enqueued|]. apply star_one, Ticked. }
  split; [exact Hs|]. intros d Hd. apply (attempts_bounded [0%Q; 30%Q] _ Hs d Hd).
Defined.

(** The row after [n] failing attempts. *)
Fixpoint failing {P} (backoff : list time) (now : time) (err : string) (n : nat) (d : delivery P) : delivery P :=
  match n with
  | O => d
  | S n => let d' := failing backoff now err n d in
           match d_status d' with
           | Pending => apply_outcome (deliver_outcome backoff now d' (Failed_ err)) d'
           | _ => d'
           end
  end.

(** A delivery always ends: a 2xx answer delivers it at once, never to be due
    again; and a fresh delivery whose every attempt fails is given up after exactly
    as many attempts as the schedule has entries, each failure before that
    rescheduling it by the entry its attempt count selects. *)
Theorem delivery_ends {P : Type} (backoff : list time) (now : time) (err : string) (d : delivery P) (code : Z)
    (body : string) :
  d_status d = Pending -> d_attempts d = 0 -> (0 < List.length backoff)%nat -> 200 <= code < 300 ->
  o_status (deliver_outcome backoff now d (Http code body)) = Delivered /\
  (forall t, is_due t (apply_outcome (deliver_outcome backoff now d (Http code body)) d) = false) /\
  (forall n, (n < List.length backoff)%nat ->
     d_status (failing backoff now err n d) = Pending /\ d_attempts (failing backoff now err n d) = Z.of_nat n /\
     ((0 < n)%nat -> d_next_attempt_at (failing backoff now err n d) = (now + nth n backoff 0)%Q)) /\
  d_status (failing backoff now err (List.length backoff) d) = GivingUp.
Proof.
  intros Hp Ha Hn Hc.
  assert (deliver_outcome backoff now d (Http code body) = mkOutcome Delivered 1 0 (Some now) (Some code) None) as Hd.
  { unfold deliver_outcome. rewrite Ha. destruct (Z.leb_spec 200 code), (Z.ltb_spec code 300); try lia. done. }
  rewrite Hd. split; [done|]. split; [done|].
  assert (forall n, (n < List.length backoff)%nat ->
     d_status (failing backoff now err n d) = Pending /\ d_attempts (failing backoff now err n d) = Z.of_nat n /\
     ((0 < n)%nat -> d_next_attempt_at (failing backoff now err n d) = (now + nth n backoff 0)%Q)) as Hall.
  { induction n as [|n IH]; intros Hlt; [simpl; split_and!; [done | lia | lia]|].
    destruct IH as (H1 & H2 & _); [lia|]. simpl. rewrite H1.
    unfold deliver_outcome, handle_failure, gives_up. rewrite H2.
    destruct (Z.leb_spec (Z.of_nat (List.length backoff)) (Z.of_nat n + 1)); [lia|]. simpl.
    split_and!; [done | lia|]. intros _. do 2 f_equal. lia. }
  split; [exact Hall|]. destruct (List.length backoff) as [|m] eqn:Hl; [lia|].
  destruct (Hall m ltac:(lia)) as (H1 & H2 & _). simpl. rewrite H1.
  unfold deliver_outcome, handle_failure, gives_up. rewrite H2, Hl.
  destruct (Z.leb_spec (Z.of_nat (S m)) (Z.of_nat m + 1)); [done | lia].
Qed.

Lemma delivery_ends_witness :
  d_status (failing [0%Q; 30%Q; 120%Q] 5%Q "timeout" 3
    (mkDelivery 1 "p-1" "SEND_FAILED" tt Pending 0 0%Q None None None 0%Q)) = GivingUp.
Proof.
  apply (delivery_ends [0%Q; 30%Q; 120%Q] 5%Q "timeout"
    (mkDelivery 1 "p-1" "SEND_FAILED" tt Pending 0 0%Q None None None 0%Q) 200 ""); simpl; [done | done | lia | lia].
Defined.
