(* ===== verification/Calendar.v ===== *)
(** * Calendar dates ([datetime.date])

    Dates of the proleptic Gregorian calendar between 0001-01-01 and 9999-12-31,
    as the reports use them. *)
From S2P Require Import Prelude PyStr.
Open Scope Z_scope.

Record date := mkDate { year : Z; month : Z; day : Z }.
#[export] Instance date_eq_dec : EqDecision date.
Proof. solve_decision. Defined.
#[export] Instance date_countable : Countable date.
Proof.
  refine (inj_countable' (fun d => (year d, month d, day d)) (fun t => mkDate t.1.1 t.1.2 t.2) _).
  by intros [].
Defined.

Definition is_leap (y : Z) : bool :=
  (y mod 4 =? 0) && (negb (y mod 100 =? 0) || (y mod 400 =? 0)).

Definition days_in_month (y m : Z) : Z :=
  if m =? 2 then (if is_leap y then 29 else 28)
  else if (m =? 4) || (m =? 6) || (m =? 9) || (m =? 11) then 30 else 31.

(** What the constructor [date(year, month, day)] accepts. *)
Definition date_ok (d : date) : bool :=
  (1 <=? year d) && (year d <=? 9999) && (1 <=? month d) && (month d <=? 12) &&
  (1 <=? day d) && (day d <=? days_in_month (year d) (month d)).

Definition make_date (y m d : Z) : option date :=
  if date_ok (mkDate y m d) then Some (mkDate y m d) else None.

Definition days_before_year (y : Z) : Z :=
  (y - 1) * 365 + (y - 1) / 4 - (y - 1) / 100 + (y - 1) / 400.

Definition days_before_month (y m : Z) : Z :=
  match m with
  | 1 => 0 | 2 => 31 | 3 => 59 | 4 => 90 | 5 => 120 | 6 => 151
  | 7 => 181 | 8 => 212 | 9 => 243 | 10 => 273 | 11 => 304 | _ => 334
  end + (if (2 <? m) && is_leap y then 1 else 0).

Definition toordinal (d : date) : Z :=
  days_before_year (year d) + days_before_month (year d) (month d) + day d.

(** [a < b] and [a <= b]: by year, then month, then day. *)
Definition date_ltb (a b : date) : bool :=
  (year a <? year b) || ((year a =? year b) &&
  ((month a <? month b) || ((month a =? month b) && (day a <? day b)))).
Definition date_leb (a b : date) : bool := negb (date_ltb b a).

(** [d + timedelta(days=1)] and [d - timedelta(days=1)]; [None] is OverflowError. *)
Definition next_day (d : date) : option date :=
  if day d <? days_in_month (year d) (month d) then Some (mkDate (year d) (month d) (day d + 1))
  else if month d <? 12 then Some (mkDate (year d) (month d + 1) 1)
  else if year d <? 9999 then Some (mkDate (year d + 1) 1 1) else None.
Definition prev_day (d : date) : option date :=
  if 1 <? day d then Some (mkDate (year d) (month d) (day d - 1))
  else if 1 <? month d then Some (mkDate (year d) (month d - 1) (days_in_month (year d) (month d - 1)))
  else if 1 <? year d then Some (mkDate (year d - 1) 12 31) else None.

(** [d.isoformat()], also [str(d)] *)
Definition pad2 (n : Z) : string := (digs (n / 10 mod 10) +:+ digs (n mod 10))%string.
Definition isoformat (d : date) : string :=
  (pad2 (year d / 100) +:+ pad2 (year d mod 100) +:+ "-" +:+ pad2 (month d) +:+ "-" +:+ pad2 (day d))%string.

(** ** Lemmas *)

Ltac months m :=
  assert (m = 1 \/ m = 2 \/ m = 3 \/ m = 4 \/ m = 5 \/ m = 6 \/ m = 7 \/ m = 8 \/ m = 9 \/
          m = 10 \/ m = 11 \/ m = 12) as Hmonths by lia;
  repeat (destruct Hmonths as [Hmonths|Hmonths]); subst m.

Lemma date_ok_spec d : date_ok d = true <->
  1 <= year d <= 9999 /\ 1 <= month d <= 12 /\ 1 <= day d <= days_in_month (year d) (month d).
Proof. unfold date_ok. rewrite !andb_true_iff, !Z.leb_le. tauto. Qed.

Lemma make_date_spec y m d x : make_date y m d = Some x <-> date_ok x = true /\ x = mkDate y m d.
Proof.
  unfold make_date. destruct (date_ok (mkDate y m d)) eqn:E; split; [intros [= <-]; done | by intros [_ ->] | done |].
  intros [H ->]. congruence.
Qed.

Definition leap (y : Z) : Z := if is_leap y then 1 else 0.

Lemma days_before_next_year y : days_before_year (y + 1) = days_before_year y + 365 + leap y.
Proof.
  unfold days_before_year, leap, is_leap. replace (y + 1 - 1) with y by lia.
  destruct (Z.eqb_spec (y mod 4) 0), (Z.eqb_spec (y mod 100) 0), (Z.eqb_spec (y mod 400) 0);
    simpl; Z.to_euclidean_division_equations; lia.
Qed.

Lemma days_before_year_mono y z : y <= z -> days_before_year y <= days_before_year z.
Proof. unfold days_before_year. intros. Z.to_euclidean_division_equations; lia. Qed.

Lemma month_offset y m : 1 <= m <= 12 ->
  0 <= days_before_month y m /\ days_before_month y m + days_in_month y m <= 365 + leap y /\
  (forall m', m < m' <= 12 -> days_before_month y m + days_in_month y m <= days_before_month y m').
Proof.
  intros Hm. unfold days_before_month, days_in_month, leap.
  destruct (is_leap y); months m; (split_and!; [simpl; lia.. |]); intros m' Hm';
    assert (1 <= m' <= 12) by lia; months m'; simpl; lia.
Qed.

Lemma ord_lt a b : date_ok a = true -> date_ok b = true -> date_ltb a b = true ->
  toordinal a < toordinal b.
Proof.
  rewrite !date_ok_spec. intros (Ya & Ma & Da) (Yb & Mb & Db). unfold date_ltb, toordinal.
  destruct (month_offset (year a) (month a) Ma) as (_ & H1 & H2).
  destruct (month_offset (year b) (month b) Mb) as (H3 & _).
  rewrite orb_true_iff, andb_true_iff, orb_true_iff, andb_true_iff, !Z.ltb_lt, !Z.eqb_eq.
  intros [H | (Hy & [H | (Hm & H)])].
  - pose proof (days_before_next_year (year a)).
    pose proof (days_before_year_mono (year a + 1) (year b)). lia.
  - rewrite <- Hy in *. specialize (H2 (month b)). lia.
  - rewrite <- Hy, <- Hm in *. lia.
Qed.

Lemma date_trichotomy a b : date_ltb a b = true \/ a = b \/ date_ltb b a = true.
Proof.
  destruct a as [y m d], b as [y' m' d']. unfold date_ltb; simpl.
  destruct (Z.ltb_spec y y'), (Z.ltb_spec y' y); try (simpl; tauto); try lia.
  assert (y = y') as -> by lia. rewrite Z.eqb_refl.
  destruct (Z.ltb_spec m m'), (Z.ltb_spec m' m); try (simpl; tauto); try lia.
  assert (m = m') as -> by lia. rewrite Z.eqb_refl.
  destruct (Z.ltb_spec d d'), (Z.ltb_spec d' d); try (simpl; tauto); try lia.
  assert (d = d') as -> by lia. tauto.
Qed.

Lemma date_ltb_ord a b : date_ok a = true -> date_ok b = true ->
  date_ltb a b = (toordinal a <? toordinal b).
Proof.
  intros Ha Hb. destruct (Z.ltb_spec (toordinal a) (toordinal b)).
  - destruct (date_trichotomy a b) as [H' | [-> | H']]; [done | lia |].
    apply ord_lt in H'; [lia | done..].
  - destruct (date_ltb a b) eqn:H'; [|done]. apply ord_lt in H'; [lia | done..].
Qed.

Lemma ord_inj a b : date_ok a = true -> date_ok b = true -> toordinal a = toordinal b -> a = b.
Proof.
  intros Ha Hb Ho. destruct (date_trichotomy a b) as [H | [H | H]]; [|done|];
    apply ord_lt in H; try done; lia.
Qed.

Lemma next_day_spec d : date_ok d = true ->
  match next_day d with
  | Some d' => date_ok d' = true /\ toordinal d' = toordinal d + 1
  | None => d = mkDate 9999 12 31
  end.
Proof.
  intros Hd. pose proof Hd as Hd'. rewrite date_ok_spec in Hd'. destruct Hd' as (Hy & Hm & Hday).
  destruct d as [y m d]; simpl in *. unfold next_day; simpl.
  destruct (Z.ltb_spec d (days_in_month y m)).
  { split; [apply date_ok_spec; simpl; lia | unfold toordinal; simpl; lia]. }
  assert (d = days_in_month y m) as -> by lia. clear Hday H Hd.
  destruct (Z.ltb_spec m 12).
  - unfold toordinal; simpl. rewrite date_ok_spec; simpl.
    unfold days_before_month, days_in_month. destruct (is_leap y); months m; simpl; lia.
  - assert (m = 12) as -> by lia. destruct (Z.ltb_spec y 9999).
    + rewrite date_ok_spec. unfold toordinal; simpl. pose proof (days_before_next_year y) as H'.
      unfold leap in H'. unfold days_before_month, days_in_month; simpl.
      destruct (is_leap y); simpl; lia.
    + assert (y = 9999) as -> by lia. reflexivity.
Qed.

Lemma prev_day_spec d : date_ok d = true ->
  match prev_day d with
  | Some d' => date_ok d' = true /\ toordinal d' = toordinal d - 1
  | None => d = mkDate 1 1 1
  end.
Proof.
  intros Hd. pose proof Hd as Hd'. rewrite date_ok_spec in Hd'. destruct Hd' as (Hy & Hm & Hday).
  destruct d as [y m d]; simpl in *. unfold prev_day; simpl.
  destruct (Z.ltb_spec 1 d).
  { split; [apply date_ok_spec; simpl; lia | unfold toordinal; simpl; lia]. }
  assert (d = 1) as -> by lia. clear Hday H Hd.
  destruct (Z.ltb_spec 1 m).
  - unfold toordinal; simpl. rewrite date_ok_spec; simpl.
    unfold days_before_month, days_in_month. destruct (is_leap y); months m; simpl; lia.
  - assert (m = 1) as -> by lia. destruct (Z.ltb_spec 1 y).
    + rewrite date_ok_spec. unfold toordinal; simpl. pose proof (days_before_next_year (y - 1)) as H'.
      replace (y - 1 + 1) with y in H' by lia. unfold leap in H'.
      unfold days_before_month, days_in_month; simpl. destruct (is_leap (y - 1)); simpl; lia.
    + assert (y = 1) as -> by lia. reflexivity.
Qed.
