(* ===== verification/Reporting.v ===== *)
(** * Reports over the audit log ([reporting.py])

    Daily totals, sanctions hits and their CSV texts.  A line of the audit file
    is an object of strings, as [audit.record] writes it; decoding a line and
    the UTC date of a timestamp (which depends on the host's time zone when the
    timestamp has none) are parameters.  The workbooks are in [Workbooks]. *)
From S2P Require Import Prelude PyStr Decimal Exceptions Calendar.
From S2P Require Sanctions.
Open Scope string_scope.

Abbreviation record := (gmap string string).

Record DayBucket := mkBucket {
  b_date : date; success_count : Z; success_volume : Dec; rejected_count : Z; failed_count : Z;
  duplicate_count : Z; resolved_success : Z; resolved_failure : Z;
  recipients : gset string; bucket_wallets : gset string }.
Definition new_bucket (d : date) : DayBucket := mkBucket d 0 (dec_of_Z 0) 0 0 0 0 0 ∅ ∅.

Record PeriodSummary := mkSummary {
  ps_from : date; ps_to : date; ps_buckets : list DayBucket;
  total_success : Z; total_volume : Dec; total_rejected : Z; total_failed : Z; total_duplicate : Z;
  total_resolved_success : Z; total_resolved_failure : Z;
  total_unique_recipients : Z; total_unique_wallets : Z }.

Record SanctionsHit := mkHit {
  h_timestamp : string; h_wallet : string; h_to_address : string; h_amount : string;
  h_idempotency_key : string; h_client_ip : string; h_token_id : string; h_details : string }.

Definition MAX_REPORT_DAYS : Z := 366.

(** [parse_period_yyyymm]: the first and last day, or ValueError. *)
Definition parse_period_yyyymm (value : string) : option (date * date) :=
  match split_on "-" value with
  | [y; m] =>
      match int_of_str y, int_of_str m with
      | Some year, Some month =>
          if negb ((1 <=? month) && (month <=? 12))%Z then None
          else match make_date year month 1 with
               | None => None
               | Some first =>
                   match (if month =? 12 then make_date year 12 31
                          else make_date year (month + 1) 1 ≫= prev_day)%Z with
                   | Some last => Some (first, last)
                   | None => None
                   end
               end
      | _, _ => None
      end
  | _ => None
  end.

(** [validate_range]: the ValueError's message. *)
Definition validate_range (from_date to_date : date) : option string :=
  if date_ltb to_date from_date then
    Some ("to_date " +:+ isoformat to_date +:+ " is before from_date " +:+ isoformat from_date)
  else
    let span := (toordinal to_date - toordinal from_date + 1)%Z in
    if (MAX_REPORT_DAYS <? span)%Z then
      Some ("date range " +:+ str_of_Z span +:+ " days exceeds MAX_REPORT_DAYS=" +:+
            str_of_Z MAX_REPORT_DAYS +:+ "; split the request or read audit.log directly")
    else None.

Definition overflow_error : exn := EOther "OverflowError" "date value out of range".

(** [_daterange]: the day after the last one is computed before it is compared. *)
Fixpoint daterange_go (fuel : nat) (cur to_date : date) : outcome exn (list date) :=
  match fuel with
  | O => Ret []
  | Datatypes.S fuel =>
      if date_ltb to_date cur then Ret []
      else match next_day cur with
           | None => Raise overflow_error
           | Some next =>
               match daterange_go fuel next to_date with
               | Ret l => Ret (cur :: l)
               | Raise e => Raise e
               | Crash => Crash
               end
           end
  end.
(** One turn per day and one to see the end: an upper bound on the loop's turns. *)
Definition daterange (from_date to_date : date) : outcome exn (list date) :=
  daterange_go (Datatypes.S (Z.to_nat (toordinal to_date - toordinal from_date + 1))) from_date to_date.

Definition safe_decimal (value : option string) : Dec :=
  match value with
  | None => dec_of_Z 0
  | Some v => default (dec_of_Z 0) (dec_of_string v)
  end.

Definition field (k : string) (r : record) : string := default "" (r !! k).

(** [if rec.get(k): s.add(rec[k])] *)
Definition add_field (k : string) (r : record) (s : gset string) : gset string :=
  if String.eqb (field k r) "" then s else {[ field k r ]} ∪ s.

(** What one record does to the bucket of its day. *)
Definition add_record (r : record) (b : DayBucket) : DayBucket :=
  let '(mkBucket d sc sv rc fc dc rs rf re wa) := b in
  let event := field "event" r in
  if String.eqb event "SEND_SUCCESS" then
    mkBucket d (sc + 1) (dec_add sv (safe_decimal (r !! "amount"))) rc fc dc rs rf
      (add_field "to_address" r re) (add_field "wallet" r wa)
  else if String.eqb event "SEND_REJECTED" then mkBucket d sc sv (rc + 1) fc dc rs rf re wa
  else if String.eqb event "SEND_FAILED" then mkBucket d sc sv rc (fc + 1) dc rs rf re wa
  else if String.eqb event "SEND_DUPLICATE" then mkBucket d sc sv rc fc (dc + 1) rs rf re wa
  else if String.eqb event "RECEIPT_RESOLVED" then
    if String.eqb (lower (field "result" r)) "success"
    then mkBucket d sc sv rc fc dc (rs + 1) rf re wa else mkBucket d sc sv rc fc dc rs (rf + 1) re wa
  else b.

Section Reports.
Context (json_loads : string -> option record) (utc_date : string -> option date).

(** ** Reading: [None] is a file that is not configured or does not exist; a
    read gives lines, then perhaps an exception. *)
Definition audit_file : Type := option (list string * option exn).

Definition parse_line (line : string) : option record :=
  if String.eqb (strip line) "" then None else json_loads (strip line).

(** [_iter_audit_records], exhausted. *)
Definition iter_audit_records (f : audit_file) : outcome exn (list record) :=
  match f with
  | None => Ret []
  | Some (lines, stopped) =>
      match stopped with
      | Some e => if Sanctions.is_OSError e then Ret (omap parse_line lines) else Raise e
      | None => Ret (omap parse_line lines)
      end
  end.

Definition record_date (r : record) : option date :=
  if String.eqb (field "timestamp" r) "" then None else utc_date (field "timestamp" r).

Definition in_range (from_date to_date : date) (r : record) : bool :=
  match record_date r with
  | None => false
  | Some d => negb (date_ltb d from_date || date_ltb to_date d)
  end.

(** ** [aggregate_period] *)
Definition key_error : exn := EOther "KeyError" "date".

Fixpoint aggregate_loop (from_date to_date : date) (rs : list record)
    (buckets : gmap date DayBucket) : outcome exn (gmap date DayBucket) :=
  match rs with
  | [] => Ret buckets
  | r :: rs =>
      match record_date r with
      | None => aggregate_loop from_date to_date rs buckets
      | Some d =>
          if date_ltb d from_date || date_ltb to_date d then aggregate_loop from_date to_date rs buckets
          else match buckets !! d with
               | None => Raise key_error
               | Some b => aggregate_loop from_date to_date rs (<[d := add_record r b]> buckets)
               end
      end
  end.

Definition sum_Z (l : list Z) : Z := foldl Z.add 0%Z l.
Definition sum_Dec (l : list Dec) : Dec := foldl dec_add (dec_of_Z 0) l.

Definition summarise (from_date to_date : date) (bs : list DayBucket) : PeriodSummary :=
  mkSummary from_date to_date bs
    (sum_Z (map success_count bs)) (sum_Dec (map success_volume bs)) (sum_Z (map rejected_count bs))
    (sum_Z (map failed_count bs)) (sum_Z (map duplicate_count bs)) (sum_Z (map resolved_success bs))
    (sum_Z (map resolved_failure bs))
    (Z.of_nat (size (⋃ (map recipients bs)))) (Z.of_nat (size (⋃ (map bucket_wallets bs)))).

Definition aggregate_period (f : audit_file) (from_date to_date : date) : outcome exn PeriodSummary :=
  match validate_range from_date to_date with
  | Some msg => Raise (EValue msg)
  | None =>
      match daterange from_date to_date with
      | Raise e => Raise e
      | Crash => Crash
      | Ret days =>
          match iter_audit_records f with
          | Raise e => Raise e
          | Crash => Crash
          | Ret rs =>
              match aggregate_loop from_date to_date rs (list_to_map (map (fun d => (d, new_bucket d)) days)) with
              | Raise e => Raise e
              | Crash => Crash
              | Ret buckets =>
                  match mapM (fun d => buckets !! d) days with
                  | None => Raise key_error
                  | Some sorted_buckets => Ret (summarise from_date to_date sorted_buckets)
                  end
              end
          end
      end
  end.

(** ** [list_sanctions_hits] *)
Definition is_hit (from_date to_date : date) (r : record) : bool :=
  String.eqb (field "event" r) "SEND_REJECTED"
  && (contains "sanctions" (lower (field "details" r)) && in_range from_date to_date r).
Definition hit_of (r : record) : SanctionsHit :=
  mkHit (field "timestamp" r) (field "wallet" r) (field "to_address" r) (field "amount" r)
    (field "idempotency_key" r) (field "client_ip" r) (field "token_id" r) (field "details" r).

Definition by_timestamp (a b : SanctionsHit) : bool := String.leb (h_timestamp a) (h_timestamp b).

Definition list_sanctions_hits (f : audit_file) (from_date to_date : date) : outcome exn (list SanctionsHit) :=
  match validate_range from_date to_date with
  | Some msg => Raise (EValue msg)
  | None =>
      match iter_audit_records f with
      | Raise e => Raise e
      | Crash => Crash
      | Ret rs => Ret (sort_by by_timestamp (map hit_of (List.filter (is_hit from_date to_date) rs)))
      end
  end.
End Reports.

(** ** CSV ([csv.writer], lineterminator CRLF) *)
Definition DQ : ascii := "034".
Definition CR : ascii := "013".
Definition LF : ascii := "010".

Definition csv_special (c : ascii) : bool :=
  Ascii.eqb c "," || (Ascii.eqb c DQ || (Ascii.eqb c CR || Ascii.eqb c LF)).

(** QUOTE_MINIMAL: quote a field with a special character, doubling quotes. *)
Definition csv_field (s : string) : string :=
  if str_forall (fun c => negb (csv_special c)) s then s
  else String DQ (replace_char DQ (String DQ (one DQ)) s) +:+ one DQ.
Definition csv_row (fields : list string) : string :=
  join "," (map csv_field fields) +:+ String CR (one LF).

Definition PERIOD_COLUMNS : list string :=
  ["date"; "send_success_count"; "send_success_volume_usdt"; "send_rejected_count"; "send_failed_count";
   "send_duplicate_count"; "receipt_resolved_success_count"; "receipt_resolved_failure_count";
   "unique_recipients"; "unique_wallets"].
Definition SANCTIONS_COLUMNS : list string :=
  ["timestamp"; "wallet"; "to_address"; "amount"; "idempotency_key"; "client_ip"; "token_id"; "details"].

Definition bucket_row (b : DayBucket) : list string :=
  [isoformat (b_date b); str_of_Z (success_count b); dec_to_string (success_volume b);
   str_of_Z (rejected_count b); str_of_Z (failed_count b); str_of_Z (duplicate_count b);
   str_of_Z (resolved_success b); str_of_Z (resolved_failure b);
   str_of_Z (Z.of_nat (size (recipients b))); str_of_Z (Z.of_nat (size (bucket_wallets b)))].
Definition total_row (s : PeriodSummary) : list string :=
  ["TOTAL"; str_of_Z (total_success s); dec_to_string (total_volume s); str_of_Z (total_rejected s);
   str_of_Z (total_failed s); str_of_Z (total_duplicate s); str_of_Z (total_resolved_success s);
   str_of_Z (total_resolved_failure s); str_of_Z (total_unique_recipients s); str_of_Z (total_unique_wallets s)].
Definition render_period_csv (s : PeriodSummary) : string :=
  String.concat "" (map csv_row (PERIOD_COLUMNS :: map bucket_row (ps_buckets s) ++ [total_row s])).

Definition hit_row (h : SanctionsHit) : list string :=
  [h_timestamp h; h_wallet h; h_to_address h; h_amount h; h_idempotency_key h; h_client_ip h;
   h_token_id h; h_details h].
Definition render_sanctions_csv (hits : list SanctionsHit) : string :=
  String.concat "" (map csv_row (SANCTIONS_COLUMNS :: map hit_row hits)).

(** [sparkline_series]; the volumes stay decimals. *)
Definition sparkline_series (s : PeriodSummary) : list string * list Dec * list Z * list Z :=
  (map (fun b => isoformat (b_date b)) (ps_buckets s), map success_volume (ps_buckets s),
   map success_count (ps_buckets s), map rejected_count (ps_buckets s)).

(** ** Counting *)
Definition count (p : record -> bool) (rs : list record) : Z := Z.of_nat (List.length (List.filter p rs)).
(** The sum of [w] over the records satisfying [p]. *)
Fixpoint weigh (w : record -> Z) (p : record -> bool) (rs : list record) : Z :=
  match rs with
  | [] => 0
  | r :: rs => (if p r then w r else 0) + weigh w p rs
  end%Z.

Lemma count_weigh p rs : count p rs = weigh (fun _ => 1%Z) p rs.
Proof. unfold count. induction rs as [|r rs IH]; simpl; [done|]. destruct (p r); simpl; lia. Qed.

Lemma weigh_ext w p q rs : (forall r, p r = q r) -> weigh w p rs = weigh w q rs.
Proof. intros H. induction rs as [|r rs IH]; simpl; [done|]. by rewrite H, IH. Qed.

Lemma weigh_disjoint w p q rs : (forall r, p r && q r = false) ->
  (weigh w p rs + weigh w q rs)%Z = weigh w (fun r => p r || q r) rs.
Proof.
  intros H. induction rs as [|r rs IH]; simpl; [done|]. specialize (H r).
  destruct (p r), (q r); simpl in *; try done; lia.
Qed.

Lemma weigh_filter w p q rs : weigh w p (List.filter q rs) = weigh w (fun r => p r && q r) rs.
Proof.
  induction rs as [|r rs IH]; simpl; [done|].
  destruct (q r); simpl; rewrite IH; [by rewrite andb_true_r | by rewrite andb_false_r].
Qed.

Lemma weigh_nonneg w p rs : (forall r, In r rs -> p r = true -> 0 <= w r)%Z -> (0 <= weigh w p rs)%Z.
Proof.
  induction rs as [|r rs IH]; simpl; intros H; [done|].
  specialize (IH (fun r' H' => H r' (or_intror H'))). destruct (p r) eqn:E; [|done].
  specialize (H r (or_introl eq_refl) E). lia.
Qed.

Lemma sum_Z_acc l a : foldl Z.add a l = (a + sum_Z l)%Z.
Proof.
  unfold sum_Z. revert a. induction l as [|x l IH]; intros a; [simpl; lia|].
  change (foldl Z.add (a + x) l = a + foldl Z.add (0 + x) l)%Z. rewrite IH, (IH (0 + x)%Z). lia.
Qed.
Lemma sum_Z_cons x l : sum_Z (x :: l) = (x + sum_Z l)%Z.
Proof. apply (sum_Z_acc l (0 + x)). Qed.

Section Days.
Context (utc_date : string -> option date).

Definition on_day (d : date) (r : record) : bool := bool_decide (record_date utc_date r = Some d).
Definition event (e : string) (r : record) : bool := String.eqb (field "event" r) e.

(** A sum over distinct days is the sum over the records of those days. *)
Lemma sum_days w p days rs : NoDup days ->
  sum_Z (map (fun d => weigh w (fun r => p r && on_day d r) rs) days) =
  weigh w (fun r => p r && existsb (fun d => on_day d r) days) rs.
Proof.
  induction days as [|d days IH]; intros Hnd; simpl.
  { induction rs as [|r rs IHr]; simpl; [done|]. rewrite andb_false_r. done. }
  inversion_clear Hnd as [|? ? Hd Hnd']. rewrite sum_Z_cons, IH by done. rewrite weigh_disjoint.
  - apply weigh_ext. intros r. by rewrite andb_orb_distrib_r.
  - intros r. destruct (p r); [|done]. simpl. destruct (on_day d r) eqn:E; [|done]. simpl.
    apply not_true_iff_false. intros H. apply existsb_exists in H as (d' & Hin & H').
    unfold on_day in *. apply bool_decide_eq_true_1 in E, H'. apply Hd. apply list_elem_of_In. congruence.
Qed.

(** ** The loop *)
Lemma fold_counts rs b :
  let b' := foldl (fun b r => add_record r b) b rs in
  b_date b' = b_date b /\
  success_count b' = (success_count b + count (event "SEND_SUCCESS") rs)%Z /\
  rejected_count b' = (rejected_count b + count (event "SEND_REJECTED") rs)%Z /\
  failed_count b' = (failed_count b + count (event "SEND_FAILED") rs)%Z /\
  duplicate_count b' = (duplicate_count b + count (event "SEND_DUPLICATE") rs)%Z /\
  (resolved_success b' + resolved_failure b' =
   resolved_success b + resolved_failure b + count (event "RECEIPT_RESOLVED") rs)%Z.
Proof.
  revert b. induction rs as [|r rs IH]; intros b; simpl; [unfold count; simpl; split_and!; (done || lia)|].
  destruct (IH (add_record r b)) as (H1 & H2 & H3 & H4 & H5 & H6). rewrite H1, H2, H3, H4, H5, H6.
  clear. destruct b. unfold count, add_record, event; simpl.
  repeat match goal with
  | |- context [String.eqb (field "event" r) ?e] =>
      destruct (String.eqb_spec (field "event" r) e) as [He|]; [rewrite !He in *|]; simpl
  end; try (destruct (String.eqb (lower _) _)); simpl;
    split_and!; (done || lia).
Qed.

Lemma fold_recipients rs b x :
  x ∈ recipients (foldl (fun b r => add_record r b) b rs) <->
  x ∈ recipients b \/ exists r, In r rs /\ event "SEND_SUCCESS" r = true /\ field "to_address" r = x /\ x <> "".
Proof.
  revert b. induction rs as [|r rs IH]; intros b; simpl; [naive_solver|].
  rewrite IH. assert (x ∈ recipients (add_record r b) <-> x ∈ recipients b \/
    (event "SEND_SUCCESS" r = true /\ field "to_address" r = x /\ x <> "")) as ->.
  2:{ split; [intros [[?|?]|(r' & ? & ?)] | intros [?|(r' & [->|?] & ?)]]; eauto 8. }
  clear. destruct b. unfold add_record, event; simpl.
  destruct (String.eqb (field "event" r) "SEND_SUCCESS"); simpl.
  - unfold add_field. destruct (String.eqb_spec (field "to_address" r) "") as [->|]; [naive_solver|].
    rewrite elem_of_union, elem_of_singleton. naive_solver.
  - repeat case_match; simpl; naive_solver.
Qed.

Lemma fold_volume rs b :
  success_volume (foldl (fun b r => add_record r b) b rs) =
  foldl dec_add (success_volume b)
    (map (fun r => safe_decimal (r !! "amount")) (List.filter (event "SEND_SUCCESS") rs)).
Proof.
  revert b. induction rs as [|r rs IH]; intros b; simpl; [done|].
  rewrite IH. unfold event at 2. destruct b. unfold add_record.
  destruct (String.eqb (field "event" r) "SEND_SUCCESS"); simpl; [done|].
  f_equal. repeat case_match; done.
Qed.
End Days.

(** ** The range of days *)
Lemma daterange_go_spec fuel cur to_date : date_ok cur = true -> date_ok to_date = true ->
  (Z.to_nat (toordinal to_date - toordinal cur + 1) < fuel)%nat ->
  match daterange_go fuel cur to_date with
  | Ret l => map toordinal l = seqZ (toordinal cur) (toordinal to_date - toordinal cur + 1) /\
             Forall (fun d => date_ok d = true) l /\
             (toordinal cur <= toordinal to_date -> to_date <> mkDate 9999 12 31)%Z
  | Raise e => e = overflow_error /\ to_date = mkDate 9999 12 31
  | Crash => False
  end.
Proof.
  revert cur. induction fuel as [|fuel IH]; intros cur Hc Ht Hf; [lia|]. simpl.
  rewrite date_ltb_ord by done. destruct (Z.ltb_spec (toordinal to_date) (toordinal cur)).
  { split_and!; [|done|lia]. rewrite seqZ_nil by lia. done. }
  pose proof (next_day_spec cur Hc) as Hn. destruct (next_day cur) as [next|] eqn:Hnext.
  - destruct Hn as [Hok Ho]. specialize (IH next Hok Ht ltac:(lia)). rewrite Ho in IH.
    destruct (daterange_go fuel next to_date) as [l|e|]; [|done..].
    destruct IH as (Hl & HF & Hm). split_and!.
    + simpl. rewrite Hl, (seqZ_cons (toordinal cur)) by lia. f_equal. f_equal; lia.
    + by constructor.
    + intros _. destruct (decide (toordinal cur + 1 <= toordinal to_date)%Z); [auto|].
      intros ->. assert (cur = mkDate 9999 12 31) as -> by (apply ord_inj; [done..|lia]). done.
  - split; [done|]. subst cur. apply date_ok_spec in Ht as (? & ? & ?).
    apply ord_inj; [by apply date_ok_spec | done |]. symmetry. apply Z.le_antisymm; [done|].
    destruct (date_trichotomy to_date (mkDate 9999 12 31)) as [Hlt | [-> | Hlt]]; [|done|].
    + apply ord_lt in Hlt; [lia | by apply date_ok_spec | done].
    + exfalso. revert Hlt. unfold date_ltb; cbn [year month day].
      assert (days_in_month (year to_date) (month to_date) <= 31)%Z
        by (unfold days_in_month; repeat case_match; lia).
      rewrite orb_true_iff, andb_true_iff, orb_true_iff, andb_true_iff, !Z.ltb_lt, !Z.eqb_eq. lia.
Qed.

Definition days_ok (from_date to_date : date) (days : list date) : Prop :=
  map toordinal days = seqZ (toordinal from_date) (toordinal to_date - toordinal from_date + 1) /\
  NoDup days /\
  forall d, date_ok d = true -> In d days <->
    negb (date_ltb d from_date || date_ltb to_date d) = true.

Lemma daterange_days from_date to_date days : date_ok from_date = true -> date_ok to_date = true ->
  daterange from_date to_date = Ret days ->
  days_ok from_date to_date days /\ Forall (fun d => date_ok d = true) days.
Proof.
  intros Hf Ht Hd. pose proof (daterange_go_spec _ from_date to_date Hf Ht (Nat.lt_succ_diag_r _)) as H.
  fold (daterange from_date to_date) in H. rewrite Hd in H. destruct H as (Hm & HF & _).
  split; [split_and! | done].
  - done.
  - apply (NoDup_fmap_1 toordinal). change (NoDup (map toordinal days)). rewrite Hm. apply NoDup_seqZ.
  - intros d Hok. rewrite negb_true_iff, orb_false_iff, !date_ltb_ord, !Z.ltb_ge by done.
    assert (In (toordinal d) (map toordinal days) <-> In d days) as <-.
    + rewrite in_map_iff. split; [|eauto]. intros (d' & Ho & Hin). rewrite List.Forall_forall in HF.
      apply ord_inj in Ho as ->; auto.
    + rewrite Hm, <- list_elem_of_In, elem_of_seqZ. lia.
Qed.

Lemma daterange_total from_date to_date : date_ok from_date = true -> date_ok to_date = true ->
  (toordinal from_date <= toordinal to_date)%Z ->
  if decide (to_date = mkDate 9999 12 31) then daterange from_date to_date = Raise overflow_error
  else exists days, daterange from_date to_date = Ret days.
Proof.
  intros Hf Ht Hle. pose proof (daterange_go_spec _ from_date to_date Hf Ht (Nat.lt_succ_diag_r _)) as H.
  fold (daterange from_date to_date) in H. destruct (daterange from_date to_date) as [l|e|]; [| |done].
  - destruct H as (_ & _ & H). rewrite decide_False by auto. eauto.
  - destruct H as [-> ->]. by rewrite decide_True.
Qed.

Lemma validate_range_spec from_date to_date : date_ok from_date = true -> date_ok to_date = true ->
  validate_range from_date to_date = None <->
  (toordinal from_date <= toordinal to_date < toordinal from_date + 366)%Z.
Proof.
  intros Hf Ht. unfold validate_range, MAX_REPORT_DAYS. rewrite date_ltb_ord by done.
  destruct (Z.ltb_spec (toordinal to_date) (toordinal from_date)); [split; [done | lia]|].
  destruct (Z.ltb_spec 366 (toordinal to_date - toordinal from_date + 1)); split; try done; lia.
Qed.

(** ** The whole aggregation *)
Section Aggregate.
Context (json_loads : string -> option record) (utc_date : string -> option date)
        (Hdate : forall ts d, utc_date ts = Some d -> date_ok d = true).

Lemma record_date_ok r d : record_date utc_date r = Some d -> date_ok d = true.
Proof. unfold record_date. cases. eauto. Qed.

Lemma aggregate_loop_spec from_date to_date rs : forall bs,
  (forall d, date_ok d = true -> negb (date_ltb d from_date || date_ltb to_date d) = true -> is_Some (bs !! d)) ->
  exists bs', aggregate_loop utc_date from_date to_date rs bs = Ret bs' /\
    forall d, negb (date_ltb d from_date || date_ltb to_date d) = true ->
      bs' !! d = (fun b => foldl (fun b r => add_record r b) b (List.filter (on_day utc_date d) rs)) <$> bs !! d.
Proof.
  induction rs as [|r rs IH]; intros bs Hbs; simpl.
  { exists bs. split; [done|]. intros d _. by destruct (bs !! d). }
  unfold on_day at 1. destruct (record_date utc_date r) as [d|] eqn:Hr; [|by apply IH].
  destruct (date_ltb d from_date || date_ltb to_date d) eqn:Hd.
  { destruct (IH bs Hbs) as (bs' & H1 & H2). exists bs'. split; [done|]. intros d' Hd'.
    rewrite bool_decide_false; [auto|]. intros [= ->]. rewrite Hd in Hd'. done. }
  destruct (Hbs d) as [b Hb]; [by eapply record_date_ok | by rewrite Hd |]. rewrite Hb.
  destruct (IH (<[d := add_record r b]> bs)) as (bs' & H1 & H2).
  { intros d' Hok Hin. destruct (decide (d' = d)) as [->|]; simplify_map_eq; eauto. }
  exists bs'. split; [done|]. intros d' Hd'. rewrite H2 by done.
  destruct (decide (d' = d)) as [->|Hne].
  - rewrite bool_decide_true by done. by rewrite lookup_insert_eq, Hb.
  - rewrite bool_decide_false by congruence. by rewrite lookup_insert_ne.
Qed.

(** The bucket of each day. *)
Definition day_bucket (rs : list record) (d : date) : DayBucket :=
  foldl (fun b r => add_record r b) (new_bucket d) (List.filter (on_day utc_date d) rs).

Lemma aggregate_run f from_date to_date days rs : date_ok from_date = true -> date_ok to_date = true ->
  validate_range from_date to_date = None -> daterange from_date to_date = Ret days ->
  iter_audit_records json_loads f = Ret rs ->
  days_ok from_date to_date days /\
  aggregate_period json_loads utc_date f from_date to_date =
    Ret (summarise from_date to_date (map (day_bucket rs) days)).
Proof.
  intros Hf Ht Hv Hdays Hrs. unfold aggregate_period. rewrite Hv, Hdays, Hrs.
  destruct (daterange_days _ _ _ Hf Ht Hdays) as [Hok HF]. split; [done|].
  assert (Hfst : map fst (map (fun d => (d, new_bucket d)) days) = days).
  { rewrite map_map. apply map_id. }
  assert (Hget : forall d, In d days ->
    (list_to_map (map (fun d => (d, new_bucket d)) days) : gmap date DayBucket) !! d = Some (new_bucket d)).
  { intros d Hin. apply elem_of_list_to_map.
    - change (NoDup (map fst (map (fun d => (d, new_bucket d)) days))). rewrite Hfst. apply Hok.
    - apply list_elem_of_In, in_map_iff. eauto. }
  destruct (aggregate_loop_spec from_date to_date rs
    (list_to_map (map (fun d => (d, new_bucket d)) days))) as (bs & -> & Hbs).
  { intros d Hd Hin. rewrite Hget; [done|]. by apply Hok. }
  assert (mapM (fun d => bs !! d) days = Some (map (day_bucket rs) days)) as ->; [|done].
  rewrite List.Forall_forall in HF. apply mapM_Some. apply Forall2_fmap_r, Forall_Forall2_diag.
  apply List.Forall_forall. intros d Hd. rewrite Hbs by (by apply Hok; auto). by rewrite Hget.
Qed.

Lemma aggregate_returns f from_date to_date s : date_ok from_date = true -> date_ok to_date = true ->
  aggregate_period json_loads utc_date f from_date to_date = Ret s ->
  exists rs days, iter_audit_records json_loads f = Ret rs /\ days_ok from_date to_date days /\
    s = summarise from_date to_date (map (day_bucket rs) days).
Proof.
  intros Hf Ht Hs.
  destruct (validate_range from_date to_date) eqn:Hv; [by unfold aggregate_period in Hs; rewrite Hv in Hs|].
  destruct (daterange from_date to_date) as [days|e|] eqn:Hdays;
    [|by unfold aggregate_period in Hs; rewrite Hv, Hdays in Hs..].
  destruct (iter_audit_records json_loads f) as [rs|e|] eqn:Hrs;
    [|by unfold aggregate_period in Hs; rewrite Hv, Hdays, Hrs in Hs..].
  destruct (aggregate_run f _ _ days rs Hf Ht Hv Hdays Hrs) as [Hok Hret].
  rewrite Hret in Hs. injection Hs as <-. eauto.
Qed.

(** A weighed sum over the buckets of a range is the sum over its records. *)
Lemma range_sum w p from_date to_date days rs : days_ok from_date to_date days ->
  sum_Z (map (fun d => weigh w (fun r => p r && on_day utc_date d r) rs) days) =
  weigh w (fun r => p r && in_range utc_date from_date to_date r) rs.
Proof.
  intros (_ & Hnd & Hin). rewrite sum_days by done. apply weigh_ext. intros r. f_equal.
  unfold in_range, on_day. apply eq_iff_eq_true. rewrite existsb_exists. split.
  - intros (d & Hd & Hr). apply bool_decide_eq_true_1 in Hr. rewrite Hr.
    apply Hin; [by eapply record_date_ok | done].
  - destruct (record_date utc_date r) as [d|] eqn:Hr; [|done]. intros H. exists d.
    split; [|by apply bool_decide_eq_true_2]. apply Hin; [by eapply record_date_ok | done].
Qed.

Lemma day_bucket_counts rs d : let b := day_bucket rs d in
  let on e := count (fun r => event e r && on_day utc_date d r) rs in
  b_date b = d /\ success_count b = on "SEND_SUCCESS" /\ rejected_count b = on "SEND_REJECTED" /\
  failed_count b = on "SEND_FAILED" /\ duplicate_count b = on "SEND_DUPLICATE" /\
  (resolved_success b + resolved_failure b)%Z = on "RECEIPT_RESOLVED".
Proof.
  destruct (fold_counts (List.filter (on_day utc_date d) rs) (new_bucket d)) as (H1 & H2 & H3 & H4 & H5 & H6).
  unfold day_bucket. rewrite H1, H2, H3, H4, H5, H6, !count_weigh, !weigh_filter. simpl.
  by split_and!.
Qed.

Lemma total_count (g : DayBucket -> Z) e from_date to_date days rs : days_ok from_date to_date days ->
  (forall d, g (day_bucket rs d) = count (fun r => event e r && on_day utc_date d r) rs) ->
  sum_Z (map g (map (day_bucket rs) days)) =
  count (fun r => event e r && in_range utc_date from_date to_date r) rs.
Proof.
  intros Hd Hg. rewrite map_map, count_weigh, <- (range_sum _ _ _ _ days) by done. f_equal.
  apply map_ext. intros d. by rewrite Hg, count_weigh.
Qed.

Lemma recipients_in_range from_date to_date days rs x : days_ok from_date to_date days ->
  x ∈ ⋃ (map recipients (map (day_bucket rs) days)) <->
  x <> "" /\ exists r, In r rs /\ event "SEND_SUCCESS" r = true /\
    in_range utc_date from_date to_date r = true /\ field "to_address" r = x.
Proof.
  intros (_ & _ & Hin). rewrite elem_of_union_list. split.
  - intros (X & HX & Hx). apply list_elem_of_In in HX. rewrite map_map in HX.
    apply in_map_iff in HX as (d & <- & Hd).
    apply (fold_recipients utc_date) in Hx. destruct Hx as [Hx | (r & Hr & He & Hf & Hne)];
      [by apply not_elem_of_empty in Hx|].
    split; [done|]. exists r. apply filter_In in Hr as [Hr Hon]. split_and!; try done.
    apply bool_decide_eq_true_1 in Hon. unfold in_range. rewrite Hon.
    apply Hin; [by eapply record_date_ok | done].
  - intros (Hne & r & Hr & He & Hrange & Hf). unfold in_range in Hrange.
    destruct (record_date utc_date r) as [d|] eqn:Hd; [|done].
    exists (recipients (day_bucket rs d)). split.
    + apply list_elem_of_In. rewrite map_map. apply (in_map (fun d => recipients (day_bucket rs d))), Hin;
        [by eapply record_date_ok | done].
    + apply (fold_recipients utc_date). right. exists r. split_and!; try done. apply filter_In. split; [done|].
      by apply bool_decide_eq_true_2.
Qed.

End Aggregate.

(** ** Volumes, in micro-USDT *)
Definition micro (d : Dec) : Z := coef_at (-6) d.

Lemma dec_add_micro a b : (-6 <= dexp a)%Z -> (-6 <= dexp b)%Z ->
  (Z.abs (micro a + micro b) < 10 ^ PREC)%Z ->
  (-6 <= dexp (dec_add a b))%Z /\ micro (dec_add a b) = (micro a + micro b)%Z.
Proof.
  intros Ha Hb Hs. unfold dec_add. set (e := Z.min (dexp a) (dexp b)).
  set (d := mkDec (coef_at e a + coef_at e b) e).
  assert (Hd : (coef d * 10 ^ (e + 6) = micro a + micro b)%Z).
  { subst d. unfold micro, coef_at; cbn [coef]. rewrite Z.mul_add_distr_r, <- !Z.mul_assoc, <- !Z.pow_add_r by lia.
    f_equal; do 2 f_equal; lia. }
  assert (0 < 10 ^ (e + 6))%Z by (apply Z.pow_pos_nonneg; lia).
  destruct (dec_fix_exact d 0) as [H1 H2]; [done | | by exists (coef d); rewrite Z.pow_0_r, Z.mul_1_r |].
  - rewrite Z.add_0_r. rewrite <- Hd, Z.abs_mul, (Z.abs_eq (10 ^ (e + 6))) in Hs by lia.
    pose proof (Z.abs_nonneg (coef d)). nia.
  - subst d. cbn [dexp coef] in *. destruct (dec_fix _) as [c' e']. unfold micro, coef_at in *.
    cbn [dexp coef] in *. split; [lia|]. rewrite <- Hd, <- H2.
    replace (e' - -6)%Z with ((e' - e) + (e + 6))%Z by lia. rewrite Z.pow_add_r by lia. lia.
Qed.

(** A sum of non-negative amounts below 10^22 USDT is exact. *)
Lemma sum_exact l : forall a, (-6 <= dexp a)%Z -> (0 <= micro a)%Z ->
  Forall (fun d => -6 <= dexp d /\ 0 <= micro d)%Z l ->
  (micro a + sum_Z (map micro l) < 10 ^ PREC)%Z ->
  (-6 <= dexp (foldl dec_add a l))%Z /\ micro (foldl dec_add a l) = (micro a + sum_Z (map micro l))%Z.
Proof.
  induction l as [|x l IH]; intros a Ha Hp Hl Hs; [cbn [map foldl]; change (sum_Z []) with 0%Z; split; [done | lia]|].
  inversion_clear Hl as [|? ? [Hx Hx'] Hl']. cbn [map] in *. rewrite sum_Z_cons in *.
  assert (0 <= sum_Z (map micro l))%Z.
  { clear - Hl'. induction Hl' as [|y l [_ Hy] _ IH]; [done|]. cbn [map]. rewrite sum_Z_cons. lia. }
  destruct (dec_add_micro a x) as [H1 H2]; [done..|lia|].
  cbn [foldl]. destruct (IH (dec_add a x)) as [H3 H4]; [done | lia | done | lia |]. split; [done|]. lia.
Qed.

(** What a record adds to the volume. *)
Definition amount_of (r : record) : Z := micro (safe_decimal (r !! "amount")).
(** The amounts [/send] accepts: not negative, at most 6 decimals. *)
Definition amount_ok (r : record) : Prop :=
  (-6 <= dexp (safe_decimal (r !! "amount")) /\ 0 <= amount_of r)%Z.

Section Volumes.
Context (utc_date : string -> option date).

Lemma map_filter_weigh w p rs : sum_Z (map w (List.filter p rs)) = weigh w p rs.
Proof.
  induction rs as [|r rs IH]; simpl; [done|]. destruct (p r); simpl; [rewrite sum_Z_cons|]; by rewrite IH.
Qed.

Lemma day_volume rs d : Forall amount_ok rs ->
  (weigh amount_of (fun r => event "SEND_SUCCESS" r && on_day utc_date d r) rs < 10 ^ PREC)%Z ->
  let v := success_volume (day_bucket utc_date rs d) in
  (-6 <= dexp v)%Z /\ micro v = weigh amount_of (fun r => event "SEND_SUCCESS" r && on_day utc_date d r) rs.
Proof.
  intros Hok Hs v. subst v. unfold day_bucket. rewrite fold_volume. simpl.
  rewrite <- weigh_filter, <- map_filter_weigh in *. set (l := List.filter _ (List.filter _ rs)) in *.
  assert (Hl : Forall amount_ok l).
  { apply List.Forall_forall. intros r Hr. apply filter_In in Hr as [Hr _]. apply filter_In in Hr as [Hr _].
    rewrite List.Forall_forall in Hok. auto. }
  assert (Hm : map micro (map (fun r => safe_decimal (r !! "amount")) l) = map amount_of l)
    by apply map_map.
  destruct (sum_exact (map (fun r => safe_decimal (r !! "amount")) l) (dec_of_Z 0)) as [H1 H2]; simpl.
  - lia.
  - done.
  - apply List.Forall_map. revert Hl. apply List.Forall_impl. auto.
  - rewrite Hm. exact Hs.
  - rewrite Hm in H2. split; [done|]. rewrite H2. unfold micro at 1, coef_at; simpl. lia.
Qed.

Lemma sum_le_In (l : list Z) x : Forall (fun y => 0 <= y)%Z l -> In x l -> (x <= sum_Z l)%Z.
Proof.
  assert (Hn : forall l, Forall (fun y => 0 <= y)%Z l -> (0 <= sum_Z l)%Z).
  { induction 1 as [|y l' Hy _ IH]; [done|]. rewrite sum_Z_cons. lia. }
  induction 1 as [|y l' Hy Hl IH]; [done|]. rewrite sum_Z_cons. specialize (Hn l' Hl).
  intros [-> | H]; [lia|]. specialize (IH H). lia.
Qed.

Lemma total_volume_exact from_date to_date days rs :
  (forall ts d, utc_date ts = Some d -> date_ok d = true) ->
  days_ok from_date to_date days -> Forall amount_ok rs ->
  let total := weigh amount_of (fun r => event "SEND_SUCCESS" r && in_range utc_date from_date to_date r) rs in
  (total < 10 ^ PREC)%Z ->
  micro (sum_Dec (map success_volume (map (day_bucket utc_date rs) days))) = total /\
  forall d, In d days -> micro (success_volume (day_bucket utc_date rs d)) =
    weigh amount_of (fun r => event "SEND_SUCCESS" r && on_day utc_date d r) rs.
Proof.
  intros Hdate Hdays Hok total Ht. subst total. rewrite <- (range_sum _ Hdate _ _ _ _ days) in * by done.
  set (day := fun d => weigh amount_of (fun r => event "SEND_SUCCESS" r && on_day utc_date d r) rs) in *.
  assert (Hpos : Forall (fun y => 0 <= y)%Z (map day days)).
  { apply List.Forall_map, List.Forall_forall. intros d _. apply weigh_nonneg. intros r Hr _.
    rewrite List.Forall_forall in Hok. apply Hok, Hr. }
  assert (Hday : forall d, In d days -> (-6 <= dexp (success_volume (day_bucket utc_date rs d)))%Z /\
    micro (success_volume (day_bucket utc_date rs d)) = day d).
  { intros d Hd. apply day_volume; [done|]. fold (day d).
    pose proof (sum_le_In _ (day d) Hpos (in_map day _ _ Hd)). lia. }
  split; [|intros d Hd; by apply Hday].
  rewrite map_map. unfold sum_Dec.
  assert (Hm : map micro (map (fun d => success_volume (day_bucket utc_date rs d)) days) = map day days).
  { rewrite map_map. apply map_ext_in. intros d Hd. by apply Hday. }
  destruct (sum_exact (map (fun d => success_volume (day_bucket utc_date rs d)) days) (dec_of_Z 0)) as [_ H].
  - simpl; lia.
  - done.
  - apply List.Forall_map, List.Forall_forall. intros d Hd. destruct (Hday d Hd) as [? ->]. split; [done|].
    rewrite List.Forall_forall in Hpos. apply Hpos, in_map, Hd.
  - rewrite Hm. unfold micro, coef_at; simpl. exact Ht.
  - rewrite H, Hm. unfold micro, coef_at; simpl. done.
Qed.
End Volumes.

(** ** Reading CSV back: RFC 4180, as a reference for the writer *)
Inductive mode := Start | Plain | Quoted | QuoteSeen | CrSeen.

Fixpoint csv_read (m : mode) (fld : string) (row : list string) (rows : list (list string)) (s : string)
    : option (list (list string)) :=
  match s with
  | "" => match m, row with Start, [] => Some rows | _, _ => None end
  | String c s =>
      match m with
      | Quoted => if Ascii.eqb c DQ then csv_read QuoteSeen fld row rows s
                  else csv_read Quoted (fld +:+ one c) row rows s
      | CrSeen => if Ascii.eqb c LF then csv_read Start "" [] (rows ++ [row])%list s else None
      | _ =>
          if Ascii.eqb c "," then csv_read Start "" (row ++ [fld]) rows s
          else if Ascii.eqb c CR then csv_read CrSeen "" (row ++ [fld]) rows s
          else if Ascii.eqb c DQ then
            match m with
            | Start => csv_read Quoted "" row rows s
            | QuoteSeen => csv_read Quoted (fld +:+ one DQ) row rows s
            | _ => None
            end
          else match m with
               | QuoteSeen => None
               | _ => csv_read Plain (fld +:+ one c) row rows s
               end
      end
  end.
Definition read_csv (s : string) : option (list (list string)) := csv_read Start "" [] [] s.

Lemma read_plain s : forall m fld row rows rest,
  str_forall (fun c => negb (csv_special c)) s = true -> m = Start \/ m = Plain ->
  exists m', (m' = Start \/ m' = Plain) /\
    csv_read m fld row rows (s +:+ rest) = csv_read m' (fld +:+ s) row rows rest.
Proof.
  induction s as [|c s IH]; intros m fld row rows rest Hs Hm.
  { exists m. by rewrite append_nil_r, append_nil_l. }
  simpl in Hs. apply andb_true_iff in Hs as [Hc Hs]. unfold csv_special in Hc. bcases.
  repeat match goal with H : _ || _ = false |- _ => apply orb_false_iff in H as [? ?] end.
  destruct (IH Plain (fld +:+ one c) row rows rest Hs (or_intror eq_refl)) as (m' & Hm' & IH').
  exists m'. split; [done|]. rewrite append_assoc in IH'. unfold one in IH' at 2. rewrite append_cons, append_nil_l in IH'.
  rewrite append_cons. destruct Hm as [-> | ->]; simpl;
    repeat match goal with H : Ascii.eqb c _ = false |- _ => rewrite H end; exact IH'.
Qed.

Lemma read_quoted s : forall fld row rows rest,
  csv_read Quoted fld row rows (replace_char DQ (String DQ (one DQ)) s +:+ rest) =
  csv_read Quoted (fld +:+ s) row rows rest.
Proof.
  induction s as [|c s IH]; intros fld row rows rest; simpl.
  { by rewrite append_nil_r, append_nil_l. }
  destruct (Ascii.eqb_spec c DQ) as [->|Hc].
  - unfold one. rewrite !append_cons, append_nil_l. simpl. rewrite IH. f_equal.
    rewrite append_assoc. unfold one. by rewrite append_cons, append_nil_l.
  - unfold one. rewrite append_cons, append_nil_l, append_cons. simpl.
    apply Ascii.eqb_neq in Hc. rewrite Hc, IH. f_equal.
    rewrite append_assoc. unfold one. by rewrite append_cons, append_nil_l.
Qed.

(** A written field reads back, up to the separator that follows it. *)
Lemma read_field s row rows c rest : c = ","%char \/ c = CR ->
  csv_read Start "" row rows (csv_field s +:+ String c rest) =
  csv_read (if Ascii.eqb c CR then CrSeen else Start) "" (row ++ [s]) rows rest.
Proof.
  intros Hc. unfold csv_field. destruct (str_forall _ s) eqn:Hs.
  - destruct (read_plain s Start "" row rows (String c rest) Hs (or_introl eq_refl)) as (m & Hm & ->).
    rewrite append_nil_l. destruct Hm as [-> | ->], Hc as [-> | ->]; reflexivity.
  - rewrite !append_cons. cbn [csv_read].
    change (Ascii.eqb DQ ",") with false. change (Ascii.eqb DQ CR) with false. change (Ascii.eqb DQ DQ) with true.
    cbv iota. rewrite append_assoc, read_quoted, append_nil_l. unfold one. rewrite append_cons, append_nil_l.
    destruct Hc as [-> | ->]; reflexivity.
Qed.

Lemma read_row fields : forall row rows rest, fields <> [] ->
  csv_read Start "" row rows (csv_row fields +:+ rest) = csv_read Start "" [] (rows ++ [row ++ fields]%list) rest.
Proof.
  induction fields as [|f fields IH]; intros row rows rest Hne; [done|].
  unfold csv_row in *. destruct fields as [|g fields]; cbn [map join].
  - rewrite append_assoc, append_cons. rewrite read_field by by right. reflexivity.
  - cbn [map] in IH. cbn [map join] in IH |- *.
    rewrite !append_assoc. rewrite (append_cons ","), append_nil_l, read_field by by left.
    change (if Ascii.eqb "," CR then CrSeen else Start) with Start.
    specialize (IH (row ++ [f])%list rows rest ltac:(done)). rewrite !append_assoc in IH. rewrite IH.
    by rewrite <- List.app_assoc.
Qed.

Lemma read_rows l : forall rows, Forall (fun r => r <> []) l ->
  csv_read Start "" [] rows (String.concat "" (map csv_row l)) = Some (rows ++ l)%list.
Proof.
  induction l as [|r l IH]; intros rows Hl; [rewrite List.app_nil_r; reflexivity|]. inversion_clear Hl.
  assert (String.concat "" (map csv_row (r :: l)) = csv_row r +:+ String.concat "" (map csv_row l)) as ->.
  { destruct l; cbn [map String.concat]; [by rewrite append_nil_r | by rewrite append_nil_l]. }
  rewrite read_row by done. rewrite IH by done. rewrite <- List.app_assoc. done.
Qed.

(** ** Properties *)

(** A log with one payout and one sanctions rejection on 2026-04-29. *)
Definition demo_loads (line : string) : option record :=
  if String.eqb line "sent" then Some {["event" := "SEND_SUCCESS"; "timestamp" := "t1"; "amount" := "1.50";
    "to_address" := "TA"; "wallet" := "main"]}
  else if String.eqb line "rejected" then Some {["event" := "SEND_REJECTED"; "timestamp" := "t0";
    "details" := "level=high failed=Sanctions"]}
  else None.
Definition demo_day : date := mkDate 2026 4 29.
Definition demo_utc (_ : string) : option date := Some demo_day.
Definition demo_file : audit_file := Some (["sent "; ""; "{"; "rejected"], None).

Definition demo_records : list record :=
  omap (parse_line demo_loads) ["sent "; ""; "{"; "rejected"].
Definition returned {A} (o : outcome exn A) : bool := match o with Ret _ => true | _ => false end.

Lemma returned_inv {A} (o : outcome exn A) : returned o = true -> exists a, o = Ret a.
Proof. destruct o; try done. eauto. Qed.

Lemma demo_report : exists s, aggregate_period demo_loads demo_utc demo_file demo_day demo_day = Ret s.
Proof. apply returned_inv. vm_compute. reflexivity. Qed.

Lemma demo_utc_ok ts d : demo_utc ts = Some d -> date_ok d = true.
Proof. intros [= <-]. reflexivity. Qed.



(** Volumes are exact: when the amounts of the records are not negative, have at
    most 6 decimals and sum to less than 10^22 USDT, the 28-digit arithmetic never
    rounds, so the total is the sum of the amounts in the range and each day's
    volume the sum of the day's. *)
Theorem period_volume_exact (json_loads : string -> option record) (utc_date : string -> option date)
    (f : audit_file) (from_date to_date : date) (s : PeriodSummary) (rs : list record)
    (Hdate : forall ts d, utc_date ts = Some d -> date_ok d = true)
    (Hfrom : date_ok from_date = true) (Hto : date_ok to_date = true)
    (Hs : aggregate_period json_loads utc_date f from_date to_date = Ret s)
    (Hrs : iter_audit_records json_loads f = Ret rs) (Hok : Forall amount_ok rs)
    (Hmax : (weigh amount_of (fun r => event "SEND_SUCCESS" r && in_range utc_date from_date to_date r) rs
             < 10 ^ 28)%Z) :
  micro (total_volume s) =
    weigh amount_of (fun r => event "SEND_SUCCESS" r && in_range utc_date from_date to_date r) rs /\
  forall b, In b (ps_buckets s) -> micro (success_volume b) =
    weigh amount_of (fun r => event "SEND_SUCCESS" r && on_day utc_date (b_date b) r) rs.
Proof.
  destruct (aggregate_returns _ _ Hdate _ _ _ _ Hfrom Hto Hs) as (rs' & days & Hrs' & Hdays & ->).
  rewrite Hrs in Hrs'. injection Hrs' as <-.
  destruct (total_volume_exact utc_date _ _ days rs Hdate Hdays Hok Hmax) as [Ht Hd].
  split; [exact Ht|]. intros b Hin. apply in_map_iff in Hin as (d & <- & Hin). rewrite (Hd d Hin).
  by destruct (day_bucket_counts utc_date rs d) as (-> & _).
Qed.

Lemma period_volume_exact_witness : exists s,
  aggregate_period demo_loads demo_utc demo_file demo_day demo_day = Ret s /\
  micro (total_volume s) = 1500000%Z.
Proof.
  destruct demo_report as [s Hs]. exists s. split; [exact Hs|].
  destruct (period_volume_exact demo_loads demo_utc demo_file demo_day demo_day s demo_records demo_utc_ok
    eq_refl eq_refl Hs eq_refl) as [Hv _].
  - repeat constructor; vm_compute; discriminate.
  - vm_compute. reflexivity.
  - rewrite Hv. vm_compute. reflexivity.
Defined.

(** When the period report answers: a range that is reversed or longer than 366
    days is a ValueError; otherwise the report is returned whenever the log can be
    read, except that a range ending on 9999-12-31 raises OverflowError, because the
    day after the last one is computed before the loop ends. *)
Theorem period_report_total (json_loads : string -> option record) (utc_date : string -> option date)
    (f : audit_file) (from_date to_date : date)
    (Hdate : forall ts d, utc_date ts = Some d -> date_ok d = true)
    (Hfrom : date_ok from_date = true) (Hto : date_ok to_date = true) :
  let o := aggregate_period json_loads utc_date f from_date to_date in
  ((toordinal to_date < toordinal from_date \/ toordinal from_date + 366 <= toordinal to_date)%Z ->
     exists m, o = Raise (EValue m)) /\
  ((toordinal from_date <= toordinal to_date < toordinal from_date + 366)%Z ->
     if decide (to_date = mkDate 9999 12 31) then o = Raise overflow_error
     else match iter_audit_records json_loads f with
          | Ret _ => exists s, o = Ret s
          | Raise e => o = Raise e
          | Crash => False
          end).
Proof.
  assert (Hv := validate_range_spec from_date to_date Hfrom Hto). intros o. subst o. split; intros H.
  - unfold aggregate_period. destruct (validate_range _ _) as [m|]; [by exists m|].
    destruct Hv as [Hv _]. specialize (Hv eq_refl). lia.
  - apply Hv in H as Hnone. pose proof (daterange_total _ _ Hfrom Hto (proj1 H)) as Hd.
    destruct (decide _) as [_|_].
    + unfold aggregate_period. by rewrite Hnone, Hd.
    + destruct Hd as [days Hd]. destruct (iter_audit_records json_loads f) as [rs|e|] eqn:Hrs.
      * destruct (aggregate_run _ _ Hdate f _ _ days rs Hfrom Hto Hnone Hd Hrs) as [_ ->]. eauto.
      * unfold aggregate_period. by rewrite Hnone, Hd, Hrs.
      * unfold iter_audit_records in Hrs. repeat case_match; done.
Qed.

Lemma period_report_total_witness :
  (exists s, aggregate_period demo_loads demo_utc demo_file demo_day demo_day = Ret s) /\
  (exists m, aggregate_period demo_loads demo_utc demo_file (mkDate 9999 12 31) demo_day = Raise (EValue m)) /\
  aggregate_period demo_loads demo_utc demo_file (mkDate 9999 12 31) (mkDate 9999 12 31) = Raise overflow_error.
Proof.
  split_and!.
  - destruct (period_report_total demo_loads demo_utc demo_file demo_day demo_day demo_utc_ok
      eq_refl eq_refl) as [_ H].
    rewrite decide_False in H by discriminate. apply H. vm_compute. split; [discriminate | reflexivity].
  - destruct (period_report_total demo_loads demo_utc demo_file (mkDate 9999 12 31) demo_day demo_utc_ok
      eq_refl eq_refl) as [H _].
    apply H. left. vm_compute. reflexivity.
  - destruct (period_report_total demo_loads demo_utc demo_file (mkDate 9999 12 31) (mkDate 9999 12 31)
      demo_utc_ok eq_refl eq_refl) as [_ H].
    rewrite decide_True in H by reflexivity. apply H. vm_compute. split; [discriminate | reflexivity].
Defined.

(** The sanctions report lists exactly the rejections in the range whose details
    mention the sanctions check, oldest timestamp first. *)
Theorem sanctions_report_exact (json_loads : string -> option record) (utc_date : string -> option date)
    (f : audit_file) (from_date to_date : date) (hits : list SanctionsHit) :
  list_sanctions_hits json_loads utc_date f from_date to_date = Ret hits ->
  exists rs, iter_audit_records json_loads f = Ret rs /\
  Permutation hits (map hit_of (List.filter (is_hit utc_date from_date to_date) rs)) /\
  StronglySorted (fun a b => String.leb (h_timestamp a) (h_timestamp b) = true) hits.
Proof.
  unfold list_sanctions_hits. destruct (validate_range _ _); [done|].
  destruct (iter_audit_records json_loads f) as [rs|e|]; [|done..]. intros [= <-].
  exists rs. split; [done|]. split; [apply sort_by_perm|].
  apply (sort_by_sorted by_timestamp); unfold by_timestamp; intros *.
  - apply string_leb_total.
  - apply string_leb_trans.
Qed.

Lemma sanctions_report_exact_witness : exists hits,
  list_sanctions_hits demo_loads demo_utc demo_file demo_day demo_day = Ret hits /\
  List.length hits = 1%nat.
Proof.
  eexists. split; [reflexivity|].
  destruct (sanctions_report_exact demo_loads demo_utc demo_file demo_day demo_day _ eq_refl)
    as (rs & Hrs & Hp & _).
  change (Ret demo_records = @Ret exn _ rs) in Hrs. injection Hrs as <-.
  rewrite (Permutation_length Hp). vm_compute. reflexivity.
Defined.

(** C38: the CSV texts lose nothing: a reader of RFC 4180 gets back from the sanctions
    report the column names and the eight fields of every hit, and from the period
    report the column names, one row per day and the TOTAL row, whatever commas, quotes
    and line breaks the fields contain. *)
Theorem csv_roundtrip (hits : list SanctionsHit) (s : PeriodSummary) :
  read_csv (render_sanctions_csv hits) = Some (SANCTIONS_COLUMNS :: map hit_row hits) /\
  read_csv (render_period_csv s) = Some (PERIOD_COLUMNS :: map bucket_row (ps_buckets s) ++ [total_row s])%list.
Proof.
  unfold read_csv, render_sanctions_csv, render_period_csv. split; rewrite read_rows; try done.
  - constructor; [done|]. apply List.Forall_map, List.Forall_forall. done.
  - constructor; [done|]. apply Forall_app. split; [|by constructor].
    apply List.Forall_map, List.Forall_forall. done.
Qed.

(** A period names a month: when [parse_period_yyyymm] accepts a text, its answer
    is the first and the last day of the month whose two numbers the text gives. *)
Lemma parse_period_month (value : string) (first last : date) :
  parse_period_yyyymm value = Some (first, last) ->
  exists ys ms y m, value = ys +:+ "-" +:+ ms /\ int_of_str ys = Some y /\ int_of_str ms = Some m /\
    (1 <= m <= 12)%Z /\ (1 <= y <= 9999)%Z /\ first = mkDate y m 1 /\ last = mkDate y m (days_in_month y m) /\
    toordinal last = (toordinal first + days_in_month y m - 1)%Z.
Proof.
  unfold parse_period_yyyymm. pose proof (join_split_on "-" value) as Hj.
  destruct (split_on "-" value) as [|ys [|ms [|]]]; try done.
  destruct (int_of_str ys) as [y|] eqn:Hy; [|done]. destruct (int_of_str ms) as [m|] eqn:Hm; [|done].
  destruct (negb _) eqn:Hr; [done|]. bcases. destruct (make_date y m 1) as [f|] eqn:Hf; [|done].
  apply make_date_spec in Hf as [Hok ->]. apply date_ok_spec in Hok as (Hyr & Hmr & _). simpl in *.
  intros Hres. exists ys, ms, y, m. split; [by rewrite <- Hj|].
  assert (Hl : last = mkDate y m (days_in_month y m) /\ first = mkDate y m 1).
  { destruct (Z.eqb_spec m 12) as [->|Hne].
    - destruct (make_date y 12 31) as [l|] eqn:Hl; [|done]. apply make_date_spec in Hl as [_ ->]. by simplify_eq.
    - destruct (make_date y (m + 1) 1) as [x|] eqn:Hl; [|done]. apply make_date_spec in Hl as [_ ->].
      revert Hres. simpl. unfold prev_day; simpl. rewrite (proj2 (Z.ltb_lt 1 (m + 1))) by lia.
      replace (m + 1 - 1)%Z with m by lia. intros [= <- <-]. done. }
  destruct Hl as [-> ->]. split_and!; try done; try lia. unfold toordinal; simpl. lia.
Qed.
