(* ===== verification/Shutdown.v ===== *)
(** * The inactivity shutdown ([shutdown.py])

    A timer restarted by every request; when it runs out, the process closes what
    it holds and signals itself to stop. *)
From S2P Require Import Prelude PyStr Decimal Effects RiskTypes Exceptions Idempotency Config AuditEntry World AuditLog.

(** The module's globals; [sh_timer] is when the running timer fires. *)
Record state := mkState { sh_start_time : time; sh_last_activity : time; sh_timer : option time }.
Definition state0 : state := mkState 0 0 None.

(** [int(x)] of a float *)
Definition int_of_Q (x : Q) : Z := Z.quot (Qnum x) (Zpos (Qden x)).

Definition mark_started (now : time) (st : state) : state := mkState now now (sh_timer st).
Definition reset_timer (timeout : Z) (now : time) (st : state) : state :=
  mkState (sh_start_time st) now (Some (now + inject_Z timeout)%Q).
Definition uptime (now : time) (st : state) : Z := int_of_Q (now - sh_start_time st)%Q.
Definition seconds_remaining (timeout : Z) (now : time) (st : state) : Z :=
  Z.max 0 (int_of_Q (inject_Z timeout - (now - sh_last_activity st))%Q).

(** [TronClient.destroy]: the client itself is not part of the state. *)
Definition destroy_client (t : tron_state) : tron_state :=
  mkTron false (energy_price t) (energy_price_fetched_at t).

(** [_on_timeout], up to the signal: the client is dropped, the idempotency store
    and the audit file are closed.  [close] is the store's. *)
Definition on_timeout {S : Type} (E : Env) (close : fate exn -> S -> S) : M (World S) exn unit :=
  do! modify (fun w => set_tron (destroy_client (w_tron w)) w) in
  let! fc := ext (fun n => Ret (env_sql E n)) in
  do! modify (fun w => set_idem (close fc (w_idem w)) w) in
  close_audit_file E.

(** The in-memory store's [close] does nothing. *)
Definition close_memory (_ : fate exn) (s : Memory.store) : Memory.store := s.

(** ** A process that receives requests at the given times

    A request resets the timer on arrival; at its deadline the process stops.
    The times of the requests it served, and when it stops. *)
Fixpoint serve (timeout : Z) (arrivals : list time) (st : state) : list time * option time :=
  match arrivals with
  | [] => ([], sh_timer st)
  | t :: arrivals' =>
      match sh_timer st with
      | Some deadline =>
          if Qle_bool deadline t then ([], Some deadline)
          else let '(l, d) := serve timeout arrivals' (reset_timer timeout t st) in (t :: l, d)
      | None => let '(l, d) := serve timeout arrivals' (reset_timer timeout t st) in (t :: l, d)
      end
  end.

(** Each time is less than [timeout] after the one before it. *)
Fixpoint spaced (timeout : Z) (from : time) (l : list time) : Prop :=
  match l with
  | [] => True
  | t :: l => (t < from + inject_Z timeout)%Q /\ spaced timeout t l
  end.

Lemma serve_spec timeout arrivals : forall from st,
  sh_timer st = Some (from + inject_Z timeout)%Q ->
  exists served rest, arrivals = (served ++ rest)%list /\
    serve timeout arrivals st = (served, Some (List.last served from + inject_Z timeout)%Q) /\
    spaced timeout from served /\
    (forall t rest', rest = t :: rest' -> List.last served from + inject_Z timeout <= t)%Q.
Proof.
  induction arrivals as [|t arrivals IH]; intros from st Hst.
  { exists [], []. simpl. by rewrite Hst. }
  simpl. rewrite Hst. destruct (Qle_bool _ t) eqn:Hle.
  - apply Qle_bool_iff in Hle. exists [], (t :: arrivals). split_and!; try done. by intros ? ? [= <- _].
  - apply Qle_bool_nle in Hle.
    destruct (IH t (reset_timer timeout t st) eq_refl) as (served & rest & -> & Hs & Hsp & Hr).
    rewrite Hs. exists (t :: served), rest. split_and!; try done.
    + by rewrite (last_cons_ne served t from).
    + rewrite (last_cons_ne served t from). exact Hr.
Qed.

Lemma int_of_Q_le x n : (x <= inject_Z n)%Q -> (0 <= n)%Z -> (int_of_Q x <= n)%Z.
Proof.
  destruct x as [a b]. unfold int_of_Q, Qle, inject_Z; simpl. intros H Hn.
  destruct (Z.le_gt_cases 0 a).
  - rewrite Z.quot_div_nonneg by lia. apply Z.div_le_upper_bound; lia.
  - transitivity 0%Z; [|done]. rewrite <- (Z.opp_involutive a), Z.quot_opp_l by lia.
    pose proof (Z.quot_pos (- a) (Zpos b)). lia.
Qed.

Lemma on_timeout_store {S : Type} (E : Env) (close : fate exn -> S -> S) (w : World S) :
  exists fc, w_idem (snd (on_timeout E close w)) = close fc (w_idem w).
Proof.
  exists (env_sql E (w_tick w)). unfold on_timeout.
  match goal with |- context [close_audit_file E] => idtac end.
  set (w1 := set_idem (close (env_sql E (w_tick w)) (w_idem w))
               (set_tick (Datatypes.S (w_tick w)) (set_tron (destroy_client (w_tron w)) w))).
  change (w_idem (snd (close_audit_file E w1)) = w_idem w1).
  apply (frame_close_audit_file E w1).
Qed.

(** C28: the process stops exactly [SHUTDOWN_TIMEOUT] seconds after the arrival of
    the last request it served.  The requests it serves are those that arrive, one
    after the other, before the timer runs out; the first one left over came too
    late; and while the timer runs the seconds shown as remaining never exceed the
    timeout nor go below zero. *)
Theorem idle_shutdown (timeout : Z) (started : time) (arrivals : list time) (st : state)
    (Ht : (0 <= timeout)%Z) :
  exists served rest, arrivals = (served ++ rest)%list /\
    serve timeout arrivals (reset_timer timeout started st) =
      (served, Some (List.last served started + inject_Z timeout)%Q) /\
    spaced timeout started served /\
    (forall t rest', rest = t :: rest' -> List.last served started + inject_Z timeout <= t)%Q /\
    (forall now, (sh_last_activity st <= now)%Q -> (0 <= seconds_remaining timeout now st <= timeout)%Z).
Proof.
  destruct (serve_spec timeout arrivals started (reset_timer timeout started st) eq_refl)
    as (served & rest & H1 & H2 & H3 & H4).
  exists served, rest. split_and!; try done. intros now Hn. split; [apply Z.le_max_l|].
  apply Z.max_lub; [done|]. apply int_of_Q_le; [lra | done].
Qed.

Lemma idle_shutdown_witness :
  serve 600 [10; 500; 1200]%Q (reset_timer 600 0 state0) = ([10; 500]%Q, Some (500 + 600)%Q) /\
  spaced 600 0 [10; 500]%Q.
Proof.
  destruct (idle_shutdown 600 0 [10; 500; 1200]%Q state0 ltac:(lia)) as (served & rest & H & Hs & Hsp & _).
  vm_compute in Hs. injection Hs as <-. split; [reflexivity | exact Hsp].
Defined.

(** A shutdown in the middle of a payout does not lose the key.  When the timer
    fires between a broadcast and the store's [commit], the commit and the release
    that follows it both raise and change nothing on disk, and the next process
    finds the key unresolved: its [reserve] raises instead of broadcasting again.
    (The client gets an error for a transfer that was broadcast.) *)
Theorem shutdown_keeps_key (E : Env) (w : World Sqlite.store) (key txid pid : string) (now now' : time)
    (r : Sqlite.row) :
  let s := w_idem w in
  Sqlite.conn s = true -> Sqlite.view s !! key = Some r -> Sqlite.disk s !! key = Some r ->
  Sqlite.r_status r = Sqlite.PENDING_ -> bad_txid txid = false ->
  let s1 := w_idem (snd (on_timeout E Sqlite.close w)) in
  (forall fx fc, Sqlite.commit fx fc now key txid s1 = (Raise EAssertion, s1)) /\
  (forall fx fc, Sqlite.release fx fc key s1 = (Raise EAssertion, s1)) /\
  forall n s2, Sqlite.open_store pid Fine Fine now' (Sqlite.disk s1) = (Ret n, s2) ->
    reserve 1 [] Fine Fine now' key s2 =
      Some (Raise (EUnresolvedIdempotency key (Sqlite.r_created_at r)), s2).
Proof.
  intros s Hc Hv Hd Hp Ht s1.
  assert (Hs1 : exists fc, s1 = Sqlite.close fc s) by apply on_timeout_store.
  destruct Hs1 as [fc Hs1]. unfold Sqlite.close in Hs1. rewrite Hc in Hs1.
  assert (Hclosed : Sqlite.conn s1 = false) by by rewrite Hs1.
  assert (Hdisk : Sqlite.disk s1 !! key = Some r) by (rewrite Hs1; destruct fc; simpl; done).
  split_and!.
  - intros fx fc'. unfold Sqlite.commit. by rewrite Ht, Hclosed.
  - intros fx fc'. unfold Sqlite.release. by rewrite Hclosed.
  - intros n s2 [= _ <-]. unfold reserve. simpl. unfold Sqlite.reserve_pass, Sqlite.fetch_row; simpl.
    rewrite lookup_fmap, Hdisk. simpl. unfold Sqlite.promote. rewrite Hp. reflexivity.
Qed.
