(* ===== verification/Routes.v ===== *)
(** * The read endpoints ([routes.py])

    GET /balance, /wallets, /audit, /risk, /health, /alert/config, /reports/..., and
    POST /alert/test.  Handlers that call the node run in the monad of [World];
    the others are functions of what they read. *)
From S2P Require Import Prelude PyStr Decimal Effects RiskTypes Exceptions Config AuditEntry World TronClient WalletPool Risk Idempotency Send Calendar Reporting.
From S2P Require Sanctions Alerts Delivery Shutdown.
Open Scope string_scope.

(** ** Response models ([models.py]) *)
Record BalanceResponse := mkBalance {
  br_wallet : string; br_address : string; br_trx : string; br_usdt : string;
  br_energy_available : Z; br_bandwidth_free_available : Z; br_bandwidth_paid_available : Z;
  br_tron_power_staked : Z }.
Record WalletSummary := mkWalletSummary {
  ws_wallet : string; ws_address : string; ws_trx : string; ws_usdt : string;
  ws_energy_available : Z; ws_bandwidth_free_available : Z; ws_bandwidth_paid_available : Z }.
Record WalletListResponse := mkWalletList {
  wl_wallets : list WalletSummary; wl_auto_pick : option string }.
Record HealthResponse := mkHealth {
  hr_network : string; hr_uptime_seconds : Z; hr_shutdown_in_seconds : Z; hr_node_connected : bool;
  hr_wallet_count : Z; hr_wallet_names : list string }.

Section Node.
Context {S : Type} `{!IdemStore S} (E : Env) (c : Config) (p : pool) (sanc : Sanctions.state).
Abbreviation MW := (M (World S) exn).

(** ** GET /balance *)
Definition balance (name : option string) : MW BalanceResponse :=
  let! w := resolve_wallet E p name in
  let! trx := get_trx_balance_for E (wl_address w) in
  let! usdt := get_usdt_balance_for E (wl_address w) in
  let! res := get_resource_summary_for E (wl_address w) in
  do! emit (Balances trx usdt) in
  do! emit (ResourceSnapshot (energy_available res) (bandwidth_free_available res)
              (bandwidth_paid_available res) (tron_power res)) in
  ret (mkBalance (wl_name w) (wl_address w) (dec_to_string trx) (dec_to_string usdt)
         (energy_available res) (bandwidth_free_available res) (bandwidth_paid_available res)
         (tron_power res)).

(** ** GET /wallets *)
Definition lookup_wallet (w : wallet) : MW (Dec * Dec * resource_summary) :=
  let! trx := get_trx_balance_for E (wl_address w) in
  let! usdt := get_usdt_balance_for E (wl_address w) in
  let! res := get_resource_summary_for E (wl_address w) in
  ret (trx, usdt, res).
(** The lookups of one wallet in their [try]: [None] when one of them failed. *)
Definition try_lookup (w : wallet) : MW (option (Dec * Dec * resource_summary)) :=
  try_except (let! r := lookup_wallet w in ret (Some r)) (fun _ => ret None).

Definition summary_of (w : wallet) (r : option (Dec * Dec * resource_summary)) : WalletSummary :=
  match r with
  | None => mkWalletSummary (wl_name w) (wl_address w) "error" "error" 0 0 0
  | Some (trx, usdt, res) =>
      mkWalletSummary (wl_name w) (wl_address w) (dec_to_string trx) (dec_to_string usdt)
        (energy_available res) (bandwidth_free_available res) (bandwidth_paid_available res)
  end.

Fixpoint wallets_loop (ws : list wallet) (out : list WalletSummary) (best_name : option string)
    (best_usdt : Dec) : MW WalletListResponse :=
  match ws with
  | [] => ret (mkWalletList out best_name)
  | w :: ws =>
      let! r := try_lookup w in
      let out := (out ++ [summary_of w r])%list in
      match r with
      | None => wallets_loop ws out best_name best_usdt
      | Some (_, usdt, _) =>
          if dec_ltb best_usdt usdt then wallets_loop ws out (Some (wl_name w)) usdt
          else wallets_loop ws out best_name best_usdt
      end
  end.
Definition wallets_endpoint : MW WalletListResponse := wallets_loop (all p) [] None (dec_of_Z (-1)).

(** ** GET /risk/{address}: the report as it is *)
Definition risk_endpoint (address : string) (external : bool) : MW RiskReport :=
  assess_risk E c sanc address external.

(** ** GET /health, and the gauges GET /metrics refreshes *)
Definition health (sh : Shutdown.state) : MW HealthResponse :=
  let! node_ok := check_connection E in
  do! emit (NodeConnected node_ok) in
  let! t1 := now E in
  let! t2 := now E in
  ret (mkHealth (TRON_NETWORK c) (Shutdown.uptime t1 sh) (Shutdown.seconds_remaining (SHUTDOWN_TIMEOUT c) t2 sh)
         node_ok (WalletPool.count p) (names p)).
Definition metrics_endpoint (sh : Shutdown.state) : MW unit :=
  let! t := now E in
  do! emit (Uptime (Shutdown.uptime t sh)) in
  let! n := idem_count in
  emit (IdempotencySize n).

(** ** POST /alert/test: the status code and whether a test was queued *)
Definition synthetic_entry (timestamp client_ip : string) : entry :=
  mkEntry "synthetic-test" timestamp "ALERT_TEST" "test" "TTestxxxxxxxxxxxxxxxxxxxxxxxxxxxxxx"
    "TXxxxxxxxxxxxxxxxxxxxxxxxxxxxxxxxxx" "1.00" "USDT" "synthetic-test-tx-id" "synthetic-key"
    client_ip "synthetic" "test" "synthetic test alert from POST /api/v1/alert/test".
Definition alert_test_endpoint (client_ip : string) : MW Z :=
  let! a := gets w_alerts in
  if negb (Alerts.is_configured a) then ret 503%Z
  else
    let! iso := ext (fun n => Ret (env_iso E n)) in
    let e := synthetic_entry iso client_ip in
    let message := Alerts.format_message iso e None in
    try_except
      (let! t := now E in
       do! ext (fun n => fate_outcome (env_hooks E n)) in
       do! modify (fun w => set_alerts (Alerts.enqueue_alert t message e (w_alerts w)) w) in
       ret 200%Z)
      (fun _ => ret 500%Z).

(** ** GET /alert/config: what is shown of the configuration *)
Definition alert_config_endpoint (events : list string) (threshold : option Dec) (sanctions_notify : bool)
    (quiet_hours : string) (a : Alerts.state) :
    bool * string * list string * option string * bool * string :=
  (Alerts.is_configured a, if Alerts.is_configured a then Alerts.al_chat_id a else "", events,
   match threshold with
   | Some t => if dec_is_zero t then None else Some (dec_to_string t)
   | None => None
   end, sanctions_notify, quiet_hours).
End Node.

(** ** GET /audit *)
Inductive audit_answer :=
| NotConfigured
| NoFile
| ReadError
| Records (records : list record) (total_seen : Z).

Section AuditEndpoint.
Context (json_loads : string -> option record).

Definition newer_first (a b : record) : bool := String.leb (field "id" b) (field "id" a).

(** [if event and rec.get("event") != event: continue] *)
Definition event_matches (event : option string) (r : record) : bool :=
  match event with
  | None => true
  | Some e => String.eqb e "" || bool_decide (r !! "event" = Some e)
  end.
Definition before (before_id : option string) (l : list record) : list record :=
  match before_id with
  | None => l
  | Some b => if String.eqb b "" then l else List.filter (fun r => String.ltb (field "id" r) b) l
  end.

(** [None] is an AUDIT_LOG_FILE that is not set; [Some None] a missing file. *)
Definition audit_endpoint (f : option audit_file) (limit : nat) (before_id event : option string)
    : outcome exn audit_answer :=
  match f with
  | None => Ret NotConfigured
  | Some None => Ret NoFile
  | Some (Some (lines, stopped)) =>
      let out := List.filter (event_matches event) (omap (parse_line json_loads) lines) in
      let out := before before_id (sort_by newer_first out) in
      match stopped with
      | Some e => if Sanctions.is_OSError e then Ret ReadError else Raise e
      | None => Ret (Records (firstn limit out) (Z.of_nat (List.length out)))
      end
  end.

(** ** GET /reports/...: the status code and the document *)
Section Reports.
Context (utc_date fromisoformat : string -> option date).

(** [_parse_iso_date] for both ends, then [validate_range]. *)
Definition report_range (from_ to_ : string) : option (date * date) :=
  match fromisoformat from_, fromisoformat to_ with
  | Some from_date, Some to_date =>
      match validate_range from_date to_date with None => Some (from_date, to_date) | Some _ => None end
  | _, _ => None
  end.

Definition outcome_map {A B} (f : A -> B) (o : outcome exn A) : outcome exn B :=
  match o with Ret a => Ret (f a) | Raise e => Raise e | Crash => Crash end.

Definition reports_period_endpoint (f : audit_file) (from_ to_ : string) : outcome exn (Z * string) :=
  match report_range from_ to_ with
  | None => Ret (400%Z, "")
  | Some (from_date, to_date) =>
      outcome_map (fun s => (200%Z, render_period_csv s))
        (aggregate_period json_loads utc_date f from_date to_date)
  end.
Definition reports_sanctions_endpoint (f : audit_file) (from_ to_ : string) : outcome exn (Z * string) :=
  match report_range from_ to_ with
  | None => Ret (400%Z, "")
  | Some (from_date, to_date) =>
      outcome_map (fun l => (200%Z, render_sanctions_csv l))
        (list_sanctions_hits json_loads utc_date f from_date to_date)
  end.
Definition reports_period_sparkline (f : audit_file) (from_ to_ : string)
    : outcome exn (Z * option (list string * list Dec * list Z * list Z)) :=
  match report_range from_ to_ with
  | None => Ret (400%Z, None)
  | Some (from_date, to_date) =>
      outcome_map (fun s => (200%Z, Some (sparkline_series s)))
        (aggregate_period json_loads utc_date f from_date to_date)
  end.
End Reports.
End AuditEndpoint.

(** ** The rows of /wallets *)
Section Wallets.
Context {S : Type} (E : Env).

(** The lookups of all wallets, in order. *)
Fixpoint try_lookups (ws : list wallet) : M (World S) exn (list (option (Dec * Dec * resource_summary))) :=
  match ws with
  | [] => ret []
  | w :: ws =>
      let! r := try_lookup E w in
      let! rest := try_lookups ws in
      ret (r :: rest)
  end.
Definition usdt_of (r : option (Dec * Dec * resource_summary)) : option Dec := (fun t => t.1.2) <$> r.

Lemma wallets_loop_lookups ws : forall out best bb (w : World S),
  match try_lookups ws w with
  | (Ret rs, w') =>
      wallets_loop E ws out (wl_name <$> best) bb w =
        (Ret (mkWalletList (out ++ zip_with summary_of ws rs)
                (wl_name <$> best_of ws (map usdt_of rs) best bb)), w') /\
      List.length rs = List.length ws
  | (Raise e, w') => wallets_loop E ws out (wl_name <$> best) bb w = (Raise e, w')
  | (Crash, w') => wallets_loop E ws out (wl_name <$> best) bb w = (Crash, w')
  end.
Proof.
  induction ws as [|wl ws IH]; intros out best bb w; [simpl; by rewrite List.app_nil_r|].
  cbn [try_lookups wallets_loop]. unfold bind, ret. cbv zeta.
  destruct (try_lookup E wl w) as [[[[[trx usdt] res]|]|e|] w1]; [| |done..].
  - specialize (IH (out ++ [summary_of wl (Some (trx, usdt, res))])%list
      (if dec_ltb bb usdt then Some wl else best) (if dec_ltb bb usdt then usdt else bb) w1).
    destruct (try_lookups ws w1) as [[rs|e|] w2]; destruct (dec_ltb bb usdt) eqn:Hb; [..|done | done | done | done];
      destruct IH as [IH Hl]; simpl in IH |- *; rewrite IH, <- List.app_assoc; simpl; by rewrite Hb, Hl.
  - specialize (IH (out ++ [summary_of wl None])%list best bb w1).
    destruct (try_lookups ws w1) as [[rs|e|] w2]; [|done..].
    destruct IH as [IH Hl]. rewrite IH, <- List.app_assoc. simpl. by rewrite Hl.
Qed.

#[global] Instance quiet_try_lookup wl : Quiet (S:=S) (try_lookup E wl).
Proof. unfold try_lookup. quiets. Qed.
#[global] Instance quiet_wallets_loop ws out b bb : Quiet (S:=S) (wallets_loop E ws out b bb).
Proof. revert out b bb. induction ws as [|wl ws IH]; intros; simpl; quiets; apply IH. Qed.
#[global] Instance frame_try_lookup wl : Frame (W:=World S) same_core (try_lookup E wl).
Proof. unfold try_lookup, lookup_wallet. frames. Qed.
#[global] Instance frame_wallets_loop ws out b bb : Frame (W:=World S) same_core (wallets_loop E ws out b bb).
Proof. revert out b bb. induction ws as [|wl ws IH]; intros; simpl; frames; apply IH. Qed.
End Wallets.

(** ** Paging through /audit *)
Section Paging.
Context (json_loads : string -> option record).

Lemma newer_first_total x y : newer_first x y = false -> newer_first y x = true.
Proof. apply string_leb_total. Qed.
Lemma newer_first_trans x y z : newer_first x y = true -> newer_first y z = true -> newer_first x z = true.
Proof. unfold newer_first. intros H1 H2. by eapply string_leb_trans. Qed.

Definition id_of (r : record) : string := field "id" r.

(** The records before [r] in the list are those after it in age. *)
Lemma filter_older l1 r l2 :
  StronglySorted (fun a b => newer_first a b = true) (l1 ++ r :: l2) -> List.NoDup (map id_of (l1 ++ r :: l2)) ->
  List.filter (fun x => String.ltb (field "id" x) (id_of r)) (l1 ++ r :: l2) = l2.
Proof.
  unfold id_of. induction l1 as [|x l1 IH]; intros Hs Hd; inversion_clear Hs as [|? ? Hs' Hx];
    inversion_clear Hd as [|? ? Hin Hd']; simpl.
  - rewrite string_ltb_leb. destruct (String.leb_total (field "id" r) (field "id" r)) as [->| ->]; simpl.
    all: induction l2 as [|y l2 IH]; simpl; [done|]; inversion_clear Hx as [|? ? Hy Hx'];
      inversion_clear Hs' as [|? ? Hs'' ?]; inversion_clear Hd' as [|? ? ? Hd'']; simpl in Hin;
      rewrite string_ltb_leb; destruct (String.leb (field "id" r) (field "id" y)) eqn:Hle;
      [exfalso; apply Hin; left; apply String.leb_antisym; [exact Hy | exact Hle]
      | simpl; f_equal; apply IH; auto].
  - rewrite IH by done. rewrite string_ltb_leb.
    assert (String.leb (field "id" r) (field "id" x) = true) as ->; [|done].
    rewrite List.Forall_forall in Hx. apply (Hx r). apply in_elt.
Qed.

Definition page (f : option audit_file) (limit : nat) (before_id event : option string) : list record :=
  match audit_endpoint json_loads f limit before_id event with Ret (Records rs _) => rs | _ => [] end.

(** What a reader sees who asks for page after page, each before the last id of the
    one before, until a page is empty. *)
Fixpoint pages (fuel : nat) (f : option audit_file) (limit : nat) (before_id event : option string) : list record :=
  match fuel with
  | O => []
  | Datatypes.S fuel =>
      let rs := page f limit before_id event in
      match last rs with
      | None => []
      | Some r => rs ++ pages fuel f limit (Some (id_of r)) event
      end
  end%list.

Definition matching (lines : list string) (event : option string) : list record :=
  List.filter (event_matches event) (omap (parse_line json_loads) lines).

Lemma pages_rest lines limit event (Hlimit : (1 <= limit)%nat)
    (Hd : List.NoDup (map id_of (matching lines event)))
    (Hid : Forall (fun r => id_of r <> "") (matching lines event)) fuel : forall l1 l2,
  sort_by newer_first (matching lines event) = (l1 ++ l2)%list -> (List.length l2 < fuel)%nat ->
  pages fuel (Some (Some (lines, None))) limit (id_of <$> last l1) event = l2.
Proof.
  induction fuel as [|fuel IH]; intros l1 l2 Hl Hf; [lia|].
  assert (Hpage : page (Some (Some (lines, None))) limit (id_of <$> last l1) event = firstn limit l2).
  { unfold page, audit_endpoint. fold (matching lines event). rewrite Hl. f_equal.
    destruct (last l1) as [r|] eqn:Hr; [|by apply last_None in Hr as ->].
    apply last_Some in Hr as [l1' ->]. simpl.
    assert (Hne : id_of r <> "").
    { rewrite List.Forall_forall in Hid. apply Hid. eapply Permutation_in; [apply (sort_by_perm newer_first)|].
      rewrite Hl. apply in_app_iff. left. apply in_app_iff. right. by left. }
    apply String.eqb_neq in Hne. rewrite Hne. rewrite <- List.app_assoc in *. apply filter_older.
    - simpl in Hl. rewrite <- Hl. apply sort_by_sorted; [apply newer_first_total | apply newer_first_trans].
    - simpl in Hl. rewrite <- Hl. eapply Permutation_NoDup; [|exact Hd]. symmetry.
      apply Permutation_map, sort_by_perm. }
  cbn [pages]. rewrite Hpage. cbv zeta. destruct l2 as [|x l2].
  { rewrite firstn_nil. done. }
  destruct (last (firstn limit (x :: l2))) as [r|] eqn:Hr.
  - assert (Hlast : last (l1 ++ firstn limit (x :: l2)) = Some r) by by rewrite last_app, Hr.
    replace (Some (id_of r)) with (id_of <$> last (l1 ++ firstn limit (x :: l2))%list) by by rewrite Hlast.
    rewrite (IH _ (skipn limit (x :: l2))).
    + apply firstn_skipn.
    + by rewrite <- List.app_assoc, firstn_skipn.
    + rewrite length_skipn. simpl in *. lia.
  - apply last_None in Hr. destruct limit; [lia | done].
Qed.
End Paging.

(** ** Properties *)

(** /wallets answers for every pool.  Whatever the node does it raises no
    [Exception], broadcasts nothing and leaves the store alone; it gives one row per
    wallet of the pool, in order, with the balances or with "error" when a lookup
    failed; and [auto_pick] is the wallet with the largest balance among those that
    answered, the first in order among equals, and nothing when none is above -1. *)
Theorem wallets_endpoint_spec {S : Type} (E : Env) (p : pool) (w : World S) :
  let '(o, w1) := wallets_endpoint E p w in
  w_attempts w1 = w_attempts w /\ w_idem w1 = w_idem w /\
  (forall e, o = Raise e -> is_Exception e = false) /\
  (forall l, o = Ret l -> exists rs, try_lookups E (all p) w = (Ret rs, w1) /\
     List.length rs = List.length (all p) /\ wl_wallets l = zip_with summary_of (all p) rs /\
     match wl_auto_pick l with
     | Some n => exists i wl bal, all p !! i = Some wl /\ wl_name wl = n /\
         map usdt_of rs !! i = Some (Some bal) /\
         (forall j bal', map usdt_of rs !! j = Some (Some bal') -> dec_leb bal' bal = true) /\
         (forall j bal', (j < i)%nat -> map usdt_of rs !! j = Some (Some bal') -> dec_ltb bal' bal = true)
     | None => forall j bal, map usdt_of rs !! j = Some (Some bal) -> dec_leb bal (dec_of_Z (-1)) = true
     end).
Proof.
  destruct (wallets_endpoint E p w) as [o w1] eqn:Hw.
  pose proof (frame_wallets_loop E (all p) [] None (dec_of_Z (-1)) w) as [Hi Ha].
  pose proof (quiet_wallets_loop E (all p) [] None (dec_of_Z (-1)) w) as Hq.
  pose proof (wallets_loop_lookups E (all p) [] None (dec_of_Z (-1)) w) as Hl. simpl in Hl.
  unfold wallets_endpoint in Hw. rewrite Hw in Hi, Ha, Hq, Hl. simpl in Hi, Ha, Hq. split_and!; try done.
  intros l ->. destruct (try_lookups E (all p) w) as [[rs|e|] w2]; [|discriminate Hl..].
  destruct Hl as [Heq Hlen]. injection Heq as -> ->. exists rs. split_and!; [done..|]. simpl.
  destruct (best_of_spec (all p) (map usdt_of rs) None (dec_of_Z (-1)) ltac:(by rewrite length_map))
    as [[-> H] | (i & wl & bal & -> & H)]; simpl; [exact H | naive_solver].
Qed.

(** C37: paging through /audit is complete.  When the matching records have distinct
    non-empty ids, a reader who asks page after page, each time before the last id
    seen, gets every matching record exactly once and then an empty page, for every
    page size; the records come in descending order of their ids as text. *)
Theorem audit_paging_complete (json_loads : string -> option record) (lines : list string) (limit : nat)
    (event : option string) :
  (1 <= limit)%nat -> List.NoDup (map id_of (matching json_loads lines event)) ->
  Forall (fun r => id_of r <> "") (matching json_loads lines event) ->
  let all_pages := pages json_loads (Datatypes.S (List.length (matching json_loads lines event)))
                     (Some (Some (lines, None))) limit None event in
  Permutation all_pages (matching json_loads lines event) /\
  StronglySorted (fun a b => String.leb (id_of b) (id_of a) = true) all_pages.
Proof.
  intros Hl Hd Hid. cbv zeta.
  rewrite (pages_rest json_loads lines limit event Hl Hd Hid _ [] (sort_by newer_first (matching json_loads lines event))).
  - split; [apply sort_by_perm|]. apply sort_by_sorted; [apply newer_first_total | apply newer_first_trans].
  - done.
  - rewrite sort_by_length. lia.
Qed.

(** A log of ten records of one process, the last two of which matter. *)
Definition numbered_loads (line : string) : option record := Some {["id" := line]}.
Definition numbered_file : list string := ["p-8"; "p-9"; "p-10"].

Lemma audit_paging_complete_witness :
  Permutation (pages numbered_loads 4 (Some (Some (numbered_file, None))) 2 None None)
    (matching numbered_loads numbered_file None).
Proof.
  destruct (audit_paging_complete numbered_loads numbered_file 2 None) as [H _].
  - lia.
  - repeat constructor; vm_compute; intuition discriminate.
  - repeat constructor; vm_compute; discriminate.
  - exact H.
Defined.

(** Text order is not age: record 10 of a process is listed after records 9 and 8. *)
Lemma audit_order_textual :
  map id_of (page numbered_loads (Some (Some (numbered_file, None))) 3 None None) = ["p-9"; "p-8"; "p-10"].
Proof. vm_compute. reflexivity. Qed.
