(* ===== verification/Workbooks.v ===== *)
(** * Reports as workbooks ([reporting.render_period_xlsx], [render_sanctions_xlsx])

    What is put into the cells, and the report endpoints with their [format] parameter.
    openpyxl is a parameter: whether it can be imported, which texts its cells accept, and
    the bytes [Workbook.save] writes for a sheet. *)
From S2P Require Import Prelude PyStr Decimal Exceptions Calendar Reporting Routes.
Open Scope string_scope.

(** The values of a row; [float(d)] is the exact value here. *)
Inductive cell := CText (s : string) | CInt (n : Z) | CFloat (d : Dec).
Record sheet := mkSheet { sheet_title : string; sheet_rows : list (list cell) }.

Definition XLSX_CONTENT_TYPE : string := "application/vnd.openxmlformats-officedocument.spreadsheetml.sheet".
Definition CSV_CONTENT_TYPE : string := "text/csv; charset=utf-8".

(** [XlsxExtraMissing], and what openpyxl raises for a text it refuses. *)
Definition xlsx_extra_missing : exn :=
  EOther "XlsxExtraMissing" "XLSX output requires the [reports] extra. Install with: pip install 'skr-crypto[server,reports]'".
Definition illegal_character : exn := EOther "IllegalCharacterError" "cannot be used in worksheets.".
Definition is_extra_missing (e : exn) : bool :=
  match e with EOther cls _ => String.eqb cls "XlsxExtraMissing" | _ => false end.

(** ** The rows *)
Definition bucket_cells (b : DayBucket) : list cell :=
  [CText (isoformat (b_date b)); CInt (success_count b); CFloat (success_volume b); CInt (rejected_count b);
   CInt (failed_count b); CInt (duplicate_count b); CInt (resolved_success b); CInt (resolved_failure b);
   CInt (Z.of_nat (size (recipients b))); CInt (Z.of_nat (size (bucket_wallets b)))].
Definition total_cells (s : PeriodSummary) : list cell :=
  [CText "TOTAL"; CInt (total_success s); CFloat (total_volume s); CInt (total_rejected s); CInt (total_failed s);
   CInt (total_duplicate s); CInt (total_resolved_success s); CInt (total_resolved_failure s);
   CInt (total_unique_recipients s); CInt (total_unique_wallets s)].
Definition hit_cells (h : SanctionsHit) : list cell :=
  map CText [h_timestamp h; h_wallet h; h_to_address h; h_amount h; h_idempotency_key h; h_client_ip h;
             h_token_id h; h_details h].

Section Openpyxl.
Context (openpyxl : bool) (text_ok : string -> bool) (save : sheet -> string).

(** [_require_openpyxl] *)
Definition require_openpyxl : outcome exn unit := if openpyxl then Ret tt else Raise xlsx_extra_missing.

(** [ws.append(row)]: the first refused text raises. *)
Definition cell_ok (c : cell) : bool := match c with CText s => text_ok s | _ => true end.
Definition append (row : list cell) (ws : sheet) : outcome exn sheet :=
  if forallb cell_ok row then Ret (mkSheet (sheet_title ws) (sheet_rows ws ++ [row])%list)
  else Raise illegal_character.
Fixpoint append_all (rows : list (list cell)) (ws : sheet) : outcome exn sheet :=
  match rows with
  | [] => Ret ws
  | row :: rows => match append row ws with Ret ws => append_all rows ws | r => r end
  end.

Definition render (title : string) (rows : list (list cell)) : outcome exn string :=
  match require_openpyxl with
  | Ret _ => outcome_map save (append_all rows (mkSheet title []))
  | Raise e => Raise e
  | Crash => Crash
  end.
Definition render_period_xlsx (s : PeriodSummary) : outcome exn string :=
  render ("Period " +:+ isoformat (ps_from s) +:+ ".." +:+ isoformat (ps_to s))
    (map CText PERIOD_COLUMNS :: map bucket_cells (ps_buckets s) ++ [total_cells s]).
Definition render_sanctions_xlsx (hits : list SanctionsHit) : outcome exn string :=
  render "Sanctions hits" (map CText SANCTIONS_COLUMNS :: map hit_cells hits).

(** ** The endpoints: status, content type, file name and body *)
Record document := mkDocument {
  dc_status : Z; dc_type : string; dc_filename : string; dc_body : string }.
(** The bodies of the errors are put together as text. *)
Definition error_body (message code : string) : string :=
  let q := one DQ in
  "{" +:+ q +:+ "error" +:+ q +:+ ":" +:+ q +:+ message +:+ q +:+ "," +:+ q +:+ "code" +:+ q +:+ ":" +:+ q +:+ code +:+ q +:+ "}".
Definition error_document (status : Z) (message code : string) : document :=
  mkDocument status "application/json" "" (error_body message code).

Section Endpoints.
Context (json_loads : string -> option record) (utc_date fromisoformat : string -> option date).

(** The text of the ValueError when [report_range] has none: the first end that is no date,
    or what [validate_range] says. *)
Definition range_error (from_ to_ : string) : string :=
  match fromisoformat from_, fromisoformat to_ with
  | None, _ => "from=" +:+ py_repr from_ +:+ " is not a YYYY-MM-DD date"
  | _, None => "to=" +:+ py_repr to_ +:+ " is not a YYYY-MM-DD date"
  | Some from_date, Some to_date => default "" (validate_range from_date to_date)
  end.
Definition bad_range (from_ to_ : string) : document := error_document 400 (range_error from_ to_) "REPORT_BAD_RANGE".

(** The tail both endpoints share. *)
Definition answer_report (format filename csv : string) (xlsx : outcome exn string) : outcome exn document :=
  if String.eqb format "xlsx" then
    match xlsx with
    | Ret data => Ret (mkDocument 200 XLSX_CONTENT_TYPE (filename +:+ ".xlsx") data)
    | Raise e => if is_extra_missing e then Ret (error_document 503 (exn_str e) "REPORT_XLSX_EXTRA_MISSING") else Raise e
    | Crash => Crash
    end
  else Ret (mkDocument 200 CSV_CONTENT_TYPE (filename +:+ ".csv") csv).

Definition reports_period (f : audit_file) (from_ to_ format : string) : outcome exn document :=
  match report_range fromisoformat from_ to_ with
  | None => Ret (bad_range from_ to_)
  | Some (from_date, to_date) =>
      match aggregate_period json_loads utc_date f from_date to_date with
      | Ret s => answer_report format ("skr-crypto-period-" +:+ isoformat from_date +:+ "-to-" +:+ isoformat to_date)
                   (render_period_csv s) (render_period_xlsx s)
      | Raise e => Raise e
      | Crash => Crash
      end
  end.
Definition reports_sanctions (f : audit_file) (from_ to_ format : string) : outcome exn document :=
  match report_range fromisoformat from_ to_ with
  | None => Ret (bad_range from_ to_)
  | Some (from_date, to_date) =>
      match list_sanctions_hits json_loads utc_date f from_date to_date with
      | Ret hits => answer_report format ("skr-crypto-sanctions-" +:+ isoformat from_date +:+ "-to-" +:+ isoformat to_date)
                      (render_sanctions_csv hits) (render_sanctions_xlsx hits)
      | Raise e => Raise e
      | Crash => Crash
      end
  end.
End Endpoints.

(** ** Facts *)
Lemma append_all_spec rows : forall ws,
  append_all rows ws = if forallb (forallb cell_ok) rows then Ret (mkSheet (sheet_title ws) (sheet_rows ws ++ rows)%list)
                       else Raise illegal_character.
Proof.
  induction rows as [|row rows IH]; intros [t rs]; cbn; [by rewrite app_nil_r|].
  unfold append. destruct (forallb cell_ok row); cbn; [|done]. rewrite IH. cbn. by rewrite <- app_assoc.
Qed.
End Openpyxl.

Lemma forallb_false {A} (f : A -> bool) l : forallb f l = false -> exists x, In x l /\ f x = false.
Proof.
  induction l as [|x l IH]; cbn; [done|]. destruct (f x) eqn:Hx; [|eauto]. intros (y & Hy & Hf)%IH. eauto.
Qed.

(** The text a reader of the CSV sees for a cell. *)
Definition cell_text (c : cell) : string :=
  match c with CText s => s | CInt n => str_of_Z n | CFloat d => dec_to_string d end.

Lemma text_cells l : map cell_text (map CText l) = l.
Proof. rewrite map_map. apply map_id. Qed.

(** ** The properties *)

(** The workbook is the CSV: cell by cell the sheets hold the values whose texts are the
    rows of the CSV document, header and total included. *)
Theorem sheets_are_csv (hits : list SanctionsHit) (s : PeriodSummary) :
  map (map cell_text) (map CText SANCTIONS_COLUMNS :: map hit_cells hits) = SANCTIONS_COLUMNS :: map hit_row hits /\
  map (map cell_text) (map CText PERIOD_COLUMNS :: map bucket_cells (ps_buckets s) ++ [total_cells s])%list =
    (PERIOD_COLUMNS :: map bucket_row (ps_buckets s) ++ [total_row s])%list.
Proof.
  rewrite !map_cons, !text_cells, map_app, !map_map. split; f_equal.
Qed.

(** Printable ASCII. *)
Definition printable (s : string) : bool := str_forall (PyStr.in_range 32 126) s.
Lemma printable_digits s : str_forall is_digit s = true -> printable s = true.
Proof.
  apply str_forall_impl. intros ch. unfold is_digit, PyStr.in_range. rewrite !andb_true_iff, !N.leb_le.
  lia.
Qed.
Lemma printable_digs n : (0 <= n)%Z -> printable (digs n) = true.
Proof. intros H. by apply printable_digits, digs_spec. Qed.
Lemma printable_pad2 n : printable (pad2 n) = true.
Proof.
  unfold pad2, printable. rewrite str_forall_append. apply andb_true_iff.
  split; apply printable_digs, Z.mod_pos_bound; lia.
Qed.
Lemma printable_isoformat d : printable (isoformat d) = true.
Proof.
  unfold isoformat, printable. rewrite !str_forall_append.
  change (str_forall _ (pad2 ?n)) with (printable (pad2 n)). by rewrite !printable_pad2.
Qed.

(** A period report has no text from outside: when the extra is installed and cells take
    printable text, its workbook is always written; without the extra it never is. *)
Theorem period_xlsx_total (openpyxl : bool) (text_ok : string -> bool) (save : sheet -> string) (s : PeriodSummary) :
  (forall t, printable t = true -> text_ok t = true) ->
  render_period_xlsx openpyxl text_ok save s =
    if openpyxl
    then Ret (save (mkSheet ("Period " +:+ isoformat (ps_from s) +:+ ".." +:+ isoformat (ps_to s))
                      (map CText PERIOD_COLUMNS :: map bucket_cells (ps_buckets s) ++ [total_cells s])))
    else Raise xlsx_extra_missing.
Proof.
  intros Hok. unfold render_period_xlsx, render, require_openpyxl. destruct openpyxl; [|done].
  rewrite append_all_spec. cbn [sheet_title sheet_rows app].
  rewrite (proj2 (forallb_forall _ _)); [done|].
  intros row [<-|[(b & <- & _)%in_map_iff|[<-|[]]]%in_app_or]; cbn [forallb cell_ok bucket_cells total_cells map PERIOD_COLUMNS].
  - rewrite !andb_true_iff. split_and!; try done; by apply Hok.
  - rewrite Hok by apply printable_isoformat. done.
  - by rewrite Hok.
Qed.
Lemma period_xlsx_total_witness :
  render_period_xlsx true printable sheet_title (summarise (mkDate 2026 4 1) (mkDate 2026 4 30) []) = Ret "Period 2026-04-01..2026-04-30".
Proof. rewrite (period_xlsx_total true printable sheet_title); [vm_compute; reflexivity | auto]. Defined.

(** The two formats of the sanctions report.  They refuse the same ranges and fail alike
    where the audit file cannot be read; where the CSV is served the workbook is too, unless
    the extra is missing, which is answered with 503, or one hit holds a text cells refuse,
    which no handler answers: one such record, and its idempotency key is the caller's, takes
    the workbook away from every range around it. *)
Theorem sanctions_formats (openpyxl : bool) (text_ok : string -> bool) (save : sheet -> string)
    (json_loads : string -> option record) (utc_date fromisoformat : string -> option date) (f : audit_file)
    (from_ to_ : string) :
  (forall t, printable t = true -> text_ok t = true) ->
  let answer := reports_sanctions openpyxl text_ok save json_loads utc_date fromisoformat f from_ to_ in
  match answer "csv", answer "xlsx" with
  | Ret c, Ret x =>
      (dc_status c = 400%Z /\ x = c) \/
      (dc_status c = 200%Z /\ dc_status x = 503%Z /\ openpyxl = false) \/
      (dc_status c = 200%Z /\ dc_status x = 200%Z /\ exists hits,
         dc_body c = render_sanctions_csv hits /\
         dc_body x = save (mkSheet "Sanctions hits" (map CText SANCTIONS_COLUMNS :: map hit_cells hits)))
  | Ret c, Raise e => dc_status c = 200%Z /\ e = illegal_character /\ exists hits h,
      dc_body c = render_sanctions_csv hits /\ In h hits /\ forallb text_ok (hit_row h) = false
  | Raise e, Raise e' => e = e'
  | Crash, Crash => True
  | _, _ => False
  end.
Proof.
  intros Hok. cbv zeta. unfold reports_sanctions. destruct (report_range _ _ _) as [[a b]|]; [|left; done].
  destruct (list_sanctions_hits _ _ _ _ _) as [hits|e|]; [|done..].
  unfold answer_report. cbn [String.eqb Ascii.eqb Bool.eqb].
  unfold render_sanctions_xlsx, render, require_openpyxl. destruct openpyxl; [|by right; left].
  rewrite append_all_spec. cbn [sheet_title sheet_rows app forallb].
  assert (forallb (cell_ok text_ok) (map CText SANCTIONS_COLUMNS) = true) as ->.
  { cbn [forallb cell_ok map SANCTIONS_COLUMNS]. rewrite !andb_true_iff. split_and!; try done; by apply Hok. }
  destruct (forallb _ (map hit_cells hits)) eqn:Hh; cbn.
  - right. right. split_and!; [done..|]. by exists hits.
  - split_and!; [done..|]. apply forallb_false in Hh as (row & Hrow & Hf).
    apply in_map_iff in Hrow as (h & <- & Hin). exists hits, h. by split_and!.
Qed.
Lemma sanctions_formats_witness :
  let answer := reports_sanctions false printable sheet_title demo_loads demo_utc (fun _ => Some demo_day) demo_file "a" "b" in
  match answer "csv", answer "xlsx" with Ret c, Ret x => dc_status c = 200%Z /\ dc_status x = 503%Z | _, _ => False end.
Proof.
  pose proof (sanctions_formats false printable sheet_title demo_loads demo_utc (fun _ => Some demo_day) demo_file "a" "b"
    (fun t H => H)) as H.
  vm_compute in H |- *. done.
Defined.

(** What a JSON reader takes for the string that starts here, and what is left. *)
Fixpoint json_text (s : string) : option (string * string) :=
  match s with
  | "" => None
  | String c s => if Ascii.eqb c DQ then Some ("", s)
                  else if Ascii.eqb c "\" then match s with "" => None | String e s => (fun p => (String c (String e p.1), p.2)) <$> json_text s end
                  else (fun p => (String c p.1, p.2)) <$> json_text s
  end.

(** The 400 body is not JSON when a date holds a quote: the error text is not escaped, and a
    reader finds neither a comma nor a brace behind it.  Texts without one are read back. *)
Theorem bad_range_unescaped :
  json_text ("from='2026-04-31' is not a YYYY-MM-DD date" +:+ one DQ +:+ "," ) = Some ("from='2026-04-31' is not a YYYY-MM-DD date", ",") /\
  forall fromisoformat : string -> option date, let bad := "a" +:+ one DQ +:+ "b" in
    fromisoformat bad = None ->
    dc_status (bad_range fromisoformat bad "2026-04-30") = 400%Z /\
    exists rest, dc_body (bad_range fromisoformat bad "2026-04-30") = "{" +:+ one DQ +:+ "error" +:+ one DQ +:+ ":" +:+ one DQ +:+ rest /\
      json_text rest = Some ("from='a", "b' is not a YYYY-MM-DD date" +:+ one DQ +:+ "," +:+ one DQ +:+ "code" +:+ one DQ +:+ ":" +:+ one DQ +:+ "REPORT_BAD_RANGE" +:+ one DQ +:+ "}").
Proof.
  split; [reflexivity|]. intros fromisoformat bad Hb. split; [done|].
  unfold bad_range, error_document, error_body, range_error, dc_body. rewrite Hb.
  eexists. split; [reflexivity|]. vm_compute. reflexivity.
Qed.
