(* ===== verification/Base64.v ===== *)
(** * Base64 as [encrypted_keystore._b64e] and [_b64d] use it

    [base64.b64encode] and the lenient [base64.b64decode]: characters outside the
    alphabet are skipped, and padding ends the input once the quad allows it. *)
From S2P Require Import Prelude PyStr.
Open Scope Z_scope.

(** A byte string: its bytes in order. *)
Abbreviation bytes := (list Z).
Definition is_byte (b : Z) : Prop := 0 <= b < 256.

Definition b64_char (n : Z) : ascii :=
  chr (Z.to_N (if n <? 26 then 65 + n else if n <? 52 then 71 + n else if n <? 62 then n - 4
               else if n =? 62 then 43 else 47)).

Definition b64_value (c : ascii) : option Z :=
  let n := Z.of_N (ord c) in
  if (65 <=? n) && (n <=? 90) then Some (n - 65)
  else if (97 <=? n) && (n <=? 122) then Some (n - 71)
  else if (48 <=? n) && (n <=? 57) then Some (n + 4)
  else if n =? 43 then Some 62 else if n =? 47 then Some 63 else None.

(** [_b64e] *)
Fixpoint b64e (b : bytes) : string :=
  match b with
  | x :: y :: z :: rest =>
      String (b64_char (Z.shiftr x 2)) (String (b64_char (Z.lor (Z.shiftl (Z.land x 3) 4) (Z.shiftr y 4)))
        (String (b64_char (Z.lor (Z.shiftl (Z.land y 15) 2) (Z.shiftr z 6))) (String (b64_char (Z.land z 63))
          (b64e rest))))
  | [x; y] =>
      String (b64_char (Z.shiftr x 2)) (String (b64_char (Z.lor (Z.shiftl (Z.land x 3) 4) (Z.shiftr y 4)))
        (String (b64_char (Z.shiftl (Z.land y 15) 2)) "="))
  | [x] => String (b64_char (Z.shiftr x 2)) (String (b64_char (Z.shiftl (Z.land x 3) 4)) "==")
  | [] => ""
  end%string.

(** The loop of [binascii.a2b_base64]: the position in the quad, the bits left
    over, the padding seen since the last digit. *)
Fixpoint b64_loop (quad_pos leftchar pads : Z) (s : string) : option bytes :=
  match s with
  | ""%string => if quad_pos =? 0 then Some [] else None
  | String c s =>
      if Ascii.eqb c "="%char then
        if 2 <=? quad_pos then
          (if 4 <=? quad_pos + (pads + 1) then Some [] else b64_loop quad_pos leftchar (pads + 1) s)
        else b64_loop quad_pos leftchar pads s
      else match b64_value c with
           | None => b64_loop quad_pos leftchar pads s
           | Some v =>
               if quad_pos =? 0 then b64_loop 1 v 0 s
               else if quad_pos =? 1 then
                 cons (Z.lor (Z.shiftl leftchar 2) (Z.shiftr v 4)) <$> b64_loop 2 (Z.land v 15) 0 s
               else if quad_pos =? 2 then
                 cons (Z.lor (Z.shiftl leftchar 4) (Z.shiftr v 2)) <$> b64_loop 3 (Z.land v 3) 0 s
               else cons (Z.lor (Z.shiftl leftchar 6) v) <$> b64_loop 0 0 0 s
           end
  end.

Definition is_ascii (c : ascii) : bool := (ord c <? 128)%N.
(** [_b64d]; [None] is a ValueError (UnicodeEncodeError or binascii.Error). *)
Definition b64d (s : string) : option bytes :=
  if str_forall is_ascii s then b64_loop 0 0 0 s else None.

(** ** Decoding what was encoded *)

(** A statement about all [n] below a bound, by computation. *)
Lemma below_spec (p : Z -> bool) (k : nat) :
  forallb p (map Z.of_nat (seq 0 k)) = true -> forall n, 0 <= n < Z.of_nat k -> p n = true.
Proof.
  intros H n Hn. rewrite forallb_forall in H. apply H. rewrite <- (Z2Nat.id n) by lia.
  apply in_map, in_seq. lia.
Qed.

Definition digit_fine (n : Z) : bool :=
  let c := b64_char n in
  negb (Ascii.eqb c "="%char) && is_ascii c && match b64_value c with Some m => m =? n | None => false end.

Lemma b64_digit n : 0 <= n < 64 ->
  Ascii.eqb (b64_char n) "="%char = false /\ is_ascii (b64_char n) = true /\ b64_value (b64_char n) = Some n.
Proof.
  intros Hn. assert (H : digit_fine n = true) by (apply (below_spec digit_fine 64); [vm_compute; reflexivity | lia]).
  unfold digit_fine in H. bcases. destruct (b64_value _); [|done]. bcases. by subst.
Qed.

Lemma bits_lt n k : 0 <= k -> 0 <= n -> (forall i, k <= i -> Z.testbit n i = false) -> n < 2 ^ k.
Proof.
  intros Hk Hn H. destruct (Z.eq_dec n 0) as [->|]; [by apply Z.pow_pos_nonneg|].
  apply Z.log2_lt_pow2; [lia|]. apply Z.nle_gt. intros Hl. apply H in Hl. rewrite Z.bit_log2 in Hl; [done | lia].
Qed.

(** Each group of six bits is a digit. *)
Definition pair_fine (x y : Z) : bool :=
  let d1 := Z.shiftr x 2 in let d2 := Z.lor (Z.shiftl (Z.land x 3) 4) (Z.shiftr y 4) in
  (0 <=? d1) && (d1 <? 64) && (0 <=? d2) && (d2 <? 64) &&
  (Z.lor (Z.shiftl d1 2) (Z.shiftr d2 4) =? x) && (Z.land d2 15 =? Z.shiftr y 4).

Lemma pair_digits x y : is_byte x -> is_byte y -> pair_fine x y = true.
Proof.
  intros Hx Hy. assert (H : forallb (fun a => forallb (pair_fine a) (map Z.of_nat (seq 0 256)))
    (map Z.of_nat (seq 0 256)) = true) by (vm_compute; reflexivity).
  apply (below_spec (pair_fine x) 256); [|exact Hy].
  exact (below_spec (fun a => forallb (pair_fine a) (map Z.of_nat (seq 0 256))) 256 H x Hx).
Qed.

Definition last_fine (y z : Z) : bool :=
  let d3 := Z.lor (Z.shiftl (Z.land y 15) 2) (Z.shiftr z 6) in let d4 := Z.land z 63 in
  (0 <=? d3) && (d3 <? 64) && (0 <=? d4) && (d4 <? 64) &&
  (Z.lor (Z.shiftl (Z.shiftr y 4) 4) (Z.shiftr d3 2) =? y) &&
  (Z.lor (Z.shiftl (Z.land d3 3) 6) d4 =? z).

Lemma last_digits y z : is_byte y -> is_byte z -> last_fine y z = true.
Proof.
  intros Hy Hz. assert (H : forallb (fun a => forallb (last_fine a) (map Z.of_nat (seq 0 256)))
    (map Z.of_nat (seq 0 256)) = true) by (vm_compute; reflexivity).
  apply (below_spec (last_fine y) 256); [|exact Hz].
  exact (below_spec (fun a => forallb (last_fine a) (map Z.of_nat (seq 0 256))) 256 H y Hy).
Qed.

Ltac digit := match goal with
  | |- context [b64_char ?d] =>
      let H1 := fresh in let H2 := fresh in let H3 := fresh in
      destruct (b64_digit d) as (H1 & H2 & H3); [lia|]; cbn [b64_loop str_forall]; rewrite ?H1, ?H2, ?H3
  end.

(** Put the bytes back together. *)
Ltac groups := repeat match goal with
  | H : Z.lor _ _ = _ |- _ => rewrite H
  | H : Z.land _ 15 = _ |- _ => rewrite H
  end.

(** The digits of a whole group, in any context. *)
Lemma three_digits x y z s : is_byte x -> is_byte y -> is_byte z ->
  b64_loop 0 0 0 (b64e (x :: y :: z :: []) +:+ s) = (fun l => x :: y :: z :: l) <$> b64_loop 0 0 0 s.
Proof.
  intros Hx Hy Hz. pose proof (pair_digits x y Hx Hy) as H1. pose proof (last_digits y z Hy Hz) as H2.
  unfold pair_fine in H1. unfold last_fine in H2. cbv zeta in H1, H2. bcases.
  cbn [b64e]. rewrite !append_cons, append_nil_l.
  do 4 digit. cbn. groups. by destruct (b64_loop 0 0 0 s).
Qed.

Lemma b64e_group x y z rest : b64e (x :: y :: z :: rest) = b64e [x; y; z] +:+ b64e rest.
Proof. cbn [b64e]. by rewrite !append_cons, append_nil_l. Qed.

Lemma triple_ind (P : bytes -> Prop) : P [] -> (forall x, P [x]) -> (forall x y, P [x; y]) ->
  (forall x y z l, P l -> P (x :: y :: z :: l)) -> forall l, P l.
Proof.
  intros H0 H1 H2 H3. fix IH 1. intros [|x [|y [|z l]]]; [apply H0 | apply H1 | apply H2 | apply H3, IH].
Qed.

Lemma one_digit x : is_byte x -> b64_loop 0 0 0 (b64e [x]) = Some [x].
Proof.
  intros Hx. pose proof (pair_digits x 0 Hx ltac:(by compute)) as H1.
  unfold pair_fine in H1. cbv zeta in H1. change (Z.shiftr 0 4) with 0 in H1. rewrite Z.lor_0_r in H1. bcases.
  cbn [b64e]. do 2 digit. cbn. by groups.
Qed.

Lemma two_digits x y : is_byte x -> is_byte y -> b64_loop 0 0 0 (b64e [x; y]) = Some [x; y].
Proof.
  intros Hx Hy. pose proof (pair_digits x y Hx Hy) as H1.
  pose proof (last_digits y 0 Hy ltac:(by compute)) as H2.
  unfold pair_fine in H1. unfold last_fine in H2. cbv zeta in H1, H2.
  change (Z.shiftr 0 6) with 0 in H2. rewrite Z.lor_0_r in H2. bcases.
  cbn [b64e]. do 3 digit. cbn. groups. done.
Qed.

Lemma b64e_ascii b : Forall is_byte b -> str_forall is_ascii (b64e b) = true.
Proof.
  induction b as [|x|x y|x y z b IH] using triple_ind; intros Hb;
    repeat match goal with H : Forall _ (_ :: _) |- _ => inversion_clear H end.
  - done.
  - pose proof (pair_digits x 0 ltac:(done) ltac:(by compute)) as Hp.
    unfold pair_fine in Hp. cbv zeta in Hp. change (Z.shiftr 0 4) with 0 in Hp. rewrite Z.lor_0_r in Hp.
    bcases. cbn [b64e]. by do 2 digit.
  - pose proof (pair_digits x y ltac:(done) ltac:(done)) as Hp.
    pose proof (last_digits y 0 ltac:(done) ltac:(by compute)) as Hq.
    unfold pair_fine in Hp. unfold last_fine in Hq. cbv zeta in Hp, Hq.
    change (Z.shiftr 0 6) with 0 in Hq. rewrite Z.lor_0_r in Hq. bcases.
    cbn [b64e]. by do 3 digit.
  - pose proof (pair_digits x y ltac:(done) ltac:(done)) as Hp.
    pose proof (last_digits y z ltac:(done) ltac:(done)) as Hq.
    unfold pair_fine in Hp. unfold last_fine in Hq. cbv zeta in Hp, Hq. bcases.
    cbn [b64e]. do 4 digit. by rewrite IH.
Qed.

(** Decoding inverts encoding. *)
Lemma b64d_b64e b : Forall is_byte b -> b64d (b64e b) = Some b.
Proof.
  intros Hb. unfold b64d. rewrite b64e_ascii by done.
  induction b as [|x|x y|x y z b IH] using triple_ind;
    repeat match goal with H : Forall _ (_ :: _) |- _ => inversion_clear H end.
  - done.
  - by apply one_digit.
  - by apply two_digits.
  - by rewrite b64e_group, three_digits, IH.
Qed.
