(* ===== verification/TokenRows.v ===== *)
(** * Token rows on disk, and the tokens themselves ([tokens.py])

    How [_persist] writes the scopes of a row and [_row_to_dict] reads them, and the text
    [generate_token] makes of random bytes.  [token_urlsafe] is the standard library's. *)
From S2P Require Import Prelude PyStr Base64 Tokens.
From S2P Require Sanctions.
Open Scope string_scope.

(** ** [sorted(...)] of strings *)
Definition sorted (scopes : gset string) : list string := sort_by String.leb (elements scopes).

(** [",".join(sorted(d["scopes"]))] *)
Definition scopes_text (scopes : gset string) : string := join "," (sorted scopes).
(** [frozenset(row[4].split(","))] *)
Definition scopes_of_text (text : string) : gset string := list_to_set (split_on "," text).

(** A row of the table: the record with its scopes as text. *)
Record db_row := mkRow {
  w_id : string; w_name : string; w_hash : string; w_salt : string; w_scopes : string;
  w_created_at : string; w_last_used_at : option string; w_revoked_at : option string; w_created_by : string }.
(** [_persist]: what is inserted. *)
Definition to_row (r : TokenRecord) : db_row :=
  mkRow (t_id r) (t_name r) (t_hash r) (t_salt r) (scopes_text (t_scopes r)) (t_created_at r) (t_last_used_at r)
    (t_revoked_at r) (t_created_by r).
(** [_row_to_dict] *)
Definition row_to_dict (w : db_row) : TokenRecord :=
  mkToken (w_id w) (w_name w) (w_hash w) (w_salt w) (scopes_of_text (w_scopes w)) (w_created_at w) (w_last_used_at w)
    (w_revoked_at w) (w_created_by w).

(** ** Facts *)
Lemma split_on_append sep a b : str_forall (fun c => negb (Ascii.eqb c sep)) a = true ->
  split_on sep (a +:+ String sep b) = a :: split_on sep b.
Proof.
  induction a as [|c a IH]; [intros _; rewrite append_nil_l; simpl; by rewrite Ascii.eqb_refl|].
  rewrite append_cons. simpl. intros [Hc Ha]%andb_true_iff. apply negb_true_iff in Hc. by rewrite Hc, IH.
Qed.
Lemma split_on_whole sep a : str_forall (fun c => negb (Ascii.eqb c sep)) a = true -> split_on sep a = [a].
Proof.
  induction a as [|c a IH]; cbn; [done|]. intros [Hc Ha]%andb_true_iff. apply negb_true_iff in Hc. by rewrite Hc, IH.
Qed.
(** Splitting what was joined gives the parts back, when none holds the separator. *)
Lemma split_on_join sep l : l <> [] -> Forall (fun a => str_forall (fun c => negb (Ascii.eqb c sep)) a = true) l ->
  split_on sep (join (one sep) l) = l.
Proof.
  intros Hne Hl. induction Hl as [|a l Ha Hl IH]; [done|]. destruct l as [|b l].
  - cbn. by apply split_on_whole.
  - change (join (one sep) (a :: b :: l)) with (a +:+ String sep (join (one sep) (b :: l))).
    rewrite split_on_append by done. by rewrite IH.
Qed.

(** ** The properties *)

(** A token row survives the database.  For a record that [create] can make, whose scopes are
    of the known ones and at least one, reading back what was written gives the record. *)
Theorem row_roundtrip (r : TokenRecord) :
  t_scopes r ⊆ ALL_SCOPES -> t_scopes r <> ∅ -> row_to_dict (to_row r) = r.
Proof.
  intros Hall Hne. destruct r as [id name h salt scopes created used revoked by_]. cbn in *.
  unfold row_to_dict, to_row. cbn. f_equal. unfold scopes_of_text, scopes_text.
  assert (forall x, x ∈ sorted scopes <-> x ∈ scopes) as Hs.
  { intros x. unfold sorted. rewrite list_elem_of_In, sort_by_elem, <- list_elem_of_In.
    apply elem_of_elements. }
  change "," with (one ","). rewrite split_on_join.
  - apply set_eq. intros x. by rewrite elem_of_list_to_set, Hs.
  - intros He. apply Hne. apply set_eq. intros x. rewrite <- Hs, He. set_solver.
  - apply Forall_forall. intros x Hx. apply Hs, Hall in Hx. unfold ALL_SCOPES in Hx. set_solver.
Qed.
Lemma row_roundtrip_witness :
  row_to_dict (to_row (mkToken "a1" "ci" "h" "s" {["send"; "read"]} "2026-01-01" None None "operator")) =
  mkToken "a1" "ci" "h" "s" {["send"; "read"]} "2026-01-01" None None "operator".
Proof. apply row_roundtrip; cbn; [unfold ALL_SCOPES; set_solver|set_solver]. Defined.

(** [generate_token]: [raw] is [secrets.token_urlsafe(32)]. *)
Definition generate_token (raw : string) : string := TOKEN_PREFIX +:+ raw.

(** What [create] stores: a row that reads back, and in which the plaintext leaves nothing
    but its hash: two plaintexts with one hash give the same store. *)
Theorem created_row (h : string -> string -> string) (raw raw' salt id now name by_ : string) (scopes : list string)
    (s s' : TokenStore) (r : TokenRecord) (pl : string) :
  create h (generate_token raw) salt id now name scopes by_ s = (inr (r, pl), s') ->
  pl = generate_token raw /\ row_to_dict (to_row r) = r /\ t_hash r = h pl salt /\
  (h (generate_token raw') salt = h (generate_token raw) salt ->
   snd (create h (generate_token raw') salt id now name scopes by_ s) = s').
Proof.
  unfold create. destruct (String.eqb (strip name) ""); [done|]. destruct (validate_scopes scopes) as [e|canon] eqn:Hv; [done|].
  intros [= <- <- <-]. split; [done|]. split; [|split; [done|by intros ->]].
  apply row_roundtrip; cbn; unfold validate_scopes in Hv; destruct scopes as [|x l]; try done;
    apply validate_loop_spec in Hv as [-> Hf].
  - intros y Hy. rewrite elem_of_union, elem_of_list_to_set, list_elem_of_In in Hy.
    destruct Hy as [(z & <- & Hz)%in_map_iff|Hy]; [|set_solver]. rewrite Forall_forall in Hf. by apply Hf, list_elem_of_In.
  - cbn. set_solver.
Qed.
Lemma created_row_witness : exists r,
  fst (create (fun p s => p +:+ s) (generate_token "xyz") "salt" "a1" "2026-01-01" " ci " ["Send"; "read "] "operator" (mkStore true [])) =
    inr (r, "skr_xyz") /\ row_to_dict (to_row r) = r.
Proof.
  destruct (create (fun p s => p +:+ s) (generate_token "xyz") "salt" "a1" "2026-01-01" " ci " ["Send"; "read "] "operator"
    (mkStore true [])) as [res s'] eqn:Hc.
  destruct res as [e|[r pl]]; [vm_compute in Hc; discriminate Hc|].
  destruct (created_row (fun p s => p +:+ s) "xyz" "xyz" "salt" "a1" "2026-01-01" " ci " "operator" ["Send"; "read "]
    (mkStore true []) s' r pl Hc) as (-> & Hr & _). exists r. split; [reflexivity|exact Hr].
Defined.
