(* ===== verification/Keystore.v ===== *)
(** * The encrypted keystore ([encrypted_keystore.py])

    A JSON file of AES-256-GCM blobs under one scrypt-derived key.  A file holds the
    JSON value its text encodes, or text that is not UTF-8 or not JSON; scrypt, AES-GCM
    and the random source are parameters.  Exceptions keep their class, not their text. *)
From S2P Require Import Prelude PyStr Effects Exceptions Base64.
From S2P Require Sanctions.
Open Scope string_scope.

#[local] Set Warnings "-register-all".
Inductive json :=
| JNull
| JBool (b : bool)
| JInt (n : Z)
| JFloat (q : Q)
| JStr (s : string)
| JList (l : list json)
| JObj (l : list (string * json)).

(** [doc.get(k)] on a dict. *)
Fixpoint jget (k : string) (l : list (string * json)) : option json :=
  match l with
  | [] => None
  | (k', v) :: l => if String.eqb k k' then Some v else jget k l
  end.

(** [bool(v)] *)
Definition truthy (v : json) : bool :=
  match v with
  | JNull => false
  | JBool b => b
  | JInt n => negb (n =? 0)%Z
  | JFloat q => negb (Qeq_bool q 0)
  | JStr s => negb (String.eqb s "")
  | JList l => match l with [] => false | _ => true end
  | JObj l => match l with [] => false | _ => true end
  end.

(** [v == n] *)
Definition json_eq_int (v : option json) (n : Z) : bool :=
  match v with
  | Some (JInt m) => (m =? n)%Z
  | Some (JBool b) => ((if b then 1 else 0) =? n)%Z
  | Some (JFloat q) => Qeq_bool q (inject_Z n)
  | _ => false
  end.
Definition json_is_str (v : option json) (s : string) : bool :=
  match v with Some (JStr t) => String.eqb t s | _ => false end.

Definition CURRENT_VERSION : Z := 1.
Definition SCRYPT_SALT_BYTES : nat := 16.
Definition AES_GCM_IV_BYTES : nat := 12.

(** The exceptions; the last one is every class that is not a KeystoreError. *)
Inductive kexn :=
| KeystoreError | KeystoreNotFound | KeystoreCorrupt | KeystoreUnsupportedVersion | WrongPassphrase
| WalletNameConflict
| Escapes (e : exn).

Definition attribute_error : kexn := Escapes (EOther "AttributeError" "").
Definition type_error : kexn := Escapes (EOther "TypeError" "").
Definition unicode_decode_error : kexn := Escapes (EOther "UnicodeDecodeError" "").

Record KeystoreEntry := mkEntry { e_name : string; e_address : string; e_raw_key : bytes }.

Inductive content := BadUtf8 | BadJson | Doc (j : json).
Record file := mkFile { f_mode : Z; f_content : content }.
Record world := mkWorld { w_fs : gmap string file; w_tick : nat }.
Definition set_fs (fs : gmap string file) (w : world) : world := mkWorld fs (w_tick w).

(** What [os.write] did with the whole text. *)
Inductive write_result := Whole | Short | WFails (e : exn) | WDies.

(** The operating system, the random source and the cryptography package. *)
Record kenv := mkKenv {
  k_io : nat -> fate exn;
  k_write : nat -> write_result;
  k_random : nat -> nat -> bytes;                          (** call, number of bytes *)
  scrypt : bytes -> bytes -> outcome exn bytes;            (** passphrase, salt *)
  aes_encrypt : bytes -> bytes -> bytes -> string -> bytes;          (** key, iv, plaintext, AAD *)
  aes_decrypt : bytes -> bytes -> bytes -> string -> outcome exn bytes }.

(** [_validate_priv_bytes] *)
Definition validate_priv_bytes (b : bytes) : outcome kexn unit :=
  if negb (List.length b =? 32)%nat then Raise KeystoreError
  else if forallb (fun byte => byte =? 0)%Z b then Raise KeystoreError
  else Ret tt.

(** [_b64d(d[k])] under [except (KeyError, ValueError)]. *)
Definition b64_field (k : string) (d : list (string * json)) : outcome kexn bytes :=
  match jget k d with
  | None => Raise KeystoreCorrupt
  | Some (JStr s) => match b64d s with Some b => Ret b | None => Raise KeystoreCorrupt end
  | Some _ => Raise attribute_error
  end.

(** [_atomic_write]'s document *)
Definition doc_of (salt : bytes) (wallets : list json) : json :=
  JObj [("version", JInt CURRENT_VERSION); ("kdf", JStr "scrypt");
        ("kdf_params", JObj [("n", JInt 32768); ("r", JInt 8); ("p", JInt 1); ("salt_b64", JStr (b64e salt))]);
        ("cipher", JStr "aes-256-gcm"); ("wallets", JList wallets)].
Definition wallet_doc (name address : string) (iv ct : bytes) : json :=
  JObj [("name", JStr name); ("address", JStr address); ("iv_b64", JStr (b64e iv));
        ("ciphertext_b64", JStr (b64e ct))].

Section Keystore.
Context (K : kenv).
Abbreviation MK := (M world kexn).

(** One system call. *)
Definition tick (w : world) : world := mkWorld (w_fs w) (S (w_tick w)).
Definition sys : MK unit := fun w =>
  (match k_io K (w_tick w) with Fine => Ret tt | Fails e => Raise (Escapes e) | Dies => Crash end, tick w).
Definition random (n : nat) : MK bytes := fun w => (Ret (k_random K (w_tick w) n), tick w).
Definition lift {A} (o : outcome kexn A) : MK A := fun w => (o, w).
Definition derive (passphrase salt : bytes) : outcome kexn bytes :=
  match scrypt K passphrase salt with Ret k => Ret k | Raise e => Raise (Escapes e) | Crash => Crash end.

(** [path.exists()], [tmp.unlink()], [os.replace(tmp, path)] *)
Definition exists_ (path : string) : MK bool :=
  gets (fun w => match w_fs w !! path with Some _ => true | None => false end).
Definition unlink (path : string) : MK unit := modify (fun w => set_fs (delete path (w_fs w)) w).
Definition put (path : string) (f : file) : MK unit := modify (fun w => set_fs (<[path := f]> (w_fs w)) w).
Definition replace_file (tmp path : string) : MK unit :=
  modify (fun w => match w_fs w !! tmp with
                   | Some f => set_fs (<[path := f]> (delete tmp (w_fs w))) w
                   | None => w
                   end).

(** ** Reading *)
Definition check_file_mode (path : string) : MK unit :=
  let! f := gets (fun w => w_fs w !! path) in
  match f with
  | None => raise KeystoreNotFound
  | Some f =>
      do! sys in
      if (Z.land (f_mode f) 63 =? 0)%Z then ret tt else raise KeystoreError
  end.

(** [p.read_text(...)], before decoding *)
Definition read_file (path : string) : MK content :=
  do! sys in
  let! f := gets (fun w => w_fs w !! path) in
  match f with
  | None => raise (Escapes (EOther "FileNotFoundError" ""))
  | Some f => ret (f_content f)
  end.
(** [except OSError: raise err] *)
Definition os_error_as {A} (err : kexn) (m : MK A) : MK A :=
  catch m (fun e => match e with
                    | Escapes e => if Sanctions.is_OSError e then Some (raise err) else None
                    | _ => None
                    end).

(** One wallet of the document. *)
Definition load_wallet (key : bytes) (seen : list string) (w : json) : outcome kexn KeystoreEntry :=
  match w with
  | JObj d =>
      match jget "name" d with
      | Some (JStr name) =>
          if String.eqb name "" then Raise KeystoreCorrupt
          else if bool_decide (name ∈ seen) then Raise KeystoreCorrupt
          else match b64_field "iv_b64" d with
          | Raise e => Raise e
          | Crash => Crash
          | Ret iv =>
          match b64_field "ciphertext_b64" d with
          | Raise e => Raise e
          | Crash => Crash
          | Ret ct =>
          match aes_decrypt K key iv ct name with
          | Raise e => Raise (if String.eqb (exn_class e) "InvalidTag" then WrongPassphrase else Escapes e)
          | Crash => Crash
          | Ret plain =>
          match validate_priv_bytes plain with
          | Raise e => Raise e
          | Crash => Crash
          | Ret _ => Ret (mkEntry name (match jget "address" d with Some (JStr a) => a | _ => "" end) plain)
          end end end end
      | _ => Raise KeystoreCorrupt
      end
  | _ => Raise KeystoreCorrupt
  end.

Fixpoint load_wallets_doc (key : bytes) (seen : list string) (ws : list json) : outcome kexn (list KeystoreEntry) :=
  match ws with
  | [] => Ret []
  | w :: ws =>
      match load_wallet key seen w with
      | Raise e => Raise e
      | Crash => Crash
      | Ret e =>
          match load_wallets_doc key (e_name e :: seen) ws with
          | Ret l => Ret (e :: l)
          | r => r
          end
      end
  end.

(** [kdf_params["salt_b64"]], where [kdf_params = doc.get("kdf_params") or {}] *)
Definition doc_salt (d : list (string * json)) : outcome kexn bytes :=
  match jget "kdf_params" d with
  | Some (JObj params) => b64_field "salt_b64" params
  | Some v => if truthy v then Raise type_error else Raise KeystoreCorrupt
  | None => Raise KeystoreCorrupt
  end.

(** [load_keystore], from the document on *)
Definition load_doc (passphrase : bytes) (j : json) : outcome kexn (list KeystoreEntry) :=
  match j with
  | JObj d =>
      if negb (json_eq_int (jget "version" d) CURRENT_VERSION) then Raise KeystoreUnsupportedVersion
      else if negb (json_is_str (jget "kdf" d) "scrypt") || negb (json_is_str (jget "cipher" d) "aes-256-gcm")
      then Raise KeystoreCorrupt
      else match doc_salt d with
           | Raise e => Raise e
           | Crash => Crash
           | Ret salt =>
               match derive passphrase salt with
               | Raise (Escapes e) => Raise (if is_Exception e then KeystoreError else Escapes e)
               | Raise e => Raise e
               | Crash => Crash
               | Ret key =>
                   match jget "wallets" d with
                   | Some (JList ws) => load_wallets_doc key [] ws
                   | _ => Raise KeystoreCorrupt
                   end
               end
           end
  | _ => Raise KeystoreCorrupt
  end.

Definition load_keystore (path : string) (passphrase : bytes) : MK (list KeystoreEntry) :=
  do! check_file_mode path in
  let! text := os_error_as KeystoreError (read_file path) in
  match text with
  | BadUtf8 | BadJson => raise KeystoreCorrupt
  | Doc j => lift (load_doc passphrase j)
  end.

(** [json.loads(p.read_text(...))] under [except (OSError, JSONDecodeError)] *)
Definition read_json (path : string) : MK json :=
  let! text := os_error_as KeystoreCorrupt (read_file path) in
  match text with
  | BadUtf8 => raise unicode_decode_error
  | BadJson => raise KeystoreCorrupt
  | Doc j => ret j
  end.

Definition names_in (ws : list json) : list json :=
  omap (fun w => match w with JObj d => Some (default (JStr "") (jget "name" d)) | _ => None end) ws.
Definition list_wallet_names (path : string) : MK (list json) :=
  do! check_file_mode path in
  let! j := read_json path in
  match j with
  | JObj d =>
      match jget "wallets" d with
      | Some (JList ws) =>
          ret (names_in ws)
      | Some (JStr _) | Some (JObj _) | None => ret []    (** iterating characters or keys: no dict *)
      | Some v => if truthy v then raise type_error else ret []
      end
  | _ => raise attribute_error
  end.

Definition get_salt (path : string) : MK bytes :=
  let! j := read_json path in
  match j with
  | JObj d =>
      match jget "kdf_params" d with
      | Some (JObj params) => lift (b64_field "salt_b64" params)
      | Some _ => raise type_error
      | None => raise KeystoreCorrupt
      end
  | _ => raise type_error
  end.

(** ** Writing *)
Definition TMP (path : string) : string := path +:+ ".tmp".

Definition os_write (tmp : string) (j : json) : MK unit := fun w =>
  match k_write K (w_tick w) with
  | Whole => (Ret tt, set_fs (<[tmp := mkFile 384 (Doc j)]> (w_fs w)) (tick w))
  | Short => (Ret tt, tick w)
  | WFails e => (Raise (Escapes e), tick w)
  | WDies => (Crash, tick w)
  end.

(** The end of [_atomic_write]: the temporary file takes the place of the keystore. *)
Definition install (path : string) (overwrite : bool) : MK unit :=
  let! there := exists_ path in
  do! when (there && negb overwrite) (do! sys in do! unlink (TMP path) in raise KeystoreError) in
  do! sys in
  do! replace_file (TMP path) path in
  catch sys (fun e => match e with
                      | Escapes e => if Sanctions.is_OSError e then Some (ret tt) else None
                      | _ => None
                      end).

(** [_atomic_write]; a file just created is empty, and so not JSON. *)
Definition atomic_write (path : string) (j : json) (overwrite : bool) : MK unit :=
  do! sys in
  let! stale := exists_ (TMP path) in
  do! when stale (do! sys in unlink (TMP path)) in
  do! sys in
  do! put (TMP path) (mkFile 384 BadJson) in
  do! os_write (TMP path) j in
  do! sys in
  install path overwrite.

Definition init_keystore (path : string) (passphrase : bytes) (overwrite : bool) : MK unit :=
  let! there := exists_ path in
  do! when (there && negb overwrite) (raise KeystoreError) in
  do! sys in
  let! salt := random SCRYPT_SALT_BYTES in
  match passphrase with
  | [] => raise KeystoreError
  | _ =>
      let! _ := lift (derive passphrase salt) in
      atomic_write path (doc_of salt []) overwrite
  end.

Fixpoint serialise (key : bytes) (seen : list string) (entries : list KeystoreEntry) : MK (list json) :=
  match entries with
  | [] => ret []
  | e :: entries =>
      if bool_decide (e_name e ∈ seen) then raise WalletNameConflict
      else
        do! lift (validate_priv_bytes (e_raw_key e)) in
        let! iv := random AES_GCM_IV_BYTES in
        let ct := aes_encrypt K key iv (e_raw_key e) (e_name e) in
        let! rest := serialise key (e_name e :: seen) entries in
        ret (wallet_doc (e_name e) (e_address e) iv ct :: rest)
  end.

Definition save_keystore (path : string) (passphrase : bytes) (entries : list KeystoreEntry)
    (salt : option bytes) : MK unit :=
  let! salt := match salt with Some s => ret s | None => random SCRYPT_SALT_BYTES end in
  let! key := lift (derive passphrase salt) in
  let! ws := serialise key [] entries in
  atomic_write path (doc_of salt ws) true.

(** The shape of [add_wallet], [remove_wallet] and [rename_wallet]: read the salt,
    decrypt, change the list, save it under the same salt. *)
Definition edit {A} (path : string) (passphrase : bytes)
    (change : list KeystoreEntry -> kexn + (list KeystoreEntry * A)) : MK A :=
  let! salt := get_salt path in
  let! existing := load_keystore path passphrase in
  match change existing with
  | inl e => raise e
  | inr (l, a) => do! save_keystore path passphrase l (Some salt) in ret a
  end.

Definition named (name : string) (e : KeystoreEntry) : bool := String.eqb (e_name e) name.

Definition add_change (entry : KeystoreEntry) (existing : list KeystoreEntry)
    : kexn + (list KeystoreEntry * unit) :=
  if existsb (named (e_name entry)) existing then inl WalletNameConflict
  else inr ((existing ++ [entry])%list, tt).
Definition remove_change (name : string) (existing : list KeystoreEntry)
    : kexn + (list KeystoreEntry * KeystoreEntry) :=
  match List.find (named name) existing with
  | None => inl KeystoreError
  | Some removed => inr (List.filter (fun e => negb (named name e)) existing, removed)
  end.
(** The first entry called [old] gets the name [new]. *)
Fixpoint rename_first (old new : string) (l : list KeystoreEntry) : list KeystoreEntry :=
  match l with
  | [] => []
  | e :: l => if named old e then mkEntry new (e_address e) (e_raw_key e) :: l else e :: rename_first old new l
  end.
Definition rename_change (old new : string) (existing : list KeystoreEntry)
    : kexn + (list KeystoreEntry * unit) :=
  if existsb (named new) existing then inl WalletNameConflict
  else if existsb (named old) existing then inr (rename_first old new existing, tt)
  else inl KeystoreError.

Definition add_wallet (path : string) (passphrase : bytes) (entry : KeystoreEntry) : MK unit :=
  edit path passphrase (add_change entry).
Definition remove_wallet (path : string) (passphrase : bytes) (name : string) : MK KeystoreEntry :=
  edit path passphrase (remove_change name).
Definition rename_wallet (path : string) (passphrase : bytes) (old new : string) : MK unit :=
  edit path passphrase (rename_change old new).
End Keystore.

(** ** [resolve_passphrase]: the environment value, then a private file, then the terminal *)
Inductive pass_file :=
| NoFile
| PassFile (mode : Z) (data : outcome exn string).

Definition is_crlf (c : ascii) : bool := Ascii.eqb c "010" || Ascii.eqb c "013".

(** [prompt]: what [getpass] answers when stdin is a terminal. *)
Definition resolve_passphrase (env_var_value : option string) (f : option pass_file)
    (allow_tty_prompt : bool) (prompt : option string) : outcome kexn string :=
  if negb (String.eqb (default "" env_var_value) "") then Ret (default "" env_var_value)
  else match f with
  | Some NoFile => Raise KeystoreError
  | Some (PassFile mode data) =>
      if negb (Z.land mode 63 =? 0)%Z then Raise KeystoreError
      else match data with
           | Raise e => Raise (if Sanctions.is_OSError e then KeystoreError else Escapes e)
           | Crash => Crash
           | Ret s => let s := rstrip_with is_crlf s in
                      if String.eqb s "" then Raise KeystoreError else Ret s
           end
  | None =>
      match allow_tty_prompt, prompt with
      | true, Some pw => if String.eqb pw "" then Raise KeystoreError else Ret pw
      | _, _ => Raise KeystoreError
      end
  end.
