(* ===== verification/KeystoreSpec.v ===== *)
(** * What the encrypted keystore promises

    Against an abstract keystore, a list of named keys: the edits implement the list
    operations, what is saved loads back, and an interrupted write leaves the old file
    or the complete new one.  Also the three places where the promise is not kept: an
    empty wallet name, a short [os.write], an empty keystore's passphrase. *)
From S2P Require Import Prelude PyStr Effects Exceptions Base64 Keystore.
From S2P Require Sanctions.
Open Scope string_scope.

(** ** The edits as functions of the list *)

(** What [save_keystore] checks of the list, in the order it does. *)
Fixpoint check_entries (seen : list string) (l : list KeystoreEntry) : outcome kexn unit :=
  match l with
  | [] => Ret tt
  | e :: l =>
      if bool_decide (e_name e ∈ seen) then Raise WalletNameConflict
      else match validate_priv_bytes (e_raw_key e) with
           | Ret _ => check_entries (e_name e :: seen) l
           | r => r
           end
  end.

(** An edit of the list, refused when the change is or when the result fails the checks. *)
Definition checked {A} (ch : list KeystoreEntry -> kexn + (list KeystoreEntry * A)) (l : list KeystoreEntry)
    : kexn + (list KeystoreEntry * A) :=
  match ch l with
  | inl e => inl e
  | inr (l', a) => match check_entries [] l' with Raise e => inl e | _ => inr (l', a) end
  end.

Inductive edit_op := Add (entry : KeystoreEntry) | Remove (name : string) | Rename (old new : string).

Definition after {A} (r : kexn + (list KeystoreEntry * A)) (l : list KeystoreEntry)
    : option kexn * list KeystoreEntry :=
  match r with inl e => (Some e, l) | inr (l', _) => (None, l') end.
(** One edit as the code computes it: the answer (the exception, if any) and the new list. *)
Definition model_edit (o : edit_op) (l : list KeystoreEntry) : option kexn * list KeystoreEntry :=
  match o with
  | Add e => after (checked (add_change e) l) l
  | Remove n => after (checked (remove_change n) l) l
  | Rename a b => after (checked (rename_change a b) l) l
  end.
(** ** The abstract keystore: named keys in order of insertion *)
Definition names (l : list KeystoreEntry) : list string := map e_name l.
Definition abstract_edit (o : edit_op) (l : list KeystoreEntry) : option kexn * list KeystoreEntry :=
  match o with
  | Add e =>
      if bool_decide (e_name e ∈ names l) then (Some WalletNameConflict, l)
      else match validate_priv_bytes (e_raw_key e) with
           | Raise x => (Some x, l)
           | _ => (None, l ++ [e])%list
           end
  | Remove n =>
      if bool_decide (n ∈ names l) then (None, filter (fun e => e_name e <> n) l) else (Some KeystoreError, l)
  | Rename a b =>
      if bool_decide (b ∈ names l) then (Some WalletNameConflict, l)
      else if bool_decide (a ∈ names l)
      then (None, map (fun e => if decide (e_name e = a) then mkEntry b (e_address e) (e_raw_key e) else e) l)
      else (Some KeystoreError, l)
  end.
Fixpoint abstract_edits (os : list edit_op) (l : list KeystoreEntry) : list (option kexn) * list KeystoreEntry :=
  match os with
  | [] => ([], l)
  | o :: os =>
      let '(a, l) := abstract_edit o l in
      let '(as_, l) := abstract_edits os l in (a :: as_, l)
  end.

(** The concrete edits, each answer observed. *)
Definition answer {A} (o : outcome kexn A) : option kexn :=
  match o with Raise e => Some e | _ => None end.
Definition concrete_edit (K : kenv) (path : string) (pass : bytes) (o : edit_op) (w : world)
    : option kexn * world :=
  match o with
  | Add e => let '(r, w) := add_wallet K path pass e w in (answer r, w)
  | Remove n => let '(r, w) := remove_wallet K path pass n w in (answer r, w)
  | Rename a b => let '(r, w) := rename_wallet K path pass a b w in (answer r, w)
  end.
Fixpoint concrete_edits (K : kenv) (path : string) (pass : bytes) (os : list edit_op) (w : world)
    : list (option kexn) * world :=
  match os with
  | [] => ([], w)
  | o :: os =>
      let '(a, w) := concrete_edit K path pass o w in
      let '(as_, w) := concrete_edits K path pass os w in (a :: as_, w)
  end.

(** An edit whose new name, if any, is not empty. *)
Definition named_edit (o : edit_op) : bool :=
  negb (match o with Add e => String.eqb (e_name e) "" | Remove _ => false | Rename _ b => String.eqb b "" end).

(** A key is a bytearray. *)
Definition typed (l : list KeystoreEntry) : Prop := Forall (fun e => Forall is_byte (e_raw_key e)) l.
Definition typed_edit (o : edit_op) : Prop :=
  match o with Add e => Forall is_byte (e_raw_key e) | _ => True end.

(** The file holds the list, under this passphrase and salt. *)
Definition stored (K : kenv) (pass salt : bytes) (l : list KeystoreEntry) (f : file) : Prop :=
  Forall is_byte salt /\ typed l /\ Z.land (f_mode f) 63 = 0%Z /\
  exists ws, f_content f = Doc (doc_of salt ws) /\ load_doc K pass (doc_of salt ws) = Ret l.

(** ** What is assumed of the outside *)

(** scrypt gives a 256-bit key, AES-GCM decrypts what it encrypted under such a key and
    a 96-bit iv, the random source gives the bytes asked for. *)
Class Crypto (K : kenv) : Prop := {
  crypto_scrypt pass salt : exists key, scrypt K pass salt = Ret key /\ List.length key = 32%nat;
  crypto_random i n : Forall is_byte (k_random K i n) /\ List.length (k_random K i n) = n;
  crypto_aead key iv pt aad :
    List.length key = 32%nat -> List.length iv = AES_GCM_IV_BYTES -> Forall is_byte iv -> Forall is_byte pt ->
    aes_decrypt K key iv (aes_encrypt K key iv pt aad) aad = Ret pt /\
    Forall is_byte (aes_encrypt K key iv pt aad) }.
(** The file system works. *)
Class DiskFine (K : kenv) : Prop := {
  disk_io i : k_io K i = Fine;
  disk_write i : k_write K i = Whole }.
(** [os.write] writes the whole text, or raises, or dies. *)
Class NoShortWrite (K : kenv) : Prop := no_short i : k_write K i <> Short.
#[global] Instance disk_fine_no_short (K : kenv) : DiskFine K -> NoShortWrite K.
Proof. intros H i. by rewrite (disk_write i). Qed.

(** ** Lemmas *)
Section Lemmas.
Context (K : kenv) `{!Crypto K}.

(** A wallet that was serialised decrypts, up to the checks of the reader. *)
Lemma load_wallet_doc key seen e i :
  List.length key = 32%nat -> Forall is_byte (e_raw_key e) ->
  let iv := k_random K i AES_GCM_IV_BYTES in
  load_wallet K key seen
    (wallet_doc (e_name e) (e_address e) iv (aes_encrypt K key iv (e_raw_key e) (e_name e))) =
  if String.eqb (e_name e) "" || bool_decide (e_name e ∈ seen) then Raise KeystoreCorrupt
  else match validate_priv_bytes (e_raw_key e) with
       | Ret _ => Ret e
       | Raise x => Raise x
       | Crash => Crash
       end.
Proof.
  intros Hkey Hb iv. destruct (crypto_random i AES_GCM_IV_BYTES) as [Hivb Hivl].
  destruct (crypto_aead key iv (e_raw_key e) (e_name e)) as [Hdec Hct]; [done..|].
  unfold load_wallet, wallet_doc, b64_field. cbn [jget String.eqb Ascii.eqb Bool.eqb].
  destruct (String.eqb (e_name e) ""); [done|]. cbn [orb].
  destruct (bool_decide _); [done|].
  rewrite !b64d_b64e by done. fold iv. rewrite Hdec. destruct e. cbn.
  by destruct (validate_priv_bytes _).
Qed.

(** [serialise] fails as [check_entries] says and touches no file; what it returns
    loads back when no name is empty, and is refused otherwise. *)
Lemma serialise_spec key l : List.length key = 32%nat -> typed l -> forall seen w, exists ws n,
  serialise K key seen l w =
    (match check_entries seen l with Ret _ => Ret ws | Raise e => Raise e | Crash => Crash end,
     mkWorld (w_fs w) n) /\
  (check_entries seen l = Ret tt ->
   load_wallets_doc K key seen ws =
     if existsb (named "") l then Raise KeystoreCorrupt else Ret l).
Proof.
  intros Hkey. induction 1 as [|e l He Hl IH]; intros seen w.
  { exists [], (w_tick w). by destruct w. }
  cbn [serialise check_entries].
  destruct (bool_decide (e_name e ∈ seen)) eqn:Hseen.
  { exists [], (w_tick w). by destruct w. }
  unfold bind at 1, lift at 1.
  destruct (validate_priv_bytes (e_raw_key e)) as [[]|x|] eqn:Hv.
  2,3: exists [], (w_tick w); by destruct w.
  unfold bind at 1, random. set (iv := k_random K (w_tick w) AES_GCM_IV_BYTES).
  destruct (IH (e_name e :: seen) (tick w)) as (ws & n & Hrun & Hload).
  unfold bind. rewrite Hrun.
  exists (wallet_doc (e_name e) (e_address e) iv (aes_encrypt K key iv (e_raw_key e) (e_name e)) :: ws), n.
  split; [by destruct (check_entries (e_name e :: seen) l)|].
  intros Hc. cbn [load_wallets_doc]. unfold iv. rewrite load_wallet_doc by done.
  rewrite Hseen, Hv. cbn [existsb]. unfold named at 1.
  destruct (String.eqb (e_name e) ""); [done|]. cbn [orb]. rewrite Hload by done.
  by destruct (existsb (named "") l).
Qed.
End Lemmas.

(** ** The atomic write *)
Lemma tmp_ne path : TMP path <> path.
Proof.
  intros H. apply (f_equal String.length) in H. unfold TMP in H. rewrite length_append in H. cbn in H. lia.
Qed.

Section Disk.
Context (K : kenv).

(** The files other than [tmp] are kept. *)
Definition keeps (tmp : string) (w w' : world) : Prop :=
  forall p, p <> tmp -> w_fs w' !! p = w_fs w !! p.
#[local] Instance keeps_preorder tmp : PreOrder (keeps tmp).
Proof. split; [by intros w p | intros w1 w2 w3 H1 H2 p Hp; by rewrite H2, H1]. Qed.

Lemma wp_sys (Q : outcome kexn unit -> world -> Prop) w :
  (Q (Ret tt) (tick w)) ->
  (forall o, o <> Ret tt -> k_io K (w_tick w) <> Fine -> Q o (tick w)) -> wp (sys K) Q w.
Proof. intros H1 H2. unfold wp, sys. destruct (k_io K (w_tick w)) eqn:E; cbn; [done | by apply H2..]. Qed.

(** A write of [j] from [w]: other files stay; the keystore is the old one, and then the
    call did not return, or the new one, complete. *)
Definition safe_write (path : string) (j : json) (w : world) (o : outcome kexn unit) (w' : world) : Prop :=
  (forall p, p <> path -> p <> TMP path -> w_fs w' !! p = w_fs w !! p) /\
  (o <> Ret tt /\ w_fs w' !! path = w_fs w !! path \/ w_fs w' !! path = Some (mkFile 384 (Doc j))) /\
  (DiskFine K -> o = Ret tt).

Lemma safe_fail path j w o w' :
  o <> Ret tt -> keeps (TMP path) w w' -> ~ DiskFine K -> safe_write path j w o w'.
Proof.
  pose proof (tmp_ne path). intros Ho Hk Hd.
  split_and!; [intros; by apply Hk | left; split; [done | by apply Hk] | done].
Qed.
Lemma keeps_put tmp f w w' : keeps tmp w w' -> keeps tmp w (set_fs (<[tmp := f]> (w_fs w')) w').
Proof. intros Hk p Hp. cbn. rewrite lookup_insert_ne by done. by apply Hk. Qed.
Lemma safe_sys path j w w' (k : unit -> M world kexn unit) :
  keeps (TMP path) w w' ->
  (keeps (TMP path) w (tick w') -> wp (k tt) (safe_write path j w) (tick w')) ->
  wp (bind (sys K) k) (safe_write path j w) w'.
Proof.
  intros Hk Hw. apply wp_bind, wp_sys; [by apply Hw|]. intros o Ho Hi.
  assert (~ DiskFine K) by (intros [Hd _]; by destruct Hi).
  destruct o as [[]|e|]; [done | by apply safe_fail..].
Qed.

Lemma install_safe path j ov w w' :
  ov = true \/ w_fs w !! path = None ->
  keeps (TMP path) w w' -> w_fs w' !! TMP path = Some (mkFile 384 (Doc j)) ->
  wp (install K path ov) (safe_write path j w) w'.
Proof.
  intros Hov Hk Htmp. pose proof (tmp_ne path).
  apply wp_bind, wp_gets. rewrite (Hk path) by done.
  replace (match w_fs w !! path with Some _ => true | None => false end && negb ov) with false
    by (destruct Hov as [-> | ->]; [by destruct (w_fs w !! path) | done]). apply wp_bind, wp_ret, safe_sys; [done|]. intros _.
  apply wp_bind, wp_modify. cbn [tick w_fs]. rewrite Htmp. apply wp_catch.
  assert (Hnew : forall o w'', w_fs w'' = <[path := mkFile 384 (Doc j)]> (delete (TMP path) (w_fs w')) ->
                   (DiskFine K -> o = Ret tt) -> safe_write path j w o w'').
  { intros o w'' Hfs Hd. unfold safe_write. rewrite Hfs. split_and!; [|right; by simplify_map_eq|done].
    intros p Hp Hp'. rewrite lookup_insert_ne, lookup_delete_ne by done. by apply Hk. }
  apply wp_sys; [by apply Hnew|]. intros o Ho Hi.
  assert (~ DiskFine K) by (intros [Hd _]; by destruct Hi).
  destruct o as [[]|[]|]; try by apply Hnew. cbn. destruct (Sanctions.is_OSError e); by apply Hnew.
Qed.

(** Before [os.replace] only the temporary file changes; the new document is installed
    whole, and nothing after that changes it. *)
Lemma atomic_write_safe `{!NoShortWrite K} path j ov w :
  ov = true \/ w_fs w !! path = None -> wp (atomic_write K path j ov) (safe_write path j w) w.
Proof.
  intros Hov.
  assert (Hrest : forall w', keeps (TMP path) w w' ->
    wp (do! sys K in do! put (TMP path) (mkFile 384 BadJson) in do! os_write K (TMP path) j in
        do! sys K in install K path ov) (safe_write path j w) w').
  { intros w' Hk. apply safe_sys; [done|]. intros H1. apply wp_bind, wp_modify.
    apply (keeps_put _ (mkFile 384 BadJson)) in H1. revert H1. generalize (set_fs (<[TMP path:=mkFile 384 BadJson]> (w_fs (tick w'))) (tick w')). intros w1 H1.
    apply wp_bind. unfold wp, os_write.
    destruct (k_write K (w_tick w1)) as [| |e|] eqn:Hwr; [|by destruct (no_short _ Hwr)|..]; cbn [fst snd].
    2,3: apply safe_fail; [done|done|intros [_ Hd]; by rewrite Hd in Hwr].
    apply (keeps_put _ (mkFile 384 (Doc j))) in H1.
    apply safe_sys; [by intros p Hp; apply H1|]. intros H2. apply install_safe; [done..|]. apply lookup_insert_eq. }
  apply safe_sys; [done|]. intros H1. apply wp_bind, wp_gets, wp_bind.
  destruct (w_fs (tick w) !! TMP path); [|by apply Hrest]. cbn [when].
  apply wp_bind, wp_sys.
  - apply wp_modify, Hrest. intros p Hp. cbn. by rewrite lookup_delete_ne.
  - intros o Ho Hi. assert (~ DiskFine K) by (intros [Hd _]; by destruct Hi).
    destruct o as [[]|e|]; [done | by apply safe_fail..].
Qed.
End Disk.

(** ** Saving, reading and editing *)
Lemma check_entries_returns seen l : check_entries seen l <> Crash.
Proof.
  revert seen. induction l as [|e l IH]; intros seen; cbn [check_entries]; [done|].
  destruct (bool_decide _); [done|]. unfold validate_priv_bytes.
  destruct (negb _); [done|]. destruct (forallb _ _); [done | apply IH].
Qed.

Section Edits.
Context (K : kenv) `{!Crypto K}.

Lemma load_wallets_doc_names key seen ws l :
  load_wallets_doc K key seen ws = Ret l -> existsb (named "") l = false.
Proof.
  revert seen l. induction ws as [|w ws IH]; intros seen l; cbn [load_wallets_doc]; [by intros [= <-]|].
  destruct (load_wallet K key seen w) as [e|?|] eqn:Hw; [|done..].
  destruct (load_wallets_doc K key (e_name e :: seen) ws) as [l'|?|] eqn:Hl; [|done..]. intros [= <-].
  cbn [existsb]. rewrite (IH _ _ Hl). unfold load_wallet in Hw. unfold named.
  cases. by rewrite orb_false_r.
Qed.

Lemma load_doc_doc_of pass salt key ws :
  Forall is_byte salt -> scrypt K pass salt = Ret key ->
  load_doc K pass (doc_of salt ws) = load_wallets_doc K key [] ws.
Proof.
  intros Hb Hkey. unfold load_doc, doc_of. cbn -[load_wallets_doc b64d b64e].
  rewrite b64d_b64e by done. unfold derive. by rewrite Hkey.
Qed.

Lemma serialise_names key l : forall seen w ws w', serialise K key seen l w = (Ret ws, w') ->
  names_in ws = map (fun e => JStr (e_name e)) l.
Proof.
  induction l as [|e l IH]; intros seen w ws w'; cbn [serialise]; [by intros [= <- _]|].
  destruct (bool_decide _); [done|]. unfold bind, lift. destruct (validate_priv_bytes _); [|done..].
  unfold random. destruct (serialise K key _ l (tick w)) as [[rest|e'|] w1] eqn:Hr; [|done..].
  intros [= <- _]. cbn. f_equal. by eapply IH.
Qed.

(** What [save_keystore] does to the disk, whatever fails. *)
Lemma save_spec `{!NoShortWrite K} path pass l salt w :
  Forall is_byte salt -> typed l ->
  wp (save_keystore K path pass l (Some salt)) (fun o w' =>
    match check_entries [] l with
    | Raise e => o = Raise e /\ w_fs w' = w_fs w
    | _ => exists ws, safe_write K path (doc_of salt ws) w o w' /\
           load_doc K pass (doc_of salt ws) = (if existsb (named "") l then Raise KeystoreCorrupt else Ret l) /\
           forall key, scrypt K pass salt = Ret key -> exists w1 w2, serialise K key [] l w1 = (Ret ws, w2)
    end) w.
Proof.
  intros Hb Hl. destruct (crypto_scrypt pass salt) as (key & Hkey & Hlen).
  apply wp_bind, wp_ret, wp_bind. unfold wp at 1, lift, derive. rewrite Hkey. cbn [fst snd].
  apply wp_bind. unfold wp at 1. destruct (serialise_spec K key l Hlen Hl [] w) as (ws & n & Hrun & Hload).
  rewrite Hrun. cbn [fst snd]. destruct (check_entries [] l) as [[]|e|] eqn:Hc; [|done|].
  - eapply wp_mono; [|by apply (atomic_write_safe K path); left]. cbn beta. intros o w' Hs. exists ws.
    split; [exact Hs|]. rewrite (load_doc_doc_of _ _ key) by done. split; [by apply Hload|].
    intros key' Hkey'. assert (key' = key) as -> by congruence. eauto.
  - by destruct (check_entries_returns [] l).
Qed.

(** A read: no file changes, only the disk can make it fail. *)
Definition reads {A} (a : A) (w : world) (o : outcome kexn A) (w' : world) : Prop :=
  w_fs w' = w_fs w /\ (o = Ret a \/ (forall b, o <> Ret b) /\ ~ DiskFine K).
Lemma wp_reads {A B} (m : M world kexn A) (k : A -> M world kexn B) a Q w :
  wp m (reads a w) w ->
  (forall w', w_fs w' = w_fs w -> wp (k a) Q w') ->
  (forall o w', (forall b, o <> Ret b) -> w_fs w' = w_fs w -> ~ DiskFine K -> Q o w') ->
  wp (bind m k) Q w.
Proof.
  intros Hm Hk Hfail. apply wp_bind. eapply wp_mono; [|exact Hm]. intros o w' [Hw [-> | [Ho Hd]]]; [by apply Hk|].
  destruct o as [b|e|]; [by destruct (Ho b) | by apply Hfail..].
Qed.

Lemma sys_reads w : wp (sys K) (reads tt w) w.
Proof.
  apply wp_sys; [by split; [|left]|]. intros o Ho Hi. split; [done|right]. split; [by intros []|].
  intros [Hd _]. by destruct Hi.
Qed.
Lemma read_file_reads err path f w :
  w_fs w !! path = Some f -> wp (os_error_as err (read_file K path)) (reads (f_content f) w) w.
Proof.
  intros Hf. apply wp_catch, wp_reads with (a := tt) (1 := sys_reads w).
  - intros w' Hw. apply wp_bind, wp_gets. rewrite Hw, Hf. by split; [|left].
  - intros o w' Ho Hw Hd. destruct o as [a|[]|]; try by split; [|right].
    cbn. destruct (Sanctions.is_OSError e); by split; [|right].
Qed.
Lemma get_salt_reads path salt ws f w :
  w_fs w !! path = Some f -> f_content f = Doc (doc_of salt ws) -> Forall is_byte salt ->
  wp (get_salt K path) (reads salt w) w.
Proof.
  intros Hf Hd Hb.
  eapply wp_reads; [eapply wp_reads; [by apply read_file_reads| |]| |]; rewrite ?Hd.
  - intros w' Hw. by split; [|left].
  - intros o w' Ho Hw Hn. by split; [|right].
  - intros w' Hw. cbn -[b64d b64e]. unfold wp, lift, b64_field. cbn -[b64d b64e]. rewrite b64d_b64e by done.
    by split; [|left].
  - intros o w' Ho Hw Hn. by split; [|right].
Qed.
Lemma check_file_mode_reads path f w :
  w_fs w !! path = Some f -> Z.land (f_mode f) 63 = 0%Z -> wp (check_file_mode K path) (reads tt w) w.
Proof.
  intros Hf Hm. apply wp_bind, wp_gets. rewrite Hf. apply (wp_reads _ _ tt _ _ (sys_reads w)).
  - intros w' Hw. rewrite Hm. by split; [|left].
  - intros o w' Ho Hw Hn. by split; [|right].
Qed.
Lemma load_keystore_reads path pass salt l f w :
  w_fs w !! path = Some f -> stored K pass salt l f -> wp (load_keystore K path pass) (reads l w) w.
Proof.
  intros Hf (_ & _ & Hm & ws & Hd & Hl).
  eapply wp_reads; [by eapply check_file_mode_reads|intros w1 Hw1|by split; [|right]].
  eapply wp_reads; [apply (read_file_reads _ path f); by rewrite Hw1| |].
  - intros w' Hw. rewrite Hd. unfold wp, lift. rewrite Hl. split; [cbn; congruence | by left].
  - intros o w' Ho Hw Hn. split; [congruence | by right].
Qed.
(** Reading changes no file. *)
Definition same_files (w w' : world) : Prop := w_fs w' = w_fs w.
#[local] Instance same_files_preorder : PreOrder same_files.
Proof. split; [done | intros w1 w2 w3 H1 H2; unfold same_files in *; congruence]. Qed.
Lemma load_keystore_frame pass path : Frame same_files (load_keystore K path pass).
Proof.
  assert (Hsys : Frame same_files (sys K)) by done.
  apply frame_bind; [apply _| |intros _; apply frame_bind; [apply _| |]].
  - apply frame_bind; [apply _..|]. intros [f|]; apply _.
  - apply frame_catch; [apply _| |].
    + apply frame_bind; [apply _..|]. intros _. apply frame_bind; [apply _..|]. intros [f|]; apply _.
    + intros [] r; try done. destruct (Sanctions.is_OSError e); [|done]. intros [= <-]. apply _.
  - intros [| |j]; try apply _. done.
Qed.
Lemma list_wallet_names_reads path salt ws f w :
  w_fs w !! path = Some f -> Z.land (f_mode f) 63 = 0%Z -> f_content f = Doc (doc_of salt ws) ->
  wp (list_wallet_names K path) (reads (names_in ws) w) w.
Proof.
  intros Hf Hm Hd. eapply wp_reads; [by eapply check_file_mode_reads|intros w1 Hw1|by split; [|right]].
  eapply wp_reads; [eapply wp_reads; [apply (read_file_reads _ path f); by rewrite Hw1| |]| |]; rewrite ?Hd.
  - intros w' Hw. by split; [|left].
  - intros o w' Ho Hw Hn. by split; [|right].
  - intros w' Hw. split; [cbn; congruence | by left].
  - intros o w' Ho Hw Hn. split; [congruence | by right].
Qed.

(** An edit reads, and if the list passes, does one safe write of it. *)
Lemma edit_spec {A} `{!NoShortWrite K} (ch : list KeystoreEntry -> kexn + (list KeystoreEntry * A))
    path pass salt l f w :
  w_fs w !! path = Some f -> stored K pass salt l f ->
  (forall l' a, ch l = inr (l', a) -> typed l') ->
  wp (edit K path pass ch) (fun o w' =>
    match checked ch l with
    | inl e => w_fs w' = w_fs w /\ (DiskFine K -> o = Raise e)
    | inr (l', a) =>
        w_fs w' = w_fs w /\ ~ DiskFine K \/
        exists o' ws, safe_write K path (doc_of salt ws) w o' w' /\ (o' = Ret tt -> o = Ret a) /\
        load_doc K pass (doc_of salt ws) = if existsb (named "") l' then Raise KeystoreCorrupt else Ret l'
    end) w.
Proof.
  intros Hf Hs Hty. set (Q := fun _ _ => _).
  assert (Hfail : forall o w', w_fs w' = w_fs w -> ~ DiskFine K -> Q o w').
  { intros o w' Hw Hd. unfold Q. destruct (checked ch l) as [e|[l' a]]; [done | by left]. }
  pose proof Hs as (Hb & _ & _ & ws0 & Hd0 & _).
  eapply wp_reads; [by eapply get_salt_reads | | eauto]. intros w1 Hw1.
  eapply wp_reads; [eapply load_keystore_reads; [by rewrite Hw1 | done] | |].
  2: { intros o w' _ Hw. apply Hfail. congruence. }
  intros w2 Hw2. subst Q. unfold checked. destruct (ch l) as [e|[l' a]] eqn:Hch.
  { apply wp_raise. split; [congruence | done]. }
  apply wp_bind. eapply wp_mono; [|apply (save_spec path pass l' salt w2); [apply Hs | by eapply Hty]].
  cbn beta. intros o w' Hsave. destruct (check_entries [] l') as [[]|e|] eqn:Hc.
  - destruct Hsave as (ws & (H1 & H2 & H3) & Hload & _). rewrite Hw2, Hw1 in H1, H2.
    destruct o as [[]|e|]; right; [exists (Ret tt) | exists (Raise e) | exists Crash]; exists ws;
      split_and!; try done; by split_and!.
  - destruct Hsave as [-> Hw]. split; [cbn; congruence | done].
  - by destruct (check_entries_returns [] l').
Qed.
End Edits.

(** ** The changes keep the keys well typed and name no wallet [""] *)
Definition fine_list (l : list KeystoreEntry) : Prop := typed l /\ existsb (named "") l = false.

Lemma add_fine e l l' a :
  add_change e l = inr (l', a) -> typed l -> Forall is_byte (e_raw_key e) ->
  typed l' /\ existsb (named "") l' = existsb (named "") l || String.eqb (e_name e) "".
Proof.
  unfold add_change. destruct (existsb _ _); [done|]. intros [= <- _] Hl He. split.
  - apply Forall_app. split; [done | by constructor].
  - by rewrite existsb_app; cbn; rewrite orb_false_r.
Qed.
Lemma remove_fine n l l' a :
  remove_change n l = inr (l', a) -> typed l -> existsb (named "") l = false ->
  typed l' /\ existsb (named "") l' = false.
Proof.
  unfold remove_change. destruct (List.find _ _); [|done]. intros [= <- _] Hl He. clear - Hl He.
  induction Hl as [|e l H Hl IH]; cbn in *; [by split; [constructor|]|].
  apply orb_false_iff in He as [H1 H2]. destruct (IH H2). destruct (negb (named n e)); cbn; rewrite ?H1; [|done].
  split; [by constructor | done].
Qed.
Lemma rename_fine old new l l' a :
  rename_change old new l = inr (l', a) -> typed l -> new <> "" -> existsb (named "") l = false ->
  typed l' /\ existsb (named "") l' = false.
Proof.
  unfold rename_change. destruct (existsb (named new) l); [done|]. destruct (existsb (named old) l); [|done].
  intros [= <- _] Hl Hnew He. clear - Hl Hnew He.
  induction Hl as [|e l H Hl IH]; cbn in *; [by split; [constructor|]|].
  apply orb_false_iff in He as [H1 H2]. destruct (IH H2). destruct (named old e); cbn.
  - unfold named at 1. cbn. rewrite (proj2 (String.eqb_neq _ _) Hnew). split; [by constructor | done].
  - rewrite H1. split; [by constructor | done].
Qed.
Lemma checked_inr {A} (ch : list KeystoreEntry -> kexn + (list KeystoreEntry * A)) l l' a :
  checked ch l = inr (l', a) -> ch l = inr (l', a).
Proof. unfold checked. cases. Qed.

(** The keystore holds the old list in the old file, or the new list in a new one. *)
Definition old_or_new (K : kenv) (path : string) (pass salt : bytes) (f : file) (l l' : list KeystoreEntry)
    (w' : world) : Prop :=
  w_fs w' !! path = Some f /\ (DiskFine K -> l' = l) \/
  exists f', w_fs w' !! path = Some f' /\ f_mode f' = 384%Z /\ stored K pass salt l' f'.

Section Family.
Context (K : kenv) `{!Crypto K}.

Lemma stored_names pass salt l f : stored K pass salt l f -> existsb (named "") l = false.
Proof.
  intros (Hb & _ & _ & ws & _ & Hl). destruct (crypto_scrypt pass salt) as (key & Hkey & _).
  rewrite (load_doc_doc_of _ _ _ key) in Hl by done. by eapply load_wallets_doc_names.
Qed.

Lemma edit_stored {A} `{!NoShortWrite K} (ch : list KeystoreEntry -> kexn + (list KeystoreEntry * A))
    path pass salt l f w :
  w_fs w !! path = Some f -> stored K pass salt l f ->
  (forall l' a, ch l = inr (l', a) -> typed l' /\ existsb (named "") l' = false) ->
  wp (edit K path pass ch) (fun o w' =>
    (DiskFine K -> answer o = (after (checked ch l) l).1) /\
    old_or_new K path pass salt f l (after (checked ch l) l).2 w') w.
Proof.
  intros Hf Hs Hch. eapply wp_mono; [|apply (edit_spec K ch path pass salt l f w); [done..|]].
  2: { intros l' a H. by apply (Hch l' a). }
  cbn beta. intros o w'. destruct (checked ch l) as [e|[l' a]] eqn:Hc; cbn [after fst snd].
  - intros [Hw Ho]. split; [intros Hd; by rewrite Ho|]. left. by rewrite Hw.
  - apply checked_inr in Hc. destruct (Hch _ _ Hc) as [Hty Hn]. rewrite Hn.
    intros [[Hw Hd] | (o' & ws & (_ & Hp & Hd) & Ho & Hload)].
    + split; [done|]. left. by rewrite Hw.
    + split; [intros H; by rewrite Ho by auto|]. destruct Hp as [[Ho' Hp] | Hp].
      * left. rewrite Hp. split; [done|]. intros H. by destruct (Ho' (Hd H)).
      * right. eexists. split; [exact Hp|]. split; [done|]. split; [apply Hs|]. split_and!; [done..|].
        by exists ws.
Qed.

(** The edits as one family. *)
Lemma concrete_edit_spec `{!NoShortWrite K} path pass salt l f w o :
  w_fs w !! path = Some f -> stored K pass salt l f -> typed_edit o -> named_edit o = true ->
  (DiskFine K -> (concrete_edit K path pass o w).1 = (model_edit o l).1) /\
  old_or_new K path pass salt f l (model_edit o l).2 (concrete_edit K path pass o w).2.
Proof.
  intros Hf Hs Ho Hname. pose proof (stored_names _ _ _ _ Hs) as Hn. pose proof Hs as (_ & Hty & _).
  destruct o as [e|n|a b]; cbn [concrete_edit model_edit] in *.
  - assert (H := edit_stored (add_change e) path pass salt l f w Hf Hs).
    unfold add_wallet, wp in *. destruct (edit K path pass (add_change e) w). apply H. intros l' u Hc.
    destruct (add_fine _ _ _ _ Hc Hty Ho) as [H1 ->]. rewrite Hn. unfold named_edit in Hname. by bcases.
  - assert (H := edit_stored (remove_change n) path pass salt l f w Hf Hs).
    unfold remove_wallet, wp in *. destruct (edit K path pass (remove_change n) w). apply H. intros l' u Hc.
    by eapply remove_fine.
  - assert (H := edit_stored (rename_change a b) path pass salt l f w Hf Hs).
    unfold rename_wallet, wp in *. destruct (edit K path pass (rename_change a b) w). apply H. intros l' u Hc.
    eapply rename_fine; try done. unfold named_edit in Hname. bcases. by apply String.eqb_neq.
Qed.
End Family.

(** ** What can be saved *)
Definition valid_key (b : bytes) : Prop := List.length b = 32%nat /\ exists x, x ∈ b /\ x <> 0%Z.
Definition savable (l : list KeystoreEntry) : Prop :=
  NoDup (e_name <$> l) /\ Forall (fun e => valid_key (e_raw_key e)) l /\ "" ∉ e_name <$> l.

Lemma validate_ok b : validate_priv_bytes b = Ret tt <-> valid_key b.
Proof.
  unfold validate_priv_bytes, valid_key. destruct (Nat.eqb_spec (List.length b) 32) as [->|Hl]; [|by split; [|intros []]].
  cbn [negb]. destruct (forallb _ b) eqn:Hz; split; try done.
  - intros [_ (x & Hx & Hn)]. rewrite forallb_forall in Hz. apply list_elem_of_In, Hz in Hx. by bcases.
  - intros _. split; [done|]. clear -Hz. induction b as [|y b IH]; [done|]. cbn [forallb] in Hz.
    apply andb_false_iff in Hz as [Hy|Hz]; [exists y | destruct (IH Hz) as (x & Hx & Hn); exists x]; bcases;
      split; try done; by constructor.
Qed.

Lemma check_entries_ok seen l : check_entries seen l = Ret tt <->
  (forall n, n ∈ seen -> n ∉ e_name <$> l) /\ NoDup (e_name <$> l) /\ Forall (fun e => valid_key (e_raw_key e)) l.
Proof.
  revert seen. induction l as [|e l IH]; intros seen; cbn [check_entries].
  { split; [intros _|done]. split_and!; [set_solver | constructor..]. }
  rewrite fmap_cons, NoDup_cons, Forall_cons, <- validate_ok.
  case_bool_decide as Hs; [split; [done | intros (H & _); by destruct (H _ Hs); left]|].
  destruct (validate_priv_bytes (e_raw_key e)) as [[]|x|]; [|by split; [|naive_solver]..].
  rewrite IH. clear IH. set_solver.
Qed.

Lemma named_names l : existsb (named "") l = false <-> "" ∉ e_name <$> l.
Proof.
  induction l as [|e l IH]; [by split; [set_solver|]|]. cbn [existsb]. rewrite fmap_cons, orb_false_iff, IH.
  unfold named. rewrite String.eqb_neq. set_solver.
Qed.

(** What loads can be saved. *)
Lemma loaded_checks (K : kenv) key seen ws l :
  load_wallets_doc K key seen ws = Ret l -> check_entries seen l = Ret tt.
Proof.
  revert seen l. induction ws as [|w ws IH]; intros seen l; cbn [load_wallets_doc]; [by intros [= <-]|].
  destruct (load_wallet K key seen w) as [e|?|] eqn:Hw; [|done..].
  destruct (load_wallets_doc K key (e_name e :: seen) ws) as [l'|?|] eqn:Hl; [|done..]. intros [= <-].
  cbn [check_entries]. assert (bool_decide (e_name e ∈ seen) = false /\ validate_priv_bytes (e_raw_key e) = Ret tt)
    as [-> ->]; [|by apply IH].
  unfold load_wallet in Hw. cases. by destruct a2.
Qed.
Lemma stored_savable (K : kenv) `{!Crypto K} pass salt l f : stored K pass salt l f -> savable l.
Proof.
  intros Hs. pose proof (stored_names K _ _ _ _ Hs) as Hn. destruct Hs as (Hb & _ & _ & ws & _ & Hl).
  destruct (crypto_scrypt pass salt) as (key & Hkey & _). rewrite (load_doc_doc_of _ _ _ key) in Hl by done.
  apply loaded_checks, check_entries_ok in Hl as (_ & H1 & H2). by split_and!; [..|apply named_names].
Qed.

(** What a load gives when the disk works. *)
Lemma load_keystore_fine (K : kenv) path pass f w :
  (forall i, k_io K i = Fine) -> w_fs w !! path = Some f -> Z.land (f_mode f) 63 = 0%Z ->
  fst (load_keystore K path pass w) =
    match f_content f with Doc j => load_doc K pass j | _ => Raise KeystoreCorrupt end.
Proof.
  intros Hio Hf Hm.
  assert (Hsys : forall w, sys K w = (Ret tt, tick w)) by (intros w0; unfold sys; by rewrite Hio).
  assert (Hmode : check_file_mode K path w = (Ret tt, tick w)).
  { unfold check_file_mode, bind, gets. by rewrite Hf, Hsys, Hm. }
  assert (Hread : os_error_as KeystoreError (read_file K path) (tick w) = (Ret (f_content f), tick (tick w))).
  { unfold os_error_as, catch, read_file, bind, gets. rewrite Hsys. cbn [tick w_fs]. by rewrite Hf. }
  unfold load_keystore, bind. rewrite Hmode, Hread. by destruct (f_content f).
Qed.

(** An edit whose load raises does nothing. *)
Lemma edit_load_raises (K : kenv) {A} (ch : list KeystoreEntry -> kexn + (list KeystoreEntry * A))
    path pass salt ws e w :
  DiskFine K -> Forall is_byte salt -> w_fs w !! path = Some (mkFile 384 (Doc (doc_of salt ws))) ->
  load_doc K pass (doc_of salt ws) = Raise e ->
  wp (edit K path pass ch) (fun o w' => o = Raise e /\ w_fs w' = w_fs w) w.
Proof.
  intros HD Hb Hp Hl. apply (wp_reads K _ _ salt).
  - by apply (get_salt_reads K path salt ws _ w Hp).
  - intros w1 Hw1. rewrite <- Hw1 in Hp.
    pose proof (load_keystore_fine K path pass _ _ disk_io Hp eq_refl) as H. cbn [f_content] in H. rewrite Hl in H.
    assert (Hfs : w_fs (snd (load_keystore K path pass w1)) = w_fs w1) by apply (load_keystore_frame K pass path w1).
    unfold wp, bind. destruct (load_keystore K path pass w1) as [o w2]. cbn [fst snd] in *. subst o.
    split; [done | cbn; congruence].
  - intros o w' _ _ []. done.
Qed.

(** Under a key that authenticates nothing, the first wallet is refused. *)
Lemma foreign_key (K : kenv) `{!Crypto K} key key' e l w ws w' :
  List.length key = 32%nat -> typed (e :: l) -> e_name e <> "" ->
  (forall iv pt aad, aes_decrypt K key' iv (aes_encrypt K key iv pt aad) aad = Raise (EOther "InvalidTag" "")) ->
  serialise K key [] (e :: l) w = (Ret ws, w') -> load_wallets_doc K key' [] ws = Raise WrongPassphrase.
Proof.
  intros Hlen Hty Hne Hauth. apply Forall_cons in Hty as [Hb _]. cbn [serialise].
  rewrite bool_decide_false by set_solver. unfold bind, lift. destruct (validate_priv_bytes _); [|done..].
  unfold random. destruct (crypto_random (w_tick w) AES_GCM_IV_BYTES) as [Hivb Hivl].
  set (iv := k_random K (w_tick w) AES_GCM_IV_BYTES) in *.
  destruct (crypto_aead key iv (e_raw_key e) (e_name e)) as [_ Hct]; [done..|].
  destruct (serialise K key _ l (tick w)) as [[rest|e'|] w1]; [|done..]. intros [= <- _].
  cbn [load_wallets_doc]. unfold load_wallet, wallet_doc, b64_field. cbn [jget String.eqb Ascii.eqb Bool.eqb].
  rewrite (proj2 (String.eqb_neq _ _) Hne), bool_decide_false by set_solver.
  rewrite !b64d_b64e by done. by rewrite Hauth.
Qed.

(** Every key a load returns can be saved. *)
Lemma load_keystore_keys (K : kenv) path pass :
  Rets (load_keystore K path pass) (Forall (fun e => valid_key (e_raw_key e))).
Proof.
  unfold load_keystore. apply rets_bind_any. intros _. apply rets_bind_any. intros [| |j].
  1,2: apply rets_no_ret, _.
  intros w l. unfold lift, load_doc, doc_salt. cbn [fst]. intros H.
  cases. all: by apply loaded_checks, check_entries_ok in H as (_ & _ & ?).
Qed.

(** On a keystore that can be saved, the code's edit of the list is the abstract one. *)
Lemma named_in n l : existsb (named n) l = bool_decide (n ∈ names l).
Proof.
  apply Bool.eq_iff_eq_true. rewrite bool_decide_eq_true, existsb_exists. unfold names, named.
  rewrite list_elem_of_In, in_map_iff. setoid_rewrite String.eqb_eq. naive_solver.
Qed.
Lemma find_named n l : bool_decide (n ∈ names l) = bool_decide (is_Some (List.find (named n) l)).
Proof.
  rewrite <- named_in. induction l as [|e l IH]; [done|]. cbn. destruct (named n e); [done | exact IH].
Qed.
Lemma filter_named n l : List.filter (fun e => negb (named n e)) l = filter (fun e => e_name e <> n) l.
Proof.
  induction l as [|e l IH]; [done|]. rewrite filter_cons, <- IH. cbn [List.filter]. unfold named at 1.
  destruct (String.eqb_spec (e_name e) n) as [He|He]; cbn;
    destruct (decide (e_name e <> n)); (contradiction || done).
Qed.
Lemma rename_first_map a b l : NoDup (names l) ->
  rename_first a b l = map (fun e => if decide (e_name e = a) then mkEntry b (e_address e) (e_raw_key e) else e) l.
Proof.
  induction l as [|e l IH]; cbn; [done|]. intros [He Hl]%NoDup_cons. rewrite <- IH by done. unfold named.
  destruct (String.eqb_spec (e_name e) a) as [<-|Hn]; case_decide; try done. f_equal.
  rewrite IH by done. clear IH Hl. rewrite <- (map_id l) at 1. apply map_ext_in. intros x Hx.
  case_decide as Hxa; [|done]. destruct He. rewrite <- Hxa. by apply list_elem_of_In, in_map.
Qed.
Lemma checked_savable {A} (ch : list KeystoreEntry -> kexn + (list KeystoreEntry * A)) l l' a :
  ch l = inr (l', a) -> check_entries [] l' = Ret tt -> after (checked ch l) l = (None, l').
Proof. intros H1 H2. unfold checked. by rewrite H1, H2. Qed.
Lemma check_snoc seen l e : check_entries seen l = Ret tt -> e_name e ∉ names l -> e_name e ∉ seen ->
  check_entries seen (l ++ [e])%list = validate_priv_bytes (e_raw_key e).
Proof.
  revert seen. induction l as [|x l IH]; intros seen; cbn.
  - intros _ _ Hs. rewrite bool_decide_false by done. by destruct (validate_priv_bytes _) as [[]| |].
  - case_bool_decide; [done|]. destruct (validate_priv_bytes (e_raw_key x)); [|done..]. intros Hc Hn Hs.
    rewrite not_elem_of_cons in Hn. destruct Hn. apply IH; [done..|]. by rewrite not_elem_of_cons.
Qed.
Lemma savable_checks l : savable l -> check_entries [] l = Ret tt.
Proof. intros (H1 & H2 & _). apply check_entries_ok. split_and!; [set_solver | done..]. Qed.
Lemma names_filter P `{forall e, Decision (P e)} l : names (filter P l) `sublist_of` names l.
Proof.
  induction l as [|e l IH]; [done|]. rewrite filter_cons. case_decide; cbn; by constructor.
Qed.
Lemma filter_savable P `{forall e, Decision (P e)} l : savable l -> savable (filter P l).
Proof.
  intros (H1 & H2 & H3). pose proof (names_filter P l) as Hn. split_and!.
  - by eapply sublist_NoDup.
  - rewrite Forall_forall in *. intros x [_ Hx]%list_elem_of_filter. auto.
  - intros Hi. by apply H3, (elem_of_sublist _ _ _ Hi Hn).
Qed.

Lemma model_abstract o l : savable l -> model_edit o l = abstract_edit o l.
Proof.
  intros Hs. pose proof (savable_checks _ Hs) as Hc. destruct o as [e|n|a b]; cbn [model_edit abstract_edit].
  - unfold checked, add_change. rewrite named_in. case_bool_decide as Hi; [done|].
    rewrite check_snoc by (done || set_solver). by destruct (validate_priv_bytes _) as [[]| |].
  - unfold checked, remove_change. rewrite find_named, <- filter_named.
    destruct (List.find (named n) l) as [x|]; [|done]. rewrite bool_decide_true by done.
    rewrite (savable_checks (List.filter _ l)); [done|]. rewrite filter_named.
    by apply filter_savable.
  - unfold checked, rename_change. rewrite !named_in. case_bool_decide as Hb; [done|]. case_bool_decide as Ha; [|done].
    destruct Hs as (Hn & Hk & _). rewrite rename_first_map by done.
    rewrite (proj2 (check_entries_ok [] _)); [done|]. split_and!; [set_solver| |].
    + clear Hc Hk Ha. unfold names in Hb. induction l as [|e l IH]; [done|]. cbn in *.
      apply NoDup_cons in Hn as [He Hn]. apply not_elem_of_cons in Hb as [Hbe Hb]. specialize (IH Hn Hb).
      apply NoDup_cons. split; [|done]. rewrite list_elem_of_In. intros (x & Hx & Hi)%in_map_iff.
      apply in_map_iff in Hi as (y & <- & Hy). apply He. apply list_elem_of_In, in_map_iff. exists y. split; [|done].
      assert (e_name y <> b) by (intros <-; apply Hb; by apply list_elem_of_In, in_map).
      repeat case_decide; cbn in *; congruence.
    + apply List.Forall_forall. intros x (y & <- & Hy)%in_map_iff.
      assert (valid_key (e_raw_key y)) by (rewrite List.Forall_forall in Hk; auto). by case_decide.
Qed.

(** ** The properties *)

(** C13: Against an abstract keystore that is only a list of named keys, [add_wallet],
    [remove_wallet] and [rename_wallet] in any sequence give the same answers as the
    list operations, and afterwards the file decrypts, under the same passphrase and
    salt, to exactly the abstract list, in order.  (With a working disk and no edit
    that names a wallet [""].) *)
Theorem keystore_refines (K : kenv) path pass salt l f w os :
  Crypto K -> DiskFine K -> w_fs w !! path = Some f -> stored K pass salt l f ->
  Forall typed_edit os -> forallb named_edit os = true ->
  let '(answers, w') := concrete_edits K path pass os w in
  let '(answers', l') := abstract_edits os l in
  answers = answers' /\ fst (load_keystore K path pass w') = Ret l' /\
  exists f', w_fs w' !! path = Some f' /\ stored K pass salt l' f'.
Proof.
  intros HC HD Hf Hs Hty Hn. revert w l f Hf Hs Hty Hn.
  induction os as [|o os IH]; intros w l f Hf Hs Hty Hn; cbn [concrete_edits abstract_edits].
  { split_and!; [done | | by exists f].
    destruct (load_keystore_reads K path pass salt l f w Hf Hs) as [_ [H | [_ H]]]; [done | by destruct H]. }
  apply Forall_cons in Hty as [Ho Hty]. cbn [forallb] in Hn. bcases.
  destruct (concrete_edit_spec K path pass salt l f w o) as [Ha Hnew]; [done..|].
  rewrite (model_abstract o l) in * by (by eapply stored_savable).
  destruct (concrete_edit K path pass o w) as [a w1]. destruct (abstract_edit o l) as [a' l1]. cbn [fst snd] in *.
  assert (exists f1, w_fs w1 !! path = Some f1 /\ stored K pass salt l1 f1) as (f1 & Hf1 & Hs1).
  { destruct Hnew as [[Hw Hl] | (f1 & Hw & _ & Hs1)]; [|by exists f1].
    exists f. by rewrite Hl. }
  specialize (IH w1 l1 f1 Hf1 Hs1 Hty H0).
  destruct (concrete_edits K path pass os w1) as [as1 w2], (abstract_edits os l1) as [as2 l2].
  destruct IH as (-> & Hload & Hst). by rewrite (Ha HD).
Qed.

(** C14: Whatever system call of an edit raises, and wherever the process dies in it, the
    keystore file is afterwards the old file or a new one, of mode 0600, that decrypts
    to the complete edited list; provided that [os.write] writes all it was given. *)
Theorem keystore_crash_safe (K : kenv) path pass salt l f w o :
  Crypto K -> NoShortWrite K -> w_fs w !! path = Some f -> stored K pass salt l f ->
  typed_edit o -> named_edit o = true ->
  let w' := snd (concrete_edit K path pass o w) in
  w_fs w' !! path = Some f \/
  exists f', w_fs w' !! path = Some f' /\ f_mode f' = 384%Z /\ stored K pass salt (snd (abstract_edit o l)) f'.
Proof.
  intros HC HN Hf Hs Hty Hn. rewrite <- model_abstract by (by eapply stored_savable).
  destruct (concrete_edit_spec K path pass salt l f w o) as [_ [[H _] | H]]; [done..|by left|by right].
Qed.

(** C15: Saving and loading are inverse: a list of distinct, non-empty names with 32-byte
    non-zero keys, saved under a passphrase with a given or a fresh salt, is written
    without an error, loads back under that passphrase as the same list in the same
    order, and its names can be listed without it.  No other file changes. *)
Theorem save_load_roundtrip (K : kenv) path pass l salt w :
  Crypto K -> DiskFine K -> typed l -> savable l -> Forall is_byte (default [] salt) ->
  let '(o, w') := save_keystore K path pass l salt w in
  o = Ret tt /\
  fst (load_keystore K path pass w') = Ret l /\
  fst (list_wallet_names K path w') = Ret (map (fun e => JStr (e_name e)) l) /\
  (forall p, p <> path -> p <> TMP path -> w_fs w' !! p = w_fs w !! p).
Proof.
  intros HC HD Hty (Hnd & Hk & Hne) Hb.
  assert (exists s w1, save_keystore K path pass l salt w = save_keystore K path pass l (Some s) w1 /\
            w_fs w1 = w_fs w /\ Forall is_byte s) as (s & w1 & -> & Hfs & Hs).
  { destruct salt as [s|]; [by exists s, w|]. exists (k_random K (w_tick w) SCRYPT_SALT_BYTES), (tick w).
    split_and!; [done..|]. apply crypto_random. }
  pose proof (save_spec K path pass l s w1 Hs Hty) as Hsave. unfold wp in Hsave.
  destruct (save_keystore K path pass l (Some s) w1) as [o w']. cbn [fst snd] in Hsave.
  rewrite (proj2 (check_entries_ok [] l)) in Hsave by (split_and!; [set_solver | done..]).
  rewrite (proj2 (named_names l) Hne) in Hsave.
  destruct Hsave as (ws & (Hother & Hp & Hret) & Hload & Hser).
  destruct (crypto_scrypt pass s) as (key & Hkey & _). destruct (Hser key Hkey) as (v & v' & Hser').
  apply serialise_names in Hser' as Hnames.
  specialize (Hret HD) as ->. destruct Hp as [[[] _] | Hp]; [done|].
  split_and!; [done| | |intros p H1 H2; by rewrite Hother, Hfs].
  - assert (Hst : stored K pass s l (mkFile 384 (Doc (doc_of s ws)))) by (split_and!; [done..|by exists ws]).
    destruct (load_keystore_reads K path pass s l _ w' Hp Hst) as [_ [H | [_ H]]]; [done | by destruct H].
  - rewrite <- Hnames.
    destruct (list_wallet_names_reads K path s ws _ w' Hp) as [_ [H | [_ H]]]; [done..|by destruct H].
Qed.

(** A keystore with at least one wallet opens only under its passphrase: under one whose
    key does not authenticate the blobs, loading raises WrongPassphrase, and so does every
    edit, which then leaves the file as it was.  A keystore without wallets holds nothing
    that could tell: it opens under every passphrase. *)
Theorem wrong_passphrase (K : kenv) path pass key pass' key' l salt w o :
  Crypto K -> DiskFine K -> typed l -> savable l -> Forall is_byte salt ->
  scrypt K pass salt = Ret key -> scrypt K pass' salt = Ret key' ->
  (forall iv pt aad, aes_decrypt K key' iv (aes_encrypt K key iv pt aad) aad = Raise (EOther "InvalidTag" "")) ->
  let w' := snd (save_keystore K path pass l (Some salt) w) in
  if bool_decide (l = []) then fst (load_keystore K path pass' w') = Ret []
  else fst (load_keystore K path pass' w') = Raise WrongPassphrase /\
       fst (concrete_edit K path pass' o w') = Some WrongPassphrase /\
       w_fs (snd (concrete_edit K path pass' o w')) = w_fs w'.
Proof.
  intros HC HD Hty Hsv Hb Hk Hk' Hauth w'. subst w'. pose proof Hsv as (Hnd & Hval & _).
  pose proof (save_spec K path pass l salt w Hb Hty) as Hsave. unfold wp in Hsave.
  rewrite (proj2 (check_entries_ok [] l)) in Hsave by (split_and!; [set_solver | done..]).
  destruct (save_keystore K path pass l (Some salt) w) as [r w']. cbn [fst snd] in *.
  destruct Hsave as (ws & (_ & Hp & Hret) & _ & Hser). specialize (Hret HD) as ->.
  destruct Hp as [[[] _] | Hp]; [done|]. destruct (Hser key Hk) as (w1 & w2 & Hs). clear Hser.
  assert (Hload : forall w, w_fs w = w_fs w' -> fst (load_keystore K path pass' w) = load_wallets_doc K key' [] ws).
  { intros w0 Hw0. rewrite (load_keystore_fine K path pass' _ _ disk_io) by (by rewrite ?Hw0). 
    by apply load_doc_doc_of. }
  destruct l as [|e l].
  { rewrite bool_decide_true, Hload by done. cbn in Hs. by injection Hs as <- <-. }
  rewrite bool_decide_false by done. destruct (crypto_scrypt pass salt) as (k & Hkk & Hlen).
  assert (Hwp : load_wallets_doc K key' [] ws = Raise WrongPassphrase).
  { eapply (foreign_key K key key' e l); [congruence|done| |exact Hauth|exact Hs]. destruct Hsv as (_ & _ & Hne). set_solver. }
  rewrite Hload by done. split; [done|].
  assert (Hd : load_doc K pass' (doc_of salt ws) = Raise WrongPassphrase) by by rewrite (load_doc_doc_of _ _ _ key').
  assert (Hedit : forall A ch, wp (edit K path pass' (A:=A) ch) (fun o w'' => o = Raise WrongPassphrase /\
            w_fs w'' = w_fs w') w') by (intros; by eapply edit_load_raises).
  unfold wp in Hedit. destruct o as [x|n|x y]; cbn [concrete_edit];
    [specialize (Hedit _ (add_change x)); unfold add_wallet
    |specialize (Hedit _ (remove_change n)); unfold remove_wallet
    |specialize (Hedit _ (rename_change x y)); unfold rename_wallet];
    destruct (edit K path pass' _ w') as [r w'']; cbn [fst snd] in Hedit; by destruct Hedit as [-> ?].
Qed.

(** ** Where the promise is not kept *)

(** [os.write] may write less than it is given and says so in a value the code drops. *)
Lemma atomic_write_short (K : kenv) path j w :
  (forall i, k_io K i = Fine) -> (forall i, k_write K i = Short) ->
  wp (atomic_write K path j true) (fun o w' =>
    o = Ret tt /\ w_fs w' !! path = Some (mkFile 384 BadJson)) w.
Proof.
  intros Hio Hwr. set (Q := fun _ _ => _).
  assert (Hsys : forall A (k : unit -> M world kexn A) P w, wp (k tt) P (tick w) -> wp (bind (sys K) k) P w).
  { intros A k P w0 H. apply wp_bind. unfold wp at 1, sys. by rewrite Hio. }
  apply Hsys, wp_bind, wp_gets, wp_bind. 
  assert (Hrest : forall w, wp (do! sys K in do! put (TMP path) (mkFile 384 BadJson) in
    do! os_write K (TMP path) j in do! sys K in install K path true) Q w).
  { intros w0. apply Hsys, wp_bind, wp_modify, wp_bind. unfold wp, os_write. rewrite Hwr. cbn [fst snd].
    apply Hsys, wp_bind, wp_gets. rewrite andb_false_r. apply wp_bind, wp_ret, Hsys, wp_bind, wp_modify.
    cbn [tick w_fs set_fs]. rewrite lookup_insert_eq. apply wp_catch. unfold wp, sys. rewrite Hio. split; [done|].
    apply lookup_insert_eq. }
  destruct (w_fs (tick w) !! TMP path); [|apply wp_ret, Hrest]. apply Hsys, wp_modify, Hrest.
Qed.

(** The number of bytes [os.write] says it wrote is not looked at: when it writes only
    a part (a full disk, a quota), the save still returns normally, the good keystore has
    been replaced by the torn text, and loading it raises KeystoreCorrupt. *)
Theorem short_write_destroys (K : kenv) path pass l salt w :
  Crypto K -> (forall i, k_io K i = Fine) -> (forall i, k_write K i = Short) -> typed l -> savable l ->
  Forall is_byte salt ->
  let '(o, w') := save_keystore K path pass l (Some salt) w in
  o = Ret tt /\ fst (load_keystore K path pass w') = Raise KeystoreCorrupt.
Proof.
  intros HC Hio Hwr Hty (Hnd & Hk & _) Hb. destruct (crypto_scrypt pass salt) as (key & Hkey & Hlen).
  assert (H : wp (save_keystore K path pass l (Some salt)) (fun o w' =>
    o = Ret tt /\ w_fs w' !! path = Some (mkFile 384 BadJson)) w).
  { apply wp_bind, wp_ret, wp_bind. unfold wp at 1, lift, derive. rewrite Hkey. cbn [fst snd].
    apply wp_bind. unfold wp at 1. destruct (serialise_spec K key l Hlen Hty [] w) as (ws & n & -> & _).
    rewrite (proj2 (check_entries_ok [] l)) by (split_and!; [set_solver | done..]).
    by apply atomic_write_short. }
  unfold wp in H. destruct (save_keystore K path pass l (Some salt) w) as [o w']. cbn [fst snd] in H.
  destruct H as [-> Hp]. split; [done|].
  by rewrite (load_keystore_fine K path pass _ _ Hio Hp).
Qed.

(** [add_wallet] accepts the empty name and reports success, and from then on
    [load_keystore] refuses the whole file as corrupt under every call. *)
Theorem empty_name_locks (K : kenv) path pass salt l f e w :
  Crypto K -> DiskFine K -> w_fs w !! path = Some f -> stored K pass salt l f ->
  e_name e = "" -> valid_key (e_raw_key e) -> Forall is_byte (e_raw_key e) ->
  let '(o, w') := add_wallet K path pass e w in
  o = Ret tt /\ fst (load_keystore K path pass w') = Raise KeystoreCorrupt.
Proof.
  intros HC HD Hf Hs He Hk Hb. pose proof (stored_names _ _ _ _ _ Hs) as Hn. pose proof Hs as (Hsalt & Hty & _).
  assert (Hc : checked (add_change e) l = inr ((l ++ [e])%list, tt)).
  { unfold checked, add_change. rewrite He, Hn.
    destruct (stored_savable _ _ _ _ _ Hs) as (Hnd & Hl & Hne).
    rewrite (proj2 (check_entries_ok [] _)); [done|]. rewrite fmap_app, NoDup_app, Forall_app. cbn. rewrite He.
    split_and!; [set_solver|done|set_solver|apply NoDup_singleton|done|by constructor]. }
  pose proof (edit_spec K (add_change e) path pass salt l f w Hf Hs) as H. unfold wp in H. rewrite Hc in H.
  unfold add_wallet. destruct (edit K path pass (add_change e) w) as [o w']. cbn [fst snd] in H.
  destruct H as [[_ []] | (o' & ws & (_ & Hp & Hret) & Ho & Hload)]; [|done|].
  { intros l' a Hl. by eapply add_fine. }
  split; [by apply Ho, Hret|]. destruct Hp as [[Hno _] | Hp]; [by destruct Hno; apply Hret|].
  rewrite (load_keystore_fine K path pass _ _ (disk_io (K:=K)) Hp) by done. cbn [f_content].
  rewrite Hload, existsb_app. cbn. unfold named at 2. rewrite He. cbn. by rewrite orb_true_r.
Qed.

(** ** The hypotheses can hold *)
Definition demo_tag (key : bytes) (aad : string) : Z := ((List.hd 0 key + Z.of_nat (String.length aad)) mod 256)%Z.
(** A toy cipher: the plaintext behind a one-byte tag. *)
Definition demo (io : nat -> fate exn) (wr : nat -> write_result) : kenv :=
  mkKenv io wr (fun i n => replicate n (Z.of_nat i mod 256)%Z)
    (fun pass salt => Ret (replicate 32 (List.hd 0%Z pass)))
    (fun key iv pt aad => demo_tag key aad :: pt)
    (fun key iv ct aad =>
       match ct with
       | t :: pt => if (t =? demo_tag key aad)%Z then Ret pt else Raise (EOther "InvalidTag" "")
       | [] => Raise (EOther "InvalidTag" "")
       end).
Definition fine_io : nat -> fate exn := fun _ => Fine.
#[global] Instance demo_crypto io wr : Crypto (demo io wr).
Proof.
  assert (Hmod : forall n, is_byte (n mod 256)) by (intros; apply Z.mod_pos_bound; lia).
  split.
  - intros pass salt. eexists. split; [reflexivity|]. apply length_replicate.
  - intros i n. split; [by apply Forall_replicate | apply length_replicate].
  - intros key iv pt aad _ _ _ Hpt. cbn. rewrite Z.eqb_refl. split; [done|]. constructor; [apply Hmod | done].
Qed.
#[global] Instance demo_fine : DiskFine (demo fine_io (fun _ => Whole)).
Proof. by split. Qed.
Definition demo_key (b : Z) : bytes := replicate 32 b.
Definition demo_entry (name : string) (b : Z) : KeystoreEntry := mkEntry name "TAddress" (demo_key b).
Definition demo_empty : file := mkFile 384 (Doc (doc_of [1; 2; 3]%Z [])).
Definition demo_disk (f : file) : world := mkWorld {[ "ks.json" := f ]} 0.
Definition demo_edits : list edit_op :=
  [Add (demo_entry "main" 7); Add (demo_entry "hot" 9); Add (demo_entry "main" 1); Rename "hot" "cold";
   Remove "hot"; Remove "main"].
Lemma demo_key_ok b : is_byte b -> b <> 0%Z -> valid_key (demo_key b) /\ Forall is_byte (demo_key b).
Proof.
  intros Hb Hn. split; [split; [done|] | by apply Forall_replicate].
  exists b. split; [|done]. by apply (list_elem_of_lookup_2 _ 0).
Qed.
Definition demo_list : list KeystoreEntry := [demo_entry "main" 7; demo_entry "hot" 9].
Lemma demo_list_ok : typed demo_list /\ savable demo_list.
Proof.
  unfold typed, savable, demo_list. rewrite !Forall_cons. split_and!; try done; try by apply demo_key_ok.
  - by apply (bool_decide_unpack _).
  - set_solver.
Qed.
Lemma demo_empty_stored io wr : stored (demo io wr) [5%Z] [1; 2; 3]%Z [] demo_empty.
Proof. split_and!; [repeat constructor; done | constructor | done | by exists []]. Qed.

Lemma keystore_refines_witness :
  abstract_edits demo_edits [] =
    ([None; None; Some WalletNameConflict; None; Some KeystoreError; None], [demo_entry "cold" 9]) /\
  let '(answers, w') := concrete_edits (demo fine_io (fun _ => Whole)) "ks.json" [5%Z] demo_edits (demo_disk demo_empty) in
  let '(answers', l') := abstract_edits demo_edits [] in
  answers = answers' /\ fst (load_keystore (demo fine_io (fun _ => Whole)) "ks.json" [5%Z] w') = Ret l' /\
  exists f', w_fs w' !! "ks.json" = Some f' /\ stored (demo fine_io (fun _ => Whole)) [5%Z] [1; 2; 3]%Z l' f'.
Proof.
  split; [reflexivity|].
  apply (keystore_refines (demo fine_io (fun _ => Whole)) "ks.json" [5%Z] [1; 2; 3]%Z [] demo_empty);
    [apply _|apply _|reflexivity|apply demo_empty_stored| |reflexivity].
  unfold demo_edits. rewrite !Forall_cons. split_and!; try done; by apply demo_key_ok.
Defined.

Lemma keystore_crash_safe_witness :
  let K := demo (fun i => if (i =? 9)%nat then Dies else Fine) (fun _ => Whole) in
  let w' := snd (concrete_edit K "ks.json" [5%Z] (Add (demo_entry "main" 7)) (demo_disk demo_empty)) in
  w_fs w' !! "ks.json" = Some demo_empty \/
  exists f', w_fs w' !! "ks.json" = Some f' /\ f_mode f' = 384%Z /\ stored K [5%Z] [1; 2; 3]%Z [demo_entry "main" 7] f'.
Proof.
  intros K. apply (keystore_crash_safe K "ks.json" [5%Z] [1; 2; 3]%Z [] demo_empty (demo_disk demo_empty)
    (Add (demo_entry "main" 7))).
  - apply _.
  - done.
  - reflexivity.
  - apply demo_empty_stored.
  - by apply Forall_replicate.
  - reflexivity.
Defined.

Lemma save_load_roundtrip_witness :
  let K := demo fine_io (fun _ => Whole) in
  let l := demo_list in
  let '(o, w') := save_keystore K "ks.json" [5%Z] l None (demo_disk demo_empty) in
  o = Ret tt /\ fst (load_keystore K "ks.json" [5%Z] w') = Ret l /\
  fst (list_wallet_names K "ks.json" w') = Ret [JStr "main"; JStr "hot"] /\
  (forall p, p <> "ks.json" -> p <> TMP "ks.json" -> w_fs w' !! p = w_fs (demo_disk demo_empty) !! p).
Proof.
  intros K l. apply (save_load_roundtrip K "ks.json" [5%Z] l None (demo_disk demo_empty)); [apply _..| | |constructor].
  - apply demo_list_ok.
  - apply demo_list_ok.
Defined.

Lemma wrong_passphrase_witness :
  let K := demo fine_io (fun _ => Whole) in
  let l := demo_list in
  let w' := snd (save_keystore K "ks.json" [5%Z] l (Some [1; 2; 3]%Z) (demo_disk demo_empty)) in
  fst (load_keystore K "ks.json" [6%Z] w') = Raise WrongPassphrase /\
  fst (concrete_edit K "ks.json" [6%Z] (Remove "main") w') = Some WrongPassphrase /\
  w_fs (snd (concrete_edit K "ks.json" [6%Z] (Remove "main") w')) = w_fs w'.
Proof.
  intros K l. apply (wrong_passphrase K "ks.json" [5%Z] (replicate 32 5%Z) [6%Z] (replicate 32 6%Z) l [1; 2; 3]%Z
    (demo_disk demo_empty) (Remove "main")); [apply _..| | | |reflexivity|reflexivity|].
  - apply demo_list_ok.
  - apply demo_list_ok.
  - repeat constructor; done.
  - intros iv pt aad. cbn. unfold demo_tag. cbn [replicate List.hd].
    rewrite (proj2 (Z.eqb_neq _ _)); [done|]. intros H. set (n := Z.of_nat (String.length aad)) in *. 
    pose proof (Z.div_mod (5 + n) 256). pose proof (Z.div_mod (6 + n) 256). lia.
Defined.

Lemma short_write_destroys_witness :
  let K := demo fine_io (fun _ => Short) in
  let '(o, w') := save_keystore K "ks.json" [5%Z] demo_list (Some [1; 2; 3]%Z) (demo_disk demo_empty) in
  o = Ret tt /\ fst (load_keystore K "ks.json" [5%Z] w') = Raise KeystoreCorrupt.
Proof.
  intros K. apply (short_write_destroys K "ks.json" [5%Z] demo_list [1; 2; 3]%Z (demo_disk demo_empty));
    [apply _|done|done| | |].
  - apply demo_list_ok.
  - apply demo_list_ok.
  - repeat constructor; done.
Defined.

Lemma empty_name_locks_witness :
  let K := demo fine_io (fun _ => Whole) in
  let '(o, w') := add_wallet K "ks.json" [5%Z] (demo_entry "" 7) (demo_disk demo_empty) in
  o = Ret tt /\ fst (load_keystore K "ks.json" [5%Z] w') = Raise KeystoreCorrupt.
Proof.
  intros K. apply (empty_name_locks K "ks.json" [5%Z] [1; 2; 3]%Z [] demo_empty (demo_entry "" 7) (demo_disk demo_empty));
    [apply _|apply _|reflexivity|apply demo_empty_stored|reflexivity|by apply demo_key_ok|by apply demo_key_ok].
Defined.
