(* ===== verification/KeyProviders.v ===== *)
(** * Where the private keys come from ([key_providers.py], [security.load_wallets])

    The state is the process environment, the bytearrays and strings that hold key
    material (cells of a heap: wiping and aliasing matter here) and the keystore's disk.
    The 1Password and Keychain command lines, the key files and the elliptic curve are
    parameters.  Log lines are left out. *)
From S2P Require Import Prelude PyStr Effects Exceptions Base64.
From S2P Require Keystore KeystoreSpec Sanctions.
Open Scope string_scope.

Definition DEFAULT_WALLET_NAME : string := "default".

(** [bytes(s, "ascii")] *)
Definition to_bytes (s : string) : bytes := map (fun c => Z.of_N (ord c)) (String.list_ascii_of_string s).

Record LoadedWallet := mkLoaded { lw_name : string; lw_raw_key : nat; lw_address : string }.

Record pworld := mkP { environ : gmap string string; heap : list bytes; disk : Keystore.world }.
Definition set_environ (f : gmap string string -> gmap string string) (w : pworld) : pworld :=
  mkP (f (environ w)) (heap w) (disk w).
Definition set_heap (f : list bytes -> list bytes) (w : pworld) : pworld :=
  mkP (environ w) (f (heap w)) (disk w).

(** What [subprocess.run] and [os.stat; open; read] give. *)
Inductive cli_result := CliFails (e : exn) | CliDone (returncode : Z) (stdout : bytes).
Inductive key_file := StatFails (e : exn) | KeyFile (mode : Z) (data : outcome exn bytes).

Record penv := mkPenv {
  WALLETS : string; KEY_PROVIDER : string; PRIVATE_KEY_FILE : string; KEYSTORE_FILE : string;
  KEY_PASSPHRASE_FILE : string; OP_ITEM : string; KEYCHAIN_ACCOUNT : string;
  darwin : bool;
  key_files : string -> key_file;
  op : string -> cli_result;                        (** the item *)
  security : string -> cli_result;                  (** the account *)
  pass_files : string -> Keystore.pass_file;
  prompt : option string;                           (** what the terminal answers, if stdin is one *)
  crypto : Keystore.kenv;
  (** [PrivateKey(b)] and its address. *)
  derive_address : bytes -> outcome exn string }.

Definition SystemExit : exn := EBase "SystemExit".

(** ** Key text *)

(** White space for [bytes.rstrip] and [bytearray.fromhex]. *)
Definition byte_space (b : Z) : bool := ((9 <=? b) && (b <=? 13) || (b =? 32))%Z.
Definition crlf (b : Z) : bool := ((b =? 13) || (b =? 10))%Z.
Fixpoint rstrip_bytes (p : Z -> bool) (l : bytes) : bytes :=
  match l with
  | [] => []
  | b :: l => match rstrip_bytes p l with [] => if p b then [] else [b] | r => b :: r end
  end.

Definition hexval (b : Z) : option Z :=
  (if (48 <=? b) && (b <=? 57) then Some (b - 48)
   else if (97 <=? b) && (b <=? 102) then Some (b - 87)
   else if (65 <=? b) && (b <=? 70) then Some (b - 55) else None)%Z.
(** [bytearray.fromhex]: white space is skipped between bytes. *)
Fixpoint fromhex (l : bytes) : option bytes :=
  match l with
  | [] => Some []
  | b :: l' =>
      if byte_space b then fromhex l'
      else match l' with
           | [] => None
           | b2 :: l'' =>
               match hexval b, hexval b2 with
               | Some h, Some l => cons (16 * h + l)%Z <$> fromhex l''
               | _, _ => None
               end
           end
  end.
(** [raw[:2] in (b"0x", b"0X")] *)
Definition drop_0x (l : bytes) : bytes :=
  match l with
  | b1 :: b2 :: l' => if ((b1 =? 48) && ((b2 =? 120) || (b2 =? 88)))%Z then l' else l
  | _ => l
  end.

Section Providers.
Context (E : penv).
Abbreviation MP := (M pworld exn).

Definition sys_exit {A} : MP A := raise SystemExit.

(** A new object, its content, a write in place. *)
Definition new (b : bytes) : MP nat := fun w => (Ret (List.length (heap w)), set_heap (fun h => h ++ [b])%list w).
Definition deref (i : nat) : MP bytes := gets (fun w => default [] (heap w !! i)).
Definition store (i : nat) (b : bytes) : MP unit := modify (set_heap (fun h => <[i := b]> h)).
Definition getenv (k : string) : MP string := gets (fun w => default "" (environ w !! k)).
Definition delenv (k : string) : MP unit := modify (set_environ (delete k)).

(** [_wipe] and [wipe_bytearray]: [buf[i] = 0] for every index. *)
Definition wipe (i : nat) : MP unit := let! b := deref i in store i (replicate (List.length b) 0%Z).

(** [_decode_hex_to_bytes]: [raw] is the caller's bytearray. *)
Definition decode_hex_to_bytes (raw : nat) : MP nat :=
  let! b := deref raw in
  let! _ := new b in                                            (** [bytearray(raw)] *)
  let! _ := new (rstrip_bytes crlf b) in
  let text := rstrip_bytes byte_space (rstrip_bytes crlf b) in
  let! raw := new text in
  match text with
  | [] => sys_exit
  | _ =>
      do! store raw (drop_0x text) in                           (** [del raw[:2]] *)
      let! _ := new (drop_0x text) in                           (** the str of [raw.decode("ascii")] *)
      match fromhex (drop_0x text) with
      | None => do! wipe raw in sys_exit
      | Some key =>
          let! key_bytes := new key in
          do! wipe raw in
          if negb (List.length key =? 32)%nat then do! wipe key_bytes in sys_exit else ret key_bytes
      end
  end.

(** ** Wallet names *)
Definition name_ok (n : string) : bool := isalnum (replace "-" "" (replace "_" "" n)).

(** The loop of [_wallet_names_from_config]. *)
Fixpoint names_loop (parts : list string) (names : list string) : MP (list string) :=
  match parts with
  | [] => ret names
  | part :: parts =>
      let n := strip part in
      if String.eqb n "" then names_loop parts names
      else if negb (name_ok n) then sys_exit
      else if bool_decide (n ∈ names) then sys_exit
      else names_loop parts (names ++ [n])%list
  end.
Definition wallet_names_from_config : MP (list string) :=
  let raw := strip (WALLETS E) in
  if String.eqb raw "" then ret [] else names_loop (split_on "," raw) [].

Definition env_var_for (name suffix : string) : string :=
  "WALLET_" +:+ replace "-" "_" (upper name) +:+ "_" +:+ suffix.

(** Every provider but the keystore: one wallet called [default], or one per name. *)
Fixpoint each_name (f : string -> MP LoadedWallet) (names : list string) : MP (list LoadedWallet) :=
  match names with
  | [] => ret []
  | n :: names => let! w := f n in let! ws := each_name f names in ret (w :: ws)
  end.
Definition by_names (legacy : MP LoadedWallet) (f : string -> MP LoadedWallet) : MP (list LoadedWallet) :=
  let! names := wallet_names_from_config in
  match names with
  | [] => let! w := legacy in ret [w]
  | _ => each_name f names
  end.
(** [os.environ.get(_env_var_for(n, suffix), "")], exit when empty. *)
Definition per_name (suffix : string) (f : string -> string -> MP LoadedWallet) (n : string) : MP LoadedWallet :=
  let! v := getenv (env_var_for n suffix) in
  if String.eqb v "" then sys_exit else f n v.

(** ** The providers *)
Definition op_fetch (wallet_name op_item : string) : MP LoadedWallet :=
  match op E op_item with
  | CliFails e =>
      if bool_decide (exn_class e ∈ ["FileNotFoundError"; "TimeoutExpired"]) then sys_exit else raise e
  | CliDone rc out =>
      if negb (rc =? 0)%Z then sys_exit
      else let! raw := new out in
           let! key := decode_hex_to_bytes raw in
           ret (mkLoaded wallet_name key "")
  end.
Definition op_load_wallets : MP (list LoadedWallet) :=
  by_names (op_fetch DEFAULT_WALLET_NAME (OP_ITEM E)) (per_name "OP_ITEM" op_fetch).

Definition env_fetch_one (wallet_name env_var : string) : MP LoadedWallet :=
  let! raw_str := getenv env_var in
  if String.eqb raw_str "" then sys_exit
  else if negb (str_forall is_ascii raw_str) then raise (EOther "UnicodeEncodeError" "")
  else
    let! raw := new (to_bytes raw_str) in
    do! delenv env_var in
    let! key := decode_hex_to_bytes raw in
    ret (mkLoaded wallet_name key "").
Definition env_load_wallets : MP (list LoadedWallet) :=
  by_names (env_fetch_one DEFAULT_WALLET_NAME "PRIVATE_KEY_HEX")
           (fun n => env_fetch_one n (env_var_for n "PRIVATE_KEY_HEX")).

Definition read_key_file (wallet_name path : string) : MP LoadedWallet :=
  match key_files E path with
  | StatFails e => if String.eqb (exn_class e) "FileNotFoundError" then sys_exit else raise e
  | KeyFile mode data =>
      if negb (Z.land mode 63 =? 0)%Z then sys_exit
      else match data with
           | Raise e => if Sanctions.is_OSError e then sys_exit else raise e
           | Crash => fun w => (Crash, w)
           | Ret b =>
               let! raw := new b in
               let! key := decode_hex_to_bytes raw in
               ret (mkLoaded wallet_name key "")
           end
  end.
Definition file_load_wallets : MP (list LoadedWallet) :=
  by_names (if String.eqb (PRIVATE_KEY_FILE E) "" then sys_exit
            else read_key_file DEFAULT_WALLET_NAME (PRIVATE_KEY_FILE E))
           (per_name "PRIVATE_KEY_FILE" read_key_file).

Definition keychain_read_one (wallet_name account : string) : MP LoadedWallet :=
  match security E account with
  | CliFails e => if String.eqb (exn_class e) "FileNotFoundError" then sys_exit else raise e
  | CliDone rc out =>
      if negb (rc =? 0)%Z then sys_exit
      else let! raw := new out in
           let! key := decode_hex_to_bytes raw in
           ret (mkLoaded wallet_name key "")
  end.
Definition keychain_load_wallets : MP (list LoadedWallet) :=
  if negb (darwin E) then sys_exit
  else by_names (keychain_read_one DEFAULT_WALLET_NAME (KEYCHAIN_ACCOUNT E))
                (per_name "KEYCHAIN_ACCOUNT" keychain_read_one).

(** [load_keystore] on the keystore's part of the state; its errors end the process. *)
Definition from_keystore (passphrase : bytes) : MP (list Keystore.KeystoreEntry) := fun w =>
  let '(o, d) := Keystore.load_keystore (crypto E) (KEYSTORE_FILE E) passphrase (disk w) in
  (match o with
   | Ret l => Ret l
   | Raise (Keystore.Escapes e) => Raise e
   | Raise _ => Raise SystemExit
   | Crash => Crash
   end, mkP (environ w) (heap w) d).

Fixpoint load_entries (l : list Keystore.KeystoreEntry) : MP (list LoadedWallet) :=
  match l with
  | [] => ret []
  | e :: l => let! k := new (Keystore.e_raw_key e) in
              let! ws := load_entries l in
              ret (mkLoaded (Keystore.e_name e) k (Keystore.e_address e) :: ws)
  end.

Definition encrypted_load_wallets : MP (list LoadedWallet) :=
  if String.eqb (KEYSTORE_FILE E) "" then sys_exit
  else
    let! passphrase_env := getenv "KEY_PASSPHRASE" in
    match Keystore.resolve_passphrase
            (if String.eqb passphrase_env "" then None else Some passphrase_env)
            (if String.eqb (KEY_PASSPHRASE_FILE E) "" then None else Some (pass_files E (KEY_PASSPHRASE_FILE E)))
            true (prompt E) with
    | Raise (Keystore.Escapes (EBase c)) => raise (EBase c)
    | Raise _ => sys_exit
    | Crash => fun w => (Crash, w)
    | Ret passphrase =>
        do! when (negb (String.eqb passphrase_env "")) (delenv "KEY_PASSPHRASE") in
        let! entries := from_keystore (to_bytes passphrase) in
        match entries with
        | [] => sys_exit
        | _ => load_entries entries
        end
    end.

(** [get_key_provider] *)
Definition get_key_provider : MP (MP (list LoadedWallet)) :=
  if String.eqb (KEY_PROVIDER E) "1password" then ret op_load_wallets
  else if String.eqb (KEY_PROVIDER E) "env" then ret env_load_wallets
  else if String.eqb (KEY_PROVIDER E) "file" then ret file_load_wallets
  else if String.eqb (KEY_PROVIDER E) "keychain" then ret keychain_load_wallets
  else if String.eqb (KEY_PROVIDER E) "encrypted_file" then ret encrypted_load_wallets
  else sys_exit.

(** ** [security.load_wallets] *)

(** A [Wallet]: the private key object holds its own copy of the key. *)
Record wallet := mkW { w_name : string; w_address : string; w_key : bytes }.

Fixpoint load_loop (loaded : list LoadedWallet) (seen : list string) : MP (list wallet) :=
  match loaded with
  | [] => ret []
  | entry :: loaded =>
      if bool_decide (lw_name entry ∈ seen) then
        do! wipe (lw_raw_key entry) in raise (EOther "RuntimeError" ("duplicate wallet name: " +:+ lw_name entry))
      else
        let! key := deref (lw_raw_key entry) in
        match derive_address E key with
        | Raise e => raise e
        | Crash => fun w => (Crash, w)
        | Ret derived_address =>
            do! wipe (lw_raw_key entry) in
            let! out := load_loop loaded (lw_name entry :: seen) in
            ret (mkW (lw_name entry) derived_address key :: out)
        end
  end.
Definition load_wallets : MP (list wallet) :=
  let! provider := get_key_provider in
  let! loaded := provider in
  load_loop loaded [].
End Providers.

(** ** Lemmas *)

(** The key a text stands for. *)
Definition parse_key (b : bytes) : option bytes :=
  match fromhex (drop_0x (rstrip_bytes byte_space (rstrip_bytes crlf b))) with
  | Some key => if (List.length key =? 32)%nat then Some key else None
  | None => None
  end.

(** The heap only grows: the cells of before are as they were. *)
Definition grows (w w' : pworld) : Prop :=
  environ w' = environ w /\ disk w' = disk w /\ heap w `prefix_of` heap w'.
#[local] Instance grows_preorder : PreOrder grows.
Proof.
  split; [by intros w|]. intros w1 w2 w3 (H1 & H2 & H3) (H4 & H5 & H6).
  split_and!; [congruence.. | by etrans].
Qed.
Lemma grows_lookup w w' i b : grows w w' -> heap w !! i = Some b -> heap w' !! i = Some b.
Proof. intros (_ & _ & [k H]) Hi. rewrite H. by apply lookup_app_l_Some. Qed.

(** Running on a heap [h] grown by [l]. *)
Lemma wp_new b (Q : outcome exn nat -> pworld -> Prop) e h l d :
  Q (Ret (List.length h + List.length l)%nat) (mkP e (h ++ (l ++ [b])) d) -> wp (new b) Q (mkP e (h ++ l) d).
Proof. unfold wp, new, set_heap. cbn. by rewrite length_app, app_assoc. Qed.
Lemma wp_deref i b (Q : outcome exn bytes -> pworld -> Prop) w : heap w !! i = Some b -> Q (Ret b) w -> wp (deref i) Q w.
Proof. intros H HQ. unfold deref. apply wp_gets. by rewrite H. Qed.
Lemma wp_cell k b (Q : outcome exn unit -> pworld -> Prop) e h l d :
  Q (Ret tt) (mkP e (h ++ <[k := b]> l) d) -> wp (store (List.length h + k) b) Q (mkP e (h ++ l) d).
Proof. unfold wp, store, modify, set_heap. cbn. by rewrite insert_app_r. Qed.
Lemma wp_wipe k b (Q : outcome exn unit -> pworld -> Prop) e h l d :
  l !! k = Some b -> Q (Ret tt) (mkP e (h ++ <[k := replicate (List.length b) 0%Z]> l) d) ->
  wp (wipe (List.length h + k)) Q (mkP e (h ++ l) d).
Proof.
  intros H HQ. unfold wipe. apply wp_bind, (wp_deref _ b); [|by apply wp_cell].
  cbn. rewrite lookup_app_r by lia. by replace (List.length h + k - List.length h)%nat with k by lia.
Qed.

Lemma decode_spec raw b w : heap w !! raw = Some b ->
  wp (decode_hex_to_bytes raw) (fun o w' => grows w w' /\ heap w' !! List.length (heap w) = Some b /\
    match parse_key b with
    | Some key => exists i, o = Ret i /\ (List.length (heap w) <= i)%nat /\ heap w' !! i = Some key
    | None => o = Raise SystemExit
    end) w.
Proof.
  destruct w as [e h d]. cbn [heap]. intros Hb. set (Q := fun _ _ => _).
  assert (Hext : forall o (a : list bytes), match parse_key b with
    | Some key => exists k, o = Ret (List.length h + k)%nat /\ (b :: a)%list !! k = Some key
    | None => o = Raise SystemExit
    end -> Q o (mkP e (h ++ b :: a) d)).
  { intros o a H. unfold Q, grows. cbn [heap environ disk].
    split_and!; [done|done|by eexists|by rewrite list_lookup_middle|].
    destruct (parse_key b) as [key|]; [|done]. destruct H as (k & -> & Hk).
    eexists. split; [done|]. split; [lia|]. rewrite lookup_app_r by lia.
    by replace (List.length h + k - List.length h)%nat with k by lia. }
  clearbody Q. unfold parse_key in Hext. apply wp_bind, (wp_deref _ b); [done|].
  rewrite <- (app_nil_r h). apply wp_bind, wp_new, wp_bind, wp_new. cbv zeta. apply wp_bind, wp_new.
  cbn [app List.length]. set (text := rstrip_bytes byte_space _) in *.
  destruct text as [|t0 text'] eqn:Htext; [by apply wp_raise, Hext|]. rewrite <- Htext in *. clearbody text.
  apply wp_bind, wp_cell, wp_bind, wp_new. cbn [app List.length].
  destruct (fromhex (drop_0x text)) as [key|] eqn:Hkey.
  2: { apply wp_bind. eapply wp_wipe; [reflexivity|]. apply wp_raise, Hext. done. }
  apply wp_bind, wp_new, wp_bind. eapply wp_wipe; [reflexivity|]. cbn [app List.length insert list_insert].
  destruct (List.length key =? 32)%nat eqn:Hlen; cbn [negb].
  - apply wp_ret, Hext. by exists 4%nat.
  - apply wp_bind. eapply wp_wipe; [reflexivity|]. by apply wp_raise, Hext.
Qed.

(** ** Writing a key and reading it back *)
Definition hexdigit (d : Z) : Z := (if d <? 10 then 48 + d else 87 + d)%Z.
Definition hex_of (key : bytes) : bytes := flat_map (fun b => [hexdigit (b / 16); hexdigit (b mod 16)]%Z) key.

Lemma hexdigit_fine d : (0 <= d < 16)%Z ->
  hexval (hexdigit d) = Some d /\ byte_space (hexdigit d) = false /\
  (hexdigit d =? 120)%Z = false /\ (hexdigit d =? 88)%Z = false.
Proof.
  intros H. assert (In d (map Z.of_nat (seq 0 16))) as Hin
    by (rewrite <- (Z2Nat.id d) by lia; apply in_map, in_seq; lia).
  cbn in Hin. repeat destruct Hin as [<-|Hin]; done.
Qed.
Lemma byte_digits b : is_byte b -> (0 <= b / 16 < 16)%Z /\ (0 <= b mod 16 < 16)%Z.
Proof.
  unfold is_byte. intros H. split; [|by apply Z.mod_pos_bound].
  split; [apply Z.div_pos; lia | apply Z.div_lt_upper_bound; lia].
Qed.

Lemma fromhex_hex_of key : Forall is_byte key -> fromhex (hex_of key) = Some key.
Proof.
  induction 1 as [|b key Hb _ IH]; [done|]. destruct (byte_digits b Hb) as [H1 H2].
  destruct (hexdigit_fine _ H1) as (E1 & S1 & _), (hexdigit_fine _ H2) as (E2 & _).
  cbn [hex_of flat_map app fromhex]. rewrite S1, E1, E2. fold (hex_of key). rewrite IH. cbn. do 2 f_equal.
  pose proof (Z.div_mod b 16). lia.
Qed.
Lemma hex_of_no_space key : Forall is_byte key -> Forall (fun b => byte_space b = false) (hex_of key).
Proof.
  induction 1 as [|b key Hb _ IH]; [constructor|]. destruct (byte_digits b Hb) as [H1 H2].
  destruct (hexdigit_fine _ H1) as (_ & S1 & _), (hexdigit_fine _ H2) as (_ & S2 & _).
  cbn. by repeat constructor.
Qed.
Lemma drop_0x_hex_of key : Forall is_byte key -> drop_0x (hex_of key) = hex_of key.
Proof.
  destruct 1 as [|b key Hb _]; [done|]. destruct (byte_digits b Hb) as [_ H2].
  destruct (hexdigit_fine _ H2) as (_ & _ & X1 & X2). cbn. by rewrite X1, X2, andb_false_r.
Qed.

Lemma rstrip_bytes_all p l : Forall (fun b => p b = true) l -> rstrip_bytes p l = [].
Proof. induction 1 as [|b l Hb _ IH]; [done|]. cbn. by rewrite IH, Hb. Qed.
Lemma rstrip_bytes_app p l t :
  Forall (fun b => p b = false) l -> Forall (fun b => p b = true) t -> rstrip_bytes p (l ++ t) = l.
Proof.
  intros Hl Ht. induction Hl as [|b l Hb _ IH]; [by apply rstrip_bytes_all|].
  cbn. rewrite IH. destruct l; [by rewrite Hb | done].
Qed.
Lemma rstrip_bytes_twice (p q : Z -> bool) l :
  (forall b, q b = true -> p b = true) -> rstrip_bytes p (rstrip_bytes q l) = rstrip_bytes p l.
Proof.
  intros H. induction l as [|b l IH]; [done|]. cbn [rstrip_bytes].
  destruct (rstrip_bytes q l) as [|c r] eqn:E.
  - cbn in IH. rewrite <- IH. specialize (H b). destruct (q b); cbn; [by rewrite H | done].
  - rewrite <- IH. cbn [rstrip_bytes]. done.
Qed.

Lemma parse_key_hex pre key trail :
  pre ∈ [[]; to_bytes "0x"; to_bytes "0X"] -> Forall is_byte key -> List.length key = 32%nat ->
  Forall (fun b => byte_space b = true) trail -> parse_key (pre ++ hex_of key ++ trail) = Some key.
Proof.
  intros Hpre Hb Hl Ht. unfold parse_key. rewrite !elem_of_cons in Hpre.
  rewrite rstrip_bytes_twice by (intros b; unfold crlf, byte_space; intros; lia).
  rewrite app_assoc, rstrip_bytes_app; [|apply Forall_app; split|done].
  - assert (drop_0x (pre ++ hex_of key) = hex_of key) as ->.
    { destruct Hpre as [-> | [-> | [-> | Hpre]]]; [by apply drop_0x_hex_of|done|done|by apply not_elem_of_nil in Hpre]. }
    by rewrite fromhex_hex_of, Hl.
  - destruct Hpre as [-> | [-> | [-> | Hpre]]]; [constructor|by repeat constructor..|by apply not_elem_of_nil in Hpre].
  - by apply hex_of_no_space.
Qed.

(** ** What a provider gives *)

(** A wallet of a provider: a 32-byte key in a cell allocated since [w]. *)
Definition fresh_key (w w' : pworld) (e : LoadedWallet) : Prop :=
  (List.length (heap w) <= lw_raw_key e)%nat /\
  exists key, heap w' !! lw_raw_key e = Some key /\ List.length key = 32%nat.
Definition older (w w' : pworld) : Prop := heap w `prefix_of` heap w'.
#[local] Instance older_preorder : PreOrder older.
Proof. unfold older. split; [intros w; done | intros w1 w2 w3 H1 H2; by etrans]. Qed.
Lemma older_lookup w w' i b : older w w' -> heap w !! i = Some b -> heap w' !! i = Some b.
Proof. intros [k H] Hi. rewrite H. by apply lookup_app_l_Some. Qed.

(** [m] returns one wallet called [n], or a list of wallets, in fresh cells. *)
Definition gives (n : string) (m : M pworld exn LoadedWallet) : Prop :=
  forall w, wp m (fun o w' => forall e, o = Ret e -> older w w' /\ lw_name e = n /\ fresh_key w w' e) w.
Definition gives_all (m : M pworld exn (list LoadedWallet)) : Prop :=
  forall w, wp m (fun o w' => forall l, o = Ret l ->
    older w w' /\ l <> [] /\ NoDup (lw_raw_key <$> l) /\ Forall (fresh_key w w') l) w.

Lemma fresh_later w w1 w2 e : older w1 w2 -> fresh_key w w1 e -> fresh_key w w2 e.
Proof. intros Ho (H & key & Hk & Hl). split; [done|]. exists key. split; [by eapply older_lookup | done]. Qed.
Lemma fresh_key_bound w w' e : fresh_key w w' e -> (lw_raw_key e < List.length (heap w'))%nat.
Proof. intros (_ & key & Hk & _). by eapply lookup_lt_Some. Qed.
Lemma parse_key_length b key : parse_key b = Some key -> List.length key = 32%nat.
Proof.
  unfold parse_key. destruct (fromhex _); [|done]. destruct (_ =? _)%nat eqn:H; [|done]. intros [= <-].
  by apply Nat.eqb_eq.
Qed.

Lemma gives_no_ret n m : NoRet m -> gives n m.
Proof. intros H w. unfold wp. intros e He. by destruct (H w e). Qed.
Lemma gives_if n (b : bool) m1 m2 : gives n m1 -> gives n m2 -> gives n (if b then m1 else m2).
Proof. by destruct b. Qed.

(** A text in a new cell, decoded; [between] may change the environment. *)
Lemma gives_text n b (between : M pworld exn unit) :
  (forall w, heap (snd (between w)) = heap w) ->
  gives n (let! raw := new b in do! between in let! key := decode_hex_to_bytes raw in ret (mkLoaded n key "")).
Proof.
  intros Hbt w. apply wp_bind. unfold wp at 1, new. cbn [fst snd]. apply wp_bind. unfold wp at 1.
  set (w1 := set_heap _ w). specialize (Hbt w1). destruct (between w1) as [[[]|x|] w2]; cbn [fst snd] in *; [|done..].
  apply wp_bind. eapply wp_mono; [|apply (decode_spec _ b)].
  2: { rewrite Hbt. cbn. by apply list_lookup_middle. }
  cbn beta. intros o w3 ((_ & _ & Hg) & _ & Ho). destruct (parse_key b) as [key|] eqn:Hk; [|by subst o].
  destruct Ho as (i & -> & Hi & Hc). apply wp_ret. intros e [= <-]. rewrite Hbt in Hg, Hi. cbn in Hg, Hi.
  split_and!; [|done|split; [|exists key; split; [done | by eapply parse_key_length]]].
  - unfold older. etrans; [|exact Hg]. by eexists.
  - cbn. rewrite length_app in Hi. lia.
Qed.

(** A program that returned nothing meets a postcondition on what it returns. *)
Ltac no_value := by let l := fresh in let H := fresh in intros ? ? H l ->; destruct (H l).
Lemma wp_any_ret {A B} (m : M pworld exn A) (k : A -> M pworld exn B) (P : outcome exn B -> pworld -> Prop) w :
  (forall o w', (forall b, o <> Ret b) -> P o w') ->
  wp m (fun o w' => forall a, o = Ret a -> wp (k a) P w') w -> wp (bind m k) P w.
Proof.
  intros HP H. apply wp_bind. eapply wp_mono; [|exact H]. cbn beta. intros [a|e|] w' Ha; [by apply Ha | by apply HP..].
Qed.

Lemma each_name_gives f names : (forall n, gives n (f n)) -> forall w,
  wp (each_name f names) (fun o w' => forall l, o = Ret l ->
    older w w' /\ lw_name <$> l = names /\ NoDup (lw_raw_key <$> l) /\ Forall (fresh_key w w') l) w.
Proof.
  intros Hf. induction names as [|n names IH]; intros w; cbn [each_name].
  { apply wp_ret. intros l [= <-]. split_and!; [done|done|constructor..]. }
  apply wp_any_ret; [no_value|].
  eapply wp_mono; [|apply Hf]. cbn beta. intros o w1 H1 e ->. destruct (H1 e eq_refl) as (Ho1 & Hn & He).
  apply wp_any_ret; [no_value|].
  eapply wp_mono; [|apply IH]. cbn beta. intros o w2 H2 l ->. destruct (H2 l eq_refl) as (Ho2 & Hns & Hnd & Hl).
  apply wp_ret. intros l' [= <-]. rewrite !fmap_cons, Hn, Hns. split_and!; [by etrans|done| |].
  - constructor; [|done]. intros Hin. apply list_elem_of_fmap in Hin as (e' & He' & Hin).
    rewrite List.Forall_forall in Hl. apply list_elem_of_In, Hl in Hin as [Hlo _].
    apply fresh_key_bound in He. lia.
  - constructor; [by eapply fresh_later|]. eapply List.Forall_impl; [|exact Hl].
    intros e' (Hlo & Hk). split; [|done]. destruct Ho1 as [k Hk1]. rewrite Hk1, length_app in Hlo. lia.
Qed.

Lemma gives_gets {A} n (f : pworld -> A) k : (forall a, gives n (k a)) -> gives n (bind (gets f) k).
Proof. intros H w. apply wp_bind, wp_gets, H. Qed.
Lemma gives_crash n : gives n (fun w => (Crash, w)).
Proof. intros w. unfold wp. by intros e He. Qed.
Lemma gives_decoded n b : gives n (let! raw := new b in let! key := decode_hex_to_bytes raw in ret (mkLoaded n key "")).
Proof. exact (gives_text n b (ret tt) (fun _ => eq_refl)). Qed.
Lemma gives_exit n : gives n sys_exit.
Proof. apply gives_no_ret, _. Qed.
Lemma gives_raise n e : gives n (raise e).
Proof. apply gives_no_ret, _. Qed.
Create HintDb keys.
#[local] Hint Resolve gives_crash gives_decoded gives_exit gives_raise gives_if : keys.

Section Provided.
Context (E : penv).

Lemma op_gives n item : gives n (op_fetch E n item).
Proof. unfold op_fetch. destruct (op E item); auto with keys. Qed.
Lemma keychain_gives n account : gives n (keychain_read_one E n account).
Proof. unfold keychain_read_one. destruct (security E account); auto with keys. Qed.
Lemma file_gives n path : gives n (read_key_file E n path).
Proof. unfold read_key_file. destruct (key_files E path) as [e|m [b|e|]]; auto with keys. Qed.
Lemma env_gives n var : gives n (env_fetch_one n var).
Proof.
  apply gives_gets. intros v. apply gives_if; [auto with keys|]. apply gives_if; [auto with keys|].
  by apply gives_text.
Qed.
Lemma per_name_gives suffix f n : (forall n v, gives n (f n v)) -> gives n (per_name suffix f n).
Proof. intros H. apply gives_gets. intros v. apply gives_if; auto with keys. Qed.

Lemma names_loop_heap parts names w : snd (names_loop parts names w) = w.
Proof.
  revert names. induction parts as [|p parts IH]; intros names; cbn [names_loop]; [done|].
  destruct (String.eqb _ ""); [done|]. destruct (negb _); [done|]. destruct (bool_decide _); done.
Qed.
Lemma wallet_names_state w : snd (wallet_names_from_config E w) = w.
Proof. unfold wallet_names_from_config. destruct (String.eqb _ ""); [done | apply names_loop_heap]. Qed.

Lemma by_names_gives legacy f :
  gives DEFAULT_WALLET_NAME legacy -> (forall n, gives n (f n)) -> gives_all (by_names E legacy f).
Proof.
  intros Hl Hf w. unfold by_names. apply wp_any_ret; [no_value|].
  unfold wp at 1. rewrite wallet_names_state. intros [|n names] _.
  - apply wp_any_ret; [no_value|].
    eapply wp_mono; [|apply Hl]. cbn beta. intros o w1 H e ->. destruct (H e eq_refl) as (Ho & _ & He).
    apply wp_ret. intros l [= <-]. split_and!; [done|done|apply NoDup_singleton|by constructor].
  - eapply wp_mono; [|by apply (each_name_gives f (n :: names))]. cbn beta. intros o w1 H l ->.
    destruct (H l eq_refl) as (Ho & Hn & Hd & He). split_and!; try done. by destruct l.
Qed.

Lemma load_entries_gives l : Forall (fun e => List.length (Keystore.e_raw_key e) = 32%nat) l -> forall w,
  wp (load_entries l) (fun o w' => exists ws, o = Ret ws /\ List.length ws = List.length l /\
    older w w' /\ NoDup (lw_raw_key <$> ws) /\ Forall (fresh_key w w') ws) w.
Proof.
  induction 1 as [|e l He _ IH]; intros w; cbn [load_entries].
  { apply wp_ret. exists []. split_and!; [done..|constructor|constructor]. }
  apply wp_bind. unfold wp at 1, new. cbn [fst snd]. apply wp_bind. set (w1 := set_heap _ w).
  assert (Hw1 : older w w1) by by eexists.
  assert (Hc : heap w1 !! List.length (heap w) = Some (Keystore.e_raw_key e)) by by apply list_lookup_middle.
  eapply wp_mono; [|apply IH]. cbn beta. intros o w2 (ws & -> & Hlen & Ho & Hd & Hf). apply wp_ret.
  eexists. split; [done|]. cbn [List.length]. rewrite fmap_cons. split_and!; [by rewrite Hlen|by etrans| |].
  - constructor; [|done]. intros Hin. apply list_elem_of_fmap in Hin as (e' & He' & Hin). cbn in He'.
    rewrite List.Forall_forall in Hf. apply list_elem_of_In, Hf in Hin as [Hlo _]. rewrite <- He' in Hlo.
    apply lookup_lt_Some in Hc. lia.
  - constructor; [|eapply List.Forall_impl; [|exact Hf]].
    + split; [done|]. eexists. split; [by eapply older_lookup|done].
    + intros e' (Hlo & Hk). split; [|done]. destruct Hw1 as [k Hk1]. rewrite Hk1, length_app in Hlo. lia.
Qed.

Lemma gives_all_no_ret m : NoRet m -> gives_all m.
Proof. intros H w. unfold wp. intros l Hl. by destruct (H w l). Qed.
Lemma gives_all_bind {A} (m : M pworld exn A) k :
  (forall w, heap (snd (m w)) = heap w) -> (forall a w, fst (m w) = Ret a -> gives_all (k a)) -> gives_all (bind m k).
Proof.
  intros Hm Hk w. specialize (Hm w). pose proof (fun a => Hk a w) as Hk'. apply wp_bind. unfold wp at 1.
  destruct (m w) as [[a|e|] w1]; cbn [fst snd] in *; [|done..].
  eapply wp_mono; [|by apply Hk']. cbn beta. intros o w2 H l ->.
  destruct (H l eq_refl) as (Ho & Hne & Hd & Hf). unfold older, fresh_key in *. by rewrite Hm in *.
Qed.

Lemma encrypted_gives : gives_all (encrypted_load_wallets E).
Proof.
  unfold encrypted_load_wallets. destruct (String.eqb _ ""); [apply gives_all_no_ret, _|].
  apply gives_all_bind; [done|]. intros env _ _.
  destruct (Keystore.resolve_passphrase _ _ _ _) as [pass|[| | | | | |e]|];
    try (by apply gives_all_no_ret, _); try (by intros w).
  2: { destruct e; apply gives_all_no_ret, _. }
  apply gives_all_bind; [by intros w; destruct (negb _)|]. intros _ _ _.
  apply gives_all_bind; [by intros w; unfold from_keystore; destruct (Keystore.load_keystore _ _ _ _)|].
  intros l w Hl. assert (Forall (fun e => List.length (Keystore.e_raw_key e) = 32%nat) l) as Hlen.
  { unfold from_keystore in Hl.
    pose proof (KeystoreSpec.load_keystore_keys (crypto E) (KEYSTORE_FILE E) (to_bytes pass) (disk w)) as H.
    destruct (Keystore.load_keystore _ _ _ _) as [[l'|[]|] d]; cbn in Hl; try done. injection Hl as ->.
    eapply List.Forall_impl; [|exact (H l eq_refl)]. by intros e [? _]. }
  destruct l as [|e l]; [apply gives_all_no_ret, _|]. intros w1.
  eapply wp_mono; [|by apply load_entries_gives]. cbn beta. intros o w2 (ws & -> & Hn & Ho & Hd & Hf) l' [= <-].
  split_and!; try done. by destruct ws.
Qed.

(** Every provider gives 32-byte keys in fresh, distinct cells, and at least one. *)
Lemma provider_gives w provider : fst (get_key_provider E w) = Ret provider -> gives_all provider.
Proof.
  unfold get_key_provider. intros H.
  repeat (match type of H with context [if ?b then _ else _] => destruct b end;
          [injection H as <-|]); try done.
  - apply by_names_gives; [apply op_gives|]. intros n. apply per_name_gives, op_gives.
  - apply by_names_gives; intros; apply env_gives.
  - apply by_names_gives; [apply gives_if; auto using file_gives with keys|].
    intros n. apply per_name_gives, file_gives.
  - unfold keychain_load_wallets. destruct (negb _); [apply gives_all_no_ret, _|].
    apply by_names_gives; [apply keychain_gives|]. intros n. apply per_name_gives, keychain_gives.
  - apply encrypted_gives.
Qed.

(** ** [load_wallets] *)

Lemma forall2_weaken {A B} (P Q : A -> B -> Prop) l k :
  Forall2 P l k -> (forall a, a ∈ l -> forall b, P a b -> Q a b) -> Forall2 Q l k.
Proof. induction 1; intros HQ; constructor; [apply HQ; [by left|done] | apply IHForall2; intros; apply HQ; [by right|done]]. Qed.

(** The loop: from distinct cells, wallets with the names in order, addresses derived
    from their keys, every cell wiped and every other one as it was. *)
Lemma load_loop_spec loaded : forall seen w,
  NoDup (lw_raw_key <$> loaded) ->
  Forall (fun e => exists key, heap w !! lw_raw_key e = Some key /\ List.length key = 32%nat) loaded ->
  wp (load_loop E loaded seen) (fun o w' => forall ws, o = Ret ws ->
    w_name <$> ws = lw_name <$> loaded /\ NoDup (lw_name <$> loaded) /\
    (forall n, n ∈ seen -> n ∉ lw_name <$> loaded) /\
    Forall2 (fun e x => heap w !! lw_raw_key e = Some (w_key x) /\ derive_address E (w_key x) = Ret (w_address x)) loaded ws /\
    (forall i, heap w' !! i =
       if bool_decide (i ∈ lw_raw_key <$> loaded) then Some (replicate 32 0%Z) else heap w !! i)) w.
Proof.
  induction loaded as [|e loaded IH]; intros seen w Hnd Hk; cbn [load_loop].
  { apply wp_ret. intros ws [= <-]. split_and!; [done|constructor|set_solver|constructor|].
    intros i. rewrite bool_decide_false; [done|set_solver]. }
  apply NoDup_cons in Hnd as [Hni Hnd]. apply Forall_cons in Hk as [(key & Hkey & Hlen) Hk].
  destruct (bool_decide (lw_name e ∈ seen)) eqn:Hseen.
  { unfold wp. intros ws. unfold bind. by destruct (wipe _ w) as [[[]|x|] w1]. }
  apply bool_decide_eq_false in Hseen.
  apply wp_bind, (wp_deref _ key); [done|]. destruct (derive_address E key) as [addr|x|] eqn:Hd; [|done..].
  apply wp_bind. unfold wipe. apply wp_bind, (wp_deref _ key); [done|]. apply wp_modify, wp_any_ret.
  { intros o w' H l ->. by destruct (H l). }
  set (w1 := set_heap _ w).
  assert (Hw1 : forall i, heap w1 !! i = if bool_decide (i = lw_raw_key e) then Some (replicate 32 0%Z) else heap w !! i).
  { intros i. cbn. rewrite Hlen. case_bool_decide as Hi.
    - subst. apply list_lookup_insert_eq. by eapply lookup_lt_Some.
    - by apply list_lookup_insert_ne. }
  eapply wp_mono; [|apply (IH (lw_name e :: seen) w1 Hnd)].
  - cbn beta. intros o w2 H ws' ->. destruct (H ws' eq_refl) as (Hn & Hdn & Hs & Hf & Hh).
    apply wp_ret. intros ws [= <-]. rewrite !fmap_cons. cbn [w_name]. split_and!.
    + by rewrite Hn.
    + constructor; [|done]. apply Hs. by left.
    + intros n Hin. apply not_elem_of_cons. split; [by intros ->|]. apply Hs. by right.
    + constructor; [done|]. eapply forall2_weaken; [exact Hf|]. intros e' Hin x [Hc Ha]. split; [|done].
      rewrite Hw1, bool_decide_false in Hc; [done|]. intros He. apply Hni. rewrite <- He. by apply list_elem_of_fmap_2.
    + intros i. rewrite Hh, Hw1. repeat case_bool_decide; set_solver.
  - apply Forall_forall. intros e' Hin. rewrite Forall_forall in Hk. destruct (Hk e' Hin) as (k & Hk1 & Hk2).
    exists k. split; [|done]. rewrite Hw1, bool_decide_false; [done|].
    intros He. apply Hni. rewrite <- He. by apply list_elem_of_fmap_2.
Qed.
End Provided.

Lemma env_consumes n var w :
  wp (env_fetch_one n var) (fun o w' => forall e, o = Ret e -> environ w' !! var = None) w.
Proof.
  apply wp_bind, wp_gets. destruct (String.eqb _ ""); [done|]. destruct (negb _); [done|].
  set (b := to_bytes _). apply wp_bind. unfold wp at 1, new. cbn [fst snd]. apply wp_bind, wp_modify, wp_bind.
  eapply wp_mono; [|apply (decode_spec _ b); cbn; by apply list_lookup_middle].
  cbn beta. intros o w' ((He & _) & _). destruct o as [i|x|]; [|done..]. apply wp_ret. intros e _.
  rewrite He. cbn. apply lookup_delete_eq.
Qed.

Lemma file_key (E : penv) n path w :
  wp (read_key_file E n path) (fun o w' => forall e, o = Ret e -> exists b key,
    older w w' /\ environ w' = environ w /\ lw_name e = n /\ (exists m, key_files E path = KeyFile m (Ret b)) /\ parse_key b = Some key /\
    heap w' !! lw_raw_key e = Some key) w.
Proof.
  unfold read_key_file. destruct (key_files E path) as [x|m [b|x|]]; try by destruct (_ =? _)%Z.
  - by destruct (String.eqb _ _).
  - destruct (negb _); [done|]. apply wp_bind. unfold wp at 1, new. cbn [fst snd]. apply wp_bind.
    eapply wp_mono; [|apply (decode_spec _ b); cbn; by apply list_lookup_middle].
    cbn beta. intros o w' ((He & _ & Hg) & _ & Ho). destruct (parse_key b) as [key|] eqn:Hk; [|by subst o].
    destruct Ho as (i & -> & _ & Hi). apply wp_ret. intros e [= <-]. exists b, key. split_and!; eauto.
    unfold older. etrans; [|exact Hg]. by eexists.
  - by destruct (negb _), (Sanctions.is_OSError x).
Qed.

(** WALLETS lists names: the legacy branch is not taken. *)
Lemma by_names_run (E : penv) legacy f w n names :
  fst (wallet_names_from_config E w) = Ret (n :: names) -> by_names E legacy f w = each_name f (n :: names) w.
Proof.
  intros Hn. pose proof (wallet_names_state E w) as Hst. unfold by_names, bind at 1.
  destruct (wallet_names_from_config E w) as [o w0]. cbn [fst snd] in *. by subst.
Qed.
Lemma wp_never {A} (m : M pworld exn A) w : wp m (fun o _ => forall a, o <> Ret a) w -> forall a, fst (m w) <> Ret a.
Proof. done. Qed.
Lemma wp_ret_of {A} (m : M pworld exn A) (P : A -> pworld -> Prop) w a :
  fst (m w) = Ret a -> wp m (fun o w' => forall a, o = Ret a -> P a w') w -> P a (snd (m w)).
Proof. unfold wp. auto. Qed.

(** ** The properties *)


(** A 32-byte key written as hex text, with or without [0x] in front and white space
    behind, is read back as exactly that key. *)
Theorem key_text_roundtrip pre key trail raw w :
  pre ∈ [[]; to_bytes "0x"; to_bytes "0X"] -> Forall is_byte key -> List.length key = 32%nat ->
  Forall (fun b => byte_space b = true) trail -> heap w !! raw = Some (pre ++ hex_of key ++ trail)%list ->
  exists i w', decode_hex_to_bytes raw w = (Ret i, w') /\ heap w' !! i = Some key.
Proof.
  intros Hp Hb Hl Ht Hr. pose proof (decode_spec raw _ w Hr) as H. rewrite parse_key_hex in H by done.
  unfold wp in H. destruct (decode_hex_to_bytes raw w) as [o w']. destruct H as (_ & _ & i & Ho & _ & Hi).
  exists i, w'. by cbn in Ho; subst o.
Qed.

(** [_decode_hex_to_bytes] wipes a copy.  Whether it returns or exits, the bytearray it
    was given still holds the hex text of the key, and so does the first copy it made. *)
Theorem hex_text_survives raw b w :
  heap w !! raw = Some b ->
  let w' := snd (decode_hex_to_bytes raw w) in
  heap w' !! raw = Some b /\ heap w' !! List.length (heap w) = Some b.
Proof. intros H. destruct (decode_spec raw b w H) as (Hg & Hc & _). split; [by eapply grows_lookup | done]. Qed.

(** The variable of a wallet name is not one-to-one ([main-a], [main_a] and [MAIN_A]
    share it).  Two such names in WALLETS: the env provider never loads them, since
    reading the first deletes the variable of the second; the file provider loads them
    with the same key. *)
Theorem colliding_names (E : penv) w n1 n2 :
  fst (wallet_names_from_config E w) = Ret [n1; n2] ->
  (forall suffix, env_var_for n1 suffix = env_var_for n2 suffix) ->
  (forall l, fst (env_load_wallets E w) <> Ret l) /\
  (forall l, fst (file_load_wallets E w) = Ret l ->
     let w' := snd (file_load_wallets E w) in
     exists e1 e2 key, l = [e1; e2] /\ lw_name e1 = n1 /\ lw_name e2 = n2 /\
       heap w' !! lw_raw_key e1 = Some key /\ heap w' !! lw_raw_key e2 = Some key).
Proof.
  intros Hn Hv. split.
  - unfold env_load_wallets. rewrite (by_names_run E _ _ w n1 [n2]) by done. cbn [each_name].
    intros l Hl. revert l Hl. apply (wp_never (each_name (fun n => env_fetch_one n (env_var_for n "PRIVATE_KEY_HEX")) [n1; n2])).
    cbn [each_name]. apply wp_any_ret; [done|]. eapply wp_mono; [|apply env_consumes]. cbn beta.
    intros o w1 H1 e1 ->. apply wp_any_ret; [no_value|]. apply wp_any_ret; [no_value|].
    apply wp_bind, wp_gets. rewrite <- Hv, (H1 e1 eq_refl). done.
  - unfold file_load_wallets. rewrite (by_names_run E _ _ w n1 [n2]) by done. intros l Hl.
    apply (wp_ret_of _ (fun l w' => exists e1 e2 key, l = [e1; e2] /\ lw_name e1 = n1 /\ lw_name e2 = n2 /\
      heap w' !! lw_raw_key e1 = Some key /\ heap w' !! lw_raw_key e2 = Some key) _ l Hl).
    clear l Hl. cbn [each_name]. apply wp_any_ret; [no_value|]. apply wp_bind, wp_gets.
    destruct (String.eqb _ "") eqn:Hempty; [by intros e|].
    eapply wp_mono; [|apply file_key]. cbn beta. intros o w1 H1 e1 ->.
    destruct (H1 e1 eq_refl) as (b & key & Ho1 & Henv & Hn1 & [m Hf] & Hp & Hk1).
    apply wp_any_ret; [no_value|]. apply wp_any_ret; [no_value|]. apply wp_bind, wp_gets.
    rewrite <- (Hv "PRIVATE_KEY_FILE"), Henv, Hempty.
    eapply wp_mono; [|apply file_key]. cbn beta. intros o w2 H2 e2 ->.
    destruct (H2 e2 eq_refl) as (b' & key' & Ho2 & _ & Hn2 & [m' Hf'] & Hp' & Hk2).
    rewrite Hf' in Hf. injection Hf as -> ->. rewrite Hp in Hp'. injection Hp' as ->.
    apply wp_ret. intros l [= <-] l' [= <-]. exists e1, e2, key'. split_and!; try done. by eapply older_lookup.
Qed.

(** ** The hypotheses can hold *)
Definition demo_env (provider names : string) (files : string -> key_file) : penv :=
  mkPenv names provider "" "" "" "" "" false files (fun _ => CliFails (EOther "FileNotFoundError" ""))
    (fun _ => CliFails (EOther "FileNotFoundError" "")) (fun _ => Keystore.NoFile) None
    (KeystoreSpec.demo KeystoreSpec.fine_io (fun _ => Keystore.Whole)) (fun _ => Ret "TAddress").
Definition demo_key_text : string := "0x0101010101010101010101010101010101010101010101010101010101010101".
Definition demo_state (e : gmap string string) : pworld := mkP e [] (Keystore.mkWorld ∅ 0).

Definition demo_loaded : list wallet := [mkW "main" "TAddress" (replicate 32 1%Z); mkW "hot" "TAddress" (replicate 32 1%Z)].
Definition demo_two : pworld := demo_state
  {[ "WALLET_MAIN_PRIVATE_KEY_HEX" := demo_key_text; "WALLET_HOT_PRIVATE_KEY_HEX" := demo_key_text ]}.

Lemma key_text_roundtrip_witness :
  let w := mkP ∅ [(to_bytes "0x" ++ hex_of (replicate 32 171%Z) ++ [13; 10]%Z)%list] (Keystore.mkWorld ∅ 0) in
  exists i w', decode_hex_to_bytes 0 w = (Ret i, w') /\ heap w' !! i = Some (replicate 32 171%Z).
Proof.
  intros w. apply (key_text_roundtrip (to_bytes "0x") (replicate 32 171%Z) [13; 10]%Z 0 w);
    [right; left|by apply Forall_replicate|reflexivity|by repeat constructor|reflexivity].
Defined.

Lemma hex_text_survives_witness :
  let w := mkP ∅ [to_bytes demo_key_text] (Keystore.mkWorld ∅ 0) in
  let w' := snd (decode_hex_to_bytes 0 w) in
  heap w' !! 0%nat = Some (to_bytes demo_key_text) /\ heap w' !! 1%nat = Some (to_bytes demo_key_text).
Proof. intros w. by apply (hex_text_survives 0 (to_bytes demo_key_text) w). Defined.

Lemma env_var_for_collides suffix : env_var_for "main-a" suffix = env_var_for "main_a" suffix.
Proof. reflexivity. Qed.
Definition demo_colliding : penv :=
  demo_env "file" "main-a,main_a" (fun _ => KeyFile 384 (Ret (to_bytes demo_key_text))).
Definition demo_shared : pworld := demo_state {[ "WALLET_MAIN_A_PRIVATE_KEY_FILE" := "/keys/a"; 
  "WALLET_MAIN_A_PRIVATE_KEY_HEX" := demo_key_text ]}.
Lemma colliding_names_witness :
  (forall l, fst (env_load_wallets demo_colliding demo_shared) <> Ret l) /\
  (exists l, fst (file_load_wallets demo_colliding demo_shared) = Ret l) /\
  (forall l, fst (file_load_wallets demo_colliding demo_shared) = Ret l ->
     let w' := snd (file_load_wallets demo_colliding demo_shared) in
     exists e1 e2 key, l = [e1; e2] /\ lw_name e1 = "main-a" /\ lw_name e2 = "main_a" /\
       heap w' !! lw_raw_key e1 = Some key /\ heap w' !! lw_raw_key e2 = Some key).
Proof.
  destruct (colliding_names demo_colliding demo_shared "main-a" "main_a") as [H1 H2];
    [reflexivity|exact env_var_for_collides|].
  split_and!; [exact H1|eexists; vm_compute; reflexivity|exact H2].
Defined.
