(* ===== verification/StartupCheck.v ===== *)
(** * The startup reconciliation ([startup_check.py])

    The lines of the audit file, decoded by [json_loads], are objects of strings or
    something else; the instant an ISO timestamp names is a parameter, the window is
    arithmetic on seconds.  Log lines are left out. *)
From S2P Require Import Prelude PyStr Decimal Effects RiskTypes Exceptions Config AuditEntry World AuditLog.
From S2P Require Reporting.
From Stdlib Require Import Qround.
From S2P Require Poller.
Open Scope string_scope.

Abbreviation fields := (gmap string string).
Definition get (k : string) (r : fields) : string := default "" (r !! k).

Inductive line_json := JDict (r : fields) | JNotDict.
(** [datetime.fromisoformat]: with an offset, an instant. *)
Inductive stamp := Naive | Aware (t : time).

(** [_msk_today_start_utc]: midnight at UTC+3, in seconds. *)
Definition msk_today_start_utc (now : time) : Z :=
  (Qfloor (now + 10800) / 86400 * 86400 - 10800)%Z.

(** [str(dict(by_status))] *)
Definition counts_repr (l : list (string * Z)) : string :=
  "{" +:+ join ", " (map (fun '(s, n) => py_repr s +:+ ": " +:+ str_of_Z n) l) +:+ "}".

(** [by_status[s] += 1] *)
Fixpoint count_in (s : string) (l : list (string * Z)) : list (string * Z) :=
  match l with
  | [] => [(s, 1%Z)]
  | (s', n) :: l => if String.eqb s s' then (s', (n + 1)%Z) :: l else (s', n) :: count_in s l
  end.
Definition count_of (s : string) (l : list (string * Z)) : Z :=
  match List.find (fun p => String.eqb s p.1) l with Some p => p.2 | None => 0%Z end.

(** [by_recipient[addr].append(entry)]: how often each address occurs. *)
Definition recipients (l : list (string * fields)) : list (string * Z) :=
  fold_left (fun acc p => if String.eqb (get "to_address" p.2) "" then acc else count_in (get "to_address" p.2) acc) l [].
Definition duplicates (l : list (string * fields)) : list (string * Z) :=
  List.filter (fun p => (1 <? p.2)%Z) (recipients l).

Section StartupCheck.
Context (json_loads : string -> option line_json) (fromisoformat : string -> option stamp).
(** tronpy, and [window_start.isoformat()]. *)
Context (get_transaction_info : nat -> string -> outcome exn (option Poller.receipt)) (iso_utc : Z -> string).
Context {S : Type} (E : Env) (c : Config).
Abbreviation MW := (M (World S) exn).

(** [_read_audit_lines]: [None] is a path that does not exist; a read gives lines, then
    perhaps an exception, and then nothing is returned. *)
Definition read_audit_lines (f : Reporting.audit_file) : outcome exn (list line_json) :=
  match f with
  | None => Ret []
  | Some (lines, stopped) =>
      match stopped with
      | Some e => if is_Exception e then Ret [] else Raise e
      | None => Ret (omap (fun raw => if String.eqb (strip raw) "" then None else json_loads (strip raw)) lines)
      end
  end.

(** The loop that collects today's SEND_SUCCESS entries by txid. *)
Definition attribute_error : exn := EOther "AttributeError" "".
Definition compare_error : exn :=
  EOther "TypeError" "can't compare offset-naive and offset-aware datetimes".
Fixpoint collect (window_start : Z) (lines : list line_json) (successes : list (string * fields))
    : outcome exn (list (string * fields)) :=
  match lines with
  | [] => Ret successes
  | JNotDict :: _ => Raise attribute_error
  | JDict r :: lines =>
      if negb (String.eqb (get "event" r) "SEND_SUCCESS") then collect window_start lines successes
      else match fromisoformat (get "timestamp" r) with
           | None => collect window_start lines successes
           | Some Naive => Raise compare_error
           | Some (Aware ts) =>
               if Qltb ts (inject_Z window_start) then collect window_start lines successes
               else if String.eqb (get "txid" r) "" || existsb (fun p => String.eqb p.1 (get "txid" r)) successes
               then collect window_start lines successes
               else collect window_start lines (successes ++ [(get "txid" r, r)])%list
           end
  end.

(** [_verify_txid_on_chain] *)
Definition verify_txid_on_chain (txid : string) : MW string :=
  try_except
    (let! info := ext (fun n => get_transaction_info n txid) in
     match info with
     | None => ret "NOT_FOUND"
     | Some r => ret (str_or (Poller.ri_result r) "SUCCESS")
     end)
    (fun exc =>
       if contains "not found" (lower (exn_str exc))
          || contains "transactionnotfound" (lower (exn_class exc))
       then ret "NOT_FOUND" else ret "RPC_ERROR").

Fixpoint verify_all (l : list (string * fields)) (by_status : list (string * Z)) : MW (list (string * Z)) :=
  match l with
  | [] => ret by_status
  | (txid, _) :: l => let! s := verify_txid_on_chain txid in verify_all l (count_in s by_status)
  end.

Definition startup_draft (ok : bool) (details : string) : draft := fun id ts =>
  mkEntry id ts "STARTUP_CHECK" "" "" "" "" "USDT" "" "" "" "" (if ok then "ok" else "anomaly") details.
Definition summary_details (window_start : Z) (checked : Z) (by_status dups : list (string * Z)) : string :=
  "window_start=" +:+ iso_utc window_start +:+ " checked=" +:+ str_of_Z checked +:+
  " by_status=" +:+ counts_repr by_status +:+ " duplicates=" +:+ str_of_Z (Z.of_nat (List.length dups)).

Definition run_startup_check (f : Reporting.audit_file) : MW unit :=
  if String.eqb (AUDIT_LOG_FILE c) "" then ret tt
  else
    let! t := now E in
    let window_start := msk_today_start_utc t in
    match read_audit_lines f with
    | Raise e => raise e
    | Crash => fun w => (Crash, w)
    | Ret [] => ret tt
    | Ret lines =>
        match collect window_start lines [] with
        | Raise e => raise e
        | Crash => fun w => (Crash, w)
        | Ret [] => ret tt
        | Ret successes =>
            let! by_status := verify_all successes [] in
            let dups := duplicates successes in
            let all_success := match dups with [] => true | _ => false end
                               && (count_of "SUCCESS" by_status =? Z.of_nat (List.length successes))%Z in
            record E c (startup_draft all_success
              (summary_details window_start (Z.of_nat (List.length successes)) by_status dups))
        end
    end.

(** The [try] of the lifespan around it. *)
Definition startup_check_step (f : Reporting.audit_file) : MW unit := swallow (run_startup_check f).
End StartupCheck.

(** ** Counting *)
Lemma count_of_in s x l : count_of x (count_in s l) = (count_of x l + if String.eqb x s then 1 else 0)%Z.
Proof.
  unfold count_of. induction l as [|[s' n] l IH]; cbn [count_in List.find fst snd].
  - by destruct (String.eqb x s).
  - destruct (String.eqb_spec s s') as [<-|Hne]; cbn [List.find fst snd].
    + destruct (String.eqb x s); [done | lia].
    + destruct (String.eqb_spec x s') as [->|Hx]; [|done].
      rewrite (proj2 (String.eqb_neq _ _)) by congruence. lia.
Qed.

(** How many of the entries go to an address. *)
Definition paid_to (a : string) (l : list (string * fields)) : Z :=
  Z.of_nat (List.length (List.filter (fun p => String.eqb a (get "to_address" p.2)) l)).

Lemma count_in_keys s l x : x ∈ map fst (count_in s l) -> x = s \/ x ∈ map fst l.
Proof.
  induction l as [|[s' n] l IH]; cbn; [set_solver|]. destruct (String.eqb s s'); cbn; set_solver.
Qed.
Lemma count_in_nodup s l : NoDup (map fst l) -> NoDup (map fst (count_in s l)).
Proof.
  induction l as [|[s' n] l IH]; cbn; [intros _; apply NoDup_singleton|].
  rewrite NoDup_cons. intros [Hn Hd]. destruct (String.eqb_spec s s') as [->|Hne]; cbn; rewrite NoDup_cons; [done|].
  split; [|by apply IH]. intros Hin. apply count_in_keys in Hin as [->|]; done.
Qed.
Lemma count_of_elem l a n : NoDup (map fst l) -> (a, n) ∈ l -> count_of a l = n.
Proof.
  unfold count_of. induction l as [|[s m] l IH]; cbn; [set_solver|]. rewrite NoDup_cons. intros [Hn Hd] Hin.
  apply elem_of_cons in Hin as [[= <- <-]|Hin]; [by rewrite String.eqb_refl|].
  destruct (String.eqb_spec a s) as [->|_]; [|by apply IH].
  destruct Hn. change s with (fst (s, n)). by apply list_elem_of_fmap_2.
Qed.

Lemma recipients_spec l : forall acc, NoDup (map fst acc) -> "" ∉ map fst acc ->
  let r := fold_left (fun acc p => if String.eqb (get "to_address" p.2) "" then acc
                                   else count_in (get "to_address" p.2) acc) l acc in
  NoDup (map fst r) /\ ("" ∉ map fst r) /\ (forall a, a <> "" -> count_of a r = (count_of a acc + paid_to a l)%Z).
Proof.
  induction l as [|p l IH]; intros acc Hn He; cbn [fold_left].
  { split_and!; [done..|]. intros a _. unfold paid_to. cbn. lia. }
  destruct (String.eqb_spec (get "to_address" p.2) "") as [Hp|Hp].
  - destruct (IH acc Hn He) as (H1 & H2 & H3). split_and!; [done..|]. intros a Ha. rewrite H3 by done.
    unfold paid_to. cbn [List.filter]. rewrite Hp, (proj2 (String.eqb_neq a "") Ha). done.
  - destruct (IH (count_in (get "to_address" p.2) acc)) as (H1 & H2 & H3).
    + by apply count_in_nodup.
    + intros Hin. apply count_in_keys in Hin as [|]; [by destruct Hp | done].
    + split_and!; [done..|]. intros a Ha. rewrite H3, count_of_in by done. unfold paid_to. cbn [List.filter].
      destruct (String.eqb a (get "to_address" p.2)); cbn [List.length]; lia.
Qed.

Lemma duplicates_nil l : duplicates l = [] <-> forall a, a <> "" -> (paid_to a l <= 1)%Z.
Proof.
  destruct (recipients_spec l []) as (Hn & He & Hc); [constructor|set_solver|].
  fold (recipients l) in *. unfold duplicates. split.
  - intros Hd a Ha. specialize (Hc a Ha). replace (paid_to a l) with (count_of a (recipients l)) by (rewrite Hc; done).
    unfold count_of. destruct (List.find _ _) as [p|] eqn:Hf; [|lia]. apply List.find_some in Hf as [Hin _].
    destruct (1 <? p.2)%Z eqn:Hlt; [|lia]. assert (In p []) as []. rewrite <- Hd. by apply List.filter_In.
  - intros H. destruct (List.filter _ _) as [|[a n] r] eqn:Hf; [done|].
    assert (In (a, n) (List.filter (fun p => (1 <? p.2)%Z) (recipients l))) as Hin by (rewrite Hf; by left).
    apply List.filter_In in Hin as [Hin Hlt]. apply list_elem_of_In in Hin. cbn in Hlt.
    assert (Ha : a <> ""). { intros ->. apply He. change "" with (fst ("", n)). by apply list_elem_of_fmap_2. }
    specialize (H a Ha). rewrite <- (count_of_elem _ _ _ Hn Hin), (Hc a Ha) in Hlt. cbn in Hlt. lia.
Qed.

(** ** What is collected: today's payouts, each txid once, at its first line *)
Section Spec.
Context (fromisoformat : string -> option stamp).
Context (get_transaction_info : nat -> string -> outcome exn (option Poller.receipt)).
Context {S : Type}.

Definition of_today (window_start : Z) (r : fields) : Prop :=
  get "event" r = "SEND_SUCCESS" /\ get "txid" r <> "" /\
  exists ts, fromisoformat (get "timestamp" r) = Some (Aware ts) /\ (inject_Z window_start <= ts)%Q.

Definition todays (window_start : Z) (lines : list line_json) (p : string * fields) : Prop :=
  JDict p.2 ∈ lines /\ of_today window_start p.2 /\ get "txid" p.2 = p.1.

Lemma todays_cons window_start r lines p :
  todays window_start (JDict r :: lines) p <->
  todays window_start lines p \/ (p = (get "txid" r, r) /\ of_today window_start r).
Proof.
  unfold todays. rewrite elem_of_cons. destruct p as [txid r']. cbn. split.
  - intros ([[= ->]|Hin] & Ht & <-); [by right | by left].
  - intros [(Hin & Ht & Hx) | [[= -> ->] Ht]]; [by split; [right|] | by split; [left|]].
Qed.

Lemma collect_spec window_start lines : forall acc l,
  NoDup acc.*1 -> collect fromisoformat window_start lines acc = Ret l ->
  NoDup l.*1 /\
  (forall p, p ∈ l -> p ∈ acc \/ todays window_start lines p) /\
  (forall p, p ∈ acc \/ todays window_start lines p -> p.1 ∈ l.*1).
Proof.
  assert (Hskip : forall r lines acc l,
    ~ of_today window_start r \/ get "txid" r ∈ acc.*1 ->
    NoDup l.*1 /\ (forall p, p ∈ l -> p ∈ acc \/ todays window_start lines p) /\
      (forall p, p ∈ acc \/ todays window_start lines p -> p.1 ∈ l.*1) ->
    NoDup l.*1 /\ (forall p, p ∈ l -> p ∈ acc \/ todays window_start (JDict r :: lines) p) /\
      (forall p, p ∈ acc \/ todays window_start (JDict r :: lines) p -> p.1 ∈ l.*1)).
  { clear. intros r lines acc l Hr (H1 & H2 & H3). split_and!; [done| |].
    - intros p Hp. rewrite todays_cons. destruct (H2 p Hp); auto.
    - intros p. rewrite todays_cons. intros [Hp|[Hp|[-> Ht]]]; [auto..|]. destruct Hr as [Hr|Hr]; [done|].
      apply list_elem_of_fmap in Hr as (q & Hq & Hin). cbn. rewrite Hq. apply H3. by left. }
  induction lines as [|[r|] lines IH]; intros acc l Hn; cbn [collect]; [|..|done].
  { intros [= <-]. split_and!; [done|auto|]. intros p [Hp|(Hp & _)]; [by apply list_elem_of_fmap_2|set_solver]. }
  destruct (String.eqb_spec (get "event" r) "SEND_SUCCESS") as [He|He]; cbn [negb].
  2: { intros H. apply Hskip; [left; by intros [? _]|by apply IH]. }
  destruct (fromisoformat (get "timestamp" r)) as [[|ts]|] eqn:Hts; [done|..].
  2: { intros H. apply Hskip; [left; intros (_ & _ & ts & Ht & _); congruence|by apply IH]. }
  destruct (Qltb ts (inject_Z window_start)) eqn:Hlt.
  { intros H. apply Hskip; [|by apply IH]. left. intros (_ & _ & ts' & Ht & Hle).
    rewrite Hts in Ht. injection Ht as <-. apply Qltb_lt in Hlt. lra. }
  destruct (String.eqb_spec (get "txid" r) "") as [Ht|Ht]; cbn [orb].
  { intros H. apply Hskip; [left; by intros (_ & ? & _)|by apply IH]. }
  destruct (existsb _ acc) eqn:Hex.
  { intros H. apply Hskip; [right|by apply IH]. apply existsb_exists in Hex as (p & Hp & Heq).
    apply String.eqb_eq in Heq. rewrite <- Heq. apply list_elem_of_In in Hp. by apply list_elem_of_fmap_2. }
  assert (Hnew : get "txid" r ∉ acc.*1).
  { intros Hin. apply list_elem_of_fmap in Hin as (p & Hp & Hin). apply list_elem_of_In in Hin.
    assert (existsb (fun p => String.eqb p.1 (get "txid" r)) acc = true) as Hex'; [|congruence].
    apply existsb_exists. exists p. split; [done|]. by apply String.eqb_eq. }
  intros H. destruct (IH (acc ++ [(get "txid" r, r)])%list l) as (H1 & H2 & H3); [|done|].
  { rewrite fmap_app. apply NoDup_app. cbn. split_and!; [done|set_solver|apply NoDup_singleton]. }
  assert (of_today window_start r) by (split_and!; [done..|]; exists ts; split; [done | by apply Qltb_nlt]).
  split_and!; [done| |].
  - intros p Hp. rewrite todays_cons. destruct (H2 p Hp) as [Hp'|Hp']; [|auto]. 
    apply elem_of_app in Hp' as [Hp'|Hp']; [auto|]. apply list_elem_of_singleton in Hp'. auto.
  - intros p. rewrite todays_cons. intros [Hp|[Hp|[-> _]]]; apply H3; set_solver.
Qed.

(** ** The receipts *)

(** The status of one lookup; none when it is interrupted. *)
Definition status_of (o : outcome exn (option Poller.receipt)) : option string :=
  match o with
  | Ret None => Some "NOT_FOUND"
  | Ret (Some r) => Some (str_or (Poller.ri_result r) "SUCCESS")
  | Raise e =>
      if is_Exception e then
        Some (if contains "not found" (lower (exn_str e)) || contains "transactionnotfound" (lower (exn_class e))
              then "NOT_FOUND" else "RPC_ERROR")
      else None
  | Crash => None
  end.
Definition later (n : nat) (w : World S) : World S := set_tick (w_tick w + n)%nat w.

Lemma verify_spec txid w s w' :
  verify_txid_on_chain get_transaction_info txid w = (Ret s, w') ->
  w' = later 1 w /\ status_of (get_transaction_info (w_tick w) txid) = Some s.
Proof.
  unfold verify_txid_on_chain, try_except, catch, bind, ext, status_of, later. rewrite Nat.add_1_r.
  destruct (get_transaction_info (w_tick w) txid) as [[r|]|e|]; cbn; [by intros [= <- <-]..| |done].
  destruct (is_Exception e); [|done]. destruct (_ || _); by intros [= <- <-].
Qed.

Lemma verify_all_spec l : forall bs w bs' w',
  verify_all get_transaction_info l bs w = (Ret bs', w') ->
  w' = later (List.length l) w /\
  (count_of "SUCCESS" bs' <= count_of "SUCCESS" bs + Z.of_nat (List.length l))%Z /\
  (count_of "SUCCESS" bs' = count_of "SUCCESS" bs + Z.of_nat (List.length l) <->
   forall i p, l !! i = Some p -> status_of (get_transaction_info (w_tick w + i)%nat p.1) = Some "SUCCESS")%Z.
Proof.
  induction l as [|[txid r] l IH]; intros bs w bs' w'; cbn [verify_all].
  { intros [= <- <-]. unfold later. rewrite Nat.add_0_r. split_and!; [by destruct w|cbn; lia|]. cbn. split; [done|lia]. }
  unfold bind. destruct (verify_txid_on_chain get_transaction_info txid w) as [[s|e|] w1] eqn:Hv; [|done..].
  apply verify_spec in Hv as [-> Hs]. intros H. apply IH in H as (-> & Hle & Hiff).
  rewrite count_of_in in Hle, Hiff. cbn [List.length]. unfold later in *. cbn [w_tick set_tick] in *.
  split_and!; [destruct w; unfold set_tick; cbn; f_equal; lia|destruct (String.eqb "SUCCESS" s); lia|]. split.
  - intros Heq. destruct (String.eqb_spec "SUCCESS" s) as [<-|Hne]; [|lia].
    intros [|i] p; cbn; [intros [= <-]; by rewrite Nat.add_0_r|]. intros Hp.
    replace (w_tick w + Datatypes.S i)%nat with (w_tick w + 1 + i)%nat by lia. apply Hiff; [lia|done].
  - intros Hall. assert (s = "SUCCESS") as ->.
    { specialize (Hall 0%nat _ eq_refl). cbn in Hall. rewrite Nat.add_0_r in Hall. congruence. }
    rewrite String.eqb_refl in Hiff. rewrite (proj2 Hiff); [lia|]. intros i p Hp.
    replace (w_tick w + 1 + i)%nat with (w_tick w + Datatypes.S i)%nat by lia. by apply Hall.
Qed.
End Spec.

(** ** The properties *)

(** C39: When the reconciliation finishes on a file with payouts of today (Moscow time), it
    has looked up each txid of today's SEND_SUCCESS lines once, and wrote one
    STARTUP_CHECK entry, whose result is [ok] exactly when every receipt is SUCCESS and
    no recipient was paid twice. *)
Theorem startup_check_verdict
    (json_loads : string -> option line_json) (fromisoformat : string -> option stamp)
    (rpc : nat -> string -> outcome exn (option Poller.receipt)) (iso_utc : Z -> string)
    {S : Type} (E : Env) (c : Config) f w w' lines successes :
  let window_start := msk_today_start_utc (env_now E (w_tick w)) in
  AUDIT_LOG_FILE c <> "" -> read_audit_lines json_loads f = Ret lines ->
  collect fromisoformat window_start lines [] = Ret successes -> successes <> [] ->
  run_startup_check json_loads fromisoformat rpc iso_utc (S:=S) E c f w = (Ret tt, w') ->
  NoDup successes.*1 /\
  (forall p, p ∈ successes -> todays fromisoformat window_start lines p) /\
  (forall p, todays fromisoformat window_start lines p -> p.1 ∈ successes.*1) /\
  exists ok details id ts,
    au_log (w_audit w') = (au_log (w_audit w) ++ [startup_draft ok details id ts])%list /\
    (ok = true <->
      (forall i p, successes !! i = Some p -> status_of (rpc (w_tick w + 1 + i)%nat p.1) = Some "SUCCESS") /\
      (forall a, a <> "" -> (paid_to a successes <= 1)%Z)).
Proof.
  intros window_start Hc Hread Hcol Hne Hrun.
  destruct (collect_spec fromisoformat window_start lines [] successes) as (H1 & H2 & H3); [constructor|done|].
  split_and!; [done|by intros p Hp; destruct (H2 p Hp) as [Hp'|]; [set_solver|]|auto|].
  unfold run_startup_check in Hrun. rewrite (proj2 (String.eqb_neq _ _) Hc), Hread in Hrun.
  unfold bind at 1, now, ext in Hrun. fold window_start in Hrun.
  destruct lines as [|line lines]; [cbn in Hcol; congruence|]. rewrite Hcol in Hrun.
  destruct successes as [|s0 succ] eqn:Hsucc; [done|]. rewrite <- Hsucc in *. clear Hsucc.
  unfold bind in Hrun. destruct (verify_all rpc successes [] _) as [[bs|e|] w1] eqn:Hv; [|done..].
  apply verify_all_spec in Hv as (-> & Hle & Hiff). cbn [w_tick set_tick] in Hiff.
  match type of Hrun with record E c (startup_draft ?ok ?details) ?w2 = _ =>
    pose proof (record_wp E c (startup_draft ok details) w2) as Hrec; exists ok, details end.
  unfold wp in Hrec. rewrite Hrun in Hrec. cbn [fst snd record_post] in Hrec.
  destruct Hrec as ((_ & _ & Hlog & _) & _). eexists _, _. split; [exact Hlog|].
  rewrite <- duplicates_nil, andb_true_iff, Z.eqb_eq. replace (w_tick w + 1)%nat with (Datatypes.S (w_tick w)) by lia.
  rewrite <- Hiff. change (count_of "SUCCESS" []) with 0%Z. rewrite Z.add_0_l.
  destruct (duplicates successes); naive_solver.
Qed.

(** The check is not quite best-effort: a SEND_SUCCESS line whose timestamp has no UTC
    offset stops it with a TypeError before any receipt is looked up and without the
    STARTUP_CHECK entry; the lifespan, which runs it in a [try], goes on. *)
Theorem startup_check_aborts
    (json_loads : string -> option line_json) (fromisoformat : string -> option stamp)
    (rpc : nat -> string -> outcome exn (option Poller.receipt)) (iso_utc : Z -> string)
    {S : Type} (E : Env) (c : Config) f (w : World S) pre r post :
  AUDIT_LOG_FILE c <> "" -> read_audit_lines json_loads f = Ret (pre ++ JDict r :: post)%list ->
  Forall (fun l => exists r', l = JDict r' /\ fromisoformat (get "timestamp" r') <> Some Naive) pre ->
  get "event" r = "SEND_SUCCESS" -> fromisoformat (get "timestamp" r) = Some Naive ->
  run_startup_check json_loads fromisoformat rpc iso_utc E c f w = (Raise compare_error, later 1 w) /\
  startup_check_step json_loads fromisoformat rpc iso_utc E c f w = (Ret tt, later 1 w).
Proof.
  intros Hc Hread Hpre He Hts.
  assert (Hcol : forall ws acc, collect fromisoformat ws (pre ++ JDict r :: post) acc = Raise compare_error).
  { intros ws. clear Hread. induction Hpre as [|l pre (r' & -> & Hn) _ IH]; intros acc; cbn [app collect].
    - by rewrite He, Hts.
    - destruct (negb _); [done|]. destruct (fromisoformat (get "timestamp" r')) as [[|ts]|]; [done| |done].
      destruct (Qltb _ _); [done|]. by destruct (_ || _). }
  assert (Hrun : run_startup_check json_loads fromisoformat rpc iso_utc E c f w = (Raise compare_error, later 1 w)).
  { unfold run_startup_check. rewrite (proj2 (String.eqb_neq _ _) Hc), Hread. unfold bind at 1, now, ext.
    rewrite Hcol. unfold later. rewrite Nat.add_1_r. by destruct pre. }
  split; [done|]. unfold startup_check_step, swallow, try_except, catch. by rewrite Hrun.
Qed.

#[global] Instance frame_startup json_loads fromisoformat rpc iso_utc {S : Type} (E : Env) (c : Config) f :
  Frame (same_core (S:=S)) (run_startup_check json_loads fromisoformat rpc iso_utc E c f).
Proof.
  assert (Hverify : forall txid, Frame same_core (verify_txid_on_chain (S:=S) rpc txid)).
  { intros. unfold verify_txid_on_chain. frames. }
  assert (Hall : forall l bs, Frame same_core (verify_all (S:=S) rpc l bs)).
  { induction l as [|[txid r] l IH]; intros bs; cbn [verify_all]; frames. }
  unfold run_startup_check. frames; try done.
Qed.

(** ** The hypotheses can hold *)
Definition demo_line (txid to_address timestamp : string) : fields :=
  <["event" := "SEND_SUCCESS"]> (<["txid" := txid]> (<["to_address" := to_address]> {["timestamp" := timestamp]})).
Definition demo_loads (s : string) : option line_json :=
  if String.eqb s "1" then Some (JDict (demo_line "tx1" "TA" "12:00+00:00"))
  else if String.eqb s "2" then Some (JDict (demo_line "tx2" "TA" "12:01+00:00"))
  else if String.eqb s "3" then Some (JDict (demo_line "tx3" "TB" "12:02")) else None.
Definition demo_iso (s : string) : option stamp :=
  if String.eqb s "12:02" then Some Naive else Some (Aware 43200).
Definition demo_rpc (_ : nat) (_ : string) : outcome exn (option Poller.receipt) :=
  Ret (Some (Poller.mkReceipt "" (Some 7%Z) None)).
Definition demo_file (lines : list string) : Reporting.audit_file := Some (lines, None).
Definition demo_successes : list (string * fields) :=
  [("tx1", demo_line "tx1" "TA" "12:00+00:00"); ("tx2", demo_line "tx2" "TA" "12:01+00:00")].
Definition demo_run (f : Reporting.audit_file) : outcome exn unit * World unit :=
  run_startup_check demo_loads demo_iso demo_rpc (fun _ => "w") sample_env default_config f AuditLog.sample_world.

Lemma startup_check_verdict_witness :
  let w' := snd (demo_run (demo_file ["1"; "2"])) in
  NoDup demo_successes.*1 /\
  exists ok details id ts,
    au_log (w_audit w') = (au_log (w_audit AuditLog.sample_world) ++ [startup_draft ok details id ts])%list /\
    (ok = true <->
      (forall i p, demo_successes !! i = Some p ->
         status_of (demo_rpc (w_tick AuditLog.sample_world + 1 + i)%nat p.1) = Some "SUCCESS") /\
      (forall a, a <> "" -> (paid_to a demo_successes <= 1)%Z)).
Proof.
  intros w'.
  destruct (startup_check_verdict demo_loads demo_iso demo_rpc (fun _ => "w") sample_env default_config
    (demo_file ["1"; "2"]) AuditLog.sample_world w'
    [JDict (demo_line "tx1" "TA" "12:00+00:00"); JDict (demo_line "tx2" "TA" "12:01+00:00")] demo_successes)
    as (H1 & _ & _ & H4); [done|reflexivity|reflexivity|done|vm_compute; reflexivity|].
  split; [exact H1|exact H4].
Defined.

Lemma startup_check_aborts_witness :
  fst (demo_run (demo_file ["1"; "3"; "2"])) = Raise compare_error.
Proof.
  unfold demo_run.
  destruct (startup_check_aborts demo_loads demo_iso demo_rpc (fun _ => "w") sample_env default_config
    (demo_file ["1"; "3"; "2"]) AuditLog.sample_world [JDict (demo_line "tx1" "TA" "12:00+00:00")]
    (demo_line "tx3" "TB" "12:02") [JDict (demo_line "tx2" "TA" "12:01+00:00")]) as [-> _]; try reflexivity; [done|].
  apply Forall_singleton. eexists. split; [reflexivity|]. by vm_compute.
Defined.
