(* ===== verification/ConfigLoad.v ===== *)
(** * Reading the environment at start-up ([config.py], [__main__.main])

    The module constants of [config.py] as a function of the environment ([load_dotenv]
    has already merged the .env file into it); [None] is a ValueError at import, which
    ends the process.  A float is the rational its text denotes; the texts [inf] and [nan],
    which [float] also reads, are outside the model. *)
From S2P Require Import Prelude PyStr Decimal Exceptions Config RateLimit.
Open Scope string_scope.

(** [os.environ] *)
Abbreviation environ := (string -> option string).
Definition getenv (e : environ) (k d : string) : string := default d (e k).

(** [float(s)] for finite numerals: underscores stand between digits. *)
Fixpoint underscores_ok (prev_digit : bool) (s : string) : bool :=
  match s with
  | "" => true
  | String c s' =>
      if Ascii.eqb c "_" then
        prev_digit && match s' with String d _ => is_digit d | "" => false end && underscores_ok false s'
      else underscores_ok (is_digit c) s'
  end.
Definition float_of_str (s : string) : option Q :=
  if underscores_ok false (strip s) then dec_value <$> dec_of_string (strip s) else None.

(** [tuple(float(x.strip()) for x in raw.split(",") if x.strip())] *)
Fixpoint float_list (l : list string) : option (list Q) :=
  match l with
  | [] => Some []
  | x :: l => x ← float_of_str x; l ← float_list l; Some (x :: l)
  end.
Definition parse_floats (raw : string) : option (list Q) := float_list (parse_csv raw).

Record KeySettings := mkKeys {
  ks_provider : string; ks_wallets : string; OP_VAULT : string; OP_ITEM : string; OP_FIELD : string;
  ks_private_key_file : string; KEYCHAIN_SERVICE : string; KEYCHAIN_ACCOUNT : string;
  ks_keystore_file : string; KEY_PASSPHRASE_FILE : string }.
Definition load_keys (e : environ) : KeySettings := {|
  ks_provider := lower (strip (getenv e "KEY_PROVIDER" "1password"));
  ks_wallets := getenv e "WALLETS" "";
  OP_VAULT := getenv e "OP_VAULT" "Treasury";
  OP_ITEM := getenv e "OP_ITEM" "TRON-Treasury-TXpdZ6qv";
  OP_FIELD := getenv e "OP_FIELD" "password";
  ks_private_key_file := getenv e "PRIVATE_KEY_FILE" "";
  KEYCHAIN_SERVICE := getenv e "KEYCHAIN_SERVICE" "payouts";
  KEYCHAIN_ACCOUNT := getenv e "KEYCHAIN_ACCOUNT" "treasury";
  ks_keystore_file := getenv e "KEYSTORE_FILE" "";
  KEY_PASSPHRASE_FILE := getenv e "KEY_PASSPHRASE_FILE" "" |}.

Record TronSettings := mkTronSettings {
  tn_network : string; TRONGRID_API_KEY : string; tn_contract : string; tn_fee_limit : Z; tn_reserve : Dec;
  tn_timeout : Z; tn_fallback : Z; tn_burn : Dec; tn_mult : Dec }.
Definition load_tron (e : environ) : option TronSettings :=
  fee_limit ← int_of_str (getenv e "USDT_FEE_LIMIT_SUN" "30000000");
  timeout ← int_of_str (getenv e "TRON_HTTP_TIMEOUT" "15");
  fallback ← int_of_str (getenv e "TRON_ENERGY_PRICE_SUN_FALLBACK" "420");
  Some {|
    tn_network := getenv e "TRON_NETWORK" "mainnet";
    TRONGRID_API_KEY := getenv e "TRONGRID_API_KEY" "";
    tn_contract := getenv e "USDT_CONTRACT" "TR7NHqjeKQxGTCi8q8ZY4pL8otSzgjLj6t";
    tn_fee_limit := fee_limit;
    tn_reserve := decimal_or (getenv e "MIN_TRX_RESERVE" "50") (mkDec 50 0);
    tn_timeout := timeout; tn_fallback := fallback;
    tn_burn := decimal_or (getenv e "MAX_ENERGY_BURN_TRX" "20") (mkDec 20 0);
    tn_mult := decimal_or (getenv e "FEE_LIMIT_SAFETY_MULT" "1.3") (mkDec 13 (-1)) |}.

Record RiskSettings := mkRiskSettings {
  rk_block_level : string; rk_use_external : bool; SANCTIONS_LIST_URL : string; SANCTIONS_LIST_REFRESH : bool;
  rk_misttrack : string }.
Definition load_risk (e : environ) : RiskSettings := {|
  rk_block_level := lower (strip (getenv e "RISK_BLOCK_LEVEL" "high"));
  rk_use_external := parse_flag (getenv e "RISK_USE_EXTERNAL" "true");
  SANCTIONS_LIST_URL := getenv e "SANCTIONS_LIST_URL"
    ("https://raw.githubusercontent.com/0xB10C/" +:+
     "ofac-sanctioned-digital-currency-addresses/lists/" +:+ "sanctioned_addresses_TRX.txt");
  SANCTIONS_LIST_REFRESH := parse_flag (getenv e "SANCTIONS_LIST_REFRESH" "true");
  rk_misttrack := getenv e "MISTTRACK_API_KEY" "" |}.

Record StateSettings := mkStateSettings {
  SKR_CRYPTO_HOME : string; st_audit : string; IDEMPOTENCY_DB_PATH : string; st_proxies : list string }.
Definition load_state (e : environ) : StateSettings := {|
  SKR_CRYPTO_HOME := getenv e "SKR_CRYPTO_HOME" "";
  st_audit := getenv e "AUDIT_LOG_FILE" "";
  IDEMPOTENCY_DB_PATH := getenv e "IDEMPOTENCY_DB_PATH" "";
  st_proxies := parse_csv (getenv e "TRUSTED_PROXIES" "") |}.

Record ServerSettings := mkServer {
  SERVER_HOST : string; SERVER_PORT : Z; sv_shutdown : Z; sv_rate_max : Z; RATE_LIMIT_WINDOW : Z;
  ip_params : BucketParams; token_params : BucketParams; RATE_LIMIT_SWEEP_INTERVAL_SEC : Z }.
(** The default capacity is [str(RATE_LIMIT_MAX)] read back, the default refill
    [RATE_LIMIT_MAX / max(1, RATE_LIMIT_WINDOW)]. *)
Definition load_server (e : environ) : option ServerSettings :=
  port ← int_of_str (getenv e "SERVER_PORT" "8000");
  shutdown ← int_of_str (getenv e "SHUTDOWN_TIMEOUT" "600");
  rate_max ← int_of_str (getenv e "RATE_LIMIT_MAX" "30");
  window ← int_of_str (getenv e "RATE_LIMIT_WINDOW" "60");
  ip_capacity ← int_of_str (getenv e "RATE_LIMIT_IP_CAPACITY" (str_of_Z rate_max));
  ip_refill ← match e "RATE_LIMIT_IP_REFILL_PER_SEC" with
              | Some s => float_of_str s
              | None => Some (inject_Z rate_max / Qmax2 1 (inject_Z window))%Q
              end;
  token_capacity ← int_of_str (getenv e "RATE_LIMIT_TOKEN_CAPACITY" "100");
  token_refill ← float_of_str (getenv e "RATE_LIMIT_TOKEN_REFILL_PER_SEC" "2.0");
  sweep ← int_of_str (getenv e "RATE_LIMIT_SWEEP_INTERVAL_SEC" "300");
  Some {|
    SERVER_HOST := getenv e "SERVER_HOST" "127.0.0.1"; SERVER_PORT := port; sv_shutdown := shutdown;
    sv_rate_max := rate_max; RATE_LIMIT_WINDOW := window;
    ip_params := mkParams ip_capacity ip_refill; token_params := mkParams token_capacity token_refill;
    RATE_LIMIT_SWEEP_INTERVAL_SEC := sweep |}.

Record PollSettings := mkPoll {
  RECEIPT_POLL_INTERVAL_SEC : Q; RECEIPT_LOOKBACK_HOURS : Q; RECEIPT_POLL_BATCH : Z; RECEIPT_NOT_FOUND_GIVEUP_HOURS : Q }.
Definition load_poll (e : environ) : option PollSettings :=
  interval ← float_of_str (getenv e "RECEIPT_POLL_INTERVAL_SEC" "60");
  lookback ← float_of_str (getenv e "RECEIPT_LOOKBACK_HOURS" "48");
  batch ← int_of_str (getenv e "RECEIPT_POLL_BATCH" "20");
  giveup ← float_of_str (getenv e "RECEIPT_NOT_FOUND_GIVEUP_HOURS" "24");
  Some (mkPoll interval lookback batch giveup).

Record WebhookSettings := mkWebhooks {
  WEBHOOK_URLS : list string; WEBHOOK_SIGNING_SECRET : string; WEBHOOK_EVENTS : list string;
  WEBHOOK_TIMEOUT_SEC : Q; WEBHOOK_BACKOFF_SCHEDULE : list Q; WEBHOOK_TIMESTAMP_TOLERANCE_SEC : Z;
  WEBHOOK_WORKER_INTERVAL_SEC : Q }.
Definition load_webhooks (e : environ) : option WebhookSettings :=
  timeout ← float_of_str (getenv e "WEBHOOK_TIMEOUT_SEC" "10");
  backoff ← parse_floats (getenv e "WEBHOOK_BACKOFF_SCHEDULE" "0,30,120,600,3600");
  tolerance ← int_of_str (getenv e "WEBHOOK_TIMESTAMP_TOLERANCE_SEC" "300");
  interval ← float_of_str (getenv e "WEBHOOK_WORKER_INTERVAL_SEC" "1.0");
  Some {|
    WEBHOOK_URLS := parse_csv (getenv e "WEBHOOK_URLS" "");
    WEBHOOK_SIGNING_SECRET := getenv e "WEBHOOK_SIGNING_SECRET" "";
    WEBHOOK_EVENTS := parse_csv (getenv e "WEBHOOK_EVENTS"
      "SEND_SUCCESS,SEND_REJECTED,SEND_FAILED,SEND_DUPLICATE,RECEIPT_RESOLVED");
    WEBHOOK_TIMEOUT_SEC := timeout; WEBHOOK_BACKOFF_SCHEDULE := backoff;
    WEBHOOK_TIMESTAMP_TOLERANCE_SEC := tolerance; WEBHOOK_WORKER_INTERVAL_SEC := interval |}.

Record AlertSettings := mkAlerts {
  TELEGRAM_BOT_TOKEN : string; TELEGRAM_CHAT_ID : string; ALERT_EVENTS : list string;
  ALERT_SEND_THRESHOLD_USDT : option Dec; ALERT_SANCTIONS_HIT_NOTIFY : bool; ALERT_QUIET_HOURS_UTC : string;
  ALERT_TIMEOUT_SEC : Q; ALERT_BACKOFF_SCHEDULE : list Q; ALERT_WORKER_INTERVAL_SEC : Q }.
Definition load_alerts (e : environ) : option AlertSettings :=
  timeout ← float_of_str (getenv e "ALERT_TIMEOUT_SEC" "10");
  backoff ← parse_floats (getenv e "ALERT_BACKOFF_SCHEDULE" "0,5,30,300");
  interval ← float_of_str (getenv e "ALERT_WORKER_INTERVAL_SEC" "1.0");
  Some {|
    TELEGRAM_BOT_TOKEN := getenv e "TELEGRAM_BOT_TOKEN" "";
    TELEGRAM_CHAT_ID := getenv e "TELEGRAM_CHAT_ID" "";
    ALERT_EVENTS := parse_csv (getenv e "ALERT_EVENTS" "SEND_REJECTED,SEND_FAILED,WEBHOOK_GIVEUP");
    ALERT_SEND_THRESHOLD_USDT := parse_alert_threshold (getenv e "ALERT_SEND_THRESHOLD_USDT" "");
    ALERT_SANCTIONS_HIT_NOTIFY := parse_flag (getenv e "ALERT_SANCTIONS_HIT_NOTIFY" "true");
    ALERT_QUIET_HOURS_UTC := strip (getenv e "ALERT_QUIET_HOURS_UTC" "");
    ALERT_TIMEOUT_SEC := timeout; ALERT_BACKOFF_SCHEDULE := backoff; ALERT_WORKER_INTERVAL_SEC := interval |}.

Record Settings := mkSettings {
  s_config : Config; s_keys : KeySettings; s_tron : TronSettings; s_risk : RiskSettings; s_state : StateSettings;
  s_server : ServerSettings; s_poll : PollSettings; s_webhooks : WebhookSettings; s_alerts : AlertSettings }.

(** The module from its first line to its last. *)
Definition load_config (e : environ) : option Settings :=
  let k := load_keys e in
  tn ← load_tron e;
  let rk := load_risk e in
  let st := load_state e in
  sv ← load_server e;
  po ← load_poll e;
  wh ← load_webhooks e;
  al ← load_alerts e;
  Some (mkSettings {|
      KEY_PROVIDER := ks_provider k; WALLETS := ks_wallets k; PRIVATE_KEY_FILE := ks_private_key_file k;
      KEYSTORE_FILE := ks_keystore_file k; AUTH_TOKEN := getenv e "AUTH_TOKEN" "";
      TRON_NETWORK := tn_network tn; USDT_CONTRACT := tn_contract tn; USDT_FEE_LIMIT_SUN := tn_fee_limit tn;
      MIN_TRX_RESERVE := tn_reserve tn; TRON_HTTP_TIMEOUT := tn_timeout tn;
      TRON_ENERGY_PRICE_SUN_FALLBACK := tn_fallback tn; MAX_ENERGY_BURN_TRX := tn_burn tn;
      FEE_LIMIT_SAFETY_MULT := tn_mult tn; RISK_BLOCK_LEVEL := rk_block_level rk;
      RISK_USE_EXTERNAL := rk_use_external rk; MISTTRACK_API_KEY := rk_misttrack rk;
      AUDIT_LOG_FILE := st_audit st; SHUTDOWN_TIMEOUT := sv_shutdown sv; RATE_LIMIT_MAX := sv_rate_max sv;
      TRUSTED_PROXIES := st_proxies st |} k tn rk st sv po wh al).

(** ** [main] *)
Record Args := mkArgs { lan : bool; arg_host : option string; arg_port : option Z }.
Inductive start_result :=
| ImportFails                              (** ValueError while [config] is imported *)
| ConfigErrors (errors : list string)      (** printed; exit status 1 *)
| Serves (host : string) (port : Z) (s : Settings).

(** [lan_ip]: what [detect_lan_ip] found. *)
Definition main (e : environ) (a : Args) (lan_ip : option string) : start_result :=
  match load_config e with
  | None => ImportFails
  | Some s =>
      match validate_config (s_config s) with
      | [] =>
          let host := str_or (default "" (arg_host a)) (SERVER_HOST (s_server s)) in
          let port := match arg_port a with
                      | Some p => if (p =? 0)%Z then SERVER_PORT (s_server s) else p
                      | None => SERVER_PORT (s_server s)
                      end in
          let host := if lan a then str_or (default "" lan_ip) "0.0.0.0" else host in
          Serves host port s
      | errors => ConfigErrors errors
      end
  end.

(** [detect_lan_ip]: the host's addresses, then the local address of a socket
    connected to each probe ([None]: an exception). *)
Definition in_lan (ip : string) : bool := startswith "192.168.88." ip || startswith "192.168.89." ip.
Definition detect_lan_ip (addresses : option (list string)) (probes : list (option string)) : option string :=
  match List.find in_lan (default [] addresses) with
  | Some ip => Some ip
  | None => List.find in_lan (omap (fun p => p) probes)
  end.

(** The environment with one variable set. *)
Definition override (k v : string) (e : environ) : environ := fun k' => if String.eqb k' k then Some v else e k'.
Lemma server_override e sv : load_server e = Some sv -> exists sv',
  load_server (override "RATE_LIMIT_IP_CAPACITY" "0" e) = Some sv' /\
  SERVER_HOST sv' = SERVER_HOST sv /\ SERVER_PORT sv' = SERVER_PORT sv /\ sv_shutdown sv' = sv_shutdown sv /\
  sv_rate_max sv' = sv_rate_max sv /\ capacity (ip_params sv') = 0%Z.
Proof.
  unfold load_server, getenv, override. cbn [String.eqb Ascii.eqb Bool.eqb]. intros H.
  apply bind_Some in H as (port & -> & H). apply bind_Some in H as (sh & -> & H).
  apply bind_Some in H as (rm & -> & H). apply bind_Some in H as (wn & -> & H).
  apply bind_Some in H as (cap & _ & H). apply bind_Some in H as (rf & Hrf & H).
  apply bind_Some in H as (tc & Htc & H). apply bind_Some in H as (tr & Htr & H). apply bind_Some in H as (sw & Hsw & H).
  cbn [mbind option_bind default]. change (int_of_str "0") with (Some 0%Z). cbn [mbind option_bind].
  rewrite Hrf. cbn [mbind option_bind]. rewrite Htc. cbn [mbind option_bind]. rewrite Htr. cbn [mbind option_bind].
  rewrite Hsw. injection H as <-. eexists. by split.
Qed.

(** ** The properties *)

(** C30: A process that starts serving has a well-formed configuration, whatever the
    environment and the command line: a token, a known provider, network and block level,
    a contract address of 34 characters that starts with T, a reserve that covers the fee
    ceiling, and the numeric bounds the handlers rely on; the configuration is the one
    read from the environment. *)
Theorem served_config_well_formed (e : environ) (a : Args) (lan_ip : option string) h p s :
  main e a lan_ip = Serves h p s ->
  config_valid (s_config s) /\ load_config e = Some s /\
  AUTH_TOKEN (s_config s) = getenv e "AUTH_TOKEN" "" /\
  KEY_PROVIDER (s_config s) ∈ ["1password"; "env"; "file"; "keychain"; "encrypted_file"] /\
  String.length (USDT_CONTRACT (s_config s)) = 34%nat /\ startswith "T" (USDT_CONTRACT (s_config s)) = true.
Proof.
  unfold main. destruct (load_config e) as [s'|] eqn:Hl; [|done].
  destruct (validate_config (s_config s')) as [|m ms] eqn:Hv; [|done]. intros [= _ _ <-].
  split_and!; [by apply validate_config_sound|done| | | |].
  - unfold load_config in Hl. repeat (apply bind_Some in Hl as (? & _ & Hl)). by injection Hl as <-.
  - revert Hv. unfold validate_config. intros Hv. repeat (apply app_nil in Hv as [? Hv]).
    repeat match goal with H : error_if _ _ = [] |- _ => apply error_if_nil in H end.
    by apply not_in_false.
  - revert Hv. unfold validate_config. intros Hv. repeat (apply app_nil in Hv as [? Hv]).
    repeat match goal with H : error_if _ _ = [] |- _ => apply error_if_nil in H end. bcases. by apply Nat.eqb_eq.
  - revert Hv. unfold validate_config. intros Hv. repeat (apply app_nil in Hv as [? Hv]).
    repeat match goal with H : error_if _ _ = [] |- _ => apply error_if_nil in H end. by bcases.
Qed.

(** With nothing set the only complaint is the missing token; with any token alone the
    service starts, on the loopback interface and port 8000, with the durable stores off
    and the checks at their strictest defaults. *)
Theorem defaults_need_only_token (token : string) :
  main (fun _ => None) (mkArgs false None None) None = ConfigErrors ["AUTH_TOKEN is not set"] /\
  (token <> "" -> exists s,
     main (fun k => if String.eqb k "AUTH_TOKEN" then Some token else None) (mkArgs false None None) None =
       Serves "127.0.0.1" 8000 s /\
     IDEMPOTENCY_DB_PATH (s_state s) = "" /\ AUDIT_LOG_FILE (s_config s) = "" /\
     RISK_BLOCK_LEVEL (s_config s) = "high" /\ RISK_USE_EXTERNAL (s_config s) = true /\
     ip_params (s_server s) = mkParams 30 (30 # 60) /\ TRUSTED_PROXIES (s_config s) = []).
Proof.
  split; [vm_compute; reflexivity|]. intros Ht. destruct token as [|c t]; [done|].
  eexists. split; [vm_compute; reflexivity|]. by split_and!.
Qed.

(** The token-bucket settings are not validated: an environment the service starts in is
    one it also starts in with RATE_LIMIT_IP_CAPACITY=0, and then every request to a path
    that is not exempt raises ValueError in the middleware. *)
Theorem bucket_settings_unchecked (e : environ) (a : Args) (lan_ip : option string) h p s :
  main e a lan_ip = Serves h p s ->
  exists s', main (override "RATE_LIMIT_IP_CAPACITY" "0" e) a lan_ip = Serves h p s' /\
    forall path peer xff now b, exempt path = false ->
      main_middleware (TRUSTED_PROXIES (s_config s')) (ip_params (s_server s')) now path (Some peer) xff (Some b) =
        (Raise (params_error (ip_params (s_server s'))), Some b).
Proof.
  unfold main. destruct (load_config e) as [s0|] eqn:Hl; [|done]. intros H.
  assert (exists s1, load_config (override "RATE_LIMIT_IP_CAPACITY" "0" e) = Some s1 /\ s_config s1 = s_config s0 /\
            SERVER_HOST (s_server s1) = SERVER_HOST (s_server s0) /\ SERVER_PORT (s_server s1) = SERVER_PORT (s_server s0) /\
            capacity (ip_params (s_server s1)) = 0%Z) as (s1 & -> & Hc & Hh & Hp & Hcap).
  { revert Hl. unfold load_config.
    change (load_tron (override _ _ e)) with (load_tron e). destruct (load_tron e) as [tn|]; [cbn [mbind option_bind]|done].
    destruct (load_server e) as [sv|] eqn:Hsv; [cbn [mbind option_bind]|done].
    destruct (server_override e sv Hsv) as (sv' & Hsv' & H1 & H2 & H3 & H4 & H5). rewrite Hsv'. cbn [mbind option_bind].
    change (load_poll (override _ _ e)) with (load_poll e). destruct (load_poll e) as [po|]; [cbn [mbind option_bind]|done].
    change (load_webhooks (override _ _ e)) with (load_webhooks e).
    destruct (load_webhooks e) as [wh|]; [cbn [mbind option_bind]|done].
    change (load_alerts (override _ _ e)) with (load_alerts e). destruct (load_alerts e) as [al|]; [cbn [mbind option_bind]|done].
    intros [= <-]. eexists. split; [reflexivity|]. cbn [s_config s_server]. by rewrite H3, H4. }
  rewrite Hc, Hh, Hp. destruct (validate_config (s_config s0)); [|done]. injection H as <- <- <-.
  eexists. split; [reflexivity|]. intros path peer xff now b Hx. unfold main_middleware, limiter_check.
  unfold params_ok. by rewrite Hx, Hcap.
Qed.

(** ** The hypotheses can hold *)
Definition demo_environ (k : string) : option string :=
  if String.eqb k "AUTH_TOKEN" then Some "secret"
  else if String.eqb k "ALERT_SEND_THRESHOLD_USDT" then Some "100" else None.
Definition demo_settings : option Settings := load_config demo_environ.
Definition served (r : start_result) : option Settings := match r with Serves _ _ s => Some s | _ => None end.
Definition demo_served : Settings :=
  Eval vm_compute in match served (main demo_environ (mkArgs true None (Some 9000%Z)) None) with
                     | Some s => s
                     | None => mkSettings default_config (load_keys demo_environ)
                                 (mkTronSettings "" "" "" 0 (mkDec 0 0) 0 0 (mkDec 0 0) (mkDec 0 0)) (load_risk demo_environ)
                                 (load_state demo_environ) (mkServer "" 0 0 0 0 (mkParams 0 0) (mkParams 0 0) 0)
                                 (mkPoll 0 0 0 0) (mkWebhooks [] "" [] 0 [] 0 0) (mkAlerts "" "" [] None false "" 0 [] 0)
                     end.
Lemma demo_serves : main demo_environ (mkArgs true None (Some 9000%Z)) None = Serves "0.0.0.0" 9000 demo_served.
Proof. vm_compute. reflexivity. Qed.

Lemma served_config_well_formed_witness : config_valid (s_config demo_served).
Proof. apply (served_config_well_formed _ _ _ _ _ _ demo_serves). Defined.

Lemma defaults_need_only_token_witness :
  exists s, main (fun k => if String.eqb k "AUTH_TOKEN" then Some "t" else None) (mkArgs false None None) None =
    Serves "127.0.0.1" 8000 s /\ AUDIT_LOG_FILE (s_config s) = "".
Proof.
  destruct (defaults_need_only_token "t") as [_ H]. destruct (H ltac:(done)) as (s & Hs & _ & Ha & _). exists s. split; [exact Hs | exact Ha].
Defined.

Lemma bucket_settings_unchecked_witness :
  exists s', main (override "RATE_LIMIT_IP_CAPACITY" "0" demo_environ) (mkArgs true None (Some 9000%Z)) None =
    Serves "0.0.0.0" 9000 s' /\
    forall path peer xff now b, exempt path = false ->
      main_middleware (TRUSTED_PROXIES (s_config s')) (ip_params (s_server s')) now path (Some peer) xff (Some b) =
        (Raise (params_error (ip_params (s_server s'))), Some b).
Proof. apply (bucket_settings_unchecked demo_environ (mkArgs true None (Some 9000%Z)) None _ _ _ demo_serves). Defined.
