(* ===== verification/Lifespan.v ===== *)
(** * Start and stop of the server process ([server.lifespan])

    The module-level singletons that the lifespan replaces and empties.  The token store
    is a shared object held by two modules, so stores live in a heap and the modules hold
    references.  The database is the rows found in it at the start.  [Boot] has the steps one
    by one, with their failures; worker threads are in [Workers] and [Poller]. *)
From S2P Require Import Prelude PyStr Decimal Effects RiskTypes Exceptions Config AuditEntry World TronClient WalletPool Tokens.
From S2P Require Delivery Alerts Webhooks RateLimit ConfigLoad Shutdown.
Open Scope string_scope.

(** What the SQLite file at IDEMPOTENCY_DB_PATH holds; [None]: no path, in-memory stores. *)
Record database := mkDb {
  db_tokens : list TokenRecord; db_buckets : RateLimit.buckets;
  db_hooks : Delivery.store (string * entry); db_alerts : Delivery.store (string * string) }.
Definition no_database : database := mkDb [] ∅ Delivery.empty Delivery.empty.

Record process := mkProcess {
  token_stores : list TokenStore;            (** every [TokenStore] object made so far *)
  tokens_tokens : nat;                       (** [tokens.tokens] *)
  security_token_store : nat;                (** [security._token_store] *)
  limiter : option RateLimit.buckets;
  pool_ : pool; tron_ : tron_state; client : bool;
  hooks : Webhooks.state; alerts : Alerts.state; timer : Shutdown.state }.

(** Importing the modules: [tokens = TokenStore(db_path=None)], and [security] binds the
    same object ([from tokens import tokens as _token_store]). *)
Definition import_modules : process :=
  mkProcess [mkStore false []] 0 0 None pool0 tron0 false (Webhooks.mkState None [] [])
    (Alerts.mkState None "" "" [] None true "") Shutdown.state0.

(** [init_token_store]: closing an in-memory store does nothing. *)
Definition init_token_store (db : option database) (p : process) : process :=
  let s := match db with Some d => mkStore true (db_tokens d) | None => mkStore false [] end in
  mkProcess (token_stores p ++ [s])%list (List.length (token_stores p)) (security_token_store p)
    (limiter p) (pool_ p) (tron_ p) (client p) (hooks p) (alerts p) (timer p).

(** [lifespan] up to [yield], once [load_wallets] has returned [ws] (see [KeyProviders]);
    [now]: when the timer is started. *)
Definition start (s : ConfigLoad.Settings) (db : option database) (ws : list wallet) (now : time) (p : process)
    : process :=
  let p := mkProcess (token_stores p) (tokens_tokens p) (security_token_store p) (limiter p) (pool_ p) (tron_ p)
             true (hooks p) (alerts p) (timer p) in
  let p := init_token_store db p in
  let d := default no_database db in
  let w := ConfigLoad.s_webhooks s in
  let a := ConfigLoad.s_alerts s in
  mkProcess (token_stores p) (tokens_tokens p) (security_token_store p)
    (Some (db_buckets d))
    (init ws (pool_ p)) (tron_ p) (client p)
    (Webhooks.init_webhooks (db_hooks d) (ConfigLoad.WEBHOOK_URLS w) (ConfigLoad.WEBHOOK_SIGNING_SECRET w)
       (ConfigLoad.WEBHOOK_EVENTS w) (hooks p))
    (Alerts.init_alerts (db_alerts d) (ConfigLoad.TELEGRAM_BOT_TOKEN a) (ConfigLoad.TELEGRAM_CHAT_ID a)
       (ConfigLoad.ALERT_EVENTS a) (ConfigLoad.ALERT_SEND_THRESHOLD_USDT a) (ConfigLoad.ALERT_SANCTIONS_HIT_NOTIFY a)
       (ConfigLoad.ALERT_QUIET_HOURS_UTC a) (alerts p))
    (Shutdown.reset_timer (SHUTDOWN_TIMEOUT (ConfigLoad.s_config s)) now (Shutdown.mark_started now (timer p))).

(** After [yield]: [shutdown_alerts], [shutdown_webhooks], the limiter, the wallets, the
    client.  The wallet objects that lost their keys are returned. *)
Definition stop (p : process) : list wallet * process :=
  let '(ws, pl) := destroy (pool_ p) in
  (ws, mkProcess (token_stores p) (tokens_tokens p) (security_token_store p) None pl
         (Shutdown.destroy_client (tron_ p)) false (Webhooks.set_store None (hooks p))
         (Alerts.set_store None (alerts p)) (timer p)).

(** [security._verify_with_scope], on the store that module holds. *)
Definition authenticate (hash_token : string -> string -> string) (AUTH_TOKEN now api_key scope : string)
    (p : process) : (Z + string) * process :=
  match token_stores p !! security_token_store p with
  | None => (inl 500%Z, p)
  | Some s =>
      let '(r, s') := verify_with_scope hash_token AUTH_TOKEN now api_key scope s in
      (r, mkProcess (<[security_token_store p := s']> (token_stores p)) (tokens_tokens p) (security_token_store p)
            (limiter p) (pool_ p) (tron_ p) (client p) (hooks p) (alerts p) (timer p))
  end.
(** A sequence of authentications: time, key, required scope. *)
Fixpoint authenticate_all (hash_token : string -> string -> string) (AUTH_TOKEN : string)
    (l : list (string * string * string)) (p : process) : list (Z + string) * process :=
  match l with
  | [] => ([], p)
  | (now, key, scope) :: l =>
      let '(r, p) := authenticate hash_token AUTH_TOKEN now key scope p in
      let '(rs, p) := authenticate_all hash_token AUTH_TOKEN l p in (r :: rs, p)
  end.

(** ** Facts *)

(** On an empty store only the legacy key passes. *)
Lemma verify_empty h auth now key scope :
  verify_with_scope h auth now key scope (mkStore false []) =
    (if check_legacy_token auth key then inr "legacy" else inl 401%Z, mkStore false []).
Proof.
  unfold verify_with_scope, verify, check_legacy_token. destruct (String.eqb_spec key "") as [->|Hk].
  - destruct (String.eqb_spec auth ""); [done|]. rewrite (proj2 (String.eqb_neq _ _)); [done | congruence].
  - by destruct (negb (String.eqb auth "") && String.eqb key auth).
Qed.

Definition holds_import_store (p : process) : Prop :=
  token_stores p !! security_token_store p = Some (mkStore false []).

Lemma authenticate_stale h auth now key scope p : holds_import_store p ->
  fst (authenticate h auth now key scope p) = (if check_legacy_token auth key then inr "legacy" else inl 401%Z) /\
  holds_import_store (snd (authenticate h auth now key scope p)).
Proof.
  unfold holds_import_store, authenticate. intros H. rewrite H, verify_empty. split; [done|]. cbn.
  apply list_lookup_insert_eq. by eapply lookup_lt_Some.
Qed.

Lemma start_stale s db ws now : holds_import_store (start s db ws now import_modules).
Proof. by destruct db. Qed.

Lemma insert_all (ws : list wallet) : forall (m : gmap string wallet) n w, List.NoDup (map wl_name ws) ->
  foldl (fun m w => <[wl_name w := w]> m) m ws !! n = Some w <->
  (In w ws /\ wl_name w = n) \/ (~ In n (map wl_name ws) /\ m !! n = Some w).
Proof.
  induction ws as [|x ws IH]; intros m n w Hn; cbn [foldl map In]; [naive_solver|].
  apply NoDup_cons_iff in Hn as [Hx Hn]. rewrite IH by done. clear IH.
  destruct (decide (wl_name x = n)) as [<-|Hne].
  - rewrite lookup_insert_eq. split.
    + intros [[Hw Hwn]|[_ [= ->]]]; left; auto.
    + intros [[[->|Hw] Hwn]|[H _]]; [by right|left; auto|]. destruct H. by left.
  - rewrite lookup_insert_ne by done. split.
    + intros [[Hw Hwn]|[H Hm]]; [auto|]. right. split; [|done]. by intros [|].
    + intros [[[->|Hw] Hwn]|[H Hm]]; [done|auto|]. right. split; [|done]. intros Hi. apply H. by right.
Qed.
Lemma init_lookup ws p n w : List.NoDup (map wl_name ws) ->
  p_wallets (init ws p) !! n = Some w <-> In w ws /\ wl_name w = n.
Proof. intros Hn. unfold init. cbn. rewrite insert_all by done. rewrite lookup_empty. naive_solver. Qed.

(** ** The properties *)

(** C29: The scoped tokens are never consulted.  [security] keeps the store made at import
    time; [init_token_store] gives the configured one to [tokens] only.  So whatever token
    rows the database holds, after any requests, a key passes only if it is the legacy
    AUTH_TOKEN, and every other key is answered 401. *)
Theorem scoped_tokens_ignored (h : string -> string -> string) (auth : string) (s : ConfigLoad.Settings)
    (db : option database) (ws : list wallet) (now : time) (reqs : list (string * string * string)) :
  fst (authenticate_all h auth reqs (start s db ws now import_modules)) =
  map (fun '(_, key, _) => if check_legacy_token auth key then inr "legacy" else inl 401%Z) reqs.
Proof.
  pose proof (start_stale s db ws now) as H. revert H. generalize (start s db ws now import_modules).
  induction reqs as [|[[t key] scope] reqs IH]; intros p Hp; cbn [authenticate_all map]; [done|].
  destruct (authenticate_stale h auth t key scope p Hp) as [H1 H2].
  destruct (authenticate h auth t key scope p) as [r p1]. cbn [fst snd] in *. specialize (IH p1 H2).
  destruct (authenticate_all h auth reqs p1) as [rs p2]. cbn [fst] in *. by rewrite H1, IH.
Qed.

(** Start-up wires the singletons: the pool holds exactly the loaded wallets (by name,
    a later one replacing an earlier), webhooks are on exactly when there is a URL and a
    signing secret, alerts exactly when there is a bot token and a chat, the limiter
    carries on from the database, and the idle timer runs.  Stopping empties them again:
    every wallet of the pool has lost its key, the pool is empty, nothing is queued for
    delivery any more. *)
Theorem start_stop_spec (s : ConfigLoad.Settings) (db : option database) (ws : list wallet) (now : time) :
  let p := start s db ws now import_modules in
  let '(destroyed, q) := stop p in
  List.NoDup (map wl_name ws) ->
  (forall n w, WalletPool.get n (pool_ p) = inl w <-> In w ws /\ wl_name w = n) /\
  (Webhooks.wh_store (hooks p) <> None <->
     ConfigLoad.WEBHOOK_URLS (ConfigLoad.s_webhooks s) <> [] /\ ConfigLoad.WEBHOOK_SIGNING_SECRET (ConfigLoad.s_webhooks s) <> "") /\
  (Alerts.is_configured (alerts p) = true <->
     ConfigLoad.TELEGRAM_BOT_TOKEN (ConfigLoad.s_alerts s) <> "" /\ ConfigLoad.TELEGRAM_CHAT_ID (ConfigLoad.s_alerts s) <> "") /\
  limiter p = Some (db_buckets (default no_database db)) /\
  Shutdown.sh_timer (timer p) = Some (now + inject_Z (SHUTDOWN_TIMEOUT (ConfigLoad.s_config s)))%Q /\
  (forall w, In w ws -> In (destroy_wallet w) destroyed) /\
  (forall w, In w destroyed -> wl_priv_key w = None) /\
  count (pool_ q) = 0%Z /\ Webhooks.wh_store (hooks q) = None /\ Alerts.is_configured (alerts q) = false.
Proof.
  unfold stop. destruct (destroy (pool_ _)) as [destroyed pl] eqn:Hd. intros Hn.
  assert (Hpool : pool_ (start s db ws now import_modules) = init ws pool0) by by destruct db.
  rewrite Hpool in *. pose proof (init_lookup ws pool0) as Hl.
  split_and!.
  - intros n w. rewrite <- Hl by done. unfold WalletPool.get. destruct (p_wallets _ !! n); naive_solver.
  - unfold start. cbn [hooks]. unfold Webhooks.init_webhooks.
    destruct (ConfigLoad.WEBHOOK_URLS _); [cbn; naive_solver|].
    destruct (String.eqb_spec (ConfigLoad.WEBHOOK_SIGNING_SECRET (ConfigLoad.s_webhooks s)) ""); cbn; naive_solver.
  - unfold start. cbn [alerts]. unfold Alerts.init_alerts, Alerts.is_configured.
    destruct (String.eqb_spec (ConfigLoad.TELEGRAM_BOT_TOKEN (ConfigLoad.s_alerts s)) ""); cbn; [naive_solver|].
    destruct (String.eqb_spec (ConfigLoad.TELEGRAM_CHAT_ID (ConfigLoad.s_alerts s)) ""); cbn; [naive_solver|].
    rewrite !(proj2 (String.eqb_neq _ _)) by done. naive_solver.
  - by destruct db.
  - by destruct db.
  - intros w Hw. unfold destroy in Hd. injection Hd as <- <-. apply in_map_iff. exists (wl_name w, w).
    split; [done|]. apply list_elem_of_In, elem_of_map_to_list, Hl; auto.
  - pose proof (destroy_wf (init ws pool0)) as [_ H]. rewrite Hd in H. by apply List.Forall_forall.
  - by injection Hd as <- <-.
  - done.
  - unfold Alerts.is_configured. cbn. by rewrite andb_false_r.
Qed.

(** ** The hypotheses can hold *)
Definition demo_db : database := mkDb [demo_row] ∅ Delivery.empty Delivery.empty.
Definition demo_wallets : list wallet := [mkWallet "main" "TMain" (Some "key")].
Lemma start_stop_spec_witness :
  let p := start ConfigLoad.demo_served (Some demo_db) demo_wallets 100 import_modules in
  let '(destroyed, q) := stop p in
  WalletPool.get "main" (pool_ p) = inl (mkWallet "main" "TMain" (Some "key")) /\
  (forall w, In w destroyed -> wl_priv_key w = None).
Proof.
  pose proof (start_stop_spec ConfigLoad.demo_served (Some demo_db) demo_wallets 100) as H.
  cbv zeta in *. revert H. generalize (start ConfigLoad.demo_served (Some demo_db) demo_wallets 100 import_modules).
  intros p. destruct (stop p) as [d q]. intros (H1 & _ & _ & _ & _ & _ & H7 & _); [repeat constructor; cbn; tauto|].
  split; [apply H1; by split; [left|] | exact H7].
Defined.
(** The configured store holds an active token with the right scope; the server refuses it. *)
Example scoped_token_refused :
  verify_with_scope demo_hash "" "now" "skr_x" "read" (mkStore true (db_tokens demo_db)) =
    (inr "id1", mkStore true [set_last_used "now" demo_row]) /\
  fst (authenticate demo_hash "secret" "now" "skr_x" "read"
    (start ConfigLoad.demo_served (Some demo_db) demo_wallets 100 import_modules)) = inl 401%Z.
Proof. split; vm_compute; reflexivity. Qed.
