(* ===== verification/CliEnv.v ===== *)
(** * The command line client: install directory, .env file, exit codes
    ([cli/config.py], [cli/exceptions.py])

    A text file is its mode and its characters; [pathlib]'s [expanduser] and [resolve]
    are a parameter.  Every system call that changes a file may fail or be the last. *)
From S2P Require Import Prelude PyStr Effects Exceptions.
Open Scope string_scope.

(** ** Exceptions and exit codes *)
Inductive cexn :=
| SkrCryptoError (msg : string) | NotInstalledError (msg : string) | AlreadyInstalledError (msg : string)
| ServiceUnreachableError (msg : string) | AuthError (msg : string) | BadResponseError (msg : string)
| GitOperationError (msg : string) | VenvError (msg : string) | ConfigError (msg : string)
| Exits (code : Z)              (** [ctx.exit(code)] *)
| Traceback (cls : string).     (** any other exception: click does not handle it *)
Definition exit_code (e : cexn) : Z :=
  match e with
  | SkrCryptoError _ => 1 | NotInstalledError _ => 2 | AlreadyInstalledError _ => 3
  | ServiceUnreachableError _ => 4 | AuthError _ => 5 | BadResponseError _ => 6
  | GitOperationError _ => 7 | VenvError _ => 8 | ConfigError _ => 9
  | Exits code => code
  | Traceback _ => 1
  end.
(** [except SkrCryptoError], the base class, and [except Exception] ([click.exceptions.Exit]
    is a RuntimeError). *)
Definition is_skr_error (e : cexn) : bool := match e with Exits _ | Traceback _ => false | _ => true end.

(** ** Files *)
Record tfile := mkT { t_mode : Z; t_text : string }.
Record cworld := mkC { c_files : gmap string tfile; c_tick : nat }.
Definition set_files (f : gmap string tfile -> gmap string tfile) (w : cworld) : cworld :=
  mkC (f (c_files w)) (c_tick w).

(** [root / rel]: an absolute second path wins. *)
Definition is_absolute (p : string) : bool := startswith "/" p.
Definition path_join (root rel : string) : string := if is_absolute rel then rel else root +:+ "/" +:+ rel.

(** [Path.parent] of a normal path. *)
Fixpoint before_slash (p : string) : option string :=
  match p with
  | "" => None
  | String c p' => match before_slash p' with
                   | Some d => Some (String c d)
                   | None => if Ascii.eqb c "/" then Some "" else None
                   end
  end.
Definition parent (p : string) : string := match before_slash p with None => "." | Some d => str_or d "/" end.
(** [install_dir]; [resolve]: [Path(p).expanduser().resolve()]. *)
Definition DEFAULT_INSTALL_DIR : string := "~/.skr-crypto".
Definition install_dir (resolve : string -> string) (override home : option string) : string :=
  if negb (String.eqb (default "" override) "") then resolve (default "" override)
  else if negb (String.eqb (default "" home) "") then resolve (default "" home)
  else resolve DEFAULT_INSTALL_DIR.
Definition require_installed (resolve : string -> string) (override home : option string) (w : cworld)
    : outcome cexn string :=
  let p := install_dir resolve override home in
  match c_files w !! path_join p ".env" with
  | None => Raise (NotInstalledError ("No service install found at " +:+ p +:+ ". Run `skr-crypto install` first."))
  | Some _ => Ret p
  end.

(** ** The .env file *)

(** Dicts keep the order of first insertion. *)
Abbreviation env_dict := (list (string * string)).
Fixpoint env_get (k : string) (d : env_dict) : option string :=
  match d with [] => None | (k', v) :: d => if String.eqb k k' then Some v else env_get k d end.
Fixpoint env_set (k v : string) (d : env_dict) : env_dict :=
  match d with
  | [] => [(k, v)]
  | (k', v') :: d => if String.eqb k k' then (k', v) :: d else (k', v') :: env_set k v d
  end.

(** [_ENV_LINE]: a key, white space, "=", the rest. *)
Definition key_start (c : ascii) : bool := is_upper c || Ascii.eqb c "_".
Definition key_char (c : ascii) : bool := key_start c || is_digit c.
Fixpoint span (p : ascii -> bool) (s : string) : string * string :=
  match s with
  | "" => ("", "")
  | String c s' => if p c then let '(a, b) := span p s' in (String c a, b) else ("", s)
  end.
Definition env_match (line : string) : option (string * string) :=
  match line with
  | String c _ =>
      if key_start c then
        let '(k, rest) := span key_char line in
        match lstrip_with is_space rest with
        | String e v => if Ascii.eqb e "=" then Some (k, v) else None
        | "" => None
        end
      else None
  | "" => None
  end.

(** [val.split(sub, 1)[0]] when [sub in val]. *)
Fixpoint cut (sub s : string) : option string :=
  if startswith sub s then Some ""
  else match s with "" => None | String c s' => String c <$> cut sub s' end.
Definition drop_comment (val : string) : string :=
  match cut " #" val with Some a => rstrip_with is_space a | None => val end.
Fixpoint ends_in (q : ascii) (s : string) : bool :=
  match s with
  | "" => false
  | String c "" => Ascii.eqb c q
  | String _ s' => ends_in q s'
  end.
Definition dquote : ascii := "034".
Definition squote : ascii := "039".
Definition quoted (q : ascii) (val : string) : bool := startswith (one q) val && ends_in q val.
(** [val[1:-1]] *)
Definition inner (val : string) : string :=
  match val with "" => "" | String _ s => str_take (String.length s - 1) s end.
Definition unquote (val : string) : string :=
  if quoted dquote val || quoted squote val then inner val else val.

(** One line of the loop of [read_env_file]. *)
Definition env_line (raw : string) : option (string * string) :=
  let line := strip raw in
  if String.eqb line "" || startswith "#" line then None
  else match env_match line with
       | Some (k, v) => Some (k, unquote (drop_comment (strip v)))
       | None => None
       end.
Definition add_line (out : env_dict) (raw : string) : env_dict :=
  match env_line raw with Some (k, v) => env_set k v out | None => out end.
Definition read_env_text (text : string) : env_dict := fold_left add_line (splitlines text) [].
Definition read_env_file (path : string) (w : cworld) : outcome cexn env_dict :=
  match c_files w !! path with
  | None => Raise (ConfigError (".env not found at " +:+ path))
  | Some f => Ret (read_env_text (t_text f))
  end.

Definition nl : string := one "010".
Definition env_text (values : env_dict) : string :=
  join nl (map (fun '(k, v) => k +:+ "=" +:+ v) (List.filter (fun '(_, v) => negb (String.eqb v "")) values)) +:+ nl.

Section Files.
(** The fate of each system call, and the mode the process's umask gives a new file. *)
Context (io : nat -> fate exn) (umask_mode : Z).
Abbreviation MC := (M cworld cexn).

Definition os_call : MC unit := fun w =>
  let w' := mkC (c_files w) (S (c_tick w)) in
  match io (c_tick w) with
  | Fine => (Ret tt, w')
  | Fails e => (Raise (Traceback (exn_class e)), w')
  | Dies => (Crash, w')
  end.
Definition put_file (path : string) (f : tfile) : MC unit := modify (set_files (insert path f)).
Definition mode_of (path : string) (w : cworld) : Z :=
  match c_files w !! path with Some f => t_mode f | None => umask_mode end.

(** [mkdir], then [write_text] (the file is truncated, then written), then [chmod]. *)
Definition write_env_file (path : string) (values : env_dict) : MC unit :=
  do! os_call in
  do! os_call in
  let! mode := gets (mode_of path) in
  do! put_file path (mkT mode "") in
  do! os_call in
  do! put_file path (mkT mode (env_text values)) in
  do! os_call in
  put_file path (mkT 384 (env_text values)).
End Files.

(** ** [config show] *)
Definition SENSITIVE_KEYS : list string := ["AUTH_TOKEN"; "TRONGRID_API_KEY"; "PRIVATE_KEY_HEX"].
(** The ellipsis is one character; here its UTF-8 bytes. *)
Definition ellipsis : string := String "226" (String "128" (one "166")).
Definition shown_value (unsafe_show_secrets : bool) (k v : string) : string :=
  if bool_decide (k ∈ SENSITIVE_KEYS) && negb unsafe_show_secrets
  then if String.eqb v "" then "(empty)" else str_take 4 v +:+ ellipsis
  else str_or v "(empty)".
Definition config_show (unsafe_show_secrets : bool) (env : env_dict) : list (string * string) :=
  map (fun '(k, v) => (k, shown_value unsafe_show_secrets k v)) env.

(** [ServicePaths.from_install_dir] *)
Record ServicePaths := mkPaths {
  sp_root : string; env_file : string; venv_python : string; audit_log : string; idempotency_db : string;
  data_dir : string }.
Definition from_install_dir (root : string) (env : env_dict) : ServicePaths := {|
  sp_root := root;
  env_file := path_join root ".env";
  venv_python := path_join root "venv/bin/python";
  audit_log := path_join root (str_or (default "" (env_get "AUDIT_LOG_FILE" env)) "data/audit.log");
  idempotency_db := path_join root (str_or (default "" (env_get "IDEMPOTENCY_DB_PATH" env)) "data/idempotency.db");
  data_dir := path_join root "data" |}.

(** ** Lemmas *)
Lemma before_slash_abs p : startswith "/" p = true -> exists d, before_slash p = Some d /\
  (String.length d < String.length p)%nat /\ (d = "" \/ startswith "/" d = true).
Proof.
  destruct p as [|c p]; [done|]. unfold startswith. cbn [strip_prefix]. destruct (Ascii.eqb_spec "/" c) as [<-|]; [|done].
  intros _. cbn [before_slash].
  assert (H : forall q d, before_slash q = Some d -> (String.length d < String.length q)%nat).
  { induction q as [|c q IH]; [done|]. intros d. cbn [before_slash]. destruct (before_slash q) as [x|].
    - intros [= <-]. cbn. specialize (IH x eq_refl). lia.
    - destruct (Ascii.eqb c "/"); [|done]. intros [= <-]. cbn. lia. }
  destruct (before_slash p) as [d|] eqn:E.
  - exists (String "/" d). split; [done|]. specialize (H _ _ E). cbn. split; [lia|]. right. by destruct d.
  - exists "". split; [done|]. cbn. split; [lia|]. by left.
Qed.
Lemma parent_abs p : startswith "/" p = true ->
  startswith "/" (parent p) = true /\ (parent p = "/" \/ (String.length (parent p) < String.length p)%nat).
Proof.
  intros H. destruct (before_slash_abs p H) as (d & Hd & Hl & Ha). unfold parent. rewrite Hd. unfold str_or.
  destruct (String.eqb_spec d "") as [->|Hn]; [split; [done|by left]|]. destruct Ha as [Ha|Ha]; [done|].
  split; [done|by right].
Qed.

(** ** Lemmas on stripping *)
Lemma rstrip_length p s : (String.length (rstrip_with p s) <= String.length s)%nat /\
  (String.length (rstrip_with p s) = String.length s -> rstrip_with p s = s).
Proof.
  induction s as [|c s [IH1 IH2]]; [done|]. cbn [rstrip_with].
  destruct (rstrip_with p s) as [|d r] eqn:E; cbn in *.
  - destruct (p c); cbn; [split; lia|]. split; [lia|]. intros H. by rewrite <- IH2 by lia.
  - split; [lia|]. intros H. by rewrite IH2 by lia.
Qed.
Lemma lstrip_length p s : (String.length (lstrip_with p s) <= String.length s)%nat /\
  (String.length (lstrip_with p s) = String.length s -> lstrip_with p s = s).
Proof.
  induction s as [|c s [IH1 IH2]]; [done|]. cbn [lstrip_with]. destruct (p c); [|done]. cbn. split; lia.
Qed.
Lemma strip_length s : (String.length (strip s) <= String.length s)%nat /\
  (String.length (strip s) = String.length s -> strip s = s).
Proof.
  unfold strip. destruct (lstrip_length is_space s) as [L1 L2], (rstrip_length is_space (lstrip_with is_space s)) as [R1 R2].
  split; [lia|]. intros H. rewrite R2 by lia. apply L2. lia.
Qed.
Lemma rstrip_idem p s : rstrip_with p (rstrip_with p s) = rstrip_with p s.
Proof.
  induction s as [|c s IH]; [done|]. cbn [rstrip_with]. destruct (rstrip_with p s) as [|d r] eqn:E.
  - destruct (p c) eqn:Hc; [done|]. cbn. by rewrite Hc.
  - cbn [rstrip_with] in *. by rewrite IH.
Qed.
Lemma lstrip_rstrip p s : lstrip_with p (rstrip_with p s) = rstrip_with p (lstrip_with p s).
Proof.
  induction s as [|c s IH]; [done|]. cbn [lstrip_with]. destruct (p c) eqn:Hc.
  - rewrite <- IH. cbn [rstrip_with]. destruct (rstrip_with p s) as [|d r]; rewrite ?Hc; [done|].
    cbn [lstrip_with]. by rewrite Hc.
  - cbn [rstrip_with]. destruct (rstrip_with p s) as [|d r]; cbn; by rewrite Hc; cbn; rewrite ?Hc.
Qed.
Lemma rstrip_app p a c v : p c = false -> rstrip_with p (a +:+ String c v) = a +:+ String c (rstrip_with p v).
Proof.
  intros Hc. assert (H : rstrip_with p (String c v) = String c (rstrip_with p v)).
  { cbn. destruct (rstrip_with p v); [by rewrite Hc | done]. }
  induction a as [|d a IH]; [exact H|]. rewrite !append_cons. cbn [rstrip_with]. rewrite IH. by destruct a.
Qed.
Lemma strip_rstrip v : strip (rstrip_with is_space v) = strip v.
Proof. unfold strip. by rewrite lstrip_rstrip, rstrip_idem. Qed.

(** ** What a line of the file says *)
Definition env_value (v : string) : string := unquote (drop_comment (strip v)).
Definition plain (v : string) : bool :=
  String.eqb (strip v) v && bool_decide (cut " #" v = None) && negb (quoted dquote v) && negb (quoted squote v).

Lemma cut_length sub s a : sub <> "" -> cut sub s = Some a -> (String.length a < String.length s)%nat.
Proof.
  intros Hs. revert a. induction s as [|c s IH]; intros a; cbn.
  - destruct (startswith sub "") eqn:E; [|done]. apply startswith_spec in E as [r E]. by destruct sub.
  - destruct (startswith sub (String c s)); [intros [= <-]; cbn; lia|].
    destruct (cut sub s) as [b|]; [|done]. intros [= <-]. cbn. specialize (IH b eq_refl). lia.
Qed.
Lemma drop_comment_length v : (String.length (drop_comment v) <= String.length v)%nat /\
  (String.length (drop_comment v) = String.length v -> cut " #" v = None).
Proof.
  unfold drop_comment. destruct (cut " #" v) as [a|] eqn:E; [|by split].
  apply cut_length in E; [|done]. destruct (rstrip_length is_space a). split; lia.
Qed.
Lemma str_take_le n s : (String.length (str_take n s) <= n)%nat.
Proof. revert n. induction s as [|c s IH]; intros [|n]; cbn; try lia. specialize (IH n). lia. Qed.
Lemma unquote_length v : (String.length (unquote v) <= String.length v)%nat /\
  (String.length (unquote v) = String.length v -> quoted dquote v = false /\ quoted squote v = false).
Proof.
  unfold unquote. destruct (quoted dquote v) eqn:D, (quoted squote v) eqn:S; cbn [orb]; [..|done];
    destruct v as [|c v]; try done; cbn [inner String.length];
    pose proof (str_take_le (String.length v - 1) v); split; lia.
Qed.
Lemma env_value_exact v : env_value v = v <-> plain v = true.
Proof.
  unfold env_value, plain. split.
  - intros H. assert (Hl := f_equal String.length H).
    destruct (strip_length v) as [S1 S2], (drop_comment_length (strip v)) as [D1 D2],
      (unquote_length (drop_comment (strip v))) as [U1 U2].
    assert (Hs : strip v = v) by (apply S2; lia). rewrite Hs in *.
    assert (Hc : cut " #" v = None) by (apply D2; lia).
    assert (Hd : drop_comment v = v) by (unfold drop_comment; by rewrite Hc). rewrite Hd in *.
    destruct U2 as [-> ->]; [lia|]. by rewrite String.eqb_refl, bool_decide_true.
  - intros H. bcases. unfold drop_comment, unquote. apply String.eqb_eq in H as ->.
    by rewrite H2, H1, H0.
Qed.

(** Keys the file can hold, and values on one line. *)
Definition key_ok (k : string) : bool :=
  match k with String c _ => key_start c && str_forall key_char k | "" => false end.
Definition one_line (s : string) : bool := str_forall (fun c => negb (is_line_end c)) s.

Lemma span_app p k c s : str_forall p k = true -> p c = false -> span p (k +:+ String c s) = (k, String c s).
Proof.
  intros Hk Hc. induction k as [|d k IH]; [rewrite append_nil_l; cbn; by rewrite Hc|].
  cbn in Hk. apply andb_true_iff in Hk as [Hd Hk]. rewrite append_cons. cbn [span]. by rewrite Hd, IH.
Qed.
Lemma env_line_entry k v : key_ok k = true -> env_line (k +:+ "=" +:+ v) = Some (k, env_value v).
Proof.
  intros Hk. destruct k as [|c k]; [done|]. cbn [key_ok] in Hk. apply andb_true_iff in Hk as [Hc Hk].
  assert (Hsp : is_space c = false /\ Ascii.eqb c "#" = false).
  { revert Hc. clear. destruct c as [b0 b1 b2 b3 b4 b5 b6 b7]. by destruct b0, b1, b2, b3, b4, b5, b6, b7. }
  destruct Hsp as [Hsp Hh]. unfold env_line.
  assert (Hs : strip (String c k +:+ "=" +:+ v) = String c k +:+ String "=" (rstrip_with is_space v)).
  { unfold strip. rewrite append_cons. cbn [lstrip_with]. rewrite Hsp, <- append_cons. by apply rstrip_app. }
  rewrite Hs. rewrite append_cons. cbn [String.eqb orb]. rewrite <- append_cons.
  assert (startswith "#" (String c k +:+ String "=" (rstrip_with is_space v)) = false) as ->.
  { rewrite append_cons. unfold startswith. cbn [strip_prefix]. rewrite Ascii.eqb_sym, Hh. done. }
  unfold env_match. rewrite append_cons. rewrite Hc. rewrite <- append_cons, span_app by done.
  cbn [lstrip_with]. change (is_space "=") with false. cbn [Ascii.eqb Bool.eqb].
  unfold env_value. by rewrite strip_rstrip.
Qed.

(** ** What the file holds *)
Lemma splitlines_go cur l rest : one_line l = true ->
  splitlines_from cur (l +:+ nl +:+ rest) = (cur +:+ l) :: splitlines_from "" rest.
Proof.
  revert cur. induction l as [|c l IH]; intros cur Hl.
  - rewrite append_nil_r. change ("" +:+ nl +:+ rest) with (String "010" rest). cbn [splitlines_from].
    change (is_line_end "010") with true. cbv iota. f_equal. destruct rest as [|d rest]; [done|]. by cbn [Ascii.eqb Bool.eqb andb].
  - cbn in Hl. apply andb_true_iff in Hl as [Hc Hl]. apply negb_true_iff in Hc. rewrite append_cons. cbn [splitlines_from].
    rewrite Hc, IH by done. by rewrite append_assoc.
Qed.
Lemma splitlines_join l : l <> [] -> Forall (fun x => one_line x = true) l -> splitlines (join nl l +:+ nl) = l.
Proof.
  intros Hne H. unfold splitlines. induction H as [|x l Hx Hl IH]; [done|]. destruct l as [|y l].
  - cbn [join]. rewrite <- (append_nil_r nl), splitlines_go by done. done.
  - change (join nl (x :: y :: l)) with (x +:+ nl +:+ join nl (y :: l)).
    rewrite !append_assoc, splitlines_go by done. by rewrite IH.
Qed.

Definition entry_ok (e : string * string) : bool := key_ok e.1 && one_line e.2.
Lemma env_set_fresh k v d : k ∉ map fst d -> env_set k v d = (d ++ [(k, v)])%list.
Proof.
  induction d as [|[k' v'] d IH]; [done|]. cbn. rewrite not_elem_of_cons. intros [Hk Hd].
  by rewrite (proj2 (String.eqb_neq _ _) Hk), IH.
Qed.
Lemma add_lines l d : forallb entry_ok l = true -> NoDup (map fst d ++ map fst l)%list ->
  fold_left add_line (map (fun '(k, v) => k +:+ "=" +:+ v) l) d = (d ++ map (fun '(k, v) => (k, env_value v)) l)%list.
Proof.
  revert d. induction l as [|[k v] l IH]; intros d Hl Hn; cbn [map fold_left]; [by rewrite app_nil_r|].
  cbn [forallb] in Hl. apply andb_true_iff in Hl as [He Hl]. unfold entry_ok in He. cbn in He. bcases.
  unfold add_line at 2. rewrite env_line_entry by done. cbn [map fst] in Hn.
  rewrite env_set_fresh, IH; [by rewrite <- app_assoc|done| |].
  - rewrite map_app, <- app_assoc. done.
  - intros Hi. apply NoDup_app in Hn as (_ & Hn & _). apply (Hn k Hi). by left.
Qed.
Lemma key_one_line k : key_ok k = true -> one_line k = true.
Proof.
  destruct k as [|c k]; [done|]. intros [_ H]%andb_true_iff. revert H. generalize (String c k). clear.
  intros s. unfold one_line. induction s as [|c s IH]; [done|]. cbn. intros [Hc Hs]%andb_true_iff. rewrite IH by done.
  rewrite andb_true_r. revert Hc. clear. destruct c as [b0 b1 b2 b3 b4 b5 b6 b7].
  by destruct b0, b1, b2, b3, b4, b5, b6, b7.
Qed.
(** The file, read back: the entries whose value is not empty, with their values as read. *)
Lemma read_env_written l : forallb entry_ok l = true -> NoDup (map fst l) ->
  read_env_text (env_text l) = map (fun '(k, v) => (k, env_value v)) (List.filter (fun '(_, v) => negb (String.eqb v "")) l).
Proof.
  intros Hl Hn. unfold read_env_text, env_text.
  set (l' := List.filter _ l). assert (Hl' : forallb entry_ok l' = true /\ NoDup (map fst l')).
  { subst l'. clear -Hl Hn. induction l as [|[k v] l IH]; [done|]. cbn [forallb map fst] in *.
    apply andb_true_iff in Hl as [He Hl]. apply NoDup_cons in Hn as [Hk Hn]. destruct (IH Hl Hn) as [H1 H2].
    cbn [List.filter]. destruct (negb (String.eqb v "")); [|done]. cbn [forallb map fst]. rewrite He, H1. split; [done|].
    apply NoDup_cons. split; [|done]. intros Hi. apply Hk.
    apply list_elem_of_In, in_map_iff in Hi as (x & <- & Hx). apply filter_In in Hx as [Hx _].
    by apply list_elem_of_In, in_map. }
  destruct Hl' as [H1 H2]. clearbody l'. clear Hl Hn l. destruct l' as [|e l]; [done|].
  rewrite splitlines_join; [by rewrite add_lines|done|].
  apply List.Forall_forall. intros x (y & <- & Hy)%in_map_iff. rewrite forallb_forall in H1. specialize (H1 y Hy).
  destruct y as [k v]. unfold entry_ok in H1. cbn in H1. bcases. unfold one_line. rewrite !str_forall_append.
  apply key_one_line in H. unfold one_line in H. rewrite H. done.
Qed.

(** The values of the entries, read back: what is plain is unchanged. *)
Lemma values_exact (l : env_dict) :
  map (fun '(k, v) => (k, env_value v)) (List.filter (fun '(_, v) => negb (String.eqb v "")) l) =
  List.filter (fun '(_, v) => negb (String.eqb v "")) l <-> Forall (fun e => plain e.2 = true) l.
Proof.
  induction l as [|[k v] l IH]; [by split; [constructor|]|]. rewrite Forall_cons. cbn [List.filter].
  destruct (String.eqb_spec v "") as [->|Hv]; cbn [negb map].
  - rewrite IH. split; [by split | naive_solver].
  - rewrite <- IH. cbn [snd]. rewrite <- env_value_exact. split; [intros [= -> ->]; by split | by intros [-> ->]].
Qed.
Lemma plain_reads_back (l : env_dict) :
  forallb entry_ok l = true -> NoDup (map fst l) -> Forall (fun e => plain e.2 = true) l ->
  read_env_text (env_text l) = List.filter (fun '(_, v) => negb (String.eqb v "")) l.
Proof. intros Hl Hn Hp. rewrite read_env_written by done. by apply values_exact. Qed.

(** ** The properties *)

(** A .env file written by the client reads back exactly when every value is plain: no
    white space around it, no comment sign after a space, no quotes around it.  (Keys
    are distinct and legal, values are single lines; empty values are not written.) *)
Theorem env_file_roundtrip (l : env_dict) :
  forallb entry_ok l = true -> NoDup (map fst l) ->
  (read_env_text (env_text l) = List.filter (fun '(_, v) => negb (String.eqb v "")) l <->
   Forall (fun e => plain e.2 = true) l).
Proof.
  intros Hl Hn. rewrite read_env_written by done. apply values_exact.
Qed.

(** Writing the file: a normal return leaves it complete and readable by its owner only.
    Otherwise it is the old one, or truncated, or complete but still with the mode the
    umask gave it, so the token it holds may be readable by others.  No other file
    changes. *)
Theorem write_env_file_private (io : nat -> fate exn) (umask_mode : Z) (path : string) (values : env_dict)
    (w : cworld) :
  let '(o, w') := write_env_file io umask_mode path values w in
  let m := mode_of umask_mode path w in
  match o with
  | Ret _ => c_files w' !! path = Some (mkT 384 (env_text values))
  | _ => c_files w' !! path = c_files w !! path \/ c_files w' !! path = Some (mkT m "") \/
         c_files w' !! path = Some (mkT m (env_text values))
  end /\ forall p, p <> path -> c_files w' !! p = c_files w !! p.
Proof.
  unfold write_env_file, os_call, bind, gets, put_file, modify. cbn [c_tick c_files].
  destruct (io (c_tick w)); cbn; [|by split; [left|]..].
  destruct (io (S (c_tick w))); cbn; [|by split; [left|]..].
  assert (Hm : mode_of umask_mode path (mkC (c_files w) (S (S (c_tick w)))) = mode_of umask_mode path w) by done.
  rewrite Hm. clear Hm. generalize (mode_of umask_mode path w). intros m.
  destruct (io (S (S (c_tick w)))); cbn.
  - destruct (io (S (S (S (c_tick w))))); cbn; rewrite !lookup_insert_eq;
      (split; [auto|]; intros p Hp; by rewrite !lookup_insert_ne).
  - rewrite lookup_insert_eq. split; [auto|]. intros p Hp. by rewrite lookup_insert_ne.
  - rewrite lookup_insert_eq. split; [auto|]. intros p Hp. by rewrite lookup_insert_ne.
Qed.

(** ** The hypotheses can hold *)
Definition demo_env : env_dict := [("AUTH_TOKEN", "s3cret#1"); ("TRONGRID_API_KEY", ""); ("SERVER_PORT", "9000")].
Lemma env_file_roundtrip_witness :
  read_env_text (env_text demo_env) = [("AUTH_TOKEN", "s3cret#1"); ("SERVER_PORT", "9000")].
Proof.
  apply (env_file_roundtrip demo_env); [reflexivity | |].
  - by apply (bool_decide_unpack _).
  - repeat constructor.
Defined.
Example not_plain : read_env_text (env_text [("OP_ITEM", "hot #1"); ("OP_VAULT", "'x'")]) = [("OP_ITEM", "hot"); ("OP_VAULT", "x")].
Proof. reflexivity. Qed.
