(* ===== verification/Terminal.v ===== *)
(** * The terminal ([cli/output.py], the root command of [cli/main.py])

    What a command shows is a list of items in the order they are written: lines of
    [_err] with the function that wrote them, lines and tables of [_out], and text and JSON
    documents written to standard output directly.  The text is what is given to Rich;
    how Rich breaks and colours it is outside the model but for [setup_secret_folded].
    A command runs over its own world and the terminal; [--quiet] is a flag of the latter. *)
From S2P Require Import Prelude PyStr Effects Exceptions CliEnv.
From S2P Require Keystore.
Import Keystore(json(..), jget, truthy).
Open Scope string_scope.

Inductive level := Info | Success | Warning | Error.
#[export] Instance level_eq_dec : EqDecision level.
Proof. solve_decision. Defined.
Record table := mkTable { tb_title : option string; tb_headers : list string; tb_rows : list (list string) }.
Inductive item :=
| Err (l : level) (line : string)     (** [_err.print] *)
| Out (line : string)                 (** [_out.print] *)
| OutTable (t : table)
| OutText (text : string)             (** [sys.stdout.write] *)
| OutJson (indented : bool) (payload : json).   (** [json.dumps] with sorted keys, and a newline *)
Record term := mkTerm { quiet : bool; shown : list item }.

(** [sort_keys=True] *)
Fixpoint insert_key (kv : string * json) (l : list (string * json)) : list (string * json) :=
  match l with
  | [] => [kv]
  | kv' :: l' => if String.leb kv.1 kv'.1 then kv :: l else kv' :: insert_key kv l'
  end.
Fixpoint sort_keys (j : json) : json :=
  match j with
  | JList l => JList (map sort_keys l)
  | JObj l => JObj (fold_right (fun '(k, v) out => insert_key (k, sort_keys v) out) [] l)
  | _ => j
  end.

Section Terminal.
Context {W : Type}.
Abbreviation T := (M (W * term) cexn).
(** A command of the world below, and a test of it. *)
Definition below {A} (m : M W cexn A) : T A := fun '(w, t) => let '(o, w') := m w in (o, (w', t)).
Definition emit (i : item) : T unit := modify (fun '(w, t) => (w, mkTerm (quiet t) (shown t ++ [i])%list)).
Definition unless_quiet (m : T unit) : T unit := let! q := gets (fun s => quiet s.2) in when (negb q) m.
Definition set_quiet (flag : bool) : T unit := modify (fun '(w, t) => (w, mkTerm flag (shown t))).

Definition info (msg : string) : T unit := unless_quiet (emit (Err Info msg)).
Definition warn (msg : string) : T unit := emit (Err Warning ("[yellow]warning:[/yellow] " +:+ msg)).
Definition error (msg : string) : T unit := emit (Err Error ("[red]error:[/red] " +:+ msg)).
Definition success (msg : string) : T unit := unless_quiet (emit (Err Success ("[green]✓[/green] " +:+ msg))).
Definition print_value (value : string) : T unit := emit (Out value).
Definition print_json (payload : json) : T unit := emit (OutJson true (sort_keys payload)).
(** A line of JSON, written without Rich. *)
Definition write_json (payload : json) : T unit := emit (OutJson false (sort_keys payload)).
Definition make_table (title : option string) (headers : list string) : table := mkTable title headers [].
Definition add_rows (rows : list (list string)) (t : table) : table :=
  mkTable (tb_title t) (tb_headers t) (tb_rows t ++ rows)%list.
Definition render_table (t : table) : T unit := emit (OutTable t).
Definition write (text : string) : T unit := emit (OutText text).
(** The value of a computation, with its exception. *)
Definition lift {A} (o : outcome cexn A) : T A := fun s => (o, s).

(** ** [--quiet]

    [loud] and [hushed] are the same run without and with the flag: the world is the same,
    and what is missing is what [info] and [success] write. *)
Definition heard (i : item) : bool :=
  match i with Err Info _ | Err Success _ => false | _ => true end.
Definition alike (loud hushed : W * term) : Prop :=
  loud.1 = hushed.1 /\ quiet loud.2 = false /\ quiet hushed.2 = true /\
  shown hushed.2 = List.filter heard (shown loud.2).
Class Hush {A} (m : T A) : Prop := hush_ok loud hushed : alike loud hushed ->
  fst (m loud) = fst (m hushed) /\ alike (snd (m loud)) (snd (m hushed)).

#[export] Instance hush_ret {A} (a : A) : Hush (ret a).
Proof. by intros l h H. Qed.
#[export] Instance hush_raise {A} e : Hush (raise (A:=A) e).
Proof. by intros l h H. Qed.
#[export] Instance hush_lift {A} (o : outcome cexn A) : Hush (lift o).
Proof. by intros l h H. Qed.
#[export] Instance hush_bind {A B} (m : T A) (k : A -> T B) : Hush m -> (forall a, Hush (k a)) -> Hush (bind m k).
Proof.
  intros Hm Hk l h H. destruct (Hm l h H) as [H1 H2]. unfold bind.
  destruct (m l) as [o l'], (m h) as [o' h']. cbn in *. subst o'. destruct o as [a|e|]; [by apply Hk|done..].
Qed.
#[export] Instance hush_catch {A} (m : T A) f : Hush m -> (forall e r, f e = Some r -> Hush r) -> Hush (catch m f).
Proof.
  intros Hm Hf l h H. destruct (Hm l h H) as [H1 H2]. unfold catch.
  destruct (m l) as [o l'], (m h) as [o' h']. cbn in *. subst o'. destruct o as [a|e|]; [done| |done].
  destruct (f e) as [r|] eqn:E; [by eapply Hf|done].
Qed.
#[export] Instance hush_when b (m : T unit) : Hush m -> Hush (when b m).
Proof. destruct b; [done|]. intros _. apply hush_ret. Qed.
#[export] Instance hush_if {A} (b : bool) (m1 m2 : T A) : Hush m1 -> Hush m2 -> Hush (if b then m1 else m2).
Proof. by destruct b. Qed.
#[export] Instance hush_for_each {A} (l : list A) (f : A -> T unit) : (forall a, Hush (f a)) -> Hush (for_each l f).
Proof. intros Hf. induction l as [|x l IH]; cbn; [apply hush_ret|]. by apply hush_bind. Qed.
#[export] Instance hush_below {A} (m : M W cexn A) : Hush (below m).
Proof.
  intros [w t] [w' t'] (H1 & H2 & H3 & H4). cbn in *. subst w'. unfold below. destruct (m w) as [o w'].
  by split.
Qed.
Lemma hush_emit i : heard i = true -> Hush (emit i).
Proof.
  intros Hi [w t] [w' t'] (H1 & H2 & H3 & H4). cbn in *. subst w'. split; [done|]. split_and!; [done..|].
  cbn. rewrite H4, List.filter_app. cbn. by rewrite Hi.
Qed.
Lemma hush_unless i : heard i = false -> Hush (unless_quiet (emit i)).
Proof.
  intros Hi [w t] [w' t'] (H1 & H2 & H3 & H4). cbn in *. subst w'. unfold unless_quiet, bind, gets. cbn. rewrite H2, H3. cbn.
  split; [done|]. split_and!; [done..|]. cbn. by rewrite H4, List.filter_app; cbn; rewrite Hi, app_nil_r.
Qed.
#[export] Instance hush_info msg : Hush (info msg).
Proof. by apply hush_unless. Qed.
#[export] Instance hush_success msg : Hush (success msg).
Proof. by apply hush_unless. Qed.
#[export] Instance hush_warn msg : Hush (warn msg).
Proof. by apply hush_emit. Qed.
#[export] Instance hush_error msg : Hush (error msg).
Proof. by apply hush_emit. Qed.
#[export] Instance hush_value msg : Hush (print_value msg).
Proof. by apply hush_emit. Qed.
#[export] Instance hush_json j : Hush (print_json j).
Proof. by apply hush_emit. Qed.
#[export] Instance hush_json_line j : Hush (write_json j).
Proof. by apply hush_emit. Qed.
#[export] Instance hush_table t : Hush (render_table t).
Proof. by apply hush_emit. Qed.
#[export] Instance hush_write s : Hush (write s).
Proof. by apply hush_emit. Qed.

(** ** Standard output *)
Definition on_stdout (i : item) : bool := match i with Err _ _ => false | _ => true end.
Definition stdout (t : term) : list item := List.filter on_stdout (shown t).
(** What [m] adds to it satisfies [P], whatever its outcome. *)
Class Writes {A} (m : T A) (P : outcome cexn A -> list item -> Prop) : Prop :=
  writes_ok s : exists l, shown (snd (m s)).2 = (shown s.2 ++ l)%list /\ P (fst (m s)) (List.filter on_stdout l).
Lemma writes_mono {A} (m : T A) (P Q : outcome cexn A -> list item -> Prop) :
  Writes m P -> (forall o l, P o l -> Q o l) -> Writes m Q.
Proof. intros H HPQ s. destruct (H s) as (l & H1 & H2). eauto. Qed.
Lemma writes_bind {A B} (m : T A) (k : A -> T B) (P : outcome cexn A -> list item -> Prop) Q :
  Writes m P ->
  (forall a l, P (Ret a) l -> Writes (k a) (fun o l' => Q o (l ++ l')%list)) ->
  (forall e l, P (Raise e) l -> Q (Raise e) l) -> (forall l, P Crash l -> Q Crash l) -> Writes (bind m k) Q.
Proof.
  intros Hm Hk He Hc s. destruct (Hm s) as (l & H1 & H2). unfold bind. destruct (m s) as [[a|e|] s']; cbn in *.
  - destruct (Hk a _ H2 s') as (l' & H3 & H4). exists (l ++ l')%list. rewrite H3, H1, app_assoc, List.filter_app. done.
  - exists l. auto.
  - exists l. auto.
Qed.
End Terminal.
Arguments Hush {W A} m. Arguments Writes {W A} m P.

(** ** The text of a JSON document does not depend on the order of its dict *)
Lemma insert_key_swap x y l : x.1 <> y.1 -> insert_key x (insert_key y l) = insert_key y (insert_key x l).
Proof.
  intros Hne. pose proof (String.leb_antisym x.1 y.1) as Ha. pose proof (string_leb_total x.1 y.1) as Ht.
  induction l as [|z l IH].
  - cbn. destruct (String.leb x.1 y.1) eqn:E1, (String.leb y.1 x.1) eqn:E2; intuition congruence.
  - pose proof (string_leb_trans x.1 y.1 z.1) as H1. pose proof (string_leb_trans y.1 x.1 z.1) as H2.
    cbn. destruct (String.leb x.1 y.1) eqn:E1, (String.leb y.1 x.1) eqn:E2, (String.leb y.1 z.1) eqn:Ey, (String.leb x.1 z.1) eqn:Ex;
      try (intuition congruence); cbn; rewrite ?E1, ?E2, ?Ex, ?Ey; intuition congruence.
Qed.
Lemma sort_keys_perm l l' : NoDup (map fst l) -> Permutation l l' -> sort_keys (JObj l) = sort_keys (JObj l').
Proof.
  intros Hn Hp. cbn. f_equal. induction Hp as [|[k v] l l' Hp IH|[k v] [k' v'] l|l l1 l' Hp1 IH1 Hp2 IH2]; cbn in *.
  - done.
  - apply NoDup_cons in Hn as [_ Hn]. by rewrite IH.
  - apply insert_key_swap. cbn. apply NoDup_cons in Hn as [Hk _]. set_solver.
  - rewrite IH1 by done. apply IH2. by rewrite <- Hp1.
Qed.

(** ** Commands whose output is one JSON document *)
Section OneDocument.
Context {W : Type}.
Implicit Types (A : Type).
Lemma writes_nothing {A} (m : M (W * term) cexn A) :
  (forall s, shown (snd (m s)).2 = shown s.2) -> Writes m (fun _ l => l = []).
Proof. intros H s. exists []. by rewrite H, app_nil_r. Qed.
Lemma writes_below {A} (m : M W cexn A) : Writes (below m) (fun _ l => l = []).
Proof. apply writes_nothing. intros [w t]. cbn. by destruct (m w). Qed.
Lemma writes_lift {A} (o : outcome cexn A) : Writes (W:=W) (lift o) (fun o' l => o' = o /\ l = []).
Proof. intros s. exists []. by rewrite app_nil_r. Qed.
(** Nothing unless the command failed, or one document; then nothing more may be written. *)
Definition one_document {A} (o : outcome cexn A) (l : list item) : Prop :=
  l = [] /\ (forall a, o <> Ret a) \/ exists j, l = [OutJson true j].
Lemma one_print j : Writes (W:=W) (print_json j) one_document.
Proof. intros [w t]. exists [OutJson true (sort_keys j)]. split; [done|]. right. by eexists. Qed.
Lemma one_raise {A} e : Writes (W:=W) (raise (A:=A) e) one_document.
Proof. intros s. exists []. rewrite app_nil_r. split; [done|]. by left. Qed.
(** Nothing, then a document. *)
Lemma one_bind {A B} (m : M (W * term) cexn A) (k : A -> M (W * term) cexn B) :
  Writes m (fun _ l => l = []) -> (forall a, Writes (k a) one_document) -> Writes (bind m k) one_document.
Proof.
  intros Hm Hk. eapply writes_bind; [exact Hm| | |].
  - intros a l ->. eapply writes_mono; [apply Hk|]. done.
  - intros e l ->. by left.
  - intros l ->. by left.
Qed.
(** A document, then nothing. *)
Lemma one_then {A B} (m : M (W * term) cexn A) (k : A -> M (W * term) cexn B) :
  Writes m (fun o l => one_document o l) -> (forall a, Writes (k a) (fun _ l => l = [])) -> Writes (bind m k) one_document.
Proof.
  intros Hm Hk. eapply writes_bind; [exact Hm| | |].
  - intros a l [[-> H]|[j ->]]; [by destruct (H a)|]. eapply writes_mono; [apply Hk|]. intros o l ->. right. by eexists.
  - intros e l [[-> H]|[j ->]]; [by left|right; by eexists].
  - intros l [[-> H]|[j ->]]; [by left|right; by eexists].
Qed.
Lemma silent_lift {A} (o : outcome cexn A) : Writes (W:=W) (lift o) (fun _ l => l = []).
Proof. eapply writes_mono; [apply writes_lift|]. by intros o' l [_ ->]. Qed.
Lemma silent_ret {A} (a : A) : Writes (W:=W) (ret a) (fun _ l => l = []).
Proof. by apply writes_nothing. Qed.
Lemma silent_raise {A} e : Writes (W:=W) (raise (A:=A) e) (fun _ l => l = []).
Proof. by apply writes_nothing. Qed.
Lemma silent_bind {A B} (m : M (W * term) cexn A) (k : A -> M (W * term) cexn B) :
  Writes m (fun _ l => l = []) -> (forall a, Writes (k a) (fun _ l => l = [])) -> Writes (bind m k) (fun _ l => l = []).
Proof.
  intros Hm Hk. eapply writes_bind; [exact Hm| |by intros|by intros]. intros a l ->. eapply writes_mono; [apply Hk|].
  by intros o l ->.
Qed.
Lemma silent_catch {A} (m : M (W * term) cexn A) f : Writes m (fun _ l => l = []) ->
  (forall e r, f e = Some r -> Writes r (fun _ l => l = [])) -> Writes (catch m f) (fun _ l => l = []).
Proof.
  intros Hm Hf s. destruct (Hm s) as (l & H1 & H2). unfold catch. destruct (m s) as [[a|e|] s1]; cbn in *; [by exists l| |by exists l].
  destruct (f e) as [r|] eqn:E; [|by exists l]. destruct (Hf e r E s1) as (l' & H3 & H4). exists (l ++ l')%list.
  by rewrite H3, H1, app_assoc, List.filter_app, H2, H4.
Qed.
End OneDocument.
Create HintDb one_document.
#[export] Hint Resolve writes_below one_print one_raise one_bind silent_lift silent_ret silent_raise silent_bind : one_document.
