(* ===== verification/Install.v ===== *)
(** * [skr-crypto install] and [skr-crypto keygen] ([cli/commands/install.py],
    [cli/commands/keygen.py], the prompts of [cli/output.py])

    The operator's answers are the lines of stdin ([] is end of file).  Random tokens and
    keys, the TRON address of a key and the macOS [security] tool are parameters; text
    printed for the operator is left out but for the values ([print_value]); the next steps
    are in [Screens]. *)
From S2P Require Import Prelude PyStr Decimal Effects Exceptions Config RateLimit ConfigLoad CliEnv.
Open Scope string_scope.

Record iworld := mkI {
  i_c : cworld; i_stdin : list string;
  i_keychain : gmap (string * string) string;      (** service and account *)
  i_out : list string }.
Definition set_stdin (l : list string) (w : iworld) : iworld := mkI (i_c w) l (i_keychain w) (i_out w).

Abbreviation MI := (M iworld cexn).
Definition on_files {A} (m : M cworld cexn A) : MI A :=
  fun w => let '(o, c) := m (i_c w) in (o, mkI c (i_stdin w) (i_keychain w) (i_out w)).
Definition print_value (s : string) : MI unit :=
  modify (fun w => mkI (i_c w) (i_stdin w) (i_keychain w) (i_out w ++ [s])%list).

(** ** Prompts ([output.py]) *)
Definition ask (dflt : string) : MI string := fun w =>
  match i_stdin w with
  | [] => (Ret dflt, w)
  | x :: l => (Ret (str_or (strip x) dflt), set_stdin l w)
  end.
Definition confirm (dflt : bool) : MI bool := fun w =>
  match i_stdin w with
  | [] => (Ret dflt, w)
  | x :: l =>
      let ans := lower (strip x) in
      (Ret (if String.eqb ans "" then dflt else bool_decide (ans ∈ ["y"; "yes"])), set_stdin l w)
  end.

Fixpoint index_of (v : string) (values : list string) : Z :=
  match values with [] => 0 | x :: l => if String.eqb x v then 0 else 1 + index_of v l end.
Definition isdigit (s : string) : bool := negb (String.eqb s "") && str_forall is_digit s.
Definition by_index (values : list string) (raw : string) : option string :=
  if isdigit raw then
    match nat_of_digits raw with
    | Some idx => if ((1 <=? idx) && (idx <=? Z.of_nat (List.length values)))%Z then values !! Z.to_nat (idx - 1) else None
    | None => None
    end
  else None.
Definition choice_of (values : list string) (default_value raw : string) : option string :=
  if String.eqb raw "" then Some default_value
  else match by_index values raw with
       | Some v => Some v
       | None => List.find (fun v => String.eqb (lower v) (lower raw)) values
       end.
(** The loop of [ask_choice_numbered]; at end of file [ask] answers the default. *)
Fixpoint choose (values : list string) (default_value : string) (lines : list string) : string * list string :=
  let dflt := str_of_Z (index_of default_value values + 1) in
  match lines with
  | [] => (default default_value (choice_of values default_value dflt), [])
  | x :: lines =>
      match choice_of values default_value (strip (str_or (strip x) dflt)) with
      | Some v => (v, lines)
      | None => choose values default_value lines
      end
  end.
Definition ask_choice_numbered (values : list string) (default_value : string) : MI string :=
  fun w => let '(v, l) := choose values default_value (i_stdin w) in (Ret v, set_stdin l w).
Definition ask_yes_no (dflt : bool) : MI bool :=
  let! v := ask_choice_numbered ["yes"; "no"] (if dflt then "yes" else "no") in ret (String.eqb v "yes").

(** ** [install] *)
Definition KEY_PROVIDERS : list string := ["env"; "file"; "1password"; "keychain"; "encrypted_file"].
Definition NETWORKS : list string := ["mainnet"; "shasta"; "nile"].

Record opts := mkOpts {
  o_yes : bool; o_interactive : option bool; o_force : bool;
  o_key_provider : option string; o_key_file : option string; o_op_vault : option string; o_op_item : option string;
  o_op_field : option string; o_keychain_service : option string; o_keychain_account : option string;
  o_network : option string; o_trongrid_api_key : option string; o_bind_host : option string;
  o_bind_port : option Z; o_tunnel : option bool; o_gen_key : bool; o_advanced : bool }.

(** [_resolve_choice_numbered], [_resolve_string], [_resolve_bool]: flag, prompt, default. *)
Definition resolve_choice (flag : option string) (interactive : bool) (values : list string) (dflt : string) : MI string :=
  match flag with
  | Some v => ret (lower v)
  | None => if interactive then ask_choice_numbered values dflt else ret dflt
  end.
Definition resolve_string (flag : option string) (interactive : bool) (dflt : string) : MI string :=
  match flag with Some v => ret v | None => if interactive then ask dflt else ret dflt end.
Definition resolve_bool (flag : option bool) (interactive : bool) (dflt : bool) : MI bool :=
  match flag with Some v => ret v | None => if interactive then ask_yes_no dflt else ret dflt end.
(** [int(output.ask(..., default=str(d)) or d)] *)
Definition ask_int (d : Z) : MI Z :=
  let! s := ask (str_of_Z d) in
  match int_of_str s with Some n => ret n | None => raise (Traceback "ValueError") end.

Record provider_extras := mkExtras {
  key_file : string; op_vault : string; op_item : string; op_field : string;
  keychain_service : string; keychain_account : string; keystore_file : string }.
Record settings := mkS {
  key_provider : string; extras : provider_extras; network : string; trongrid_api_key : string;
  bind_host : string; bind_port : Z; tunnel : bool; gen_key : bool;
  telegram_bot_token : string; telegram_chat_id : string; alert_send_threshold_usdt : string;
  min_trx_reserve : string; max_energy_burn_trx : string;
  shutdown_timeout : Z; rate_limit_max : Z; rate_limit_window : Z }.

(** Step 1.5 *)
Definition collect_extras (o : opts) (interactive : bool) (provider : string) : MI provider_extras :=
  if String.eqb provider "encrypted_file" then
    let! f := resolve_string None interactive "data/keystore.json" in
    ret (mkExtras "" "" "" "" "" "" f)
  else if String.eqb provider "file" then
    let! f := resolve_string (o_key_file o) interactive "/etc/skr-crypto/treasury.key" in
    ret (mkExtras f "" "" "" "" "" "")
  else if String.eqb provider "1password" then
    let! v := resolve_string (o_op_vault o) interactive "Treasury" in
    let! i := resolve_string (o_op_item o) interactive "TRON-Treasury" in
    let! f := resolve_string (o_op_field o) interactive "password" in
    ret (mkExtras "" v i f "" "" "")
  else if String.eqb provider "keychain" then
    let! s := resolve_string (o_keychain_service o) interactive "skr-crypto" in
    let! a := resolve_string (o_keychain_account o) interactive "treasury" in
    ret (mkExtras "" "" "" "" s a "")
  else ret (mkExtras "" "" "" "" "" "" "").

(** Step 7 *)
Definition collect_telegram (interactive : bool) : MI (string * string * string) :=
  if interactive then
    let! wants_alerts := ask_yes_no false in
    if wants_alerts then
      let! t := ask "" in
      let! c := ask "" in
      let! a := ask "" in ret (t, c, a)
    else ret ("", "", "")
  else ret ("", "", "").
(** Step 8 *)
Definition collect_advanced (o : opts) (interactive : bool) : MI (string * string * Z * Z * Z) :=
  let! show_advanced := if interactive && negb (o_advanced o) then ask_yes_no false else ret (o_advanced o) in
  if show_advanced && interactive then
    let! r := ask "50" in
    let! b := ask "20" in
    let! t := ask_int 600 in
    let! m := ask_int 30 in
    let! w := ask_int 60 in ret (r, b, t, m, w)
  else ret ("50", "20", 600%Z, 30%Z, 60%Z).

Definition collect_settings (o : opts) (interactive : bool) : MI settings :=
  let! provider := resolve_choice (o_key_provider o) interactive KEY_PROVIDERS "env" in
  let! x := collect_extras o interactive provider in
  let! net := resolve_choice (o_network o) interactive NETWORKS "mainnet" in
  let! api := resolve_string (o_trongrid_api_key o) interactive "" in
  let! host := resolve_string (o_bind_host o) interactive "127.0.0.1" in
  let! port := resolve_string (match o_bind_port o with
                               | Some p => if (p =? 0)%Z then None else Some (str_of_Z p)
                               | None => None
                               end) interactive "8000" in
  let! tun := resolve_bool (o_tunnel o) interactive false in
  let! gen := if o_gen_key o then ret true else if interactive then ask_yes_no false else ret false in
  let! telegram := collect_telegram interactive in
  let! advanced := collect_advanced o interactive in
  let '(t, c, a) := telegram in
  let '(r, b, st, rm, rw) := advanced in
  ret {| key_provider := provider; extras := x; network := net; trongrid_api_key := api; bind_host := host;
         bind_port := default 8000%Z (int_of_str port); tunnel := tun; gen_key := gen;
         telegram_bot_token := t; telegram_chat_id := c; alert_send_threshold_usdt := a;
         min_trx_reserve := r; max_energy_burn_trx := b; shutdown_timeout := st; rate_limit_max := rm;
         rate_limit_window := rw |}.

(** [_env_values_from] *)
Definition if_set (b : bool) (k v : string) : env_dict := if b && negb (String.eqb v "") then [(k, v)] else [].
Definition env_values_from (s : settings) (auth_token : string) : env_dict :=
  let provider p := String.eqb (key_provider s) p in
  ([("AUTH_TOKEN", auth_token); ("TRON_NETWORK", network s); ("TRONGRID_API_KEY", trongrid_api_key s);
   ("USDT_CONTRACT", "TR7NHqjeKQxGTCi8q8ZY4pL8otSzgjLj6t"); ("KEY_PROVIDER", key_provider s);
   ("MIN_TRX_RESERVE", min_trx_reserve s); ("MAX_ENERGY_BURN_TRX", max_energy_burn_trx s);
   ("AUDIT_LOG_FILE", "data/audit.log"); ("IDEMPOTENCY_DB_PATH", "data/idempotency.db");
   ("SERVER_HOST", bind_host s); ("SERVER_PORT", str_of_Z (bind_port s));
   ("SHUTDOWN_TIMEOUT", str_of_Z (shutdown_timeout s)); ("RATE_LIMIT_MAX", str_of_Z (rate_limit_max s));
   ("RATE_LIMIT_WINDOW", str_of_Z (rate_limit_window s)); ("TUNNEL_ENABLED", if tunnel s then "1" else "0")] ++
  if_set (provider "file") "PRIVATE_KEY_FILE" (key_file (extras s)) ++
  if_set (provider "1password") "OP_VAULT" (op_vault (extras s)) ++
  if_set (provider "1password") "OP_ITEM" (op_item (extras s)) ++
  if_set (provider "1password") "OP_FIELD" (op_field (extras s)) ++
  if_set (provider "keychain") "KEYCHAIN_SERVICE" (keychain_service (extras s)) ++
  if_set (provider "keychain") "KEYCHAIN_ACCOUNT" (keychain_account (extras s)) ++
  if_set (provider "encrypted_file") "KEYSTORE_FILE" (keystore_file (extras s)) ++
  if_set true "TELEGRAM_BOT_TOKEN" (telegram_bot_token s) ++
  if_set true "TELEGRAM_CHAT_ID" (telegram_chat_id s) ++
  if_set true "ALERT_SEND_THRESHOLD_USDT" (alert_send_threshold_usdt s))%list.

Section Commands.
Context (io : nat -> fate exn) (umask_mode : Z) (resolve : string -> string) (home : option string).
(** [secrets.token_urlsafe(32)], a fresh private key, its address. *)
Context (token : string) (random_key : string) (address_of : string -> string).
(** The [security] tool: not on the PATH, or its exit status. *)
Context (security : option Z).

Definition exists_file (p : string) (w : iworld) : bool :=
  match c_files (i_c w) !! p with Some _ => true | None => false end.
Definition call : MI unit := on_files (os_call io).

(** *** [keygen] *)
Definition autodetect_provider (dir : option string) (w : iworld) : option string :=
  match require_installed resolve dir home (i_c w) with
  | Ret p =>
      match read_env_file (path_join p ".env") (i_c w) with
      | Ret env =>
          let provider := lower (strip (default "" (env_get "KEY_PROVIDER" env))) in
          if bool_decide (provider ∈ ["env"; "file"; "keychain"]) then Some provider else None
      | _ => None
      end
  | _ => None
  end.

(** [_write_file_backend]: [open] with O_CREAT and O_EXCL, [write]. *)
Definition write_file_backend (path hex_key : string) : MI unit :=
  let! there := gets (exists_file path) in
  if there : bool then raise (SkrCryptoError ("Refusing to overwrite existing file " +:+ path))
  else
    do! call in
    do! call in
    do! on_files (put_file path (mkT 384 "")) in
    do! call in
    do! on_files (put_file path (mkT 384 (hex_key +:+ nl))) in
    call.
Definition write_keychain_backend (service account hex_key : string) : MI unit :=
  match security with
  | None => raise (SkrCryptoError "macOS `security` tool not on PATH")
  | Some rc =>
      if negb (rc =? 0)%Z then raise (SkrCryptoError "security add-generic-password failed")
      else modify (fun w => mkI (i_c w) (i_stdin w) (<[(service, account) := hex_key]> (i_keychain w)) (i_out w))
  end.

Definition keygen (dir write_to file_path : option string) (service account : string) (yes : bool) : MI unit :=
  let! detected := gets (autodetect_provider dir) in
  let chosen := str_or (default "" write_to) (str_or (default "" detected) "none") in
  do! when (String.eqb chosen "file" && String.eqb (default "" file_path) "")
        (raise (SkrCryptoError "--write-to file requires --path PATH (chmod-600 file)")) in
  let! go := if yes then ret true else confirm false in
  do! when (negb go) (raise (Exits 1)) in
  do! print_value ("address:    " +:+ address_of random_key) in
  if String.eqb chosen "none" || String.eqb chosen "env" then print_value ("PRIVATE_KEY_HEX=" +:+ random_key)
  else if String.eqb chosen "file" then write_file_backend (default "" file_path) random_key
  else if String.eqb chosen "keychain" then write_keychain_backend service account random_key
  else raise (SkrCryptoError ("Unsupported --write-to " +:+ py_repr chosen)).

(** *** [install] *)

(** [shutil.rmtree]: one unlink after another. *)
Fixpoint unlink_all (paths : list string) : MI unit :=
  match paths with
  | [] => ret tt
  | p :: paths => do! call in do! on_files (modify (set_files (delete p))) in unlink_all paths
  end.
Definition under (root : string) (p : string) : bool := startswith (root +:+ "/") p.
Definition rmtree (root : string) : MI unit :=
  let! fs := gets (fun w => c_files (i_c w)) in
  unlink_all (List.filter (under root) (map fst (map_to_list fs))).

(** [dir]: the root group's --dir; [isatty]: stdin is a terminal. *)
Definition install (dir : option string) (isatty : bool) (o : opts) : MI settings :=
  let root := install_dir resolve dir home in
  let env_path := path_join root ".env" in
  let interactive := match o_interactive o with Some b => b | None => negb (o_yes o) && isatty end in
  let! already_installed := gets (exists_file env_path) in
  do! when (already_installed && negb (o_force o)) (raise (AlreadyInstalledError ("Already installed at " +:+ root))) in
  do! when already_installed
        (let! go := if interactive then confirm false else ret true in
         do! when (negb go) (raise (Exits 1)) in
         rmtree root) in
  do! call in
  do! call in
  let! s := collect_settings o interactive in
  do! on_files (write_env_file io umask_mode env_path (env_values_from s token)) in
  do! when (gen_key s) (keygen dir None None "payouts" "treasury" true) in
  ret s.
End Commands.

(** ** What the server reads from the file *)
Definition env_keys : list string :=
  ["AUTH_TOKEN"; "TRON_NETWORK"; "TRONGRID_API_KEY"; "USDT_CONTRACT"; "KEY_PROVIDER"; "MIN_TRX_RESERVE";
   "MAX_ENERGY_BURN_TRX"; "AUDIT_LOG_FILE"; "IDEMPOTENCY_DB_PATH"; "SERVER_HOST"; "SERVER_PORT"; "SHUTDOWN_TIMEOUT";
   "RATE_LIMIT_MAX"; "RATE_LIMIT_WINDOW"; "TUNNEL_ENABLED"; "PRIVATE_KEY_FILE"; "OP_VAULT"; "OP_ITEM"; "OP_FIELD";
   "KEYCHAIN_SERVICE"; "KEYCHAIN_ACCOUNT"; "KEYSTORE_FILE"; "TELEGRAM_BOT_TOKEN"; "TELEGRAM_CHAT_ID";
   "ALERT_SEND_THRESHOLD_USDT"].
Lemma keys_if_set b k v : map fst (if_set b k v) `sublist_of` [k].
Proof. unfold if_set. destruct (b && _); cbn; repeat constructor. Qed.
Lemma env_keys_sublist s token : map fst (env_values_from s token) `sublist_of` env_keys.
Proof.
  unfold env_values_from. rewrite !map_app. cbn [map fst]. unfold env_keys.
  repeat (cbn [app]; apply sublist_skip). cbn [app].
  repeat match goal with
  | |- (map fst (if_set _ ?k _) ++ _)%list `sublist_of` _ :: ?r => apply (sublist_app _ [k] _ r); [apply keys_if_set|]
  end. apply keys_if_set.
Qed.
Lemma env_keys_distinct s token : NoDup (map fst (env_values_from s token)).
Proof. eapply sublist_NoDup; [|apply env_keys_sublist]. by apply (bool_decide_unpack _). Qed.

Lemma env_get_absent k d : k ∉ map fst d -> env_get k d = None.
Proof.
  induction d as [|[k' v] d IH]; [done|]. cbn. rewrite not_elem_of_cons. intros [Hk Hd].
  by rewrite (proj2 (String.eqb_neq _ _) Hk), IH.
Qed.
Lemma env_get_nonempty k l : NoDup (map fst l) ->
  default "" (env_get k (List.filter (fun '(_, v) => negb (String.eqb v "")) l)) = default "" (env_get k l) /\
  env_get k (List.filter (fun '(_, v) => negb (String.eqb v "")) l) <> Some "".
Proof.
  induction l as [|[k' v] l IH]; [done|]. cbn [map fst]. intros [Hk Hn]%NoDup_cons. destruct (IH Hn) as [H1 H2].
  cbn [List.filter env_get]. destruct (String.eqb_spec v "") as [->|Hv]; cbn [negb env_get].
  - destruct (String.eqb_spec k k') as [->|]; [|by split]. split; [|done]. rewrite H1.
    by rewrite env_get_absent.
  - destruct (String.eqb_spec k k'); [|by split]. split; [done|]. by intros [= ->].
Qed.

(** The values of a file are read back as they are. *)
Definition file_ok (s : settings) (token : string) : Prop :=
  Forall (fun e => plain e.2 = true /\ one_line e.2 = true) (env_values_from s token).
(** The server's environment: python-dotenv reads the file as [read_env_file] does, and
    nothing else is set. *)
Definition dotenv (text : string) : environ := fun k => env_get k (read_env_text text).

Lemma keys_ok s token : forallb (fun e => key_ok e.1) (env_values_from s token) = true.
Proof.
  apply forallb_forall. intros [k v] H. cbn.
  assert (In k env_keys) as Hk.
  { apply list_elem_of_In. eapply elem_of_sublist; [|apply env_keys_sublist]. apply list_elem_of_In.
    by apply (in_map fst) in H. }
  revert Hk. clear. assert (forallb key_ok env_keys = true) as H by reflexivity. rewrite forallb_forall in H. apply H.
Qed.
Lemma getenv_installed s token k d : file_ok s token -> let e := dotenv (env_text (env_values_from s token)) in
  getenv e k d = str_or (default "" (env_get k (env_values_from s token))) d /\
  (env_get k (env_values_from s token) = None -> e k = None).
Proof.
  intros Hok e. unfold getenv, e, dotenv. pose proof (env_keys_distinct s token) as Hn.
  assert (Hr : read_env_text (env_text (env_values_from s token)) =
            List.filter (fun '(_, v) => negb (String.eqb v "")) (env_values_from s token)).
  { unfold file_ok in Hok. rewrite List.Forall_forall in Hok. apply plain_reads_back; [|done|].
    - pose proof (keys_ok s token) as Hk. rewrite !forallb_forall in *. intros x Hx. unfold entry_ok.
      rewrite Hk by done. by destruct (Hok x Hx) as [_ ->].
    - apply List.Forall_forall. intros x Hx. by apply Hok. }
  rewrite Hr. destruct (env_get_nonempty k _ Hn) as [H1 H2]. split.
  - revert H1 H2. clear. generalize (env_get k (env_values_from s token)) as o1.
    generalize (env_get k (List.filter (fun '(_, v) => negb (String.eqb v "")) (env_values_from s token))) as o2.
    clear. intros [v|] o1 H1 H2; cbn [from_option id] in *; unfold str_or; rewrite <- H1; [|done].
    destruct (String.eqb_spec v ""); [congruence | done].
  - intros H. rewrite H in H1. revert H1 H2. by destruct (env_get k (List.filter _ _)) as [[|c v]|].
Qed.

(** The configuration of the server that reads the file. *)
Definition installed_config (s : settings) (token : string) : Config := {|
  KEY_PROVIDER := key_provider s; WALLETS := "";
  PRIVATE_KEY_FILE := if String.eqb (key_provider s) "file" then key_file (extras s) else "";
  KEYSTORE_FILE := if String.eqb (key_provider s) "encrypted_file" then keystore_file (extras s) else "";
  AUTH_TOKEN := token; TRON_NETWORK := network s; USDT_CONTRACT := "TR7NHqjeKQxGTCi8q8ZY4pL8otSzgjLj6t";
  USDT_FEE_LIMIT_SUN := 30000000; MIN_TRX_RESERVE := decimal_or (str_or (min_trx_reserve s) "50") (mkDec 50 0);
  TRON_HTTP_TIMEOUT := 15; TRON_ENERGY_PRICE_SUN_FALLBACK := 420;
  MAX_ENERGY_BURN_TRX := decimal_or (str_or (max_energy_burn_trx s) "20") (mkDec 20 0);
  FEE_LIMIT_SAFETY_MULT := mkDec 13 (-1); RISK_BLOCK_LEVEL := "high"; RISK_USE_EXTERNAL := true;
  MISTTRACK_API_KEY := ""; AUDIT_LOG_FILE := "data/audit.log"; SHUTDOWN_TIMEOUT := shutdown_timeout s;
  RATE_LIMIT_MAX := rate_limit_max s; TRUSTED_PROXIES := [] |}.

Lemma env_get_if_set k b k' v d :
  default "" (env_get k (if_set b k' v ++ d)%list) =
  if String.eqb k k' && b && negb (String.eqb v "") then v else default "" (env_get k d).
Proof.
  unfold if_set. destruct b, (String.eqb_spec v ""); cbn [andb negb app env_get]; rewrite ?andb_false_r; try done.
  by destruct (String.eqb k k').
Qed.
Lemma str_or_empty s : str_or s "" = s.
Proof. unfold str_or. by destruct (String.eqb_spec s ""). Qed.
Lemma str_or_str n d : str_or (str_of_Z n) d = str_of_Z n.
Proof.
  unfold str_or. destruct (String.eqb_spec (str_of_Z n) "") as [E|]; [|done].
  pose proof (int_of_str_str n) as H. by rewrite E in H.
Qed.

Lemma extra_values s token :
  default "" (env_get "PRIVATE_KEY_FILE" (env_values_from s token)) =
    (if String.eqb (key_provider s) "file" then key_file (extras s) else "") /\
  default "" (env_get "KEYSTORE_FILE" (env_values_from s token)) =
    (if String.eqb (key_provider s) "encrypted_file" then keystore_file (extras s) else "") /\
  default "" (env_get "KEYCHAIN_SERVICE" (env_values_from s token)) =
    (if String.eqb (key_provider s) "keychain" then keychain_service (extras s) else "").
Proof.
  unfold env_values_from. cbn [app env_get String.eqb Ascii.eqb Bool.eqb].
  assert (E : forall k' v k, default "" (env_get k (if_set true k' v)) = if String.eqb k k' then v else "").
  { intros k' v k. rewrite <- (app_nil_r (if_set _ _ _)), env_get_if_set. cbn [env_get default].
    destruct (String.eqb k k'), (String.eqb_spec v ""); by subst. }
  rewrite !env_get_if_set, !E. cbn [String.eqb Ascii.eqb Bool.eqb andb].
  split_and!; destruct (String.eqb (key_provider s) _); cbn [andb]; try done;
    match goal with |- context [String.eqb ?v ""] => by destruct (String.eqb_spec v "") end.
Qed.

Lemma provider_read p : p ∈ KEY_PROVIDERS -> lower (strip (str_or p "1password")) = p.
Proof.
  unfold KEY_PROVIDERS. rewrite !elem_of_cons. intros [->|[->|[->|[->|[->|Hp]]]]]; [reflexivity..|]. by apply elem_of_nil in Hp.
Qed.
Lemma network_read n : n ∈ NETWORKS -> str_or n "mainnet" = n.
Proof. unfold NETWORKS. rewrite !elem_of_cons. intros [->|[->|[->|Hp]]]; [reflexivity..|]. by apply elem_of_nil in Hp. Qed.
(** The settings the file does not have, by [A]; the numbers among the defaults. *)
Ltac absent_settings A :=
  repeat match goal with
  | |- context [str_or (default "" (env_get ?k _)) ?d] => rewrite (A k d eq_refl)
  end.
Ltac literal_numbers :=
  repeat match goal with
  | |- context [int_of_str ?x] => let v := eval vm_compute in (int_of_str x) in
      match v with Some _ => change (int_of_str x) with v end
  | |- context [float_of_str ?x] => let v := eval vm_compute in (float_of_str x) in
      match v with Some _ => change (float_of_str x) with v end
  end.
Lemma load_installed s token :
  file_ok s token -> key_provider s ∈ KEY_PROVIDERS -> network s ∈ NETWORKS ->
  exists st, load_config (dotenv (env_text (env_values_from s token))) = Some st /\
    s_config st = installed_config s token /\ SERVER_HOST (s_server st) = str_or (bind_host s) "127.0.0.1" /\
    SERVER_PORT (s_server st) = bind_port s /\
    KEYCHAIN_SERVICE (s_keys st) =
      str_or (if String.eqb (key_provider s) "keychain" then keychain_service (extras s) else "") "payouts".
Proof.
  intros Hok Hkp Hnet.
  assert (G : forall k d, getenv (dotenv (env_text (env_values_from s token))) k d =
                str_or (default "" (env_get k (env_values_from s token))) d) by (intros; by apply getenv_installed).
  assert (N : dotenv (env_text (env_values_from s token)) "RATE_LIMIT_IP_REFILL_PER_SEC" = None).
  { apply (getenv_installed s token _ "" Hok), env_get_absent. intros Hk.
    eapply (elem_of_sublist _ env_keys) in Hk; [|apply env_keys_sublist]. revert Hk.
    by apply (bool_decide_unpack _). }
  clear Hok. revert G N. generalize (dotenv (env_text (env_values_from s token))). intros e G N.
  assert (A : forall k d, bool_decide (k ∈ env_keys) = false ->
    str_or (default "" (env_get k (env_values_from s token))) d = d).
  { intros k d Hk%bool_decide_eq_false. rewrite env_get_absent; [done|]. intros Hi. apply Hk. eapply elem_of_sublist; [exact Hi|].
    apply env_keys_sublist. }
  unfold load_config, load_tron, load_server, load_poll, load_webhooks, load_alerts. rewrite N, !G.
  absent_settings A.
  repeat match goal with
  | |- context [env_get ?k (env_values_from s token)] =>
      let H := fresh in eassert (H : env_get k (env_values_from s token) = Some _) by reflexivity; rewrite H; clear H
  end.
  cbn [from_option id]. rewrite !str_or_str, !int_of_str_str.
  literal_numbers.
  cbn [mbind option_bind]. rewrite (G "RATE_LIMIT_IP_CAPACITY"), (A "RATE_LIMIT_IP_CAPACITY" _ eq_refl).
  rewrite int_of_str_str.
  cbn [mbind option_bind].
  change (parse_floats "0,30,120,600,3600") with (Some [0; 30; 120; 600; 3600]%Q).
  change (parse_floats "0,5,30,300") with (Some [0; 5; 30; 300]%Q). cbn [mbind option_bind].
  destruct (extra_values s token) as (X1 & X2 & X3).
  eexists. split; [reflexivity|]. cbn [s_config s_server s_keys SERVER_HOST SERVER_PORT]. split_and!; [|done..|].
  - unfold load_keys, load_risk, load_state, installed_config.
    cbn [ks_provider ks_wallets ks_private_key_file ks_keystore_file tn_network tn_contract tn_fee_limit tn_reserve
      tn_timeout tn_fallback tn_burn tn_mult rk_block_level rk_use_external rk_misttrack st_audit st_proxies
      sv_shutdown sv_rate_max]. rewrite !G.
    absent_settings A.
    rewrite X1, X2, !str_or_empty.
    assert (env_get "KEY_PROVIDER" (env_values_from s token) = Some (key_provider s)) as -> by reflexivity.
    assert (env_get "AUDIT_LOG_FILE" (env_values_from s token) = Some "data/audit.log") as -> by reflexivity.
    cbn [from_option id].
    by rewrite (provider_read _ Hkp), (network_read _ Hnet).
  - unfold load_keys. cbn [KEYCHAIN_SERVICE]. by rewrite G, X3.
Qed.

(** ** When the file is good enough *)
Definition runnable (s : settings) (token : string) : bool :=
  negb (String.eqb token "") &&
  negb (String.eqb (key_provider s) "file" && String.eqb (key_file (extras s)) "") &&
  negb (String.eqb (key_provider s) "encrypted_file" && String.eqb (keystore_file (extras s)) "") &&
  (60 <=? shutdown_timeout s)%Z && (1 <=? rate_limit_max s)%Z &&
  dec_leb (mkDec 30 0) (MIN_TRX_RESERVE (installed_config s token)) &&
  dec_leb (dec_of_Z 0) (MAX_ENERGY_BURN_TRX (installed_config s token)).

Lemma error_if_app b m l : (error_if b m ++ l)%list = [] <-> b = false /\ l = [].
Proof. destruct b; cbn; split; naive_solver. Qed.
Lemma error_if_last b m : error_if b m = [] <-> b = false.
Proof. by destruct b. Qed.
Lemma validate_installed s token : key_provider s ∈ KEY_PROVIDERS -> network s ∈ NETWORKS ->
  validate_config (installed_config s token) = [] <-> runnable s token = true.
Proof.
  intros Hkp Hnet. unfold validate_config, runnable. rewrite !error_if_app, error_if_last.
  assert (not_in (KEY_PROVIDER (installed_config s token)) ["1password"; "env"; "file"; "keychain"; "encrypted_file"] = false) as ->.
  { unfold not_in. apply negb_false_iff, bool_decide_eq_true. cbn. unfold KEY_PROVIDERS in Hkp. set_solver. }
  assert (not_in (TRON_NETWORK (installed_config s token)) ["mainnet"; "shasta"; "nile"] = false) as ->.
  { unfold not_in. apply negb_false_iff, bool_decide_eq_true. done. }
  change (fee_limit_trx (installed_config s token)) with (mkDec 30 0).
  rewrite !dec_ltb_nleb, !negb_false_iff.
  assert (String.eqb (WALLETS (installed_config s token)) "" = true) as -> by done. rewrite andb_true_r.
  cbn [AUTH_TOKEN KEY_PROVIDER PRIVATE_KEY_FILE KEYSTORE_FILE installed_config SHUTDOWN_TIMEOUT Config.RATE_LIMIT_MAX].
  rewrite !andb_true_iff, !negb_true_iff, !Z.ltb_ge, !Z.leb_le.
  destruct (String.eqb_spec (key_provider s) "file") as [Hf|Hf]; cbn [andb];
    destruct (String.eqb_spec (key_provider s) "encrypted_file") as [He|He]; cbn [andb];
    split; [intros H; decompose [and] H; split_and!; done | intros H; decompose [and] H; split_and!; done ..].
Qed.

Lemma bind_inv {W E A B} (m : M W E A) (k : A -> M W E B) w b w' :
  bind m k w = (Ret b, w') -> exists a w1, m w = (Ret a, w1) /\ k a w1 = (Ret b, w').
Proof. unfold bind. destruct (m w) as [[a|e|] w1]; [|done..]. intros H. by exists a, w1. Qed.

(** Choices are among the options. *)
Lemma choice_in values dv raw v : dv ∈ values -> choice_of values dv raw = Some v -> v ∈ values.
Proof.
  intros Hd. unfold choice_of, by_index. destruct (String.eqb raw ""); [by intros [= <-]|].
  assert (Hf : List.find (fun v => String.eqb (lower v) (lower raw)) values = Some v -> v ∈ values).
  { intros H. apply find_some in H as [H _]. by apply list_elem_of_In. }
  destruct (isdigit raw); [|done]. destruct (nat_of_digits raw) as [i|]; [|done].
  destruct ((1 <=? i)%Z && _); [|done]. destruct (values !! _) eqn:E; [|done]. intros [= <-].
  by eapply list_elem_of_lookup_2.
Qed.
Lemma choose_in values dv lines : dv ∈ values -> (choose values dv lines).1 ∈ values.
Proof.
  intros Hd. induction lines as [|x lines IH]; cbn [choose].
  - destruct (choice_of _ _ _) eqn:E; [exact (choice_in _ _ _ _ Hd E)|done].
  - destruct (choice_of _ _ _) eqn:E; [exact (choice_in _ _ _ _ Hd E)|done].
Qed.
Lemma resolve_choice_in flag interactive values dv w v w' :
  dv ∈ values -> (forall f, flag = Some f -> lower f ∈ values) ->
  resolve_choice flag interactive values dv w = (Ret v, w') -> v ∈ values.
Proof.
  intros Hd Hf. unfold resolve_choice. destruct flag as [f|]; [intros [= <- _]; by apply Hf|].
  destruct interactive; [|by intros [= <- _]]. unfold ask_choice_numbered. pose proof (choose_in values dv (i_stdin w) Hd) as H.
  destruct (choose _ _ _) as [u l]. by intros [= <- _].
Qed.

(** What click has checked of the flags. *)
Definition choices_ok (o : opts) : Prop :=
  (forall f, o_key_provider o = Some f -> lower f ∈ KEY_PROVIDERS) /\ (forall f, o_network o = Some f -> lower f ∈ NETWORKS).

Ltac inv_binds H :=
  repeat match type of H with
  | bind _ _ _ = (Ret _, _) => let a := fresh "a" in let w := fresh "w" in let H1 := fresh "B" in
      apply bind_inv in H as (a & w & H1 & H)
  end.
Lemma settings_spec o interactive w s w' : choices_ok o -> collect_settings o interactive w = (Ret s, w') ->
  key_provider s ∈ KEY_PROVIDERS /\ network s ∈ NETWORKS /\
  (interactive = false -> o_key_file o <> Some "" ->
   shutdown_timeout s = 600%Z /\ rate_limit_max s = 30%Z /\ min_trx_reserve s = "50" /\ max_energy_burn_trx s = "20" /\
   (key_provider s = "file" -> key_file (extras s) <> "") /\
   (key_provider s = "encrypted_file" -> keystore_file (extras s) <> "")).
Proof.
  intros [Hkp Hnet] H. unfold collect_settings in H. inv_binds H.
  apply resolve_choice_in in B; [|by apply (bool_decide_unpack _)|done].
  apply resolve_choice_in in B1; [|by apply (bool_decide_unpack _)|done].
  destruct a7 as [[t c] al], a8 as [[[[r b] st] rm] rw]. injection H as <- <-.
  cbn [key_provider network shutdown_timeout rate_limit_max min_trx_reserve max_energy_burn_trx extras].
  split_and!; [done..|]. intros -> Hfile. unfold collect_advanced in B8. cbn in B8.
  assert (r = "50" /\ b = "20" /\ st = 600%Z /\ rm = 30%Z) as (-> & -> & -> & ->).
  { rewrite andb_false_r in B8. by injection B8 as <- <- <- <- <- _. }
  split_and!; try done; intros ->; unfold collect_extras in B0; cbn [String.eqb Ascii.eqb Bool.eqb] in B0; inv_binds B0;
    injection B0 as <- _; cbn [key_file keystore_file].
  - unfold resolve_string in *. destruct (o_key_file o) as [f|];
      match goal with E : ret _ _ = _ |- _ => injection E as <- _ end; congruence.
  - match goal with E : resolve_string _ _ _ _ = _ |- _ => by injection E as <- _ end.
Qed.

Section Facts.
Context (io : nat -> fate exn) (umask_mode : Z) (resolve : string -> string) (home : option string)
  (token random_key : string) (address_of : string -> string) (security : option Z).

Lemma keygen_files dir service account w w' :
  keygen io resolve home random_key address_of security dir None None service account true w = (Ret tt, w') ->
  i_c w' = i_c w.
Proof.
  unfold keygen. unfold bind at 1. unfold gets. cbn [from_option id]. change (String.eqb "" "") with true.
  rewrite andb_true_r. set (chosen := str_or "" _). destruct (String.eqb chosen "file"); [done|].
  cbn [when ret bind print_value modify negb].
  destruct (String.eqb chosen "none" || String.eqb chosen "env"); [by intros [= <-]|].
  destruct (String.eqb chosen "keychain"); [|done]. unfold write_keychain_backend.
  destruct security as [rc|]; [|done]. destruct (negb (rc =? 0)%Z); [done|]. by intros [= <-].
Qed.

Lemma keygen_chosen dir service account w w' d :
  autodetect_provider resolve home dir w = d ->
  keygen io resolve home random_key address_of security dir None None service account true w = (Ret tt, w') ->
  d <> Some "file" /\
  (d = Some "keychain" -> i_keychain w' = <[(service, account) := random_key]> (i_keychain w)).
Proof.
  intros Hd. unfold keygen. unfold bind at 1. unfold gets. rewrite Hd. clear Hd. intros H.
  split; intros ->; cbn in H; [done|]. unfold write_keychain_backend in H.
  destruct security as [rc|]; [|done]. cbn in H. destruct (negb (rc =? 0)%Z); [done|]. by injection H as <-.
Qed.
Lemma autodetect_installed dir w s :
  c_files (i_c w) !! path_join (install_dir resolve dir home) ".env" =
    Some (mkT 384 (env_text (env_values_from s token))) ->
  file_ok s token -> key_provider s ∈ ["env"; "file"; "keychain"] ->
  autodetect_provider resolve home dir w = Some (key_provider s).
Proof.
  intros Hf Hok Hp. unfold autodetect_provider, require_installed. rewrite Hf. unfold read_env_file. rewrite Hf.
  cbn [t_text]. pose proof (getenv_installed s token "KEY_PROVIDER" "" Hok) as [G _]. unfold getenv, dotenv in G. rewrite G.
  assert (env_get "KEY_PROVIDER" (env_values_from s token) = Some (key_provider s)) as -> by reflexivity.
  cbn [from_option id]. rewrite str_or_empty. clear -Hp. revert Hp. generalize (key_provider s). intros p Hp.
  rewrite !elem_of_cons in Hp. destruct Hp as [->|[->|[->|Hp]]]; [reflexivity..|]. by apply elem_of_nil in Hp.
Qed.

(** The file [install] leaves when it returns. *)
Lemma install_file dir isatty o w s w' : choices_ok o ->
  install io umask_mode resolve home token random_key address_of security dir isatty o w = (Ret s, w') ->
  c_files (i_c w') !! path_join (install_dir resolve dir home) ".env" =
    Some (mkT 384 (env_text (env_values_from s token))) /\
  key_provider s ∈ KEY_PROVIDERS /\ network s ∈ NETWORKS /\
  (match o_interactive o with Some b => b | None => negb (o_yes o) && isatty end = false ->
   o_key_file o <> Some "" -> token <> "" -> runnable s token = true).
Proof.
  intros Ho H. unfold install in H. inv_binds H. injection H as <- <-.
  apply settings_spec in B4; [|done]. destruct B4 as (Hkp & Hnet & Hni). split_and!; [|done|done|].
  - unfold on_files in B5. match type of B5 with context [i_c ?x] => pose proof (write_env_file_private io umask_mode
      (path_join (install_dir resolve dir home) ".env") (env_values_from a4 token) (i_c x)) as Hp end.
    destruct (write_env_file _ _ _ _ _) as [[[]|?|] c]; [|done..]. injection B5 as _ <-. destruct Hp as [Hp _].
    destruct (gen_key a4); cbn [when] in B6; [|by injection B6 as _ <-]. destruct a6. apply keygen_files in B6. by rewrite B6.
  - intros Hi Hf Ht. rewrite Hi in Hni. destruct (Hni eq_refl Hf) as (E1 & E2 & E3 & E4 & E5 & E6).
    unfold runnable. cbn [MIN_TRX_RESERVE MAX_ENERGY_BURN_TRX installed_config]. rewrite E1, E2, E3, E4.
    rewrite (proj2 (String.eqb_neq _ _) Ht).
    destruct (String.eqb_spec (key_provider a4) "file") as [Hp|_];
      [rewrite (proj2 (String.eqb_neq _ _) (E5 Hp)), Hp | ];
      destruct (String.eqb_spec (key_provider a4) "encrypted_file") as [Hq|_];
      [rewrite (proj2 (String.eqb_neq _ _) (E6 Hq)) | | rewrite (proj2 (String.eqb_neq _ _) (E6 Hq)) | ];
      vm_compute; reflexivity.
Qed.
End Facts.

(** Nothing but [keygen] writes to the keychain. *)
Definition same_keychain (w w' : iworld) : Prop := i_keychain w' = i_keychain w.
#[global] Instance same_keychain_pre : PreOrder same_keychain.
Proof. split; [by intros w | intros u v w H1 H2; unfold same_keychain in *; by rewrite H2]. Qed.
#[global] Instance frame_on_files {A} (m : M cworld cexn A) : Frame same_keychain (on_files m).
Proof. intros w. unfold on_files. by destruct (m (i_c w)). Qed.
#[global] Instance frame_ask d : Frame same_keychain (ask d).
Proof. intros w. unfold ask. by destruct (i_stdin w). Qed.
#[global] Instance frame_confirm d : Frame same_keychain (confirm d).
Proof. intros w. unfold confirm. by destruct (i_stdin w). Qed.
#[global] Instance frame_choice values d : Frame same_keychain (ask_choice_numbered values d).
Proof. intros w. unfold ask_choice_numbered. by destruct (choose values d (i_stdin w)). Qed.
Ltac keychain_frames :=
  repeat first [progress intros | solve [apply _] | apply frame_bind | apply frame_when | case_match].
#[global] Instance frame_collect o interactive : Frame same_keychain (collect_settings o interactive).
Proof.
  unfold collect_settings, resolve_choice, resolve_string, resolve_bool, collect_extras, collect_telegram,
    collect_advanced, resolve_string, ask_yes_no, ask_int. keychain_frames.
Qed.
#[global] Instance frame_rmtree io root : Frame same_keychain (rmtree io root).
Proof.
  assert (forall l, Frame same_keychain (unlink_all io l)) as H.
  { intros l. induction l as [|p l IH]; cbn [unlink_all]; [apply _|]. unfold call. keychain_frames. }
  unfold rmtree. apply frame_bind; [apply _..|]. intros fs. apply H.
Qed.

(** ** The properties *)


(** [install --gen-key] with the keychain provider puts the key where the server does
    not look: it is stored as service [payouts], account [treasury], while the .env file
    names the service that was chosen ([skr-crypto] by default), whose entries are as
    before.  With the file provider it never returns: there is no path to write to. *)
Theorem generated_key_misplaced (io : nat -> fate exn) (umask_mode : Z) (resolve : string -> string)
    (home : option string) (token random_key : string) (address_of : string -> string) (security : option Z)
    (dir : option string) (isatty : bool) (o : opts) (w w' : iworld) (s : settings) :
  choices_ok o ->
  install io umask_mode resolve home token random_key address_of security dir isatty o w = (Ret s, w') ->
  file_ok s token -> gen_key s = true ->
  key_provider s <> "file" /\
  (key_provider s = "keychain" -> keychain_service (extras s) ∉ [""; "payouts"] ->
   exists st, load_config (dotenv (env_text (env_values_from s token))) = Some st /\
     i_keychain w' !! ("payouts", "treasury") = Some random_key /\
     KEYCHAIN_SERVICE (s_keys st) = keychain_service (extras s) /\
     forall account, i_keychain w' !! (keychain_service (extras s), account) =
                     i_keychain w !! (keychain_service (extras s), account)).
Proof.
  intros Ho H Hok Hg. pose proof (install_file _ _ _ _ _ _ _ _ _ _ _ _ _ _ Ho H) as (Hf & Hkp & Hnet & _).
  unfold install in H. inv_binds H. injection H as <- <-. rewrite Hg in B6. cbn [when] in B6. destruct a6.
  assert (Hkc : i_keychain w6 = i_keychain w).
  { assert (forall {A} (m : MI A) u x v, Frame same_keychain m -> m u = (Ret x, v) -> i_keychain v = i_keychain u) as Hfr.
    { intros A m u x v Hm Hu. specialize (Hm u). by rewrite Hu in Hm. }
    apply Hfr in B; [|apply _]. apply Hfr in B0; [|apply _]. apply Hfr in B1; [|keychain_frames].
    apply Hfr in B2; [|apply _]. apply Hfr in B3; [|apply _]. apply Hfr in B4; [|apply _]. apply Hfr in B5; [|apply _].
    congruence. }
  pose proof B6 as Hfiles. apply keygen_files in Hfiles. rewrite Hfiles in Hf.
  destruct (load_installed a4 token Hok Hkp Hnet) as (st & Hl & _ & _ & _ & Hks).
  split; [|intros Hp Hs; exists st].
  - intros Hp. assert (Ha : key_provider a4 ∈ ["env"; "file"; "keychain"]) by (rewrite Hp; set_solver).
    pose proof (autodetect_installed _ _ _ _ _ _ Hf Hok Ha) as Hd.
    eapply keygen_chosen in B6 as [Hne _]; [|exact Hd]. by rewrite Hp in Hne.
  - assert (Ha : key_provider a4 ∈ ["env"; "file"; "keychain"]) by (rewrite Hp; set_solver).
    pose proof (autodetect_installed _ _ _ _ _ _ Hf Hok Ha) as Hd.
    eapply keygen_chosen in B6 as [_ H]; [|exact Hd]. rewrite Hp in H.
    rewrite (H eq_refl), Hkc. rewrite !not_elem_of_cons in Hs. destruct Hs as (Hs1 & Hs2 & _).
    split_and!; [done|apply lookup_insert_eq| |].
    + rewrite Hks, Hp. change (String.eqb "keychain" "keychain") with true. cbv iota. unfold str_or.
      by rewrite (proj2 (String.eqb_neq _ _) Hs1).
    + intros account. by rewrite lookup_insert_ne by congruence.
Qed.

(** ** The hypotheses can hold *)
Definition demo_opts (provider : string) (gen : bool) : opts :=
  mkOpts true None false (Some provider) None None None None None None None (Some "k-1") (Some "0.0.0.0") (Some 9000%Z)
    None gen false.
Definition demo_iworld : iworld := mkI (mkC ∅ 0) [] ∅ [].
Definition demo_install (provider : string) (gen : bool) : outcome cexn settings * iworld :=
  install (fun _ => Fine) 420 (fun p => p) None "tok" "aa55" (fun k => "T" +:+ k) (Some 0%Z) None false
    (demo_opts provider gen) demo_iworld.
Definition demo_settings (provider : string) (gen : bool) : settings :=
  mkS provider
    (if String.eqb provider "keychain" then mkExtras "" "" "" "" "skr-crypto" "treasury" "" else mkExtras "" "" "" "" "" "" "")
    "mainnet" "k-1" "0.0.0.0" 9000 false gen "" "" "" "50" "20" 600 30 60.
Lemma demo_choices provider gen : lower provider ∈ KEY_PROVIDERS -> choices_ok (demo_opts provider gen).
Proof. intros H. split; [by intros f [= <-] | done]. Qed.
Lemma file_ok_check s token :
  forallb (fun e => plain e.2 && one_line e.2) (env_values_from s token) = true -> file_ok s token.
Proof.
  intros H. apply List.Forall_forall. intros x Hx. rewrite forallb_forall in H. by apply andb_true_iff, H.
Qed.

Lemma generated_key_misplaced_witness :
  exists st, load_config (dotenv (env_text (env_values_from (demo_settings "keychain" true) "tok"))) = Some st /\
    i_keychain (snd (demo_install "keychain" true)) !! ("payouts", "treasury") = Some "aa55" /\
    KEYCHAIN_SERVICE (s_keys st) = "skr-crypto".
Proof.
  destruct (generated_key_misplaced (fun _ => Fine) 420 (fun p => p) None "tok" "aa55" (fun k => "T" +:+ k) (Some 0%Z)
    None false (demo_opts "keychain" true) demo_iworld (snd (demo_install "keychain" true)) (demo_settings "keychain" true))
    as (_ & H).
  - apply demo_choices. by apply (bool_decide_unpack _).
  - vm_compute. reflexivity.
  - apply file_ok_check. vm_compute. reflexivity.
  - done.
  - destruct H as (st & H1 & H2 & H3 & _); [reflexivity|by apply (bool_decide_unpack _)|].
    exists st. split; [exact H1|]. split; [exact H2|exact H3].
Defined.

(** [install --force --advanced] deletes the old installation before it asks: an answer
    that is no number then leaves nothing. *)
Example force_then_bad_number :
  let o := mkOpts false (Some true) true (Some "env") None None None None None None (Some "mainnet") (Some "k")
             (Some "h") (Some 1%Z) (Some false) true true in
  let old := mkC {["/srv/.env" := mkT 384 "AUTH_TOKEN=t"; "/srv/data/idempotency.db" := mkT 384 "rows"]} 0 in
  let '(r, w) := install (fun _ => Fine) 420 (fun p => p) None "tok" "aa55" (fun k => k) None (Some "/srv") true o
                   (mkI old ["y"; "no"; "50"; "20"; "10 minutes"] ∅ []) in
  r = Raise (Traceback "ValueError") /\ c_files (i_c w) = ∅.
Proof. vm_compute. split; reflexivity. Qed.
