(* ===== verification/CliWallet.v ===== *)
(** * [skr-crypto wallet] ([cli/commands/wallet.py])

    The commands that edit the encrypted keystore, over the disk of [Keystore].  What the
    operator types is a list of lines ([input] and [getpass]); the elliptic curve, the
    random key and the HTTP answers of the service are parameters.  Of the output only
    [print_value] is kept; what list and show display is in [Panels]. *)
From S2P Require Import Prelude PyStr Effects Exceptions Base64 Keystore KeystoreSpec CliEnv.
From S2P Require KeyProviders.
Open Scope string_scope.

Record wworld := mkWw { x_disk : world; x_lines : list string; x_out : list string }.
Abbreviation MW := (M wworld cexn).
Definition print_value (s : string) : MW unit := modify (fun w => mkWw (x_disk w) (x_lines w) (x_out w ++ [s])%list).
Definition lift_c {A} (o : outcome cexn A) : MW A := fun w => (o, w).

(** [output.confirm], [getpass.getpass] *)
Definition confirm (dflt : bool) : MW bool := fun w =>
  match x_lines w with
  | [] => (Ret dflt, w)
  | x :: l =>
      let ans := lower (strip x) in
      (Ret (if String.eqb ans "" then dflt else bool_decide (ans ∈ ["y"; "yes"])), mkWw (x_disk w) l (x_out w))
  end.
Definition getpass : MW string := fun w =>
  match x_lines w with
  | [] => (Raise (Traceback "EOFError"), w)
  | x :: l => (Ret x, mkWw (x_disk w) l (x_out w))
  end.
(** Unless [yes]: ask, and leave with status 1 on a no. *)
Definition confirmed (yes dflt : bool) : MW unit :=
  if yes then ret tt else let! go := confirm dflt in when (negb go) (raise (Exits 1)).

(** A call of the keystore module; [h]: what the command makes of its exceptions. *)
Definition on_keystore {A} (h : kexn -> cexn) (m : M world kexn A) : MW A := fun w =>
  let '(o, d) := m (x_disk w) in
  (match o with Ret a => Ret a | Raise e => Raise (h e) | Crash => Crash end, mkWw d (x_lines w) (x_out w)).
Definition traceback_of (e : kexn) : cexn :=
  match e with
  | KeystoreError => Traceback "KeystoreError" | KeystoreNotFound => Traceback "KeystoreNotFound"
  | KeystoreCorrupt => Traceback "KeystoreCorrupt" | KeystoreUnsupportedVersion => Traceback "KeystoreUnsupportedVersion"
  | WrongPassphrase => Traceback "WrongPassphrase" | WalletNameConflict => Traceback "WalletNameConflict"
  | Escapes e => Traceback (exn_class e)
  end.
(** The [except] clauses of add, remove and rename. *)
Definition keystore_failure (e : kexn) : cexn :=
  match e with
  | WrongPassphrase => SkrCryptoError "passphrase rejected — keystore was not modified"
  | Escapes e => Traceback (exn_class e)
  | _ => SkrCryptoError "keystore error"
  end.

(** ** The .env file, or the process environment *)
Definition ENV_NAMES : list string :=
  ["KEY_PROVIDER"; "KEYSTORE_FILE"; "KEY_PASSPHRASE"; "KEY_PASSPHRASE_FILE"; "WALLETS"; "PRIVATE_KEY_FILE"; "OP_VAULT";
   "OP_ITEM"; "OP_FIELD"; "KEYCHAIN_SERVICE"; "KEYCHAIN_ACCOUNT"; "AUTH_TOKEN"; "SERVER_HOST"; "SERVER_PORT";
   "IDEMPOTENCY_DB_PATH"; "WEBHOOK_SIGNING_SECRET"].
(** [_install_env] *)
Definition install_env (resolve : string -> string) (dir home : option string) (environ : string -> option string)
    (c : cworld) : outcome cexn (option string * env_dict) :=
  match (match require_installed resolve dir home c with
         | Ret root => match read_env_file (path_join root ".env") c with
                       | Ret env => Ret (Some root, env)
                       | Raise e => Raise e
                       | Crash => Crash
                       end
         | Raise e => Raise e
         | Crash => Crash
         end) with
  | Raise (NotInstalledError _) => Ret (None, map (fun k => (k, default "" (environ k))) ENV_NAMES)
  | r => r
  end.

Definition provider (env : env_dict) : string := lower (strip (default "1password" (env_get "KEY_PROVIDER" env))).
Definition keystore_path (root : option string) (env : env_dict) : outcome cexn string :=
  let raw := default "" (env_get "KEYSTORE_FILE" env) in
  if String.eqb raw "" then Raise (SkrCryptoError "KEYSTORE_FILE is not set")
  else if is_absolute raw then Ret raw
  else match root with
       | None => Raise (SkrCryptoError ("KEYSTORE_FILE=" +:+ py_repr raw +:+ " is a relative path, but no install dir"))
       | Some r => Ret (path_join r raw)
       end.

(** [_validate_name], [_validate_hex_key] *)
Definition name_ok (n : string) : bool := isalnum (replace "-" "" (replace "_" "" n)).
Definition validate_name (n : string) : outcome cexn unit :=
  if String.eqb n "" || negb (name_ok n) then Raise (SkrCryptoError ("invalid wallet name " +:+ py_repr n)) else Ret tt.
Definition validate_hex_key (h : string) : outcome cexn bytes :=
  if negb (String.length h =? 64)%nat then Raise (SkrCryptoError "private key must be 64 hex chars")
  else match KeyProviders.fromhex (KeyProviders.to_bytes h) with
       | None => Raise (SkrCryptoError "private key is not valid hex")
       | Some b =>
           if negb (List.length b =? 32)%nat then Raise (SkrCryptoError "private key decoded to the wrong length")
           else if forallb (fun byte => byte =? 0)%Z b then Raise (SkrCryptoError "private key is all zeroes — refusing")
           else Ret b
       end.
(** [h.strip().lower().removeprefix("0x")] *)
Definition clean_hex (h : string) : string :=
  let h := lower (strip h) in default h (strip_prefix "0x" h).

Section Commands.
Context (K : kenv).
(** [os.environ], the passphrase files, [PrivateKey(b)] and its address, [PrivateKey.random()]. *)
Context (environ : string -> option string) (pass_files : string -> pass_file)
  (derive_address : bytes -> outcome exn string) (random_key : bytes) (hex_of : bytes -> string).
(** What [_install_env] gives. *)
Context (installed : outcome cexn (option string * env_dict)).

Definition resolve_passphrase_for_cli (env : env_dict) : MW string :=
  let pw_env := default "" (environ "KEY_PASSPHRASE") in
  if negb (String.eqb pw_env "") then ret pw_env
  else
    let pw_file := str_or (default "" (env_get "KEY_PASSPHRASE_FILE" env)) (default "" (environ "KEY_PASSPHRASE_FILE")) in
    if negb (String.eqb pw_file "") then
      match pass_files pw_file with
      | NoFile => raise (SkrCryptoError ("passphrase file " +:+ pw_file +:+ " not found"))
      | PassFile mode data =>
          if negb (Z.land mode 63 =? 0)%Z then raise (SkrCryptoError ("passphrase file " +:+ pw_file +:+ " has unsafe mode"))
          else match data with
               | Raise e => raise (Traceback (exn_class e))
               | Crash => lift_c Crash
               | Ret s =>
                   let s := rstrip_with is_crlf s in
                   if String.eqb s "" then raise (SkrCryptoError ("passphrase file " +:+ pw_file +:+ " is empty")) else ret s
               end
      end
    else
      let! pw := getpass in
      if String.eqb pw "" then raise (SkrCryptoError "empty passphrase") else ret pw.

Definition address_of (key : bytes) : MW string :=
  match derive_address key with
  | Ret a => ret a
  | Raise e => raise (Traceback (exn_class e))
  | Crash => lift_c Crash
  end.

(** [_add_to_encrypted_file] *)
Definition add_to_encrypted_file (root : option string) (env : env_dict) (name : string) (key : bytes) (address : string)
    : MW unit :=
  let! path := lift_c (keystore_path root env) in
  let! there := on_keystore traceback_of (exists_ path) in
  do! when (negb there) (raise (SkrCryptoError ("keystore " +:+ path +:+ " does not exist"))) in
  let! passphrase := resolve_passphrase_for_cli env in
  on_keystore keystore_failure
    (add_wallet K path (KeyProviders.to_bytes passphrase) (mkEntry name address key)).

(** [_print_add_instructions], its [print_value] lines *)
Definition var_of (name suffix : string) : string := "WALLET_" +:+ replace "-" "_" (upper name) +:+ suffix.
Definition print_add_instructions (p name hex_key : string) : MW unit :=
  if String.eqb p "env" then print_value ("export " +:+ var_of name "_PRIVATE_KEY_HEX" +:+ "=" +:+ hex_key)
  else if String.eqb p "file" then
    do! print_value ("WALLETS=" +:+ name) in
    print_value (var_of name "_PRIVATE_KEY_FILE" +:+ "=~/.skr-crypto/keys/" +:+ name +:+ ".key")
  else if String.eqb p "keychain" then
    do! print_value ("security add-generic-password -s payouts -a " +:+ name +:+ " -w '" +:+ hex_key +:+ "' -U") in
    do! print_value ("WALLETS=" +:+ name) in
    print_value (var_of name "_KEYCHAIN_ACCOUNT" +:+ "=" +:+ name)
  else if String.eqb p "1password" then
    do! print_value ("WALLETS=" +:+ name) in
    print_value (var_of name "_OP_ITEM" +:+ "=<the-1password-item-name>")
  else raise (SkrCryptoError ("Unsupported KEY_PROVIDER for `wallet add`: " +:+ p)).

(** *** [wallet add NAME] *)
Definition add_cmd (name : string) (hex_key : option string) (yes : bool) : MW unit :=
  let! i := lift_c installed in
  do! lift_c (validate_name name) in
  let! h := match hex_key with Some h => ret h | None => getpass end in
  let h := clean_hex h in
  let! key := lift_c (validate_hex_key h) in
  let! address := address_of key in
  do! confirmed yes true in
  if String.eqb (provider i.2) "encrypted_file" then add_to_encrypted_file i.1 i.2 name key address
  else print_add_instructions (provider i.2) name h.

(** *** [wallet generate NAME] *)
Definition generate_cmd (name : string) (yes : bool) : MW unit :=
  do! lift_c (validate_name name) in
  do! confirmed yes false in
  let! address := address_of random_key in
  let! i := lift_c installed in
  if String.eqb (provider i.2) "encrypted_file" then add_to_encrypted_file i.1 i.2 name random_key address
  else
    do! print_value ("PRIVATE_KEY_HEX=" +:+ hex_of random_key) in
    print_add_instructions (provider i.2) name (hex_of random_key).

(** *** [wallet remove NAME] *)
Definition remove_cmd (name : string) (yes : bool) : MW unit :=
  let! i := lift_c installed in
  do! confirmed yes false in
  if String.eqb (provider i.2) "encrypted_file" then
    let! path := lift_c (keystore_path i.1 i.2) in
    let! passphrase := resolve_passphrase_for_cli i.2 in
    let! _ := on_keystore keystore_failure (remove_wallet K path (KeyProviders.to_bytes passphrase) name) in ret tt
  else ret tt.

(** *** [wallet rename OLD NEW] *)
Definition rename_cmd (old new : string) : MW unit :=
  do! lift_c (validate_name new) in
  let! i := lift_c installed in
  if negb (String.eqb (provider i.2) "encrypted_file")
  then raise (SkrCryptoError "`wallet rename` is supported only for KEY_PROVIDER=encrypted_file")
  else
    let! path := lift_c (keystore_path i.1 i.2) in
    let! passphrase := resolve_passphrase_for_cli i.2 in
    on_keystore keystore_failure (rename_wallet K path (KeyProviders.to_bytes passphrase) old new).

(** *** [wallet encrypt] *)

(** The new passphrase: KEY_PASSPHRASE, or typed twice. *)
Definition new_passphrase : MW string :=
  let env_pw := default "" (environ "KEY_PASSPHRASE") in
  if negb (String.eqb env_pw "") then ret env_pw
  else
    let! pw1 := getpass in
    if String.eqb pw1 "" then raise (SkrCryptoError "empty passphrase")
    else
      let! pw2 := getpass in
      if negb (String.eqb pw1 pw2) then raise (SkrCryptoError "passphrases do not match — aborting") else ret pw1.
Definition source_key (from_hex from_env_var : option string) : outcome cexn (option string) :=
  let from_hex := default "" from_hex in
  let from_env_var := default "" from_env_var in
  if negb (String.eqb from_hex "") && negb (String.eqb from_env_var "")
  then Raise (SkrCryptoError "--from-hex and --from-env are mutually exclusive")
  else if negb (String.eqb from_hex "") then Ret (Some (clean_hex from_hex))
  else if negb (String.eqb from_env_var "") then
    let v := clean_hex (default "" (environ from_env_var)) in
    if String.eqb v "" then Raise (SkrCryptoError ("env var " +:+ from_env_var +:+ " is empty/unset")) else Ret (Some v)
  else Ret None.
(** [out_path]; [root]: what [require_installed] gives. *)
Definition encrypt_path (root : outcome cexn string) (output_path : option string) : outcome cexn string :=
  let o := default "" output_path in
  if negb (String.eqb o "") && is_absolute o then Ret o
  else match root with
       | Ret r => Ret (if String.eqb o "" then path_join r "data/keystore.json" else o)
       | Raise (NotInstalledError _) => Raise (SkrCryptoError "no install dir found at $SKR_CRYPTO_HOME")
       | Raise e => Raise e
       | Crash => Crash
       end.

Definition encrypt_cmd (root : outcome cexn string) (output_path from_hex from_env_var : option string)
    (wallet_name : string) (force : bool) : MW unit :=
  let! path := lift_c (encrypt_path root output_path) in
  do! on_keystore traceback_of (sys K) in
  let! there := on_keystore traceback_of (exists_ path) in
  do! when (there && negb force) (raise (SkrCryptoError ("keystore already exists at " +:+ path))) in
  let! passphrase := new_passphrase in
  let! hex_key := lift_c (source_key from_hex from_env_var) in
  let! key := match hex_key with
              | Some h => let! b := lift_c (validate_hex_key h) in ret (Some b)
              | None => ret None
              end in
  do! on_keystore traceback_of (init_keystore K path (KeyProviders.to_bytes passphrase) force) in
  match key with
  | Some b =>
      do! lift_c (validate_name wallet_name) in
      let! address := address_of b in
      on_keystore traceback_of (add_wallet K path (KeyProviders.to_bytes passphrase) (mkEntry wallet_name address b))
  | None => ret tt
  end.

(** *** [wallet list] and [wallet show] *)

(** [_offline_names] *)
Definition offline_names (root : option string) (env : env_dict) : MW (list json) :=
  let explicit := strip (default "" (env_get "WALLETS" env)) in
  if String.eqb (provider env) "encrypted_file" then
    let! path := lift_c (keystore_path root env) in
    let! there := on_keystore traceback_of (exists_ path) in
    if (there : bool) then
      catch (on_keystore traceback_of (list_wallet_names K path)) (fun _ => Some (ret []))
    else ret []
  else if negb (String.eqb explicit "")
  then ret (map JStr (List.filter (fun n => negb (String.eqb n "")) (map strip (split_on "," explicit))))
  else ret [JStr "default"].

Inductive listing (P : Type) := Online (payload : P) | Offline (names : list json).
Arguments Online {P} _.
Arguments Offline {P} _.
(** [wallets]: the answer of [client.wallets()]; without an install directory the path of
    the .env file cannot be built, a TypeError that the [try] of list catches and that of
    show does not. *)
Definition list_cmd {P} (wallets : outcome cexn P) (offline : bool) : MW (listing P) :=
  let! i := lift_c installed in
  match offline, i.1, wallets with
  | false, Some _, Ret payload => ret (Online payload)
  | false, Some _, Crash => lift_c Crash
  | _, _, _ => let! names := offline_names i.1 i.2 in ret (Offline names)
  end.
Definition show_cmd {P} (balance : outcome cexn P) : MW P :=
  let! i := lift_c installed in
  match i.1 with
  | None => raise (Traceback "TypeError")
  | Some _ => lift_c balance
  end.
End Commands.

(** ** Lemmas *)
Lemma hexval_range b h : KeyProviders.hexval b = Some h -> (0 <= h < 16)%Z.
Proof. unfold KeyProviders.hexval. intros H. repeat case_match; bcases; simplify_eq; lia. Qed.
Lemma fromhex_bytes l : forall b, KeyProviders.fromhex l = Some b -> Forall is_byte b.
Proof.
  assert (forall n l, (List.length l <= n)%nat -> forall b, KeyProviders.fromhex l = Some b -> Forall is_byte b) as H; [|by apply (H (List.length l))].
  clear l. induction n as [|n IH]; intros [|x l] Hl b; cbn in Hl; try lia; cbn [KeyProviders.fromhex]; try (by intros [= <-]).
  destruct (KeyProviders.byte_space x); [apply IH; lia|]. destruct l as [|y l]; [done|]. cbn in Hl.
  destruct (KeyProviders.hexval x) as [h|] eqn:Hh; [|done]. destruct (KeyProviders.hexval y) as [h'|] eqn:Hh'; [|done].
  destruct (KeyProviders.fromhex l) as [b'|] eqn:Hb; [|done]. intros [= <-]. constructor; [|by apply (IH l); [lia|]].
  apply hexval_range in Hh, Hh'. unfold is_byte. lia.
Qed.
Lemma validate_hex_ok h b : validate_hex_key h = Ret b ->
  Forall is_byte b /\ validate_priv_bytes b = Ret tt.
Proof.
  unfold validate_hex_key, validate_priv_bytes. destruct (negb (String.length h =? 64)%nat); [done|].
  destruct (KeyProviders.fromhex _) as [b'|] eqn:Hb; [|done]. apply fromhex_bytes in Hb.
  destruct (negb (List.length b' =? 32)%nat) eqn:Hl; [done|]. destruct (forallb _ b') eqn:Hz; [done|].
  intros [= <-]. rewrite Hl, Hz. done.
Qed.
Lemma validate_name_ok n : validate_name n = Ret tt -> n <> "".
Proof. unfold validate_name. destruct (String.eqb_spec n ""); [done | done]. Qed.

Section Edits.
Context (K : kenv) `{!Crypto K} `{!DiskFine K} (path : string) (pass salt : bytes).

(** With a working disk an edit of the file does what the list operation says. *)
Lemma edit_fine {A} (ch : list KeystoreEntry -> kexn + (list KeystoreEntry * A)) l f d :
  w_fs d !! path = Some f -> stored K pass salt l f ->
  (forall l' a, ch l = inr (l', a) -> typed l' /\ existsb (named "") l' = false) ->
  match checked ch l with
  | inl e => (edit K path pass ch d).1 = Raise e /\ w_fs (edit K path pass ch d).2 = w_fs d
  | inr (l', a) => (edit K path pass ch d).1 = Ret a /\
      exists f', w_fs (edit K path pass ch d).2 !! path = Some f' /\ stored K pass salt l' f'
  end.
Proof.
  intros Hf Hs Hch. assert (H := edit_spec K ch path pass salt l f d Hf Hs). unfold wp in H.
  destruct (edit K path pass ch d) as [o d']. cbn [fst snd] in *.
  specialize (H (fun l' a Hl => proj1 (Hch l' a Hl))). destruct (checked ch l) as [e|[l' a]] eqn:Hc.
  - destruct H as [H1 H2]. by rewrite H2.
  - apply checked_inr in Hc. destruct (Hch _ _ Hc) as [Hty Hn]. rewrite Hn in H.
    destruct H as [[_ []] | (o' & ws & (_ & Hp & Hd) & Ho & Hload)]; [done|].
    rewrite Ho by auto. split; [done|]. destruct Hp as [[Ho' _] | Hp]; [by destruct (Ho' (Hd _))|].
    eexists. split; [exact Hp|]. split_and!; [apply Hs|done|done|]. by exists ws.
Qed.

Definition keystore_op (o : edit_op) : M world kexn unit :=
  match o with
  | Add e => add_wallet K path pass e
  | Remove n => let! _ := remove_wallet K path pass n in ret tt
  | Rename a b => rename_wallet K path pass a b
  end.
Lemma keystore_op_fine o l f d :
  w_fs d !! path = Some f -> stored K pass salt l f -> typed_edit o -> named_edit o = true ->
  match abstract_edit o l with
  | (Some e, _) => (keystore_op o d).1 = Raise e /\ w_fs (keystore_op o d).2 = w_fs d
  | (None, l') => (keystore_op o d).1 = Ret tt /\
      exists f', w_fs (keystore_op o d).2 !! path = Some f' /\ stored K pass salt l' f'
  end.
Proof.
  intros Hf Hs Ho Hname. pose proof (stored_names _ _ _ _ _ Hs) as Hn. pose proof Hs as (_ & Hty & _).
  rewrite <- model_abstract by (by eapply stored_savable).
  destruct o as [e|n|a b]; cbn [model_edit keystore_op] in *.
  - assert (H := edit_fine (add_change e) l f d Hf Hs). unfold add_wallet, after.
    destruct (checked (add_change e) l) as [x|[l' []]]; apply H; intros l1 u Hc;
      (destruct (add_fine _ _ _ _ Hc Hty Ho) as [H1 ->]; rewrite Hn; unfold named_edit in Hname; by bcases).
  - assert (H := edit_fine (remove_change n) l f d Hf Hs). unfold remove_wallet, after, bind, ret.
    specialize (H (fun l1 u Hc => remove_fine _ _ _ _ Hc Hty Hn)). destruct (edit K path pass (remove_change n) d) as [o d'].
    cbn [fst snd] in H. destruct (checked (remove_change n) l) as [x|[l' x]]; destruct H as [-> H]; by split.
  - assert (H := edit_fine (rename_change a b) l f d Hf Hs). unfold rename_wallet, after.
    destruct (checked (rename_change a b) l) as [x|[l' []]]; apply H; intros l1 u Hc;
      (eapply rename_fine; try done; unfold named_edit in Hname; bcases; by apply String.eqb_neq).
Qed.
End Edits.

(** ** The commands against the abstract keystore *)
Inductive command := CAdd (name hex_key : string) | CRemove (name : string) | CRename (old new : string).
(** The edit a command asks for, or the refusal of what it was given. *)
Definition operation (derive_address : bytes -> outcome exn string) (c : command) : outcome cexn edit_op :=
  match c with
  | CAdd n h =>
      match validate_name n, validate_hex_key (clean_hex h) with
      | Ret _, Ret key =>
          match derive_address key with
          | Ret a => Ret (Add (mkEntry n a key))
          | Raise e => Raise (Traceback (exn_class e))
          | Crash => Crash
          end
      | Ret _, Raise e => Raise e
      | Ret _, Crash => Crash
      | Raise e, _ => Raise e
      | Crash, _ => Crash
      end
  | CRemove n => Ret (Remove n)
  | CRename a b => match validate_name b with Ret _ => Ret (Rename a b) | Raise e => Raise e | Crash => Crash end
  end.
Definition abstract_command (derive_address : bytes -> outcome exn string) (c : command) (l : list KeystoreEntry)
    : outcome cexn unit * list KeystoreEntry :=
  match operation derive_address c with
  | Ret o =>
      let '(e, l') := abstract_edit o l in
      (match e with Some e => Raise (keystore_failure e) | None => Ret tt end, l')
  | Raise e => (Raise e, l)
  | Crash => (Crash, l)
  end.
Fixpoint abstract_commands derive_address (cs : list command) (l : list KeystoreEntry)
    : list (outcome cexn unit) * list KeystoreEntry :=
  match cs with
  | [] => ([], l)
  | c :: cs =>
      let '(o, l) := abstract_command derive_address c l in
      let '(os, l) := abstract_commands derive_address cs l in (o :: os, l)
  end.

Section Refinement.
Context (K : kenv) (environ : string -> option string) (pass_files : string -> pass_file)
  (derive_address : bytes -> outcome exn string) (installed : outcome cexn (option string * env_dict)).
(** A command as typed, with --yes. *)
Definition run (c : command) : MW unit :=
  match c with
  | CAdd n h => add_cmd K environ pass_files derive_address installed n (Some h) true
  | CRemove n => remove_cmd K environ pass_files installed n true
  | CRename a b => rename_cmd K environ pass_files installed a b
  end.
Fixpoint run_all (cs : list command) (w : wworld) : list (outcome cexn unit) * wworld :=
  match cs with
  | [] => ([], w)
  | c :: cs => let '(o, w) := run c w in let '(os, w) := run_all cs w in (o :: os, w)
  end.

Context `{!Crypto K} `{!DiskFine K} (root : option string) (env : env_dict) (path pw : string) (salt : bytes).
Hypothesis (Hinst : installed = Ret (root, env)) (Hprov : provider env = "encrypted_file")
  (Hpath : keystore_path root env = Ret path) (Hpw : environ "KEY_PASSPHRASE" = Some pw) (Hne : pw <> "").

Lemma passphrase_from_env w : resolve_passphrase_for_cli environ pass_files env w = (Ret pw, w).
Proof.
  unfold resolve_passphrase_for_cli. rewrite Hpw. cbn. by destruct (String.eqb_spec pw "").
Qed.

Lemma operation_named c o : operation derive_address c = Ret o -> typed_edit o /\ named_edit o = true.
Proof.
  destruct c as [n h|n|a b]; cbn [operation]; [| by intros [= <-] | ].
  - destruct (validate_name n) as [[]|?|] eqn:Hn; [|done..]. apply validate_name_ok in Hn.
    destruct (validate_hex_key (clean_hex h)) as [key|?|] eqn:Hk; [|done..]. apply validate_hex_ok in Hk as [Hk _].
    destruct (derive_address key) as [addr|?|]; [|done..]. intros [= <-]. cbn. split; [done|].
    unfold named_edit. cbn. by destruct (String.eqb_spec n "").
  - destruct (validate_name b) as [[]|?|] eqn:Hn; [|done..]. apply validate_name_ok in Hn. intros [= <-].
    split; [done|]. unfold named_edit. by destruct (String.eqb_spec b "").
Qed.

(** Once its arguments are accepted a command is one call of the keystore module. *)
Lemma run_is_op c f w : w_fs (x_disk w) !! path = Some f ->
  run c w =
    match operation derive_address c with
    | Ret o => on_keystore keystore_failure (keystore_op K path (KeyProviders.to_bytes pw) o) w
    | Raise e => (Raise e, w)
    | Crash => (Crash, w)
    end.
Proof.
  intros Hf. destruct c as [n h|n|a b]; cbn [run operation].
  - unfold add_cmd, bind, lift_c, ret. rewrite Hinst. destruct (validate_name n) as [[]|?|]; [|done..].
    destruct (validate_hex_key (clean_hex h)) as [key|?|]; [|done..]. unfold address_of.
    destruct (derive_address key) as [addr|?|]; [|done..]. cbn [confirmed ret snd fst]. unfold ret. rewrite Hprov.
    cbn [String.eqb Ascii.eqb Bool.eqb]. unfold add_to_encrypted_file, bind, lift_c. rewrite Hpath.
    unfold on_keystore at 1, exists_, gets. rewrite Hf. destruct w as [d ls out]. cbn [x_disk x_lines x_out negb when].
    unfold ret. by rewrite passphrase_from_env.
  - unfold remove_cmd, bind, lift_c. rewrite Hinst. cbn [confirmed fst snd]. unfold ret at 1. rewrite Hprov.
    cbn [String.eqb Ascii.eqb Bool.eqb]. rewrite Hpath, passphrase_from_env. unfold on_keystore, keystore_op, bind.
    by destruct (remove_wallet _ _ _ _ _) as [[]].
  - unfold rename_cmd, bind, lift_c. destruct (validate_name b) as [[]|?|]; [|done..]. rewrite Hinst. cbn [fst snd].
    rewrite Hprov. cbn [String.eqb Ascii.eqb Bool.eqb negb]. by rewrite Hpath, passphrase_from_env.
Qed.

Definition holds (l : list KeystoreEntry) (w : wworld) : Prop :=
  exists f, w_fs (x_disk w) !! path = Some f /\ stored K (KeyProviders.to_bytes pw) salt l f.
Lemma run_refines c l w : holds l w ->
  (run c w).1 = (abstract_command derive_address c l).1 /\ holds (abstract_command derive_address c l).2 (run c w).2 /\
  x_out (run c w).2 = x_out w.
Proof.
  intros (f & Hf & Hs). rewrite (run_is_op c f) by done. unfold abstract_command.
  destruct (operation derive_address c) as [o|e|] eqn:Ho; [|by split_and!; [|exists f|]..].
  apply operation_named in Ho as [Hty Hn].
  assert (H := keystore_op_fine K path (KeyProviders.to_bytes pw) salt o l f (x_disk w) Hf Hs Hty Hn).
  unfold on_keystore. destruct (keystore_op K path (KeyProviders.to_bytes pw) o (x_disk w)) as [r d].
  destruct (abstract_edit o l) as [[e|] l'] eqn:Ha; cbn [fst snd x_disk x_out] in *; destruct H as [-> H].
  - split_and!; [done| |done]. exists f. cbn [x_disk]. rewrite H. split; [done|].
    enough (l' = l) as -> by done. revert Ha. clear. unfold abstract_edit. repeat case_match; by intros; simplify_eq.
  - by split_and!.
Qed.

End Refinement.

(** ** [wallet encrypt] *)
Section Encrypt.
Context (K : kenv) `{!Crypto K} `{!DiskFine K}.

Lemma sys_fine w : sys K w = (Ret tt, tick w).
Proof. unfold sys. by rewrite disk_io. Qed.
Lemma init_fine path pass ov d : pass <> [] -> ov = true \/ w_fs d !! path = None ->
  exists salt f, (init_keystore K path pass ov d).1 = Ret tt /\
    w_fs (init_keystore K path pass ov d).2 !! path = Some f /\ stored K pass salt [] f.
Proof.
  intros Hp Hov. unfold init_keystore, bind, exists_, gets, random, lift, ret.
  replace ((match w_fs d !! path with Some _ => true | None => false end) && negb ov) with false
    by (destruct Hov as [-> | ->]; [by rewrite andb_false_r | done]).
  cbn [when ret]. unfold ret. rewrite sys_fine. destruct pass as [|b pass]; [done|].
  set (salt := k_random K _ _). destruct (crypto_random (K:=K) (w_tick (tick d)) SCRYPT_SALT_BYTES) as [Hsalt _].
  destruct (crypto_scrypt (b :: pass) salt) as (key & Hkey & _). unfold derive. rewrite Hkey.
  set (d1 := tick (tick d)). assert (Hov1 : ov = true \/ w_fs d1 !! path = None) by done.
  assert (H := atomic_write_safe K path (doc_of salt []) ov d1 Hov1). unfold wp in H.
  destruct (atomic_write K path (doc_of salt []) ov d1) as [o d2]. cbn [fst snd] in *.
  destruct H as (_ & Hput & Hret). specialize (Hret _) as ->. exists salt.
  destruct Hput as [[[] _] | Hput]; [done|]. eexists. split_and!; [done|exact Hput|].
  split_and!; [done|constructor|done|]. exists []. split; [done|]. by rewrite (load_doc_doc_of K _ _ key).
Qed.

Context (environ : string -> option string) (derive_address : bytes -> outcome exn string) (root : outcome cexn string)
  (path pw : string).
Hypothesis (Habs : is_absolute path = true) (Hpath : path <> "")
  (Hpw : environ "KEY_PASSPHRASE" = Some pw) (Hne : pw <> "").

(** [wallet encrypt -o PATH --from-hex KEY --name NAME] with a good key: an existing
    keystore is refused without --force and not touched; otherwise a good name gives a
    keystore that opens to exactly that wallet.  But the name is looked at only after the
    new keystore is in place: with --force and a bad name the command fails, and the keys
    the file held before are already gone. *)
Theorem encrypt_outcome hex key name force w :
  validate_hex_key (clean_hex hex) = Ret key ->
  let '(o, w') := encrypt_cmd K environ derive_address root (Some path) (Some hex) None name force w in
  if bool_decide (is_Some (w_fs (x_disk w) !! path)) && negb force
  then o = Raise (SkrCryptoError ("keystore already exists at " +:+ path)) /\ w_fs (x_disk w') = w_fs (x_disk w)
  else exists salt,
    match operation derive_address (CAdd name hex) with
    | Ret (Add e) => o = Ret tt /\ holds K path pw salt [e] w'
    | Ret _ => False
    | Raise x => o = Raise x /\ holds K path pw salt [] w'
    | Crash => holds K path pw salt [] w'
    end.
Proof.
  intros Hk. unfold encrypt_cmd, bind, lift_c, encrypt_path. cbn [default from_option id].
  rewrite Habs. destruct (String.eqb_spec path "") as [|_]; [done|]. cbn [negb andb].
  unfold on_keystore at 1. rewrite sys_fine. set (d1 := tick (x_disk w)). assert (Hd1 : w_fs d1 = w_fs (x_disk w)) by done.
  unfold on_keystore at 1, exists_, gets. cbn [x_disk x_lines x_out]. rewrite Hd1.
  replace (match w_fs (x_disk w) !! path with Some _ => true | None => false end)
    with (bool_decide (is_Some (w_fs (x_disk w) !! path)))
    by (destruct (w_fs (x_disk w) !! path); [by rewrite bool_decide_true | by rewrite bool_decide_false by apply is_Some_None]).
  destruct (bool_decide _ && negb force) eqn:Hb; cbn [when]; [by split|]. unfold ret at 1.
  unfold new_passphrase. rewrite Hpw. cbn [default from_option id]. destruct (String.eqb_spec pw "") as [|_]; [done|].
  cbn [negb]. unfold ret at 1. unfold source_key. cbn [default from_option id].
  destruct (String.eqb_spec hex "") as [->|_]; [done|]. cbn [negb andb String.eqb]. rewrite Hk. unfold ret at 1.
  assert (Hov : force = true \/ w_fs d1 !! path = None).
  { rewrite Hd1. destruct force; [by left|right]. rewrite andb_true_r in Hb. apply bool_decide_eq_false in Hb.
    by apply eq_None_not_Some. }
  assert (Hp : KeyProviders.to_bytes pw <> []) by (by destruct pw).
  destruct (init_fine path (KeyProviders.to_bytes pw) force d1 Hp Hov) as (salt & f & Hi & Hf & Hs).
  unfold on_keystore at 1. cbn [x_disk x_lines x_out]. destruct (init_keystore _ _ _ _ d1) as [o d2]. cbn [fst snd] in *.
  rewrite Hi. cbn [operation]. rewrite Hk.
  assert (Hh : forall ls out, holds K path pw salt [] (mkWw d2 ls out)) by (by exists f).
  destruct (validate_name name) as [[]|e|] eqn:Hn; [|exists salt; by split|by exists salt]. unfold address_of.
  destruct (derive_address key) as [a|e|]; [|exists salt; by split|by exists salt]. unfold ret.
  apply validate_hex_ok in Hk as [Hb' Hv]. apply validate_name_ok in Hn.
  assert (H := keystore_op_fine K path _ salt (Add (mkEntry name a key)) [] f d2 Hf Hs Hb').
  cbn [abstract_edit names map e_name e_raw_key keystore_op app] in H. rewrite bool_decide_false, Hv in H by set_solver.
  unfold on_keystore. cbn [x_disk x_lines x_out]. destruct (add_wallet _ _ _ _ d2) as [o2 d3]. cbn [fst snd] in H.
  destruct H as [-> H]; [|exists salt; by split]. unfold named_edit. cbn. by destruct (String.eqb_spec name "").
Qed.
End Encrypt.

(** ** The hypotheses can hold *)
Definition demo_kenv : kenv := demo fine_io (fun _ => Whole).
Definition demo_environ (n : string) : option string := if String.eqb n "KEY_PASSPHRASE" then Some "pw" else None.
Definition demo_env : env_dict := [("KEY_PROVIDER", "encrypted_file"); ("KEYSTORE_FILE", "/ks.json")].
Definition demo_address (b : bytes) : outcome exn string := Ret "TAddress".
Definition demo_hex : string := "0x0707070707070707070707070707070707070707070707070707070707070707".
Definition demo_at (f : file) : wworld := mkWw (mkWorld {[ "/ks.json" := f ]} 0) [] [].
Definition demo_commands : list command :=
  [CAdd "main" demo_hex; CAdd "" demo_hex; CAdd "hot" "07"; CRename "main" "a b"; CRename "main" "cold"; CRemove "hot"].
Lemma demo_empty_holds : holds demo_kenv "/ks.json" "pw" [1; 2; 3]%Z [] (demo_at demo_empty).
Proof.
  exists demo_empty. split; [done|]. split_and!; [repeat constructor; done | constructor | done | by exists []].
Qed.


(** The same wallet twice, the second time under a bad name: the first one is gone. *)
Definition demo_encrypt (name : string) : MW unit :=
  encrypt_cmd demo_kenv demo_environ demo_address (Ret "/opt") (Some "/ks.json") (Some demo_hex) None name true.
Lemma encrypt_outcome_witness :
  let w := (demo_encrypt "main" (mkWw (mkWorld ∅ 0) [] [])).2 in
  fst (load_keystore demo_kenv "/ks.json" (KeyProviders.to_bytes "pw") (x_disk w)) =
    Ret [mkEntry "main" "TAddress" (demo_key 7)] /\
  let '(o, w') := demo_encrypt "my wallet" w in
  o = Raise (SkrCryptoError "invalid wallet name 'my wallet'") /\
  exists salt, holds demo_kenv "/ks.json" "pw" salt [] w'.
Proof.
  split; [vm_compute; reflexivity|].
  set (w := (demo_encrypt "main" _).2).
  assert (H := encrypt_outcome demo_kenv demo_environ demo_address (Ret "/opt") "/ks.json" "pw" eq_refl
    ltac:(done) eq_refl ltac:(done) demo_hex (demo_key 7) "my wallet" true w ltac:(vm_compute; reflexivity)).
  unfold demo_encrypt. destruct (encrypt_cmd _ _ _ _ _ _ _ "my wallet" _ w) as [o w'].
  rewrite andb_false_r in H. destruct H as (salt & -> & H). split; [reflexivity|by exists salt].
Defined.
