(* ===== verification/CliStores.v ===== *)
(** * [skr-crypto token], [webhook] and [alert] ([cli/commands/token.py], [webhook.py], [alert.py])

    The commands open the service's SQLite file and run the table operations of [Tokens]
    and [Delivery] on it.  [sql] is the fate of each statement: it runs, raises or is
    where the process dies.  Without a database path the token store lives in the memory
    of the command.  Tables rendered for the operator are the rows returned here ([Screens]
    shows them), and the advice that ends an error message is left out. *)
From S2P Require Import Prelude PyStr Effects Exceptions AuditEntry CliEnv.
From S2P Require Decimal Tokens Delivery Workers Webhooks Alerts ConfigLoad.
Open Scope string_scope.
#[local] Existing Instance Delivery.dstatus_eq_dec.

(** [_token_store_path]: the path in the .env file, relative to the install directory. *)
Definition db_path (resolve : string -> string) (dir home : option string) (c : cworld)
    : outcome cexn (option string) :=
  match require_installed resolve dir home c with
  | Ret root =>
      match read_env_file (path_join root ".env") c with
      | Ret env =>
          let raw := default "" (env_get "IDEMPOTENCY_DB_PATH" env) in
          Ret (if String.eqb raw "" then None else Some (path_join root raw))
      | Raise e => Raise e
      | Crash => Crash
      end
  | Raise e => Raise e
  | Crash => Crash
  end.

(** The contents of the database files, of the in-memory store, what is typed and printed. *)
Record sworld (D : Type) := mkSw {
  s_dbs : gmap string D; s_memory : D; s_tick : nat; s_lines : list string; s_out : list string }.
Arguments mkSw {D}. Arguments s_dbs {D}. Arguments s_memory {D}. Arguments s_tick {D}.
Arguments s_lines {D}. Arguments s_out {D}.

Section Store.
Context {D : Type} (empty : D) (sql : nat -> fate exn).
Abbreviation MS := (M (sworld D) cexn).

Definition lift_s {A} (o : outcome cexn A) : MS A := fun w => (o, w).
Definition print_value (s : string) : MS unit :=
  modify (fun w => mkSw (s_dbs w) (s_memory w) (s_tick w) (s_lines w) (s_out w ++ [s])%list).
Definition confirm (dflt : bool) : MS bool := fun w =>
  match s_lines w with
  | [] => (Ret dflt, w)
  | x :: l =>
      let ans := lower (strip x) in
      (Ret (if String.eqb ans "" then dflt else bool_decide (ans ∈ ["y"; "yes"])),
       mkSw (s_dbs w) (s_memory w) (s_tick w) l (s_out w))
  end.
(** Unless [yes]: ask, and leave with status 1 on a no. *)
Definition confirmed (yes : bool) : MS unit :=
  if yes then ret tt else let! go := confirm false in when (negb go) (raise (Exits 1)).

Definition statement : MS unit := fun w =>
  let w' := mkSw (s_dbs w) (s_memory w) (S (s_tick w)) (s_lines w) (s_out w) in
  match sql (s_tick w) with
  | Fine => (Ret tt, w')
  | Fails e => (Raise (Traceback (exn_class e)), w')
  | Dies => (Crash, w')
  end.
Definition contents (h : option string) (w : sworld D) : D :=
  match h with Some p => default empty (s_dbs w !! p) | None => s_memory w end.
Definition put (h : option string) (d : D) : MS unit :=
  modify (fun w => match h with
                   | Some p => mkSw (<[p := d]> (s_dbs w)) (s_memory w) (s_tick w) (s_lines w) (s_out w)
                   | None => mkSw (s_dbs w) d (s_tick w) (s_lines w) (s_out w)
                   end).
(** The constructor of a store: connect and create the table, or an empty dict. *)
Definition connect (h : option string) : MS unit :=
  match h with
  | Some _ => do! statement in let! d := gets (contents h) in put h d
  | None => put None empty
  end.
Definition query {A} (h : option string) (f : D -> A) : MS A :=
  do! match h with Some _ => statement | None => ret tt end in gets (fun w => f (contents h w)).
Definition update {A} (h : option string) (f : D -> A * D) : MS A :=
  do! match h with Some _ => statement | None => ret tt end in
  let! r := gets (fun w => f (contents h w)) in
  do! put h r.2 in ret r.1.
End Store.

(** ** Tokens *)
Section Token.
Context (hash_token : string -> string -> string) (path : outcome cexn (option string)) (sql : nat -> fate exn).
Abbreviation MT := (M (sworld (list Tokens.TokenRecord)) cexn).
(** What one call of [create] draws: the token, its salt and id, the time. *)
Record draw := mkDraw { f_plaintext : string; f_salt : string; f_id : string; f_now : string }.

Definition tstore (h : option string) (l : list Tokens.TokenRecord) : Tokens.TokenStore :=
  Tokens.mkStore (bool_decide (is_Some h)) l.
Definition open_store : MT (option string) :=
  let! h := lift_s path in do! connect [] sql h in ret h.

Definition list_cmd (include_revoked : bool) : MT (list Tokens.TokenRecord) :=
  let! h := open_store in query [] sql h (fun l => Tokens.list_tokens include_revoked (tstore h l)).
Definition get_token (h : option string) (id : string) : MT (option Tokens.TokenRecord) :=
  query [] sql h (fun l => Tokens.get id (tstore h l)).
Definition show_cmd (id : string) : MT Tokens.TokenRecord :=
  let! h := open_store in
  let! rec := get_token h id in
  match rec with None => raise (SkrCryptoError ("no token with id=" +:+ py_repr id)) | Some r => ret r end.

Definition token_error_class (e : Tokens.token_error) : string :=
  match e with
  | Tokens.TokenError _ => "TokenError" | Tokens.TokenInvalid _ => "TokenInvalid"
  | Tokens.TokenRevoked _ _ => "TokenRevoked" | Tokens.InsufficientScope _ _ => "InsufficientScope"
  end.
(** [store.create]: what it refuses does not reach the table. *)
Definition create (h : option string) (f : draw) (name : string) (scopes : list string) (created_by : string)
    : MT (Tokens.TokenRecord * string) :=
  let run l := Tokens.create hash_token (f_plaintext f) (f_salt f) (f_id f) (f_now f) name scopes created_by (tstore h l) in
  match (run []).1 with
  | inl e => raise (Traceback (token_error_class e))
  | inr r => update [] sql h (fun l => (r, Tokens.rows (run l).2))
  end.
Definition revoke (h : option string) (now id : string) : MT unit :=
  update [] sql h (fun l => (tt, Tokens.rows (Tokens.revoke now id (tstore h l)))).

Definition create_cmd (f : draw) (name scopes_str : string) : MT unit :=
  let! h := open_store in
  let scopes := List.filter (fun s => negb (String.eqb s "")) (map strip (split_on "," scopes_str)) in
  let! r := catch (create h f name scopes "operator")
              (fun _ => Some (raise (SkrCryptoError "failed to create token"))) in
  print_value r.2.
Definition revoke_cmd (id now : string) (yes : bool) : MT unit :=
  let! h := open_store in
  let! rec := get_token h id in
  match rec with
  | None => raise (SkrCryptoError ("no token with id=" +:+ py_repr id))
  | Some r => if negb (Tokens.is_active r) then ret tt else do! confirmed yes in revoke h now id
  end.
Definition rotate_cmd (id : string) (f : draw) (now : string) (yes : bool) : MT unit :=
  let! h := open_store in
  let! rec := get_token h id in
  match rec with
  | None => raise (SkrCryptoError ("no token with id=" +:+ py_repr id))
  | Some r =>
      if negb (Tokens.is_active r)
      then raise (SkrCryptoError ("token " +:+ id +:+ " already revoked — use create instead"))
      else
        do! confirmed yes in
        let! new := create h f (Tokens.t_name r) (elements (Tokens.t_scopes r)) id in
        do! revoke h now id in
        print_value new.2
  end.
End Token.

(** ** Deliveries *)
Section Deliveries.
Context {P : Type} (path : outcome cexn (option string)) (sql : nat -> fate exn).
(** How the messages call a row: [delivery], [alert delivery]. *)
Context (what : string).
Abbreviation MD := (M (sworld (Delivery.store P)) cexn).

Definition open_deliveries : MD (option string) :=
  let! h := lift_s path in
  match h with
  | None => raise (SkrCryptoError "IDEMPOTENCY_DB_PATH is not set")
  | Some _ => do! connect Delivery.empty sql h in ret h
  end.
(** SQLite takes a negative limit for none. *)
Definition list_deliveries_cmd (limit : Z) : MD (list (Delivery.delivery P)) :=
  let! h := open_deliveries in
  query Delivery.empty sql h (fun s =>
    Delivery.list_recent (if (limit <? 0)%Z then List.length (Delivery.rows s) else Z.to_nat limit) s).

Definition status_text (s : Delivery.dstatus) : string :=
  match s with
  | Delivery.Pending => "pending" | Delivery.Delivered => "delivered" | Delivery.Failed => "failed"
  | Delivery.GivingUp => "giving_up"
  end.
(** [store.force_retry]: it reads the row again, then updates it. *)
Definition force_retry (h : option string) (now : time) (id : Z) : MD bool :=
  do! statement sql in update Delivery.empty sql h (Delivery.force_retry now id).
Definition retry_cmd (now : time) (id : Z) : MD unit :=
  let! h := open_deliveries in
  let! rec := query Delivery.empty sql h (Delivery.get id) in
  match rec with
  | None => raise (SkrCryptoError ("no " +:+ what +:+ " with id=" +:+ str_of_Z id))
  | Some r =>
      if negb (bool_decide (Delivery.d_status r ∈ [Delivery.GivingUp; Delivery.Failed]))
      then raise (SkrCryptoError (what +:+ " id=" +:+ str_of_Z id +:+ " is in state " +:+ py_repr (status_text (Delivery.d_status r))))
      else
        let! ok := force_retry h now id in
        when (negb ok) (raise (SkrCryptoError ("could not reset " +:+ what +:+ " id=" +:+ str_of_Z id)))
  end.
End Deliveries.

(** ** [webhook setup], [webhook test], [alert setup], [alert test] *)
Definition webhook_setup (secret : string) : list string :=
  ["WEBHOOK_SIGNING_SECRET=" +:+ secret; "WEBHOOK_URLS=https://your-receiver.example.com/webhook";
   "WEBHOOK_EVENTS=SEND_SUCCESS,SEND_REJECTED,SEND_FAILED,SEND_DUPLICATE,RECEIPT_RESOLVED";
   "WEBHOOK_BACKOFF_SCHEDULE=0,30,120,600,3600"; "WEBHOOK_TIMEOUT_SEC=10"; "WEBHOOK_TIMESTAMP_TOLERANCE_SEC=300"].
Definition alert_setup : list string :=
  ["TELEGRAM_BOT_TOKEN=<paste-the-token-from-BotFather>"; "TELEGRAM_CHAT_ID=<paste-the-numeric-chat-id>";
   "ALERT_EVENTS=SEND_REJECTED,SEND_FAILED,WEBHOOK_GIVEUP";
   "ALERT_SEND_THRESHOLD_USDT=          # e.g. 5000 to alert on big sends"; "ALERT_SANCTIONS_HIT_NOTIFY=true";
   "ALERT_QUIET_HOURS_UTC=              # e.g. 22-08 (UTC)"; "ALERT_BACKOFF_SCHEDULE=0,5,30,300"; "ALERT_TIMEOUT_SEC=10"].

(** [env]: what [require_installed] and [read_env_file] give. *)
Definition option_or_env (flag : option string) (key : string) (env : outcome cexn env_dict) : outcome cexn string :=
  let flag := default "" flag in
  if negb (String.eqb flag "") then Ret flag
  else match env with Ret e => Ret (default "" (env_get key e)) | Raise x => Raise x | Crash => Crash end.
(** The answer of the receiver decides: a status code from 200 to 299 is success. *)
Definition accepted_or (a : Workers.answer) : outcome cexn unit :=
  match a with
  | Workers.Http code body =>
      if ((200 <=? code) && (code <? 300))%Z then Ret tt
      else Raise (SkrCryptoError ("returned " +:+ str_of_Z code +:+ ": " +:+ str_take 300 body))
  | Workers.Failed_ error => Raise (SkrCryptoError ("delivery failed: " +:+ error))
  end.
Section TestCommands.
Context (hmac_hex : string -> string -> string) (env : outcome cexn env_dict).
(** [body]: the JSON text of the synthetic event; [send]: the POST. *)
Definition webhook_test_cmd (url body : string) (ts : Z) (secret : option string) (send : Workers.post -> Workers.answer)
    : outcome cexn unit :=
  match option_or_env secret "WEBHOOK_SIGNING_SECRET" env with
  | Ret s =>
      if String.eqb s "" then Raise (SkrCryptoError "no signing secret available")
      else accepted_or (send (Workers.mkPost url body
             [("Content-Type", "application/json"); ("X-SKR-Signature", Webhooks.sign_payload hmac_hex s ts body);
              ("X-SKR-Event", "SEND_SUCCESS"); ("X-SKR-Delivery-Id", "synthetic");
              ("User-Agent", "skr-crypto-webhook/1 (test)")]))
  | Raise e => Raise e
  | Crash => Crash
  end.
Definition test_entry (now_iso : string) : entry :=
  mkEntry "synthetic-test" now_iso "ALERT_TEST" "test" "" "TXxxxxxxxxxxxxxxxxxxxxxxxxxxxxxxxx" "1.00" "USDT" ""
    "synthetic-key" "127.0.0.1" "synthetic" "test" "synthetic test alert from skr-crypto alert test".
Definition alert_test_cmd (now_iso : string) (threshold : option Decimal.Dec) (bot_token chat_id : option string)
    (send : string * list (string * string) -> Workers.answer) : outcome cexn unit :=
  match option_or_env bot_token "TELEGRAM_BOT_TOKEN" env, option_or_env chat_id "TELEGRAM_CHAT_ID" env with
  | Ret b, Ret c =>
      if String.eqb b "" || String.eqb c "" then Raise (SkrCryptoError "no Telegram bot token / chat_id available")
      else accepted_or (send (Workers.telegram_send_message b c
             (Alerts.format_message now_iso (test_entry now_iso) threshold)))
  | Raise e, _ => Raise e
  | _, Raise e => Raise e
  | _, _ => Crash
  end.
End TestCommands.

(** The block [webhook setup] prints is the server's defaults; so is that of [alert setup],
    although the CLI's reader takes the comment after an empty value for the value. *)
Example webhook_setup_is_default :
  let e k := env_get k (read_env_text (join nl (webhook_setup "00ff"))) in
  let d k := if String.eqb k "WEBHOOK_URLS" then Some "https://your-receiver.example.com/webhook"
             else if String.eqb k "WEBHOOK_SIGNING_SECRET" then Some "00ff" else None in
  ConfigLoad.load_webhooks e = ConfigLoad.load_webhooks d.
Proof. vm_compute. reflexivity. Qed.
Example alert_setup_comment_is_value :
  let e k := env_get k (read_env_text (join nl alert_setup)) in
  e "ALERT_QUIET_HOURS_UTC" = Some "# e.g. 22-08 (UTC)" /\
  (forall hour, Alerts.in_quiet_hours "# e.g. 22-08 (UTC)" hour = false) /\
  option_map ConfigLoad.ALERT_SEND_THRESHOLD_USDT (ConfigLoad.load_alerts e) = Some None.
Proof. split_and!; [vm_compute; reflexivity | reflexivity | vm_compute; reflexivity]. Qed.

(** ** The databases *)
Section StoreLemmas.
Context {D : Type} (empty : D) (sql : nat -> fate exn) (p : string).

(** The state of the file [p]; the other files, what was typed and printed are kept. *)
Definition at_db (d : D) (w w' : sworld D) : Prop :=
  s_dbs w' !! p = Some d /\ (forall q, q <> p -> s_dbs w' !! q = s_dbs w !! q) /\ s_out w' = s_out w /\
  s_lines w' = s_lines w.
Lemma at_db_refl d w : s_dbs w !! p = Some d -> at_db d w w.
Proof. intros H. unfold at_db. by split_and!. Qed.
Lemma at_db_trans d d' w w1 w2 : at_db d w w1 -> at_db d' w1 w2 -> at_db d' w w2.
Proof.
  intros (_ & H1 & H2 & H3) (H4 & H5 & H6 & H7). unfold at_db. split_and!; [done| |congruence|congruence].
  intros q Hq. by rewrite H5, H1.
Qed.

Lemma statement_db d w : s_dbs w !! p = Some d ->
  wp (statement sql) (fun _ w' => at_db d w w') w.
Proof. intros H. unfold wp, statement. unfold at_db. destruct (sql (s_tick w)); by split_and!. Qed.
Lemma put_db d d' w : s_dbs w !! p = Some d -> wp (put (Some p) d') (fun o w' => o = Ret tt /\ at_db d' w w') w.
Proof.
  intros _. split; [done|]. unfold at_db. split_and!; [apply lookup_insert_eq| |done|done]. intros q Hq. by apply lookup_insert_ne.
Qed.
Lemma connect_db d w : s_dbs w !! p = Some d -> wp (connect empty sql (Some p)) (fun _ w' => at_db d w w') w.
Proof.
  intros H. apply wp_bind. eapply wp_mono; [|by apply (statement_db d)]. intros [[]|e|] w1 H1; try done.
  apply wp_bind, wp_gets. unfold contents. rewrite (proj1 H1). cbn [default from_option id].
  eapply wp_mono; [|apply (put_db d), H1]. intros o w2 [_ H2]. by eapply at_db_trans.
Qed.
Lemma query_db {A} (f : D -> A) d w : s_dbs w !! p = Some d ->
  wp (query empty sql (Some p) f) (fun o w' => at_db d w w' /\ forall a, o = Ret a -> a = f d) w.
Proof.
  intros H. apply wp_bind. eapply wp_mono; [|by apply (statement_db d)]. intros [[]|e|] w1 H1; try by split.
  apply wp_gets. split; [done|]. intros a [= <-]. unfold contents. by rewrite (proj1 H1).
Qed.
Lemma update_db {A} (f : D -> A * D) d w : s_dbs w !! p = Some d ->
  wp (update empty sql (Some p) f) (fun o w' =>
    match o with Ret a => a = (f d).1 /\ at_db (f d).2 w w' | _ => at_db d w w' end) w.
Proof.
  intros H. apply wp_bind. eapply wp_mono; [|by apply (statement_db d)]. intros [[]|e|] w1 H1; try done.
  apply wp_bind, wp_gets. unfold contents. rewrite (proj1 H1). cbn [default from_option id].
  apply wp_bind. eapply wp_mono; [|apply (put_db d), H1]. intros o w2 [-> H2]. apply wp_ret. split; [done|].
  by eapply at_db_trans.
Qed.
End StoreLemmas.

(** ** Rotating a token *)
Lemma known_scope_plain s : s ∈ Tokens.ALL_SCOPES -> lower (strip s) = s.
Proof.
  unfold Tokens.ALL_SCOPES. rewrite !elem_of_union, !elem_of_singleton.
  intros H. decompose [or] H; subst; reflexivity.
Qed.
Lemma validate_known (scopes : gset string) : scopes <> ∅ -> scopes ⊆ Tokens.ALL_SCOPES ->
  Tokens.validate_scopes (elements scopes) = inr scopes.
Proof.
  intros Hne Hsub. assert (H : forall l out, (forall s, s ∈ l -> s ∈ Tokens.ALL_SCOPES) ->
    Tokens.validate_loop l out = inr (list_to_set l ∪ out)).
  { induction l as [|s l IH]; intros out Hl; cbn; [f_equal; set_solver|].
    rewrite known_scope_plain, bool_decide_true by (apply Hl; set_solver). rewrite IH by set_solver. f_equal. set_solver. }
  unfold Tokens.validate_scopes. destruct (elements scopes) as [|s l] eqn:He.
  - apply elements_empty_inv in He. set_solver.
  - rewrite <- He, H by set_solver. f_equal. by rewrite list_to_set_elements_L, union_empty_r_L.
Qed.

Section Rotate.
Context (hash_token : string -> string -> string) (sql : nat -> fate exn) (p : string).
Implicit Types (l : list Tokens.TokenRecord) (r : Tokens.TokenRecord).

(** Rows as [create] makes them: a name, known scopes. *)
Definition row_ok r : Prop :=
  strip (Tokens.t_name r) <> "" /\ Tokens.t_scopes r <> ∅ /\ Tokens.t_scopes r ⊆ Tokens.ALL_SCOPES.
(** The row that replaces [r]. *)
Definition successor (f : draw) r : Tokens.TokenRecord :=
  Tokens.mkToken (f_id f) (strip (Tokens.t_name r)) (hash_token (f_plaintext f) (f_salt f)) (f_salt f) (Tokens.t_scopes r)
    (f_now f) None None (Tokens.t_id r).
Lemma persist_fresh r l : Tokens.t_id r ∉ map Tokens.t_id l -> Tokens.persist r l = (l ++ [r])%list.
Proof.
  intros H. unfold Tokens.persist. destruct (existsb _ l) eqn:E; [|done]. apply existsb_exists in E as (x & Hx & Hid).
  destruct H. apply String.eqb_eq in Hid as <-. by apply list_elem_of_In, in_map.
Qed.

Lemma create_db f r l w : row_ok r -> f_id f ∉ map Tokens.t_id l -> s_dbs w !! p = Some l ->
  wp (create hash_token sql (Some p) f (Tokens.t_name r) (elements (Tokens.t_scopes r)) (Tokens.t_id r))
    (fun o w' => match o with
                 | Ret x => x.2 = f_plaintext f /\ at_db p (l ++ [successor f r])%list w w'
                 | _ => at_db p l w w'
                 end) w.
Proof.
  intros (Hn & Hne & Hs) Hf Hl. unfold create, Tokens.create.
  rewrite (proj2 (String.eqb_neq _ _) Hn), validate_known by done. cbn [fst].
  eapply wp_mono; [|by apply update_db]. intros [x|e|] w' H; [|done..]. destruct H as [-> H]. split; [done|].
  cbn in H. by rewrite persist_fresh in H by done.
Qed.

Lemma rotate_db id f now l r w :
  s_dbs w !! p = Some l -> Tokens.get id (Tokens.mkStore true l) = Some r -> Tokens.is_active r = true ->
  row_ok r -> f_id f ∉ map Tokens.t_id l ->
  wp (rotate_cmd hash_token (Ret (Some p)) sql id f now true) (fun o w' => exists l',
    s_dbs w' !! p = Some l' /\ (forall q, q <> p -> s_dbs w' !! q = s_dbs w !! q) /\
    match o with
    | Ret _ => l' = Tokens.rows (Tokens.revoke now id (Tokens.mkStore true (l ++ [successor f r]))) /\
               s_out w' = (s_out w ++ [f_plaintext f])%list
    | _ => (l' = l \/ l' = (l ++ [successor f r])%list) /\ s_out w' = s_out w
    end) w.
Proof.
  intros Hl Hget Ha Hok Hf.
  assert (Hid : Tokens.t_id r = id) by (apply List.find_some in Hget as [_ H]; by apply String.eqb_eq).
  assert (Hfail : forall l' w', at_db p l' w w' -> l' = l \/ l' = (l ++ [successor f r])%list ->
     exists l', s_dbs w' !! p = Some l' /\ (forall q, q <> p -> s_dbs w' !! q = s_dbs w !! q) /\
       (l' = l \/ l' = (l ++ [successor f r])%list) /\ s_out w' = s_out w).
  { intros l' w' (H1 & H2 & H3 & _) Hl'. by exists l'. }
  unfold rotate_cmd, open_store. apply wp_bind, wp_bind, wp_ret, wp_bind.
  eapply wp_mono; [|by apply connect_db]. intros [[]|e|] w1 H1; [|eapply Hfail; eauto..].
  apply wp_ret, wp_bind. unfold get_token.
  eapply wp_mono; [|apply query_db, H1]. intros [o|e|] w2 [H2 Ho]; [|eapply Hfail; eauto using at_db_trans..].
  rewrite (Ho o eq_refl). unfold tstore. rewrite bool_decide_true by done. rewrite Hget, Ha. cbn [negb].
  apply wp_bind, wp_ret, wp_bind. assert (H12 := at_db_trans _ _ _ _ _ _ H1 H2). rewrite <- Hid.
  eapply wp_mono; [|apply create_db; [done|done|apply H12]].
  intros [x|e|] w3 H3; [|eapply Hfail; eauto using at_db_trans..]. destruct H3 as [Hx H3].
  assert (H13 := at_db_trans _ _ _ _ _ _ H12 H3). apply wp_bind. unfold revoke.
  eapply wp_mono; [|apply update_db, H3]. intros [[]|e|] w4 H4; [|eapply Hfail; eauto using at_db_trans..].
  destruct H4 as [_ H4]. assert (H14 := at_db_trans _ _ _ _ _ _ H13 H4). apply wp_modify.
  destruct H14 as (G1 & G2 & G3 & _). eexists. split_and!; [exact G1|exact G2|done|]. cbn. by rewrite G3, Hx.
Qed.
End Rotate.

Lemma find_app_none {A} (f : A -> bool) l x : (forall y, In y l -> f y = false) -> f x = true ->
  List.find f (l ++ [x])%list = Some x.
Proof. induction l as [|y l IH]; cbn; intros H Hx; [by rewrite Hx|]. rewrite H by auto. apply IH; auto. Qed.


(** ** Retrying a delivery *)
Lemma retry_db {P} (sql : nat -> fate exn) (what p : string) (now : time) (id : Z) (s : Delivery.store P) w :
  s_dbs w !! p = Some s ->
  wp (retry_cmd (Ret (Some p)) sql what now id) (fun o w' =>
    match o with
    | Ret _ => exists d, Delivery.get id s = Some d /\ Delivery.d_status d ∈ [Delivery.GivingUp; Delivery.Failed] /\
               at_db p (Delivery.force_retry now id s).2 w w'
    | _ => at_db p s w w'
    end) w.
Proof.
  intros Hs. unfold retry_cmd, open_deliveries. apply wp_bind, wp_bind, wp_ret, wp_bind.
  eapply wp_mono; [|by apply connect_db]. intros [[]|e|] w1 H1; [|done..]. apply wp_ret, wp_bind.
  eapply wp_mono; [|apply query_db, H1]. intros [o|e|] w2 [H2 Ho]; [|by eapply at_db_trans..].
  rewrite (Ho o eq_refl). assert (H12 := at_db_trans _ _ _ _ _ _ H1 H2).
  destruct (Delivery.get id s) as [d|] eqn:Hd; [|by apply wp_raise].
  destruct (bool_decide (Delivery.d_status d ∈ [Delivery.GivingUp; Delivery.Failed])) eqn:Hst; cbn [negb]; [|by apply wp_raise].
  apply bool_decide_eq_true in Hst. unfold force_retry. apply wp_bind, wp_bind.
  eapply wp_mono; [|apply statement_db, H12]. intros [[]|e|] w3 H3; [|by eapply at_db_trans..].
  assert (H13 := at_db_trans _ _ _ _ _ _ H12 H3). eapply wp_mono; [|apply update_db, H13].
  intros [ok|e|] w4 H4; [|by eapply at_db_trans..]. destruct H4 as [-> H4].
  assert (H14 := at_db_trans _ _ _ _ _ _ H13 H4).
  assert (Hok : (Delivery.force_retry now id s).1 = true).
  { unfold Delivery.force_retry. rewrite Hd. rewrite !elem_of_cons in Hst.
    destruct Hst as [->|[->|H]]; [done|done|by apply elem_of_nil in H]. }
  rewrite Hok. apply wp_ret. by exists d.
Qed.

(** [webhook retry] and [alert retry] give a delivery that was given up exactly one
    more attempt: when the command returns, the row is pending and due at once, its
    attempts are kept and the other rows are as they were, and whatever the next attempt
    brings, the row is then delivered (a 2xx answer) or given up again.  A pending or
    delivered row is never reset, and a command that does not return changed no row. *)
Theorem retry_one_more {P : Type} (sql : nat -> fate exn) (what p : string) (now : time) (id : Z)
    (s : Delivery.store P) (w : sworld (Delivery.store P)) :
  s_dbs w !! p = Some s ->
  let '(o, w') := retry_cmd (Ret (Some p)) sql what now id w in
  match o with
  | Ret _ => exists d d' s', Delivery.get id s = Some d /\
      Delivery.d_status d <> Delivery.Pending /\ Delivery.d_status d <> Delivery.Delivered /\
      s_dbs w' !! p = Some s' /\ Delivery.get id s' = Some d' /\ Delivery.d_attempts d' = Delivery.d_attempts d /\
      (forall id', id' <> id -> Delivery.get id' s' = Delivery.get id' s) /\
      forall (backoff : list time) (t : time) (a : Workers.answer),
        (Z.of_nat (List.length backoff) <= Delivery.d_attempts d)%Z -> (now <= t)%Q ->
        Delivery.is_due t d' = true /\
        let o := Workers.deliver_outcome backoff t d' a in
        Delivery.o_attempts o = (Delivery.d_attempts d + 1)%Z /\
        Delivery.o_status o = match a with
                              | Workers.Http code _ =>
                                  if ((200 <=? code) && (code <? 300))%Z then Delivery.Delivered else Delivery.GivingUp
                              | Workers.Failed_ _ => Delivery.GivingUp
                              end
  | _ => s_dbs w' !! p = Some s
  end.
Proof.
  intros Hs. assert (H := retry_db sql what p now id s w Hs). unfold wp in H.
  destruct (retry_cmd _ _ _ _ _ w) as [[u|e|] w']; cbn [fst snd] in H; [|apply H..].
  destruct H as (d & Hd & Hst & H & _). unfold Delivery.force_retry in H. rewrite Hd in H.
  rewrite !elem_of_cons, elem_of_nil in Hst.
  assert (bool_decide (Delivery.d_status d = Delivery.GivingUp) || bool_decide (Delivery.d_status d = Delivery.Failed) = true) as Hb.
  { destruct Hst as [->|[->|[]]]; done. }
  rewrite Hb in H. cbn [snd] in H. set (u' := Delivery.mkOutcome _ _ _ _ _ _) in H.
  exists d, (Delivery.apply_outcome u' d). eexists. split_and!; [done| | |exact H| |done| |].
  - by destruct Hst as [->|[->|[]]].
  - by destruct Hst as [->|[->|[]]].
  - rewrite Delivery.get_update, Z.eqb_refl, Hd. done.
  - intros id' Hid. by rewrite Delivery.get_update, (proj2 (Z.eqb_neq _ _) Hid).
  - intros backoff t a Hlen Ht. split.
    + unfold Delivery.is_due. cbn. by apply Qle_bool_iff.
    + unfold Workers.deliver_outcome, Workers.handle_failure, Workers.gives_up. cbn.
      assert ((Z.of_nat (List.length backoff) <=? Delivery.d_attempts d + 1)%Z = true) as -> by (apply Z.leb_le; lia).
      destruct a as [code body|error]; [|done]. by destruct ((200 <=? code)%Z && (code <? 300)%Z).
Qed.

(** Without a database [token create] prints a token that no server knows. *)
Theorem create_without_database (hash_token : string -> string -> string) (sql : nat -> fate exn) (f : draw)
    (w : sworld (list Tokens.TokenRecord)) :
  let '(o, w') := create_cmd hash_token (Ret None) sql f "bot" "send,read" w in
  o = Ret tt /\ s_out w' = (s_out w ++ [f_plaintext f])%list /\ s_dbs w' = s_dbs w.
Proof.
  destruct (create_cmd _ _ _ _ _ _ w) as [o w'] eqn:H. unfold create_cmd, open_store, bind, lift_s, connect, put, modify, create in H.
  unfold Tokens.create in H. change (String.eqb (strip "bot") "") with false in H.
  assert (exists canon, Tokens.validate_scopes ["send"; "read"] = inr canon) as [canon Hv] by (by eexists).
  change (List.filter _ _) with ["send"; "read"] in H. rewrite Hv in H. cbn in H. injection H as <- <-. cbn. by split_and!.
Qed.

(** ** The hypotheses can hold *)
Definition demo_tokens : sworld (list Tokens.TokenRecord) := mkSw {[ "db" := [Tokens.demo_row] ]} [] 0 [] [].
Definition demo_draw : draw := mkDraw "skr_new" "salt2" "id2" "now".

Definition demo_given_up : Delivery.store (string * string) :=
  Delivery.mkStore [Delivery.mkDelivery 1 "a1" "SEND_FAILED" ("chat", "text") Delivery.GivingUp 4 0%Q None None None 0%Q] 2.
Definition demo_deliveries : sworld (Delivery.store (string * string)) :=
  mkSw {[ "db" := demo_given_up ]} Delivery.empty 0 [] [].
Lemma retry_one_more_witness :
  exists w', retry_cmd (Ret (Some "db")) (fun _ => Fine) "alert delivery" 50%Q 1 demo_deliveries =
    (Ret tt, w') /\ exists d' s', s_dbs w' !! "db" = Some s' /\ Delivery.get 1 s' = Some d' /\
    Delivery.o_status (Workers.deliver_outcome [0; 5; 30; 300]%Q 51%Q d' (Workers.Failed_ "timeout")) = Delivery.GivingUp.
Proof.
  eexists. split; [vm_compute; reflexivity|].
  destruct (retry_one_more (fun _ => Fine) "alert delivery" "db" 50%Q 1 demo_given_up
    demo_deliveries eq_refl) as (d & d' & s' & Hd & _ & _ & Hs & Hd' & _ & _ & H).
  exists d', s'. split; [exact Hs|]. split; [exact Hd'|]. injection Hd as <-.
  apply (H [0; 5; 30; 300]%Q 51%Q (Workers.Failed_ "timeout")); [done|]. by vm_compute.
Defined.
