(* ===== verification/CliApi.v ===== *)
(** * The commands that call the service ([cli/api.py], [commands/balance.py], [risk.py],
    [status.py], [check_tx.py], [reconcile.py])

    An HTTP answer is a status code, a text and the JSON value the text encodes, if it
    does; what [requests] does with a request is a parameter of each command.  A
    command returns what it renders ([Screens] has how), or its exit code. *)
From S2P Require Import Prelude PyStr Effects Exceptions RiskTypes CliEnv.
From S2P Require Keystore Config Sanctions World Risk AuditLog Routes.
Import Keystore(json(..), jget, truthy).
Open Scope string_scope.

(** What [session.get] did. *)
Inductive http :=
| Response (status : Z) (text : string) (body : option json)
| ConnectionError (msg : string)
| Timeout (msg : string)
| OtherException (cls : string).     (** not caught by [_get] *)
Record request := mkReq { q_url : string; q_headers : list (string * string); q_timeout : Q }.

(** ** [APIClient] *)
Record APIClient := mkClient { base_url : string; auth_token : option string; timeout : Q }.
Definition rstrip_slash (s : string) : string := rstrip_with (fun c => Ascii.eqb c "/") s.
Definition client (url : string) (token : option string) (t : Q) : APIClient := mkClient (rstrip_slash url) token t.
Definition none_if_empty (s : string) : option string := if String.eqb s "" then None else Some s.
Definition from_env (env : env_dict) (t : Q) : APIClient :=
  let host := default "127.0.0.1" (env_get "SERVER_HOST" env) in
  let port := default "8000" (env_get "SERVER_PORT" env) in
  let host := if bool_decide (host ∈ ["0.0.0.0"; ""]) then "127.0.0.1" else host in
  client ("http://" +:+ host +:+ ":" +:+ port) (none_if_empty (default "" (env_get "AUTH_TOKEN" env))) t.
Definition from_env_file (path : string) (t : Q) (c : cworld) : outcome cexn APIClient :=
  match read_env_file path c with
  | Ret env => Ret (from_env env t)
  | Raise e => Raise e
  | Crash => Crash
  end.

(** [urllib.parse.quote(s)]: the bytes that are not safe are written in hexadecimal. *)
Definition safe_char (c : ascii) : bool :=
  is_digit c || is_upper c || is_lower c || bool_decide (c ∈ ["_"; "."; "-"; "~"; "/"]%char).
Definition hex_digit (n : N) : ascii := default "0"%char (["0";"1";"2";"3";"4";"5";"6";"7";"8";"9";"A";"B";"C";"D";"E";"F"]%char !! N.to_nat n).
Fixpoint quote (s : string) : string :=
  match s with
  | "" => ""
  | String c s =>
      if safe_char c then String c (quote s)
      else String "%" (String (hex_digit (ord c / 16)) (String (hex_digit (ord c mod 16)) (quote s)))
  end.

Section Client.
(** The network. *)
Context (send : request -> http) (api : APIClient).

Definition key_header : list (string * string) :=
  match auth_token api with Some t => [("X-API-Key", t)] | None => [] end.
Definition get (path : string) (auth : bool) (t : option Q) : outcome cexn json :=
  let url := base_url api +:+ path in
  match send (mkReq url (if auth then key_header else []) (match t with
                                                         | Some t => if Qeq_bool t 0 then timeout api else t
                                                         | None => timeout api
                                                         end)) with
  | ConnectionError m => Raise (ServiceUnreachableError ("Cannot reach " +:+ url +:+ ": " +:+ m +:+ ". Is the service running? Try `skr-crypto status`."))
  | Timeout m => Raise (ServiceUnreachableError ("Timed out talking to " +:+ url +:+ ": " +:+ m +:+ "."))
  | OtherException cls => Raise (Traceback cls)
  | Response status text body =>
      if (status =? 401)%Z then Raise (AuthError ("API rejected our X-API-Key. The token in .env may be stale; " +:+
          "regenerate via `skr-crypto config edit` and restart the service."))
      else if (500 <=? status)%Z
      then Raise (BadResponseError (path +:+ " returned " +:+ str_of_Z status +:+ ": " +:+ str_take 300 text))
      else if negb (status <? 400)%Z
      then Raise (BadResponseError (path +:+ " returned " +:+ str_of_Z status +:+ ": " +:+ str_take 300 text))
      else match body with
           | Some j => Ret j
           | None => Raise (BadResponseError (path +:+ " returned non-JSON body: " +:+ str_take 300 text))
           end
  end.
Definition health_live : outcome cexn json := get "/api/v1/health/live" false None.
Definition version : outcome cexn json := get "/api/v1/version" false None.
Definition health : outcome cexn json := get "/api/v1/health" true None.
Definition balance_path (wallet : option string) : string :=
  let w := default "" wallet in
  if String.eqb w "" then "/api/v1/balance" else "/api/v1/balance?wallet=" +:+ quote w.
Definition balance (wallet : option string) : outcome cexn json := get (balance_path wallet) true (Some 30%Q).
Definition wallets : outcome cexn json := get "/api/v1/wallets" true (Some 60%Q).
Definition risk (address : string) (external : bool) : outcome cexn json :=
  get ("/api/v1/risk/" +:+ address +:+ "?external=" +:+ (if external then "true" else "false")) true (Some 30%Q).
Definition metrics : outcome cexn string :=
  match send (mkReq (base_url api +:+ "/api/v1/metrics") key_header (timeout api)) with
  | ConnectionError m | Timeout m => Raise (ServiceUnreachableError m)
  | OtherException cls => Raise (ServiceUnreachableError cls)
  | Response status text _ =>
      if (status =? 401)%Z then Raise (AuthError "API rejected our X-API-Key for /metrics.")
      else if negb (status <? 400)%Z then Raise (BadResponseError ("/metrics returned " +:+ str_of_Z status))
      else Ret text
  end.

(** ** [risk]: the exit code of a report *)
Definition RISK_EXIT_LOW : Z := 0.
Definition RISK_EXIT_MEDIUM : Z := 10.
Definition RISK_EXIT_HIGH : Z := 11.
Definition RISK_EXIT_INVALID : Z := 12.
Definition level_exit (level : string) : Z :=
  if String.eqb level "low" then RISK_EXIT_LOW
  else if String.eqb level "medium" then RISK_EXIT_MEDIUM
  else if String.eqb level "high" then RISK_EXIT_HIGH
  else if String.eqb level "invalid" then RISK_EXIT_INVALID
  else 1.
(** [(report.get("level") or "").lower()] *)
Definition level_of (report : json) : outcome cexn string :=
  match report with
  | JObj d =>
      match default JNull (jget "level" d) with
      | JStr s => Ret (lower s)
      | v => if truthy v then Raise (Traceback "AttributeError") else Ret ""
      end
  | _ => Raise (Traceback "AttributeError")
  end.
Definition risk_cmd (address : string) (external : bool) : outcome cexn unit :=
  match risk address external with
  | Ret report =>
      match level_of report with
      | Ret level => Raise (Exits (level_exit level))
      | Raise e => Raise e
      | Crash => Crash
      end
  | Raise e => Raise e
  | Crash => Crash
  end.

(** ** [status] *)
Record status_payload := mkStatus {
  running : bool; uptime_seconds : json; service_sha : json; network : json; started_at : json;
  status_error : option cexn }.
Definition jfield (k : string) (dflt : json) (j : json) : outcome cexn json :=
  match j with JObj d => Ret (default dflt (jget k d)) | _ => Raise (Traceback "AttributeError") end.
Definition not_running (e : option cexn) : status_payload := mkStatus false JNull JNull JNull JNull e.
(** An answer of /version that is no dict escapes; a failure of it is shown. *)
Definition status_api : outcome cexn status_payload :=
  match health_live with
  | Ret live =>
      match jfield "uptime_seconds" (JInt 0) live with
      | Ret up =>
          match version with
          | Ret v =>
              match jfield "git_sha" (JStr "unknown") v, jfield "network" (JStr "unknown") v, jfield "started_at" JNull v with
              | Ret sha, Ret net, Ret st => Ret (mkStatus true up sha net st None)
              | Raise e, _, _ => Raise e
              | _, _, _ => Crash
              end
          | Raise e => if is_skr_error e then Ret (mkStatus true up (JStr "error") JNull JNull (Some e)) else Raise e
          | Crash => Crash
          end
      | Raise e => Raise e
      | Crash => Crash
      end
  | Raise (ServiceUnreachableError _) => Ret (not_running None)
  | Raise e => if is_skr_error e then Ret (not_running (Some e)) else Raise e
  | Crash => Crash
  end.
End Client.

(** [_human_duration] *)
Definition human_duration (seconds : Z) : string :=
  if (seconds <? 60)%Z then str_of_Z seconds +:+ "s"
  else if (seconds <? 3600)%Z then str_of_Z (seconds / 60) +:+ "m " +:+ str_of_Z (seconds mod 60) +:+ "s"
  else if (seconds <? 86400)%Z
  then str_of_Z (seconds / 3600) +:+ "h " +:+ str_of_Z (seconds mod 3600 / 60) +:+ "m"
  else str_of_Z (seconds / 86400) +:+ "d " +:+ str_of_Z (seconds mod 86400 / 3600) +:+ "h".

(** ** [check] and [reconcile]: the child process *)

(** Killed by the 60 s timeout, or its exit status and the last line of stdout as JSON. *)
Inductive probe := ProbeTimeout | Probe (returncode : Z) (last_line : option json).
Definition check_cmd (p : probe) (as_json : bool) : outcome cexn json :=
  match p with
  | ProbeTimeout => Raise (Traceback "TimeoutExpired")
  | Probe rc line =>
      if negb (rc =? 0)%Z then Raise (SkrCryptoError ("probe failed (exit " +:+ str_of_Z rc +:+ ")"))
      else match line with
           | None => Raise (SkrCryptoError "could not parse probe output")
           | Some payload =>
               if as_json then Ret payload
               else match payload with
                    | JObj d =>
                        match jget "error" d with
                        | Some _ => match jget "type" d with
                                    | Some _ => Raise (Exits 6)
                                    | None => Raise (Traceback "KeyError")
                                    end
                        | None => Ret payload
                        end
                    | JStr t => Raise (Traceback (if contains "error" t then "TypeError" else "AttributeError"))
                    | JList l =>
                        Raise (Traceback (if existsb (fun j => Keystore.json_is_str (Some j) "error") l
                                          then "TypeError" else "AttributeError"))
                    | _ => Raise (Traceback "TypeError")
                    end
           end
  end.
Definition reconcile_cmd (returncode : Z) : outcome cexn unit :=
  if negb (returncode =? 0)%Z then Raise (SkrCryptoError ("reconcile exited with status " +:+ str_of_Z returncode)) else Ret tt.

(** [RiskReport.to_dict] *)
Definition summary_json (v : summary_value) : json := match v with SInt z => JInt z | SStr s => JStr s end.
Definition check_json (c : RiskCheck) : json :=
  JObj [("name", JStr (rc_name c)); ("status", JStr (status_value (rc_status c))); ("message", JStr (rc_message c));
        ("severity", JStr (rc_severity c))].
Definition report_json (r : RiskReport) : json :=
  JObj [("address", JStr (rr_address r)); ("level", JStr (level_value (rr_level r)));
        ("checks", JList (map check_json (rr_checks r)));
        ("summary", JObj (map (fun '(k, v) => (k, summary_json v)) (rr_summary r)))].
Definition exit_of {A} (o : outcome cexn A) : option Z :=
  match o with Ret _ => Some 0%Z | Raise e => Some (exit_code e) | Crash => None end.

(** ** Lemmas *)
Lemma get_returns send api path auth t j : get send api path auth t = Ret j ->
  exists r st text, send r = Response st text (Some j) /\ (st < 400)%Z /\ st <> 401%Z.
Proof.
  unfold get. set (r := mkReq _ _ _). destruct (send r) as [st text body|m|m|cls] eqn:Hs; [|done..].
  destruct (Z.eqb_spec st 401); [done|]. destruct (500 <=? st)%Z; [done|]. destruct (Z.ltb_spec st 400); [|done].
  destruct body as [b|]; [|done]. cbn. intros [= <-]. by exists r, st, text.
Qed.
Lemma get_fails send api path auth t e : get send api path auth t = Raise e -> exit_code e <> 0%Z.
Proof. unfold get. repeat case_match; by intros [= <-]. Qed.
Lemma level_of_fails j e : level_of j = Raise e -> exit_code e <> 0%Z.
Proof. unfold level_of. repeat case_match; by intros [= <-]. Qed.
Lemma level_exit_low level : level_exit level = 0%Z -> level = "low".
Proof. unfold level_exit. destruct (String.eqb_spec level "low"); [done|]. by repeat case_match. Qed.


(** ** The hypotheses can hold *)
Definition demo_sanctions : Sanctions.state := Sanctions.mkState (Some {["TSanctioned"]}) Sanctions.FromCache None.
Definition demo_report : RiskReport :=
  match fst (Routes.risk_endpoint World.sample_env Config.default_config demo_sanctions "TSanctioned" false
               AuditLog.sample_world) with
  | Ret r => r
  | _ => mkReport "" LOW [] []
  end.
