(* ===== verification/CliBackup.v ===== *)
(** * [skr-crypto backup] and [skr-crypto restore] ([cli/commands/backup.py], [restore.py])

    The install directory has a [data] directory and one of archives.  The entries of a
    directory are a map from names to contents; what the content of a file is, and what
    SQLite reads from a database file and its write-ahead log, are parameters.  Every
    system call may fail or be where the process dies. *)
From S2P Require Import Prelude PyStr Effects Exceptions CliEnv.
From S2P Require Idempotency.
Open Scope string_scope.

(** [Path(name).suffix]: from the last dot, which is neither first nor last. *)
Fixpoint last_dot (s : string) : option string :=
  match s with
  | "" => None
  | String c s' => match last_dot s' with
                   | Some r => Some r
                   | None => if Ascii.eqb c "." then Some s else None
                   end
  end.
Definition suffix (name : string) : string :=
  match last_dot name with
  | Some r => if String.eqb r "." || String.eqb r name then "" else r
  | None => ""
  end.
Definition transient (name : string) : bool := bool_decide (suffix name ∈ [".db-wal"; ".db-shm"]).
(** The glob ["data-*.tar.gz"]. *)
Fixpoint endswith (e s : string) : bool :=
  String.eqb s e || match s with "" => false | String _ s' => endswith e s' end.
Definition is_archive_name (n : string) : bool :=
  match strip_prefix "data-" n with Some r => endswith ".tar.gz" r | None => false end.
(** [l[k:]] *)
Definition slice_from {A} (k : Z) (l : list A) : list A :=
  List.skipn (Z.to_nat (if (k <? 0)%Z then Z.max 0 (Z.of_nat (List.length l) + k) else k)) l.

Section Backup.
Context {C : Type}.
Abbreviation tree := (gmap string C).

(** An archive: its mtime and members; [None]: a file that is no complete archive. *)
Record archive := mkArchive { a_mtime : time; a_members : option tree }.
Record bworld := mkB {
  b_data : option tree;               (** [data/] *)
  b_aside : list (string * tree);     (** the directories restore moved aside, newest first *)
  b_backups : gmap string archive; b_lines : list string; b_tick : nat }.
Abbreviation MB := (M bworld cexn).

Context (os : nat -> fate exn).
Definition call : MB unit := fun w =>
  let w' := mkB (b_data w) (b_aside w) (b_backups w) (b_lines w) (S (b_tick w)) in
  match os (b_tick w) with
  | Fine => (Ret tt, w')
  | Fails e => (Raise (Traceback (exn_class e)), w')
  | Dies => (Crash, w')
  end.
Definition set_backups (f : gmap string archive -> gmap string archive) : MB unit :=
  modify (fun w => mkB (b_data w) (b_aside w) (f (b_backups w)) (b_lines w) (b_tick w)).
Definition set_data (d : option tree) : MB unit :=
  modify (fun w => mkB d (b_aside w) (b_backups w) (b_lines w) (b_tick w)).
Definition confirm (dflt : bool) : MB bool := fun w =>
  match b_lines w with
  | [] => (Ret dflt, w)
  | x :: l =>
      let ans := lower (strip x) in
      (Ret (if String.eqb ans "" then dflt else bool_decide (ans ∈ ["y"; "yes"])),
       mkB (b_data w) (b_aside w) (b_backups w) l (b_tick w))
  end.

(** ** [backup] *)
Definition snapshot (d : tree) : tree := filter (fun kv => transient kv.1 = false) d.
(** Newest first; files of one mtime in the order of the directory. *)
Definition by_age (l : list (string * archive)) : list (string * archive) :=
  sort_by (fun a b => Qle_bool (a_mtime b.2) (a_mtime a.2)) l.
Definition stale (keep : Z) (b : gmap string archive) : list string :=
  map fst (slice_from keep (by_age (List.filter (fun kv => is_archive_name kv.1) (map_to_list b)))).
Definition prune (names : list string) : MB unit :=
  for_each names (fun n => do! call in set_backups (delete n)).

(** [out]: the name, ["data-<now>.tar.gz"], in the directory of archives. *)
Definition backup_cmd (out : string) (now : time) (keep : Z) : MB unit :=
  let! data := gets b_data in
  match data with
  | None => raise (SkrCryptoError "no data dir — nothing to back up")
  | Some d =>
      do! call in
      do! call in
      do! set_backups (insert out (mkArchive now None)) in
      do! for_each (map fst (map_to_list (snapshot d))) (fun _ => call) in
      do! set_backups (insert out (mkArchive now (Some (snapshot d)))) in
      do! call in
      let! names := gets (fun w => stale keep (b_backups w)) in
      prune names
  end.

(** ** [restore] *)

(** [target]: [str((install_dir / name).resolve())] of a member; [root]: that of the
    install directory; [tar_filter]: whether [extractall(filter="data")] takes the member. *)
Context (target : string -> string) (root : string) (tar_filter : string -> bool).
Definition suspect (name : string) : bool := negb (startswith root (target ("data/" +:+ name))).
Fixpoint extract (l : list (string * C)) : MB unit :=
  match l with
  | [] => ret tt
  | (n, c) :: l =>
      if negb (tar_filter n) then raise (SkrCryptoError "could not read archive")
      else
        do! call in
        let! data := gets b_data in
        do! set_data (Some (<[n := c]> (default ∅ data))) in
        extract l
  end.
(** What [tarfile] makes of the file: its members, a TarError, or another exception (a gzip
    stream that ends early is an EOFError). *)
Inductive tar_read := Members (m : tree) | TarError | Breaks (e : exn).
Definition unpack (read : tar_read) : MB unit :=
  do! call in
  match read with
  | TarError => raise (SkrCryptoError "could not read archive")
  | Breaks e => raise (Traceback (exn_class e))
  | Members members =>
      do! when (existsb suspect (map fst (map_to_list members)))
            (raise (SkrCryptoError "refusing to extract suspect path")) in
      extract (map_to_list members)
  end.
(** [ts]: the time in the name of the directory the data is moved to. *)
Definition restore_cmd (ts : string) (read : tar_read) (yes : bool) : MB unit :=
  let! go := if yes then ret true else confirm false in
  do! when (negb go) (raise (Exits 1)) in
  let! data := gets b_data in
  do! match data with
      | Some d =>
          do! call in
          modify (fun w => mkB None (("data.pre-restore-" +:+ ts, d) :: b_aside w) (b_backups w) (b_lines w) (b_tick w))
      | None => ret tt
      end in
  unpack read.
End Backup.
Arguments archive : clear implicits.
Arguments bworld : clear implicits.
Arguments tar_read : clear implicits.

(** ** Lemmas *)
Lemma filter_sublist {A} (f : A -> bool) l : List.filter f l `sublist_of` l.
Proof. induction l as [|x l IH]; cbn; [done|]. destruct (f x); by constructor. Qed.
Section Lemmas.
Context {C : Type} (os : nat -> fate exn).
Abbreviation tree := (gmap string C).
Implicit Types w : bworld C.

(** A step that at most fails: data, aside and archives are as before. *)
Definition unchanged (w w' : bworld C) : Prop :=
  b_data w' = b_data w /\ b_aside w' = b_aside w /\ b_backups w' = b_backups w.
Lemma call_unchanged w : wp (call os) (fun _ w' => unchanged w w') w.
Proof. unfold wp, call, unchanged. by destruct (os (b_tick w)). Qed.

(** What is extracted when every call succeeds. *)
Lemma extract_fine tar_filter (Hos : forall i, os i = Fine) l : forall w,
  (forall n c, In (n, c) l -> tar_filter n = true) -> l <> [] ->
  exists w', extract os tar_filter l w = (Ret tt, w') /\
    b_data w' = Some (fold_left (fun d kv => <[kv.1 := kv.2]> d) l (default ∅ (b_data w))) /\ b_aside w' = b_aside w.
Proof.
  induction l as [|[n c] l IH]; [done|]. intros w Hf _. cbn [extract]. rewrite (Hf n c) by (by left). cbn [negb].
  unfold bind, call, gets, set_data, modify. rewrite Hos. cbn [b_data b_aside b_backups b_lines b_tick].
  destruct l as [|x l].
  - eexists. split; [reflexivity|]. by split.
  - destruct (IH (mkB (Some (<[n:=c]> (default ∅ (b_data w)))) (b_aside w) (b_backups w) (b_lines w) (S (b_tick w))))
      as (w' & H1 & H2 & H3); [intros; eapply Hf; by right|done|]. rewrite H1. by exists w'.
Qed.
Lemma fold_insert_list (l : list (string * C)) : forall d : tree, NoDup l.*1 ->
  fold_left (fun d kv => <[kv.1 := kv.2]> d) l d = list_to_map l ∪ d.
Proof.
  induction l as [|[n c] l IH]; intros d Hn; cbn [fold_left list_to_map foldr].
  - by rewrite map_empty_union.
  - cbn in Hn. apply NoDup_cons in Hn as [Hn Hl]. rewrite IH by done. cbn.
    rewrite <- insert_union_l, insert_union_r; [done|]. by apply not_elem_of_list_to_map.
Qed.
Lemma extract_map tar_filter (Hos : forall i, os i = Fine) (m : tree) w :
  (forall n, is_Some (m !! n) -> tar_filter n = true) -> b_data w = None ->
  exists w', extract os tar_filter (map_to_list m) w = (Ret tt, w') /\ default ∅ (b_data w') = m /\
    b_aside w' = b_aside w.
Proof.
  intros Hf Hd. destruct (decide (m = ∅)) as [->|Hm].
  { exists w. rewrite map_to_list_empty. split_and!; [done|by rewrite Hd|done]. }
  destruct (extract_fine tar_filter Hos (map_to_list m) w) as (w' & H1 & H2 & H3).
  - intros n c Hin. apply Hf. exists c. by apply elem_of_map_to_list, list_elem_of_In.
  - by rewrite map_to_list_empty_iff.
  - exists w'. split; [done|]. split; [|done]. rewrite H2, Hd. cbn [default].
    by rewrite fold_insert_list, list_to_map_to_list, map_union_empty by apply NoDup_fst_map_to_list.
Qed.

(** Whatever the calls do: extraction touches the data only, and what it has extracted when
    it succeeds. *)
Lemma extract_only_data tar_filter l : forall w,
  wp (extract os tar_filter l) (fun o w' => b_aside w' = b_aside w /\ b_backups w' = b_backups w /\
    (o = Ret tt -> default ∅ (b_data w') = fold_left (fun d kv => <[kv.1 := kv.2]> d) l (default ∅ (b_data w)))) w.
Proof.
  induction l as [|[n c] l IH]; intros w; cbn [extract fold_left]; [by apply wp_ret|].
  destruct (tar_filter n); cbn [negb]; [|by apply wp_raise].
  apply wp_bind. eapply wp_mono; [|apply call_unchanged]. intros [[]|e|] w1 (H1 & H2 & H3); [|by split_and!..].
  apply wp_bind, wp_gets, wp_bind, wp_modify. eapply wp_mono; [|apply IH]. cbn [b_data b_aside b_backups].
  intros o w2 (H4 & H5 & H6). rewrite H1 in H6. split_and!; [congruence..|exact H6].
Qed.
Lemma unpack_keeps target root tar_filter read w :
  wp (unpack os target root tar_filter read) (fun o w' => b_aside w' = b_aside w /\ b_backups w' = b_backups w /\
    (o = Ret tt -> exists m, read = Members m /\ default ∅ (b_data w') = m ∪ default ∅ (b_data w))) w.
Proof.
  unfold unpack. apply wp_bind. eapply wp_mono; [|apply call_unchanged].
  intros [[]|e|] w1 (K1 & K2 & K3); [|by split_and!..].
  destruct read as [m| |e]; [|by apply wp_raise..].
  apply wp_bind. destruct (existsb _ _); cbn [when]; [by apply wp_raise|]. apply wp_ret.
  eapply wp_mono; [|apply extract_only_data]. intros o w2 (L1 & L2 & L3).
  split_and!; [congruence..|]. intros Ho. exists m. split; [done|].
  by rewrite L3, fold_insert_list, list_to_map_to_list, K1 by (done || apply NoDup_fst_map_to_list).
Qed.
(** What the data directory was is where it was or aside. *)
Definition kept_aside (ts : string) w : list (string * tree) :=
  match b_data w with Some d => [("data.pre-restore-" +:+ ts, d)] | None => [] end.
Lemma restore_keeps target root tar_filter ts read yes w :
  wp (restore_cmd os target root tar_filter ts read yes) (fun o w' =>
    b_backups w' = b_backups w /\
    (b_data w' = b_data w /\ b_aside w' = b_aside w \/ b_aside w' = (kept_aside ts w ++ b_aside w)%list) /\
    (o = Ret tt -> exists m, read = Members m /\ default ∅ (b_data w') = m)) w.
Proof.
  unfold restore_cmd. apply wp_bind.
  apply (wp_mono _ (fun _ w1 => unchanged w w1)).
  2: { destruct yes; [by apply wp_ret|]. unfold wp, confirm. by destruct (b_lines w). }
  intros [go|e|] w1 (H1 & H2 & H3); [|by split_and!; auto..].
  apply wp_bind. destruct go; cbn [negb when]; [|by apply wp_raise; split_and!; auto]. apply wp_ret, wp_bind, wp_gets, wp_bind.
  apply (wp_mono _ (fun o w2 => b_backups w2 = b_backups w /\
    match o with
    | Ret _ => b_data w2 = None /\ b_aside w2 = (kept_aside ts w ++ b_aside w)%list
    | _ => b_data w2 = b_data w /\ b_aside w2 = b_aside w
    end)).
  2: { unfold kept_aside. rewrite H1. destruct (b_data w) as [d|] eqn:Hd.
    - apply wp_bind. eapply wp_mono; [|apply call_unchanged]. intros [[]|e|] w2 (G1 & G2 & G3).
      2-3: split_and!; congruence. apply wp_modify. cbn. rewrite G2, G3, H2, H3. by split_and!.
    - apply wp_ret. by split_and!; try congruence. }
  intros [[]|e|] w2 (G1 & G2); [|by split_and!; auto..]. destruct G2 as [G2 G3].
  eapply wp_mono; [|apply unpack_keeps]. intros o w3 (K1 & K2 & K3).
  split_and!; [congruence|right; congruence|]. intros Ho. destruct (K3 Ho) as (m & -> & ->). exists m.
  split; [done|]. rewrite G2. apply map_union_empty.
Qed.

(** The newest archive is first, so that keeping one keeps it. *)
Lemma stale_not_newest keep (b : gmap string (archive C)) out a :
  (1 <= keep)%Z -> b !! out = Some a ->
  (forall n x, b !! n = Some x -> n <> out -> is_archive_name n = true -> (a_mtime x < a_mtime a)%Q) ->
  out ∉ stale keep b.
Proof.
  intros Hk Ha Hnew. unfold stale, slice_from. assert ((keep <? 0)%Z = false) as -> by (apply Z.ltb_ge; lia).
  set (l := by_age _).
  assert (Hmem : forall n x, In (n, x) l -> b !! n = Some x /\ is_archive_name n = true).
  { intros n x H. unfold l, by_age in H. apply sort_by_elem, List.filter_In in H as [H1 H2].
    split; [|done]. by apply elem_of_map_to_list, list_elem_of_In. }
  assert (Hperm : l ≡ₚ List.filter (fun kv => is_archive_name kv.1) (map_to_list b)) by apply sort_by_perm.
  assert (Hnd : NoDup l.*1).
  { rewrite Hperm. eapply sublist_NoDup; [apply (NoDup_fst_map_to_list b)|]. apply fmap_sublist, filter_sublist. }
  assert (Hs : StronglySorted (fun x y => Qle_bool (a_mtime y.2) (a_mtime x.2) = true) l).
  { apply sort_by_sorted.
    - intros x y H. apply Qle_bool_nle in H. apply Qle_bool_iff. lra.
    - intros x y z H1 H2. apply Qle_bool_iff in H1, H2. apply Qle_bool_iff. lra. }
  intros Hin. apply list_elem_of_fmap in Hin as ([n x] & -> & Hin). cbn [fst] in *.
  destruct l as [|[m y] l]; [by rewrite List.skipn_nil in Hin; apply elem_of_nil in Hin|].
  assert (Hin' : (n, x) ∈ l).
  { destruct (Z.to_nat keep) as [|k] eqn:Hz; [lia|]. cbn in Hin. rewrite <- (firstn_skipn k l). set_solver. }
  destruct (Hmem n x) as [Hx Hax]; [right; by apply list_elem_of_In|]. assert (x = a) as -> by congruence.
  destruct (Hmem m y) as [Hy Hay]; [by left|].
  apply StronglySorted_inv in Hs as [_ Hs]. rewrite List.Forall_forall in Hs. specialize (Hs (n, a)).
  cbn in Hs. rewrite Qle_bool_iff in Hs. assert (m <> n).
  { intros ->. cbn in Hnd. apply NoDup_cons in Hnd as [Hnd _]. apply Hnd. apply list_elem_of_fmap. by exists (n, a). }
  specialize (Hnew m y Hy H Hay). specialize (Hs ltac:(by apply list_elem_of_In)). lra.
Qed.

Context (Hos : forall i, os i = Fine).
Definition ticked (n : nat) w : bworld C := mkB (b_data w) (b_aside w) (b_backups w) (b_lines w) n.
Lemma call_fine w : call os w = (Ret tt, ticked (S (b_tick w)) w).
Proof. unfold call. by rewrite Hos. Qed.
Lemma calls_fine {A} (l : list A) : forall w, exists n, for_each l (fun _ => call os) w = (Ret tt, ticked n w).
Proof.
  induction l as [|x l IH]; intros w; [by exists (b_tick w); destruct w|].
  cbn [for_each]. unfold bind. rewrite call_fine. destruct (IH (ticked (S (b_tick w)) w)) as [n H]. by exists n.
Qed.
Lemma prune_fine names : forall w, exists w', prune os names w = (Ret tt, w') /\ b_data w' = b_data w /\
  b_aside w' = b_aside w /\ forall n, n ∉ names -> b_backups w' !! n = b_backups w !! n.
Proof.
  unfold prune. induction names as [|m names IH]; intros w; [by exists w|]. cbn [for_each]. unfold bind at 1 2.
  rewrite call_fine. unfold set_backups at 1, modify at 1.
  destruct (IH (mkB (b_data w) (b_aside w) (delete m (b_backups w)) (b_lines w) (S (b_tick w)))) as (w' & H1 & H2 & H3 & H4).
  exists w'. split; [exact H1|]. split_and!; [done..|]. intros n [Hn Hn']%not_elem_of_cons. rewrite H4 by done.
  cbn. by apply lookup_delete_ne.
Qed.

Lemma backup_fine out now keep d w :
  (1 <= keep)%Z -> b_data w = Some d ->
  (forall n a, b_backups w !! n = Some a -> n <> out -> is_archive_name n = true -> (a_mtime a < now)%Q) ->
  exists w', backup_cmd os out now keep w = (Ret tt, w') /\ b_data w' = Some d /\ b_aside w' = b_aside w /\
    b_backups w' !! out = Some (mkArchive now (Some (snapshot d))).
Proof.
  intros Hk Hd Hnew. unfold backup_cmd. unfold bind at 1, gets at 1. rewrite Hd.
  unfold bind at 1. rewrite call_fine. unfold bind at 1. rewrite call_fine. unfold bind at 1, set_backups at 1, modify at 1.
  unfold bind at 1. destruct (calls_fine (map fst (map_to_list (snapshot d)))
    (mkB (Some d) (b_aside w) (<[out:=mkArchive now None]> (b_backups w)) (b_lines w) (S (S (b_tick w))))) as [n Hn].
  cbn [ticked b_data b_aside b_backups b_lines b_tick] in *. rewrite Hd in *. rewrite Hn.
  unfold bind at 1, set_backups at 1, modify at 1. cbn [ticked b_data b_aside b_backups b_lines b_tick].
  unfold bind at 1. rewrite call_fine. unfold bind, gets. cbn [ticked b_data b_aside b_backups b_lines b_tick].
  rewrite insert_insert_eq. set (b := <[out := _]> (b_backups w)).
  destruct (prune_fine (stale keep b) (mkB (Some d) (b_aside w) b (b_lines w) (S n))) as (w' & H1 & H2 & H3 & H4).
  exists w'. split; [exact H1|]. split_and!; [done..|]. rewrite H4; [apply lookup_insert_eq|].
  apply (stale_not_newest keep b out (mkArchive now (Some (snapshot d)))); [done|apply lookup_insert_eq|].
  intros m x Hx Hm Ha. unfold b in Hx. rewrite lookup_insert_ne in Hx by done. by apply (Hnew m).
Qed.

Lemma restore_fine target root tar_filter ts members w :
  (forall n, is_Some (members !! n) -> suspect target root n = false /\ tar_filter n = true) ->
  exists w', restore_cmd os target root tar_filter ts (Members members) true w = (Ret tt, w') /\
    default ∅ (b_data w') = members /\
    b_aside w' = (match b_data w with Some d => [("data.pre-restore-" +:+ ts, d)] | None => [] end ++ b_aside w)%list.
Proof.
  intros Hm. unfold restore_cmd, unpack, bind, ret, gets. cbn [negb when].
  assert (existsb (suspect target root) (map fst (map_to_list members)) = false) as Hsus.
  { apply not_true_is_false. intros (n & ([n' c] & <- & Hin)%in_map_iff & Hn)%existsb_exists. cbn in Hn.
    destruct (Hm n') as [Hs _]; [exists c; by apply elem_of_map_to_list, list_elem_of_In|congruence]. }
  unfold ret. cbv beta iota. destruct (b_data w) as [d|] eqn:Hd.
  - rewrite call_fine. unfold modify at 1. rewrite call_fine, Hsus. cbn [when]. unfold ret.
    destruct (extract_map tar_filter Hos members (ticked (S (S (b_tick w))) (mkB None
      (("data.pre-restore-" +:+ ts, d) :: b_aside w) (b_backups w) (b_lines w) (S (b_tick w))))) as (w' & H1 & H2 & H3);
      [intros n Hn; by apply Hm|done|]. exists w'. by split_and!.
  - rewrite call_fine, Hsus. cbn [when]. unfold ret.
    destruct (extract_map tar_filter Hos members (ticked (S (b_tick w)) w)) as (w' & H1 & H2 & H3);
      [intros n Hn; by apply Hm|done|]. exists w'. by split_and!.
Qed.
End Lemmas.

(** ** The properties *)

(** C21: With a working disk, a backup that keeps at least one archive stands in the
    directory of archives with every entry of the data directory but the write-ahead log
    files of .db databases, the data being as before; and restoring it later, whatever
    happened to the data meanwhile, gives exactly these entries back and keeps the data
    it replaces in a directory of its own. *)
Theorem backup_restore_roundtrip {C : Type} (os os' : nat -> fate exn) (target : string -> string) (root : string)
    (tar_filter : string -> bool) (out ts : string) (now : time) (keep : Z) (d : gmap string C) (w later : bworld C) :
  (forall i, os i = Fine) -> (forall i, os' i = Fine) -> (1 <= keep)%Z -> b_data w = Some d ->
  (forall n a, b_backups w !! n = Some a -> n <> out -> is_archive_name n = true -> (a_mtime a < now)%Q) ->
  (forall n, is_Some (d !! n) -> suspect target root n = false /\ tar_filter n = true) ->
  let '(o, w') := backup_cmd os out now keep w in
  o = Ret tt /\ b_data w' = Some d /\
  exists a members, b_backups w' !! out = Some a /\ a_members a = Some members /\
    (forall n, members !! n = if transient n then None else d !! n) /\
    let '(o', r) := restore_cmd os' target root tar_filter ts (Members members) true later in
    o' = Ret tt /\ default ∅ (b_data r) = members /\
    b_aside r = (match b_data later with Some x => [("data.pre-restore-" +:+ ts, x)] | None => [] end ++ b_aside later)%list.
Proof.
  intros Hos Hos' Hk Hd Hnew Hn.
  destruct (backup_fine os Hos out now keep d w Hk Hd Hnew) as (w' & -> & Hd' & _ & Ha).
  split; [done|]. split; [done|]. exists (mkArchive now (Some (snapshot d))), (snapshot d). split; [exact Ha|]. split; [done|].
  assert (Hsnap : forall n, snapshot d !! n = if transient n then None else d !! n).
  { intros n. unfold snapshot. rewrite map_lookup_filter. destruct (d !! n) as [c|]; cbn; [|by destruct (transient n)].
    destruct (transient n) eqn:E; cbn; [by rewrite option_guard_False | by rewrite option_guard_True]. }
  split; [done|]. destruct (restore_fine os' Hos' target root tar_filter ts (snapshot d) later) as (r & -> & Hr & Hs).
  - intros n Hx. apply Hn. rewrite Hsnap in Hx. by destruct (transient n), (d !! n); try destruct Hx.
  - by split_and!.
Qed.

(** The write-ahead log is where SQLite keeps what it has committed and not yet moved
    to the database file, and the backup of a running service leaves it out: a key whose
    payout is committed, but only in the log, is unknown after a restore, and the server
    then hands it out again for a second payout. *)
Theorem backup_forgets_payouts {C : Type} (sqlite_rows : C -> option C -> gmap string Idempotency.Sqlite.row)
    (os os' : nat -> fate exn) (target : string -> string) (root : string) (tar_filter : string -> bool)
    (out ts : string) (now : time) (keep : Z) (d : gmap string C) (w later : bworld C) (db wal : C) (key txid pid : string)
    (row : Idempotency.Sqlite.row) :
  (forall i, os i = Fine) -> (forall i, os' i = Fine) -> (1 <= keep)%Z -> b_data w = Some d ->
  (forall n a, b_backups w !! n = Some a -> n <> out -> is_archive_name n = true -> (a_mtime a < now)%Q) ->
  (forall n, is_Some (d !! n) -> suspect target root n = false /\ tar_filter n = true) ->
  d !! "idempotency.db" = Some db -> d !! "idempotency.db-wal" = Some wal ->
  sqlite_rows db (Some wal) !! key = Some row -> Idempotency.Sqlite.r_status row = Idempotency.Sqlite.COMMITTED ->
  Idempotency.Sqlite.r_txid row = txid -> sqlite_rows db None !! key = None ->
  let opened (t : option (gmap string C)) :=
    match default ∅ t !! "idempotency.db" with
    | Some f => sqlite_rows f (default ∅ t !! "idempotency.db-wal")
    | None => ∅
    end in
  let answer t := match Idempotency.Sqlite.reserve_pass Fine Fine now key (Idempotency.Sqlite.mkStore pid true (opened t) (opened t)) with
                  | Idempotency.Done o _ => Some o
                  | _ => None
                  end in
  let w' := snd (backup_cmd os out now keep w) in
  answer (b_data w') = Some (Ret (Some txid)) /\
  exists a members, b_backups w' !! out = Some a /\ a_members a = Some members /\
    answer (b_data (snd (restore_cmd os' target root tar_filter ts (Members members) true later))) = Some (Ret None).
Proof.
  intros Hos Hos' Hk Hd Hnew Hn Hdb Hwal Hrow Hst Htx Hnone opened answer.
  destruct (backup_fine os Hos out now keep d w Hk Hd Hnew) as (w' & -> & Hd' & _ & Ha). cbn [snd]. split.
  - rewrite Hd'. unfold answer, opened. change (default ∅ (Some d)) with d. rewrite Hdb, Hwal. unfold Idempotency.Sqlite.reserve_pass. cbn [Idempotency.Sqlite.conn negb].
    unfold Idempotency.Sqlite.fetch_row. cbn [Idempotency.Sqlite.view]. rewrite Hrow. cbn. by rewrite Hst, Htx.
  - exists (mkArchive now (Some (snapshot d))), (snapshot d). split; [exact Ha|]. split; [done|].
    destruct (restore_fine os' Hos' target root tar_filter ts (snapshot d) later) as (r & -> & Hr & _).
    { intros n [c Hc]. apply Hn. unfold snapshot in Hc. apply map_lookup_filter_Some in Hc as [Hc _]. by exists c. }
    cbn [snd]. unfold answer, opened. rewrite Hr.
    assert (snapshot d !! "idempotency.db" = Some db) as ->.
    { unfold snapshot. by rewrite map_lookup_filter_Some. }
    assert (snapshot d !! "idempotency.db-wal" = None) as ->.
    { unfold snapshot. apply map_lookup_filter_None. right. intros c _. by vm_compute. }
    unfold Idempotency.Sqlite.reserve_pass. cbn [Idempotency.Sqlite.conn negb]. unfold Idempotency.Sqlite.fetch_row.
    cbn [Idempotency.Sqlite.view]. rewrite Hnone. cbn. unfold Idempotency.Sqlite.insert_pending. cbn [Idempotency.Sqlite.view].
    by rewrite Hnone.
Qed.


(** ** The properties at a concrete input *)
Inductive content := Database (n : nat) | Log (n : nat).
Definition sample_dir : gmap string content :=
  {[ "audit.log" := Log 3; "idempotency.db" := Database 1; "idempotency.db-wal" := Log 2 ]}.
Definition sample_before : bworld content :=
  mkB (Some sample_dir) [] {[ "data-1.tar.gz" := mkArchive 5%Q (Some ∅) ]} [] 0.
Definition sample_later : bworld content := mkB (Some {[ "audit.log" := Log 9 ]}) [] ∅ [] 0.
Definition in_srv (name : string) : string := "/srv/" +:+ name.
Definition rows_of (f : content) (wal : option content) : gmap string Idempotency.Sqlite.row :=
  match f, wal with
  | Database 1, Some (Log 2) => {[ "order-1" := Idempotency.Sqlite.mkRow "tx1" Idempotency.Sqlite.COMMITTED "p1" 4%Q 4%Q ]}
  | _, _ => ∅
  end.
Lemma sample_newest (n : string) (a : archive content) : b_backups sample_before !! n = Some a ->
  n <> "data-9.tar.gz" -> is_archive_name n = true -> (a_mtime a < 9)%Q.
Proof. unfold sample_before. cbn [b_backups]. intros [<- <-]%lookup_singleton_Some _ _. by cbn. Qed.
Definition ok : nat -> fate exn := fun _ => Fine.
Definition any : string -> bool := fun _ => true.
Lemma backup_restore_roundtrip_witness :
  let '(o, w') := backup_cmd ok "data-9.tar.gz" 9%Q 1 sample_before in
  o = Ret tt /\ b_data w' = Some sample_dir /\
  exists a members, b_backups w' !! "data-9.tar.gz" = Some a /\ a_members a = Some members /\
    (forall n, members !! n = if transient n then None else sample_dir !! n) /\
    let '(o', r) := restore_cmd ok in_srv "/srv" any "20260101-000000" (Members members) true sample_later in
    o' = Ret tt /\ default ∅ (b_data r) = members /\
    b_aside r = [("data.pre-restore-20260101-000000", {[ "audit.log" := Log 9 ]})].
Proof.
  apply (backup_restore_roundtrip ok ok in_srv "/srv" any "data-9.tar.gz" "20260101-000000" 9%Q 1 sample_dir
           sample_before sample_later);
    [done|done|lia|done|exact sample_newest|by intros n _].
Defined.
Lemma backup_forgets_payouts_witness :
  let opened (t : option (gmap string content)) :=
    match default ∅ t !! "idempotency.db" with
    | Some f => rows_of f (default ∅ t !! "idempotency.db-wal")
    | None => ∅
    end in
  let answer t := match Idempotency.Sqlite.reserve_pass Fine Fine 9%Q "order-1" (Idempotency.Sqlite.mkStore "p2" true (opened t) (opened t)) with
                  | Idempotency.Done o _ => Some o
                  | _ => None
                  end in
  let w' := snd (backup_cmd ok "data-9.tar.gz" 9%Q 1 sample_before) in
  answer (b_data w') = Some (Ret (Some "tx1")) /\
  exists a members, b_backups w' !! "data-9.tar.gz" = Some a /\ a_members a = Some members /\
    answer (b_data (snd (restore_cmd ok in_srv "/srv" any "20260101-000000" (Members members) true sample_later))) = Some (Ret None).
Proof.
  apply (backup_forgets_payouts rows_of ok ok in_srv "/srv" any "data-9.tar.gz" "20260101-000000" 9%Q 1 sample_dir
           sample_before sample_later (Database 1) (Log 2) "order-1" "tx1" "p2"
           (Idempotency.Sqlite.mkRow "tx1" Idempotency.Sqlite.COMMITTED "p1" 4%Q 4%Q));
    [done|done|lia|done|exact sample_newest|by intros n _|done..].
Defined.
(** The check of the paths is a prefix test on the text: a sibling directory passes. *)
Example suspect_is_a_prefix_test : suspect (fun _ => "/srv/skr-evil/x") "/srv/skr" "../../skr-evil/x" = false.
Proof. reflexivity. Qed.
