(* ===== verification/CliDoctor.v ===== *)
(** * [skr-crypto doctor] ([commands/doctor.py])

    What the command reads of the host is a record of facts: files, programs on PATH, the
    process environment, free space, the answer of Telegram.  A check gives a status and a
    message; an exception none of the checks handles ends the command.  [Panels] shows them. *)
From S2P Require Import Prelude PyStr Effects Exceptions Base64 CliEnv.
From S2P Require Keystore KeyProviders Install ConfigLoad.
Import Keystore(json(..), jget, truthy).
Open Scope string_scope.

Inductive status := OK | WARN | FAIL.
#[global] Instance status_eq_dec : EqDecision status.
Proof. solve_decision. Defined.
Definition verdict : Type := status * string.

(** [subprocess.run(["git", "--version"], check=True)] and [requests.get]. *)
Inductive git_run := GitSays (stdout : string) | CalledProcessError (text : string) | GitBreaks (cls : string).
Inductive reply := NoReply (cls : string) | Reply (status_code : Z) (text_empty : bool) (body : json + exn).
Record host := mkHost {
  version_info : Z * Z * Z; which : string -> bool; git : git_run;
  stat : string -> option Z;                (** the mode of what exists *)
  text : string -> string + exn; disk_free : string -> Z + exn;
  environ : string -> option string; euid : Z; has_requests : bool; get_me : string -> reply }.

Section Doctor.
Context (repr : string -> string) (py_str : json -> string) (h : host).
Abbreviation check := (outcome cexn verdict).
Definition exists_ (p : string) : bool := match stat h p with Some _ => true | None => false end.

(** [f"{mode:o}"] for a mode of at most nine bits. *)
Definition oct (m : Z) : string :=
  let d k := str_of_Z (m / k mod 8) in
  if (m <? 8)%Z then d 1%Z else if (m <? 64)%Z then d 8%Z +:+ d 1%Z else d 64%Z +:+ d 8%Z +:+ d 1%Z.

(** An exception of the operating system or of a parser, unhandled. *)
Definition unhandled {A} (o : A + exn) (k : A -> check) : check :=
  match o with inl a => k a | inr e => Raise (Traceback (exn_class e)) end.
Definition with_env (root : string) (absent : verdict) (k : env_dict -> check) : check :=
  let env_path := path_join root ".env" in
  if exists_ env_path then unhandled (text h env_path) (fun t => k (read_env_text t)) else Ret absent.

Definition check_python : check :=
  let '(major, minor, micro) := version_info h in
  let mm := "Python " +:+ str_of_Z major +:+ "." +:+ str_of_Z minor in
  Ret (if ((major <? 3) || (major =? 3) && (minor <? 11))%Z then (FAIL, mm +:+ " — service needs ≥3.11")
       else (OK, mm +:+ "." +:+ str_of_Z micro)).

Definition check_git : check :=
  if negb (which h "git") then Ret (FAIL, "git not on PATH")
  else match git h with
       | GitSays out => Ret (OK, strip out)
       | CalledProcessError t => Ret (FAIL, "git --version failed: " +:+ t)
       | GitBreaks cls => Raise (Traceback cls)
       end.

(** [while not target.exists(): target = target.parent] *)
Fixpoint climb (fuel : nat) (target : string) : string :=
  if exists_ target then target
  else match fuel with O => target | S fuel => climb fuel (parent target) end.
Definition probe_dir (root : string) : string :=
  let target := if exists_ root then root else parent root in climb (String.length target) target.
Definition check_disk_space (root : string) : check :=
  let target := probe_dir root in
  unhandled (disk_free h target) (fun free =>
    let mb := str_of_Z (free / 1024 / 1024) in
    if (free <? 200 * 1024 * 1024)%Z then Ret (FAIL, "only " +:+ mb +:+ " MB free at " +:+ target)
    else if (free <? 1024 * 1024 * 1024)%Z then Ret (WARN, "only " +:+ mb +:+ " MB free at " +:+ target)
    else Ret (OK, mb +:+ " MB free at " +:+ target)).

Definition check_install (root : string) : check :=
  Ret (if exists_ (path_join root ".env") then (OK, root)
       else (WARN, "no install at " +:+ root +:+ " (run `skr-crypto install`)")).

Definition check_env_secrets (root : string) : check :=
  with_env root (WARN, ".env not present") (fun env =>
    let token := default "" (env_get "AUTH_TOKEN" env) in
    Ret (if String.eqb token "" then (FAIL, "AUTH_TOKEN unset")
         else if (String.length token <? 24)%nat then (WARN, "AUTH_TOKEN looks short (< 24 chars)")
         else if String.eqb (default "" (env_get "TRONGRID_API_KEY" env)) "" then (WARN, "TRONGRID_API_KEY unset (rate-limit risk)")
         else (OK, "auth + api key set"))).

Definition open_to_others (m : Z) : bool := negb (Z.land (Z.land m 511) 63 =? 0)%Z.
Definition check_env_perms (root : string) : check :=
  let env_path := path_join root ".env" in
  Ret match stat h env_path with
      | None => (WARN, ".env not present")
      | Some m => if open_to_others m then (FAIL, env_path +:+ " mode " +:+ oct (Z.land m 511) +:+ " — group/other can read it")
                  else (OK, ".env mode " +:+ oct (Z.land m 511))
      end.

Definition check_key_file (path : string) : verdict :=
  if String.eqb path "" then (FAIL, "KEY_PROVIDER=file but PRIVATE_KEY_FILE unset")
  else match stat h path with
       | None => (FAIL, "PRIVATE_KEY_FILE not found: " +:+ path)
       | Some m => if open_to_others m then (FAIL, path +:+ " mode " +:+ oct (Z.land m 511) +:+ " — service will refuse to load")
                   else (OK, "file " +:+ path +:+ " (mode " +:+ oct (Z.land m 511) +:+ ")")
       end.
Definition provider_verdict (env : env_dict) : verdict :=
  let provider := default "1password" (env_get "KEY_PROVIDER" env) in
  if String.eqb provider "1password" then
    if which h "op" then (OK, "1password (op CLI present)") else (FAIL, "KEY_PROVIDER=1password but `op` CLI not on PATH")
  else if String.eqb provider "env" then
    if String.eqb (default "" (environ h "PRIVATE_KEY_HEX")) "" then (WARN, "KEY_PROVIDER=env but PRIVATE_KEY_HEX is not exported")
    else (OK, "env (PRIVATE_KEY_HEX present)")
  else if String.eqb provider "file" then check_key_file (default "" (env_get "PRIVATE_KEY_FILE" env))
  else if String.eqb provider "keychain" then
    if which h "security" then (OK, "keychain (security tool present)")
    else (FAIL, "KEY_PROVIDER=keychain but `security` not on PATH")
  else (FAIL, "KEY_PROVIDER=" +:+ repr provider +:+ " is not a known value").
Definition check_key_provider (root : string) : check :=
  with_env root (WARN, ".env not present") (fun env => Ret (provider_verdict env)).

Definition check_data_dir (root : string) : check :=
  with_env root (WARN, ".env not present") (fun env =>
    let d := data_dir (from_install_dir root env) in
    Ret (if exists_ d then (OK, "data dir present (" +:+ d +:+ ")") else (WARN, "data dir missing at " +:+ d))).

Definition check_running_as_root : check :=
  Ret (if (euid h =? 0)%Z then (WARN, "running as root — not recommended for ops")
       else (OK, "running as uid " +:+ str_of_Z (euid h))).

(** [(data.get("result") or {}).get("username") or "?"] *)
Definition get_attr (k : string) (d : json) : outcome cexn json :=
  match d with JObj l => Ret (default JNull (jget k l)) | _ => Raise (Traceback "AttributeError") end.
Definition bot_name (data : json) : outcome cexn string :=
  match get_attr "result" data with
  | Ret r => match get_attr "username" (if truthy r then r else JObj []) with
             | Ret u => Ret (if truthy u then py_str u else "?")
             | Raise e => Raise e
             | Crash => Crash
             end
  | Raise e => Raise e
  | Crash => Crash
  end.
Definition read_reply (r : reply) : check :=
  match r with
  | NoReply cls => Ret (WARN, "Telegram unreachable: " +:+ cls)
  | Reply code text_empty body =>
      if (code =? 200)%Z then
        unhandled (if text_empty then inl (JObj []) else body) (fun data =>
          match bot_name data with
          | Ret u => Ret (OK, "Telegram bot @" +:+ u +:+ " reachable, chat_id set")
          | Raise e => Raise e
          | Crash => Crash
          end)
      else Ret (if (code =? 401)%Z then (FAIL, "Telegram getMe → 401: TELEGRAM_BOT_TOKEN is wrong")
                else (WARN, "Telegram getMe → " +:+ str_of_Z code))
  end.
Definition check_telegram_alerts (root : string) : check :=
  with_env root (OK, "alerts not configured (.env not present)") (fun env =>
    let token := default "" (env_get "TELEGRAM_BOT_TOKEN" env) in
    let chat := default "" (env_get "TELEGRAM_CHAT_ID" env) in
    let no s := String.eqb s "" in
    if no token && no chat then Ret (OK, "alerts not configured (opt-in)")
    else if no token || no chat then
      Ret (WARN, "alerts half-configured: only one of TELEGRAM_BOT_TOKEN / TELEGRAM_CHAT_ID is set — alerts stay disabled")
    else if negb (has_requests h) then
      Ret (WARN, "alerts configured but `requests` not installed; install skr-crypto[server] to enable the Telegram worker")
    else read_reply (get_me h token)).

(** The list of the checks, in order: the first exception ends it. *)
Fixpoint run_checks (l : list (string * check)) : outcome cexn (list (string * verdict)) :=
  match l with
  | [] => Ret []
  | (name, c) :: l =>
      match c with
      | Ret v => match run_checks l with Ret r => Ret ((name, v) :: r) | o => o end
      | Raise e => Raise e
      | Crash => Crash
      end
  end.
Definition checks (root : string) : list (string * check) := [
  ("python", check_python); ("git", check_git); ("disk space", check_disk_space root);
  ("install", check_install root); ("env perms", check_env_perms root); ("env secrets", check_env_secrets root);
  ("key provider", check_key_provider root); ("data dir", check_data_dir root);
  ("not as root", check_running_as_root); ("telegram", check_telegram_alerts root)].
(** What is printed and the exit code. *)
Definition doctor (resolve : string -> string) (override home : option string) : outcome cexn (list (string * verdict) * Z) :=
  match run_checks (checks (install_dir resolve override home)) with
  | Ret l => Ret (l, if existsb (fun c => bool_decide (c.2.1 = FAIL)) l then 1%Z else 0%Z)
  | Raise e => Raise e
  | Crash => Crash
  end.
End Doctor.

(** ** Lemmas *)

(** The climb ends at a directory that exists: the root directory does. *)
Lemma climb_ends (h : host) fuel : forall p, exists_ h "/" = true -> startswith "/" p = true ->
  (String.length p <= fuel)%nat -> exists_ h (climb h fuel p) = true.
Proof.
  induction fuel as [|fuel IH]; intros p Hr Hp Hl; cbn [climb]; destruct (exists_ h p) eqn:E; try done.
  - by destruct p; [|cbn in Hl; lia].
  - destruct (parent_abs p Hp) as [Ha [->|Hlt]].
    + destruct fuel; cbn [climb]; by rewrite Hr.
    + apply IH; [done..|lia].
Qed.

Lemma land_bits m : Z.land (Z.land m 511) 63 = Z.land m 63.
Proof. rewrite <- Z.land_assoc. reflexivity. Qed.

(** A command that ends with exit code 1, or by an exception click reports with 1. *)
Definition exits_1 {A} (o : outcome cexn (A * Z)) : Prop :=
  match o with Ret (_, c) => c = 1%Z | Raise e => exit_code e = 1%Z | Crash => False end.
Definition tame (c : outcome cexn verdict) : Prop :=
  match c with Ret _ => True | Raise e => exit_code e = 1%Z | Crash => False end.
Lemma run_checks_fail l name t : Forall (fun c => tame c.2) l -> In (name, Ret (FAIL, t)) l ->
  match run_checks l with
  | Ret r => existsb (fun c => bool_decide (c.2.1 = FAIL)) r = true
  | Raise e => exit_code e = 1%Z
  | Crash => False
  end.
Proof.
  induction l as [|[n c] l IH]; intros Ht Hin; [done|]. apply Forall_cons in Ht as [Hc Ht]. cbn in Hc. cbn [run_checks].
  destruct c as [v|e|]; [|done..].
  destruct Hin as [[= -> ->]|Hin].
  - assert (H : match run_checks l with Crash => False | Raise e => exit_code e = 1%Z | _ => True end).
    { clear -Ht. induction Ht as [|[n [v|e|]] l Hc Ht IH]; cbn in *; try done. by destruct (run_checks l). }
    by destruct (run_checks l).
  - specialize (IH Ht Hin). destruct (run_checks l); [|done..]. cbn. rewrite IH. apply orb_true_r.
Qed.
Lemma tame_unhandled {A} (o : A + exn) k : (forall a, tame (k a)) -> tame (unhandled o k).
Proof. intros H. destruct o as [a|e]; [apply H|done]. Qed.
Lemma tame_with_env h root absent k : (forall env, tame (k env)) -> tame (with_env h root absent k).
Proof. intros H. unfold with_env. destruct (exists_ h _); [|done]. by apply tame_unhandled. Qed.
Lemma tame_reply py_str r : tame (read_reply py_str r).
Proof.
  destruct r as [cls|code em body]; [done|]. cbn [read_reply]. destruct (code =? 200)%Z; [|done]. apply tame_unhandled.
  intros data. unfold bot_name, get_attr. destruct data; try done.
  match goal with |- context [truthy ?r] => destruct (truthy r); [destruct r|]; done end.
Qed.
Lemma checks_tame repr py_str h root : Forall (fun c => tame c.2) (checks repr py_str h root).
Proof.
  unfold checks. repeat (apply List.Forall_cons; [cbn [snd]|]); try done.
  - unfold check_python. by destruct (version_info h) as [[? ?] ?].
  - unfold check_git. destruct (negb _); [done|]. by destruct (git h).
  - apply tame_unhandled. intros free. by destruct (free <? _)%Z, (free <? 1024 * 1024 * 1024)%Z.
  - by apply tame_with_env.
  - by apply tame_with_env.
  - by apply tame_with_env.
  - apply tame_with_env. intros env. cbv zeta. do 3 match goal with |- tame (if ?b then _ else _) => destruct b; [done|] end. apply tame_reply.
Qed.
(** One failed check decides the exit code, whatever the others do. *)
Lemma doctor_fails repr py_str h resolve override home name t :
  In (name, Ret (FAIL, t)) (checks repr py_str h (install_dir resolve override home)) ->
  exits_1 (doctor repr py_str h resolve override home).
Proof.
  intros H. pose proof (run_checks_fail _ _ _ (checks_tame repr py_str h _) H) as Hr. unfold doctor.
  destruct (run_checks _); [|done..]. by rewrite Hr.
Qed.

(** ** The properties *)

(** For a service that reads one key from a file, [doctor] predicts what start-up does
    with it: it fails the check exactly when the server would refuse the file (not named,
    not there, or readable by others), and otherwise the server goes on to load the key
    from the bytes of the file. *)
Theorem doctor_predicts_key_file (E : KeyProviders.penv) (h : host) (repr : string -> string) (root t : string) (m : Z)
    (data : string -> outcome exn bytes) (missing : exn) (w : KeyProviders.pworld) :
  stat h (path_join root ".env") = Some m -> text h (path_join root ".env") = inl t ->
  env_get "KEY_PROVIDER" (read_env_text t) = Some "file" -> KeyProviders.KEY_PROVIDER E = "file" ->
  KeyProviders.PRIVATE_KEY_FILE E = default "" (env_get "PRIVATE_KEY_FILE" (read_env_text t)) ->
  strip (KeyProviders.WALLETS E) = "" -> exn_class missing = "FileNotFoundError" ->
  (forall p, KeyProviders.key_files E p = match stat h p with
                                          | None => KeyProviders.StatFails missing
                                          | Some m => KeyProviders.KeyFile m (data p)
                                          end) ->
  exists v, check_key_provider repr h root = Ret v /\
  match v.1 with
  | FAIL => KeyProviders.load_wallets E w = (Raise KeyProviders.SystemExit, w)
  | OK => forall b, data (KeyProviders.PRIVATE_KEY_FILE E) = Ret b ->
      KeyProviders.load_wallets E w =
      (let! raw := KeyProviders.new b in
       let! key := KeyProviders.decode_hex_to_bytes raw in
       KeyProviders.load_loop E [KeyProviders.mkLoaded KeyProviders.DEFAULT_WALLET_NAME key ""] []) w
  | WARN => False
  end.
Proof.
  intros Hs Ht Hp HE Hf Hw Hm Hk. unfold check_key_provider, with_env, exists_. rewrite Hs, Ht. cbn [unhandled].
  eexists. split; [reflexivity|]. unfold provider_verdict. rewrite Hp. cbn [from_option id String.eqb Ascii.eqb Bool.eqb].
  unfold KeyProviders.load_wallets, KeyProviders.get_key_provider, KeyProviders.file_load_wallets, KeyProviders.by_names,
    KeyProviders.wallet_names_from_config. rewrite HE, Hw, <- Hf. cbn [String.eqb Ascii.eqb Bool.eqb].
  generalize (KeyProviders.PRIVATE_KEY_FILE E). intros p. unfold check_key_file, KeyProviders.read_key_file.
  destruct (String.eqb p ""); [reflexivity|]. rewrite Hk. destruct (stat h p) as [mode|]; cbn [fst].
  - unfold open_to_others. rewrite land_bits. destruct (negb (Z.land mode 63 =? 0)%Z); cbn [fst]; [reflexivity|].
    intros b ->. unfold bind, ret. destruct (KeyProviders.new b w) as [[raw|e|] w1]; [|done..].
    by destruct (KeyProviders.decode_hex_to_bytes raw w1) as [[key|e|] w2].
  - rewrite Hm. reflexivity.
Qed.

(** Whoever installs with the keystore as key provider gets a configuration the server
    serves, and a [doctor] that always exits with 1 on it, on every host: the keystore is
    a provider it does not know. *)
Theorem doctor_condemns_keystore (h : host) (repr : string -> string) (py_str : json -> string) (resolve : string -> string)
    (override home : option string) (s : Install.settings) (token : string) (m : Z) :
  Install.file_ok s token -> Install.key_provider s = "encrypted_file" -> Install.network s ∈ Install.NETWORKS ->
  Install.runnable s token = true ->
  stat h (path_join (install_dir resolve override home) ".env") = Some m ->
  text h (path_join (install_dir resolve override home) ".env") = inl (env_text (Install.env_values_from s token)) ->
  (exists st, ConfigLoad.main (Install.dotenv (env_text (Install.env_values_from s token)))
                (ConfigLoad.mkArgs false None None) None =
              ConfigLoad.Serves (str_or (Install.bind_host s) "127.0.0.1") (Install.bind_port s) st) /\
  exits_1 (doctor repr py_str h resolve override home).
Proof.
  intros Hok Hp Hn Hr Hs Ht. split.
  - assert (Hkp : Install.key_provider s ∈ Install.KEY_PROVIDERS) by (rewrite Hp; by apply (bool_decide_unpack _)).
    destruct (Install.load_installed s token Hok Hkp Hn) as (st & Hl & Hc & Hh & Hpo & _).
    apply (Install.validate_installed s token Hkp Hn) in Hr. exists st. unfold ConfigLoad.main. rewrite Hl, Hc, Hr.
    by rewrite <- Hh, <- Hpo.
  - eapply (doctor_fails _ _ _ _ _ _ "key provider"). unfold checks. do 6 right. left. f_equal.
    unfold check_key_provider, with_env, exists_. rewrite Hs, Ht. cbn [unhandled]. f_equal.
    assert (G : env_get "KEY_PROVIDER" (read_env_text (env_text (Install.env_values_from s token))) = Some "encrypted_file").
    { pose proof (Install.getenv_installed s token "KEY_PROVIDER" "" Hok) as [G _].
      assert (env_get "KEY_PROVIDER" (Install.env_values_from s token) = Some (Install.key_provider s)) as E by reflexivity.
      unfold ConfigLoad.getenv, Install.dotenv in G. rewrite E, Hp in G. clear -G. revert G.
      generalize (env_get "KEY_PROVIDER" (read_env_text (env_text (Install.env_values_from s token)))).
      by intros [v|] G; cbn in G; [rewrite G|]. }
    unfold provider_verdict. by rewrite G.
Qed.

(** ** The hypotheses can hold *)
Definition demo_host (env : string) (stat : string -> option Z) : host :=
  mkHost (3%Z, 12%Z, 1%Z) (fun _ => true) (GitSays "git version 2.43.0") stat (fun _ => inl env) (fun _ => inl (2 ^ 40)%Z)
    (fun _ => None) 1000 true (fun _ => NoReply "Timeout").
Definition demo_files (p : string) : option Z :=
  if bool_decide (p ∈ ["/srv"; "/srv/.env"; "/"]) then Some 384%Z else if String.eqb p "/keys/a" then Some 420%Z else None.
Definition demo_missing : exn := EOther "FileNotFoundError" "".
Definition demo_penv : KeyProviders.penv :=
  KeyProviders.mkPenv "" "file" "/keys/a" "" "" "" "" false
    (fun p => match demo_files p with
              | None => KeyProviders.StatFails demo_missing
              | Some m => KeyProviders.KeyFile m (Ret [])
              end)
    (fun _ => KeyProviders.CliFails demo_missing) (fun _ => KeyProviders.CliFails demo_missing) (fun _ => Keystore.NoFile) None
    (KeystoreSpec.demo KeystoreSpec.fine_io (fun _ => Keystore.Whole)) (fun _ => Ret "TAddress").
Definition demo_file_env : string := env_text [("KEY_PROVIDER", "file"); ("PRIVATE_KEY_FILE", "/keys/a")].
Lemma doctor_predicts_key_file_witness :
  KeyProviders.load_wallets demo_penv (KeyProviders.demo_state ∅) = (Raise KeyProviders.SystemExit, KeyProviders.demo_state ∅).
Proof.
  destruct (doctor_predicts_key_file demo_penv (demo_host demo_file_env demo_files) (fun x => x) "/srv" demo_file_env 384
    (fun _ => Ret []) demo_missing (KeyProviders.demo_state ∅)) as (v & Hv & H); [reflexivity..|].
  vm_compute in Hv. injection Hv as <-. exact H.
Defined.
Definition keystore_settings : Install.settings :=
  Install.mkS "encrypted_file" (Install.mkExtras "" "" "" "" "" "" "data/keystore.json") "mainnet" "k-1" "0.0.0.0" 9000
    false false "" "" "" "50" "20" 600 30 60.
Lemma doctor_condemns_keystore_witness :
  exits_1 (doctor (fun x => x) (fun _ => "") (demo_host (env_text (Install.env_values_from keystore_settings "tok")) demo_files)
             (fun p => p) (Some "/srv") None).
Proof.
  apply (doctor_condemns_keystore (demo_host (env_text (Install.env_values_from keystore_settings "tok")) demo_files)
           (fun x => x) (fun _ => "") (fun p => p) (Some "/srv") None keystore_settings "tok" 384);
    [|reflexivity| |reflexivity..].
  - apply Install.file_ok_check. vm_compute. reflexivity.
  - by apply (bool_decide_unpack _).
Defined.
(** The climb of the disk check, on a host where the install directory is not made yet. *)
Example climb_example : probe_dir (demo_host "" demo_files) "/srv/a/b" = "/srv".
Proof. vm_compute. reflexivity. Qed.
(** A provider the server accepts in capitals is not known either. *)
Example capitals_condemned :
  provider_verdict (fun x => x) (demo_host "" demo_files) [("KEY_PROVIDER", "ENV")] = (FAIL, "KEY_PROVIDER=ENV is not a known value").
Proof. reflexivity. Qed.
