(* ===== verification/CliSetup.v ===== *)
(** * The setup wizard ([scripts/setup.py])

    The state is the files with their modes, the directories, the lines the operator
    types and the count of system calls, each of which may fail.  What is shown on the
    terminal is left out. *)
From S2P Require Import Prelude PyStr Effects Exceptions CliEnv.
From S2P Require ConfigLoad Decimal Install.
Open Scope string_scope.

Definition KEY_PROVIDERS : list string := ["1password"; "env"; "file"; "keychain"].

Record zworld := mkZ { z_c : cworld; z_dirs : gset string; z_lines : list string }.
Abbreviation MZ := (M zworld cexn).
Definition set_lines (l : list string) (w : zworld) : zworld := mkZ (z_c w) (z_dirs w) l.
Definition on_files {A} (m : M cworld cexn A) : MZ A := fun w =>
  let '(o, c) := m (z_c w) in (o, mkZ c (z_dirs w) (z_lines w)).

(** ** Prompts *)

(** [while True: x = _ask(p, default); if ok(x): break].  [conv] gives the value an answer
    stands for, or [None] to ask again; an empty line stands for the default, and without
    one [_ask] asks again.  Standard input ends with an EOFError. *)
Fixpoint until {A} (default : option string) (conv : string -> option A) (lines : list string) : option (A * list string) :=
  match lines with
  | [] => None
  | x :: lines =>
      let val := strip x in
      match (if String.eqb val "" then default else Some val) with
      | None => until default conv lines
      | Some v => match conv v with Some a => Some (a, lines) | None => until default conv lines end
      end
  end.
Definition prompt {A} (default : option string) (conv : string -> option A) : MZ A := fun w =>
  match until default conv (z_lines w) with
  | Some (a, l) => (Ret a, set_lines l w)
  | None => (Raise (Traceback "EOFError"), set_lines [] w)
  end.
Definition ask (default : option string) : MZ string := prompt default Some.
Definition ask_choice (choices : list string) (default : string) : MZ string :=
  prompt (Some default) (fun s => if bool_decide (lower s ∈ choices) then Some (lower s) else None).
Definition ask_yes_no (default_yes : bool) : MZ bool :=
  prompt (Some (if default_yes then "y" else "n")) (fun s =>
    if bool_decide (lower s ∈ ["y"; "yes"]) then Some true
    else if bool_decide (lower s ∈ ["n"; "no"]) then Some false else None).
(** The same with a validator, true when it finds no error. *)
Definition ask_valid (default : string) (valid : string -> bool) : MZ string :=
  prompt (Some default) (fun s => if valid s then Some s else None).

(** ** Validators: is the error text empty? *)
Definition validate_tron_address (addr : string) : bool := startswith "T" addr && (String.length addr =? 34)%nat.
Definition validate_int (min_val : Z) (s : string) : bool :=
  match int_of_str s with Some n => negb (n <? min_val)%Z | None => false end.
(** [float] also reads the infinities and nan, which is less than nothing. *)
Definition validate_decimal (min_val : Q) (s : string) : bool :=
  match ConfigLoad.float_of_str s with
  | Some q => negb (Qltb q min_val)
  | None => bool_decide (lower (strip s) ∈ ["inf"; "+inf"; "infinity"; "+infinity"; "nan"; "+nan"; "-nan"])
  end.
Definition is_hex (c : ascii) : bool :=
  is_digit c || PyStr.in_range 97 102 c || PyStr.in_range 65 70 c.
Definition validate_hex_key_no_save (s : string) : bool :=
  let s := strip s in
  let s := if startswith "0x" s || startswith "0X" s then Decimal.str_drop 2 s else s in
  str_forall is_hex s && (String.length s =? 64)%nat.

(** ** The .env file *)
Definition read_env (path : string) (w : zworld) : env_dict :=
  match c_files (z_c w) !! path with None => [] | Some f => read_env_text (t_text f) end.

Definition groups : list (string * list string) := [
  ("Auth", ["AUTH_TOKEN"]);
  ("Key provider", ["KEY_PROVIDER"; "OP_VAULT"; "OP_ITEM"; "OP_FIELD"; "PRIVATE_KEY_FILE"; "KEYCHAIN_SERVICE";
                    "KEYCHAIN_ACCOUNT"]);
  ("TRON network", ["TRON_NETWORK"; "TRONGRID_API_KEY"; "USDT_CONTRACT"; "USDT_FEE_LIMIT_SUN"; "MIN_TRX_RESERVE";
                    "TRON_HTTP_TIMEOUT"]);
  ("Cost / energy", ["TRON_ENERGY_PRICE_SUN_FALLBACK"; "MAX_ENERGY_BURN_TRX"; "FEE_LIMIT_SAFETY_MULT"]);
  ("Persistence", ["AUDIT_LOG_FILE"; "IDEMPOTENCY_DB_PATH"]);
  ("Server", ["SERVER_HOST"; "SERVER_PORT"; "SHUTDOWN_TIMEOUT"; "RATE_LIMIT_MAX"; "RATE_LIMIT_WINDOW"; "TRUSTED_PROXIES"])].
(** The keys of a group that have a value. *)
Definition written (values : env_dict) (keys : list string) : list string :=
  List.filter (fun k => negb (String.eqb (default "" (env_get k values)) "")) keys.
Definition entry (k v : string) : string := k +:+ "=" +:+ v.
Definition section (values : env_dict) (label : string) (keys : list string) : list string :=
  match written values keys with
  | [] => []
  | ks => ("# " +:+ label) :: map (fun k => entry k (default "" (env_get k values))) ks ++ [""]
  end%list.
Definition seen (values : env_dict) : list string := flat_map (fun g => written values g.2) groups.
Definition extras (values : env_dict) : env_dict :=
  List.filter (fun '(k, v) => negb (bool_decide (k ∈ seen values)) && negb (String.eqb v "")) values.
(** [stamp]: the time of the run. *)
Definition env_lines (stamp : string) (values : env_dict) : list string :=
  (["# Generated by scripts/setup.py — re-run any time to update."; "# Last run: " +:+ stamp; ""] ++
   flat_map (fun g => section values g.1 g.2) groups ++
   match extras values with
   | [] => []
   | ex => "# Other" :: map (fun '(k, v) => entry k v) ex ++ [""]
   end)%list.
Definition setup_text (stamp : string) (values : env_dict) : string := join nl (env_lines stamp values).

Fixpoint pop (k : string) (d : env_dict) : env_dict :=
  match d with [] => [] | (k', v) :: d => if String.eqb k k' then d else (k', v) :: pop k d end.

(** ** The wizard *)
Record key_fields := mkKeys {
  op_vault : string; op_item : string; op_field : string; pk_file : string; keychain_service : string;
  keychain_account : string }.
Record answers := mkAnswers {
  a_token : string; a_provider : string; a_keys : key_fields; a_network : string; a_api_key : string; a_contract : string;
  a_min_trx : string; a_max_burn : string; a_audit_log : string; a_idem_db : string; a_bind : string; a_port : string;
  a_shutdown : string }.

Definition PROVIDER_KEYS : list string :=
  ["OP_VAULT"; "OP_ITEM"; "OP_FIELD"; "PRIVATE_KEY_FILE"; "KEYCHAIN_SERVICE"; "KEYCHAIN_ACCOUNT"].
Definition common_values (a : answers) : env_dict := [
  ("AUTH_TOKEN", a_token a); ("KEY_PROVIDER", a_provider a); ("TRON_NETWORK", a_network a);
  ("TRONGRID_API_KEY", a_api_key a); ("USDT_CONTRACT", a_contract a); ("MIN_TRX_RESERVE", a_min_trx a);
  ("MAX_ENERGY_BURN_TRX", a_max_burn a); ("AUDIT_LOG_FILE", a_audit_log a); ("IDEMPOTENCY_DB_PATH", a_idem_db a);
  ("SERVER_HOST", a_bind a); ("SERVER_PORT", a_port a); ("SHUTDOWN_TIMEOUT", a_shutdown a)].
Definition provider_values (provider : string) (k : key_fields) : env_dict :=
  if String.eqb provider "1password" then [("OP_VAULT", op_vault k); ("OP_ITEM", op_item k); ("OP_FIELD", op_field k)]
  else if String.eqb provider "file" then [("PRIVATE_KEY_FILE", pk_file k)]
  else if String.eqb provider "keychain" then
    [("KEYCHAIN_SERVICE", keychain_service k); ("KEYCHAIN_ACCOUNT", keychain_account k)]
  else [].
Definition set_all (l : env_dict) (d : env_dict) : env_dict := fold_left (fun d e => env_set e.1 e.2 d) l d.
Definition values_of (existing : env_dict) (a : answers) : env_dict :=
  set_all (provider_values (a_provider a) (a_keys a))
    (fold_left (fun d k => pop k d) PROVIDER_KEYS (set_all (common_values a) existing)).

Section Wizard.
(** The fate of each system call, the mode of a new file, the project root, the random
    token and the times of the run. *)
Context (io : nat -> fate exn) (umask_mode : Z) (root token stamp ts : string).
Definition call : MZ unit := on_files (os_call io).
Definition ENV_PATH : string := path_join root ".env".
Definition file_at (p : string) (w : zworld) : option tfile := c_files (z_c w) !! p.

Definition write_env (path : string) (values : env_dict) : MZ unit :=
  do! call in
  let! mode := gets (fun w => mode_of umask_mode path (z_c w)) in
  do! on_files (put_file path (mkT mode "")) in
  do! call in
  do! on_files (put_file path (mkT mode (setup_text stamp values))) in
  do! call in
  on_files (put_file path (mkT 384 (setup_text stamp values))).
(** [path.with_suffix(".env.bak-ts")]: the name .env has no suffix. *)
Definition backup_path (path : string) : string := path +:+ ".env.bak-" +:+ ts.
Definition backup_existing (path : string) : MZ unit :=
  let! f := gets (file_at path) in
  match f with
  | None => ret tt
  | Some f => do! call in on_files (put_file (backup_path path) f)
  end.

Definition ask_token (existing : env_dict) : MZ string :=
  let current := env_get "AUTH_TOKEN" existing in
  let! generate := ask_yes_no (String.eqb (default "" current) "") in
  if generate then ret token else ask current.

(** The loop on the path of the key file; each round reads a line at least. *)
Fixpoint ask_key_file (fuel : nat) (default : string) : MZ string :=
  let! p := ask (Some default) in
  let! f := gets (file_at p) in
  match f with
  | Some f =>
      if negb (Z.land (Z.land (t_mode f) 511) 63 =? 0)%Z then
        let! fix_mode := ask_yes_no true in
        do! when fix_mode (do! call in on_files (put_file p (mkT 384 (t_text f)))) in
        ret p
      else ret p
  | None =>
      let! go := ask_yes_no true in
      if go then ret p
      else match fuel with O => raise (Traceback "EOFError") | S fuel => ask_key_file fuel default end
  end.
Definition had (existing : env_dict) (k dflt : string) : string := default dflt (env_get k existing).
Definition ask_keys (provider : string) (existing : env_dict) : MZ key_fields :=
  if String.eqb provider "1password" then
    let! v := ask (Some (had existing "OP_VAULT" "Treasury")) in
    let! i := ask (Some (had existing "OP_ITEM" "TRON-Treasury")) in
    let! f := ask (Some (had existing "OP_FIELD" "password")) in
    ret (mkKeys v i f "" "" "")
  else if String.eqb provider "env" then
    let! test := ask_yes_no false in
    do! when test (let! _ := ask_valid "" validate_hex_key_no_save in ret tt) in
    ret (mkKeys "" "" "" "" "" "")
  else if String.eqb provider "file" then
    let! n := gets (fun w => List.length (z_lines w)) in
    let! p := ask_key_file n (had existing "PRIVATE_KEY_FILE" "/etc/payouts/treasury.key") in
    ret (mkKeys "" "" "" p "" "")
  else if String.eqb provider "keychain" then
    let! s := ask (Some (had existing "KEYCHAIN_SERVICE" "payouts")) in
    let! a := ask (Some (had existing "KEYCHAIN_ACCOUNT" "treasury")) in
    ret (mkKeys "" "" "" "" s a)
  else ret (mkKeys "" "" "" "" "" "").
Definition ask_all (existing : env_dict) : MZ answers :=
  let! tok := ask_token existing in
  let! provider := ask_choice KEY_PROVIDERS (had existing "KEY_PROVIDER" "1password") in
  let! keys := ask_keys provider existing in
  let! network := ask_choice ["mainnet"; "shasta"; "nile"] (had existing "TRON_NETWORK" "mainnet") in
  let! api_key := ask (Some (had existing "TRONGRID_API_KEY" "")) in
  let! contract := ask_valid (had existing "USDT_CONTRACT" "TR7NHqjeKQxGTCi8q8ZY4pL8otSzgjLj6t") validate_tron_address in
  let! min_trx := ask_valid (had existing "MIN_TRX_RESERVE" "50") (validate_decimal 0) in
  let! max_burn := ask_valid (had existing "MAX_ENERGY_BURN_TRX" "20") (validate_decimal 0) in
  let! audit_log := ask (Some (had existing "AUDIT_LOG_FILE" "data/audit.log")) in
  let! idem_db := ask (Some (had existing "IDEMPOTENCY_DB_PATH" "data/idempotency.db")) in
  let! bind_ := ask (Some (had existing "SERVER_HOST" "127.0.0.1")) in
  let! port := ask_valid (had existing "SERVER_PORT" "8000") (validate_int 1) in
  let! shutdown := ask_valid (had existing "SHUTDOWN_TIMEOUT" "600") (validate_int 60) in
  ret (mkAnswers tok provider keys network api_key contract min_trx max_burn audit_log idem_db bind_ port shutdown).

Definition exists_dir (p : string) (w : zworld) : bool :=
  bool_decide (p ∈ z_dirs w) || match file_at p w with Some _ => true | None => false end.
(** A directory and the ones it is in. *)
Fixpoint with_parents (fuel : nat) (d : string) : gset string :=
  {[ d ]} ∪ match fuel with O => ∅ | S fuel => if String.eqb d "/" then ∅ else with_parents fuel (parent d) end.
Definition make_parent (path_str : string) : MZ unit :=
  if String.eqb path_str "" || is_absolute path_str then ret tt
  else
    let d := parent (path_join root path_str) in
    let! there := gets (exists_dir d) in
    when (negb there)
      (do! call in modify (fun w => mkZ (z_c w) (with_parents (String.length d) d ∪ z_dirs w) (z_lines w))).

(** The exit code. *)
Definition main : MZ Z :=
  let! existing := gets (read_env ENV_PATH) in
  let! a := ask_all existing in
  do! backup_existing ENV_PATH in
  let! go := ask_yes_no true in
  if negb go then ret 1%Z
  else
    do! write_env ENV_PATH (values_of existing a) in
    do! make_parent (a_audit_log a) in
    do! make_parent (a_idem_db a) in
    ret 0%Z.
End Wizard.

(** ** Lemmas: dicts *)
Lemma env_get_set k k' v d : env_get k (env_set k' v d) = if String.eqb k k' then Some v else env_get k d.
Proof.
  induction d as [|[k2 v2] d IH]; cbn; [done|]. destruct (String.eqb_spec k' k2) as [->|Hn]; cbn.
  - by destruct (String.eqb k k2).
  - rewrite IH. destruct (String.eqb_spec k k2) as [->|]; [|done]. by rewrite (proj2 (String.eqb_neq _ _)) by congruence.
Qed.
Lemma env_set_keys k v d : map fst (env_set k v d) = if bool_decide (k ∈ map fst d) then map fst d else (map fst d ++ [k])%list.
Proof.
  induction d as [|[k' v'] d IH]; cbn; [done|]. destruct (String.eqb_spec k k') as [->|Hn]; cbn.
  - by rewrite bool_decide_true by (by left).
  - rewrite IH. rewrite (bool_decide_ext (k ∈ k' :: map fst d) (k ∈ map fst d)) by (rewrite elem_of_cons; naive_solver).
    by destruct (bool_decide _).
Qed.
Lemma env_set_nodup k v d : NoDup (map fst d) -> NoDup (map fst (env_set k v d)).
Proof.
  intros H. rewrite env_set_keys. destruct (bool_decide _) eqn:E; [done|]. apply bool_decide_eq_false in E.
  apply NoDup_app. split_and!; [done| |apply NoDup_singleton]. intros x Hx ->%list_elem_of_singleton. done.
Qed.
Lemma add_line_nodup d raw : NoDup (map fst d) -> NoDup (map fst (add_line d raw)).
Proof. intros H. unfold add_line. destruct (env_line raw) as [[k v]|]; [by apply env_set_nodup|done]. Qed.
Lemma read_nodup t : NoDup (map fst (read_env_text t)).
Proof.
  unfold read_env_text. assert (H : NoDup (map fst ([] : env_dict))) by constructor. revert H. generalize ([] : env_dict).
  induction (splitlines t) as [|x l IH]; intros d Hd; [done|]. cbn. by apply IH, add_line_nodup.
Qed.
Lemma env_get_pop k k' d : NoDup (map fst d) -> env_get k (pop k' d) = if String.eqb k k' then None else env_get k d.
Proof.
  induction d as [|[k2 v2] d IH]; intros Hn; cbn; [by destruct (String.eqb k k')|]. cbn in Hn. apply NoDup_cons in Hn as [H2 Hn].
  destruct (String.eqb_spec k' k2) as [->|Hne].
  - destruct (String.eqb_spec k k2) as [->|]; [|done]. by apply Install.env_get_absent.
  - cbn. rewrite IH by done. destruct (String.eqb_spec k k2) as [->|]; [|done]. by rewrite (proj2 (String.eqb_neq _ _)) by congruence.
Qed.
Lemma pop_sub k d : map fst (pop k d) `sublist_of` map fst d.
Proof. induction d as [|[k' v] d IH]; cbn; [done|]. destruct (String.eqb k k'); cbn; by constructor. Qed.
Lemma pop_nodup k d : NoDup (map fst d) -> NoDup (map fst (pop k d)).
Proof. intros H. eapply sublist_NoDup; [exact H|apply pop_sub]. Qed.
Lemma set_all_nodup l : forall d, NoDup (map fst d) -> NoDup (map fst (set_all l d)).
Proof. induction l as [|e l IH]; intros d H; [done|]. cbn. by apply IH, env_set_nodup. Qed.
Lemma env_get_in k v (d : env_dict) : NoDup (map fst d) -> In (k, v) d -> env_get k d = Some v.
Proof.
  induction d as [|[k' v'] d IH]; [done|]. cbn. intros [Hn Hd]%NoDup_cons [[= -> ->]|Hi]; [by rewrite String.eqb_refl|].
  destruct (String.eqb_spec k k') as [->|]; [|by apply IH]. exfalso. apply Hn, list_elem_of_In. by apply (in_map fst) in Hi.
Qed.
Lemma env_get_some k v (d : env_dict) : env_get k d = Some v -> In (k, v) d.
Proof.
  induction d as [|[k' v'] d IH]; [done|]. cbn. destruct (String.eqb_spec k k') as [->|]; [intros [= ->]; by left|].
  intros H. right. by apply IH.
Qed.

(** ** Lemmas: the text written, read back *)

(** Comments and blank lines add nothing. *)
Definition skipped (line : string) : Prop := forall d, add_line d line = d.
Lemma skipped_blank : skipped "". Proof. done. Qed.
Lemma skipped_comment s : skipped ("# " +:+ s).
Proof.
  intros d. unfold add_line, env_line.
  assert (H : exists r, strip ("# " +:+ s) = String "#" r).
  { unfold strip. rewrite !append_cons. cbn [lstrip_with]. change (is_space "#") with false. cbv iota. cbn [rstrip_with].
    destruct (rstrip_with is_space _); [|by eexists]. by exists "". }
  by destruct H as [r ->].
Qed.
(** A line that is skipped, or the entry of a key with the value [g] gives it. *)
Inductive line_of (g : string -> string) : string -> option string -> Prop :=
| L_skip x : skipped x -> line_of g x None
| L_entry k : key_ok k = true -> line_of g (entry k (g k)) (Some k).
Lemma fold_lines g k : forall lines keys d, Forall2 (line_of g) lines keys ->
  env_get k (fold_left add_line lines d) = if bool_decide (Some k ∈ keys) then Some (env_value (g k)) else env_get k d.
Proof.
  intros lines keys d H. revert d. induction H as [|x o lines keys Hx H IH]; intros d; cbn [fold_left]; [done|].
  rewrite IH. destruct (bool_decide (Some k ∈ keys)) eqn:E.
  - apply bool_decide_eq_true in E. by rewrite bool_decide_true by (by right).
  - apply bool_decide_eq_false in E. destruct Hx as [x Hx|k' Hk].
    + rewrite Hx, bool_decide_false; [done|]. intros [Hc|Hc]%elem_of_cons; done.
    + unfold add_line, entry. rewrite env_line_entry by done. rewrite env_get_set. destruct (String.eqb_spec k k') as [->|Hn].
      * by rewrite bool_decide_true by (by left).
      * rewrite bool_decide_false; [done|]. intros [[= ->]|Hc]%elem_of_cons; done.
Qed.
Definition keys_of_section (values : env_dict) (keys : list string) : list (option string) :=
  match written values keys with [] => [] | ks => None :: map Some ks ++ [None] end%list.
Lemma entries_lines g ks : forallb key_ok ks = true -> Forall2 (line_of g) (map (fun k => entry k (g k)) ks) (map Some ks).
Proof. induction ks as [|k ks IH]; cbn; [constructor|]. intros [Hk H]%andb_true_iff. constructor; [by constructor|by apply IH]. Qed.
Lemma section_lines values label keys : forallb key_ok keys = true ->
  Forall2 (line_of (fun k => default "" (env_get k values))) (section values label keys) (keys_of_section values keys).
Proof.
  intros H. unfold section, keys_of_section. assert (Hw : forallb key_ok (written values keys) = true).
  { apply forallb_forall. intros k [Hk _]%filter_In. rewrite forallb_forall in H. by apply H. }
  destruct (written values keys) as [|k ks]; [constructor|]. constructor; [apply L_skip, skipped_comment|].
  apply Forall2_app; [by apply (entries_lines (fun k => default "" (env_get k values)))|]. constructor; [apply L_skip, skipped_blank|constructor].
Qed.
Definition keys_of_env (values : env_dict) : list (option string) :=
  ([None; None; None] ++ flat_map (fun g => keys_of_section values g.2) groups ++
   match extras values with [] => [] | ex => None :: map Some (map fst ex) ++ [None] end)%list.
Lemma env_lines_read stamp values : forallb entry_ok values = true -> NoDup (map fst values) ->
  Forall2 (line_of (fun k => default "" (env_get k values))) (env_lines stamp values) (keys_of_env values).
Proof.
  intros Hok Hn. unfold env_lines, keys_of_env. apply Forall2_app.
  { constructor; [apply L_skip, (skipped_comment "Generated by scripts/setup.py — re-run any time to update.")|].
    constructor; [apply L_skip, (skipped_comment ("Last run: " +:+ stamp))|].
    constructor; [apply L_skip, skipped_blank|constructor]. }
  apply Forall2_app.
  { assert (H : Forall (fun g => forallb key_ok g.2 = true) groups) by (repeat constructor).
    induction H as [|g gs Hg H IH]; cbn [flat_map]; [constructor|]. apply Forall2_app; [by apply section_lines|done]. }
  assert (Hex : forall e, In e (extras values) -> In e values /\ key_ok e.1 = true).
  { intros [k v] [Hi _]%filter_In. split; [done|]. rewrite forallb_forall in Hok. specialize (Hok _ Hi).
    unfold entry_ok in Hok. cbn in *. by bcases. }
  destruct (extras values) as [|e ex]; [constructor|]. constructor; [apply L_skip, (skipped_comment "Other")|].
  apply Forall2_app; [|constructor; [apply L_skip, skipped_blank|constructor]].
  revert Hex. generalize (e :: ex). clear e ex. intros ex Hex. induction ex as [|[k v] ex IH]; cbn; [constructor|].
  destruct (Hex (k, v)) as [Hi Hk]; [by left|]. constructor; [|apply IH; intros; apply Hex; by right].
  assert (E : v = default "" (env_get k values)) by (by rewrite (env_get_in k v)). rewrite E. by apply L_entry.
Qed.
Lemma written_in values k keys : k ∈ written values keys <-> k ∈ keys /\ default "" (env_get k values) <> "".
Proof.
  unfold written. rewrite !list_elem_of_In, filter_In, negb_true_iff, String.eqb_neq. done.
Qed.
Lemma section_keys_in values k keys : Some k ∈ keys_of_section values keys <-> k ∈ written values keys.
Proof.
  unfold keys_of_section. destruct (written values keys) as [|k1 ks]; [by split; intros ?%elem_of_nil|].
  rewrite elem_of_cons, elem_of_app, list_elem_of_singleton, list_elem_of_fmap. split.
  - intros [?|[(x & [= ->] & H)|?]]; done.
  - intros H. right. left. by exists k.
Qed.
Lemma env_keys_in values k : NoDup (map fst values) ->
  Some k ∈ keys_of_env values <-> default "" (env_get k values) <> "".
Proof.
  intros Hn. unfold keys_of_env. rewrite !elem_of_app.
  assert (Hs : Some k ∈ flat_map (fun g => keys_of_section values g.2) groups <-> k ∈ seen values).
  { unfold seen. rewrite !list_elem_of_In, !in_flat_map. split; intros (g & Hg & Hk); exists g; (split; [done|]);
      apply list_elem_of_In; apply list_elem_of_In in Hk; by apply (section_keys_in values k g.2). }
  assert (Hseen : k ∈ seen values -> default "" (env_get k values) <> "").
  { unfold seen. rewrite list_elem_of_In, in_flat_map. intros (g & _ & Hk%list_elem_of_In). by apply (written_in values k g.2) in Hk as [_ Hk]. }
  assert (Hex : Some k ∈ match extras values with [] => [] | ex => None :: map Some (map fst ex) ++ [None] end%list
                <-> exists v, In (k, v) (extras values)).
  { destruct (extras values) as [|e ex]; [split; [by intros ?%elem_of_nil|by intros [? ?]]|].
    rewrite elem_of_cons, elem_of_app, list_elem_of_singleton, list_elem_of_fmap. split.
    - intros [?|[(x & [= ->] & H)|?]]; try done. apply list_elem_of_In, in_map_iff in H as ([k' v] & <- & H). by exists v.
    - intros [v H]. right. left. exists k. split; [done|]. apply list_elem_of_In. by apply (in_map fst) in H. }
  rewrite Hs, Hex. split.
  - intros [H|[H|[v [Hi Hf]%filter_In]]]; [|by apply Hseen|].
    + rewrite !elem_of_cons in H. destruct H as [H|[H|[H|H]]]; try done. by apply elem_of_nil in H.
    + rewrite (env_get_in k v) by done. bcases. by apply String.eqb_neq.
  - intros H. right. destruct (decide (k ∈ seen values)) as [Hk|Hk]; [by left|]. right.
    destruct (env_get k values) as [v|] eqn:E; [|done]. exists v. apply filter_In. split; [by apply env_get_some|].
    rewrite bool_decide_false by done. cbn in *. by apply negb_true_iff, String.eqb_neq.
Qed.

(** The lines of a text, whether or not the last one is empty. *)
Lemma splitlines_last x : one_line x = true -> forall cur, splitlines_from cur x = if String.eqb (cur +:+ x) "" then [] else [cur +:+ x].
Proof.
  induction x as [|c x IH]; intros Hx cur.
  - rewrite append_nil_r. cbn. by destruct cur.
  - cbn in Hx. apply andb_true_iff in Hx as [Hc Hx]. apply negb_true_iff in Hc. cbn [splitlines_from]. rewrite Hc, IH by done.
    by rewrite append_assoc.
Qed.
Lemma fold_text (lines : list string) : Forall (fun x => one_line x = true) lines -> forall d,
  fold_left add_line (splitlines (join nl lines)) d = fold_left add_line lines d.
Proof.
  unfold splitlines. induction 1 as [|x l Hx Hl IH]; intros d; [done|]. destruct l as [|y l].
  - cbn [join]. rewrite splitlines_last by done. rewrite append_nil_l. destruct (String.eqb_spec x "") as [->|]; done.
  - change (join nl (x :: y :: l)) with (x +:+ nl +:+ join nl (y :: l)). rewrite splitlines_go by done. cbn [fold_left].
    rewrite append_nil_l. apply IH.
Qed.
Lemma env_lines_one_line stamp values : forallb entry_ok values = true -> one_line stamp = true ->
  Forall (fun x => one_line x = true) (env_lines stamp values).
Proof.
  intros Hok Hs. assert (He : forall k v, key_ok k = true -> one_line v = true -> one_line (entry k v) = true).
  { intros k v Hk Hv. unfold entry, one_line. rewrite !str_forall_append. apply key_one_line in Hk. unfold one_line in *.
    by rewrite Hk, Hv. }
  assert (Hv : forall k, one_line (default "" (env_get k values)) = true).
  { intros k. destruct (env_get k values) as [v|] eqn:E; [|done]. apply env_get_some in E. rewrite forallb_forall in Hok.
    specialize (Hok _ E). unfold entry_ok in Hok. cbn in *. by bcases. }
  unfold env_lines. rewrite !Forall_app. split_and!.
  - apply List.Forall_cons; [reflexivity|]. apply List.Forall_cons; [|by apply List.Forall_cons].
    unfold one_line. by rewrite str_forall_append.
  - assert (Hg : Forall (fun g => one_line g.1 = true /\ forallb key_ok g.2 = true) groups) by (repeat constructor).
    induction Hg as [|g gs [Hl Hk] Hg IH]; cbn [flat_map]; [constructor|]. apply Forall_app. split; [|done].
    unfold section. destruct (written values g.2) as [|k ks] eqn:Ew; [constructor|]. rewrite <- Ew.
    apply List.Forall_cons; [unfold one_line; by rewrite str_forall_append|]. apply Forall_app. split; [|by constructor].
    apply List.Forall_forall. intros x (k' & <- & Hk')%in_map_iff. apply He; [|apply Hv].
    unfold written in Hk'. apply filter_In in Hk' as [Hk' _]. rewrite forallb_forall in Hk. by apply Hk.
  - destruct (extras values) as [|e ex] eqn:Ee; [constructor|]. rewrite <- Ee. apply List.Forall_cons; [reflexivity|].
    apply Forall_app. split; [|by constructor]. apply List.Forall_forall. intros x ([k v] & <- & Hk)%in_map_iff.
    unfold extras in Hk. apply filter_In in Hk as [Hk _]. rewrite forallb_forall in Hok. specialize (Hok _ Hk).
    unfold entry_ok in Hok. cbn in *. bcases. by apply He.
Qed.
Lemma setup_reads stamp values k : forallb entry_ok values = true -> NoDup (map fst values) -> one_line stamp = true ->
  env_get k (read_env_text (setup_text stamp values)) =
  let v := default "" (env_get k values) in if String.eqb v "" then None else Some (env_value v).
Proof.
  intros Hok Hn Hs. unfold read_env_text, setup_text. rewrite fold_text by (by apply env_lines_one_line).
  rewrite (fold_lines _ k _ _ [] (env_lines_read stamp values Hok Hn)). cbn [env_get]. cbv zeta.
  destruct (String.eqb_spec (default "" (env_get k values)) "") as [E|E].
  - rewrite bool_decide_false; [done|]. rewrite env_keys_in by done. by intros H.
  - rewrite bool_decide_true; [done|]. by rewrite env_keys_in by done.
Qed.
Lemma plain_value v : plain v = true -> env_value v = v.
Proof. by rewrite env_value_exact. Qed.

(** ** Lemmas: a run in which every answer is empty *)
Definition blank (x : string) : Prop := strip x = "".
(** [n] empty lines are left, and no text of a file changed. *)
Definition ready (n : nat) (w0 w : zworld) : Prop :=
  Forall blank (z_lines w) /\ (n <= List.length (z_lines w))%nat /\
  forall p, t_text <$> file_at p w = t_text <$> file_at p w0.
Lemma ready_le n m w0 w : (m <= n)%nat -> ready n w0 w -> ready m w0 w.
Proof. intros Hm (H1 & H2 & H3). split_and!; [done|lia|done]. Qed.
Lemma prompt_blank {A} d (conv : string -> option A) a n w0 w : conv d = Some a -> ready (S n) w0 w ->
  exists w', prompt (Some d) conv w = (Ret a, w') /\ ready n w0 w'.
Proof.
  intros Hc (H1 & H2 & H3). unfold prompt. destruct (z_lines w) as [|x l] eqn:E; [cbn in H2; lia|].
  apply Forall_cons in H1 as [Hx Hl]. cbn [until]. unfold blank in Hx. rewrite Hx. cbn [String.eqb]. rewrite Hc.
  eexists. split; [reflexivity|]. split_and!; [done|cbn in *; lia|done].
Qed.
Lemma ask_step {A B} d (conv : string -> option A) a (k : A -> MZ B) Q n w0 w : conv d = Some a -> ready (S n) w0 w ->
  (forall w', ready n w0 w' -> wp (k a) Q w') -> wp (bind (prompt (Some d) conv) k) Q w.
Proof.
  intros Hc Hr Hk. destruct (prompt_blank d conv a n w0 w Hc Hr) as (w' & E & Hw'). unfold wp, bind. rewrite E.
  by apply Hk.
Qed.
Lemma ask_step_ {A} d (conv : string -> option A) a (Q : outcome cexn A -> zworld -> Prop) n w0 w : conv d = Some a ->
  ready (S n) w0 w -> (forall w', ready n w0 w' -> Q (Ret a) w') -> wp (prompt (Some d) conv) Q w.
Proof. intros Hc Hr Hk. destruct (prompt_blank d conv a n w0 w Hc Hr) as (w' & E & Hw'). unfold wp. rewrite E. by apply Hk. Qed.
Lemma yes_conv d : (fun s => if bool_decide (lower s ∈ ["y"; "yes"]) then Some true
    else if bool_decide (lower s ∈ ["n"; "no"]) then Some false else None) (if d : bool then "y" else "n") = Some d.
Proof. by destruct d. Qed.
Lemma choice_conv l s : forallb (fun x => String.eqb (lower x) x) l = true -> s ∈ l ->
  (fun s => if bool_decide (lower s ∈ l) then Some (lower s) else None) s = Some s.
Proof.
  intros Hl Hs. rewrite forallb_forall in Hl. apply list_elem_of_In in Hs as Hi. specialize (Hl _ Hi). apply String.eqb_eq in Hl.
  cbv beta. rewrite Hl. by rewrite bool_decide_true.
Qed.
Lemma valid_conv (valid : string -> bool) s : valid s = true -> (fun s => if valid s then Some s else None) s = Some s.
Proof. intros H. cbv beta. by rewrite H. Qed.

(** What every prompt offers, when the file has a usable value for each. *)
Definition kept_keys (provider : string) (g : string -> string) : key_fields :=
  if String.eqb provider "1password" then mkKeys (g "OP_VAULT") (g "OP_ITEM") (g "OP_FIELD") "" "" ""
  else if String.eqb provider "file" then mkKeys "" "" "" (g "PRIVATE_KEY_FILE") "" ""
  else if String.eqb provider "keychain" then mkKeys "" "" "" "" (g "KEYCHAIN_SERVICE") (g "KEYCHAIN_ACCOUNT")
  else mkKeys "" "" "" "" "" "".
Definition kept (existing : env_dict) : answers :=
  let g k := had existing k "" in
  mkAnswers (g "AUTH_TOKEN") (g "KEY_PROVIDER") (kept_keys (g "KEY_PROVIDER") g) (g "TRON_NETWORK") (g "TRONGRID_API_KEY")
    (g "USDT_CONTRACT") (g "MIN_TRX_RESERVE") (g "MAX_ENERGY_BURN_TRX") (g "AUDIT_LOG_FILE") (g "IDEMPOTENCY_DB_PATH")
    (g "SERVER_HOST") (g "SERVER_PORT") (g "SHUTDOWN_TIMEOUT").
Definition used_keys (provider : string) : list string := map fst (provider_values provider (mkKeys "" "" "" "" "" "")).
Definition settled (existing : env_dict) : bool :=
  let g k := had existing k "" in
  let some k := negb (String.eqb (g k) "") in
  some "AUTH_TOKEN" && bool_decide (g "KEY_PROVIDER" ∈ KEY_PROVIDERS) &&
  bool_decide (g "TRON_NETWORK" ∈ ["mainnet"; "shasta"; "nile"]) && validate_tron_address (g "USDT_CONTRACT") &&
  validate_decimal 0 (g "MIN_TRX_RESERVE") && validate_decimal 0 (g "MAX_ENERGY_BURN_TRX") && some "AUDIT_LOG_FILE" &&
  some "IDEMPOTENCY_DB_PATH" && some "SERVER_HOST" && validate_int 1 (g "SERVER_PORT") && validate_int 60 (g "SHUTDOWN_TIMEOUT") &&
  forallb (fun k => Bool.eqb (bool_decide (k ∈ used_keys (g "KEY_PROVIDER"))) (some k)) PROVIDER_KEYS.

Lemma had_some existing k d : had existing k "" <> "" -> had existing k d = had existing k "".
Proof. unfold had. by destruct (env_get k existing). Qed.
Lemma had_valid (valid : string -> bool) existing k d : valid "" = false -> valid (had existing k "") = true ->
  had existing k d = had existing k "".
Proof. intros H1 H2. apply had_some. intros E. by rewrite E, H1 in H2. Qed.
Lemma had_in (l : list string) existing k d : "" ∉ l -> had existing k "" ∈ l -> had existing k d = had existing k "".
Proof. intros H1 H2. apply had_some. intros E. by rewrite E in H2. Qed.

Lemma env_get_set_all k l : forall d, NoDup (map fst l) ->
  env_get k (set_all l d) = match env_get k l with Some v => Some v | None => env_get k d end.
Proof.
  induction l as [|[k' v] l IH]; intros d Hn; [done|]. cbn [map fst] in Hn. apply NoDup_cons in Hn as [Hk Hn].
  unfold set_all in *. cbn [fold_left fst snd env_get]. rewrite IH, env_get_set by done.
  destruct (String.eqb_spec k k') as [->|]; [by rewrite Install.env_get_absent|]. done.
Qed.
Lemma env_get_pops k ks : forall d, NoDup (map fst d) ->
  env_get k (fold_left (fun d k => pop k d) ks d) = if bool_decide (k ∈ ks) then None else env_get k d.
Proof.
  induction ks as [|k' ks IH]; intros d Hn; [done|]. cbn [fold_left]. rewrite IH, env_get_pop by (done || by apply pop_nodup).
  destruct (String.eqb_spec k k') as [->|Hne].
  - rewrite (bool_decide_true (k' ∈ k' :: ks)) by (by left). by destruct (bool_decide _).
  - by rewrite (bool_decide_ext (k ∈ k' :: ks) (k ∈ ks)) by (rewrite elem_of_cons; naive_solver).
Qed.
Lemma pops_nodup ks : forall d, NoDup (map fst d) -> NoDup (map fst (fold_left (fun d k => pop k d) ks d)).
Proof. induction ks as [|k ks IH]; intros d H; [done|]. cbn. by apply IH, pop_nodup. Qed.
Lemma values_nodup existing a : NoDup (map fst existing) -> NoDup (map fst (values_of existing a)).
Proof. intros H. by apply set_all_nodup, pops_nodup, set_all_nodup. Qed.
Lemma provider_nodup provider k : NoDup (map fst (provider_values provider k)).
Proof. unfold provider_values. repeat destruct (String.eqb _ _); by apply (bool_decide_unpack _). Qed.
Lemma values_get k existing a : NoDup (map fst existing) ->
  env_get k (values_of existing a) =
  match env_get k (provider_values (a_provider a) (a_keys a)) with
  | Some v => Some v
  | None => if bool_decide (k ∈ PROVIDER_KEYS) then None
            else match env_get k (common_values a) with Some v => Some v | None => env_get k existing end
  end.
Proof.
  intros H. unfold values_of. assert (Hc : NoDup (map fst (common_values a))) by (by apply (bool_decide_unpack _)).
  rewrite env_get_set_all by apply provider_nodup. destruct (env_get k _); [done|].
  rewrite env_get_pops by (by apply set_all_nodup). destruct (bool_decide _); [done|]. by rewrite env_get_set_all.
Qed.
(** Keeping every answer keeps every value. *)
Lemma kept_values k existing : NoDup (map fst existing) -> settled existing = true ->
  default "" (env_get k (values_of existing (kept existing))) = had existing k "".
Proof.
  intros Hn Hs. rewrite values_get by done.
  assert (Hp : forall v, env_get k (provider_values (had existing "KEY_PROVIDER" "")
    (kept_keys (had existing "KEY_PROVIDER" "") (fun k => had existing k ""))) = Some v -> v = had existing k "").
  { intros v H. apply env_get_some in H. revert H. unfold provider_values, kept_keys.
    repeat destruct (String.eqb _ _); cbn; naive_solver. }
  assert (Hc : forall v, env_get k (common_values (kept existing)) = Some v -> v = had existing k "").
  { intros v H. apply env_get_some in H. cbn in H. naive_solver. }
  cbn [a_provider a_keys kept]. destruct (env_get k (provider_values _ _)) as [v|] eqn:E1; [by apply Hp|].
  destruct (bool_decide (k ∈ PROVIDER_KEYS)) eqn:E2.
  - apply bool_decide_eq_true in E2. unfold settled in Hs. apply andb_true_iff in Hs as [_ H]. rewrite forallb_forall in H.
    apply list_elem_of_In in E2. specialize (H k E2). apply eqb_prop in H.
    rewrite bool_decide_false in H; [symmetry in H; apply negb_false_iff, String.eqb_eq in H; by rewrite H|].
    intros Hu. revert E1 Hu. unfold used_keys, provider_values, kept_keys.
    repeat destruct (String.eqb _ _); cbn [map fst]; intros E1 Hu;
      rewrite ?elem_of_cons in Hu; repeat destruct Hu as [->|Hu]; try done; by apply elem_of_nil in Hu.
  - destruct (env_get k (common_values _)) as [v|] eqn:E3; [by apply Hc|]. done.
Qed.

Section Rerun.
Context (io : nat -> fate exn) (umask_mode : Z) (root token stamp ts : string) (Hio : forall i, io i = Fine).
Lemma step_fine w : call io w = (Ret tt, mkZ (mkC (c_files (z_c w)) (S (c_tick (z_c w)))) (z_dirs w) (z_lines w)).
Proof. unfold call, on_files, os_call. by rewrite Hio. Qed.

Lemma key_file_kept fuel p n w0 w : ready (S (S n)) w0 w ->
  wp (ask_key_file io fuel p) (fun o w' => o = Ret p /\ ready n w0 w') w.
Proof.
  intros Hr. destruct fuel; cbn [ask_key_file]; (eapply ask_step; [reflexivity|exact Hr|]); intros w1 H1;
    apply wp_bind, wp_gets; destruct (file_at p w1) as [f|] eqn:Ef.
  1,3: destruct (negb _);
    [ (eapply ask_step; [exact (yes_conv true)|exact H1|]); intros w2 H2; unfold when; apply wp_bind, wp_bind; unfold wp at 1;
        rewrite step_fine; unfold wp, on_files, put_file, modify; split; [done|]; destruct H2 as (G1 & G2 & G3);
        split_and!; [done|done|]; intros q; destruct H1 as (_ & _ & K3); cbn;
        destruct (decide (q = p)) as [->|Hq];
        [ unfold file_at in *; cbn; rewrite lookup_insert_eq, <- K3, Ef; done
        | unfold file_at in *; cbn; rewrite lookup_insert_ne by done; apply G3 ]
    | apply wp_ret; split; [done|]; eapply ready_le; [|exact H1]; lia ].
  all: (eapply ask_step; [exact (yes_conv true)|exact H1|]); intros w2 H2; by apply wp_ret.
Qed.
Lemma ask_keys_kept existing n w0 w : settled existing = true -> ready (S (S (S n))) w0 w ->
  wp (ask_keys io (had existing "KEY_PROVIDER" "") existing) (fun o w' =>
    o = Ret (kept_keys (had existing "KEY_PROVIDER" "") (fun k => had existing k "")) /\ ready n w0 w') w.
Proof.
  intros Hs Hr. unfold settled in Hs. apply andb_true_iff in Hs as [_ Hs]. rewrite forallb_forall in Hs.
  assert (Hk : forall k d, k ∈ PROVIDER_KEYS -> k ∈ used_keys (had existing "KEY_PROVIDER" "") ->
            had existing k d = had existing k "").
  { intros k d H1%list_elem_of_In H2. specialize (Hs k H1). apply eqb_prop in Hs. rewrite bool_decide_true in Hs by done.
    apply had_some. symmetry in Hs. by apply negb_true_iff, String.eqb_neq in Hs. }
  clear Hs. revert Hk. unfold ask_keys, kept_keys, used_keys, provider_values. generalize (had existing "KEY_PROVIDER" ""). intros p.
  destruct (String.eqb_spec p "1password") as [->|]; [|destruct (String.eqb_spec p "env") as [->|];
    [|destruct (String.eqb_spec p "file") as [->|]; [|destruct (String.eqb_spec p "keychain") as [->|]]]]; cbn [map fst]; intros Hk.
  - rewrite (Hk "OP_VAULT" "Treasury"), (Hk "OP_ITEM" "TRON-Treasury"), (Hk "OP_FIELD" "password") by (by apply (bool_decide_unpack _)).
    eapply ask_step; [reflexivity|exact Hr|]. intros w1 H1. eapply ask_step; [reflexivity|exact H1|]. intros w2 H2.
    eapply ask_step; [reflexivity|exact H2|]. intros w3 H3. by apply wp_ret.
  - eapply ask_step; [exact (yes_conv false)|exact Hr|]. intros w1 H1. apply wp_bind, wp_ret, wp_ret.
    split; [done|]. eapply ready_le; [|exact H1]. lia.
  - rewrite (Hk "PRIVATE_KEY_FILE" "/etc/payouts/treasury.key") by (by apply (bool_decide_unpack _)). apply wp_bind, wp_gets, wp_bind.
    eapply wp_mono; [|apply (key_file_kept _ _ n w0), (ready_le (S (S (S n)))); [lia|exact Hr]]. intros o w1 [-> H1]. by apply wp_ret.
  - rewrite (Hk "KEYCHAIN_SERVICE" "payouts"), (Hk "KEYCHAIN_ACCOUNT" "treasury") by (by apply (bool_decide_unpack _)).
    eapply ask_step; [reflexivity|exact Hr|]. intros w1 H1. eapply ask_step; [reflexivity|exact H1|]. intros w2 H2.
    apply wp_ret. split; [done|]. eapply ready_le; [|exact H2]. lia.
  - apply wp_ret. split; [done|]. eapply ready_le; [|exact Hr]. lia.
Qed.
Lemma ask_all_kept existing n w0 w : settled existing = true -> ready (16 + n) w0 w ->
  wp (ask_all io token existing) (fun o w' => o = Ret (kept existing) /\ ready n w0 w') w.
Proof.
  intros Hs Hr. pose proof Hs as Hs'. unfold settled in Hs. bcases.
  unfold ask_all, ask_token. apply wp_bind.
  assert (Htok : env_get "AUTH_TOKEN" existing = Some (had existing "AUTH_TOKEN" "")).
  { unfold had in *. by destruct (env_get "AUTH_TOKEN" existing). }
  rewrite Htok. change (default "" (Some (had existing "AUTH_TOKEN" ""))) with (had existing "AUTH_TOKEN" "").
  repeat match goal with H : String.eqb _ "" = false |- _ => rewrite ?H; apply String.eqb_neq in H end.
  rewrite (had_in KEY_PROVIDERS existing "KEY_PROVIDER" "1password"),
    (had_in ["mainnet"; "shasta"; "nile"] existing "TRON_NETWORK" "mainnet"),
    (had_valid validate_tron_address existing "USDT_CONTRACT" "TR7NHqjeKQxGTCi8q8ZY4pL8otSzgjLj6t"),
    (had_valid (validate_decimal 0) existing "MIN_TRX_RESERVE" "50"),
    (had_valid (validate_decimal 0) existing "MAX_ENERGY_BURN_TRX" "20"),
    (had_some existing "AUDIT_LOG_FILE" "data/audit.log"), (had_some existing "IDEMPOTENCY_DB_PATH" "data/idempotency.db"),
    (had_some existing "SERVER_HOST" "127.0.0.1"), (had_valid (validate_int 1) existing "SERVER_PORT" "8000"),
    (had_valid (validate_int 60) existing "SHUTDOWN_TIMEOUT" "600") by (done || by apply (bool_decide_unpack _)).
  eapply ask_step; [exact (yes_conv false)|exact Hr|]. intros w1 H1'.
  eapply ask_step_; [reflexivity|exact H1'|]. intros w2 H2'.
  eapply ask_step; [by apply choice_conv|exact H2'|]. intros w3 H3'. apply wp_bind.
  eapply wp_mono; [|apply (ask_keys_kept existing (10 + n) w0); [done|exact H3']]. intros o w4 [-> H4'].
  eapply ask_step; [by apply choice_conv|exact H4'|]. intros w5 H5'.
  eapply ask_step; [reflexivity|exact H5'|]. intros w6 H6'.
  eapply ask_step; [by apply valid_conv|exact H6'|]. intros w7 H7'. eapply ask_step; [by apply valid_conv|exact H7'|]. intros w8 H8'.
  eapply ask_step; [by apply valid_conv|exact H8'|]. intros w9 H9'. eapply ask_step; [reflexivity|exact H9'|]. intros wa Ha.
  eapply ask_step; [reflexivity|exact Ha|]. intros wb Hb. eapply ask_step; [reflexivity|exact Hb|]. intros wc Hc.
  eapply ask_step; [by apply valid_conv|exact Hc|]. intros wd Hd. eapply ask_step; [by apply valid_conv|exact Hd|]. intros we He.
  apply wp_ret. by split.
Qed.

Lemma write_env_fine path values w :
  exists w', write_env io umask_mode stamp path values w = (Ret tt, w') /\
    c_files (z_c w') = <[path := mkT 384 (setup_text stamp values)]> (c_files (z_c w)).
Proof.
  unfold write_env. unfold bind at 1. rewrite step_fine. unfold bind at 1, gets at 1. unfold bind at 1, on_files at 1, put_file at 1, modify at 1.
  unfold bind at 1. rewrite step_fine. unfold bind at 1, on_files at 1, put_file at 1, modify at 1.
  unfold bind at 1. rewrite step_fine. unfold on_files, put_file, modify. eexists. split; [reflexivity|]. cbn.
  by rewrite !insert_insert_eq.
Qed.
Lemma copied_fine w f : c_files (z_c w) !! ENV_PATH root = Some f ->
  exists w', backup_existing io ts (ENV_PATH root) w = (Ret tt, w') /\ z_lines w' = z_lines w /\
    c_files (z_c w') = <[backup_path ts (ENV_PATH root) := f]> (c_files (z_c w)).
Proof.
  intros Hf. unfold backup_existing. unfold bind at 1, gets at 1, file_at at 1. rewrite Hf.
  unfold bind at 1. rewrite step_fine. unfold on_files, put_file, modify. eexists. by split_and!.
Qed.
Lemma make_parent_fine path_str w : exists w', make_parent io root path_str w = (Ret tt, w') /\ c_files (z_c w') = c_files (z_c w).
Proof.
  unfold make_parent. destruct (_ || _); [by exists w|]. unfold bind at 1, gets at 1. destruct (exists_dir _ w); cbn [negb when]; [by exists w|].
  unfold bind. rewrite step_fine. unfold modify. eexists. by split_and!.
Qed.
End Rerun.
Lemma backup_elsewhere ts path : backup_path ts path <> path.
Proof.
  unfold backup_path. intros H. apply (f_equal String.length) in H. rewrite !length_append in H. cbn in H. lia.
Qed.
(** The values kept are single lines under legal keys. *)
Lemma kept_ok existing : NoDup (map fst existing) -> settled existing = true -> forallb entry_ok existing = true ->
  forallb entry_ok (values_of existing (kept existing)) = true.
Proof.
  intros Hn Hs Hok. apply forallb_forall. intros [k v] Hi.
  apply (env_get_in k v) in Hi; [|by apply values_nodup].
  assert (Hv : v = had existing k "") by (rewrite <- kept_values by done; by rewrite Hi). unfold entry_ok. cbn [fst snd].
  rewrite forallb_forall in Hok. apply andb_true_iff. split.
  - rewrite values_get in Hi by done.
    assert (Hk : k ∈ PROVIDER_KEYS \/ k ∈ map fst (common_values (kept existing)) \/ k ∈ map fst existing).
    { destruct (env_get k (provider_values _ _)) eqn:E1.
      - left. apply env_get_some, (in_map fst) in E1. apply list_elem_of_In. revert E1. unfold provider_values.
        repeat destruct (String.eqb _ _); cbn; naive_solver.
      - destruct (bool_decide _); [done|]. right. destruct (env_get k (common_values _)) eqn:E3.
        + left. apply env_get_some, (in_map fst) in E3. by apply list_elem_of_In.
        + right. apply env_get_some, (in_map fst) in Hi. by apply list_elem_of_In. }
    destruct Hk as [Hk|[Hk|Hk]]; apply list_elem_of_In in Hk.
    + assert (H : forallb key_ok PROVIDER_KEYS = true) by reflexivity. rewrite forallb_forall in H. by apply H.
    + assert (H : forallb key_ok (map fst (common_values (kept existing))) = true) by reflexivity.
      rewrite forallb_forall in H. by apply H.
    + apply in_map_iff in Hk as ([k' v'] & <- & Hi'). specialize (Hok _ Hi'). unfold entry_ok in Hok. cbn in *. by bcases.
  - rewrite Hv. unfold had. destruct (env_get k existing) as [v'|] eqn:E; [|done]. apply env_get_some in E.
    specialize (Hok _ E). unfold entry_ok in Hok. cbn in *. by bcases.
Qed.

(** ** The properties *)

(** The .env file the wizard writes, whatever the values are (its own answers and
    everything an operator added by hand), reads back as these values: each key has its
    value, and keys whose value is empty are absent. *)
Theorem setup_env_roundtrip (stamp : string) (values : env_dict) (k : string) :
  forallb entry_ok values = true -> NoDup (map fst values) -> Forall (fun e => plain e.2 = true) values ->
  one_line stamp = true ->
  env_get k (read_env_text (setup_text stamp values)) =
  match env_get k values with Some v => if String.eqb v "" then None else Some v | None => None end.
Proof.
  intros Hok Hn Hp Hs. rewrite setup_reads by done. cbv zeta. destruct (env_get k values) as [v|] eqn:E; [|done].
  change (default "" (Some v)) with v. destruct (String.eqb v ""); [done|]. f_equal. apply plain_value.
  apply env_get_some in E. rewrite List.Forall_forall in Hp. exact (Hp _ E).
Qed.

(** C25: Running the wizard again on a finished installation and pressing Enter at every
    prompt succeeds and keeps every setting, those it does not know included; the text of
    the old file is in the backup. *)
Theorem rerun_keeps_settings (io : nat -> fate exn) (umask_mode : Z) (root token stamp ts : string) (w : zworld) (f : tfile) :
  (forall i, io i = Fine) -> file_at (ENV_PATH root) w = Some f ->
  let existing := read_env_text (t_text f) in
  settled existing = true -> forallb entry_ok existing = true -> Forall (fun e => plain e.2 = true) existing ->
  one_line stamp = true -> Forall blank (z_lines w) -> (17 <= List.length (z_lines w))%nat ->
  let '(o, w') := main io umask_mode root token stamp ts w in
  o = Ret 0%Z /\
  (exists t, file_at (ENV_PATH root) w' = Some (mkT 384 t) /\ forall k, had (read_env_text t) k "" = had existing k "") /\
  (exists m, file_at (backup_path ts (ENV_PATH root)) w' = Some (mkT m (t_text f))).
Proof.
  intros Hio Hf existing Hset Hok Hp Hst Hbl Hlen.
  assert (Hn : NoDup (map fst existing)) by apply read_nodup.
  assert (Hr : ready 17 w w) by (by split_and!).
  pose proof (ask_all_kept io token Hio existing 1 w w Hset Hr) as H1. unfold wp in H1.
  unfold main, bind at 1. unfold gets at 1, read_env. unfold file_at in Hf. rewrite Hf. fold existing. unfold bind at 1.
  destruct (ask_all io token existing w) as [o1 w1]. cbn [fst snd] in H1. destruct H1 as [-> H1].
  assert (H2 := H1). destruct H2 as (_ & _ & Ht). specialize (Ht (ENV_PATH root)). unfold file_at in Ht. rewrite Hf in Ht.
  destruct (c_files (z_c w1) !! ENV_PATH root) as [f1|] eqn:Ef; [|done]. injection Ht as Ht.
  destruct (copied_fine io root ts Hio w1 f1 Ef) as (w2 & E2 & L2 & F2). unfold bind at 1. rewrite E2.
  assert (H2 : ready 1 w2 w2) by (destruct H1 as (G1 & G2 & _); rewrite <- L2 in G1, G2; by split_and!).
  destruct (prompt_blank "y" _ true 0 w2 w2 (yes_conv true) H2) as (w3 & E3 & H3).
  assert (F3 : c_files (z_c w3) = c_files (z_c w2)).
  { revert E3. unfold prompt. destruct (until _ _ _) as [[a l]|]; [|done]. by intros [= _ <-]. }
  unfold bind at 1. change (ask_yes_no true w2) with (prompt (Some "y") (fun s => if bool_decide (lower s ∈ ["y"; "yes"])
    then Some true else if bool_decide (lower s ∈ ["n"; "no"]) then Some false else None) w2). rewrite E3. cbn [negb].
  destruct (write_env_fine io umask_mode stamp Hio (ENV_PATH root) (values_of existing (kept existing)) w3) as (w4 & E4 & F4).
  unfold bind at 1. rewrite E4.
  destruct (make_parent_fine io root Hio (a_audit_log (kept existing)) w4) as (w5 & E5 & F5). unfold bind at 1. rewrite E5.
  destruct (make_parent_fine io root Hio (a_idem_db (kept existing)) w5) as (w6 & E6 & F6). unfold bind at 1. rewrite E6.
  unfold ret, file_at. rewrite F6, F5, F4, F3, F2. split; [done|]. split.
  - eexists. split; [apply lookup_insert_eq|]. intros k. unfold had at 1.
    rewrite setup_reads by (done || by apply kept_ok || by apply values_nodup). cbv zeta. rewrite kept_values by done.
    destruct (String.eqb_spec (had existing k "") "") as [->|Hne]; [done|]. cbn [default]. apply plain_value.
    unfold had in *. destruct (env_get k existing) as [v|] eqn:E; [|done]. apply env_get_some in E.
    rewrite List.Forall_forall in Hp. exact (Hp _ E).
  - exists (t_mode f1). rewrite lookup_insert_ne by (intros E; by apply (backup_elsewhere ts (ENV_PATH root))).
    rewrite lookup_insert_eq. destruct f1 as [m t]. cbn in *. by rewrite Ht.
Qed.

(** ** The hypotheses can hold *)
Definition demo_values : env_dict := [
  ("AUTH_TOKEN", "s3cret-token"); ("KEY_PROVIDER", "file"); ("PRIVATE_KEY_FILE", "/keys/a"); ("TRON_NETWORK", "nile");
  ("USDT_CONTRACT", "TR7NHqjeKQxGTCi8q8ZY4pL8otSzgjLj6t"); ("MIN_TRX_RESERVE", "55.5"); ("MAX_ENERGY_BURN_TRX", "0");
  ("AUDIT_LOG_FILE", "data/audit.log"); ("IDEMPOTENCY_DB_PATH", "/var/db/idem.db"); ("SERVER_HOST", "0.0.0.0");
  ("SERVER_PORT", "9000"); ("SHUTDOWN_TIMEOUT", "3600"); ("WEBHOOK_URLS", "https://x.example/#a")].
Definition fine : nat -> fate exn := fun _ => Fine.
Definition demo_world (lines : list string) (values : env_dict) : zworld :=
  mkZ (mkC {[ "/srv/.env" := mkT 420 (setup_text "then" values); "/keys/a" := mkT 420 "key" ]} 0) ∅ lines.
Definition demo_run (lines : list string) (values : env_dict) : outcome cexn Z * zworld :=
  main fine 420 "/srv" "fresh-token" "now" "20260101-000000" (demo_world lines values).
Lemma setup_env_roundtrip_witness :
  env_get "WEBHOOK_URLS" (read_env_text (setup_text "now" demo_values)) = Some "https://x.example/#a".
Proof.
  apply (setup_env_roundtrip "now" demo_values "WEBHOOK_URLS"); [reflexivity| |repeat constructor|reflexivity].
  by apply (bool_decide_unpack _).
Defined.
Lemma rerun_keeps_settings_witness :
  let '(o, w') := demo_run (replicate 20 "") demo_values in
  o = Ret 0%Z /\
  (exists t, file_at "/srv/.env" w' = Some (mkT 384 t) /\
     forall k, had (read_env_text t) k "" = had (read_env_text (setup_text "then" demo_values)) k "") /\
  (exists m, file_at "/srv/.env.env.bak-20260101-000000" w' = Some (mkT m (setup_text "then" demo_values))).
Proof.
  apply (rerun_keeps_settings fine 420 "/srv" "fresh-token" "now" "20260101-000000" (demo_world (replicate 20 "") demo_values)
           (mkT 420 (setup_text "then" demo_values)));
    [done|reflexivity|vm_compute; reflexivity|vm_compute; reflexivity| |reflexivity|repeat constructor|cbn; lia].
  apply List.Forall_forall. apply forallb_forall. vm_compute. reflexivity.
Defined.
(** The key file's mode is put right on the way. *)
Example rerun_fixes_mode : file_at "/keys/a" (snd (demo_run (replicate 20 "") demo_values)) = Some (mkT 384 "key").
Proof. vm_compute. reflexivity. Qed.
(** The wizard takes a reserve the server then refuses to start with. *)
Example wizard_accepts_unservable :
  let '(o, w) := demo_run (replicate 8 "" ++ ["10"] ++ replicate 20 "")%list demo_values in
  o = Ret 0%Z /\
  (t ← t_text <$> file_at "/srv/.env" w;
   Some match ConfigLoad.main (Install.dotenv t) (ConfigLoad.mkArgs false None None) None with
        | ConfigLoad.ConfigErrors _ => true
        | _ => false
        end) = Some true.
Proof. vm_compute. split; reflexivity. Qed.
(** It does not know the keystore: on such an installation Enter asks forever. *)
Example wizard_rejects_keystore :
  fst (demo_run (replicate 30 "") (("KEY_PROVIDER", "encrypted_file") :: demo_values)) = Raise (Traceback "EOFError").
Proof. vm_compute. reflexivity. Qed.
(** Refusing to write still leaves a copy of the old file behind. *)
Example wizard_declined_leaves_copy :
  let '(o, w) := demo_run (replicate 15 "" ++ ["n"])%list demo_values in
  o = Ret 1%Z /\ is_Some (file_at "/srv/.env.env.bak-20260101-000000" w).
Proof. vm_compute. split; [reflexivity|by eexists]. Qed.
(** An explicitly empty path (no audit file) is not written, so it comes back as the default. *)
Example wizard_forgets_empty :
  let old := "AUDIT_LOG_FILE=" +:+ nl in
  let w := mkZ (mkC {[ "/srv/.env" := mkT 384 old ]} 0) ∅ (replicate 30 "") in
  let '(o, w') := main fine 420 "/srv" "fresh-token" "now" "ts" w in
  o = Ret 0%Z /\ env_get "AUDIT_LOG_FILE" (read_env_text old) = Some "" /\
  (t ← t_text <$> file_at "/srv/.env" w'; Some (env_get "AUDIT_LOG_FILE" (read_env_text t))) = Some None.
Proof. vm_compute. split_and!; reflexivity. Qed.
