(* ===== verification/CliReports.v ===== *)
(** * [skr-crypto report] and [skr-crypto audit] ([commands/report.py], [commands/audit.py])

    Both read the audit log locally.  The file, the JSON decoder, the date and datetime
    parsers, the host's today and now, and the XLSX writer are parameters; tables are the
    records they show ([Screens] shows them). *)
From Stdlib Require Import Qround.
From S2P Require Import Prelude PyStr Effects Exceptions Calendar Reporting CliEnv.
From S2P Require Keystore Routes.
Import Keystore(json(..), jget, truthy).
Open Scope string_scope.

(** ** [report] *)

(** [_resolve_audit_log_path] *)
Definition resolve_audit_log_path (resolve : string -> string) (dir home : option string) (c : cworld)
    : outcome cexn string :=
  match require_installed resolve dir home c with
  | Ret root =>
      match read_env_file (path_join root ".env") c with
      | Ret env =>
          let raw := default "" (env_get "AUDIT_LOG_FILE" env) in
          if String.eqb raw "" then Raise (SkrCryptoError "AUDIT_LOG_FILE is not set in .env") else Ret (path_join root raw)
      | Raise e => Raise e
      | Crash => Crash
      end
  | Raise e => Raise e
  | Crash => Crash
  end.

(** [today - timedelta(days=n)] *)
Fixpoint days_before (n : nat) (d : date) : option date :=
  match n with O => Some d | S n => prev_day d ≫= days_before n end.
Definition given (s : option string) : option string :=
  match s with Some s => if String.eqb s "" then None else Some s | None => None end.
Definition traceback {A} (cls : string) : outcome cexn A := Raise (Traceback cls).

(** What the command leaves: text on standard output, or a file. *)
Inductive emitted := Stdout (payload : string) | Wrote (path payload : string).

Section Report.
Context (json_loads : string -> option record) (utc_date : string -> option date)
  (fromisoformat : string -> option date) (today : date) (audit_files : string -> audit_file)
  (open_fails : string -> option exn).

(** [_resolve_dates]: [parse_period_yyyymm]'s ValueError is not caught. *)
Definition resolve_dates (period from_str to_str : option string) : outcome cexn (date * date) :=
  match given period, given from_str, given to_str with
  | Some p, None, None => match parse_period_yyyymm p with Some r => Ret r | None => traceback "ValueError" end
  | Some _, _, _ => Raise (SkrCryptoError "--period is mutually exclusive with --from/--to")
  | None, None, None => match days_before 29 today with Some d => Ret (d, today) | None => traceback "OverflowError" end
  | None, Some f, Some t =>
      match fromisoformat f, fromisoformat t with
      | Some f, Some t => Ret (f, t)
      | _, _ => Raise (SkrCryptoError "invalid date")
      end
  | None, _, _ => Raise (SkrCryptoError "--from and --to must be provided together")
  end.

(** [_write_or_emit] *)
Definition write_or_emit (payload : string) (output_path : option string) : outcome cexn emitted :=
  match given output_path with
  | Some p => match open_fails p with Some e => traceback (exn_class e) | None => Ret (Wrote p payload) end
  | None => Ret (Stdout payload)
  end.

(** The two commands are the same but for the report: what computes it, its CSV text and
    its XLSX file, [None] without the extra. *)
Definition report_with {A} (compute : audit_file -> date -> date -> outcome exn A) (csv : A -> string) (xlsx : A -> option string)
    (audit_path : outcome cexn string) (period from_str to_str : option string) (fmt_xlsx : bool) (output_path : option string)
    : outcome cexn emitted :=
  match audit_path with
  | Raise e => Raise e
  | Crash => Crash
  | Ret p =>
      match resolve_dates period from_str to_str with
      | Raise e => Raise e
      | Crash => Crash
      | Ret (from_date, to_date) =>
          match validate_range from_date to_date with
          | Some msg => Raise (SkrCryptoError msg)
          | None =>
              match compute (audit_files p) from_date to_date with
              | Raise e => traceback (exn_class e)
              | Crash => Crash
              | Ret a =>
                  if fmt_xlsx then
                    match given output_path with
                    | None => Raise (SkrCryptoError "--format xlsx requires -o FILE (binary on TTY mangles output)")
                    | Some _ => match xlsx a with
                                | None => Raise (SkrCryptoError "XLSX export needs the reports extra")
                                | Some data => write_or_emit data output_path
                                end
                    end
                  else write_or_emit (csv a) output_path
              end
          end
      end
  end.
Definition cmd (xlsx : PeriodSummary -> option string) :=
  report_with (aggregate_period json_loads utc_date) render_period_csv xlsx.
Definition sanctions_cmd (xlsx : list SanctionsHit -> option string) :=
  report_with (list_sanctions_hits json_loads utc_date) render_sanctions_csv xlsx.
End Report.

(** ** [audit] *)

(** A [datetime]: an instant, or without a time zone a reading of some clock.  Comparing
    the two kinds is a TypeError. *)
Inductive datetime := Aware (t : time) | Naive (t : time).
Definition dt_ltb (a b : datetime) : outcome cexn bool :=
  match a, b with
  | Aware x, Aware y | Naive x, Naive y => Ret (Qltb x y)
  | _, _ => traceback "TypeError"
  end.
(** 00:00 at UTC+3 of the day [now] falls in. *)
Definition midnight_msk (now : time) : time := (inject_Z (Qfloor ((now + 10800) / 86400)) * 86400 - 10800)%Q.

Section Audit.
Context (json_loads : string -> option json) (fromisoformat strptime : string -> option datetime) (now : time).

(** [_resolve_lower_bound]; a BadParameter is click's exit code 2. *)
Definition resolve_lower_bound (today : bool) (since : option string) : outcome cexn (option time) :=
  if today then Ret (Some (midnight_msk now))
  else match given since with
       | None => Ret None
       | Some s =>
           match (match fromisoformat s with Some d => Some d | None => strptime s end) with
           | None => Raise (Exits 2)
           | Some (Aware t) | Some (Naive t) => Ret (Some t)      (** a naive one is read as UTC *)
           end
       end.

(** ["event" in r] *)
Definition has_event (r : json) : outcome cexn bool :=
  match r with
  | JObj l => Ret (match jget "event" l with Some _ => true | None => false end)
  | JList l => Ret (existsb (fun j => Keystore.json_is_str (Some j) "event") l)
  | JStr s => Ret (contains "event" s)
  | _ => traceback "TypeError"
  end.
Definition is_str (j : json) (s : string) : bool := Keystore.json_is_str (Some j) s.
(** Is the record one the filters let through?  [r.get] on what is no dict raises. *)
Definition passes (lower_bound : option time) (event to_addr : option string) (r : json) : outcome cexn bool :=
  match has_event r with
  | Ret false => Ret false
  | Ret true =>
      let field k := match r with JObj l => Some (default JNull (jget k l)) | _ => None end in
      let filter_on k (f : option string) (rest : outcome cexn bool) :=
        match given f with
        | None => rest
        | Some v => match field k with
                    | None => traceback "AttributeError"
                    | Some x => if is_str x v then rest else Ret false
                    end
        end in
      filter_on "event" event (filter_on "to_address" to_addr
        match lower_bound with
        | None => Ret true
        | Some b =>
            match r with
            | JObj l =>
                match default (JStr "") (jget "timestamp" l) with
                | JStr ts => match fromisoformat ts with
                             | None => Ret false
                             | Some d => match dt_ltb d (Aware b) with Ret x => Ret (negb x) | Raise e => Raise e | Crash => Crash end
                             end
                | _ => Ret false
                end
            | _ => traceback "AttributeError"
            end
        end)
  | Raise e => Raise e
  | Crash => Crash
  end.
(** [_iter_records], exhausted: blank lines and text that is no JSON are skipped. *)
Fixpoint iter_records (lower_bound : option time) (event to_addr : option string) (lines : list string)
    : outcome cexn (list json) :=
  match lines with
  | [] => Ret []
  | raw :: lines =>
      let rest := iter_records lower_bound event to_addr lines in
      if String.eqb (strip raw) "" then rest
      else match json_loads (strip raw) with
           | None => rest
           | Some r =>
               match passes lower_bound event to_addr r with
               | Ret true => match rest with Ret l => Ret (r :: l) | o => o end
               | Ret false => rest
               | Raise e => Raise e
               | Crash => Crash
               end
           end
  end.
(** [records[:limit]] *)
Definition slice_to {A} (limit : Z) (l : list A) : list A :=
  List.firstn (Z.to_nat (if (limit <? 0)%Z then Z.max 0 (Z.of_nat (List.length l) + limit) else limit)) l.
(** [None]: there is no audit log, which is only a warning. *)
Definition audit_cmd (log : option (list string)) (today : bool) (since event to_addr : option string) (limit : Z)
    : outcome cexn (list json) :=
  match log with
  | None => Ret []
  | Some lines =>
      match resolve_lower_bound today since with
      | Raise e => Raise e
      | Crash => Crash
      | Ret lower_bound =>
          match iter_records lower_bound event to_addr lines with
          | Ret records => Ret (slice_to limit (rev records))
          | o => o
          end
      end
  end.
End Audit.

(** ** Lemmas *)
Lemma report_range_given {A} (compute : audit_file -> date -> date -> outcome exn A) csv xlsx
    fromisoformat today files open_fails p f t endpoint :
  f <> "" -> t <> "" ->
  endpoint = match Routes.report_range fromisoformat f t with
             | None => Ret (400%Z, "")
             | Some (a, b) => Routes.outcome_map (fun x => (200%Z, csv x)) (compute (files p) a b)
             end ->
  let answer := report_with fromisoformat today files open_fails compute csv xlsx (Ret p) None (Some f) (Some t) false None in
  match endpoint with
  | Ret (200%Z, doc) => answer = Ret (Stdout doc)
  | Ret _ => exists msg, answer = Raise (SkrCryptoError msg)
  | Raise e => answer = Raise (Traceback (exn_class e))
  | Crash => answer = Crash
  end.
Proof.
  intros Hf Ht ->. unfold report_with, resolve_dates, Routes.report_range. cbn [given].
  rewrite (proj2 (String.eqb_neq _ _) Hf), (proj2 (String.eqb_neq _ _) Ht).
  destruct (fromisoformat f) as [a|], (fromisoformat t) as [b|]; [|by eexists..].
  destruct (validate_range a b) as [msg|]; [by eexists|].
  by destruct (compute (files p) a b) as [x|e|].
Qed.
Lemma isoformat_nonempty d : isoformat d <> "".
Proof. intros H. apply (f_equal String.length) in H. unfold isoformat in H. rewrite !length_append in H. cbn in H. lia. Qed.
Lemma resolve_month fromisoformat today value a b : value <> "" -> parse_period_yyyymm value = Some (a, b) ->
  fromisoformat (isoformat a) = Some a -> fromisoformat (isoformat b) = Some b ->
  resolve_dates fromisoformat today (Some value) None None =
  resolve_dates fromisoformat today None (Some (isoformat a)) (Some (isoformat b)).
Proof.
  intros Hv Hp Ha Hb. unfold resolve_dates. cbn [given]. rewrite (proj2 (String.eqb_neq _ _) Hv), Hp.
  rewrite !(proj2 (String.eqb_neq _ _) (isoformat_nonempty _)). by rewrite Ha, Hb.
Qed.

(** What [audit] is for: the records the operator asked for. *)
Definition instant (fromisoformat : string -> option datetime) (l : list (string * json)) : option time :=
  match jget "timestamp" l with
  | Some (JStr ts) => match fromisoformat ts with Some (Aware t) => Some t | _ => None end
  | _ => None
  end.
Definition wanted (fromisoformat : string -> option datetime) (lower_bound : option time) (event to_addr : option string)
    (r : json) : bool :=
  match r with
  | JObj l =>
      let matches k f := match given f with None => true | Some v => Keystore.json_is_str (jget k l) v end in
      match jget "event" l with Some _ => true | None => false end && matches "event" event && matches "to_address" to_addr &&
      match lower_bound with
      | None => true
      | Some b => match instant fromisoformat l with Some t => negb (Qltb t b) | None => false end
      end
  | _ => false
  end.
Definition decoded (json_loads : string -> option json) (lines : list string) : list json :=
  omap (fun raw => if String.eqb (strip raw) "" then None else json_loads (strip raw)) lines.
(** A line as [audit.record] writes it: an object whose timestamp, if it can be read, has a
    time zone. *)
Definition audit_line (fromisoformat : string -> option datetime) (r : json) : Prop :=
  exists l, r = JObj l /\
    forall ts d, jget "timestamp" l = Some (JStr ts) -> fromisoformat ts = Some d -> exists t, d = Aware t.

Lemma is_str_default o v : v <> "" -> is_str (default JNull o) v = Keystore.json_is_str o v.
Proof. by destruct o. Qed.
Lemma given_some f v : given f = Some v -> v <> "".
Proof. unfold given. destruct f as [s|]; [|done]. destruct (String.eqb_spec s ""); [done|]. by intros [= <-]. Qed.
Lemma passes_wanted fromisoformat lower_bound event to_addr r :
  audit_line fromisoformat r -> fromisoformat "" = None ->
  passes fromisoformat lower_bound event to_addr r = Ret (wanted fromisoformat lower_bound event to_addr r).
Proof.
  intros (l & -> & Hts) Hempty. unfold passes, wanted. cbn [has_event].
  destruct (jget "event" l) as [ev|] eqn:Eev; [|done]. cbn [andb].
  assert (Hlow : match lower_bound with
     | None => Ret true
     | Some b => match default (JStr "") (jget "timestamp" l) with
                 | JStr ts => match fromisoformat ts with
                              | None => Ret false
                              | Some d => match dt_ltb d (Aware b) with Ret x => Ret (negb x) | Raise e => Raise e | Crash => Crash end
                              end
                 | _ => Ret false
                 end
     end = Ret (match lower_bound with
                | None => true
                | Some b => match instant fromisoformat l with Some t => negb (Qltb t b) | None => false end
                end) :> outcome cexn bool).
  { destruct lower_bound as [b|]; [|done]. unfold instant. destruct (jget "timestamp" l) as [[| | | |ts| |]|] eqn:Et; cbn; try done.
    - destruct (fromisoformat ts) as [d|] eqn:Ed; [|done]. by destruct (Hts ts d eq_refl Ed) as [t ->].
    - by rewrite Hempty. }
  destruct (given event) as [v|] eqn:Ge; [rewrite (is_str_default (Some ev)) by (by eapply given_some);
      destruct (Keystore.json_is_str (Some ev) v); cbn [andb]; [|done]|];
    (destruct (given to_addr) as [u|] eqn:Gt; [rewrite is_str_default by (by eapply given_some);
      destruct (Keystore.json_is_str (jget "to_address" l) u); cbn [andb]; [|done]|]; apply Hlow).
Qed.
Lemma iter_records_wanted json_loads fromisoformat lower_bound event to_addr lines :
  Forall (audit_line fromisoformat) (decoded json_loads lines) -> fromisoformat "" = None ->
  iter_records json_loads fromisoformat lower_bound event to_addr lines =
  Ret (List.filter (wanted fromisoformat lower_bound event to_addr) (decoded json_loads lines)).
Proof.
  intros H He. unfold decoded in *. induction lines as [|raw lines IH]; [done|]. cbn [iter_records omap list_omap] in *.
  destruct (String.eqb (strip raw) ""); [by apply IH|]. destruct (json_loads (strip raw)) as [r|]; [|by apply IH].
  apply Forall_cons in H as [Hr H]. rewrite (passes_wanted fromisoformat _ _ _ r Hr He), IH by done. cbn [List.filter].
  by destruct (wanted _ _ _ _ _).
Qed.

(** ** The properties *)

(** C26: The reports of the command line are the documents the service serves: with a
    range, [report] and [report sanctions-hits] print what the HTTP endpoint answers with
    200, fail cleanly where it answers 400, and end with its exception where it raises;
    and [--period] is the range of that month.  A period that is no month ends in a
    traceback. *)
Theorem report_is_the_endpoint (json_loads : string -> option record) (utc_date fromisoformat : string -> option date)
    (today : date) (files : string -> audit_file) (open_fails : string -> option exn) (xlsx : PeriodSummary -> option string)
    (xlsx_hits : list SanctionsHit -> option string) (p f t month : string) :
  f <> "" -> t <> "" -> month <> "" ->
  let period := cmd json_loads utc_date fromisoformat today files open_fails xlsx (Ret p) in
  let hits := sanctions_cmd json_loads utc_date fromisoformat today files open_fails xlsx_hits (Ret p) in
  let agrees answer (endpoint : outcome exn (Z * string)) :=
    match endpoint with
    | Ret (200%Z, doc) => answer = Ret (Stdout doc)
    | Ret _ => exists msg, answer = Raise (SkrCryptoError msg)
    | Raise e => answer = Raise (Traceback (exn_class e))
    | Crash => answer = Crash
    end in
  agrees (period None (Some f) (Some t) false None)
    (Routes.reports_period_endpoint json_loads utc_date fromisoformat (files p) f t) /\
  agrees (hits None (Some f) (Some t) false None)
    (Routes.reports_sanctions_endpoint json_loads utc_date fromisoformat (files p) f t) /\
  match parse_period_yyyymm month with
  | Some (a, b) =>
      fromisoformat (isoformat a) = Some a -> fromisoformat (isoformat b) = Some b ->
      forall fmt_xlsx out,
        period (Some month) None None fmt_xlsx out = period None (Some (isoformat a)) (Some (isoformat b)) fmt_xlsx out /\
        hits (Some month) None None fmt_xlsx out = hits None (Some (isoformat a)) (Some (isoformat b)) fmt_xlsx out
  | None => forall fmt_xlsx out, period (Some month) None None fmt_xlsx out = Raise (Traceback "ValueError")
  end.
Proof.
  intros Hf Ht Hm period hits agrees. split_and!.
  - by apply report_range_given.
  - by apply report_range_given.
  - destruct (parse_period_yyyymm month) as [[a b]|] eqn:Hp; intros.
    + subst period hits. unfold cmd, sanctions_cmd, report_with. by rewrite (resolve_month _ _ _ a b).
    + subst period. unfold cmd, report_with, resolve_dates. cbn [given]. by rewrite (proj2 (String.eqb_neq _ _) Hm), Hp.
Qed.

(** On a log the service wrote, [audit] shows exactly the records with the event, the
    recipient and the time asked for, newest first, cut at the limit: lines that are no
    JSON are skipped, and a record without a readable timestamp is shown only when no
    time is asked for. *)
Theorem audit_listing (json_loads : string -> option json) (fromisoformat strptime : string -> option datetime) (now : time)
    (lines : list string) (today : bool) (since event to_addr : option string) (limit : Z) :
  Forall (audit_line fromisoformat) (decoded json_loads lines) -> fromisoformat "" = None ->
  audit_cmd json_loads fromisoformat strptime now (Some lines) today since event to_addr limit =
  match resolve_lower_bound fromisoformat strptime now today since with
  | Ret lower_bound =>
      Ret (slice_to limit (rev (List.filter (wanted fromisoformat lower_bound event to_addr) (decoded json_loads lines))))
  | Raise e => Raise e
  | Crash => Crash
  end.
Proof.
  intros H He. unfold audit_cmd. destruct (resolve_lower_bound _ _ _ _ _) as [lb|e|]; [|done..].
  by rewrite iter_records_wanted.
Qed.

(** ** The hypotheses can hold *)
Definition demo_iso (s : string) : option datetime :=
  if String.eqb s "2026-04-29T10:00:00+00:00" then Some (Aware 1000)
  else if String.eqb s "2026-04-29T11:00:00+00:00" then Some (Aware 4600) else None.
Definition demo_entry (ts event : string) : json := JObj [("timestamp", JStr ts); ("event", JStr event)].
Definition demo_log_loads (s : string) : option json :=
  if String.eqb s "a" then Some (JObj [("audit_init", JBool true)])
  else if String.eqb s "b" then Some (demo_entry "2026-04-29T10:00:00+00:00" "SEND_SUCCESS")
  else if String.eqb s "c" then Some (demo_entry "2026-04-29T11:00:00+00:00" "SEND_SUCCESS")
  else if String.eqb s "d" then Some (demo_entry "2026-04-29T11:00:00+00:00" "SEND_REJECTED")
  else if String.eqb s "1" then Some (JInt 1) else None.
Lemma audit_listing_witness :
  audit_cmd demo_log_loads demo_iso (fun _ => None) 0 (Some ["a"; "b"; "torn {"; ""; "c"; "d"]) false None (Some "SEND_SUCCESS") None 50 =
  Ret [demo_entry "2026-04-29T11:00:00+00:00" "SEND_SUCCESS"; demo_entry "2026-04-29T10:00:00+00:00" "SEND_SUCCESS"].
Proof.
  rewrite (audit_listing demo_log_loads demo_iso (fun _ => None) 0 ["a"; "b"; "torn {"; ""; "c"; "d"] false None
             (Some "SEND_SUCCESS") None 50); [reflexivity| |reflexivity].
  change (Forall (audit_line demo_iso) [JObj [("audit_init", JBool true)];
    demo_entry "2026-04-29T10:00:00+00:00" "SEND_SUCCESS"; demo_entry "2026-04-29T11:00:00+00:00" "SEND_SUCCESS";
    demo_entry "2026-04-29T11:00:00+00:00" "SEND_REJECTED"]).
  repeat apply List.Forall_cons; [..|apply List.Forall_nil]; (eexists; split; [reflexivity|]); cbn; intros ts d [= <-] [= <-];
    by eexists.
Defined.
Lemma report_is_the_endpoint_witness :
  cmd demo_loads demo_utc (fun s => if String.eqb s "2026-04-29" then Some demo_day else None) demo_day
    (fun _ => demo_file) (fun _ => None) (fun _ => None) (Ret "audit.log") None (Some "2026-04-29") (Some "2026-04-29") false None =
  Ret (Stdout (match Routes.reports_period_endpoint demo_loads demo_utc
                       (fun s => if String.eqb s "2026-04-29" then Some demo_day else None) demo_file "2026-04-29" "2026-04-29" with
               | Ret (_, doc) => doc
               | _ => ""
               end)).
Proof.
  destruct (report_is_the_endpoint demo_loads demo_utc (fun s => if String.eqb s "2026-04-29" then Some demo_day else None) demo_day
    (fun _ => demo_file) (fun _ => None) (fun _ => None) (fun _ => None) "audit.log" "2026-04-29" "2026-04-29" "2026-13")
    as [H _]; [done..|]. exact H.
Defined.
(** Text that is JSON but no object is not skipped: it ends the listing. *)
Example audit_stops_at_scalar :
  audit_cmd demo_log_loads demo_iso (fun _ => None) 0 (Some ["b"; "1"; "c"]) false None None None 50 = Raise (Traceback "TypeError").
Proof. reflexivity. Qed.
(** A negative limit drops the oldest records. *)
Example audit_negative_limit :
  audit_cmd demo_log_loads demo_iso (fun _ => None) 0 (Some ["b"; "c"]) false None None None (-1) =
  Ret [demo_entry "2026-04-29T11:00:00+00:00" "SEND_SUCCESS"].
Proof. reflexivity. Qed.
