(* ===== verification/CliService.v ===== *)
(** * Process control ([cli/service.py], [commands/start_stop.py], [logs.py], [update.py],
    [config_cmd.py], [version_cmd.py], [help_cmd.py])

    What these commands decide: which supervisor runs the installation, which program is
    run with which arguments, and what its result means.  The host is a record of facts,
    a program run is a parameter; the text shown is in [Screens] and [Panels]. *)
From S2P Require Import Prelude PyStr Effects Exceptions CliEnv.
From S2P Require Keystore.
Import Keystore(json(..), jget, truthy).
Open Scope string_scope.

(** ** The regimes ([service.py]) *)
Inductive regime := SYSTEMD | COMPOSE | DIRECT.
Definition regime_value (r : regime) : string :=
  match r with SYSTEMD => "systemd" | COMPOSE => "compose" | DIRECT => "direct" end.
Record ServiceContext := mkCtx { regime_of : regime; ctx_dir : string; handle : option string }.
Record machine := mkMachine {
  sysname : string; which : string -> bool;
  unit_file : string -> option string;          (** the text of a file under /etc/systemd/system *)
  exists_ : string -> bool }.
(** [Path.name] *)
Fixpoint basename (p : string) : string :=
  match p with
  | "" => ""
  | String c p' => match before_slash p' with
                   | Some _ => basename p'
                   | None => if Ascii.eqb c "/" then p' else p
                   end
  end.

Section Service.
Context (m : machine).
(** The first of the two units whose text has the install directory in it. *)
Definition systemd_unit_name (dir : string) : option string :=
  if negb (String.eqb (sysname m) "Linux") then None
  else if negb (which m "systemctl") then None
  else List.find (fun c => match unit_file m c with Some text => contains dir text | None => false end)
         ["skr-crypto.service"; "payouts.service"].
Definition handle_for (r : regime) (dir : string) : option string :=
  match r with
  | SYSTEMD => Some (default "skr-crypto.service" (systemd_unit_name dir))
  | COMPOSE => Some (basename dir)
  | DIRECT => None
  end.
Definition forced (override : string) : option regime :=
  List.find (fun r => String.eqb (regime_value r) override) [SYSTEMD; COMPOSE; DIRECT].
Definition detect (dir : string) (override : option string) : outcome cexn ServiceContext :=
  let override := default "" override in
  if negb (String.eqb override "") then
    match forced override with
    | None => Raise (Traceback "ValueError")
    | Some r => Ret (mkCtx r dir (handle_for r dir))
    end
  else
    match systemd_unit_name dir with
    | Some u => Ret (mkCtx SYSTEMD dir (Some u))
    | None =>
        if exists_ m (path_join dir "docker-compose.yml") && which m "docker" then Ret (mkCtx COMPOSE dir (Some (basename dir)))
        else Ret (mkCtx DIRECT dir None)
    end.

(** What is run, and where: [None] is the directory the command itself runs in. *)
Record process := mkProc { argv : list string; cwd : option string }.
Definition unit_of (ctx : ServiceContext) : string := str_or (default "" (handle ctx)) "skr-crypto.service".
Inductive op := Start | Stop | Restart.
Definition op_name (o : op) : string := match o with Start => "start" | Stop => "stop" | Restart => "restart" end.
(** [start], [stop] and [restart]; [None]: NotImplementedError. *)
Definition lifecycle (o : op) (ctx : ServiceContext) : option process :=
  match regime_of ctx with
  | SYSTEMD => Some (mkProc ["sudo"; "systemctl"; op_name o; unit_of ctx] None)
  | COMPOSE => Some (mkProc match o with
                            | Start => ["docker"; "compose"; "up"; "-d"]
                            | Stop => ["docker"; "compose"; "down"]
                            | Restart => ["docker"; "compose"; "up"; "-d"; "--force-recreate"]
                            end (Some (ctx_dir ctx)))
  | DIRECT => None
  end.
Definition logs_command (ctx : ServiceContext) (follow : bool) (lines : Z) : list string :=
  match regime_of ctx with
  | SYSTEMD => ["journalctl"; "-u"; unit_of ctx; "-n"; str_of_Z lines; "--no-pager"] ++ (if follow then ["-f"] else [])
  | COMPOSE => ["docker"; "compose"; "logs"; "--tail"; str_of_Z lines] ++ (if follow then ["-f"] else [])
  | DIRECT => ["tail"; "-n"; str_of_Z lines; if follow then "-f" else ""; "data/audit.log"]
  end%list.

(** ** [start], [stop], [restart] ([start_stop.py]) *)

(** What [subprocess.run] did: the exit status and the two streams, or an exception. *)
Inductive completed := Completed (returncode : Z) (stdout stderr : string) | RunFails (cls : string).
Definition do_ (run : process -> completed) (o : op) (root : outcome cexn string) (via : option string) : outcome cexn unit :=
  match root with
  | Ret dir =>
      match detect dir via with
      | Ret ctx =>
          match lifecycle o ctx with
          | None => Raise (SkrCryptoError ("Cannot " +:+ op_name o +:+ " a 'direct' install (no supervisor)."))
          | Some p =>
              match run p with
              | RunFails cls => Raise (Traceback cls)
              | Completed rc out err =>
                  if (rc =? 0)%Z then Ret tt
                  else Raise (SkrCryptoError (op_name o +:+ " failed (exit " +:+ str_of_Z rc +:+ "): " +:+ strip (str_or err out)))
              end
          end
      | Raise e => Raise e
      | Crash => Crash
      end
  | Raise e => Raise e
  | Crash => Crash
  end.

(** ** [logs]: the program the command turns into; [None] when there is no audit log *)
Definition logs_cmd (root : outcome cexn string) (env : outcome cexn env_dict) (follow : bool) (lines : Z) (via : option string)
    (audit_only : bool) : outcome cexn (option (list string)) :=
  match root with
  | Ret dir =>
      if audit_only then
        match env with
        | Ret e =>
            let log := audit_log (from_install_dir dir e) in
            Ret (if exists_ m log
                 then Some (["tail"; "-n" +:+ str_of_Z lines] ++ (if follow then ["-f"] else []) ++ [log])%list
                 else None)
        | Raise e => Raise e
        | Crash => Crash
        end
      else
        match detect dir via with
        | Ret ctx => Ret (Some (List.filter (fun a => negb (String.eqb a "")) (logs_command ctx follow lines)))
        | Raise e => Raise e
        | Crash => Crash
        end
  | Raise e => Raise e
  | Crash => Crash
  end.

(** ** [config edit] and [config validate]: the editor, and what its status means *)
Definition editor (environ : string -> option string) : option string :=
  let get k := default "" (environ k) in
  if negb (String.eqb (get "EDITOR") "") then Some (get "EDITOR")
  else if negb (String.eqb (get "VISUAL") "") then Some (get "VISUAL")
  else List.find (which m) ["nano"; "vim"; "vi"].
Definition edit (environ : string -> option string) (call : list string -> Z) (root : outcome cexn string) : outcome cexn unit :=
  match root with
  | Ret dir =>
      match editor environ with
      | None => Raise (SkrCryptoError "No editor found. Set $EDITOR or install nano/vim/vi.")
      | Some e =>
          let rc := call [e; path_join dir ".env"] in
          if (rc =? 0)%Z then Ret tt else Raise (SkrCryptoError ("editor exited with status " +:+ str_of_Z rc))
      end
  | Raise e => Raise e
  | Crash => Crash
  end.
Definition validate (run : process -> Z) (root : outcome cexn string) : outcome cexn unit :=
  match root with
  | Ret dir =>
      if (run (mkProc ["python"; "-c"; "from skr_crypto.server.config import validate_config; validate_config()"] (Some dir)) =? 0)%Z
      then Ret tt else Raise (SkrCryptoError "config validation failed (see stderr above)")
  | Raise e => Raise e
  | Crash => Crash
  end.
End Service.

(** ** [update] *)
Inductive fetched := Fetched (latest : json) | FetchFails (cls : string).
(** [_fetch_latest_release] *)
Definition fetch_latest_release (f : fetched) : outcome cexn (option json) :=
  match f with
  | Fetched JNull => Ret None
  | Fetched j => Ret (Some j)
  | FetchFails cls =>
      if bool_decide (cls ∈ ["HTTPError"; "URLError"; "TimeoutError"; "ValueError"]) then Ret None else Raise (Traceback cls)
  end.
(** What is shown: nothing to do, or the URL of the wheel; [snapshot] is the run of
    [backup], whose failure is only a warning. *)
Inductive advice := Unreachable | UpToDate | NoWheel | Wheel (url : json) (snapshot : option (outcome cexn unit)).
Fixpoint ends_with (e s : string) : bool :=
  String.eqb s e || match s with "" => false | String _ s' => ends_with e s' end.
(** [for asset in v] *)
Definition elements_of (v : json) : outcome cexn (list json) :=
  match v with
  | JList l => Ret l
  | JObj [] | JStr "" => Ret []
  | JObj _ | JStr _ => Raise (Traceback "AttributeError")
  | _ => Raise (Traceback "TypeError")
  end.
(** The URL of the first asset that is a wheel. *)
Fixpoint wheel_of (assets : list json) : outcome cexn json :=
  match assets with
  | [] => Ret JNull
  | JObj a :: assets =>
      match default (JStr "") (jget "name" a) with
      | JStr n => if ends_with ".whl" n then Ret (default JNull (jget "browser_download_url" a)) else wheel_of assets
      | _ => Raise (Traceback "AttributeError")
      end
  | _ :: _ => Raise (Traceback "AttributeError")
  end.
Definition wheel_url (release : list (string * json)) : outcome cexn json :=
  match elements_of (default (JList []) (jget "assets" release)) with
  | Ret assets => wheel_of assets
  | Raise e => Raise e
  | Crash => Crash
  end.
Definition update_cmd (current : string) (f : fetched) (check_only no_backup : bool) (backup : outcome cexn unit)
    : outcome cexn advice :=
  match fetch_latest_release f with
  | Raise e => Raise e
  | Crash => Crash
  | Ret None => Ret Unreachable
  | Ret (Some (JObj l)) =>
      let tag := default (JStr "") (jget "tag_name" l) in
      if negb (truthy tag) then Raise (SkrCryptoError "GitHub returned a release with no tag_name")
      else if Keystore.json_is_str (Some tag) ("v" +:+ current) then Ret UpToDate
      else match wheel_url l with
           | Raise e => Raise e
           | Crash => Crash
           | Ret url =>
               if negb (truthy url) then Ret NoWheel
               else if check_only || no_backup then Ret (Wheel url None)
               else match backup with Crash => Crash | _ => Ret (Wheel url (Some backup)) end
           end
  | Ret (Some _) => Raise (Traceback "AttributeError")
  end.

(** ** [version]: never an error of the service *)
Inductive service_version := NotInstalled | NotRunning | VersionError (e : cexn) | Version (git_sha started_at network : json).
Definition version_cmd (root : outcome cexn string) (version : string -> outcome cexn json) : outcome cexn service_version :=
  match root with
  | Raise (NotInstalledError _) => Ret NotInstalled
  | Raise e => Raise e
  | Crash => Crash
  | Ret dir =>
      match version (path_join dir ".env") with
      | Ret (JObj v) => Ret (Version (default (JStr "unknown") (jget "git_sha" v)) (default JNull (jget "started_at" v))
                               (default JNull (jget "network" v)))
      | Ret _ => Raise (Traceback "AttributeError")
      | Raise (ServiceUnreachableError _) => Ret NotRunning
      | Raise e => if is_skr_error e then Ret (VersionError e) else Raise e
      | Crash => Crash
      end
  end.

(** ** [help]: the commands it lists, and those of [main.py] *)
Definition GROUPS : list (string * list string) := [
  ("Lifecycle", ["install"; "update"; "start"; "stop"; "restart"]);
  ("Inspect", ["status"; "logs"; "balance"; "check"; "risk"; "audit"; "reconcile"; "version"]);
  ("Configuration", ["config show"; "config edit"; "config validate"; "keygen"]);
  ("Backups", ["backup"; "restore"]); ("Diagnostics", ["doctor"; "completion"]); ("Help", ["help"])].
Definition registered : list string := [
  "install"; "update"; "status"; "start"; "stop"; "restart"; "logs"; "balance"; "check"; "risk"; "audit"; "reconcile";
  "config"; "keygen"; "wallet"; "token"; "webhook"; "alert"; "report"; "backup"; "restore"; "doctor"; "completion";
  "version"; "help"].
Definition listed (c : string) : bool :=
  existsb (fun g => existsb (fun x => String.eqb x c || startswith (c +:+ " ") x) g.2) GROUPS.
Example help_misses : List.filter (fun c => negb (listed c)) registered = ["wallet"; "token"; "webhook"; "alert"; "report"].
Proof. reflexivity. Qed.

(** ** Lemmas *)
Lemma unit_found m dir u : systemd_unit_name m dir = Some u ->
  u ∈ ["skr-crypto.service"; "payouts.service"] /\ sysname m = "Linux" /\ which m "systemctl" = true /\
  exists text a b, unit_file m u = Some text /\ text = a +:+ dir +:+ b.
Proof.
  unfold systemd_unit_name. destruct (String.eqb_spec (sysname m) "Linux"), (which m "systemctl"); cbn [negb]; [|discriminate..].
  intros [H1 H2]%find_some. destruct (unit_file m u) as [text|] eqn:E; [|done]. apply contains_spec in H2 as (a & b & ->).
  split; [by apply list_elem_of_In|]. split_and!; [done|done|]. by exists (a +:+ dir +:+ b), a, b.
Qed.
Lemma do_runs m run o root via : do_ m run o root via = Ret tt ->
  exists dir ctx p out err, root = Ret dir /\ detect m dir via = Ret ctx /\ lifecycle o ctx = Some p /\ run p = Completed 0 out err.
Proof.
  unfold do_. destruct root as [dir|e|]; [|done..]. destruct (detect m dir via) as [ctx|e|] eqn:Ed; [|done..].
  destruct (lifecycle o ctx) as [p|] eqn:El; [|done]. destruct (run p) as [rc out err|cls] eqn:Er; [|done].
  destruct (Z.eqb_spec rc 0) as [->|]; [|done]. intros _. by exists dir, ctx, p, out, err.
Qed.

(** ** The properties *)

(** [start], [stop] and [restart] without [--via] succeed only when one program was run
    with exit status 0, and it was the supervisor of an installation at this directory:
    docker compose in the directory itself, or systemctl on a unit file that names the
    directory.  An installation without a supervisor is refused and nothing is run. *)
Theorem lifecycle_supervised (m : machine) (run : process -> completed) (o : op) (dir : string) :
  (do_ m run o (Ret dir) None = Ret tt -> exists p out err, run p = Completed 0 out err /\
     (cwd p = Some dir /\ firstn 2 (argv p) = ["docker"; "compose"] /\ exists_ m (path_join dir "docker-compose.yml") = true \/
      exists u text a b, argv p = ["sudo"; "systemctl"; op_name o; u] /\ unit_file m u = Some text /\ text = a +:+ dir +:+ b)) /\
  (systemd_unit_name m dir = None -> exists_ m (path_join dir "docker-compose.yml") && which m "docker" = false ->
     exists msg, forall run', do_ m run' o (Ret dir) None = Raise (SkrCryptoError msg)).
Proof.
  split.
  - intros (dir' & ctx & p & out & err & [= <-] & Hd & Hl & Hr)%do_runs. exists p, out, err. split; [done|].
    unfold detect in Hd. cbn [default from_option String.eqb negb] in Hd. destruct (systemd_unit_name m dir) as [u|] eqn:Eu.
    + right. injection Hd as <-. apply unit_found in Eu as (Hu & _ & _ & text & a & b & Ht & ->).
      cbn in Hl. injection Hl as <-. exists u, (a +:+ dir +:+ b), a, b. split_and!; [|done|done].
      unfold unit_of. cbn. rewrite !elem_of_cons in Hu. destruct Hu as [->|[->|Hu]]; [done|done|by apply elem_of_nil in Hu].
    + left. destruct (exists_ m (path_join dir "docker-compose.yml")) eqn:Ec, (which m "docker"); rewrite ?Ec in Hd; cbn [andb] in Hd;
        injection Hd as <-; cbn in Hl; [|discriminate..]. injection Hl as <-.
      split_and!; [done| |done]. by destruct o.
  - intros Hs Hc. eexists. intros run'. unfold do_, detect. cbn [default from_option String.eqb negb]. rewrite Hs, Hc. reflexivity.
Qed.

(** The unit file is searched for the text of the directory, not for its working
    directory: on a host where the unit runs the installation at [dir-2], say, stopping
    the installation at [dir] stops that one. *)
Theorem stop_hits_other_install (m : machine) (run : process -> completed) (dir rest before after out err : string) :
  sysname m = "Linux" -> which m "systemctl" = true ->
  unit_file m "skr-crypto.service" = Some (before +:+ "WorkingDirectory=" +:+ (dir +:+ rest) +:+ after) ->
  run (mkProc ["sudo"; "systemctl"; "stop"; "skr-crypto.service"] None) = Completed 0 out err ->
  detect m dir None = Ret (mkCtx SYSTEMD dir (Some "skr-crypto.service")) /\ do_ m run Stop (Ret dir) None = Ret tt.
Proof.
  intros Hs Hw Hu Hr.
  assert (H : detect m dir None = Ret (mkCtx SYSTEMD dir (Some "skr-crypto.service"))).
  { unfold detect, systemd_unit_name. cbn [default from_option String.eqb negb List.find]. rewrite Hs, Hw, Hu.
    assert (contains dir (before +:+ "WorkingDirectory=" +:+ (dir +:+ rest) +:+ after) = true) as Hc.
    { apply contains_spec. exists (before +:+ "WorkingDirectory="), (rest +:+ after). by rewrite !append_assoc. }
    rewrite Hc. done. }
  split; [done|]. unfold do_. rewrite H. cbn. by rewrite Hr.
Qed.

(** ** The hypotheses can hold *)
Definition demo_machine : machine :=
  mkMachine "Linux" (fun _ => true)
    (fun u => if String.eqb u "skr-crypto.service" then Some ("[Service]" +:+ nl +:+ "WorkingDirectory=/srv/skr-2" +:+ nl) else None)
    (fun _ => false).
Lemma stop_hits_other_install_witness :
  do_ demo_machine (fun _ => Completed 0 "" "") Stop (Ret "/srv/skr") None = Ret tt.
Proof.
  apply (stop_hits_other_install demo_machine (fun _ => Completed 0 "" "") "/srv/skr" "-2" ("[Service]" +:+ nl) nl "" "");
    reflexivity.
Defined.
(** Without a supervisor [logs] reads a file relative to where the command is run. *)
Example direct_logs_elsewhere :
  logs_cmd (mkMachine "Darwin" (fun _ => true) (fun _ => None) (fun _ => false)) (Ret "/srv/skr") (Ret []) true 200 None false =
  Ret (Some ["tail"; "-n"; "200"; "-f"; "data/audit.log"]).
Proof. reflexivity. Qed.
