(* ===== verification/Screens.v ===== *)
(** * What the commands show ([cli/commands/])

    The commands of [CliStores], [CliApi], [CliReports] and [CliService] with their messages,
    tables and JSON documents, over the terminal of [Terminal].  Words of click's own help,
    and how Rich draws a table, are left out. *)
From S2P Require Import Prelude PyStr Effects Exceptions CliEnv Terminal.
From S2P Require AuditEntry Keystore Tokens TokenRows Delivery Workers Webhooks Alerts Decimal Shutdown Install CliStores CliApi CliReports CliService.
Import Keystore(json(..), jget, truthy).
Import CliStores(sworld(..), s_dbs, s_memory, s_tick, s_lines, s_out).
Open Scope string_scope.

Definition opt_str (s : option string) : json := match s with Some s => JStr s | None => JNull end.
(** The ellipsis of a cut text, and the dash of an absent one, are one character each;
    here their UTF-8 bytes. *)
Definition dash : string := String "226" (String "128" (one "148")).

(** ** [token] *)
Section Token.
Context (hash_token : string -> string -> string) (path : outcome cexn (option string)) (sql : nat -> fate exn).
Abbreviation T := (M (sworld (list Tokens.TokenRecord) * term) cexn).

Definition token_fields (r : Tokens.TokenRecord) : list (string * json) :=
  [("id", JStr (Tokens.t_id r)); ("name", JStr (Tokens.t_name r));
   ("scopes", JList (map JStr (TokenRows.sorted (Tokens.t_scopes r)))); ("created_at", JStr (Tokens.t_created_at r));
   ("last_used_at", opt_str (Tokens.t_last_used_at r)); ("revoked_at", opt_str (Tokens.t_revoked_at r));
   ("created_by", JStr (Tokens.t_created_by r))].
Definition token_row (r : Tokens.TokenRecord) : list string :=
  [Tokens.t_id r; Tokens.t_name r; join "," (TokenRows.sorted (Tokens.t_scopes r)); str_take 19 (Tokens.t_created_at r);
   match CliReports.given (Tokens.t_last_used_at r) with Some t => str_take 19 t | None => dash end;
   match CliReports.given (Tokens.t_revoked_at r) with Some _ => "revoked" | None => "active" end].
Definition token_list (include_revoked as_json : bool) : T unit :=
  let! rows := below (CliStores.list_cmd path sql include_revoked) in
  if as_json then print_json (JList (map (fun r => JObj (token_fields r)) rows))
  else match rows with
       | [] => warn "No tokens configured. Mint one with `skr-crypto token create --name <label> --scope send,read`."
       | _ => render_table (add_rows (map token_row rows)
                (make_table (Some "API tokens") ["ID"; "Name"; "Scopes"; "Created"; "Last used"; "Status"]))
       end.

(** [str(v) if not isinstance(v, list) else ",".join(v)] for the values of [body]. *)
Definition field_text (v : json) : string :=
  match v with
  | JStr s => s
  | JList l => join "," (map (fun j => match j with JStr s => s | _ => "" end) l)
  | _ => "None"
  end.
Definition token_show (id : string) (as_json : bool) : T unit :=
  let! rec := below (CliStores.show_cmd path sql id) in
  if as_json then print_json (JObj (token_fields rec))
  else render_table (add_rows (map (fun '(k, v) => [k; field_text v]) (token_fields rec))
         (make_table (Some ("Token " +:+ Tokens.t_id rec)) ["Field"; "Value"])).

Definition token_create (f : CliStores.draw) (name scopes_str : string) : T unit :=
  let! h := below (CliStores.open_store path sql) in
  let scopes := List.filter (fun s => negb (String.eqb s "")) (map strip (split_on "," scopes_str)) in
  let! r := catch (below (CliStores.create hash_token sql h f name scopes "operator"))
              (fun _ => Some (raise (SkrCryptoError "failed to create token"))) in
  do! success ("Created token id=" +:+ Tokens.t_id r.1 +:+ " name=" +:+ py_repr name) in
  do! info ("Scopes: " +:+ join "," (TokenRows.sorted (Tokens.t_scopes r.1))) in
  do! info "" in
  do! warn "[bold]The token is shown ONCE — copy it now.[/bold]" in
  do! print_value r.2 in
  do! info "" in
  info "Restart the service to load the token. Use it via `X-API-Key: <token>` header.".

(** [confirm] asks on the terminal itself, not through [output]. *)
Definition confirmed (yes : bool) : T unit :=
  if yes then ret tt
  else let! go := below (CliStores.confirm false) in
       when (negb go) (do! info "Aborted." in raise (Exits 1)).
Definition token_revoke (id now : string) (yes : bool) : T unit :=
  let! h := below (CliStores.open_store path sql) in
  let! rec := below (CliStores.get_token sql h id) in
  match rec with
  | None => raise (SkrCryptoError ("no token with id=" +:+ py_repr id))
  | Some r =>
      match Tokens.t_revoked_at r with
      | Some at_ => info ("Token " +:+ id +:+ " is already revoked at " +:+ at_ +:+ ".")
      | None =>
          do! confirmed yes in
          do! below (CliStores.revoke sql h now id) in
          success ("Revoked token " +:+ id)
      end
  end.
Definition token_rotate (id : string) (f : CliStores.draw) (now : string) (yes : bool) : T unit :=
  let! h := below (CliStores.open_store path sql) in
  let! rec := below (CliStores.get_token sql h id) in
  match rec with
  | None => raise (SkrCryptoError ("no token with id=" +:+ py_repr id))
  | Some r =>
      if negb (Tokens.is_active r)
      then raise (SkrCryptoError ("token " +:+ id +:+ " already revoked — use create instead"))
      else
        do! confirmed yes in
        let! new := below (CliStores.create hash_token sql h f (Tokens.t_name r) (elements (Tokens.t_scopes r)) id) in
        do! below (CliStores.revoke sql h now id) in
        do! success ("Rotated: revoked id=" +:+ id +:+ ", created id=" +:+ Tokens.t_id new.1) in
        do! warn "[bold]The new token is shown ONCE — copy it now.[/bold]" in
        print_value new.2
  end.
End Token.

(** ** [webhook] and [alert]: the deliveries *)
Section Deliveries.
Context {P : Type} (path : outcome cexn (option string)) (sql : nat -> fate exn).
Abbreviation TD := (M (sworld (Delivery.store P) * term) cexn).
(** What the two commands differ in: the name of the column the row goes to, and the words. *)
Record delivery_words := mkWords {
  dw_key : string; dw_column : string; dw_width : nat; dw_title : string; dw_none : string;
  dw_what : string; dw_reset : string; dw_worker : string }.
Definition webhook_words : delivery_words :=
  mkWords "url" "URL" 40 "Webhook deliveries (most recent first)" "No webhook deliveries yet." "delivery"
    "Delivery id=" "; the worker will pick it up on its next tick (~1s).".
Definition alert_words : delivery_words :=
  mkWords "chat_id" "Chat" 18 "Telegram alert deliveries (most recent first)" "No alert deliveries yet." "alert delivery"
    "Alert delivery id=" "; the worker will pick it up on its next tick (~1s).".
Context (words : delivery_words) (target : P -> string).

Definition delivery_json (d : Delivery.delivery P) : json :=
  JObj [("id", JInt (Delivery.d_id d)); ("event", JStr (Delivery.d_event d)); (dw_key words, JStr (target (Delivery.d_what d)));
        ("status", JStr (CliStores.status_text (Delivery.d_status d))); ("attempts", JInt (Delivery.d_attempts d));
        ("last_response_code", match Delivery.d_last_response_code d with Some c => JInt c | None => JNull end);
        ("last_error", opt_str (Delivery.d_last_error d)); ("created_at", JFloat (Delivery.d_created_at d))].
(** [s if len(s) <= n else s[:n - 3] + "..."] *)
Definition shortened (n : nat) (s : string) : string :=
  if (String.length s <=? n)%nat then s else str_take (n - 3) s +:+ "...".
Definition delivery_row (d : Delivery.delivery P) : list string :=
  [str_of_Z (Delivery.d_id d); Delivery.d_event d; shortened (dw_width words) (target (Delivery.d_what d));
   CliStores.status_text (Delivery.d_status d); str_of_Z (Delivery.d_attempts d);
   match Delivery.d_last_response_code d with Some c => if (c =? 0)%Z then "-" else str_of_Z c | None => "-" end;
   str_take 30 (default "" (Delivery.d_last_error d))].
Definition deliveries_list (limit : Z) (as_json : bool) : TD unit :=
  let! rows := below (CliStores.list_deliveries_cmd path sql limit) in
  if as_json then print_json (JList (map delivery_json rows))
  else match rows with
       | [] => warn (dw_none words)
       | _ => render_table (add_rows (map delivery_row rows)
                (make_table (Some (dw_title words)) ["ID"; "Event"; dw_column words; "Status"; "Attempts"; "Code"; "Error"]))
       end.
Definition delivery_retry (now : time) (id : Z) : TD unit :=
  do! below (CliStores.retry_cmd path sql (dw_what words) now id) in
  success (dw_reset words +:+ str_of_Z id +:+ " reset to pending" +:+ dw_worker words).
End Deliveries.
(** The two groups. *)
Definition webhook_list path sql := deliveries_list (P:=string * AuditEntry.entry) path sql webhook_words fst.
Definition webhook_retry path sql := delivery_retry (P:=string * AuditEntry.entry) path sql webhook_words.
Definition alert_store path sql := CliStores.open_deliveries (P:=string * string) path sql.
Definition alert_list path sql := deliveries_list (P:=string * string) path sql alert_words fst.
Definition alert_retry path sql := delivery_retry (P:=string * string) path sql alert_words.

(** ** [webhook setup], [webhook test], [alert setup], [alert test] *)
Section Setup.
Context {W : Type}.
Abbreviation T := (M (W * term) cexn).
Definition values (lines : list string) : T unit := for_each lines print_value.

(** The lines of [CliStores.webhook_setup] and [alert_setup], with what is said around them:
    the first two are the settings to add, the others the optional ones. *)
Definition webhook_setup (secret : string) : T unit :=
  let lines := CliStores.webhook_setup secret in
  do! success "Generated a fresh HMAC-SHA256 signing secret." in
  do! info "" in
  do! info "[bold]Add these lines to your `.env` (or your secret manager):[/bold]" in
  do! info "" in
  do! values (firstn 2 lines) in
  do! info "" in
  do! info "Optional knobs (defaults shown):" in
  do! values (skipn 2 lines) in
  do! info "" in
  info "After restart, the receiver MUST verify X-SKR-Signature using the same secret. See ADR 0011 for the 5-line verification spec.".

Definition BOTFATHER_HELP : string := join nl [
  "[bold]Setting up a Telegram bot:[/bold]"; "";
  "  1. Open Telegram, message [italic]@BotFather[/italic].";
  "  2. Send [italic]/newbot[/italic]; pick a name + username.";
  "  3. Copy the HTTP API token BotFather returns";
  "     (looks like [italic]123456:ABC-DEF1234ghIkl-zyx57W2v1u123ew11[/italic])."; "";
  "[bold]Picking a chat_id:[/bold]"; "";
  "  - For a personal DM: open the bot, send [italic]/start[/italic],";
  "    then forward any of your messages to [italic]@userinfobot[/italic]";
  "    — it replies with your numeric user id.";
  "  - For a group: add the bot to the group, send a message, then";
  "    open [italic]https://api.telegram.org/bot<TOKEN>/getUpdates[/italic]";
  "    and copy the negative-prefixed [italic]chat.id[/italic].";
  "  - For a channel: add the bot as admin, post once, then";
  "    [italic]getUpdates[/italic] as above."; ""].
Definition alert_setup : T unit :=
  do! info BOTFATHER_HELP in
  do! info "" in
  do! info "[bold]Add to your .env (or your secret manager):[/bold]" in
  do! info "" in
  do! values (firstn 2 CliStores.alert_setup) in
  do! info "" in
  do! info "Optional knobs (defaults shown):" in
  do! values (skipn 2 CliStores.alert_setup) in
  do! info "" in
  info "After [italic]restarting[/italic] the service, verify wiring with [italic]skr-crypto alert test[/italic].".

Context (hmac_hex : string -> string -> string) (env : outcome cexn env_dict).
(** The synthetic event, as [json.dumps] gets it. *)
Definition synthetic_event (timestamp : string) : json :=
  JObj [("synthetic", JBool true); ("id", JStr "test-delivery-0"); ("event", JStr "SEND_SUCCESS"); ("timestamp", JStr timestamp);
        ("wallet", JStr "test"); ("from_address", JStr "TTestxxxxxxxxxxxxxxxxxxxxxxxxxxxxxx");
        ("to_address", JStr "TXxxxxxxxxxxxxxxxxxxxxxxxxxxxxxxxx"); ("amount", JStr "1.00"); ("asset", JStr "USDT");
        ("txid", JStr "synthetic-test-tx-id"); ("idempotency_key", JStr "synthetic-key"); ("client_ip", JStr "127.0.0.1");
        ("token_id", JStr "synthetic"); ("result", JStr "broadcast")].
Definition webhook_test (json_dumps : json -> string) (url timestamp : string) (ts : Z) (secret : option string)
    (send : Workers.post -> Workers.answer) : T unit :=
  let! s := lift (CliStores.option_or_env secret "WEBHOOK_SIGNING_SECRET" env) in
  do! when (String.eqb s "") (raise (SkrCryptoError "no signing secret available")) in
  let body := json_dumps (synthetic_event timestamp) in
  let answer := send (Workers.mkPost url body
    [("Content-Type", "application/json"); ("X-SKR-Signature", Webhooks.sign_payload hmac_hex s ts body);
     ("X-SKR-Event", "SEND_SUCCESS"); ("X-SKR-Delivery-Id", "synthetic"); ("User-Agent", "skr-crypto-webhook/1 (test)")]) in
  do! info ("POSTing synthetic SEND_SUCCESS to " +:+ url) in
  do! lift (CliStores.accepted_or answer) in
  match answer with
  | Workers.Http code text =>
      do! success ("Receiver returned " +:+ str_of_Z code +:+ ". Response body: " +:+ py_repr (str_take 200 text)) in
      info "Wiring looks good. The receiver accepted the synthetic event."
  | Workers.Failed_ _ => ret tt
  end.
(** [elapsed]: the time the call took, with two decimals. *)
Definition alert_test (now_iso elapsed : string) (threshold : option Decimal.Dec) (bot_token chat_id : option string)
    (send : string * list (string * string) -> Workers.answer) : T unit :=
  let! b := lift (CliStores.option_or_env bot_token "TELEGRAM_BOT_TOKEN" env) in
  let! c := lift (CliStores.option_or_env chat_id "TELEGRAM_CHAT_ID" env) in
  do! when (String.eqb b "" || String.eqb c "") (raise (SkrCryptoError "no Telegram bot token / chat_id available")) in
  do! info ("POSTing synthetic ALERT_TEST to api.telegram.org" +:+ ellipsis) in
  let answer := send (Workers.telegram_send_message b c
                        (Alerts.format_message now_iso (CliStores.test_entry now_iso) threshold)) in
  do! lift (CliStores.accepted_or answer) in
  match answer with
  | Workers.Http code _ =>
      success ("Telegram returned " +:+ str_of_Z code +:+ " in " +:+ elapsed +:+
               "s. Check the chat — the synthetic message should be visible there.")
  | Workers.Failed_ _ => ret tt
  end.
End Setup.

(** ** Values of JSON answers *)
Section Answers.
Context {W : Type}.
Abbreviation T := (M (W * term) cexn).
(** [str] of a float. *)
Context (float_str : Q -> string).

Fixpoint py_repr_of (j : json) : string :=
  match j with
  | JNull => "None"
  | JBool b => if b then "True" else "False"
  | JInt n => str_of_Z n
  | JFloat q => float_str q
  | JStr s => py_repr s
  | JList l => "[" +:+ join ", " (map py_repr_of l) +:+ "]"
  | JObj l => "{" +:+ join ", " (map (fun '(k, v) => py_repr k +:+ ": " +:+ py_repr_of v) l) +:+ "}"
  end.
Definition py_str (j : json) : string := match j with JStr s => s | _ => py_repr_of j end.
(** [d.get(k, dflt)] *)
Definition jdefault (k : string) (dflt : json) (d : list (string * json)) : json := default dflt (jget k d).
Definition dict_of (j : json) : outcome cexn (list (string * json)) :=
  match j with JObj d => Ret d | _ => Raise (Traceback "AttributeError") end.
(** What [add_row] makes of a cell that is not converted. *)
Definition cell (j : json) : outcome cexn string :=
  match j with JStr s => Ret s | JNull => Ret "" | _ => Raise (Traceback "NotRenderableError") end.
(** [j or ""], a string *)
Definition lowered (dflt : string) (j : json) : outcome cexn string :=
  match j with
  | JStr s => Ret (lower (str_or s dflt))
  | _ => if truthy j then Raise (Traceback "AttributeError") else Ret dflt
  end.

(** *** [balance] *)
Definition balance_view (as_json : bool) (payload : json) : T unit :=
  if as_json then print_json payload
  else
    let! d := lift (dict_of payload) in
    let! w := lift (cell (jdefault "wallet" (JStr "?") d)) in
    let! a := lift (cell (jdefault "address" (JStr "?") d)) in
    let text k dflt := py_str (jdefault k dflt d) in
    render_table (add_rows
      [["wallet"; w]; ["address"; a]; ["TRX"; text "trx" (JStr "?")]; ["USDT"; text "usdt" (JStr "?")];
       ["energy available"; text "energy_available" (JInt 0)]; ["bandwidth (free)"; text "bandwidth_free_available" (JInt 0)];
       ["bandwidth (staked)"; text "bandwidth_paid_available" (JInt 0)]; ["TRON power staked"; text "tron_power_staked" (JInt 0)]]
      (make_table (Some "Treasury balance") ["Field"; "Value"])).
Definition balance_cmd (api : outcome cexn CliApi.APIClient) (send : CliApi.request -> CliApi.http) (wallet : option string)
    (as_json : bool) : T unit :=
  let! api := lift api in
  let! payload := lift (CliApi.balance send api wallet) in
  balance_view as_json payload.

(** *** [risk] *)
(** [k in summary] and [summary[k]] for a value that is true. *)
Definition contains_key (k : string) (j : json) : outcome cexn bool :=
  match j with
  | JObj d => Ret (match jget k d with Some _ => true | None => false end)
  | JList l => Ret (existsb (fun x => Keystore.json_is_str (Some x) k) l)
  | JStr s => Ret (contains k s)
  | _ => Raise (Traceback "TypeError")
  end.
Definition item_of (k : string) (j : json) : outcome cexn json :=
  match j with JObj d => Ret (jdefault k JNull d) | _ => Raise (Traceback "TypeError") end.
Definition summary_bit (label k : string) (summary : json) : T (list string) :=
  let! there := lift (contains_key k summary) in
  if there : bool then let! v := lift (item_of k summary) in ret [label +:+ "=" +:+ py_str v] else ret [].
Definition status_colour (status : string) : string :=
  if String.eqb status "ok" then "green" else if String.eqb status "warn" then "yellow"
  else if String.eqb status "fail" then "red" else if String.eqb status "skip" then "dim" else "white".
Definition verdict_colour (level : string) : string :=
  if String.eqb level "low" then "green" else if String.eqb level "medium" then "yellow"
  else if String.eqb level "high" || String.eqb level "invalid" then "red" else "white".
Definition in_colour (colour s : string) : string := "[" +:+ colour +:+ "]" +:+ s +:+ "[/" +:+ colour +:+ "]".
Definition check_row (c : json) : T (list string) :=
  let! d := lift (dict_of c) in
  let! status := lift (lowered "?" (jdefault "status" JNull d)) in
  ret [py_str (jdefault "name" (JStr "?") d); in_colour (status_colour status) (upper status);
       py_str (jdefault "message" (JStr "") d)].
Fixpoint collect {A B} (f : A -> T B) (l : list A) : T (list B) :=
  match l with
  | [] => ret []
  | x :: l => let! y := f x in let! ys := collect f l in ret (y :: ys)
  end.
Definition or_empty (j : json) : json := if truthy j then j else JObj [].
Definition balance_line (summary : json) : T unit :=
  when (truthy summary)
    (let! trx := summary_bit "TRX" "trx_balance" summary in
     let! usdt := summary_bit "USDT" "usdt_balance" summary in
     let! warmth := summary_bit "warmth" "warmth" summary in
     let bits := (trx ++ usdt ++ warmth)%list in
     when (negb (match bits with [] => true | _ => false end)) (print_value ("balance:    " +:+ join "  " bits))).
Definition verdict_advice (level : string) : T unit :=
  if String.eqb level "high" || String.eqb level "invalid"
  then warn "/send to this address would be REFUSED by the server (RISK_BLOCK_LEVEL=high default)."
  else when (String.eqb level "medium")
         (info "/send proceeds at default RISK_BLOCK_LEVEL=high; set RISK_BLOCK_LEVEL=medium in .env to also block on this.").
Definition render_human (report : json) : T unit :=
  let! d := lift (dict_of report) in
  let! level := lift (lowered "?" (jdefault "level" JNull d)) in
  let summary := or_empty (jdefault "summary" (JObj []) d) in
  do! print_value ("address:    [bold]" +:+ py_str (jdefault "address" (JStr "?") d) +:+ "[/bold]") in
  do! balance_line summary in
  let! checks := lift (CliService.elements_of (or_empty (jdefault "checks" (JList []) d))) in
  let! rows := collect check_row checks in
  do! render_table (add_rows rows (make_table None ["check"; "status"; "detail"])) in
  do! print_value (nl +:+ "risk:       " +:+ in_colour (verdict_colour level) ("[bold]" +:+ upper level +:+ "[/bold]")) in
  verdict_advice level.
Definition risk_cmd (api : outcome cexn CliApi.APIClient) (send : CliApi.request -> CliApi.http) (address : string)
    (external as_json : bool) : T unit :=
  let! api := lift api in
  let! report := lift (CliApi.risk send api address external) in
  do! (if as_json then print_json report else render_human report) in
  let! level := lift (CliApi.level_of report) in
  raise (Exits (CliApi.level_exit level)).

(** *** [status] *)
Definition message_of (e : cexn) : string :=
  match e with
  | SkrCryptoError m | NotInstalledError m | AlreadyInstalledError m | ServiceUnreachableError m | AuthError m
  | BadResponseError m | GitOperationError m | VenvError m | ConfigError m => m
  | Exits code => str_of_Z code
  | Traceback cls => cls
  end.
(** [payload]: an error of /version takes the place of the sha, one of /health/live is shown. *)
Definition status_payload (dir pkg_version regime : string) (s : CliApi.status_payload) : list (string * json) :=
  ([("installed", JBool true); ("install_dir", JStr dir); ("pkg_version", JStr pkg_version); ("regime", JStr regime);
    ("running", JBool (CliApi.running s))] ++
   (if CliApi.running s then
      ("uptime_seconds", CliApi.uptime_seconds s) ::
      match CliApi.status_error s with
      | Some e => [("service_sha", JStr ("error: " +:+ message_of e))]
      | None => [("service_sha", CliApi.service_sha s); ("network", CliApi.network s); ("started_at", CliApi.started_at s)]
      end
    else match CliApi.status_error s with Some e => [("error", JStr (message_of e))] | None => [] end))%list.
(** [int(v or 0)] *)
Definition int_of_json (v : json) : outcome cexn Z :=
  match v with
  | JNull => Ret 0%Z
  | JBool b => Ret (if b then 1 else 0)%Z
  | JInt n => Ret n
  | JFloat q => Ret (Shutdown.int_of_Q q)
  | JStr s => if String.eqb s "" then Ret 0%Z
              else match int_of_str s with Some n => Ret n | None => Raise (Traceback "ValueError") end
  | JList _ | JObj _ => if truthy v then Raise (Traceback "TypeError") else Ret 0%Z
  end.
(** [started_text]: [time.strftime(..., time.localtime(float(ts)))] in the zone of the host;
    a ValueError or TypeError leaves the row out. *)
Context (started_text : json -> outcome cexn string).
Definition started_row (v : json) : outcome cexn (list (list string)) :=
  if truthy v then
    match started_text v with
    | Ret s => Ret [["started"; s]]
    | Raise (Traceback cls) => if bool_decide (cls ∈ ["ValueError"; "TypeError"]) then Ret [] else Raise (Traceback cls)
    | Raise e => Raise e
    | Crash => Crash
    end
  else Ret [].
Definition status_rows (dir : string) (d : list (string * json)) : T (list (list string)) :=
  let text k := py_str (jdefault k (JStr "?") d) in
  let head := [["install dir"; dir]; ["pkg version"; text "pkg_version"]; ["regime"; text "regime"]] in
  if truthy (jdefault "running" JNull d) then
    let! uptime := lift (int_of_json (jdefault "uptime_seconds" (JInt 0) d)) in
    let! started := lift (started_row (jdefault "started_at" JNull d)) in
    ret (head ++ [["running"; "[green]yes[/green]"]; ["uptime"; CliApi.human_duration uptime];
                  ["service git_sha"; text "service_sha"]; ["network"; text "network"]] ++ started)%list
  else
    ret (head ++ [["running"; "[red]no[/red]"]] ++
         match jget "error" d with Some e => [["error"; py_str e]] | None => [] end)%list.
(** [detected]: what [service.detect] does; whatever it raises the regime is unknown. *)
Definition status_cmd (root : outcome cexn string) (pkg_version : string)
    (detected : string -> outcome cexn CliService.ServiceContext) (api : string -> outcome cexn CliApi.APIClient)
    (send : CliApi.request -> CliApi.http) (as_json : bool) : T unit :=
  match root with
  | Raise (NotInstalledError _) =>
      if as_json then print_json (JObj [("installed", JBool false)])
      else do! print_value "[red]not installed[/red]" in info "Run `skr-crypto install` to bootstrap."
  | _ =>
      let! dir := lift root in
      let! regime := catch (let! ctx := lift (detected dir) in ret (CliService.regime_value (CliService.regime_of ctx)))
                       (fun _ => Some (ret "unknown")) in
      let! s := match api dir with
                | Ret api => lift (CliApi.status_api send api)
                | Raise (ServiceUnreachableError _) => ret (CliApi.not_running None)
                | Raise e => if is_skr_error e then ret (CliApi.not_running (Some e)) else raise e
                | Crash => lift Crash
                end in
      let d := status_payload dir pkg_version regime s in
      if as_json then print_json (JObj d)
      else
        let! rows := status_rows dir d in
        render_table (add_rows rows (make_table (Some "skr-crypto status") ["Field"; "Value"]))
  end.

(** *** [check] *)
Definition colour_status (s : json) : string :=
  if Keystore.json_is_str (Some s) "SUCCESS" then in_colour "green" "SUCCESS"
  else if Keystore.json_is_str (Some s) "NOT_FOUND" then in_colour "yellow" "NOT_FOUND"
  else in_colour "red" (py_str s).
(** The document of the probe, shown; what is no dict fails as [CliApi.check_cmd] says. *)
Definition check_cmd (txid : string) (p : CliApi.probe) (as_json : bool) : T unit :=
  let! payload := lift (CliApi.check_cmd p true) in
  if as_json then print_json payload
  else match payload with
       | JObj d =>
           match jget "error" d with
           | Some e =>
               let! t := lift match jget "type" d with Some t => Ret t | None => Raise (Traceback "KeyError") end in
               do! error (py_str t +:+ ": " +:+ py_str e) in raise (Exits 6)
           | None =>
               render_table (add_rows
                 ([["status"; colour_status (jdefault "status" (JStr "?") d)]] ++
                  match jget "block_timestamp" d with Some v => [["block_timestamp"; py_str v]] | None => [] end ++
                  [["energy_used"; py_str (jdefault "energy_used" (JInt 0) d)]; ["fee (sun)"; py_str (jdefault "fee" (JInt 0) d)]])%list
                 (make_table (Some ("tx " +:+ txid)) ["Field"; "Value"]))
           end
       | _ => let! _ := lift (CliApi.check_cmd p false) in ret tt
       end.

(** *** [audit] *)
(** [(v or "")[:n]] in the table: a list is sliced, and is then no cell; a dict has no
    such key (Python 3.12; before, a TypeError). *)
Definition no_slice (v : json) : cexn := Traceback match v with JObj _ => "KeyError" | _ => "TypeError" end.
Definition sliced (n : nat) (v : json) : outcome cexn json :=
  match v with
  | JStr s => Ret (JStr (str_take n s))
  | JList l => Ret (if truthy v then JList (firstn n l) else JStr "")
  | _ => if truthy v then Raise (no_slice v) else Ret (JStr "")
  end.
(** [(v or "")[:12] + ("…" if v else "")] *)
Definition cut_with_ellipsis (v : json) : outcome cexn string :=
  match v with
  | JStr s => Ret (if String.eqb s "" then "" else str_take 12 s +:+ ellipsis)
  | _ => if truthy v then Raise (no_slice v) else Ret ""
  end.
Definition colour_event (event : json) : outcome cexn json :=
  match event with
  | JStr s =>
      Ret (JStr (if String.eqb s "SEND_SUCCESS" then in_colour "green" s else if String.eqb s "SEND_FAILED" then in_colour "red" s
                 else if String.eqb s "SEND_REJECTED" then in_colour "yellow" s
                 else if String.eqb s "SEND_DUPLICATE" then in_colour "blue" s
                 else if String.eqb s "STARTUP_CHECK" then in_colour "magenta" s else s))
  | JList _ | JObj _ => Raise (Traceback "TypeError")
  | _ => Ret event
  end.
Definition audit_row (r : json) : T (list string) :=
  let! d := lift (dict_of r) in
  let get k := jdefault k (JStr "") d in
  let! ts := lift (sliced 19 (get "timestamp")) in
  let! event := lift (colour_event (get "event")) in
  let! to_ := lift (cut_with_ellipsis (get "to_address")) in
  let! txid := lift (cut_with_ellipsis (get "txid")) in
  let! ts := lift (cell ts) in
  let! event := lift (cell event) in
  ret [ts; event; to_; py_str (get "amount"); txid; py_str (get "result")].
(** [log]: the lines of the file at [path], if there is one. *)
Definition audit_cmd (json_loads : string -> option json) (fromisoformat strptime : string -> option CliReports.datetime)
    (now : time) (path : string) (log : option (list string)) (today : bool) (since event to_addr : option string)
    (limit : Z) (as_json : bool) : T unit :=
  match log with
  | None => warn ("No audit log at " +:+ path +:+ ". Either AUDIT_LOG_FILE is unset, or no /send has happened yet (it's lazy-created).")
  | Some _ =>
      let! records := lift (CliReports.audit_cmd json_loads fromisoformat strptime now log today since event to_addr limit) in
      match records with
      | [] => info "No matching records."
      | _ =>
          if as_json then for_each records write_json
          else
            let! rows := collect audit_row records in
            let n := Z.of_nat (List.length records) in
            render_table (add_rows rows (make_table
              (Some ("audit (" +:+ str_of_Z n +:+ " record" +:+ (if (n =? 1)%Z then "" else "s") +:+ ")"))
              ["ts (UTC)"; "event"; "to"; "amount"; "txid"; "result"]))
      end
  end.

(** *** [version] *)
Definition version_cmd (current : string) (root : outcome cexn string) (version : string -> outcome cexn json) (as_json : bool)
    : T unit :=
  let! svc := lift (CliService.version_cmd root version) in
  let service := match svc with
                 | CliService.NotInstalled => JStr "not installed"
                 | CliService.NotRunning => JStr "not running"
                 | CliService.VersionError e => JStr ("error: " +:+ message_of e)
                 | CliService.Version sha at_ net => JObj [("git_sha", sha); ("started_at", at_); ("network", net)]
                 end in
  if as_json then print_json (JObj [("cli", JStr current); ("service", service)])
  else
    do! print_value ("skr-crypto: [bold]" +:+ current +:+ "[/bold]") in
    print_value match svc with
                | CliService.Version sha _ net => "service:    git_sha=" +:+ py_str sha +:+ "  network=" +:+ py_str net
                | _ => "service:    " +:+ py_str service
                end.
End Answers.

(** ** [start], [stop], [restart], [logs] *)
Section Control.
Context {W : Type} (m : CliService.machine).
Abbreviation T := (M (W * term) cexn).
Definition capitalize (s : string) : string := match s with "" => "" | String c s => String (to_upper c) (lower s) end.
Definition lifecycle_cmd (run : CliService.process -> CliService.completed) (o : CliService.op) (root : outcome cexn string)
    (via : option string) : T unit :=
  let! dir := lift root in
  let! ctx := lift (CliService.detect m dir via) in
  do! when (match CliService.lifecycle o ctx with Some _ => true | None => false end)
        (info (capitalize (CliService.op_name o) +:+ "ing via " +:+ CliService.regime_value (CliService.regime_of ctx))) in
  do! lift (CliService.do_ m run o root via) in
  success (CliService.op_name o +:+ " ok").
Definition start_cmd run root via : T unit := lifecycle_cmd run CliService.Start root via.
Definition stop_cmd run root via : T unit := lifecycle_cmd run CliService.Stop root via.
Definition restart_cmd run root via : T unit := lifecycle_cmd run CliService.Restart root via.
(** The program the command turns into. *)
Definition logs_cmd (root : outcome cexn string) (env : outcome cexn env_dict) (log : string) (follow : bool) (lines : Z)
    (via : option string) (audit_only : bool) : T (option (list string)) :=
  let! argv := lift (CliService.logs_cmd m root env follow lines via audit_only) in
  do! match argv with
      | None => warn ("audit log not found at " +:+ log +:+ " (it's created lazily on the first /send)")
      | Some argv => info ("$ " +:+ join " " argv)
      end in
  ret argv.

(** ** [help] *)
Definition HELP : list (string * list (string * string)) := [
  ("Lifecycle", [("install", "Bootstrap the install dir (interactive wizard or --yes)");
    ("update", "Show the latest release wheel + how to upgrade"); ("start", "Start the installed service (systemd / docker / direct)");
    ("stop", "Stop the running service"); ("restart", "Restart the service")]);
  ("Inspect", [("status", "Running? Healthy? Which version?"); ("logs", "Tail recent logs (follow with -f)");
    ("balance", "TRX/USDT balances + on-chain resources"); ("check", "Look up a tx hash on-chain (read-only)");
    ("risk", "Wallet-risk preflight (Tether blacklist, contract, burn)"); ("audit", "Browse the service's audit log");
    ("reconcile", "Re-run the startup-check on demand"); ("version", "CLI version + service version")]);
  ("Configuration", [("config show", "Show config with secrets masked"); ("config edit", "Open .env in $EDITOR");
    ("config validate", "Run the service's config-validation checks");
    ("keygen", "Generate a fresh TRON private key (one-time, shown once)")]);
  ("Backups", [("backup", "Snapshot the data dir (audit + idempotency DB)"); ("restore", "Restore from a backup archive")]);
  ("Diagnostics", [("doctor", "Walk through environment checks (like brew doctor)");
    ("completion", "Print a shell-completion script (bash / zsh / fish)")]);
  ("Help", [("help", "This screen")])].
Fixpoint spaces (n : nat) : string := match n with O => "" | S n => String " " (spaces n) end.
(** [f"{s:<n}"] *)
Definition ljust (n : nat) (s : string) : string := s +:+ spaces (n - String.length s).
(** [get_help]: click's text of a command. *)
Definition help_cmd (get_help : string -> string) (topic : option string) : T unit :=
  match CliReports.given topic with
  | Some t =>
      if existsb (String.eqb t) CliService.registered then write (get_help t +:+ nl)
      else do! error ("unknown command: " +:+ t) in raise (Exits 1)
  | None =>
      do! print_value ("[bold]skr-crypto[/bold] — operator CLI for the SKR Crypto fleet." +:+ nl) in
      do! for_each HELP (fun '(group, items) =>
            do! print_value ("[bold cyan]" +:+ group +:+ "[/bold cyan]") in
            do! for_each items (fun '(name, desc) => print_value ("  [green]" +:+ ljust 18 name +:+ "[/green] " +:+ desc)) in
            print_value "") in
      print_value ("Run [italic]skr-crypto <command> --help[/italic] for full options." +:+ nl +:+
        "Money moves only via the service's authenticated HTTP API — this CLI is intentionally read-only on that path.")
  end.

(** ** [completion] *)
Definition SHELLS : list string := ["bash"; "zsh"; "fish"].
Definition rcfile (shell : string) : string :=
  if String.eqb shell "bash" then "~/.bashrc" else if String.eqb shell "zsh" then "~/.zshrc"
  else "~/.config/fish/completions/skr-crypto.fish".
Definition none_if_empty (s : string) : option string := if String.eqb s "" then None else Some s.
(** [run]: the program at a path, started with one more variable in its environment. *)
Definition completion_cmd (argv0 : option string) (which : option string)
    (run : string -> string * string -> CliService.completed) (shell : string) : T unit :=
  let shell := lower shell in
  do! when (negb (existsb (String.eqb shell) SHELLS)) (raise (Exits 2)) in
  let started := match argv0 with Some a => if CliService.ends_with "skr-crypto" a then none_if_empty a else None | None => None end in
  let found := match started with Some b => Some b | None => CliReports.given which end in
  match found with
  | None => raise (SkrCryptoError ("could not find a `skr-crypto` binary to introspect — completion needs the console-script " +:+
              "entry point. Install via `pip install skr-crypto` and try again."))
  | Some binary =>
      match run binary ("_SKR_CRYPTO_COMPLETE", shell +:+ "_source") with
      | CliService.RunFails cls =>
          raise (if String.eqb cls "FileNotFoundError" then SkrCryptoError ("could not invoke " +:+ binary) else Traceback cls)
      | CliService.Completed rc out err =>
          do! when (negb (rc =? 0)%Z)
                (raise (SkrCryptoError ("click failed to emit completion script: " +:+ str_or (strip err) "no stderr"))) in
          do! when (String.eqb (strip out) "")
                (raise (SkrCryptoError ("click returned an empty completion script for " +:+ py_repr shell +:+
                          " — is your click version too old?"))) in
          do! write out in
          do! when (negb (CliService.ends_with nl out)) (write nl) in
          info ("# Source the above into your shell's startup file. Example:" +:+ nl +:+
                "#   skr-crypto completion " +:+ shell +:+ " >> " +:+ rcfile shell)
      end
  end.

(** ** [install]: the next steps *)
Definition italic (s : string) : string := "[italic]" +:+ s +:+ "[/italic]".
Definition key_steps (s : Install.settings) (gen_key_done : bool) : T unit :=
  let provider := Install.key_provider s in
  let x := Install.extras s in
  if String.eqb provider "env" && negb gen_key_done then
    do! info "       export PRIVATE_KEY_HEX='<32-byte-hex>'" in
    info ("     Or generate one: " +:+ italic "skr-crypto keygen --write-to env")
  else if String.eqb provider "file" then
    let kf := str_or (Install.key_file x) "/etc/skr-crypto/treasury.key" in
    do! info ("     Place the hex key at " +:+ italic kf +:+ " (chmod 600).") in
    when (negb gen_key_done) (info ("     Or generate one: " +:+ italic ("skr-crypto keygen --write-to file --path " +:+ kf)))
  else if String.eqb provider "1password" then
    do! info ("     Sign in to 1Password CLI: " +:+ italic "eval $(op signin)") in
    info ("     Make sure the field " +:+ py_repr (Install.op_field x) +:+ " of item " +:+ py_repr (Install.op_item x) +:+
          " in vault " +:+ py_repr (Install.op_vault x) +:+ " holds the hex key.")
  else if String.eqb provider "keychain" then
    info (if gen_key_done then "     (Done — key already in macOS Keychain.)"
          else "     Generate + store: " +:+ italic ("skr-crypto keygen --write-to keychain --keychain-service " +:+
                 Install.keychain_service x +:+ " --keychain-account " +:+ Install.keychain_account x))
  else if String.eqb provider "encrypted_file" then
    let kf := str_or (Install.keystore_file x) "data/keystore.json" in
    do! info ("     Initialise the keystore: " +:+ italic ("skr-crypto wallet encrypt -o " +:+ kf)) in
    do! info ("     Then add wallets via " +:+ italic "skr-crypto wallet add NAME" +:+ " or " +:+ italic "wallet generate NAME" +:+ ".") in
    info "     Provide the passphrase via KEY_PASSPHRASE / KEY_PASSPHRASE_FILE in .env, or via TTY when running."
  else ret tt.
Definition print_next_steps (s : Install.settings) (gen_key_done : bool) : T unit :=
  let set f := negb (String.eqb (f s) "") in
  do! info "  1. Set the private key:" in
  do! key_steps s gen_key_done in
  do! when (negb (set Install.trongrid_api_key)) (info "  2. Set TRONGRID_API_KEY in .env (highly recommended).") in
  do! info ("  3. Start: " +:+ italic "./run.sh" +:+ "   (or `skr-crypto start` for systemd / docker)") in
  do! info ("  4. Verify: " +:+ italic "skr-crypto status") in
  do! (if set Install.telegram_bot_token && set Install.telegram_chat_id
       then info ("  5. Verify Telegram alerts: " +:+ italic "skr-crypto alert test")
       else when (set Install.telegram_bot_token || set Install.telegram_chat_id)
              (warn ("Telegram: only one of TELEGRAM_BOT_TOKEN / TELEGRAM_CHAT_ID was provided — " +:+
                     "alerts stay disabled until both are set in .env."))) in
  info ("  6. Try a report: " +:+ italic "skr-crypto report --period $(date -u +%Y-%m)").
End Control.

(** ** The root command: [--quiet] before the command runs *)
Definition cli {W A} (quiet_ : bool) (cmd : M (W * term) cexn A) : M (W * term) cexn A :=
  do! when quiet_ (set_quiet true) in cmd.

(** ** [--quiet] changes nothing but what is said *)
Ltac hush := repeat first [progress intros | apply _ | apply hush_bind | apply hush_catch | progress simplify_eq | case_match].

Section Quiet.
Context {W : Type}.
#[export] Instance hush_collect {A B} (f : A -> M (W * term) cexn B) l : (forall a, Hush (f a)) -> Hush (collect f l).
Proof. intros Hf. induction l as [|x l IH]; cbn; hush; apply Hf. Qed.
#[export] Instance hush_check_row fs c : Hush (W:=W) (check_row fs c).
Proof. unfold check_row. hush. Qed.
#[export] Instance hush_audit_row fs r : Hush (W:=W) (audit_row fs r).
Proof. unfold audit_row. hush. Qed.
#[export] Instance hush_summary_bit fs label k j : Hush (W:=W) (summary_bit fs label k j).
Proof. unfold summary_bit. hush. Qed.
#[export] Instance hush_balance_line fs j : Hush (W:=W) (balance_line fs j).
Proof. unfold balance_line. hush. Qed.
#[export] Instance hush_verdict level : Hush (W:=W) (verdict_advice level).
Proof. unfold verdict_advice. hush. Qed.
#[export] Instance hush_render_human fs j : Hush (W:=W) (render_human fs j).
Proof. unfold render_human. hush. Qed.
#[export] Instance hush_status_rows fs st dir d : Hush (W:=W) (status_rows fs st dir d).
Proof. unfold status_rows. hush. Qed.
#[export] Instance hush_values lines : Hush (W:=W) (values lines).
Proof. unfold values. hush. Qed.
#[export] Instance hush_key_steps s gen : Hush (W:=W) (key_steps s gen).
Proof. unfold key_steps. hush. Qed.
#[export] Instance hush_lifecycle m run o root via : Hush (W:=W) (lifecycle_cmd m run o root via).
Proof. unfold lifecycle_cmd. hush. Qed.
End Quiet.
#[export] Instance hush_confirmed yes : Hush (confirmed yes).
Proof. unfold confirmed. hush. Qed.

(** The commands of this file, over the world each runs in. *)
Inductive command : forall W A, M (W * term) cexn A -> Prop :=
| c_token_list path sql rev js : command _ _ (token_list path sql rev js)
| c_token_show path sql id js : command _ _ (token_show path sql id js)
| c_token_create hash path sql f name scopes : command _ _ (token_create hash path sql f name scopes)
| c_token_revoke path sql id now yes : command _ _ (token_revoke path sql id now yes)
| c_token_rotate hash path sql id f now yes : command _ _ (token_rotate hash path sql id f now yes)
| c_deliveries_list P path sql words target limit js : command _ _ (deliveries_list (P:=P) path sql words target limit js)
| c_delivery_retry P path sql words now id : command _ _ (delivery_retry (P:=P) path sql words now id)
| c_webhook_setup W secret : command W _ (webhook_setup secret)
| c_alert_setup W : command W _ alert_setup
| c_webhook_test W mac env dumps url stamp ts secret send : command W _ (webhook_test mac env dumps url stamp ts secret send)
| c_alert_test W env now el th bot chat send : command W _ (alert_test env now el th bot chat send)
| c_balance W fs api send wallet js : command W _ (balance_cmd fs api send wallet js)
| c_risk W fs api send address ext js : command W _ (risk_cmd fs api send address ext js)
| c_status W fs st root pkg det api send js : command W _ (status_cmd fs st root pkg det api send js)
| c_check W fs txid p js : command W _ (check_cmd fs txid p js)
| c_audit W fs loads iso strp now path log today since ev to_ limit js :
    command W _ (audit_cmd fs loads iso strp now path log today since ev to_ limit js)
| c_version W fs cur root version js : command W _ (version_cmd fs cur root version js)
| c_lifecycle W m run o root via : command W _ (lifecycle_cmd m run o root via)
| c_logs W m root env log follow lines via only : command W _ (logs_cmd m root env log follow lines via only)
| c_help W get_help topic : command W _ (help_cmd get_help topic)
| c_completion W argv0 which run shell : command W _ (completion_cmd argv0 which run shell)
| c_next_steps W s gen : command W _ (print_next_steps s gen).

Lemma command_hush W A (cmd : M (W * term) cexn A) : command W A cmd -> Hush cmd.
Proof.
  destruct 1.
  - unfold token_list. hush.
  - unfold token_show. hush.
  - unfold token_create. hush.
  - unfold token_revoke. hush.
  - unfold token_rotate. hush.
  - unfold deliveries_list. hush.
  - unfold delivery_retry. hush.
  - unfold webhook_setup. hush.
  - unfold alert_setup. hush.
  - unfold webhook_test. hush.
  - unfold alert_test. hush.
  - unfold balance_cmd, balance_view. hush.
  - unfold risk_cmd. hush.
  - unfold status_cmd. hush.
  - unfold check_cmd. hush.
  - unfold audit_cmd. hush.
  - unfold version_cmd. hush.
  - apply _.
  - unfold logs_cmd. hush.
  - unfold help_cmd. hush.
  - unfold completion_cmd. hush.
  - unfold print_next_steps. hush.
Qed.

Lemma cli_hush {W A} (cmd : M (W * term) cexn A) (w : W) : Hush cmd ->
  let '(o, (w1, t)) := cli false cmd (w, mkTerm false []) in
  let '(o', (w2, t')) := cli true cmd (w, mkTerm false []) in
  o' = o /\ w2 = w1 /\ shown t' = List.filter heard (shown t) /\ stdout t' = stdout t.
Proof.
  intros H. unfold cli. unfold bind. cbn [when ret set_quiet modify quiet shown].
  destruct (H (w, mkTerm false []) (w, mkTerm true [])) as [H1 (H2 & _ & _ & H3)]; [by split_and!|].
  destruct (cmd (w, mkTerm false [])) as [o [w1 t]], (cmd (w, mkTerm true [])) as [o' [w2 t']]. cbn in *. subst o' w2.
  split_and!; [done..|]. unfold stdout. rewrite H3. clear. induction (shown t) as [|[[] l|l|l|l|b j] ls IH]; cbn; congruence.
Qed.

(** [--quiet] is safe to add to any of the commands: it does the same to the world, ends
    with the same status, writes the same to standard output and gives every warning and
    error; missing are exactly the lines of [info] and [success]. *)
Theorem quiet_only_hushes {W A} (cmd : M (W * term) cexn A) (w : W) : command W A cmd ->
  let '(o, (w1, t)) := cli false cmd (w, mkTerm false []) in
  let '(o', (w2, t')) := cli true cmd (w, mkTerm false []) in
  o' = o /\ w2 = w1 /\ shown t' = List.filter heard (shown t) /\ stdout t' = stdout t.
Proof. intros H%command_hush. by apply cli_hush. Qed.

(** ** The token commands do what [CliStores] says *)
Section Refinement.
Context {D : Type}.
Definition set_out (out : list string) (w : sworld D) : sworld D :=
  CliStores.mkSw (s_dbs w) (s_memory w) (s_tick w) (s_lines w) out.
(** [m] neither reads nor writes what was printed. *)
Class Blind {A} (m : M (sworld D) cexn A) : Prop := blind out w :
  m (set_out out w) = (fst (m w), set_out out (snd (m w))).
#[export] Instance blind_ret {A} (a : A) : Blind (ret a).
Proof. done. Qed.
#[export] Instance blind_raise {A} e : Blind (raise (A:=A) e).
Proof. done. Qed.
#[export] Instance blind_bind {A B} (m : M (sworld D) cexn A) (k : A -> M (sworld D) cexn B) :
  Blind m -> (forall a, Blind (k a)) -> Blind (bind m k).
Proof.
  intros Hm Hk out w. unfold bind. rewrite Hm. destruct (m w) as [[a|e|] w']; cbn; [apply Hk|done..].
Qed.
#[export] Instance blind_lift {A} (o : outcome cexn A) : Blind (CliStores.lift_s o).
Proof. done. Qed.
#[export] Instance blind_confirm d : Blind (CliStores.confirm d).
Proof. intros out w. unfold CliStores.confirm. cbn. by destruct (s_lines w). Qed.
#[export] Instance blind_statement sql : Blind (CliStores.statement sql).
Proof. intros out w. unfold CliStores.statement. cbn. by destruct (sql (s_tick w)). Qed.
#[export] Instance blind_connect e sql h : Blind (CliStores.connect e sql h).
Proof. destruct h as [p|]; cbn; [|by intros out w]. apply blind_bind; [apply _|]. by intros [] out w. Qed.
#[export] Instance blind_query {A} e sql h (f : D -> A) : Blind (CliStores.query e sql h f).
Proof. apply blind_bind; [destruct h; apply _|]. intros [] out w. by destruct h. Qed.
#[export] Instance blind_update {A} e sql h (f : D -> A * D) : Blind (CliStores.update e sql h f).
Proof. apply blind_bind; [destruct h; apply _|]. intros [] out w. by destruct h. Qed.

(** The lines of standard output, and a command on it beside one that keeps them itself. *)
Definition printed (l : list item) : list string := omap (fun i => match i with Out s => Some s | _ => None end) l.
Definition beside (out : list string) (w : sworld D) (s : sworld D * term) : Prop :=
  w = set_out (out ++ printed (shown s.2)) s.1.
Class Same {A} (m : M (sworld D) cexn A) (m' : M (sworld D * term) cexn A) : Prop := same_ok out w s :
  beside out w s -> fst (m w) = fst (m' s) /\ beside out (snd (m w)) (snd (m' s)).
Lemma same_ret {A} (a : A) : Same (ret a) (ret a).
Proof. by intros out w s H. Qed.
Lemma same_raise {A} e : Same (raise (A:=A) e) (raise e).
Proof. by intros out w s H. Qed.
Lemma same_below {A} (m : M (sworld D) cexn A) : Blind m -> Same m (below m).
Proof. intros Hm out w [w' t] ->. cbn. rewrite Hm. by destruct (m w'). Qed.
Lemma same_bind {A B} (m : M (sworld D) cexn A) m' (k : A -> M (sworld D) cexn B) k' :
  Same m m' -> (forall a, Same (k a) (k' a)) -> Same (bind m k) (bind m' k').
Proof.
  intros Hm Hk out w s Hs. destruct (Hm out w s Hs) as [H1 H2]. unfold bind. destruct (m w) as [o w1], (m' s) as [o' s1].
  cbn in *. subst o'. destruct o as [a|e|]; [by apply Hk|done..].
Qed.
Lemma same_catch {A} (m : M (sworld D) cexn A) m' f f' : Same m m' ->
  (forall e, match f e, f' e with Some r, Some r' => Same r r' | None, None => True | _, _ => False end) ->
  Same (catch m f) (catch m' f').
Proof.
  intros Hm Hf out w s Hs. destruct (Hm out w s Hs) as [H1 H2]. unfold catch. destruct (m w) as [o w1], (m' s) as [o' s1].
  cbn in *. subst o'. destruct o as [a|e|]; [done| |done]. specialize (Hf e). destruct (f e), (f' e); [by apply Hf|done..].
Qed.
Lemma same_print v : Same (CliStores.print_value v) (print_value v).
Proof.
  intros out w [w' t] ->. split; [done|]. unfold beside. cbn. unfold printed. rewrite omap_app, app_assoc. done.
Qed.
(** What only goes to standard error. *)
Definition said (m : M (sworld D * term) cexn unit) : Prop :=
  forall s, fst (m s) = Ret tt /\ (snd (m s)).1 = s.1 /\ printed (shown (snd (m s)).2) = printed (shown s.2).
Lemma said_emit i : on_stdout i = false -> said (emit i).
Proof. intros Hi [w t]. split_and!; [done..|]. cbn. unfold printed. rewrite omap_app. by destruct i; rewrite ?app_nil_r. Qed.
Lemma said_unless i : on_stdout i = false -> said (unless_quiet (emit i)).
Proof.
  intros Hi s. unfold unless_quiet, bind, gets. destruct (quiet s.2); cbn; [by split_and!|]. by apply said_emit.
Qed.
Lemma said_info msg : said (info msg).
Proof. by apply said_unless. Qed.
Lemma said_success msg : said (success msg).
Proof. by apply said_unless. Qed.
Lemma said_warn msg : said (warn msg).
Proof. by apply said_emit. Qed.
Lemma said_then i j : said i -> said j -> said (do! i in j).
Proof.
  intros Hi Hj s. destruct (Hi s) as (H1 & H2 & H3). unfold bind. destruct (i s) as [o s1]. cbn in *. subst o.
  destruct (Hj s1) as (H4 & H5 & H6). split_and!; [done|by rewrite H5|by rewrite H6].
Qed.
Lemma same_said {A} i (m : M (sworld D) cexn A) m' : said i -> Same m m' -> Same m (do! i in m').
Proof.
  intros Hi Hm out w s Hs. destruct (Hi s) as (H1 & H2 & H3). unfold bind. destruct (i s) as [o s1]. cbn in *. subst o.
  apply Hm. unfold beside in *. rewrite H2, H3. done.
Qed.
Lemma same_quiet i : said i -> Same (ret tt) i.
Proof. intros Hi out w s Hs. destruct (Hi s) as (H1 & H2 & H3). unfold beside in *. by rewrite H1, H2, H3. Qed.
Lemma same_then (m : M (sworld D) cexn unit) m' i : said i -> Same m m' -> Same m (do! m' in i).
Proof.
  intros Hi Hm out w s Hs. destruct (Hm out w s Hs) as [H1 H2]. unfold bind. destruct (m w) as [o w1], (m' s) as [o' s1].
  cbn in *. subst o'. destruct o as [[]|e|]; [|done..]. destruct (Hi s1) as (H3 & H4 & H5). split; [done|].
  unfold beside in *. by rewrite H4, H5.
Qed.
End Refinement.
Create HintDb screens.
#[export] Hint Resolve said_then same_ret same_raise same_below same_print said_info said_success said_warn : screens.
#[export] Instance blind_create hash sql h f name scopes by_ : Blind (CliStores.create hash sql h f name scopes by_).
Proof. unfold CliStores.create. case_match; apply _. Qed.
#[export] Instance blind_revoke sql h now id : Blind (CliStores.revoke sql h now id).
Proof. apply blind_update. Qed.
#[export] Instance blind_get_token sql h id : Blind (CliStores.get_token sql h id).
Proof. apply blind_query. Qed.
#[export] Instance blind_open path sql : Blind (CliStores.open_store path sql).
Proof. unfold CliStores.open_store. apply _. Qed.
Ltac same := repeat first
  [ progress intros | solve [eauto with screens typeclass_instances]
  | apply same_said; [solve [eauto with screens]|] | apply same_then; [solve [eauto with screens]|] | apply same_bind ].

Lemma same_confirmed yes : Same (CliStores.confirmed yes) (confirmed yes).
Proof. destruct yes; cbn; [apply same_ret|]. same. destruct a; cbn; same. Qed.
#[export] Hint Resolve same_confirmed : screens.

(** Creating, revoking and rotating a token on the terminal does exactly what the commands of
    [CliStores] do: the same outcome, the same database, and on standard output the new token
    and nothing else. *)
Theorem token_commands_same hash path sql f name scopes id now yes :
  Same (CliStores.create_cmd hash path sql f name scopes) (token_create hash path sql f name scopes) /\
  Same (CliStores.revoke_cmd path sql id now yes) (token_revoke path sql id now yes) /\
  Same (CliStores.rotate_cmd hash path sql id f now yes) (token_rotate hash path sql id f now yes).
Proof.
  split_and!.
  - unfold CliStores.create_cmd, token_create. apply same_bind; [same|]. intros h. apply same_bind.
    { apply same_catch; [same|]. intros e. apply same_raise. }
    intros r. same.
  - unfold CliStores.revoke_cmd, token_revoke. apply same_bind; [same|]. intros h. apply same_bind; [same|]. intros [r|]; [|same].
    unfold Tokens.is_active. destruct (Tokens.t_revoked_at r) as [at_|]; cbn [negb]; [|same].
    apply same_quiet. auto with screens.
  - unfold CliStores.rotate_cmd, token_rotate. apply same_bind; [same|]. intros h. apply same_bind; [same|]. intros [r|]; [|same].
    destruct (Tokens.is_active r); cbn [negb]; [|same]. apply same_bind; [same|]. intros []. apply same_bind; [same|]. intros new.
    apply same_bind; [same|]. intros []. same.
Qed.


(** ** [--json] *)
Inductive json_command : forall W A, M (W * term) cexn A -> Prop :=
| j_token_list path sql rev : json_command _ _ (token_list path sql rev true)
| j_token_show path sql id : json_command _ _ (token_show path sql id true)
| j_deliveries_list P path sql words target limit : json_command _ _ (deliveries_list (P:=P) path sql words target limit true)
| j_balance W fs api send wallet : json_command W _ (balance_cmd fs api send wallet true)
| j_risk W fs api send address ext : json_command W _ (risk_cmd fs api send address ext true)
| j_status W fs st root pkg det api send : json_command W _ (status_cmd fs st root pkg det api send true)
| j_check W fs txid p : json_command W _ (check_cmd fs txid p true)
| j_version W fs cur root version : json_command W _ (version_cmd fs cur root version true).
(** With [--json] standard output is one JSON document with sorted keys, whatever else is
    said; it is empty only when the command fails. *)
Theorem json_one_document {W A} (cmd : M (W * term) cexn A) (w : W) (q : bool) : json_command W A cmd ->
  let '(o, (_, t)) := cmd (w, mkTerm q []) in
  stdout t = [] /\ (forall a, o <> Ret a) \/ exists j, stdout t = [OutJson true j].
Proof.
  intros H. assert (Hw : Writes cmd one_document).
  { destruct H; cbn [token_list token_show deliveries_list balance_cmd balance_view].
    - unfold token_list. eauto with one_document.
    - unfold token_show. eauto with one_document.
    - unfold deliveries_list. eauto with one_document.
    - unfold balance_cmd, balance_view. eauto with one_document.
    - unfold risk_cmd. do 2 (apply one_bind; [auto with one_document|]; intros ?).
      apply one_then; [auto with one_document|]. intros []. eauto with one_document.
    - unfold status_cmd. assert (forall d, Writes (W:=W) (print_json d) one_document) as Hp by auto with one_document.
      destruct root as [dir|[]|]; try apply Hp; (apply one_bind; [apply silent_lift|]; intros ?; apply one_bind;
        [apply silent_catch; [auto with one_document|]; intros e r [= <-]; auto with one_document|]; intros ?;
         apply one_bind; [|auto with one_document]; repeat case_match; auto with one_document).
    - unfold check_cmd. eauto with one_document.
    - unfold version_cmd. eauto with one_document. }
  specialize (Hw (w, mkTerm q [])) as (l & H1 & H2). destruct (cmd (w, mkTerm q [])) as [o [w1 t]]. cbn in *.
  unfold stdout. by rewrite H1.
Qed.

(** ** The exit status is the one of the commands without a terminal *)
Definition check_cells (c : RiskTypes.RiskCheck) : list string :=
  let status := RiskTypes.status_value (RiskTypes.rc_status c) in
  [RiskTypes.rc_name c; in_colour (status_colour status) (upper status); RiskTypes.rc_message c].
Lemma collect_checks fs {W} (cs : list RiskTypes.RiskCheck) (s : W * term) :
  collect (check_row fs) (map CliApi.check_json cs) s = (Ret (map check_cells cs), s).
Proof.
  induction cs as [|c cs IH]; [done|]. cbn [collect map]. unfold bind at 1. unfold check_row at 1, CliApi.check_json at 1.
  assert (lowered "?" (JStr (RiskTypes.status_value (RiskTypes.rc_status c))) = Ret (RiskTypes.status_value (RiskTypes.rc_status c))) as Hl
    by by destruct (RiskTypes.rc_status c).
  unfold bind, lift. cbn [dict_of jdefault jget String.eqb Ascii.eqb Bool.eqb default from_option id].
  unfold jdefault. cbn [jget String.eqb Ascii.eqb Bool.eqb default from_option id]. rewrite Hl. cbn. rewrite IH. done.
Qed.
Lemma bit_writes fs {W} label k l (s : W * term) : exists bits,
  summary_bit fs label k (JObj l) s = (Ret bits, s).
Proof. unfold summary_bit, bind, lift. cbn. destruct (jget k l); cbn; eauto. Qed.
Lemma balance_writes fs {W} l (s : W * term) : exists bal, (List.length bal <= 1)%nat /\
  balance_line fs (JObj l) s = (Ret tt, (s.1, mkTerm (quiet s.2) (shown s.2 ++ map Out bal)%list)).
Proof.
  unfold balance_line. destruct s as [w [q sh]]. destruct (truthy (JObj l)); cbn [when];
    [|exists []; rewrite app_nil_r; split; [cbn; lia|done]].
  unfold bind. destruct (bit_writes fs "TRX" "trx_balance" l (w, mkTerm q sh)) as [b1 ->].
  destruct (bit_writes fs "USDT" "usdt_balance" l (w, mkTerm q sh)) as [b2 ->].
  destruct (bit_writes fs "warmth" "warmth" l (w, mkTerm q sh)) as [b3 ->].
  destruct (b1 ++ b2 ++ b3)%list as [|b bs]; cbn [negb when]; [exists []; rewrite app_nil_r; split; [cbn; lia|done]|].
  eexists [_]. split; [cbn; lia|reflexivity].
Qed.
Lemma advice_said {W} level (s : W * term) : exists t,
  verdict_advice level s = (Ret tt, (s.1, t)) /\ stdout t = stdout s.2.
Proof.
  unfold verdict_advice. destruct s as [w [q sh]]. destruct (_ || _); [|destruct (String.eqb level "medium")]; cbn [when].
  - eexists. split; [reflexivity|]. unfold stdout. cbn. by rewrite List.filter_app, app_nil_r.
  - unfold info, unless_quiet, bind, gets. cbn [quiet snd]. destruct q; cbn [negb when]; eexists; (split; [reflexivity|]); [done|].
    unfold stdout. cbn. by rewrite List.filter_app, app_nil_r.
  - eexists. by split.
Qed.
Lemma stdout_outs bal : List.filter on_stdout (map Out bal) = map Out bal.
Proof. induction bal; cbn; congruence. Qed.

(** The report of the endpoint is shown in full: the address, then at most a line of balances, then a table with every
    check in order, then the verdict; the status is the one [CliApi.risk_cmd] ends with, which [risk_gate] is about. *)
Theorem risk_shows_report fs {W} (api : CliApi.APIClient) (send : CliApi.request -> CliApi.http) (address : string) (external : bool)
    (r : RiskTypes.RiskReport) (w : W) (q : bool) :
  CliApi.risk send api address external = Ret (CliApi.report_json r) ->
  exists t balance, risk_cmd fs (Ret api) send address external false (w, mkTerm q [])
      = (Raise (Exits (CliApi.level_exit (RiskTypes.level_value (RiskTypes.rr_level r)))), (w, t)) /\
    CliApi.risk_cmd send api address external = Raise (Exits (CliApi.level_exit (RiskTypes.level_value (RiskTypes.rr_level r)))) /\
    (List.length balance <= 1)%nat /\
    stdout t = (Out ("address:    [bold]" +:+ RiskTypes.rr_address r +:+ "[/bold]") :: balance ++
      [OutTable (mkTable None ["check"; "status"; "detail"] (map check_cells (RiskTypes.rr_checks r)));
       Out (nl +:+ "risk:       " +:+ in_colour (verdict_colour (RiskTypes.level_value (RiskTypes.rr_level r)))
              ("[bold]" +:+ upper (RiskTypes.level_value (RiskTypes.rr_level r)) +:+ "[/bold]"))])%list.
Proof.
  intros Hr. assert (Hl : CliApi.level_of (CliApi.report_json r) = Ret (RiskTypes.level_value (RiskTypes.rr_level r)))
    by (by cbn; destruct (RiskTypes.rr_level r)).
  set (sm := map (fun '(k, v) => (k, CliApi.summary_json v)) (RiskTypes.rr_summary r)).
  set (w1 := (w, mkTerm q [Out ("address:    [bold]" +:+ RiskTypes.rr_address r +:+ "[/bold]")])).
  destruct (balance_writes fs sm w1) as (bal & Hlen & Hbal).
  assert (Hel : CliService.elements_of (or_empty (JList (map CliApi.check_json (RiskTypes.rr_checks r)))) =
                Ret (map CliApi.check_json (RiskTypes.rr_checks r))) by by destruct (RiskTypes.rr_checks r).
  assert (He : or_empty (JObj sm) = JObj sm) by (by unfold or_empty; destruct sm).
  set (level := RiskTypes.level_value (RiskTypes.rr_level r)) in *.
  set (shown_ := (Out ("address:    [bold]" +:+ RiskTypes.rr_address r +:+ "[/bold]") :: map Out bal ++
    [OutTable (add_rows (map check_cells (RiskTypes.rr_checks r)) (make_table None ["check"; "status"; "detail"]));
     Out (nl +:+ "risk:       " +:+ in_colour (verdict_colour level) ("[bold]" +:+ upper level +:+ "[/bold]"))])%list).
  destruct (advice_said level (w, mkTerm q shown_)) as (t & Ht & Hout). exists t, (map Out bal). split_and!.
  - unfold risk_cmd, bind, lift. rewrite Hr, Hl. unfold render_human, bind, lift.
    cbn [CliApi.report_json dict_of]. unfold jdefault. cbn [jget String.eqb Ascii.eqb Bool.eqb default from_option id].
    change (map (λ '(k, v), (k, CliApi.summary_json v)) (RiskTypes.rr_summary r)) with sm. rewrite He, Hel. fold level.
    assert (lowered "?" (JStr level) = Ret level) as -> by (subst level; by destruct (RiskTypes.rr_level r)).
    cbn [py_str print_value emit modify quiet shown app]. fold w1. rewrite Hbal, collect_checks. subst w1. cbn [fst snd quiet shown].
    cbn [render_table emit modify quiet shown print_value]. rewrite <- !app_assoc. cbn [app]. fold shown_. rewrite Ht. reflexivity.
  - unfold CliApi.risk_cmd. by rewrite Hr, Hl.
  - by rewrite length_map.
  - rewrite Hout. unfold stdout, shown_. cbn [snd shown List.filter on_stdout]. rewrite !List.filter_app, stdout_outs. reflexivity.
Qed.

Lemma run_info {W} msg (s : W * term) : exists t, info msg s = (Ret tt, (s.1, t)).
Proof. unfold info, unless_quiet, bind, gets. destruct s as [w [[] sh]]; cbn; eauto. Qed.
Lemma run_success {W} msg (s : W * term) : exists t, success msg s = (Ret tt, (s.1, t)).
Proof. unfold success, unless_quiet, bind, gets. destruct s as [w [[] sh]]; cbn; eauto. Qed.
Ltac said := match goal with
  | |- context [info ?m ?s] => destruct (run_info m s) as [? ->]
  | |- context [success ?m ?s] => destruct (run_success m s) as [? ->]
  end; cbv beta iota.
Definition as_unit {A} (o : outcome cexn A) : outcome cexn unit :=
  match o with Ret _ => Ret tt | Raise e => Raise e | Crash => Crash end.

(** With its messages a command ends as it does without them: the exit status of [check], of
    the two tests and of the supervisor commands is the one [CliApi], [CliStores] and
    [CliService] give. *)
Theorem outcome_without_screen {W} (s : W * term) :
  (forall fs txid p js, fst (check_cmd fs txid p js s) = as_unit (CliApi.check_cmd p js)) /\
  (forall mac env dumps url stamp ts secret send, fst (webhook_test mac env dumps url stamp ts secret send s) =
     CliStores.webhook_test_cmd mac env url (dumps (synthetic_event stamp)) ts secret send) /\
  (forall env now el th bot chat send, fst (alert_test env now el th bot chat send s) =
     CliStores.alert_test_cmd env now th bot chat send) /\
  (forall m run o root via, fst (lifecycle_cmd m run o root via s) = CliService.do_ m run o root via) /\
  (forall m root env log follow lines via only, fst (logs_cmd m root env log follow lines via only s) =
     CliService.logs_cmd m root env follow lines via only).
Proof.
  split_and!.
  - intros fs txid p js. unfold check_cmd, bind, lift, CliApi.check_cmd. destruct p as [|rc line]; [done|].
    destruct (negb _); [done|]. destruct line as [j|]; [|done]. destruct js; [done|].
    destruct j as [|b|n|x|t|l|d]; cbn; try done. destruct (jget "error" d); [|done]. by destruct (jget "type" d).
  - intros. unfold webhook_test, CliStores.webhook_test_cmd, bind, lift.
    destruct (CliStores.option_or_env _ _ _) as [k|e|]; [|done..]. destruct (String.eqb k ""); [done|]. cbn [when ret].
    said. unfold CliStores.accepted_or. destruct (send _) as [code text|err]; [|done]. destruct (_ && _); [|done]. said. by said.
  - intros. unfold alert_test, CliStores.alert_test_cmd, bind, lift.
    assert (Hc : CliStores.option_or_env bot "TELEGRAM_BOT_TOKEN" env = Crash -> forall e,
                   CliStores.option_or_env chat "TELEGRAM_CHAT_ID" env <> Raise e)
      by (unfold CliStores.option_or_env; destruct env; by repeat case_match).
    destruct (CliStores.option_or_env bot _ _) as [b|e|];
      [|done|destruct (CliStores.option_or_env chat _ _) as [|e|]; [done|by destruct (Hc eq_refl e)|done]].
    destruct (CliStores.option_or_env chat _ _) as [c|e|]; [|done..].
    destruct (_ || _); [done|]. cbn [when ret]. said.
    unfold CliStores.accepted_or. destruct (send _) as [code text|err]; [|done]. destruct (_ && _); [|done]. by said.
  - intros. unfold lifecycle_cmd, bind, lift, CliService.do_. destruct root as [dir|e|]; [|done..].
    destruct (CliService.detect m dir via) as [ctx|e|]; [|done..].
    destruct (CliService.lifecycle o ctx) as [p|]; cbn [when ret]; [said|done].
    destruct (run p) as [rc out err|cls]; [|done]. destruct (rc =? 0)%Z; [|done]. by said.
  - intros. unfold logs_cmd, bind, lift. destruct (CliService.logs_cmd _ _ _ _ _ _ _) as [[argv|]|e|]; [|done..]. by said.
Qed.

(** ** [completion]: the script or nothing *)
Lemma info_out {W} msg (s : W * term) : exists t, info msg s = (Ret tt, (s.1, t)) /\ stdout t = stdout s.2.
Proof.
  unfold info, unless_quiet, bind, gets. destruct s as [w [[] sh]]; cbn [negb when quiet snd]; eexists; (split; [reflexivity|]); [done|].
  unfold stdout. cbn. by rewrite List.filter_app, app_nil_r.
Qed.
Definition text_of (l : list item) : string :=
  fold_right (fun i s => match i with OutText x => x +:+ s | _ => s end) "" l.
Theorem completion_script {W} (argv0 which : option string) (run : string -> string * string -> CliService.completed)
    (shell : string) (w : W) (q : bool) :
  let '(o, (_, t)) := completion_cmd argv0 which run shell (w, mkTerm q []) in
  match o with
  | Ret _ => exists binary out err, run binary ("_SKR_CRYPTO_COMPLETE", lower shell +:+ "_source") = CliService.Completed 0 out err /\
      lower shell ∈ SHELLS /\ strip out <> "" /\
      text_of (stdout t) = (if CliService.ends_with nl out then out else out +:+ nl)
  | _ => stdout t = []
  end.
Proof.
  unfold completion_cmd. cbv zeta. destruct (existsb (String.eqb (lower shell)) SHELLS) eqn:Hs; cbn [negb when bind ret]; [|done].
  apply existsb_exists in Hs as (x & Hx & <-%String.eqb_eq). apply list_elem_of_In in Hx.
  unfold bind at 1. cbn [ret]. set (found := match _ with Some b => Some b | None => _ end). clearbody found. destruct found as [binary|]; [|done].
  destruct (run _ _) as [rc out err|cls] eqn:Hr; [|done].
  unfold bind. destruct (Z.eqb_spec rc 0) as [->|]; cbn [negb when ret]; [|done].
  destruct (String.eqb_spec (strip out) "") as [|Hne]; cbn [when ret]; [done|].
  unfold write, emit, modify. cbn [quiet shown app].
  destruct (CliService.ends_with nl out) eqn:He; cbn [negb when ret quiet shown app];
    match goal with |- context [info ?m ?s] => destruct (info_out m s) as (t & -> & Ht) end;
    exists binary, out, err; (split_and!; [done..|]); rewrite Ht, He; cbn; by rewrite ?append_nil_r.
Qed.


(** ** Nothing of a hash is shown *)
Definition public (r : Tokens.TokenRecord) : Tokens.TokenRecord :=
  Tokens.mkToken (Tokens.t_id r) (Tokens.t_name r) "" "" (Tokens.t_scopes r) (Tokens.t_created_at r) (Tokens.t_last_used_at r)
    (Tokens.t_revoked_at r) (Tokens.t_created_by r).
(** The databases without the hashes and salts of their tokens. *)
Definition public_world (w : sworld (list Tokens.TokenRecord)) : sworld (list Tokens.TokenRecord) :=
  CliStores.mkSw (map public <$> s_dbs w) (map public (s_memory w)) (s_tick w) (s_lines w) (s_out w).
Lemma public_contents h w : CliStores.contents [] h (public_world w) = map public (CliStores.contents [] h w).
Proof. destruct h as [p|]; [|done]. cbn. rewrite lookup_fmap. by destruct (s_dbs w !! p). Qed.
Lemma public_open path sql w :
  CliStores.open_store path sql (public_world w) =
  (fst (CliStores.open_store path sql w), public_world (snd (CliStores.open_store path sql w))).
Proof.
  unfold CliStores.open_store, bind, CliStores.lift_s. destruct path as [[p|]|e|]; [|done..]. cbn.
  unfold CliStores.statement, bind. cbn. destruct (sql (s_tick w)); [|done..]. cbn. rewrite lookup_fmap.
  unfold public_world. cbn. f_equal. f_equal. rewrite fmap_insert. f_equal. by destruct (s_dbs w !! p).
Qed.
(** [m] on the databases without hashes: the same, but for the hashes of its result. *)
Definition hides {A} (g : A -> A) (m : M (sworld (list Tokens.TokenRecord)) cexn A) : Prop :=
  forall w, m (public_world w) =
    (match fst (m w) with Ret a => Ret (g a) | Raise e => Raise e | Crash => Crash end, public_world (snd (m w))).
Lemma hides_query {A} (g : A -> A) sql h (f : list Tokens.TokenRecord -> A) : (forall l, f (map public l) = g (f l)) ->
  hides g (CliStores.query [] sql h f).
Proof.
  intros Hf w. unfold CliStores.query, bind, gets. destruct h as [p|]; cbn [ret fst snd]; [|by rewrite public_contents, Hf].
  unfold CliStores.statement. cbn [s_tick public_world]. destruct (sql (s_tick w)); [|done..]. cbn [fst snd].
  rewrite <- Hf, <- (public_contents (Some p)). reflexivity.
Qed.
Lemma hides_open {A} (g : A -> A) path sql (k : option string -> M (sworld (list Tokens.TokenRecord)) cexn A) :
  (forall h, hides g (k h)) -> hides g (let! h := CliStores.open_store path sql in k h).
Proof.
  intros Hk w. unfold bind. rewrite public_open. destruct (CliStores.open_store path sql w) as [[h|e|] w1]; [|done..].
  apply Hk.
Qed.
Lemma public_find l id : List.find (fun r => String.eqb (Tokens.t_id r) id) (map public l) =
  public <$> List.find (fun r => String.eqb (Tokens.t_id r) id) l.
Proof. induction l as [|r l IH]; [done|]. cbn. by destruct (String.eqb (Tokens.t_id r) id). Qed.
Lemma public_filter l : List.filter Tokens.is_active (map public l) = map public (List.filter Tokens.is_active l).
Proof.
  induction l as [|r l IH]; [done|]. cbn. change (Tokens.is_active (public r)) with (Tokens.is_active r).
  destruct (Tokens.is_active r); cbn; by rewrite IH.
Qed.
Lemma hides_list path sql rev : hides (map public) (CliStores.list_cmd path sql rev).
Proof.
  apply hides_open. intros h. apply hides_query. intros l. unfold Tokens.list_tokens, Tokens.all_active. cbn [CliStores.tstore Tokens.rows].
  destruct rev; [done|apply public_filter].
Qed.
Lemma hides_show path sql id : hides public (CliStores.show_cmd path sql id).
Proof.
  apply hides_open. intros h. unfold CliStores.get_token.
  pose proof (hides_query (fmap public) sql h (fun l => Tokens.get id (CliStores.tstore h l)) (fun l => public_find l id)) as Hq.
  intros w. unfold bind. rewrite Hq. by destruct (CliStores.query _ _ _ _ w) as [[[r|]|e|] w1].
Qed.

(** What [token list] and [token show] put on the terminal, and their exit status, do not
    depend on the hash and the salt of any token: two databases that differ only in these
    look the same. *)
Theorem no_hash_shown path sql rev js id (w : sworld (list Tokens.TokenRecord)) (t : term) :
  (let '(o, (_, t1)) := token_list path sql rev js (w, t) in
   let '(o', (_, t2)) := token_list path sql rev js (public_world w, t) in o = o' /\ t1 = t2) /\
  (let '(o, (_, t1)) := token_show path sql id js (w, t) in
   let '(o', (_, t2)) := token_show path sql id js (public_world w, t) in o = o' /\ t1 = t2).
Proof.
  split.
  - unfold token_list, bind. cbn [below]. rewrite hides_list. destruct (CliStores.list_cmd path sql rev w) as [[l|e|] w1]; [|done..].
    cbn [fst snd]. destruct js.
    + unfold print_json, emit, modify. by rewrite map_map.
    + destruct l as [|r l]; [done|]. cbn [map]. unfold render_table, emit, modify. cbn [quiet shown]. rewrite map_map. done.
  - unfold token_show, bind. cbn [below]. rewrite hides_show. destruct (CliStores.show_cmd path sql id w) as [[r|e|] w1]; [|done..].
    cbn [fst snd]. by destruct js.
Qed.


(** ** Long lines

    [print_value] prints through Rich, whose console is 80 columns wide when standard output
    is no terminal, and Rich breaks a word that is longer than the console. *)
Fixpoint chunks (fuel n : nat) (s : string) : list string :=
  match fuel with
  | O => [s]
  | S fuel => if (String.length s <=? n)%nat then [s] else str_take n s :: chunks fuel n (Decimal.str_drop n s)
  end.
Definition is_hex (c : ascii) : bool := bool_decide (c ∈ ["0";"1";"2";"3";"4";"5";"6";"7";"8";"9";"a";"b";"c";"d";"e";"f"]%char).
Section Rich.
(** The lines the console gives for a text. *)
Context (console : string -> list string).
Context (folds : forall s, str_forall (fun c => negb (is_space c) && negb (Ascii.eqb c "[")) s = true ->
  console s = chunks (String.length s) 80 s).
Definition piped (t : term) : string :=
  join nl (List.concat (map (fun i => match i with Out s => console s | _ => [] end) (stdout t))) +:+ nl.
Definition word_char (c : ascii) : bool := negb (is_space c) && negb (Ascii.eqb c "[").
Lemma hex_char c : is_hex c = true -> is_space c = false /\ Ascii.eqb c "[" = false /\ is_line_end c = false /\
  Ascii.eqb c dquote = false /\ Ascii.eqb c squote = false /\ key_start c = false.
Proof.
  unfold is_hex. intros H%bool_decide_eq_true. repeat (apply elem_of_cons in H as [->|H]; [by compute|]). by apply elem_of_nil in H.
Qed.
Lemma hex_words s : str_forall is_hex s = true -> str_forall word_char s = true /\ one_line s = true.
Proof.
  intros H. split; [|unfold one_line]; (revert H; apply Decimal.str_forall_impl); intros c (H1 & H2 & H3 & _)%hex_char; unfold word_char;
    by rewrite ?H1, ?H2, ?H3.
Qed.
Lemma no_cut_word s : str_forall word_char s = true -> cut " #" s = None.
Proof.
  induction s as [|c s IH]; [done|]. cbn [str_forall]. intros [[Hc _]%andb_true_iff Hs]%andb_true_iff. cbn [cut].
  rewrite IH by done. replace (startswith " #" (String c s)) with false; [done|]. unfold startswith. cbn [strip_prefix].
  destruct (Ascii.eqb_spec " " c) as [<-|]; [by compute in Hc|done].
Qed.
Lemma hex_value s : str_forall is_hex s = true -> env_value s = s.
Proof.
  intros H. destruct (hex_words s H) as [Hw _]. apply env_value_exact. unfold plain.
  rewrite Decimal.strip_plain, String.eqb_refl, no_cut_word, bool_decide_true by
    (done || (revert Hw; apply Decimal.str_forall_impl; intros c [Hc _]%andb_true_iff; exact Hc)).
  destruct s as [|c s]; [done|]. cbn in H. apply andb_true_iff in H as [(_ & _ & _ & H1 & H2 & _)%hex_char _].
  unfold quoted, startswith, one. cbn [strip_prefix]. by rewrite !(Ascii.eqb_sym _ c), H1, H2.
Qed.
Lemma hex_no_entry s : str_forall is_hex s = true -> env_line s = None.
Proof.
  intros H. destruct (hex_words s H) as [Hw _]. unfold env_line.
  rewrite Decimal.strip_plain by (revert Hw; apply Decimal.str_forall_impl; intros c [Hc _]%andb_true_iff; exact Hc).
  destruct s as [|c s]; [done|]. cbn in H. apply andb_true_iff in H as [(_ & _ & _ & _ & _ & H1)%hex_char _].
  destruct (_ || _); [done|]. unfold env_match. by rewrite H1.
Qed.
Lemma hex_split n s : str_forall is_hex s = true ->
  str_forall is_hex (str_take n s) = true /\ str_forall is_hex (Decimal.str_drop n s) = true.
Proof. intros H. rewrite <- (Decimal.take_drop n s), str_forall_append in H. by apply andb_true_iff in H. Qed.

Lemma fold_two s : (80 < String.length s <= 160)%nat -> chunks (String.length s) 80 s = [str_take 80 s; Decimal.str_drop 80 s].
Proof.
  intros [H1 H2]. assert (Hd : String.length (Decimal.str_drop 80 s) = (String.length s - 80)%nat).
  { clear. generalize 80%nat as n. induction s as [|c s IH]; intros [|n]; cbn; [done|done|lia|apply IH]. }
  destruct (String.length s) as [|n] eqn:E; [lia|]. cbn [chunks]. rewrite E, (proj2 (Nat.leb_gt _ _) H1). f_equal.
  destruct n as [|n]; [lia|]. cbn [chunks]. rewrite Hd. by rewrite (proj2 (Nat.leb_le _ _)) by lia.
Qed.
Lemma hex_key k v : key_ok k = true -> str_forall is_hex v = true -> env_line (k +:+ "=" +:+ v) = Some (k, v).
Proof. intros Hk Hv. by rewrite env_line_entry, hex_value. Qed.

(** [skr-crypto webhook setup >> .env] loses seven digits of the signing secret: the line is
    87 columns wide, the console breaks it, and what the .env file says is the secret is its
    first 57 digits. *)
Theorem setup_secret_folded {W} (secret : string) (w : W) : String.length secret = 64%nat -> str_forall is_hex secret = true ->
  let '(o, (_, t)) := webhook_setup secret (w, mkTerm false []) in
  o = Ret tt /\ env_get "WEBHOOK_SIGNING_SECRET" (read_env_text (piped t)) = Some (str_take 57 secret).
Proof.
  intros Hlen Hhex. destruct (webhook_setup secret (w, mkTerm false [])) as [o [w1 t]] eqn:E.
  unfold webhook_setup, values, bind, success, info, unless_quiet, gets, emit, modify in E.
  cbn [CliStores.webhook_setup firstn skipn for_each when negb quiet shown snd fst ret print_value bind emit modify] in E.
  unfold print_value, emit, modify, bind in E. cbn [quiet shown] in E. injection E as <- <- <-. split; [done|].
  unfold piped, stdout. cbn [shown app List.filter on_stdout map List.concat].
  destruct (hex_split 57 secret Hhex) as [H1 H2]. set (a := str_take 57 secret) in *. set (b := Decimal.str_drop 57 secret) in *.
  assert (console ("WEBHOOK_SIGNING_SECRET=" +:+ secret) = ["WEBHOOK_SIGNING_SECRET" +:+ "=" +:+ a; b]) as ->.
  { rewrite folds by (rewrite str_forall_append; apply (hex_words _ Hhex)).
    rewrite fold_two by (rewrite length_append, Hlen; cbn; lia). reflexivity. }
  rewrite !folds by reflexivity. cbn [chunks String.length Nat.leb str_take Decimal.str_drop app].
  unfold read_env_text. rewrite splitlines_join; [|done|].
  - cbn [fold_left]. assert (add_line [] ("WEBHOOK_SIGNING_SECRET" +:+ "=" +:+ a) = [("WEBHOOK_SIGNING_SECRET", a)]) as ->
      by (unfold add_line; by rewrite hex_key).
    assert (forall d, add_line d b = d) as -> by (intros d; unfold add_line; by rewrite hex_no_entry).
    clearbody a. vm_compute. reflexivity.
  - apply List.Forall_cons; [by apply (hex_words _ H1)|]. apply List.Forall_cons; [by apply (hex_words _ H2)|]. repeat constructor.
Qed.
End Rich.

(** ** The list of [help] and its topics *)
Example help_is_groups : map (fun '(g, l) => (g, map fst l)) HELP = CliService.GROUPS.
Proof. reflexivity. Qed.
Example help_topics_refused :
  List.filter (fun x => negb (existsb (String.eqb x) CliService.registered)) (List.concat (map (fun g => map fst g.2) HELP))
  = ["config show"; "config edit"; "config validate"].
Proof. reflexivity. Qed.
