(* ===== verification/Panels.v ===== *)
(** * The screens of [config show], [doctor], [update] and of the wallet listings
    ([commands/config_cmd.py], [doctor.py], [update.py], [wallet.py])

    As [Screens], for the commands of [CliEnv], [CliDoctor], [CliService] and [CliWallet].
    The progress lines of backup, restore, keygen and of the commands that edit a keystore
    are left out. *)
From S2P Require Import Prelude PyStr Effects Exceptions CliEnv Terminal Screens.
From S2P Require Keystore CliDoctor CliReports CliService CliWallet.
Import Keystore(json(..), jget, truthy).
Open Scope string_scope.

Section Panels.
Context {W : Type}.
Abbreviation T := (M (W * term) cexn).

(** ** [config show] *)
Definition sensitive (k : string) : bool := bool_decide (k ∈ SENSITIVE_KEYS).
Definition config_row (unsafe_show_secrets : bool) (kv : string * string) : list string :=
  let shown := shown_value unsafe_show_secrets kv.1 kv.2 in
  if sensitive kv.1 && negb unsafe_show_secrets then [in_colour "bold" kv.1; in_colour "yellow" shown] else [kv.1; shown].
Definition config_show_cmd (env : outcome cexn env_dict) (unsafe_show_secrets : bool) : T unit :=
  let! env := lift env in
  render_table (add_rows (map (config_row unsafe_show_secrets) env) (make_table (Some "config") ["Key"; "Value"])).

(** ** [config edit] and [config validate] *)
Definition config_edit (m : CliService.machine) (root : outcome cexn string) (environ : string -> option string)
    (call : list string -> Z) : T unit :=
  let! dir := lift root in
  let env_path := path_join dir ".env" in
  match CliService.editor m environ with
  | None => raise (SkrCryptoError "No editor found. Set $EDITOR or install nano/vim/vi.")
  | Some editor =>
      do! info ("opening " +:+ env_path +:+ " in " +:+ editor) in
      let rc := call [editor; env_path] in
      if negb (rc =? 0)%Z then raise (SkrCryptoError ("editor exited with status " +:+ str_of_Z rc))
      else success "saved (restart the service for changes to take effect)"
  end.
Definition config_validate (run : CliService.process -> Z) (root : outcome cexn string) : T unit :=
  do! lift (CliService.validate run root) in success "config is valid".

(** ** [report]: where a finished report goes *)
Definition report_shown (o : outcome cexn CliReports.emitted) : T unit :=
  let! e := lift o in
  match e with
  | CliReports.Stdout payload => write payload
  | CliReports.Wrote path _ => success ("wrote " +:+ path)
  end.

(** ** [doctor] *)
Definition status_value (s : CliDoctor.status) : string :=
  match s with CliDoctor.OK => "ok" | CliDoctor.WARN => "warn" | CliDoctor.FAIL => "fail" end.
Definition upper_value (s : CliDoctor.status) : string :=
  match s with CliDoctor.OK => "OK" | CliDoctor.WARN => "WARN" | CliDoctor.FAIL => "FAIL" end.
Definition colour_of (s : CliDoctor.status) : string :=
  match s with CliDoctor.OK => "green" | CliDoctor.WARN => "yellow" | CliDoctor.FAIL => "red" end.
Definition doctor_json (l : list (string * CliDoctor.verdict)) : json :=
  JList (map (fun c => JObj [("check", JStr c.1); ("status", JStr (status_value c.2.1)); ("message", JStr c.2.2)]) l).
Definition doctor_rows (l : list (string * CliDoctor.verdict)) : list (list string) :=
  map (fun c => [c.1; in_colour (colour_of c.2.1) (upper_value c.2.1); c.2.2]) l.
(** [found]: what [CliDoctor.doctor] gives. *)
Definition doctor_cmd (found : outcome cexn (list (string * CliDoctor.verdict) * Z)) (as_json : bool) : T unit :=
  let! r := lift found in
  do! if as_json then print_json (doctor_json r.1)
      else render_table (add_rows (doctor_rows r.1) (make_table (Some "doctor") ["Check"; "Status"; "Detail"])) in
  when (negb (r.2 =? 0)%Z) (raise (Exits r.2)).

(** ** [update] *)
Context (float_str : Q -> string).
(** [install_data]: finding the install directory and making its data directory; [backup]
    writes lines of its own. *)
Definition snapshot (install_data : outcome cexn unit) (backup : T unit) : T unit :=
  catch (do! lift install_data in do! info "Snapshotting data/ before upgrade …" in backup)
    (fun e => Some (warn ("Snapshot failed: " +:+ message_of e +:+ " — continuing anyway."))).
Definition upgrade_advice (url : string) : T unit :=
  do! info "" in
  do! info "[bold]Run this in your shell to upgrade:[/bold]" in
  do! print_value ("  pip install -U " +:+ url) in
  do! info "" in
  info "Then [italic]skr-crypto restart[/italic] to reload the service.".
Definition update_cmd (current : string) (f : CliService.fetched) (check_only no_backup : bool)
    (install_data : outcome cexn unit) (backup : T unit) : T unit :=
  do! info ("Current CLI: [bold]v" +:+ current +:+ "[/bold]") in
  let! latest := lift (CliService.fetch_latest_release f) in
  match latest with
  | None =>
      do! warn "Could not reach GitHub API to check for updates." in
      info "Visit https://github.com/vampir15551/skr-crypto/releases manually."
  | Some latest =>
      let! l := lift (dict_of latest) in
      let tag := jdefault "tag_name" (JStr "") l in
      if negb (truthy tag) then raise (SkrCryptoError "GitHub returned a release with no tag_name")
      else
        do! info ("Latest release: [bold]" +:+ py_str float_str tag +:+ "[/bold]") in
        if Keystore.json_is_str (Some tag) ("v" +:+ current) then success "Already on the latest release."
        else
          let! url := lift (CliService.wheel_url l) in
          if negb (truthy url) then warn (py_str float_str tag +:+ " has no .whl asset attached — upgrade may not be ready.")
          else if check_only then print_value (py_str float_str url)
          else
            do! when (negb no_backup) (snapshot install_data backup) in
            upgrade_advice (py_str float_str url)
  end.

(** ** [wallet list] and [wallet show], from what the service answers *)
(** [v or dflt] in an f-string. *)
Definition text_or (dflt : string) (v : json) : string := if truthy v then py_str float_str v else dflt.
Definition wallet_row (r : json) : T (list string) :=
  let! d := lift (dict_of r) in
  let get k := lift (cell (jdefault k (JStr "?") d)) in
  let! w := get "wallet" in
  let! a := get "address" in
  let! u := get "usdt" in
  let! t := get "trx" in
  ret [w; a; u; t; py_str float_str (jdefault "energy_available" (JInt 0) d)].
Definition wallets_view (as_json : bool) (payload : json) : T unit :=
  if as_json then print_json payload
  else
    let! d := lift (dict_of payload) in
    let! l := lift (CliService.elements_of (let v := jdefault "wallets" JNull d in if truthy v then v else JList [])) in
    let auto := text_or "?" (jdefault "auto_pick" JNull d) in
    let! rows := collect wallet_row l in
    render_table (add_rows rows (make_table (Some ("Wallets (auto-pick: " +:+ auto +:+ ")")) ["Wallet"; "Address"; "USDT"; "TRX"; "Energy"])).
Definition names_view (as_json : bool) (names : list json) : T unit :=
  if as_json then print_json (JObj [("wallets", JList (map (fun n => JObj [("wallet", n)]) names)); ("online", JBool false)])
  else match names with
       | [] => warn "No wallets configured."
       | _ => let! rows := collect (fun n => let! c := lift (cell n) in ret [c]) names in
              render_table (add_rows rows (make_table (Some "Wallets (offline)") ["Wallet"]))
       end.
Definition wallet_show_view (name : string) (as_json : bool) (payload : json) : T unit :=
  if as_json then print_json payload
  else
    let! d := lift (dict_of payload) in
    render_table (add_rows (map (fun '(k, v) => [k; py_str float_str v]) d) (make_table (Some ("Wallet " +:+ name)) ["Field"; "Value"])).
End Panels.

Section WalletList.
Context (K : Keystore.kenv) (float_str : Q -> string) (installed : outcome cexn (option string * env_dict)).
Abbreviation T := (M (CliWallet.wworld * term) cexn).
(** [_offline_names]; the text of an exception is its message or its class. *)
Definition offline_names (root : option string) (env : env_dict) : T (list json) :=
  let explicit := strip (default "" (env_get "WALLETS" env)) in
  if String.eqb (CliWallet.provider env) "encrypted_file" then
    let! path := lift (CliWallet.keystore_path root env) in
    let! there := below (CliWallet.on_keystore CliWallet.traceback_of (Keystore.exists_ path)) in
    if (there : bool) then
      catch (below (CliWallet.on_keystore CliWallet.traceback_of (Keystore.list_wallet_names K path)))
        (fun e => Some (do! warn ("Could not read keystore: " +:+ message_of e) in ret []))
    else ret []
  else if negb (String.eqb explicit "")
  then ret (map JStr (List.filter (fun n => negb (String.eqb n "")) (map strip (split_on "," explicit))))
  else ret [JStr "default"].
Definition fallback (e : cexn) : string :=
  match e with
  | ServiceUnreachableError _ => "Service is not reachable — falling back to offline listing."
  | _ => "Online listing failed (" +:+ message_of e +:+ ") — falling back offline."
  end.
(** [wallets]: what the client of the install directory answers. *)
Definition wallet_list (wallets : outcome cexn json) (offline as_json : bool) : T unit :=
  let! i := lift installed in
  let! payload :=
    if offline then ret JNull
    else catch (match i.1 with Some _ => lift wallets | None => raise (Traceback "TypeError") end)
           (fun e => Some (do! warn (fallback e) in ret JNull)) in
  match payload with
  | JNull => let! names := offline_names i.1 i.2 in names_view as_json names
  | _ => wallets_view float_str as_json payload
  end.
Definition wallet_show (name : string) (balance : outcome cexn json) (as_json : bool) : T unit :=
  let! i := lift installed in
  let! payload := match i.1 with Some _ => lift balance | None => raise (Traceback "TypeError") end in
  wallet_show_view float_str name as_json payload.
End WalletList.

(** ** [config show] *)
Definition redacted (env : env_dict) : env_dict :=
  map (fun kv => (kv.1, if sensitive kv.1 then str_take 4 kv.2 else kv.2)) env.
Lemma str_take_take n s : str_take n (str_take n s) = str_take n s.
Proof. revert s. induction n as [|n IH]; intros [|c s]; cbn; [done..|]. by rewrite IH. Qed.
Lemma shown_redacted kv : config_row false (kv.1, if sensitive kv.1 then str_take 4 kv.2 else kv.2) = config_row false kv.
Proof.
  destruct kv as [k v]. unfold config_row, shown_value. cbn [fst snd]. fold (sensitive k). destruct (sensitive k); cbn [andb negb]; [|done].
  destruct v as [|c v]; [done|]. by rewrite str_take_take.
Qed.
(** Of the tokens and keys named in SENSITIVE_KEYS [config show] needs the first four
    characters and no more. *)
Theorem config_show_masks {W} (env : env_dict) (s : W * term) :
  config_show_cmd (Ret env) false s = config_show_cmd (Ret (redacted env)) false s.
Proof.
  unfold config_show_cmd, bind, lift, redacted. rewrite map_map.
  by rewrite (map_ext _ _ shown_redacted).
Qed.
(** Every other setting is shown as it is. *)
Theorem config_show_others {W} (env : env_dict) (k v : string) (w : W) : In (k, v) env -> sensitive k = false -> v <> "" ->
  let '(o, (_, t)) := config_show_cmd (Ret env) false (w, mkTerm false []) in
  o = Ret tt /\ exists tb, shown t = [OutTable tb] /\ In [k; v] (tb_rows tb).
Proof.
  intros Hin Hk Hv. cbn. split; [done|]. eexists. split; [done|]. cbn. apply in_map_iff. exists (k, v). split; [|done].
  unfold config_row, shown_value. cbn [fst snd]. fold (sensitive k). rewrite Hk. cbn. unfold str_or. by destruct (String.eqb_spec v "").
Qed.
(** Secrets the server reads that are among them. *)
Example secrets_in_clear : List.filter (fun k => negb (sensitive k))
  ["AUTH_TOKEN"; "KEY_PASSPHRASE"; "WEBHOOK_SIGNING_SECRET"; "TELEGRAM_BOT_TOKEN"; "MISTTRACK_API_KEY"]
  = ["KEY_PASSPHRASE"; "WEBHOOK_SIGNING_SECRET"; "TELEGRAM_BOT_TOKEN"; "MISTTRACK_API_KEY"].
Proof. reflexivity. Qed.

(** ** [doctor] *)
Lemma doctor_says (l : list (string * CliDoctor.verdict)) :
  existsb (fun c => String.eqb (status_value c.2.1) "fail") l = existsb (fun c => bool_decide (c.2.1 = CliDoctor.FAIL)) l.
Proof. induction l as [|[n [[] m]] l IH]; [done|..]; cbn [existsb fst snd]; f_equal; try apply IH; reflexivity. Qed.
(** With [--json] the document has every check that was made, in order, and the exit status is 1
    exactly when one of them says [fail]; an exception of a check shows nothing. *)
Theorem doctor_json_tells {W} repr py_str_ (h : CliDoctor.host) resolve override home (w : W) (q : bool) :
  let found := CliDoctor.doctor repr py_str_ h resolve override home in
  let '(o, (w', t)) := doctor_cmd found true (w, mkTerm q []) in
  w' = w /\
  match found with
  | Ret (l, _) =>
      stdout t = [OutJson true (sort_keys (doctor_json l))] /\
      if existsb (fun c => String.eqb (status_value c.2.1) "fail") l then o = Raise (Exits 1) else o = Ret tt
  | Raise e => stdout t = [] /\ o = Raise e
  | Crash => stdout t = [] /\ o = Crash
  end.
Proof.
  cbv zeta. unfold CliDoctor.doctor. destruct (CliDoctor.run_checks _) as [l|e|]; [|done..]. cbv iota beta.
  pose proof (doctor_says l) as H. destruct (existsb (fun c => bool_decide (c.2.1 = CliDoctor.FAIL)) l); cbn; by rewrite H.
Qed.

(** ** What was shown before does not matter *)
Class Appends {W A} (m : M (W * term) cexn A) : Prop := appends w q pre l :
  m (w, mkTerm q (pre ++ l)%list) = let '(o, (w', t)) := m (w, mkTerm q l) in (o, (w', mkTerm (quiet t) (pre ++ shown t)%list)).
Section Appends.
Context {W : Type}.
#[export] Instance app_ret {A} (a : A) : Appends (W:=W) (ret a).
Proof. done. Qed.
#[export] Instance app_raise {A} e : Appends (W:=W) (raise (A:=A) e).
Proof. done. Qed.
#[export] Instance app_lift {A} (o : outcome cexn A) : Appends (W:=W) (lift o).
Proof. done. Qed.
#[export] Instance app_below {A} (m : M W cexn A) : Appends (below m).
Proof. intros w q pre l. unfold below. by destruct (m w). Qed.
#[export] Instance app_bind {A B} (m : M (W * term) cexn A) (k : A -> M (W * term) cexn B) :
  Appends m -> (forall a, Appends (k a)) -> Appends (bind m k).
Proof.
  intros Hm Hk w q pre l. unfold bind. rewrite Hm. destruct (m (w, mkTerm q l)) as [[a|e|] [w' [q' l']]]; [apply Hk|done..].
Qed.
#[export] Instance app_catch {A} (m : M (W * term) cexn A) f :
  Appends m -> (forall e r, f e = Some r -> Appends r) -> Appends (catch m f).
Proof.
  intros Hm Hf w q pre l. unfold catch. rewrite Hm. destruct (m (w, mkTerm q l)) as [[a|e|] [w' [q' l']]]; [done| |done].
  destruct (f e) eqn:E; [by eapply Hf|done].
Qed.
#[export] Instance app_emit i : Appends (W:=W) (emit i).
Proof. intros w q pre l. cbn. by rewrite app_assoc. Qed.
#[export] Instance app_collect {A B} (f : A -> M (W * term) cexn B) l : (forall a, Appends (f a)) -> Appends (collect f l).
Proof. intros Hf. induction l; cbn; apply _. Qed.
End Appends.
Ltac appends := repeat first [progress intros | apply _ | apply app_emit | apply app_bind | apply app_catch | progress simplify_eq | case_match].
(** ** Views leave the world as it is *)
Class Views {W A} (m : M (W * term) cexn A) : Prop := views s : (snd (m s)).1 = s.1.
Section Views.
Context {W : Type}.
#[export] Instance view_ret {A} (a : A) : Views (W:=W) (ret a).
Proof. done. Qed.
#[export] Instance view_lift {A} (o : outcome cexn A) : Views (W:=W) (lift o).
Proof. done. Qed.
#[export] Instance view_bind {A B} (m : M (W * term) cexn A) (k : A -> M (W * term) cexn B) :
  Views m -> (forall a, Views (k a)) -> Views (bind m k).
Proof.
  intros Hm Hk s. specialize (Hm s). unfold bind. destruct (m s) as [[a|e|] s']; cbn in *; [|done..]. by rewrite (Hk a).
Qed.
#[export] Instance view_emit i : Views (W:=W) (emit i).
Proof. by intros [w t]. Qed.
#[export] Instance view_collect {A B} (f : A -> M (W * term) cexn B) l : (forall a, Views (f a)) -> Views (collect f l).
Proof. intros Hf. induction l; cbn; apply _. Qed.
End Views.
Ltac view := repeat first [progress intros | apply _ | apply view_emit | apply view_bind | case_match].
#[export] Instance view_names {W} js names : Views (W:=W) (names_view js names).
Proof. unfold names_view, warn, print_json, render_table. view. Qed.
#[export] Instance view_wallets {W} fs js p : Views (W:=W) (wallets_view fs js p).
Proof. unfold wallets_view, wallet_row, print_json, render_table. view. Qed.
#[export] Instance app_names_view {W} js names : Appends (W:=W) (names_view js names).
Proof. unfold names_view, warn, print_json, render_table. appends. Qed.
#[export] Instance app_wallets_view {W} fs js p : Appends (W:=W) (wallets_view fs js p).
Proof. unfold wallets_view, wallet_row, print_json, render_table. appends. Qed.
#[export] Instance app_offline K root env : Appends (offline_names K root env).
Proof. unfold offline_names, warn. appends. Qed.

(** ** [wallet list] *)
Section Listing.
Context (K : Keystore.kenv) (float_str : Q -> string) (installed : outcome cexn (option string * env_dict)).
Definition listed_names (root : option string) (env : env_dict) (as_json : bool) : M (CliWallet.wworld * term) cexn unit :=
  let! names := offline_names K root env in names_view as_json names.
#[local] Instance app_listed root env js : Appends (listed_names root env js).
Proof. unfold listed_names. appends. Qed.
Definition client_raises (root : option string) (e : cexn) : cexn := match root with Some _ => e | None => Traceback "TypeError" end.
Lemma list_offline root env wallets js s : installed = Ret (root, env) ->
  wallet_list K float_str installed wallets true js s = listed_names root env js s.
Proof. by intros ->. Qed.
Lemma list_raises root env e js w q l : installed = Ret (root, env) ->
  wallet_list K float_str installed (Raise e) false js (w, mkTerm q l) =
  listed_names root env js (w, mkTerm q (l ++ [Err Warning ("[yellow]warning:[/yellow] " +:+ fallback (client_raises root e))])%list).
Proof. intros ->. by destruct root. Qed.

(** Whatever the service's client raises, [wallet list] does what it does with [--offline] after
    one more warning: an unreachable or broken service never hides the wallets. *)
Theorem wallet_list_falls_back (e : cexn) (wallets : outcome cexn json) (as_json q : bool) (w : CliWallet.wworld)
    (root : option string) (env : env_dict) : installed = Ret (root, env) ->
  let '(o, (w1, t)) := wallet_list K float_str installed (Raise e) false as_json (w, mkTerm q []) in
  let '(o', (w1', t')) := wallet_list K float_str installed wallets true as_json (w, mkTerm q []) in
  o = o' /\ w1 = w1' /\
  shown t = Err Warning ("[yellow]warning:[/yellow] " +:+ fallback (client_raises root e)) :: shown t'.
Proof.
  intros H. rewrite (list_raises root env) by done. rewrite (list_offline root env) by done. cbn [app].
  set (line := Err Warning _). pose proof (appends (m:=listed_names root env as_json) w q [line] []) as Ha. cbn [app] in Ha. rewrite Ha.
  destruct (listed_names root env as_json (w, mkTerm q [])) as [o [w1 t]]. by split_and!.
Qed.

Lemma offline_names_same root env w q l : exists l', List.filter on_stdout l' = [] /\
  offline_names K root env (w, mkTerm q l) = let '(o, w') := CliWallet.offline_names K root env w in (o, (w', mkTerm q (l ++ l')%list)).
Proof.
  unfold offline_names, CliWallet.offline_names. destruct (String.eqb _ _).
  2: { exists []. rewrite app_nil_r. split; [done|]. by destruct (negb _). }
  destruct (CliWallet.keystore_path root env) as [path|e|]; [|exists []; by rewrite app_nil_r..].
  unfold bind. cbn [lift CliWallet.lift_c]. unfold below at 1. unfold CliWallet.on_keystore at 1 3.
  destruct (Keystore.exists_ path (CliWallet.x_disk w)) as [[[]|e|] d]; [|exists []; by rewrite app_nil_r..].
  set (w1 := CliWallet.mkWw _ _ _). unfold catch, below. destruct (CliWallet.on_keystore _ _ w1) as [[a|e|] w2];
    [exists []; by rewrite app_nil_r| |exists []; by rewrite app_nil_r].
  eexists [_]. split; [|reflexivity]. done.
Qed.
Definition listing_view (as_json : bool) (l : CliWallet.listing json) : M (CliWallet.wworld * term) cexn unit :=
  match l with CliWallet.Online _ p => wallets_view float_str as_json p | CliWallet.Offline _ names => names_view as_json names end.
(** A run of the command shows on standard output what was found, in the world it was found in. *)
Definition shows (as_json q : bool) (run : outcome cexn unit * (CliWallet.wworld * term))
    (found : outcome cexn (CliWallet.listing json) * CliWallet.wworld) : Prop :=
  run.2.1 = found.2 /\
  match found.1 with
  | Ret l => let shown := listing_view as_json l (found.2, mkTerm q []) in run.1 = shown.1 /\ stdout run.2.2 = stdout shown.2.2
  | Raise e => run.1 = Raise e /\ stdout run.2.2 = []
  | Crash => run.1 = Crash /\ stdout run.2.2 = []
  end.
Definition found_offline (root : option string) (env : env_dict) (w : CliWallet.wworld) :=
  let '(o, w') := CliWallet.offline_names K root env w in
  (match o with Ret names => Ret (CliWallet.Offline json names) | Raise e => Raise e | Crash => Crash end, w').
Lemma shows_offline root env js q w l0 : List.filter on_stdout l0 = [] ->
  shows js q (listed_names root env js (w, mkTerm q l0)) (found_offline root env w).
Proof.
  intros Hl. unfold shows, found_offline, listed_names, bind. destruct (offline_names_same root env w q l0) as (l' & Hl' & ->).
  assert (Hs : List.filter on_stdout (l0 ++ l') = []) by by rewrite List.filter_app, Hl, Hl'.
  destruct (CliWallet.offline_names K root env w) as [[names|e|] w1]; [|done..].
  rewrite <- (app_nil_r (l0 ++ l')). rewrite (appends (m:=names_view js names) w1 q (l0 ++ l') []). cbn [listing_view fst snd].
  pose proof (views (m:=names_view (W:=CliWallet.wworld) js names) (w1, mkTerm q [])) as Hw.
  destruct (names_view js names (w1, mkTerm q [])) as [o [w2 t]]. cbn in Hw. subst w2. split_and!; [done..|].
  unfold stdout. cbn [shown fst snd]. by rewrite List.filter_app, Hs.
Qed.
Lemma found_cases root env wallets offline w : installed = Ret (root, env) ->
  CliWallet.list_cmd K installed wallets offline w =
    match offline, root, wallets with
    | false, Some _, Ret payload => (Ret (CliWallet.Online json payload), w)
    | false, Some _, Crash => (Crash, w)
    | _, _, _ => found_offline root env w
    end.
Proof.
  intros Hi. unfold CliWallet.list_cmd, found_offline. rewrite Hi. unfold bind. cbn.
  destruct offline, root, wallets; try done; destruct (CliWallet.offline_names _ _ _ _) as [[]]; done.
Qed.
(** Without an install directory the client cannot be made. *)
Lemma list_homeless env wallets js w q : installed = Ret (None, env) ->
  wallet_list K float_str installed wallets false js (w, mkTerm q []) =
  listed_names None env js (w, mkTerm q [Err Warning ("[yellow]warning:[/yellow] " +:+ fallback (Traceback "TypeError"))]).
Proof. intros Hi. unfold wallet_list, bind. by rewrite Hi. Qed.

(** What is listed is what [CliWallet.list_cmd] finds, shown. *)
Theorem wallet_list_shows (wallets : outcome cexn json) (offline as_json q : bool) (w : CliWallet.wworld) : wallets <> Ret JNull ->
  shows as_json q (wallet_list K float_str installed wallets offline as_json (w, mkTerm q []))
    (CliWallet.list_cmd K installed wallets offline w).
Proof.
  intros Hn. assert ((exists root env, installed = Ret (root, env)) \/ (exists e, installed = Raise e) \/ installed = Crash)
    as [(root & env & Hi)|[[e Hi]| Hi]] by (destruct installed as [[]| |]; eauto);
    [|unfold wallet_list, CliWallet.list_cmd; by rewrite Hi..].
  rewrite (found_cases root env) by done. destruct offline.
  { rewrite (list_offline root env) by done. by apply shows_offline. }
  destruct root as [r|]; [|rewrite (list_homeless env) by done; by apply shows_offline].
  destruct wallets as [p|e|]; [|rewrite (list_raises (Some r) env) by done; by apply shows_offline|unfold wallet_list, bind; by rewrite Hi].
  unfold wallet_list, bind, shows. rewrite Hi. cbn.
  pose proof (views (m:=wallets_view (W:=CliWallet.wworld) float_str as_json p) (w, mkTerm q [])) as Hv.
  destruct p; try done; destruct (wallets_view _ _ _ _) as [o [w' t]]; by cbn in Hv.
Qed.
End Listing.

(** ** [--quiet] and [--json] *)
Inductive panel : forall W A, M (W * term) cexn A -> Prop :=
| p_config_show W env unsafe : panel W _ (config_show_cmd env unsafe)
| p_config_edit W m root environ call : panel W _ (config_edit m root environ call)
| p_config_validate W run root : panel W _ (config_validate run root)
| p_report W o : panel W _ (report_shown o)
| p_doctor W found js : panel W _ (doctor_cmd found js)
| p_update W fs cur f check_only no_backup dir backup : Hush backup -> panel W _ (update_cmd fs cur f check_only no_backup dir backup)
| p_wallet_list K fs installed wallets offline js : panel _ _ (wallet_list K fs installed wallets offline js)
| p_wallet_show fs installed name balance js : panel _ _ (wallet_show fs installed name balance js).
#[export] Instance hush_snapshot {W} dir (backup : M (W * term) cexn unit) : Hush backup -> Hush (snapshot dir backup).
Proof. intros H. unfold snapshot. apply hush_catch; [repeat (apply hush_bind; [apply _|intros ?]); exact H|]. intros e r [= <-]. apply _. Qed.
Lemma panel_hush W A (cmd : M (W * term) cexn A) : panel W A cmd -> Hush cmd.
Proof.
  destruct 1.
  - unfold config_show_cmd. hush.
  - unfold config_edit. hush.
  - unfold config_validate. hush.
  - unfold report_shown. hush.
  - unfold doctor_cmd. hush.
  - unfold update_cmd. hush.
  - unfold wallet_list, offline_names, names_view, wallets_view, wallet_row. hush.
  - unfold wallet_show, wallet_show_view. hush.
Qed.
(** As [Screens.quiet_only_hushes], for the commands of this file. *)
Theorem panels_hush {W A} (cmd : M (W * term) cexn A) (w : W) : panel W A cmd ->
  let '(o, (w1, t)) := cli false cmd (w, mkTerm false []) in
  let '(o', (w2, t')) := cli true cmd (w, mkTerm false []) in
  o' = o /\ w2 = w1 /\ shown t' = List.filter heard (shown t) /\ stdout t' = stdout t.
Proof. intros H%panel_hush. by apply cli_hush. Qed.

Lemma info_runs {W} msg (s : W * term) : info msg s = (Ret tt, (s.1, mkTerm (quiet s.2) (shown s.2 ++ if quiet s.2 then [] else [Err Info msg])%list)).
Proof. destruct s as [w [[] l]]; cbn; [by rewrite app_nil_r|done]. Qed.
Lemma advice_shown {W} url (s : W * term) : let '(o, (_, t)) := upgrade_advice url s in
  o = Ret tt /\ exists before, stdout t = (before ++ [Out ("  pip install -U " +:+ url)])%list.
Proof.
  destruct s as [w [q l]]. unfold upgrade_advice, bind, print_value, emit, modify. repeat rewrite info_runs. cbn [fst snd quiet shown].
  split; [done|]. exists (List.filter on_stdout l). unfold stdout. cbn [shown]. destruct q; rewrite !List.filter_app; cbn; by rewrite ?app_nil_r.
Qed.
Lemma snapshot_runs {W} dir (backup : M (W * term) cexn unit) (s : W * term) : dir <> Crash -> (forall s, fst (backup s) <> Crash) ->
  exists s', snapshot dir backup s = (Ret tt, s').
Proof.
  intros Hd Hb. unfold snapshot, catch, bind, lift. destruct dir as [[]|e|]; [|by eexists|done]. rewrite info_runs. set (s1 := (_, _)).
  specialize (Hb s1). destruct (backup s1) as [[[]|e|] s2]; cbn in Hb; [by eexists| |done]. destruct s2. by eexists.
Qed.
(** [config edit] ends as [CliService.edit] says, and says that the file was saved exactly when
    it does. *)
Theorem config_edit_tells {W} m environ call root (w : W) :
  let '(o, (w', t)) := config_edit m root environ call (w, mkTerm false []) in
  o = CliService.edit m environ call root /\ w' = w /\
  (In (Err Success ("[green]✓[/green] saved (restart the service for changes to take effect)")) (shown t) <-> o = Ret tt).
Proof.
  unfold config_edit, CliService.edit. destruct root as [dir|e|]; [|cbn; by split_and!..].
  unfold bind. cbn [lift]. destruct (CliService.editor m environ) as [e|]; [|cbn; by split_and!].
  rewrite info_runs. cbn [fst snd quiet shown app]. destruct (call _ =? 0)%Z; cbn; (split_and!; [done..|]); [tauto|].
  split; [|done]. by intros [[=]|[]].
Qed.

(** [update] takes a snapshot, and tells how to upgrade whether or not that worked: the URL of
    the wheel is the last thing on standard output. *)
Theorem update_survives_snapshot {W} (fs : Q -> string) (current : string) (l : list (string * json)) (tag url : string)
    (dir : outcome cexn unit) (backup : M (W * term) cexn unit) (s : W * term) :
  jget "tag_name" l = Some (JStr tag) -> tag <> "" -> tag <> "v" +:+ current ->
  CliService.wheel_url l = Ret (JStr url) -> url <> "" -> (forall s, fst (backup s) <> Crash) -> dir <> Crash ->
  let '(o, (_, t)) := update_cmd fs current (CliService.Fetched (JObj l)) false false dir backup s in
  o = Ret tt /\ exists before, stdout t = (before ++ [Out ("  pip install -U " +:+ url)])%list.
Proof.
  intros Htag Hne%String.eqb_neq Hnew%String.eqb_neq Hurl Hu%String.eqb_neq Hb Hd.
  unfold update_cmd, jdefault. unfold bind at 1. rewrite info_runs. unfold bind at 1. cbn [lift CliService.fetch_latest_release].
  unfold bind at 1. cbn [lift dict_of]. rewrite Htag. cbn [default from_option id truthy Keystore.json_is_str]. rewrite Hne. cbn [negb].
  unfold bind at 1. rewrite info_runs. cbn [fst snd]. rewrite Hnew, Hurl. unfold bind at 1. cbn [lift truthy]. rewrite Hu. cbn [negb when].
  unfold bind at 1. match goal with |- context [snapshot dir backup ?s1] => destruct (snapshot_runs dir backup s1 Hd Hb) as [s2 ->] end.
  apply advice_shown.
Qed.

Lemma silent_warn {W} msg : Writes (W:=W) (warn msg) (fun _ l => l = []).
Proof. intros [w t]. by exists [Err Warning ("[yellow]warning:[/yellow] " +:+ msg)]. Qed.
Lemma silent_offline K root env : Writes (offline_names K root env) (fun _ l => l = []).
Proof.
  unfold offline_names. destruct (String.eqb _ _); [|destruct (negb _); apply silent_ret].
  repeat (apply silent_bind; [first [apply silent_lift | apply writes_below]|intros ?]). case_match; [|apply silent_ret].
  apply silent_catch; [apply writes_below|]. intros e r [= <-]. apply silent_bind; [apply silent_warn|]. intros _. apply silent_ret.
Qed.
(** [wallet list --json] and [wallet show --json] write one document, or fail and write none. *)
Theorem wallet_json_one_document K fs installed (cmd : M (CliWallet.wworld * term) cexn unit) (w : CliWallet.wworld) (q : bool) :
  (exists wallets offline, cmd = wallet_list K fs installed wallets offline true) \/
  (exists name balance, cmd = wallet_show fs installed name balance true) ->
  let '(o, (_, t)) := cmd (w, mkTerm q []) in
  stdout t = [] /\ (forall a, o <> Ret a) \/ exists j, stdout t = [OutJson true j].
Proof.
  intros H. assert (Hw : Writes cmd one_document).
  { destruct H as [(wallets & offline & ->)|(name & balance & ->)].
    - unfold wallet_list. apply one_bind; [apply silent_lift|]. intros [root env]. cbn [fst snd].
      assert (forall p, Writes (wallets_view (W:=CliWallet.wworld) fs true p) one_document) as Hv by (intros p; apply one_print).
      apply one_bind.
      + destruct offline; [apply silent_ret|]. apply silent_catch; [destruct root; [apply silent_lift|apply silent_raise]|].
        intros e r [= <-]. apply silent_bind; [apply silent_warn|]. intros _. apply silent_ret.
      + intros [| | | | | |]; try apply Hv. apply one_bind; [apply silent_offline|]. intros names. apply one_print.
    - unfold wallet_show. apply one_bind; [apply silent_lift|]. intros [root env]. cbn [fst snd].
      apply one_bind; [destruct root; [apply silent_lift|apply silent_raise]|]. intros p. apply one_print. }
  specialize (Hw (w, mkTerm q [])) as (l & H1 & H2). destruct (cmd (w, mkTerm q [])) as [o [w1 t]]. cbn in *.
  unfold stdout. by rewrite H1.
Qed.
