(* ===== verification/Backends.v ===== *)
(** * The two storages behind a delivery store

    [webhooks.WebhookDeliveryStore] and [alerts.AlertDeliveryStore] keep their rows in an
    SQLite table when they are given a path and in a dict otherwise, and choose anew at
    every call: [self._conn is not None].  The table is [Delivery.store]; this file adds
    the object itself, its dict, and [close], after which the object goes on with the
    dict.  [P] is the part of a row in which the two classes differ. *)
From S2P Require Import Prelude PyStr Effects Exceptions Delivery.
Open Scope Z_scope.

Section Backends.
Context {P : Type}.
Abbreviation row := (delivery P).

(** [dict[int, dict]], in insertion order. *)
Abbreviation rowdict := (list (Z * row)).
Fixpoint dict_get (k : Z) (m : rowdict) : option row :=
  match m with
  | [] => None
  | (k', d) :: m => if k' =? k then Some d else dict_get k m
  end.
Fixpoint dict_set (k : Z) (d : row) (m : rowdict) : rowdict :=
  match m with
  | [] => [(k, d)]
  | (k', d') :: m => if k' =? k then (k, d) :: m else (k', d') :: dict_set k d m
  end.

(** The object: whether [_conn] is set, [_memory], [_next_id]. *)
Record DeliveryStore := mkDS { ds_conn : bool; ds_memory : rowdict; ds_next_id : Z }.
(** [__init__]: [db] tells whether a path was given. *)
Definition new_store (db : bool) : DeliveryStore := mkDS db [] 1.

(** An object and the table of the database file. *)
Abbreviation MS := (M (DeliveryStore * store P) exn).

(** One statement on the table, which may fail without effect. *)
Definition execute {A} (f : fate exn) (q : store P -> A * store P) : MS A := fun '(o, t) =>
  match f with
  | Fine => let '(a, t') := q t in (Ret a, (o, t'))
  | Fails e => (Raise e, (o, t))
  | Dies => (Crash, (o, t))
  end.
(** A step on the dict. *)
Definition in_memory {A} (q : DeliveryStore -> A * DeliveryStore) : MS A := fun '(o, t) =>
  let '(a, o') := q o in (Ret a, (o', t)).
(** [if self._conn is not None: ... return ...] *)
Definition on_conn {A} (sql mem : MS A) : MS A := fun s => if ds_conn (fst s) then sql s else mem s.

Definition enqueue_ (f : fate exn) (now : time) (audit_event_id event : string) (what : P) : MS Z :=
  on_conn (execute f (enqueue now audit_event_id event what))
    (in_memory (fun o =>
       let i := ds_next_id o in
       (i, mkDS (ds_conn o)
             (dict_set i (mkDelivery i audit_event_id event what Pending 0 now None None None now) (ds_memory o))
             (i + 1)))).

Definition take_due_ (f : fate exn) (now : time) (limit : nat) : MS (list row) :=
  on_conn (execute f (fun t => (take_due now limit t, t)))
    (in_memory (fun o =>
       (firstn limit (sort_by (fun a b => Qle_bool (d_next_attempt_at a) (d_next_attempt_at b))
          (List.filter (is_due now) (map snd (ds_memory o)))), o))).

Definition update_outcome_ (f : fate exn) (id : Z) (u : outcome_row) : MS unit :=
  on_conn (execute f (fun t => (tt, update_outcome id u t)))
    (in_memory (fun o =>
       (tt, match dict_get id (ds_memory o) with
            | None => o
            | Some d => mkDS (ds_conn o) (dict_set id (apply_outcome u d) (ds_memory o)) (ds_next_id o)
            end))).

(** [sorted(..., reverse=True)] keeps the order of equal keys. *)
Definition list_recent_ (f : fate exn) (limit : nat) : MS (list row) :=
  on_conn (execute f (fun t => (list_recent limit t, t)))
    (in_memory (fun o =>
       (firstn limit (sort_by (fun a b => Qle_bool (d_created_at b) (d_created_at a))
          (map snd (ds_memory o))), o))).

Definition get_ (f : fate exn) (id : Z) : MS (option row) :=
  on_conn (execute f (fun t => (get id t, t))) (in_memory (fun o => (dict_get id (ds_memory o), o))).

(** [force_retry]: a read and a write, each on its own. *)
Definition force_retry_ (f1 f2 : fate exn) (now : time) (id : Z) : MS bool :=
  let! rec := get_ f1 id in
  match rec with
  | None => ret false
  | Some d =>
      if negb (bool_decide (d_status d = GivingUp) || bool_decide (d_status d = Failed)) then ret false
      else
        do! update_outcome_ f2 id (mkOutcome Pending (d_attempts d) now (d_last_response_at d)
                                     (d_last_response_code d) (d_last_error d)) in
        ret true
  end.

(** [close]: the dict is kept. *)
Definition close_ : MS unit := fun '(o, t) => (Ret tt, (mkDS false (ds_memory o) (ds_next_id o), t)).

(** [_reset_for_tests] *)
Definition reset_ (f : fate exn) : MS unit := fun '(o, t) =>
  let o' := mkDS (ds_conn o) [] 1 in
  if ds_conn o then execute f (fun t => (tt, mkStore [] (next_id t))) (o', t) else (Ret tt, (o', t)).

(** ** Sequences of calls *)

Inductive call :=
| Enqueue (now : time) (audit_event_id event : string) (what : P)
| TakeDue (now : time) (limit : nat)
| UpdateOutcome (id : Z) (u : outcome_row)
| ListRecent (limit : nat)
| Get (id : Z)
| ForceRetry (now : time) (id : Z).
Inductive reply := RId (i : Z) | RRows (l : list row) | RNone | RRow (d : option row) | RBool (b : bool).

Definition reply_with {A} (r : A -> reply) (m : MS A) : MS reply := let! a := m in ret (r a).
Definition run_call (c : call) : MS reply :=
  match c with
  | Enqueue now a e w => reply_with RId (enqueue_ Fine now a e w)
  | TakeDue now limit => reply_with RRows (take_due_ Fine now limit)
  | UpdateOutcome id u => reply_with (fun _ => RNone) (update_outcome_ Fine id u)
  | ListRecent limit => reply_with RRows (list_recent_ Fine limit)
  | Get id => reply_with RRow (get_ Fine id)
  | ForceRetry now id => reply_with RBool (force_retry_ Fine Fine now id)
  end.
Fixpoint run_calls (cs : list call) : MS (list reply) :=
  match cs with
  | [] => ret []
  | c :: cs => let! r := run_call c in let! rs := run_calls cs in ret (r :: rs)
  end.

(** ** The contract: the table of [Delivery] *)
Definition spec_call (c : call) (s : store P) : reply * store P :=
  match c with
  | Enqueue now a e w => let '(i, s') := enqueue now a e w s in (RId i, s')
  | TakeDue now limit => (RRows (take_due now limit s), s)
  | UpdateOutcome id u => (RNone, update_outcome id u s)
  | ListRecent limit => (RRows (list_recent limit s), s)
  | Get id => (RRow (get id s), s)
  | ForceRetry now id => let '(b, s') := force_retry now id s in (RBool b, s')
  end.
Fixpoint spec_calls (cs : list call) (s : store P) : list reply * store P :=
  match cs with
  | [] => ([], s)
  | c :: cs => let '(r, s1) := spec_call c s in let '(rs, s2) := spec_calls cs s1 in (r :: rs, s2)
  end.

(** What an object and a table hold. *)
Definition contents (s : DeliveryStore * store P) : store P :=
  if ds_conn (fst s) then snd s else mkStore (map snd (ds_memory (fst s))) (ds_next_id (fst s)).
(** Every row of the dict is under its own id, below the next one. *)
Definition object_ok (o : DeliveryStore) : Prop :=
  Forall (fun kd => kd.1 = d_id kd.2 /\ kd.1 < ds_next_id o) (ds_memory o) /\
  List.NoDup (map fst (ds_memory o)).

(** ** The dict as a list of rows *)

Lemma dict_get_find m k : Forall (fun kd : Z * row => kd.1 = d_id kd.2) m ->
  dict_get k m = List.find (fun d => d_id d =? k) (map snd m).
Proof.
  induction 1 as [|[k' d] m Hk _ IH]; [done|]. cbn in *. subst k'. by destruct (d_id d =? k).
Qed.
Lemma dict_get_fresh m k : (forall d, ~ In (k, d) m) -> dict_get k m = None.
Proof.
  induction m as [|[k' d] m IH]; intros H; [done|]. cbn. destruct (Z.eqb_spec k' k) as [->|].
  - destruct (H d). by left.
  - apply IH. intros d' Hd. apply (H d'). by right.
Qed.
Lemma dict_set_fresh m k d : dict_get k m = None -> dict_set k d m = (m ++ [(k, d)])%list.
Proof.
  induction m as [|[k' d'] m IH]; [done|]. cbn. destruct (k' =? k); [done|]. intros H. by rewrite IH.
Qed.
Lemma dict_set_keys m k d d0 : dict_get k m = Some d0 -> map fst (dict_set k d m) = map fst m.
Proof.
  induction m as [|[k' d'] m IH]; [done|]. cbn. destruct (Z.eqb_spec k' k) as [->|]; [done|].
  intros H. cbn. by rewrite IH.
Qed.
Lemma dict_set_forall (Q : Z * row -> Prop) m k d : Q (k, d) -> Forall Q m -> Forall Q (dict_set k d m).
Proof.
  intros Hq. induction 1 as [|[k' d'] m H Hm IH]; cbn; [by repeat constructor|].
  destruct (k' =? k); by constructor.
Qed.
(** Writing one entry is the table's update of the row with that id. *)
Lemma dict_set_update m k f d0 : Forall (fun kd : Z * row => kd.1 = d_id kd.2) m ->
  List.NoDup (map fst m) -> dict_get k m = Some d0 ->
  map snd (dict_set k (f d0) m) = map (fun d => if d_id d =? k then f d else d) (map snd m).
Proof.
  intros Hm. induction Hm as [|[k' d'] m Hk Hm IH]; [done|]. cbn [dict_get dict_set map fst snd] in *.
  subst k'. intros [Hx Hn]%NoDup_cons_iff. destruct (Z.eqb_spec (d_id d') k) as [E|E]; intros H.
  - injection H as ->. cbn. f_equal. rewrite <- (map_id (map snd m)) at 1. apply map_ext_in.
    intros d Hd. destruct (Z.eqb_spec (d_id d) k) as [E2|]; [|done]. destruct Hx.
    apply in_map_iff in Hd as ([k2 d2] & <- & Hin). rewrite Forall_forall in Hm.
    apply list_elem_of_In in Hin. specialize (Hm _ Hin). cbn in *. rewrite E, <- E2, <- Hm.
    apply (in_map fst _ (k2, d2)). by apply list_elem_of_In.
  - cbn. f_equal. by apply IH.
Qed.

Lemma object_keys o : object_ok o -> Forall (fun kd => kd.1 = d_id kd.2) (ds_memory o).
Proof. intros [H _]. eapply Forall_impl; [exact H|]. by intros x [? _]. Qed.
Lemma new_store_ok db : object_ok (new_store db).
Proof. split; constructor. Qed.

Lemma contents_update o t id u d : ds_conn o = false -> object_ok o -> dict_get id (ds_memory o) = Some d ->
  contents (mkDS (ds_conn o) (dict_set id (apply_outcome u d) (ds_memory o)) (ds_next_id o), t) =
  update_outcome id u (contents (o, t)).
Proof.
  intros Hc Ho Hd. unfold contents, update_outcome. cbn. rewrite Hc. cbn. f_equal.
  apply (dict_set_update _ _ (apply_outcome u)); [by apply object_keys | by apply Ho | done].
Qed.
Lemma update_ok o id u d : object_ok o -> dict_get id (ds_memory o) = Some d ->
  object_ok (mkDS (ds_conn o) (dict_set id (apply_outcome u d) (ds_memory o)) (ds_next_id o)).
Proof.
  intros Ho Hd. pose proof (object_keys o Ho) as Hk. destruct Ho as [Hf Hn]. split; cbn.
  - assert (In (id, d) (ds_memory o)) as Hin.
    { clear -Hd. induction (ds_memory o) as [|[k x] m IH]; [done|]. cbn in Hd.
      destruct (Z.eqb_spec k id) as [->|]; [left; congruence|]. right. auto. }
    apply dict_set_forall; [|done]. apply list_elem_of_In in Hin.
    rewrite Forall_forall in Hf. apply (Hf _ Hin).
  - by rewrite (dict_set_keys _ _ _ d).
Qed.
Lemma update_missing o id u : object_ok o -> dict_get id (ds_memory o) = None ->
  map (fun d => if d_id d =? id then apply_outcome u d else d) (map snd (ds_memory o)) = map snd (ds_memory o).
Proof.
  intros Ho. rewrite (dict_get_find _ _ (object_keys _ Ho)). intros H.
  rewrite <- (map_id (map snd (ds_memory o))) at 2. apply map_ext_in. intros d Hd.
  apply (List.find_none _ _ H) in Hd. by rewrite Hd.
Qed.
Lemma enqueue_fresh o : object_ok o -> dict_get (ds_next_id o) (ds_memory o) = None.
Proof.
  intros [Hf _]. apply dict_get_fresh. intros d Hin. apply list_elem_of_In in Hin.
  rewrite Forall_forall in Hf. specialize (Hf _ Hin). cbn in Hf. lia.
Qed.
Lemma enqueue_ok o d : object_ok o -> d_id d = ds_next_id o ->
  object_ok (mkDS (ds_conn o) (dict_set (ds_next_id o) d (ds_memory o)) (ds_next_id o + 1)).
Proof.
  intros Ho Hd. pose proof (enqueue_fresh o Ho) as Hf. destruct Ho as [Ha Hn]. split; cbn.
  - apply dict_set_forall; [cbn; split; [done|lia]|]. eapply Forall_impl; [exact Ha|]. cbn. intros x [? ?]. split; [done|lia].
  - rewrite dict_set_fresh by done. rewrite map_app. cbn.
    apply (Permutation_NoDup (l := ds_next_id o :: map fst (ds_memory o))); [apply Permutation_cons_append|].
    constructor; [|done]. intros ([k x] & Hk & Hin)%in_map_iff. cbn in Hk. subst k.
    apply list_elem_of_In in Hin. rewrite Forall_forall in Ha. specialize (Ha _ Hin). cbn in Ha. lia.
Qed.

(** ** One call *)

(** The storage in use changes, the other does not. *)
Definition other_kept (s s' : DeliveryStore * store P) : Prop :=
  if ds_conn (fst s) then ds_memory (fst s') = ds_memory (fst s) /\ ds_next_id (fst s') = ds_next_id (fst s)
  else snd s' = snd s.
Lemma other_kept_refl s : other_kept s s.
Proof. unfold other_kept. by destruct (ds_conn _). Qed.
Definition refines_call (s : DeliveryStore * store P) (spec : reply * store P)
    (res : outcome exn reply * (DeliveryStore * store P)) : Prop :=
  fst res = Ret (fst spec) /\ contents (snd res) = snd spec /\
  object_ok (fst (snd res)) /\ ds_conn (fst (snd res)) = ds_conn (fst s) /\ other_kept s (snd res).

Lemma read_refines {A} (r : A -> reply) (q : store P -> A) (qm : DeliveryStore -> A) o t :
  object_ok o -> (ds_conn o = false -> qm o = q (contents (o, t))) ->
  refines_call (o, t) (r (q (contents (o, t))), contents (o, t))
    (reply_with r (on_conn (execute Fine (fun t => (q t, t))) (in_memory (fun o => (qm o, o)))) (o, t)).
Proof.
  unfold refines_call, other_kept, reply_with, bind, on_conn, execute, in_memory, ret, contents.
  intros Ho Hq. cbn in *. destruct (ds_conn o) eqn:Hc; cbn; rewrite ?Hc; cbn; [by split_and!|].
  rewrite Hq by done. by split_and!.
Qed.

Lemma get_contents o t id : ds_conn o = false -> object_ok o ->
  dict_get id (ds_memory o) = get id (contents (o, t)).
Proof.
  intros Hc Ho. rewrite (dict_get_find _ _ (object_keys _ Ho)). unfold contents, get. cbn. by rewrite Hc.
Qed.

Lemma update_refines id u o t : object_ok o ->
  refines_call (o, t) (RNone, update_outcome id u (contents (o, t)))
    (reply_with (fun _ => RNone) (update_outcome_ Fine id u) (o, t)).
Proof.
  intros Ho. unfold refines_call, other_kept, reply_with, bind, update_outcome_, on_conn, ret. cbn [fst].
  destruct (ds_conn o) eqn:Hc; cbn.
  - rewrite Hc. unfold contents. cbn. rewrite Hc. by split_and!.
  - destruct (dict_get id (ds_memory o)) as [d|] eqn:Hd.
    + split_and!; [done | | by eapply update_ok | done | done].
      apply (contents_update o t id u d Hc Ho Hd).
    + split_and!; [done | | done | done | done].
      unfold contents. cbn. rewrite Hc. unfold update_outcome. cbn. by rewrite update_missing.
Qed.

Lemma enqueue_refines now a e w o t : object_ok o ->
  refines_call (o, t) (RId (next_id (contents (o, t))), snd (enqueue now a e w (contents (o, t))))
    (reply_with RId (enqueue_ Fine now a e w) (o, t)).
Proof.
  intros Ho. unfold refines_call, other_kept, reply_with, bind, enqueue_, on_conn, ret, contents. cbn [fst snd].
  destruct (ds_conn o) eqn:Hc; cbn; rewrite ?Hc; [by split_and!|].
  split_and!; try done.
  - unfold enqueue. cbn. by rewrite dict_set_fresh, map_app by (by apply enqueue_fresh).
  - pose proof (enqueue_ok o (mkDelivery (ds_next_id o) a e w Pending 0 now None None None now) Ho eq_refl) as H.
    by rewrite Hc in H.
Qed.

Lemma force_retry_refines now id o t : object_ok o ->
  refines_call (o, t) (let '(b, s') := force_retry now id (contents (o, t)) in (RBool b, s'))
    (reply_with RBool (force_retry_ Fine Fine now id) (o, t)).
Proof.
  intros Ho. unfold refines_call, force_retry_, reply_with.
  assert (get_ Fine id (o, t) = (Ret (get id (contents (o, t))), (o, t))) as Hg.
  { unfold get_, on_conn, execute, in_memory. cbn [fst]. destruct (ds_conn o) eqn:Hc;
      [unfold contents; cbn; by rewrite Hc | by rewrite (get_contents o t)]. }
  unfold bind, ret. rewrite Hg.
  unfold force_retry. destruct (get id (contents (o, t))) as [d|]; [|by split_and!; [..|apply other_kept_refl]].
  destruct (_ || _); cbn [negb]; [|by split_and!; [..|apply other_kept_refl]].
  pose proof (update_refines id (mkOutcome Pending (d_attempts d) now (d_last_response_at d)
    (d_last_response_code d) (d_last_error d)) o t Ho) as (U1 & U2 & U3 & U4 & U5).
  unfold reply_with, bind, ret in *. destruct (update_outcome_ _ _ _ (o, t)) as [[[]|?|] s'] eqn:Hu; cbn in *; try done.
Qed.

Lemma run_call_refines c o t : object_ok o ->
  refines_call (o, t) (spec_call c (contents (o, t))) (run_call c (o, t)).
Proof.
  intros Ho. destruct c; cbn [run_call spec_call].
  - by apply enqueue_refines.
  - apply (read_refines RRows (take_due now limit)); [done|].
    intros Hc. unfold contents. cbn. by rewrite Hc.
  - by apply update_refines.
  - apply (read_refines RRows (list_recent limit)); [done|].
    intros Hc. unfold contents. cbn. by rewrite Hc.
  - apply (read_refines RRow (get id)); [done|]. intros Hc. by apply get_contents.
  - by apply force_retry_refines.
Qed.

Lemma other_kept_trans s1 s2 s3 : ds_conn (fst s2) = ds_conn (fst s1) ->
  other_kept s1 s2 -> other_kept s2 s3 -> other_kept s1 s3.
Proof. unfold other_kept. intros ->. destruct (ds_conn (fst s1)); [intros [-> ->] [-> ->]; done | by intros -> ->]. Qed.

Lemma run_calls_refine cs : forall o t, object_ok o ->
  fst (run_calls cs (o, t)) = Ret (fst (spec_calls cs (contents (o, t)))) /\
  contents (snd (run_calls cs (o, t))) = snd (spec_calls cs (contents (o, t))) /\
  object_ok (fst (snd (run_calls cs (o, t)))) /\ other_kept (o, t) (snd (run_calls cs (o, t))).
Proof.
  induction cs as [|c cs IH]; intros o t Ho.
  - cbn. split_and!; try done. unfold other_kept. by destruct (ds_conn _).
  - destruct (run_call_refines c o t Ho) as (H1 & H2 & H3 & H4 & H5). cbn [run_calls spec_calls]. unfold bind, ret.
    destruct (run_call c (o, t)) as [r [o1 t1]]. cbn [fst snd] in *. subst r.
    destruct (spec_call c (contents (o, t))) as [r s1]. cbn [fst snd] in *. subst s1.
    destruct (IH o1 t1 H3) as (I1 & I2 & I3 & I4).
    destruct (run_calls cs (o1, t1)) as [r2 [o2 t2]], (spec_calls cs (contents (o1, t1))) as [rs s2].
    cbn [fst snd] in *. subst r2. split_and!; [done..|].
    by apply (other_kept_trans _ (o1, t1)).
Qed.
End Backends.
Arguments DeliveryStore : clear implicits.
Arguments call : clear implicits.
Arguments reply : clear implicits.

(** ** The properties *)

(** C35: A delivery store keeps its contract on either storage.  Any sequence of calls on
    a well-formed object succeeds and answers what the abstract table answers, whether
    the rows are in the database or in the dict; the storage that is not in use is never
    touched, and the object stays well formed. *)
Theorem store_refines {P : Type} (cs : list (call P)) (o : DeliveryStore P) (t : store P) :
  object_ok o ->
  fst (run_calls cs (o, t)) = Ret (fst (spec_calls cs (contents (o, t)))) /\
  contents (snd (run_calls cs (o, t))) = snd (spec_calls cs (contents (o, t))) /\
  object_ok (fst (snd (run_calls cs (o, t)))) /\ other_kept (o, t) (snd (run_calls cs (o, t))).
Proof. apply run_calls_refine. Qed.

Definition demo_calls : list (call unit) :=
  [Enqueue 5%Q "p-1" "SEND_FAILED" tt; Enqueue 5%Q "p-2" "SEND_SUCCESS" tt;
   UpdateOutcome 1 (mkOutcome GivingUp 5 0 (Some 9%Q) None (Some "timeout")); ForceRetry 12%Q 1; TakeDue 20%Q 50].
Lemma store_refines_witness :
  fst (run_calls demo_calls (new_store false, Delivery.empty)) =
  Ret (fst (spec_calls demo_calls Delivery.empty)).
Proof. apply (store_refines demo_calls (new_store false) Delivery.empty (new_store_ok false)). Defined.

(** Both storages give the same answers from a fresh start: tests that run on the dict
    see what the service sees on its database. *)
Theorem backends_agree {P : Type} (cs : list (call P)) :
  fst (run_calls cs (new_store true, Delivery.empty)) = fst (run_calls cs (new_store false, Delivery.empty)).
Proof.
  destruct (run_calls_refine cs (new_store true) Delivery.empty (new_store_ok true)) as [-> _].
  by destruct (run_calls_refine cs (new_store false) Delivery.empty (new_store_ok false)) as [-> _].
Qed.

(** A closed object does not refuse its callers: it answers them from its dict, which
    holds none of the rows, starts the ids again at 1, and never reaches the table. *)
Theorem closed_store_detached {P : Type} (cs : list (call P)) (t : store P) :
  fst (run_calls cs (snd (close_ (new_store true, t)))) = Ret (fst (spec_calls cs Delivery.empty)) /\
  snd (snd (run_calls cs (snd (close_ (new_store true, t))))) = t.
Proof.
  destruct (run_calls_refine cs (mkDS false [] 1) t (new_store_ok false)) as (H1 & _ & _ & H2). done.
Qed.

Example closed_store_demo :
  let rows_of t := run_calls [Get 1; Enqueue 7%Q "p-2" "SEND_FAILED" tt; TakeDue 9%Q 50]
                     (snd (close_ (new_store true, t))) in
  let '(_, (_, t)) := run_calls [Enqueue 5%Q "p-1" "SEND_FAILED" tt] (new_store true, Delivery.empty) in
  fst (rows_of t) = Ret [RRow None; RId 1;
    RRows [mkDelivery 1 "p-2" "SEND_FAILED" tt Pending 0 7%Q None None None 7%Q]].
Proof. vm_compute. reflexivity. Qed.
