(* ===== verification/AlertService.v ===== *)
(** * The alert service: workers, restarts and what the table says

    [alerts.AlertWorker] with the life of the module's singletons ([init_alerts],
    [shutdown_alerts]).  Both are run by other threads than the one that records events,
    and a worker that was told to stop finishes the row it is at, so the parts interleave:
    a run is a list of events, each the piece of code between two points where another
    thread can act.  [backoff] is the retry schedule. *)
From S2P Require Import Prelude PyStr Effects Exceptions Delivery Backends.
From S2P Require Workers.
Open Scope string_scope.
Open Scope Z_scope.

(** A row carries (chat_id, message). *)
Abbreviation AlertDelivery := (delivery (string * string)).
Abbreviation AlertDeliveryStore := (DeliveryStore (string * string)).
Abbreviation table := (store (string * string)).
Abbreviation answer := Workers.answer.

(** The counters of [metrics] that the worker moves. *)
Inductive counter := alert_attempts_total (result : string) | alert_giveup_total.

Section Worker.
Context (backoff : list time).
Abbreviation AM := (M ((AlertDeliveryStore * table) * list counter) exn).

Definition on_store {A} (m : M (AlertDeliveryStore * table) exn A) : AM A := fun '(s, ms) =>
  let '(r, s') := m s in (r, (s', ms)).
Definition inc (c : counter) : AM unit := modify (fun '(s, ms) => (s, ms ++ [c])%list).

(** [_handle_failure]: at the end of the schedule the row is given up. *)
Definition _handle_failure (f : fate exn) (now : time) (d : AlertDelivery) (attempts : Z) (code : option Z)
    (error : string) : AM unit :=
  if Z.of_nat (List.length backoff) <=? attempts then
    do! on_store (update_outcome_ f (d_id d) (mkOutcome GivingUp attempts 0 (Some now) code (Some error))) in
    inc alert_giveup_total
  else
    let next_in := nth (Z.to_nat attempts) backoff 0%Q in
    on_store (update_outcome_ f (d_id d)
      (mkOutcome Pending attempts (now + next_in)%Q (Some now) code (Some error))).

(** [_deliver_one] from the answer of [telegram_send_message] on.  The write that records
    a success is inside the [try]: its failure counts as a failed attempt. *)
Definition _deliver_one (f1 f2 : fate exn) (now : time) (d : AlertDelivery) (a : answer) : AM unit :=
  let attempts := d_attempts d + 1 in
  let failed code error :=
    do! inc (alert_attempts_total "fail") in _handle_failure f2 now d attempts code error in
  match a with
  | Workers.Http code body =>
      if (200 <=? code) && (code <? 300) then
        catch
          (do! on_store (update_outcome_ f1 (d_id d) (mkOutcome Delivered attempts 0 (Some now) (Some code) None)) in
           inc (alert_attempts_total "success"))
          (fun exc => if is_Exception exc
                      then Some (failed None (exn_class exc +:+ ": " +:+ exn_str exc)) else None)
      else failed (Some code) ("HTTP " +:+ str_of_Z code +:+ ": " +:+ str_take 300 body)
  | Workers.Failed_ error => failed None error
  end.
End Worker.

(** ** The system *)

(** Where a worker is in [run]: waiting, in the loop with rows left, or between the
    answer to a POST and its record. *)
Inductive wpc := Waiting | Looping (todo : list AlertDelivery) | Answered (d : AlertDelivery) (a : answer) (todo : list AlertDelivery).
(** A store object and its worker are made together. *)
Record instance := mkInst { i_store : AlertDeliveryStore; i_stop : bool; i_pc : wpc }.

(** How far the thread in [init_alerts] or [shutdown_alerts] has got. *)
Inductive phase := Up | Stopping | Closed | Down.
#[export] Instance phase_eq_dec : EqDecision phase.
Proof. solve_decision. Defined.

(** [y_current]: the object the global [store] names.  [y_posts] and [y_accepted] are
    ghosts: every POST with its answer, every row the table has accepted. *)
Record sys := mkSys {
  y_phase : phase; y_current : option nat; y_instances : list instance; y_table : table;
  y_metrics : list counter; y_posts : list (AlertDelivery * answer); y_accepted : list AlertDelivery }.
Definition sys0 : sys := mkSys Down None [] Delivery.empty [] [] [].

Definition set_instance (i : nat) (x : instance) (s : sys) : sys :=
  mkSys (y_phase s) (y_current s) (<[i := x]> (y_instances s)) (y_table s) (y_metrics s) (y_posts s) (y_accepted s).
Definition set_table (t : table) (s : sys) : sys :=
  mkSys (y_phase s) (y_current s) (y_instances s) t (y_metrics s) (y_posts s) (y_accepted s).
Definition set_phase (p : phase) (s : sys) : sys :=
  mkSys p (y_current s) (y_instances s) (y_table s) (y_metrics s) (y_posts s) (y_accepted s).
Definition set_current (c : option nat) (s : sys) : sys :=
  mkSys (y_phase s) c (y_instances s) (y_table s) (y_metrics s) (y_posts s) (y_accepted s).

Inductive event :=
| StopWorker | CloseStore | UnsetStore | OpenStore (db_path : bool)
| Notify (f : fate exn) (now : time) (audit_event_id event chat_id message : string)
| Retry (now : time) (id : Z)                 (** [force_retry] by the command line *)
| Take (i : nat) (f : fate exn) (now : time)
| Post (i : nat) (a : answer)
| Leave (i : nat)
| Record_ (i : nat) (f1 f2 : fate exn) (now : time)
| Kill.                                       (** the process dies *)

(** [is_configured()], the credentials being set whenever there is a store. *)
Definition is_configured (s : sys) : bool := match y_current s with Some _ => true | None => false end.

Definition current_instance (s : sys) : option (nat * instance) :=
  match y_current s with
  | Some i => match y_instances s !! i with Some x => Some (i, x) | None => None end
  | None => None
  end.
(** The first half of [init_alerts] and [shutdown_alerts]: [_worker.stop()],
    [store.close()], [store = None]; then the second half of [init_alerts]. *)
Definition lifecycle (e : event) (s : sys) : option sys :=
  match e, y_phase s with
  | StopWorker, Up =>
      match current_instance s with
      | Some (i, x) => Some (set_phase Stopping (set_instance i (mkInst (i_store x) true (i_pc x)) s))
      | None => None
      end
  | CloseStore, Stopping =>
      match current_instance s with
      | Some (i, x) =>
          let '(_, (o, t)) := close_ (i_store x, y_table s) in
          Some (set_phase Closed (set_instance i (mkInst o (i_stop x) (i_pc x)) (set_table t s)))
      | None => None
      end
  | UnsetStore, Closed => Some (set_phase Down (set_current None s))
  | OpenStore db, Down =>
      Some (mkSys Up (Some (List.length (y_instances s)))
              (y_instances s ++ [mkInst (new_store db) false Waiting])%list
              (y_table s) (y_metrics s) (y_posts s) (y_accepted s))
  | _, _ => None
  end.

(** [notify_event], past its rules: the enqueue; an exception is swallowed.  Where the
    process dies in a statement, [Kill] is the next event. *)
Definition notify (f : fate exn) (now : time) (audit ev chat_id message : string) (s : sys) : option sys :=
  match current_instance s with
  | Some (i, x) =>
      let '(r, (o, t)) := enqueue_ f now audit ev (chat_id, message) (i_store x, y_table s) in
      let acc := match r with
                 | Ret id => if ds_conn (i_store x)
                             then [mkDelivery id audit ev (chat_id, message) Pending 0 now None None None now] else []
                 | _ => []
                 end in
      Some (mkSys (y_phase s) (y_current s) (<[i := mkInst o (i_stop x) (i_pc x)]> (y_instances s)) t
              (y_metrics s) (y_posts s) (y_accepted s ++ acc)%list)
  | None => None
  end.

Section System.
Context (backoff : list time).

Definition worker (i : nat) (e : event) (s : sys) : option sys :=
  match y_instances s !! i with
  | None => None
  | Some x =>
      match e, i_pc x with
      | Take _ f now, Waiting =>
          if i_stop x then None else
          let '(r, (o, t)) := take_due_ f now 50 (i_store x, y_table s) in
          Some (set_instance i (mkInst o (i_stop x) (match r with Ret due => Looping due | _ => Waiting end))
                  (set_table t s))
      | Post _ a, Looping (d :: todo) =>
          if i_stop x then None else
          Some (mkSys (y_phase s) (y_current s) (<[i := mkInst (i_store x) (i_stop x) (Answered d a todo)]> (y_instances s))
                  (y_table s) (y_metrics s) (y_posts s ++ [(d, a)])%list (y_accepted s))
      | Leave _, Looping todo =>
          if i_stop x || match todo with [] => true | _ => false end
          then Some (set_instance i (mkInst (i_store x) (i_stop x) Waiting) s) else None
      | Record_ _ f1 f2 now, Answered d a todo =>
          let '(r, ((o, t), ms)) := _deliver_one backoff f1 f2 now d a ((i_store x, y_table s), y_metrics s) in
          Some (mkSys (y_phase s) (y_current s)
                  (<[i := mkInst o (i_stop x) (match r with Ret _ => Looping todo | _ => Waiting end)]> (y_instances s))
                  t ms (y_posts s) (y_accepted s))
      | _, _ => None
      end
  end.

(** One event, where it can happen. *)
Definition step (e : event) (s : sys) : option sys :=
  match e with
  | StopWorker | CloseStore | UnsetStore | OpenStore _ => lifecycle e s
  | Notify f now audit ev chat_id message => notify f now audit ev chat_id message s
  | Retry now id => Some (set_table (snd (force_retry now id (y_table s))) s)
  | Take i _ _ | Post i _ | Leave i | Record_ i _ _ _ => worker i e s
  | Kill => Some (mkSys Down None [] (y_table s) [] (y_posts s) (y_accepted s))
  end.
Fixpoint run (es : list event) (s : sys) : option sys :=
  match es with
  | [] => Some s
  | e :: es => match step e s with Some s' => run es s' | None => None end
  end.
End System.

(** ** What the ghosts say of the table *)

(** What identifies a row: no operation changes it. *)
Definition key (d : AlertDelivery) : Z * string * string * (string * string) :=
  (d_id d, d_audit_event_id d, d_event d, d_what d).
(** How many times a row was posted. *)
Definition sent (k : Z * string * string * (string * string)) (posts : list (AlertDelivery * answer)) : Z :=
  Z.of_nat (List.length (List.filter (fun p => bool_decide (key p.1 = k)) posts)).
Definition accepted_answer (a : answer) : bool :=
  match a with Workers.Http code _ => (200 <=? code) && (code <? 300) | _ => false end.

Section Invariant.
Context (backoff : list time).
Implicit Types posts : list (AlertDelivery * answer).

(** A row says no more than what was posted. *)
Record honest posts (r : AlertDelivery) : Prop := mkHonest {
  h_attempts : 0 <= d_attempts r <= sent (key r) posts;
  h_delivered : d_status r = Delivered ->
    exists d a, In (d, a) posts /\ key d = key r /\ accepted_answer a = true;
  h_giveup : d_status r = GivingUp -> Z.of_nat (List.length backoff) <= d_attempts r;
  h_status : d_status r <> Failed }.

(** What a worker on an open store has in hand was taken from the table. *)
Definition taken posts (t : table) (n : Z) (d : AlertDelivery) : Prop :=
  (exists r, In r (rows t) /\ key r = key d) /\ 0 <= d_attempts d /\ d_attempts d + n <= sent (key d) posts.
Definition pc_ok posts (t : table) (pc : wpc) : Prop :=
  match pc with
  | Waiting => True
  | Looping todo => Forall (taken posts t 0) todo
  | Answered d a todo => In (d, a) posts /\ taken posts t 1 d /\ Forall (taken posts t 0) todo
  end.
Definition instance_ok posts t (x : instance) : Prop :=
  ds_conn (i_store x) = true -> pc_ok posts t (i_pc x).

Record sys_ok (s : sys) : Prop := mkOk {
  ok_wf : store_wf (y_table s);
  ok_rows : forall r, In r (rows (y_table s)) -> honest (y_posts s) r;
  ok_instances : Forall (instance_ok (y_posts s) (y_table s)) (y_instances s);
  ok_accepted : forall d, In d (y_accepted s) -> exists r, In r (rows (y_table s)) /\ key r = key d }.

(** *** Growing ghosts and tables *)

(** The rows of [t] are still there in [t']. *)
Definition extends (t t' : table) : Prop :=
  forall r, In r (rows t) -> exists r', In r' (rows t') /\ key r' = key r.
Lemma extends_refl t : extends t t.
Proof. intros r Hr. by exists r. Qed.
Lemma key_apply u d : key (apply_outcome u d) = key d.
Proof. done. Qed.
Lemma extends_update id u t : extends t (update_outcome id u t).
Proof.
  intros r Hr. exists (if d_id r =? id then apply_outcome u r else r).
  split; [|by destruct (d_id r =? id)]. cbn. apply in_map_iff. by exists r.
Qed.
Lemma extends_enqueue now a e w t : extends t (snd (enqueue now a e w t)).
Proof. intros r Hr. exists r. split; [|done]. cbn. apply in_or_app. by left. Qed.
Lemma sent_app k posts p : sent k posts <= sent k (posts ++ [p])%list.
Proof. unfold sent. rewrite List.filter_app, length_app. lia. Qed.
Lemma sent_last d a posts : sent (key d) (posts ++ [(d, a)])%list = sent (key d) posts + 1.
Proof. unfold sent. rewrite List.filter_app, length_app. cbn. rewrite bool_decide_eq_true_2 by done. cbn. lia. Qed.

Lemma taken_mono posts t t' n d p : extends t t' -> taken posts t n d -> taken (posts ++ p)%list t' n d.
Proof.
  intros He [(r & Hr & Hk) [H0 H1]]. destruct (He r Hr) as (r' & Hr' & Hk'). split; [exists r'; split; congruence|].
  split; [done|]. unfold sent in *. rewrite List.filter_app, length_app. lia.
Qed.
Lemma pc_mono posts p t t' pc : extends t t' -> pc_ok posts t pc -> pc_ok (posts ++ p)%list t' pc.
Proof.
  intros He. destruct pc as [|todo|d a todo]; cbn; [done| |].
  - intros H. eapply Forall_impl; [exact H|]. intros d. by apply taken_mono.
  - intros (H1 & H2 & H3). split_and!; [apply in_or_app; by left | by eapply taken_mono|].
    eapply Forall_impl; [exact H3|]. intros x. by apply taken_mono.
Qed.
Lemma instances_mono posts p t t' l : extends t t' ->
  Forall (instance_ok posts t) l -> Forall (instance_ok (posts ++ p)%list t') l.
Proof. intros He H. eapply Forall_impl; [exact H|]. intros x Hx Hc. eapply pc_mono; [exact He|]. by apply Hx. Qed.
Lemma instances_extend posts t t' l : extends t t' ->
  Forall (instance_ok posts t) l -> Forall (instance_ok posts t') l.
Proof. intros He H. pose proof (instances_mono posts [] t t' l He H) as H'. by rewrite app_nil_r in H'. Qed.
Lemma accepted_mono (acc : list AlertDelivery) t t' : extends t t' ->
  (forall d, In d acc -> exists r, In r (rows t) /\ key r = key d) ->
  forall d, In d acc -> exists r, In r (rows t') /\ key r = key d.
Proof.
  intros He H d Hd. destruct (H d Hd) as (r & Hr & Hk). destruct (He r Hr) as (r' & Hr' & Hk').
  exists r'. split; congruence.
Qed.
Lemma honest_mono posts p r : honest posts r -> honest (posts ++ p)%list r.
Proof.
  intros [H1 H2 H3 H4]. split; try done.
  - unfold sent in *. rewrite List.filter_app, length_app. lia.
  - intros Hs. destruct (H2 Hs) as (d & a & Hin & Hr). exists d, a. split; [|done]. apply in_or_app. by left.
Qed.

(** *** One recorded attempt *)

(** What a record may write for [d] after the answer [a]. *)
Definition record_ok (d : AlertDelivery) (a : answer) (u : outcome_row) : Prop :=
  o_attempts u = d_attempts d + 1 /\ o_status u <> Failed /\
  (o_status u = Delivered -> accepted_answer a = true) /\
  (o_status u = GivingUp -> Z.of_nat (List.length backoff) <= o_attempts u).

(** The table after the record: the same, or with one such update; a closed store
    leaves it alone, and stays closed. *)
Lemma update_table f id u (o : AlertDeliveryStore) t :
  let '(r, (o', t')) := update_outcome_ f id u (o, t) in
  ds_conn o' = ds_conn o /\ (t' = t \/ (ds_conn o = true /\ t' = update_outcome id u t)).
Proof.
  unfold update_outcome_, on_conn, execute, in_memory. cbn [fst]. destruct (ds_conn o) eqn:Hc.
  - destruct f; auto.
  - destruct (dict_get id (ds_memory o)); auto.
Qed.

Lemma failure_table f now d a attempts code error o t ms :
  attempts = d_attempts d + 1 ->
  let '(r, ((o', t'), ms')) := _handle_failure backoff f now d attempts code error ((o, t), ms) in
  ds_conn o' = ds_conn o /\
  (t' = t \/ exists u, ds_conn o = true /\ record_ok d a u /\ t' = update_outcome (d_id d) u t).
Proof.
  intros ->. unfold _handle_failure. destruct (Z.leb_spec (Z.of_nat (List.length backoff)) (d_attempts d + 1)) as [Hl|Hl].
  - unfold bind, on_store, inc, modify.
    pose proof (update_table f (d_id d) (mkOutcome GivingUp (d_attempts d + 1) 0 (Some now) code (Some error)) o t) as H.
    destruct (update_outcome_ _ _ _ (o, t)) as [[[]|e|] [o' t']]; destruct H as [Hc [H|[H1 H2]]]; split; auto;
      right; eexists; (split_and!; [done| |exact H2]); done.
  - unfold on_store.
    pose proof (update_table f (d_id d) (mkOutcome Pending (d_attempts d + 1) (now + nth (Z.to_nat (d_attempts d + 1)) backoff 0)%Q
      (Some now) code (Some error)) o t) as H.
    destruct (update_outcome_ _ _ _ (o, t)) as [r [o' t']]. destruct H as [Hc [H|[H1 H2]]]; split; auto.
    right; eexists; (split_and!; [done| |exact H2]); done.
Qed.

Lemma deliver_table f1 f2 now d a o t ms :
  let '(r, ((o', t'), ms')) := _deliver_one backoff f1 f2 now d a ((o, t), ms) in
  ds_conn o' = ds_conn o /\
  (t' = t \/ exists u, ds_conn o = true /\ record_ok d a u /\ t' = update_outcome (d_id d) u t).
Proof.
  assert (forall code error ms1, let '(r, ((o', t'), ms')) := (do! inc (alert_attempts_total "fail") in
      _handle_failure backoff f2 now d (d_attempts d + 1) code error) ((o, t), ms1) in
    ds_conn o' = ds_conn o /\
    (t' = t \/ exists u, ds_conn o = true /\ record_ok d a u /\ t' = update_outcome (d_id d) u t)) as Hf.
  { intros code error ms1. unfold bind, inc, modify. by apply failure_table. }
  unfold _deliver_one. destruct a as [code body|error]; [|apply Hf].
  destruct ((200 <=? code) && (code <? 300)) eqn:Ha; [|apply Hf].
  pose proof (update_table f1 (d_id d) (mkOutcome Delivered (d_attempts d + 1) 0 (Some now) (Some code) None) o t) as H.
  unfold catch. unfold bind at 1, on_store at 1. revert H. unfold update_outcome_ at 1 2, on_conn, execute, in_memory. cbn [fst].
  destruct (ds_conn o) eqn:Hc; [destruct f1 as [|e|]|]; intros _.
  - split; [done|]. right. eexists. split_and!; [done| |reflexivity]. done.
  - destruct (is_Exception e); [|auto]. specialize (Hf None (exn_class e +:+ ": " +:+ exn_str e) ms). exact Hf.
  - auto.
  - destruct (dict_get (d_id d) (ds_memory o)); cbn; auto.
Qed.

(** *** Each event keeps it *)

Lemma honest_update posts t d a u : store_wf t -> (forall r, In r (rows t) -> honest posts r) ->
  taken posts t 1 d -> In (d, a) posts -> record_ok d a u ->
  forall r, In r (rows (update_outcome (d_id d) u t)) -> honest posts r.
Proof.
  intros Hwf Hr [(r0 & Hr0 & Hk0) [H0 H1]] Hin (Ha & Hf & Hd & Hg) r Hi.
  cbn in Hi. apply in_map_iff in Hi as (r1 & <- & Hr1). destruct (Z.eqb_spec (d_id r1) (d_id d)) as [E|]; [|auto].
  assert (r1 = r0) as ->.
  { apply (Workers.ids_unique t); [done..|]. rewrite E. unfold key in Hk0. congruence. }
  split; cbn; rewrite ?key_apply, ?Hk0, ?Ha; [lia| |by rewrite <- Ha|done].
  intros Hs. exists d, a. split_and!; [done..|by apply Hd].
Qed.

Lemma retry_ok now id (s : sys) : sys_ok s -> sys_ok (set_table (snd (force_retry now id (y_table s))) s).
Proof.
  intros [H1 H2 H3 H4]. unfold force_retry. destruct (get id (y_table s)) as [d|] eqn:Hg; [|by split].
  destruct (_ || _); [|by split]. cbn [snd].
  unfold get in Hg. apply List.find_some in Hg as [Hin Hid]. apply Z.eqb_eq in Hid. subst id.
  split; cbn [set_table y_table y_posts y_instances y_accepted].
  - by apply update_wf.
  - intros r Hr. cbn in Hr. apply in_map_iff in Hr as (r1 & <- & Hr1).
    destruct (Z.eqb_spec (d_id r1) (d_id d)) as [E|]; [|auto].
    assert (r1 = d) as -> by by apply (Workers.ids_unique (y_table s)).
    destruct (H2 d Hin) as [A1 A2 A3 A4]. by split.
  - eapply instances_extend; [apply extends_update|done].
  - eapply accepted_mono; [apply extends_update|done].
Qed.

Lemma set_instance_ok i x s : sys_ok s -> instance_ok (y_posts s) (y_table s) x -> sys_ok (set_instance i x s).
Proof. intros [H1 H2 H3 H4] Hx. split; try done. by apply Forall_insert. Qed.

Lemma instance_at s i x : sys_ok s -> y_instances s !! i = Some x -> instance_ok (y_posts s) (y_table s) x.
Proof. intros H Hx. pose proof (ok_instances s H) as Hf. rewrite Forall_forall in Hf. apply Hf. by eapply list_elem_of_lookup_2. Qed.

Lemma current_at s i x : current_instance s = Some (i, x) -> y_instances s !! i = Some x.
Proof. unfold current_instance. destruct (y_current s) as [j|]; [|done]. destruct (y_instances s !! j) eqn:E; [|done]. by intros [= <- <-]. Qed.

Lemma lifecycle_ok e s s' : sys_ok s -> lifecycle e s = Some s' -> sys_ok s'.
Proof.
  intros Hs. unfold lifecycle. destruct e, (y_phase s); try done.
  - destruct (current_instance s) as [[i x]|] eqn:Hc; [|done]. apply current_at in Hc. intros [= <-].
    pose proof (instance_at s i x Hs Hc) as Hx. destruct (set_instance_ok i (mkInst (i_store x) true (i_pc x)) s Hs Hx). by split.
  - destruct (current_instance s) as [[i x]|] eqn:Hc; [|done]. intros [= <-].
    destruct (set_instance_ok i (mkInst (mkDS false (ds_memory (i_store x)) (ds_next_id (i_store x))) (i_stop x) (i_pc x)) s Hs ltac:(done)).
    by split.
  - intros [= <-]. destruct Hs. by split.
  - intros [= <-]. destruct Hs as [H1 H2 H3 H4]. split; try done. cbn. apply Forall_app. split; [done|]. by repeat constructor.
Qed.

Lemma notify_ok f now audit ev chat msg s s' : sys_ok s -> notify f now audit ev chat msg s = Some s' -> sys_ok s'.
Proof.
  intros Hs. unfold notify. destruct (current_instance s) as [[i x]|] eqn:Hc; [|done]. apply current_at in Hc.
  pose proof (instance_at s i x Hs Hc) as Hx. unfold enqueue_, on_conn, execute, in_memory. cbn [fst].
  destruct (ds_conn (i_store x)) eqn:Hcn; [|].
  - destruct f as [|e|]; cbn; intros [= <-].
    2, 3: pose proof (set_instance_ok i (mkInst (i_store x) (i_stop x) (i_pc x)) s Hs Hx) as H;
      destruct H as [H1 H2 H3 H4]; split; cbn; rewrite ?app_nil_r; done.
    destruct Hs as [H1 H2 H3 H4].
    pose proof (extends_enqueue now audit ev (chat, msg) (y_table s)) as He.
    split; cbn [y_table y_posts y_instances y_accepted].
    + apply (enqueue_wf now audit ev (chat, msg) (y_table s) H1).
    + intros r Hr. cbn in Hr. apply in_app_or in Hr as [Hr|[<-|[]]]; [auto|].
      split; cbn; [unfold sent; lia|done..].
    + apply Forall_insert; [eapply instances_extend; [exact He|done]|].
      intros Hopen. pose proof (pc_mono (y_posts s) [] _ _ _ He (Hx Hopen)) as H. by rewrite app_nil_r in H.
    + intros d Hd. apply in_app_or in Hd as [Hd|[<-|[]]]; [eapply accepted_mono; eauto|].
      eexists. split; [apply in_or_app; right; left; reflexivity|]. done.
  - cbn. intros [= <-]. rewrite app_nil_r.
    by apply (set_instance_ok i (mkInst (mkDS false _ _) (i_stop x) (i_pc x)) s Hs).
Qed.

Lemma due_taken posts t now d : (forall r, In r (rows t) -> honest posts r) ->
  In d (take_due now 50 t) -> taken posts t 0 d.
Proof.
  intros Hr Hd. apply take_due_sound in Hd as (Hin & _). destruct (h_attempts _ _ (Hr d Hin)).
  split; [by exists d|]. lia.
Qed.

Lemma take_ok i f now s s' : sys_ok s -> worker backoff i (Take i f now) s = Some s' -> sys_ok s'.
Proof.
  intros Hs. unfold worker. destruct (y_instances s !! i) as [x|] eqn:Hi; [|done].
  destruct (i_pc x); try done. destruct (i_stop x) eqn:Hstop; [done|].
  unfold take_due_, on_conn, execute, in_memory. cbn [fst].
  assert (forall o pc, ds_conn o = ds_conn (i_store x) ->
    (ds_conn (i_store x) = true -> pc_ok (y_posts s) (y_table s) pc) ->
    sys_ok (set_instance i (mkInst o false pc) (set_table (y_table s) s))) as H.
  { intros o pc Ho Hp. apply set_instance_ok; [by destruct Hs|]. intros Hd. apply Hp. by rewrite <- Ho. }
  destruct (ds_conn (i_store x)) eqn:Hc; [destruct f as [|e|]|]; intros [= <-]; apply H; try done.
  intros _. apply List.Forall_forall. intros d Hd. eapply due_taken; [by apply Hs|exact Hd].
Qed.

Lemma post_ok i a s s' : sys_ok s -> worker backoff i (Post i a) s = Some s' -> sys_ok s'.
Proof.
  intros Hs. unfold worker. destruct (y_instances s !! i) as [x|] eqn:Hi; [|done].
  pose proof (instance_at s i x Hs Hi) as Hx. destruct (i_pc x) as [|todo|] eqn:Hpc; try done.
  destruct todo as [|d todo]; [done|]. destruct (i_stop x); [done|]. intros [= <-]. destruct Hs as [H1 H2 H3 H4].
  split; cbn [y_table y_posts y_instances y_accepted]; try done.
  - intros r Hr. by apply honest_mono, H2.
  - apply Forall_insert; [eapply instances_mono; [apply extends_refl|done]|].
    intros Hc. specialize (Hx Hc). rewrite Hpc in Hx. apply Forall_cons in Hx as [[Hk [Ha0 Ha1]] Ht].
    cbn. split_and!; [apply in_or_app; right; by left| |].
    + split; [done|]. rewrite sent_last. lia.
    + eapply Forall_impl; [exact Ht|]. intros y. apply taken_mono, extends_refl.
Qed.

Lemma record_step i f1 f2 now s s' : sys_ok s -> worker backoff i (Record_ i f1 f2 now) s = Some s' -> sys_ok s'.
Proof.
  intros Hs. unfold worker. destruct (y_instances s !! i) as [x|] eqn:Hi; [|done].
  pose proof (instance_at s i x Hs Hi) as Hx. destruct (i_pc x) as [| |d a todo] eqn:Hpc; try done.
  pose proof (deliver_table f1 f2 now d a (i_store x) (y_table s) (y_metrics s)) as Hd.
  destruct (_deliver_one _ _ _ _ _ _ _) as [r [[o t] ms]]. destruct Hd as [Hc Ht]. intros [= <-].
  destruct Hs as [H1 H2 H3 H4].
  assert (extends (y_table s) t /\ store_wf t /\ forall r, In r (rows t) -> honest (y_posts s) r) as (He & Hw & Hh).
  { destruct Ht as [->|(u & Hopen & Hu & ->)]; [split_and!; [apply extends_refl|done..]|].
    specialize (Hx Hopen). rewrite Hpc in Hx. destruct Hx as (Hin & Htk & _).
    split_and!; [apply extends_update | by apply update_wf | by eapply honest_update]. }
  split; cbn [y_table y_posts y_instances y_accepted]; [done..| |by eapply accepted_mono].
  apply Forall_insert; [by eapply instances_extend|]. intros Hopen. cbn in Hopen. rewrite Hc in Hopen.
  specialize (Hx Hopen). rewrite Hpc in Hx. destruct Hx as (_ & _ & Hx). destruct r; try done.
  pose proof (pc_mono (y_posts s) [] _ _ (Looping todo) He Hx) as H. by rewrite app_nil_r in H.
Qed.

Lemma leave_ok i s s' : sys_ok s -> worker backoff i (Leave i) s = Some s' -> sys_ok s'.
Proof.
  intros Hs. unfold worker. destruct (y_instances s !! i) as [x|] eqn:Hi; [|done].
  destruct (i_pc x); try done. destruct (_ || _); [|done]. intros [= <-]. by apply set_instance_ok.
Qed.

Lemma step_ok e s s' : sys_ok s -> step backoff e s = Some s' -> sys_ok s'.
Proof.
  intros Hs. destruct e; cbn [step]; try by apply lifecycle_ok.
  - by apply notify_ok.
  - intros [= <-]. by apply retry_ok.
  - by apply take_ok.
  - by apply post_ok.
  - by apply leave_ok.
  - by apply record_step.
  - intros [= <-]. destruct Hs. by split.
Qed.

Lemma run_ok es : forall s s', sys_ok s -> run backoff es s = Some s' -> sys_ok s'.
Proof.
  induction es as [|e es IH]; intros s s' Hs; cbn; [by intros [= <-]|].
  destruct (step backoff e s) as [s1|] eqn:He; [|done]. apply IH. by eapply step_ok.
Qed.
Lemma sys0_ok : sys_ok sys0.
Proof. split; [split; constructor|done|constructor|done]. Qed.
End Invariant.

(** ** A tick with nothing in its way *)

(** What a delivered row is given. *)
Definition delivered (now : time) (d : AlertDelivery) : outcome_row :=
  mkOutcome Delivered (d_attempts d + 1) 0 (Some now) (Some 200) None.
(** Every row of the batch is posted, accepted and recorded. *)
Definition quiet_tick (i : nat) (now : time) (n : nat) : list event :=
  Take i Fine now :: List.concat (repeat [Post i (Workers.Http 200 ""); Record_ i Fine Fine now] n).
Definition drained (now : time) (ds : list AlertDelivery) (t : table) : table :=
  foldl (fun t d => update_outcome (d_id d) (delivered now d) t) t ds.

Section Quiet.
Context (backoff : list time).

Lemma quiet_record now d o t ms : ds_conn o = true ->
  _deliver_one backoff Fine Fine now d (Workers.Http 200 "") ((o, t), ms) =
  (Ret tt, ((o, update_outcome (d_id d) (delivered now d) t), ms ++ [alert_attempts_total "success"])%list).
Proof.
  intros Hc. unfold _deliver_one, catch, bind, on_store, update_outcome_, on_conn, execute. cbn. by rewrite Hc.
Qed.

Lemma drain i now todo : forall s o, y_instances s !! i = Some (mkInst o false (Looping todo)) -> ds_conn o = true ->
  exists s', run backoff (List.concat (repeat [Post i (Workers.Http 200 ""); Record_ i Fine Fine now] (List.length todo))) s = Some s' /\
    y_table s' = drained now todo (y_table s) /\
    y_posts s' = (y_posts s ++ map (fun d => (d, Workers.Http 200 "")) todo)%list.
Proof.
  induction todo as [|d todo IH]; intros s o Hi Hc.
  - exists s. split_and!; [done..|]. cbn. by rewrite app_nil_r.
  - pose proof Hi as Hlt. apply lookup_lt_Some in Hlt.
    cbn [List.length repeat List.concat app run step]. unfold worker at 1. rewrite Hi. cbn [i_pc i_stop].
    unfold worker at 1. cbn [y_instances]. rewrite list_lookup_insert_eq by done. cbn [i_pc i_store y_table y_metrics].
    rewrite quiet_record by done.
    match goal with |- context [run backoff _ ?s1] => destruct (IH s1 o) as (s' & Hr & Ht & Hp); [|done|] end.
    { cbn [y_instances]. rewrite list_lookup_insert_eq; [reflexivity|]. by rewrite length_insert. }
    exists s'. split; [exact Hr|]. cbn [y_table y_posts y_instances i_store i_stop y_phase y_current y_metrics y_accepted] in *.
    split; [by rewrite Ht|]. rewrite Hp, <- app_assoc. done.
Qed.

Lemma drained_row now ds : forall t r, In r (rows (drained now ds t)) ->
  (d_status r = Delivered /\ In (d_id r) (map d_id ds)) \/ (In r (rows t) /\ ~ In (d_id r) (map d_id ds)).
Proof.
  induction ds as [|d ds IH]; intros t r Hr; cbn in *; [by right; split; [|intros []]|].
  destruct (IH _ _ Hr) as [[H1 H2]|[H1 H2]]; [left; auto|]. cbn in H1.
  apply in_map_iff in H1 as (r1 & <- & Hr1). destruct (Z.eqb_spec (d_id r1) (d_id d)) as [E|E].
  - left. split; [done|]. left. by cbn.
  - right. split; [done|]. by intros [|].
Qed.
Lemma drained_keeps now ds : forall t, map d_id (rows (drained now ds t)) = map d_id (rows t).
Proof. induction ds as [|d ds IH]; intros t; [done|]. unfold drained in *. cbn [foldl]. rewrite IH. apply update_ids. Qed.
End Quiet.

(** ** The properties *)

(** C32: No alert is lost, and the table does not lie.  However deliveries, failed writes,
    restarts, crashes and the operator's retries interleave, every row the table has
    accepted is still there with its chat and its message; it is marked delivered only
    if that message was posted and answered with 2xx, it counts no more attempts than
    were posted, and it is given up only after a whole schedule of posts. *)
Theorem alert_fate (backoff : list time) (es : list event) (s : sys) :
  run backoff es sys0 = Some s ->
  forall d, In d (y_accepted s) -> exists r, In r (rows (y_table s)) /\ key r = key d /\
    d_status r <> Failed /\ 0 <= d_attempts r <= sent (key d) (y_posts s) /\
    (d_status r = Delivered ->
       exists p a, In (p, a) (y_posts s) /\ key p = key d /\ accepted_answer a = true) /\
    (d_status r = GivingUp -> Z.of_nat (List.length backoff) <= sent (key d) (y_posts s)).
Proof.
  intros Hr d Hd. destruct (run_ok backoff es sys0 s (sys0_ok backoff) Hr) as [_ Hh _ Ha].
  destruct (Ha d Hd) as (r & Hin & Hk). exists r. destruct (Hh r Hin) as [H1 H2 H3 H4]. rewrite Hk in *.
  split_and!; try done; [lia..|]. intros Hg. specialize (H3 Hg). lia.
Qed.

(** A failed attempt, a crash, a restart and a second attempt. *)
Definition demo_run : list event :=
  [OpenStore true; Notify Fine 5%Q "p-1" "SEND_FAILED" "42" "payout failed"; Take 0 Fine 6%Q;
   Post 0 (Workers.Failed_ "timeout"); Record_ 0 Fine Fine 7%Q; Kill; OpenStore true; Take 0 Fine 60%Q;
   Post 0 (Workers.Http 200 ""); Record_ 0 Fine Fine 61%Q].
Lemma alert_fate_witness : exists s, run [0%Q; 30%Q] demo_run sys0 = Some s /\
  exists r, In r (rows (y_table s)) /\ key r = (1, "p-1", "SEND_FAILED", ("42", "payout failed")).
Proof.
  destruct (run [0%Q; 30%Q] demo_run sys0) as [s|] eqn:E; [|vm_compute in E; discriminate E].
  exists s. split; [reflexivity|].
  destruct (alert_fate [0%Q; 30%Q] demo_run s E
    (mkDelivery 1 "p-1" "SEND_FAILED" ("42", "payout failed") Pending 0 5%Q None None None 5%Q)) as (r & H1 & H2 & _).
  { vm_compute in E. injection E as <-. left. reflexivity. }
  exists r. split; [exact H1|exact H2].
Defined.

(** The alerts that are due get out.  When an open worker runs a tick in which the node
    answers 200 and the writes succeed, every due row of a table of at most fifty rows has
    been posted once and is delivered, and the other rows are as they were. *)
Theorem quiet_tick_delivers (backoff : list time) (i : nat) (now : time) (s : sys) (o : AlertDeliveryStore) :
  y_instances s !! i = Some (mkInst o false Waiting) -> ds_conn o = true ->
  (List.length (rows (y_table s)) <= 50)%nat ->
  exists s', run backoff (quiet_tick i now (List.length (take_due now 50 (y_table s)))) s = Some s' /\
    y_posts s' = (y_posts s ++ map (fun d => (d, Workers.Http 200 "")) (take_due now 50 (y_table s)))%list /\
    map d_id (rows (y_table s')) = map d_id (rows (y_table s)) /\
    forall r, In r (rows (y_table s')) ->
      d_status r = Delivered \/ (In r (rows (y_table s)) /\ is_due now r = false).
Proof.
  intros Hi Hc Hl. pose proof Hi as Hlt. apply lookup_lt_Some in Hlt.
  unfold quiet_tick. cbn [run step]. unfold worker at 1. rewrite Hi. cbn [i_pc i_stop i_store].
  unfold take_due_, on_conn, execute. cbn [fst]. rewrite Hc.
  edestruct (drain backoff i now (take_due now 50 (y_table s))
    (set_instance i (mkInst o false (Looping (take_due now 50 (y_table s)))) (set_table (y_table s) s)) o)
    as (s' & Hr & Ht & Hp); [by apply list_lookup_insert_eq | done|].
  exists s'. split_and!; [exact Hr | exact Hp | rewrite Ht; apply drained_keeps|].
  rewrite Ht. intros r Hin. apply drained_row in Hin as [[H _]|[H1 H2]]; [by left|]. right. split; [done|].
  destruct (is_due now r) eqn:Hd; [|done]. destruct H2. apply in_map. by apply take_due_complete.
Qed.
Definition demo_up : sys :=
  default sys0 (run [0%Q] [OpenStore true; Notify Fine 5%Q "p-1" "SEND_FAILED" "42" "payout failed"] sys0).
Lemma quiet_tick_delivers_witness : exists s',
  run [0%Q] (quiet_tick 0 9%Q 1) demo_up = Some s' /\
  forall r, In r (rows (y_table s')) ->
    d_status r = Delivered \/ (In r (rows (y_table demo_up)) /\ is_due 9%Q r = false).
Proof.
  destruct (quiet_tick_delivers [0%Q] 0 9%Q demo_up (new_store true)) as (s' & H1 & _ & _ & H2);
    [vm_compute; reflexivity | reflexivity | vm_compute; lia|].
  exists s'. split; [exact H1|exact H2].
Defined.

(** A worker that is between the answer and its record when its store is closed writes
    nothing: the row stays pending and the next worker posts it again. *)
Theorem late_outcome_lost (backoff : list time) (i : nat) (f1 f2 : fate exn) (now : time) (x : instance) (s s' : sys) :
  y_instances s !! i = Some x -> ds_conn (i_store x) = false ->
  step backoff (Record_ i f1 f2 now) s = Some s' -> y_table s' = y_table s.
Proof.
  intros Hi Hc. cbn [step]. unfold worker. rewrite Hi. destruct (i_pc x) as [| |d a todo]; try done.
  pose proof (deliver_table backoff f1 f2 now d a (i_store x) (y_table s) (y_metrics s)) as Hd.
  destruct (_deliver_one _ _ _ _ _ _ _) as [r [[o t] ms]]. intros [= <-]. cbn.
  destruct Hd as [_ [->|(u & Ho & _)]]; [done|]. by rewrite Hc in Ho.
Qed.

(** The message is delivered twice: the first answer comes while the service restarts. *)
Definition resend_run : list event :=
  [OpenStore true; Notify Fine 5%Q "p-1" "SEND_FAILED" "42" "payout failed"; Take 0 Fine 6%Q;
   Post 0 (Workers.Http 200 ""); StopWorker; CloseStore; Record_ 0 Fine Fine 7%Q; UnsetStore; OpenStore true;
   Take 1 Fine 8%Q; Post 1 (Workers.Http 200 ""); Record_ 1 Fine Fine 9%Q].
Example alert_sent_twice : exists s, run [0%Q; 30%Q] resend_run sys0 = Some s /\
  map (fun p => (d_what p.1, p.2)) (y_posts s) =
    [(("42", "payout failed"), Workers.Http 200 ""); (("42", "payout failed"), Workers.Http 200 "")] /\
  map d_attempts (rows (y_table s)) = [1].
Proof. eexists. split; [vm_compute; reflexivity|]. split; reflexivity. Qed.

(** Between [store.close()] and [store = None] the service still takes alerts, and keeps
    them in the closed object's dict, which nobody reads. *)
Theorem notify_after_close_lost (f : fate exn) (now : time) (audit ev chat msg : string) (i : nat) (x : instance) (s s' : sys) :
  current_instance s = Some (i, x) -> ds_conn (i_store x) = false ->
  notify f now audit ev chat msg s = Some s' -> is_configured s = true /\ y_table s' = y_table s /\ y_accepted s' = y_accepted s.
Proof.
  intros Hi Hc. unfold notify. rewrite Hi. unfold enqueue_, on_conn, in_memory. cbn [fst]. rewrite Hc. cbn.
  intros [= <-]. cbn. rewrite app_nil_r. split_and!; try done.
  unfold current_instance in Hi. unfold is_configured. by destruct (y_current s).
Qed.
Example notify_race : exists s, run [0%Q] [OpenStore true; StopWorker; CloseStore;
    Notify Fine 5%Q "p-1" "SEND_FAILED" "42" "payout failed"; UnsetStore; OpenStore true; Take 1 Fine 6%Q] sys0 = Some s /\
  rows (y_table s) = [] /\ map i_pc (y_instances s) = [Waiting; Looping []].
Proof. eexists. split; [vm_compute; reflexivity|]. split; reflexivity. Qed.

(** A success whose record fails is a failed attempt: it is posted again. *)
Example unrecorded_success : exists s, run [0%Q; 30%Q] [OpenStore true;
    Notify Fine 5%Q "p-1" "SEND_FAILED" "42" "payout failed"; Take 0 Fine 6%Q; Post 0 (Workers.Http 200 "");
    Record_ 0 (Fails (EOther "OperationalError" "database is locked")) Fine 7%Q] sys0 = Some s /\
  map (fun d => (d_status d, d_attempts d, d_last_error d)) (rows (y_table s)) =
    [(Pending, 1, Some "OperationalError: database is locked")] /\
  y_metrics s = [alert_attempts_total "fail"].
Proof. eexists. split; [vm_compute; reflexivity|]. split; reflexivity. Qed.
