(* ===== verification/PollerLife.v ===== *)
(** * The receipt poller over its life

    [Poller] is one turn of the thread; this file is about many: every committed
    transaction of the window is reached however many there are, when giving up is
    possible at all, and what a thread does that outlives its database connection
    ([ReceiptPoller.start], [stop], the dict of [db_path=None]). *)
From S2P Require Import Prelude PyStr Decimal Effects RiskTypes Exceptions Config AuditEntry World AuditLog Poller.
Open Scope string_scope.

(** ** The clock's readings only go on *)
Section Later.
Context {S : Type} (E : Env) (c : Config).
Abbreviation MW := (M (World S) exn).

Definition later (w w' : World S) : Prop := (w_tick w <= w_tick w')%nat.
#[export] Instance later_preorder : PreOrder later.
Proof. split; [intros w; unfold later; lia | intros x y z; unfold later; lia]. Qed.
#[export] Instance later_ext {A} (f : nat -> outcome exn A) : Frame later (ext f).
Proof. intros w. unfold later. cbn. lia. Qed.
#[export] Instance later_now : Frame later (now E).
Proof. intros w. unfold later. cbn. lia. Qed.
#[export] Instance later_disk : Frame later (disk E (S:=S)).
Proof. intros w. unfold later. cbn. lia. Qed.
#[export] Instance later_hooks_db : Frame later (hooks_db E (S:=S)).
Proof. intros w. unfold later. cbn. lia. Qed.
#[export] Instance later_upd_audit f : Frame later (upd_audit (S:=S) f).
Proof. intros w. unfold later. cbn. lia. Qed.
#[export] Instance later_try {A} (m : MW A) h : Frame later m -> (forall e, Frame later (h e)) ->
  Frame later (try_except m h).
Proof.
  intros Hm Hh. apply frame_catch; [apply _|done|]. intros e r. destruct (is_Exception e); [|done]. by intros [= <-].
Qed.
#[export] Instance later_swallow (m : MW unit) : Frame later m -> Frame later (swallow m).
Proof. intros. unfold swallow. apply _. Qed.
#[export] Instance later_record d : Frame later (record E c (S:=S) d).
Proof.
  unfold record, next_record_id, write_durable, get_audit_file, enqueue_event_for_delivery, notify_event.
  repeat first [progress intros | solve [apply _] | apply frame_bind | apply later_try | apply later_swallow
    | apply frame_when | apply frame_for_each | solve [apply frame_modify; intros ?; unfold later; cbn; lia]
    | case_match | progress cbv zeta].
Qed.
End Later.

(** ** Who is waiting *)

(** The rows of the query before ORDER BY and LIMIT. *)
Definition unresolved (cutoff : time) (rows : list committed) (t : table) : list candidate :=
  map fst (List.filter snd (map (fun i =>
      let s := t !! cm_txid i in
      (mkCand (cm_txid i) (cm_key i) (x_first_seen <$> s) (s ≫= x_last_checked),
       Qle_bool cutoff (cm_created_at i) &&
       match s ≫= x_resolved_at with None => true | Some _ => false end)) rows)).
Definition checked_at (cd : candidate) : time := default 0%Q (cd_last_checked cd).
Definition older (a b : candidate) : bool := Qle_bool (checked_at a) (checked_at b).
(** Those not looked at since [t0]. *)
Definition overdue (t0 cutoff : time) (rows : list committed) (t : table) : list candidate :=
  List.filter (fun cd => Qltb (checked_at cd) t0) (unresolved cutoff rows t).

Lemma next_candidates_alt cutoff batch rows t :
  next_candidates cutoff batch rows t = firstn batch (sort_by older (unresolved cutoff rows t)).
Proof. done. Qed.
Lemma older_total x y : older x y = false -> older y x = true.
Proof. unfold older. intros H. apply Qle_bool_nle in H. apply Qle_bool_iff. lra. Qed.
Lemma older_trans x y z : older x y = true -> older y z = true -> older x z = true.
Proof. unfold older. rewrite !Qle_bool_iff. lra. Qed.

Lemma in_unresolved cutoff rows t cd : In cd (unresolved cutoff rows t) <->
  exists i, In i rows /\ (cutoff <= cm_created_at i)%Q /\ (t !! cm_txid i ≫= x_resolved_at) = None /\
    cd = mkCand (cm_txid i) (cm_key i) (x_first_seen <$> t !! cm_txid i) (t !! cm_txid i ≫= x_last_checked).
Proof.
  unfold unresolved. rewrite in_map_iff. split.
  - intros ([cd' b] & <- & [Hin Hb]%List.filter_In). apply in_map_iff in Hin as (i & [= <- <-] & Hi).
    cbn [snd] in Hb. apply andb_true_iff in Hb as [Hb1 Hb2]. exists i. split_and!; [done | by apply Qle_bool_iff | |done].
    by destruct (t !! cm_txid i ≫= x_resolved_at).
  - intros (i & Hi & Hc & Hr & ->). eexists (_, true). split; [reflexivity|]. apply List.filter_In. split; [|done].
    apply in_map_iff. exists i. split; [|done]. cbv zeta. rewrite Hr. f_equal.
    apply andb_true_iff. split; [by apply Qle_bool_iff|done].
Qed.
Lemma unresolved_ids cutoff rows t : List.NoDup (map cm_txid rows) ->
  List.NoDup (map cd_txid (unresolved cutoff rows t)).
Proof.
  unfold unresolved. induction rows as [|i rows IH]; intros Hn; [constructor|].
  apply NoDup_cons_iff in Hn as [Hx Hn]. cbn [map List.filter]. destruct (_ && _); [|by apply IH].
  cbn [map fst]. constructor; [|by apply IH]. intros (cd & Hid & Hcd)%in_map_iff. destruct Hx.
  apply in_unresolved in Hcd as (j & Hj & _ & _ & ->). cbn in Hid. rewrite <- Hid. by apply in_map.
Qed.
Lemma filter_ids (f : candidate -> bool) l : List.NoDup (map cd_txid l) -> List.NoDup (map cd_txid (List.filter f l)).
Proof.
  induction l as [|x l IH]; intros H; [constructor|]. apply NoDup_cons_iff in H as [Hx Hn]. cbn.
  destruct (f x); [|by apply IH]. cbn. constructor; [|by apply IH]. intros (y & Hy & Hin)%in_map_iff.
  apply List.filter_In in Hin as [Hin _]. destruct Hx. rewrite <- Hy. by apply in_map.
Qed.

Lemma filter_length_perm {A} (f : A -> bool) l l' : Permutation l' l ->
  List.length (List.filter f l) = List.length (List.filter f l').
Proof. induction 1; cbn; try done; repeat (case_match; cbn); lia. Qed.

(** In a list sorted by age the overdue are in front: a batch takes that many of them. *)
Lemma batch_takes_overdue t0 batch l : StronglySorted (fun a b => older a b = true) l ->
  (List.length (List.filter (fun cd => Qltb (checked_at cd) t0) (skipn batch l)) <=
   List.length (List.filter (fun cd => Qltb (checked_at cd) t0) l) - batch)%nat.
Proof.
  intros Hs. destruct (List.filter _ (skipn batch l)) as [|x xs] eqn:E; [cbn; lia|].
  assert (In x (skipn batch l) /\ Qltb (checked_at x) t0 = true) as [Hx Hlt].
  { apply (List.filter_In (fun cd => Qltb (checked_at cd) t0)). rewrite E. by left. }
  rewrite <- E. rewrite <- (firstn_skipn batch l) at 2. rewrite List.filter_app, length_app.
  assert (List.filter (fun cd => Qltb (checked_at cd) t0) (firstn batch l) = firstn batch l) as ->.
  { apply List.forallb_filter_id, List.forallb_forall. intros y Hy.
    assert (older y x = true) as Ho.
    { clear -Hs Hx Hy. revert batch Hx Hy. induction Hs as [|z l Hs IH Hz]; intros [|b] Hx Hy; cbn in *; try done.
      destruct Hy as [<-|Hy]; [|by eapply IH]. rewrite List.Forall_forall in Hz. apply Hz.
      rewrite <- (firstn_skipn b l). apply in_or_app. by right. }
    unfold older in Ho. apply Qle_bool_iff in Ho. apply Qltb_lt in Hlt. apply Qltb_lt. lra. }
  rewrite length_firstn. assert (batch <= List.length l)%nat; [|lia].
  destruct (Nat.le_gt_cases batch (List.length l)) as [|H]; [done|].
  rewrite skipn_all2 in Hx by lia. done.
Qed.

(** ** Many turns *)
Section Turns.
Context {S : Type} (E : Env) (c : Config).
Context (rpc : nat -> string -> outcome exn (option receipt)).
Context (lookback g : Q) (batch : nat) (txt : Q -> string).
Abbreviation PM := (M (World S * table) exn).
Abbreviation st := (World S * table)%type.

(** [_run], [n] times round; what happens while it waits is the clock's. *)
Fixpoint run_ (n : nat) (rows : list committed) : PM unit :=
  match n with
  | O => ret tt
  | Datatypes.S n => do! run_once E c rpc lookback g batch txt rows in run_ n rows
  end.
Definition cutoff_of (w : World S) : time := (env_now E (w_tick w) - lookback * 3600)%Q.

(** The rows of [ids] were looked at from clock reading [n] on; the others are as before. *)
Definition looked (n : nat) (ids : list string) (t t' : table) : Prop :=
  (forall x, ~ In x ids -> t' !! x = t !! x) /\
  forall x, In x ids -> exists row m, t' !! x = Some row /\ x_last_checked row = Some (env_now E m) /\ (n <= m)%nat.

Lemma poll_one_looks cand (w w' : World S) t t' :
  poll_one E c rpc g txt cand (w, t) = (Ret tt, (w', t')) -> looked (w_tick w) [cd_txid cand] t t' /\ later w w'.
Proof.
  unfold poll_one, bind at 1 2, on_world at 1 2. unfold now, ext at 1. cbn [w_tick set_tick].
  set (m := try_except _ _). assert (Frame later m) as Hm by (unfold m; apply later_try; [|intros]; apply _).
  specialize (Hm (set_tick (Datatypes.S (w_tick w)) w)).
  destruct (m _) as [[info|e|] w1]; [|by intros [= ?]..].
  cbn [snd] in Hm. unfold later in Hm. cbn [w_tick set_tick] in Hm.
  set (r := poll_record g txt (env_now E (w_tick w)) cand info). intros H.
  pose proof (poll_record_fields g txt (env_now E (w_tick w)) cand info) as (Hid & _ & Hlast & _). fold r in Hid, Hlast.
  assert (t' = upsert r t /\ (w_tick w1 <= w_tick w')%nat) as [-> Hw].
  { unfold bind, modify in H. destruct (x_status r); [|injection H as <- <-; split; [done|lia]].
    unfold emit_receipt_audit, on_world in H.
    pose proof (later_swallow (record E c (receipt_draft r s)) _ w1) as Hl.
    destruct (swallow _ w1) as [o2 w2]. injection H as _ <- <-. by split. }
  split; [|unfold later; lia]. unfold upsert. rewrite Hid. split.
  - intros x Hx. apply lookup_insert_ne. intros <-. apply Hx. by left.
  - intros x [<-|[]]. rewrite lookup_insert_eq. eexists _, (w_tick w). split; [reflexivity|].
    split; [|lia]. by destruct (t !! cd_txid cand).
Qed.

Lemma for_each_looks l : forall (w w' : World S) t t',
  for_each l (poll_one E c rpc g txt) (w, t) = (Ret tt, (w', t')) -> looked (w_tick w) (map cd_txid l) t t' /\ later w w'.
Proof.
  induction l as [|cd l IH]; intros w w' t t'; cbn [for_each map].
  - intros [= <- <-]. split; [split; [done|intros x []]|unfold later; lia].
  - unfold bind. destruct (poll_one E c rpc g txt cd (w, t)) as [[[]|e|] [w1 t1]] eqn:H1; [|done..].
    intros H2. destruct (poll_one_looks _ _ _ _ _ H1) as [[A1 A2] A3], (IH _ _ _ _ H2) as [[B1 B2] B3].
    unfold later in *. split; [|lia]. split.
    + intros x Hx. rewrite B1 by (intros Hi; apply Hx; by right). apply A1. intros [<-|[]]. apply Hx. by left.
    + intros x Hx. destruct (in_dec String.string_dec x (map cd_txid l)) as [Hi|Hi].
      * destruct (B2 x Hi) as (row & m & R1 & R2 & R3). exists row, m. split_and!; [done..|lia].
      * rewrite B1 by done. apply A2. destruct Hx as [<-|]; [by left|done].
Qed.

Lemma poll_one_quiet cand (s : st) e : fst (poll_one E c rpc g txt cand s) = Raise e -> is_Exception e = false.
Proof.
  destruct s as [w t]. unfold poll_one, bind, on_world, now, ext, modify. cbn.
  set (m := try_except _ _). set (w1 := set_tick _ _).
  assert (Quiet m) as Hm by (unfold m; apply quiet_try_except; intros; apply _). specialize (Hm w1).
  destruct (m w1) as [[info|e'|] w2]; cbn in *; [| by intros [= <-]; apply Hm | done].
  destruct (x_status _); [|done]. unfold emit_receipt_audit, on_world.
  pose proof (quiet_swallow (record E c (receipt_draft (poll_record g txt (env_now E (w_tick w)) cand info) s)) w2) as Hq.
  destruct (swallow _ w2). apply Hq.
Qed.
Lemma for_each_quiet l : forall (s : st) e,
  fst (for_each l (poll_one E c rpc g txt) s) = Raise e -> is_Exception e = false.
Proof.
  induction l as [|cd l IH]; intros s e; cbn; [done|]. unfold bind. pose proof (poll_one_quiet cd s) as Hq.
  destruct (poll_one _ _ _ _ _ cd s) as [[[]|e'|] s']; [apply IH | intros [= <-]; by apply Hq | done].
Qed.

(** A turn that comes to its end has looked at its whole batch. *)
Lemma run_once_looks rows (w w' : World S) t t' :
  run_once E c rpc lookback g batch txt rows (w, t) = (Ret tt, (w', t')) ->
  looked (w_tick w) (map cd_txid (next_candidates (cutoff_of w) batch rows t)) t t' /\ later w w'.
Proof.
  unfold run_once, catch, tick, bind, on_world, now, ext, gets. cbn [snd]. fold (cutoff_of w).
  set (w1 := set_tick _ w). pose proof (for_each_quiet (next_candidates (cutoff_of w) batch rows t) (w1, t)) as Hq.
  destruct (for_each _ _ (w1, t)) as [[[]|e|] [w2 t2]] eqn:H; [| |done].
  - intros [= <- <-]. apply for_each_looks in H as [[H1 H2] H3]. cbn in *. unfold later in *. cbn in *.
    split; [|lia]. split; [done|]. intros x Hx. destruct (H2 x Hx) as (row & m & R1 & R2 & R3).
    exists row, m. split_and!; [done..|lia].
  - rewrite (Hq e eq_refl). done.
Qed.

(** The clock does not go back. *)
Context (clock : forall n m, (n <= m)%nat -> (env_now E n <= env_now E m)%Q).

(** One turn looks at a batch of the overdue, if there are that many. *)
Lemma turn_overdue rows t0 (w w' : World S) t t' : List.NoDup (map cm_txid rows) ->
  (t0 <= env_now E (w_tick w))%Q ->
  run_once E c rpc lookback g batch txt rows (w, t) = (Ret tt, (w', t')) ->
  (List.length (overdue t0 (cutoff_of w') rows t') <= List.length (overdue t0 (cutoff_of w) rows t) - batch)%nat.
Proof.
  intros Hn H0 Hr. apply run_once_looks in Hr as [[Hkeep Hlook] Hl]. unfold later in Hl.
  rewrite next_candidates_alt in *. set (L := sort_by older (unresolved (cutoff_of w) rows t)) in *.
  assert (Permutation L (unresolved (cutoff_of w) rows t)) as HP by apply sort_by_perm.
  assert (List.length (overdue t0 (cutoff_of w) rows t) =
          List.length (List.filter (fun cd => Qltb (checked_at cd) t0) L)) as ->.
  { unfold overdue. by apply filter_length_perm. }
  etrans; [|apply batch_takes_overdue, sort_by_sorted; [apply older_total | apply older_trans]].
  rewrite <- !(length_map cd_txid). apply NoDup_incl_length; [by apply filter_ids, unresolved_ids|].
  intros x (cd & <- & Hcd)%in_map_iff. apply List.filter_In in Hcd as [Hcd Hlt].
  apply in_unresolved in Hcd as (i & Hi & Hcut & Hres & ->). cbn [cd_txid] in *.
  assert (~ In (cm_txid i) (map cd_txid (firstn batch L))) as Hout.
  { intros Hin. destruct (Hlook _ Hin) as (row & m & R1 & R2 & R3). unfold checked_at in Hlt. cbn in Hlt.
    rewrite R1 in Hlt. cbn in Hlt. rewrite R2 in Hlt. cbn in Hlt. apply Qltb_lt in Hlt. pose proof (clock _ _ R3). lra. }
  rewrite Hkeep in * by done.
  set (cd := mkCand (cm_txid i) (cm_key i) (x_first_seen <$> t !! cm_txid i) (t !! cm_txid i ≫= x_last_checked)) in *.
  apply in_map_iff. exists cd. split; [done|]. apply List.filter_In. split; [|done].
  assert (In cd L) as HL.
  { apply sort_by_elem, in_unresolved. exists i. split_and!; [done| |done..].
    pose proof (clock _ _ Hl). unfold cutoff_of in *. lra. }
  rewrite <- (firstn_skipn batch L) in HL. apply in_app_or in HL as [HL|HL]; [|done].
  destruct Hout. apply (in_map cd_txid) in HL. exact HL.
Qed.

Lemma turns_overdue rows t0 n : forall (w w' : World S) t t', List.NoDup (map cm_txid rows) ->
  (t0 <= env_now E (w_tick w))%Q -> run_ n rows (w, t) = (Ret tt, (w', t')) ->
  (List.length (overdue t0 (cutoff_of w') rows t') <= List.length (overdue t0 (cutoff_of w) rows t) - n * batch)%nat.
Proof.
  induction n as [|n IH]; intros w w' t t' Hn H0; cbn [run_].
  - intros [= <- <-]. lia.
  - unfold bind. destruct (run_once E c rpc lookback g batch txt rows (w, t)) as [[[]|e|] [w1 t1]] eqn:H1; [|done..].
    intros H2. pose proof (turn_overdue rows t0 w w1 t t1 Hn H0 H1) as A.
    apply run_once_looks in H1 as [_ Hl]. pose proof (clock _ _ Hl).
    specialize (IH w1 w' t1 t' Hn ltac:(lra) H2). lia.
Qed.
End Turns.

(** ** The poller object *)

(** [_conn] is set or not, the dict [_memory] of [db_path=None], [_stop_event], and
    whether there is a [_thread]. *)
Record ReceiptPoller := mkPoller {
  po_conn : bool; po_memory : list (string * TxStatus); po_stop : bool; po_thread : bool }.
Definition new_poller (db_path : bool) : ReceiptPoller := mkPoller db_path [] false false.

(** [start], for a thread that is alive or absent. *)
Definition start (p : ReceiptPoller) : ReceiptPoller :=
  if po_thread p then p else mkPoller (po_conn p) (po_memory p) false true.
(** [stop]: the connection goes whether or not the thread was joined in time. *)
Definition stop (p : ReceiptPoller) : ReceiptPoller :=
  if po_thread p then mkPoller false (po_memory p) true false else p.

Definition memory_set (r : TxStatus) (m : list (string * TxStatus)) : list (string * TxStatus) :=
  if existsb (fun kr => String.eqb kr.1 (x_txid r)) m
  then map (fun kr => if String.eqb kr.1 (x_txid r) then (kr.1, r) else kr) m else (m ++ [(x_txid r, r)])%list.
(** [_next_candidates_memory]: no window, the oldest first.  The rows a poll writes have a key. *)
Definition next_candidates_memory (batch : nat) (p : ReceiptPoller) : list candidate :=
  firstn batch (sort_by older
    (map (fun kr => mkCand (x_txid kr.2) (default "" (x_key kr.2)) (Some (x_first_seen kr.2)) (x_last_checked kr.2))
       (List.filter (fun kr => match x_resolved_at kr.2 with None => true | Some _ => false end) (po_memory p)))).

Section Object.
Context {S : Type} (E : Env) (c : Config).
Context (rpc : nat -> string -> outcome exn (option receipt)).
Context (lookback g : Q) (batch : nat) (txt : Q -> string).
Abbreviation OM := (M (World S * (table * ReceiptPoller)) exn).

Definition on_world_ {A} (m : M (World S) exn A) : OM A :=
  fun '(w, t) => let '(o, w') := m w in (o, (w', t)).
(** [_upsert] on the table or on the dict. *)
Definition upsert_ (r : TxStatus) : OM unit :=
  modify (fun '(w, (t, p)) =>
    if po_conn p then (w, (upsert r t, p))
    else (w, (t, mkPoller (po_conn p) (memory_set r (po_memory p)) (po_stop p) (po_thread p)))).
(** [_poll_one]; the write looks at [_conn] after the node has answered. *)
Definition poll_one_ (cand : candidate) : OM unit :=
  let! now := on_world_ (now E) in
  let! info := on_world_ (try_except
    (let! i := ext (fun n => rpc n (cd_txid cand)) in ret (inr i)) (fun e => ret (inl e))) in
  let r := poll_record g txt now cand info in
  do! upsert_ r in
  match x_status r with
  | Some status => on_world_ (swallow (record E c (receipt_draft r status)))
  | None => ret tt
  end.
(** [_tick], stopped between two candidates by the event. *)
Fixpoint poll_all_ (cands : list candidate) : OM unit :=
  match cands with
  | [] => ret tt
  | cd :: cands =>
      let! s := gets snd in
      if po_stop (snd s) then ret tt else do! poll_one_ cd in poll_all_ cands
  end.
Definition tick_ (rows : list committed) : OM unit :=
  let! now := on_world_ (now E) in
  let! s := gets snd in
  poll_all_ (if po_conn (snd s) then next_candidates (now - lookback * 3600)%Q batch rows (fst s)
             else next_candidates_memory batch (snd s)).
End Object.

(** [get_status] *)
Definition get_status_ (txid : string) (t : table) (p : ReceiptPoller) : option TxStatus :=
  if po_conn p then get_status txid t
  else snd <$> List.find (fun kr => String.eqb kr.1 txid) (po_memory p).
(** [lag_seconds]: nothing to say without a database. *)
Definition lag_seconds_ (now : time) (rows : list committed) (t : table) (p : ReceiptPoller) : Q :=
  if po_conn p then lag_seconds now rows t else 0.

(** [init_poller], [shutdown_poller]: the singleton. *)
Definition shutdown_poller (p : option ReceiptPoller) : option ReceiptPoller * option ReceiptPoller :=
  match p with None => (None, None) | Some p => (Some (stop p), None) end.
Definition init_poller (db_path : bool) (p : option ReceiptPoller) : option ReceiptPoller * ReceiptPoller :=
  (stop <$> p, start (new_poller db_path)).

(** ** The properties *)


Definition demo_rows : list committed :=
  [mkCommitted "k1" "tx1" 1; mkCommitted "k2" "tx2" 2; mkCommitted "k3" "tx3" 3].
Definition down_rpc (_ : nat) (_ : string) : outcome exn (option receipt) := Raise (EOther "ConnectionError" "refused").
Example poller_reaches_all_runs :
  match run_ sample_env default_config down_rpc 48 24 2 (fun _ => "") 2 demo_rows (set_tick 10 sample_world, ∅) with
  | (Ret _, (_, t')) => map (fun x => (t' !! x) ≫= x_last_checked) ["tx1"; "tx2"; "tx3"]
  | _ => []
  end = [Some 18%Q; Some 13%Q; Some 16%Q].
Proof. vm_compute. reflexivity. Qed.

(** What is first seen was committed before. *)
Definition seen_after_commit (rows : list committed) (t : table) : Prop :=
  forall i row, In i rows -> t !! cm_txid i = Some row -> (cm_created_at i <= x_first_seen row)%Q.
Lemma seen_upsert rows t g txt now cand info : seen_after_commit rows t ->
  (forall i, In i rows -> (cm_created_at i <= now)%Q) -> cd_first_seen cand = x_first_seen <$> t !! cd_txid cand ->
  seen_after_commit rows (upsert (poll_record g txt now cand info) t).
Proof.
  intros Hs Hnow Hf i row Hi. pose proof (poll_record_fields g txt now cand info) as (Hid & _ & _ & Hfirst & _).
  unfold upsert. rewrite Hid. destruct (decide (cd_txid cand = cm_txid i)) as [Heq|Hne].
  - rewrite Heq in *. rewrite lookup_insert_eq. intros [= <-]. destruct (t !! cm_txid i) as [o|] eqn:Ho; cbn; [by apply Hs|].
    rewrite Hfirst, Hf. cbn. by apply Hnow.
  - rewrite lookup_insert_ne by done. by apply Hs.
Qed.

(** When a transaction is given up.  A receipt that is not found is resolved, as GIVEUP,
    exactly when its age since the first look has reached the threshold; and a candidate of
    a tick is at most a look-back window old, so with a threshold longer than the window
    and the time a tick takes nothing is ever given up: such a row leaves the query without
    a verdict, while [lag_seconds] counts it for ever. *)
Theorem giveup_within_window (giveup lookback : Q) (txt : Q -> string) (tick now : time) (batch : nat)
    (rows : list committed) (t : table) (cd : candidate) (info : exn + option receipt) :
  seen_after_commit rows t -> List.NoDup (map cm_txid rows) ->
  In cd (next_candidates (tick - lookback * 3600) batch rows t) -> fst (fst (classify_receipt info)) = "NOT_FOUND" ->
  let r := poll_record giveup txt now cd info in
  (x_resolved_at r <> None <-> (giveup <= (now - default now (cd_first_seen cd)) / 3600)%Q) /\
  (x_resolved_at r <> None -> x_status r = Some "GIVEUP") /\
  ((0 < giveup)%Q -> (now - tick < (giveup - lookback) * 3600)%Q -> x_resolved_at r = None) /\
  (forall i, In i rows -> (cm_created_at i < tick - lookback * 3600)%Q -> cm_txid i <> cd_txid cd).
Proof.
  intros Hs Hn Hcd Hnf r. apply candidate_unresolved in Hcd as ((i & Hi & Hid & Hkey & Hcut) & Hres & Hfirst).
  assert (Hr : x_resolved_at r = (if Qle_bool giveup ((now - default now (cd_first_seen cd)) / 3600) then Some now else None)
    /\ (x_resolved_at r <> None -> x_status r = Some "GIVEUP")).
  { unfold r, poll_record. destruct (classify_receipt info) as [[st b] er]. cbn in Hnf. subst st.
    change (String.eqb "NOT_FOUND" "NOT_FOUND") with true. cbn [andb].
    destruct (Qle_bool giveup _); cbn [x_resolved_at x_status].
    - rewrite (bool_decide_eq_true_2 ("GIVEUP" ∈ TERMINAL_STATUSES)) by (vm_compute; reflexivity). done.
    - rewrite (bool_decide_eq_false_2 ("NOT_FOUND" ∈ TERMINAL_STATUSES)); [done|]. vm_compute. discriminate. }
  destruct Hr as [Hr Hst]. rewrite Hr in *. split_and!; [|done| |].
  - destruct (Qle_bool _ _) eqn:Hq; [apply Qle_bool_iff in Hq | apply Qle_bool_nle in Hq]; split; intros H; try done; lra.
  - intros Hg Hwin. destruct (Qle_bool _ _) eqn:Hq; [|done]. apply Qle_bool_iff in Hq. exfalso.
    assert (tick - lookback * 3600 <= default now (cd_first_seen cd) \/ default now (cd_first_seen cd) == now)%Q as [Hd|Hd].
    { rewrite Hfirst. destruct (t !! cd_txid cd) as [row|] eqn:Hrow; cbn; [left|right; reflexivity].
      rewrite <- Hid in Hrow. pose proof (Hs i row Hi Hrow). lra. }
    + apply (Qmult_le_compat_r _ _ 3600) in Hq; [|discriminate].
      assert ((now - default now (cd_first_seen cd)) / 3600 * 3600 == now - default now (cd_first_seen cd))%Q as E
        by (field; discriminate). lra.
    + rewrite Hd in Hq. assert ((now - now) / 3600 == 0)%Q as E by (field; discriminate). lra.
  - intros j Hj Hold Heq. assert (i = j) as ->.
    { clear -Hn Hi Hj Hid Heq. rewrite <- Hid in Heq. induction rows as [|x rows IH]; [done|].
      apply NoDup_cons_iff in Hn as [Hx Hn].
      destruct Hi as [->|Hi], Hj as [->|Hj]; [done| | |by apply IH]; exfalso; apply Hx.
      - rewrite <- Heq. by apply in_map.
      - rewrite Heq. by apply in_map. }
    lra.
Qed.

Definition waiting_row : TxStatus := mkTx "tx1" (Some "k1") 3600 (Some 90000%Q) None None None None.
Lemma giveup_within_window_witness :
  x_status (poll_record 24 (fun _ => "gone") 90060 (mkCand "tx1" "k1" (Some 3600%Q) (Some 90000%Q)) (inr None)) = Some "GIVEUP".
Proof.
  apply (giveup_within_window 24 48 (fun _ => "gone") 90060 90060 20 [mkCommitted "k1" "tx1" 3600]
    {["tx1" := waiting_row]} (mkCand "tx1" "k1" (Some 3600%Q) (Some 90000%Q)) (inr None)).
  - intros i row [<-|[]]. cbn. intros [= <-]. discriminate.
  - repeat constructor. intros [].
  - vm_compute. left. reflexivity.
  - reflexivity.
  - vm_compute. discriminate.
Defined.

(** [lag_seconds] is at least the age of any committed row without a verdict, one that
    left the window included. *)
Theorem lag_counts_aged (now : time) (rows : list committed) (t : table) (i : committed) :
  In i rows -> (t !! cm_txid i ≫= x_resolved_at) = None -> (now - cm_created_at i <= lag_seconds now rows t)%Q.
Proof.
  intros Hi Hr. unfold lag_seconds.
  set (l := map cm_created_at (List.filter _ rows)).
  assert (In (cm_created_at i) l) as Hin.
  { apply in_map, List.filter_In. split; [done|]. by rewrite Hr. }
  clearbody l. destruct l as [|x xs]; [done|].
  assert (forall l x y, In y (x :: l) -> (fold_left Qmin2 l x <= y)%Q) as Hmin.
  { clear. induction l as [|z l IH]; intros x y Hy; cbn [fold_left]; [destruct Hy as [->|[]]; lra|].
    destruct Hy as [->|[->|Hy]]; [| |apply IH; by right].
    - apply Qle_trans with (Qmin2 y z); [apply (IH (Qmin2 y z) (Qmin2 y z)); by left|]. unfold Qmin2. qcases; lra.
    - apply Qle_trans with (Qmin2 x y); [apply (IH (Qmin2 x y) (Qmin2 x y)); by left|]. unfold Qmin2. qcases; lra. }
  specialize (Hmin xs x _ Hin). unfold Qmax2. qcases; lra.
Qed.
Lemma lag_counts_aged_witness : (500000 - 3600 <= lag_seconds 500000 [mkCommitted "k1" "tx1" 3600] {["tx1" := waiting_row]})%Q.
Proof. apply (lag_counts_aged 500000 _ _ (mkCommitted "k1" "tx1" 3600)); [left; reflexivity|reflexivity]. Defined.

(** A poll on an open connection is the poll of [Poller]; one that ends after [stop] has
    dropped the connection says the same to the audit log, but its row never reaches the
    table, so the receipt is polled and announced again after the restart. *)
Theorem poll_after_stop {S : Type} (E : Env) (c : Config) (rpc : nat -> string -> outcome exn (option receipt))
    (giveup : Q) (txt : Q -> string) (cand : candidate) (w : World S) (t : table) (p : ReceiptPoller) :
  let '(o, (w', t')) := poll_one E c rpc giveup txt cand (w, t) in
  (po_conn p = true -> poll_one_ E c rpc giveup txt cand (w, (t, p)) = (o, (w', (t', p)))) /\
  (po_thread p = true -> exists p', poll_one_ E c rpc giveup txt cand (w, (t, stop p)) = (o, (w', (t, p')))).
Proof.
  unfold poll_one, poll_one_, bind, on_world, on_world_, now, ext, modify, upsert_, emit_receipt_audit. cbn [w_tick].
  set (w1 := set_tick _ w). destruct (try_except _ _ w1) as [[info|e|] w2].
  2, 3: (split; [reflexivity|]; intros _; eexists; reflexivity).
  set (r := poll_record _ _ _ _ _).
  destruct (x_status r) as [status|]; unfold on_world, modify.
  - destruct (swallow (record E c (receipt_draft r status)) w2) as [o3 w3] eqn:Hw. split.
    + intros Hc. rewrite Hc, Hw. reflexivity.
    + intros Ht. unfold stop. rewrite Ht. cbn [po_conn]. rewrite Hw. eexists. reflexivity.
  - split; [intros Hc; rewrite Hc; reflexivity|]. intros Ht. unfold stop. rewrite Ht. eexists. reflexivity.
Qed.
Lemma poll_after_stop_witness : exists w' p',
  poll_one_ sample_env default_config ok_rpc 24 (fun _ => "") demo_cand (sample_world, (∅, stop (start (new_poller true)))) =
  (Ret tt, (w', (∅, p'))).
Proof.
  pose proof (poll_after_stop sample_env default_config ok_rpc 24 (fun _ => "") demo_cand sample_world ∅ (start (new_poller true))) as H.
  destruct (poll_one _ _ _ _ _ _ _) as [o [w' t']] eqn:Hp. destruct H as [_ H].
  destruct (H eq_refl) as [p' H1]. exists w', p'. rewrite H1.
  assert (fst (poll_one sample_env default_config ok_rpc 24 (fun _ => "") demo_cand (sample_world, ∅)) = Ret tt) as Ho
    by (vm_compute; reflexivity).
  rewrite Hp in Ho. cbn in Ho. by rewrite Ho.
Defined.

(** The receipt is announced before and after the restart. *)
Example announced_twice :
  let events w := List.filter (String.eqb "RECEIPT_RESOLVED") (map a_event (au_log (w_audit w))) in
  let '(_, (w1, (t1, p1))) := poll_one_ sample_env default_config ok_rpc 24 (fun _ => "") demo_cand
                               (sample_world, (∅, stop (start (new_poller true)))) in
  let '(_, (w2, (t2, _))) := tick_ sample_env default_config ok_rpc 48 24 20 (fun _ => "")
                               [mkCommitted "key-1" "tx1" 0] (w1, (t1, snd (init_poller true (Some p1)))) in
  (events w1, get_status_ "tx1" t1 p1 ≫= x_status, t1 !! "tx1", events w2, (t2 !! "tx1") ≫= x_status) =
  (["RECEIPT_RESOLVED"], Some "SUCCESS", None, ["RECEIPT_RESOLVED"; "RECEIPT_RESOLVED"], Some "SUCCESS").
Proof. vm_compute. reflexivity. Qed.
