(* ===== verification/Metrics.v ===== *)
(** * Metrics ([metrics.py])

    The families of the registry, what each update of [World.metric] does to them, and
    the accounting of [/send]: every request moves one of the outcome counters or, when it
    is refused for another reason or interrupted, none. *)
From S2P Require Import Prelude PyStr Decimal Effects RiskTypes Exceptions Idempotency Config AuditEntry World TronClient WalletPool Risk AuditLog Send Readers.
From S2P Require Sanctions.
Open Scope string_scope.

(** ** The registry *)

Inductive kind := Counter | Gauge | Histogram (buckets : list Q).
(** [Counter(name, help, labels, registry=registry)] and the like, without the help text. *)
Record family := mkFamily { f_kind : kind; f_name : string; f_labels : list string }.

Definition registry : list family := [
  mkFamily Counter "payouts_tx_broadcast_total" ["result"];
  mkFamily Counter "payouts_tx_duplicate_total" [];
  mkFamily Counter "payouts_tx_rejected_total" ["reason"];
  mkFamily Counter "payouts_rate_limit_drops_total" [];
  mkFamily Counter "payouts_idempotency_conflicts_total" [];
  mkFamily Counter "payouts_idempotency_unresolved_total" [];
  mkFamily Counter "payouts_http_requests_total" ["method"; "path"; "status"];
  mkFamily (Histogram [1#10; 1#4; 1#2; 1; 2; 5; 10; 30])%Q "payouts_tx_duration_seconds" ["result"];
  mkFamily (Histogram [5000; 10000; 13000; 20000; 32000; 50000; 100000; 200000])%Q "payouts_energy_estimated" [];
  mkFamily (Histogram [1#10; 1; 5; 10; 13; 20; 30; 50])%Q "payouts_energy_burn_trx_estimated" [];
  mkFamily (Histogram [5000000; 7000000; 10000000; 15000000; 20000000; 30000000])%Q "payouts_fee_limit_sun" [];
  mkFamily Gauge "payouts_trx_balance" [];
  mkFamily Gauge "payouts_usdt_balance" [];
  mkFamily Gauge "payouts_energy_available" [];
  mkFamily Gauge "payouts_bandwidth_free_available" [];
  mkFamily Gauge "payouts_bandwidth_paid_available" [];
  mkFamily Gauge "payouts_tron_power_staked" [];
  mkFamily Gauge "payouts_node_connected" [];
  mkFamily Gauge "payouts_uptime_seconds" [];
  mkFamily Gauge "payouts_idempotency_store_size" [];
  mkFamily Counter "skr_crypto_alert_attempts_total" ["result"];
  mkFamily Counter "skr_crypto_alert_giveup_total" [];
  mkFamily Gauge "skr_crypto_alert_queue_depth" []].

(** One call on a family: [inc], [observe] or [set], with label values. *)
Inductive update := Inc (name : string) (labels : list string)
| Observe (name : string) (labels : list string) (v : Q) | Set_ (name : string) (v : Q).

(** [record_resource_snapshot], for a summary with its four keys. *)
Definition record_resource_snapshot (energy bandwidth_free bandwidth_paid tron_power : Z) : list update :=
  [Set_ "payouts_energy_available" (inject_Z energy); Set_ "payouts_bandwidth_free_available" (inject_Z bandwidth_free);
   Set_ "payouts_bandwidth_paid_available" (inject_Z bandwidth_paid); Set_ "payouts_tron_power_staked" (inject_Z tron_power)].
(** [record_balances]: a Decimal converts; the gauges hold it exactly here. *)
Definition dec_value (d : Dec) : Q := (inject_Z (coef d) * (10 # 1) ^ (dexp d))%Q.
Definition record_balances (trx usdt : Dec) : list update :=
  [Set_ "payouts_trx_balance" (dec_value trx); Set_ "payouts_usdt_balance" (dec_value usdt)].

(** What each update of the process state means for the registry. *)
Definition updates (m : metric) : list update :=
  match m with
  | TxRejected reason => [Inc "payouts_tx_rejected_total" [reason]]
  | TxDuplicate => [Inc "payouts_tx_duplicate_total" []]
  | TxBroadcast result => [Inc "payouts_tx_broadcast_total" [result]]
  | TxDuration result s => [Observe "payouts_tx_duration_seconds" [result] s]
  | EnergyEstimated n => [Observe "payouts_energy_estimated" [] (inject_Z n)]
  | EnergyBurn trx => [Observe "payouts_energy_burn_trx_estimated" [] (dec_value trx)]
  | FeeLimitSun n => [Observe "payouts_fee_limit_sun" [] (inject_Z n)]
  | Balances trx usdt => record_balances trx usdt
  | ResourceSnapshot e bf bp tp => record_resource_snapshot e bf bp tp
  | IdempotencySize n => [Set_ "payouts_idempotency_store_size" (inject_Z n)]
  | NodeConnected ok => [Set_ "payouts_node_connected" (if ok then 1 else 0)]
  | Uptime s => [Set_ "payouts_uptime_seconds" (inject_Z s)]
  end.

(** The call finds its family: declared, of the right kind, with all its labels. *)
Definition declared (u : update) : bool :=
  let find name := List.find (fun f => String.eqb (f_name f) name) registry in
  match u with
  | Inc name labels =>
      match find name with
      | Some f => match f_kind f with Counter => (List.length labels =? List.length (f_labels f))%nat | _ => false end
      | None => false
      end
  | Observe name labels _ =>
      match find name with
      | Some f => match f_kind f with Histogram _ => (List.length labels =? List.length (f_labels f))%nat | _ => false end
      | None => false
      end
  | Set_ name _ =>
      match find name with
      | Some f => match f_kind f with Gauge => (List.length (f_labels f) =? 0)%nat | _ => false end
      | None => false
      end
  end.

(** Buckets go up, and no name is the beginning of another: the series a family is
    exposed under all start with its name, so they never clash. *)
Fixpoint increasing (l : list Q) : bool :=
  match l with
  | x :: ((y :: _) as l') => Qltb x y && increasing l'
  | _ => true
  end.
Definition base_name (f : family) : string :=
  match f_kind f with
  | Counter => substring 0 (String.length (f_name f) - 6) (f_name f)   (** the client drops _total *)
  | _ => f_name f
  end.
Fixpoint no_prefix (l : list string) : bool :=
  match l with
  | [] => true
  | x :: l => forallb (fun y => negb (startswith x y) && negb (startswith y x)) l && no_prefix l
  end.

(** ** Counting *)

(** The counters that say how a request ended. *)
Definition is_outcome (m : metric) : bool :=
  match m with TxRejected _ | TxDuplicate | TxBroadcast _ => true | _ => false end.
Definition outcomes (ms : list metric) : list metric := List.filter is_outcome ms.

(** The reasons [/send] rejects with. *)
Definition reject_reasons : list string :=
  ["invalid_address"; "risk_too_high"; "insufficient_usdt"; "insufficient_trx"; "energy_too_expensive"; "rpc_failed"].
Definition refused (os : list metric) : Prop :=
  os = [] \/ (exists reason, In reason reject_reasons /\ os = [TxRejected reason]) \/ os = [TxBroadcast "failed"].

Section Counts.
Context {S : Type}.
Abbreviation MW := (M (World S) exn).

(** Only other metrics moved. *)
Definition grows (w w' : World S) : Prop :=
  exists ms, w_metrics w' = (w_metrics w ++ ms)%list /\ outcomes ms = [].
#[export] Instance grows_preorder : PreOrder grows.
Proof.
  split; [intros w; exists []; by rewrite app_nil_r|].
  intros x y z (a & Ha & Ha') (b & Hb & Hb'). exists (a ++ b)%list. rewrite Hb, Ha, app_assoc. split; [done|].
  unfold outcomes in *. by rewrite List.filter_app, Ha', Hb'.
Qed.
Lemma grows_same w w' : w_metrics w' = w_metrics w -> grows w w'.
Proof. intros H. exists []. by rewrite app_nil_r. Qed.
#[export] Instance grows_reading : Reading grows.
Proof. split; [apply _|..]; intros; by apply grows_same. Qed.
Lemma grows_emit m : is_outcome m = false -> Frame grows (emit m).
Proof. intros H w. exists [m]. split; [done|]. cbn. by rewrite H. Qed.
#[export] Instance grows_upd_audit f : Frame grows (upd_audit (S:=S) f).
Proof. intros w. by apply grows_same. Qed.
End Counts.

(** By the structure of the program; what it modifies is not the metrics. *)
Ltac gframes :=
  repeat first [progress intros | solve [apply _] | apply frame_bind | apply reading_try
               | apply reading_swallow | apply frame_when | apply frame_for_each
               | apply grows_emit; reflexivity
               | solve [apply frame_modify; intros ?; by apply grows_same]
               | case_match | progress cbv zeta].

Section Quiet.
Context {S : Type} `{!IdemStore S} (E : Env) (c : Config).
Abbreviation G m := (Frame (W:=World S) grows m).

#[export] Instance grows_record d : G (record E c d).
Proof.
  unfold record, next_record_id, write_durable, get_audit_file, disk, enqueue_event_for_delivery, notify_event, hooks_db.
  gframes.
Qed.
#[export] Instance grows_send_usdt key wl a amt fee : G (send_usdt E c key wl a amt fee).
Proof. unfold send_usdt. gframes. intros w. by apply grows_same. Qed.
#[export] Instance grows_on_store {A} (op : S -> outcome exn A * S) : G (on_store op).
Proof. intros w. unfold on_store. destruct (op (w_idem w)). by apply grows_same. Qed.
#[export] Instance grows_reserve fuel key : G (reserve_loop E fuel key).
Proof. induction fuel; simpl; [by intros w; apply grows_same|]. gframes. Qed.
#[export] Instance grows_release key : G (idem_release E key).
Proof. unfold idem_release. gframes. Qed.
#[export] Instance grows_commit key txid : G (idem_commit E key txid).
Proof. unfold idem_commit. gframes. Qed.
End Quiet.

(** ** What a program counts *)
Section Emits.
Context {S : Type}.
Abbreviation MW := (M (World S) exn).
Implicit Types os : list metric.

(** The outcome counters [m] moves, related to its own outcome by [Q]. *)
Class Emits {A} (m : MW A) (Q : outcome exn A -> list metric -> Prop) : Prop :=
  emits_ok w : exists ms, w_metrics (snd (m w)) = (w_metrics w ++ ms)%list /\ Q (fst (m w)) (outcomes ms).

Lemma emits_mono {A} (m : MW A) (Q Q' : outcome exn A -> list metric -> Prop) :
  Emits m Q -> (forall o os, Q o os -> Q' o os) -> Emits m Q'.
Proof. intros H HQ w. destruct (H w) as (ms & H1 & H2). exists ms. auto. Qed.
Lemma emits_quiet {A} (m : MW A) (Q : outcome exn A -> list metric -> Prop) :
  Frame grows m -> (forall o, Q o []) -> Emits m Q.
Proof. intros H HQ w. destruct (H w) as (ms & H1 & H2). exists ms. split; [done|]. rewrite H2. apply HQ. Qed.
Lemma emits_ret {A} (a : A) (Q : outcome exn A -> list metric -> Prop) : Q (Ret a) [] -> Emits (ret a) Q.
Proof. intros HQ w. exists []. by rewrite app_nil_r. Qed.
Lemma emits_raise {A} e (Q : outcome exn A -> list metric -> Prop) : Q (Raise e) [] -> Emits (raise e) Q.
Proof. intros HQ w. exists []. by rewrite app_nil_r. Qed.
Lemma emits_emit m (Q : outcome exn unit -> list metric -> Prop) : Q (Ret tt) (outcomes [m]) -> Emits (emit m) Q.
Proof. intros HQ w. by exists [m]. Qed.

Lemma emits_bind {A B} (m : MW A) (k : A -> MW B) P Q :
  Emits m P ->
  (forall a os, P (Ret a) os -> Emits (k a) (fun o os' => Q o (os ++ os')%list)) ->
  (forall e os, P (Raise e) os -> Q (Raise e) os) -> (forall os, P Crash os -> Q Crash os) -> Emits (bind m k) Q.
Proof.
  intros Hm Hk He Hc w. unfold bind. destruct (Hm w) as (ms & H1 & H2).
  destruct (m w) as [[a|e|] w']; cbn [fst snd] in *; [|exists ms; auto..].
  destruct (Hk a _ H2 w') as (ms' & H3 & H4). exists (ms ++ ms')%list. rewrite H3, H1, app_assoc.
  split; [done|]. unfold outcomes in *. by rewrite List.filter_app.
Qed.
(** A step that counts nothing, in front of [k]. *)
Lemma emits_step {A B} (m : MW A) (k : A -> MW B) Q : Frame grows m ->
  (forall a, Emits (k a) Q) -> (forall e, Q (Raise e) []) -> Q Crash [] -> Emits (bind m k) Q.
Proof.
  intros Hm Hk He Hc. eapply (emits_bind m k (fun _ os => os = [])); [by apply emits_quiet| | |];
    [intros a os ->; apply Hk | intros e os ->; apply He | by intros os ->].
Qed.
(** A metric, then the rest. *)
Lemma emits_then {B} m (k : unit -> MW B) Q :
  Emits (k tt) (fun o os => Q o (outcomes [m] ++ os)%list) -> Emits (bind (emit m) k) Q.
Proof.
  intros Hk. eapply (emits_bind _ _ (fun o os => o = Ret tt /\ os = outcomes [m])); [by apply emits_emit| | |].
  - by intros [] os [_ ->].
  - by intros e os [? _].
  - by intros os [? _].
Qed.
Lemma emits_catch {A} (m : MW A) h P Q :
  Emits m P -> (forall a os, P (Ret a) os -> Q (Ret a) os) -> (forall os, P Crash os -> Q Crash os) ->
  (forall e os, P (Raise e) os -> match h e with
     | None => Q (Raise e) os
     | Some r => Emits r (fun o os' => Q o (os ++ os')%list)
     end) -> Emits (catch m h) Q.
Proof.
  intros Hm Hr Hc He w. unfold catch. destruct (Hm w) as (ms & H1 & H2).
  destruct (m w) as [[a|e|] w']; cbn [fst snd] in *; [exists ms; auto| |exists ms; auto].
  specialize (He e _ H2). destruct (h e) as [r|]; [|exists ms; auto].
  destruct (He w') as (ms' & H3 & H4). exists (ms ++ ms')%list. rewrite H3, H1, app_assoc.
  split; [done|]. unfold outcomes in *. by rewrite List.filter_app.
Qed.
(** [if b: <refuse>]: nothing is counted when it is passed. *)
Lemma emits_when b (m : MW unit) Q : Emits m Q -> Q (Ret tt) [] -> Emits (when b m) Q.
Proof. intros Hm HQ. destruct b; [done | by apply emits_ret]. Qed.
End Emits.

Section Send.
Context {S : Type} `{!IdemStore S} (E : Env) (c : Config) (p : pool) (sanc : Sanctions.state) (fuel : nat)
        (rq : SendRequest) (ip tok : string).

(** A step that may refuse: nothing counted when it returns or is interrupted, and a
    count only together with one of the service's own exceptions. *)
Definition may_refuse {A} (o : outcome exn A) (os : list metric) : Prop :=
  match o with
  | Ret _ | Crash => os = []
  | Raise e => os = [] \/ (is_PayoutError e = true /\ exists reason, In reason reject_reasons /\ os = [TxRejected reason])
  end.
Lemma may_refuse_quiet {A} (m : M (World S) exn A) : Frame grows m -> Emits m may_refuse.
Proof. intros H. apply emits_quiet; [done|]. intros [| |]; cbn; auto. Qed.
Lemma may_refuse_bind {A B} (m : M (World S) exn A) (k : A -> M (World S) exn B) :
  Emits m may_refuse -> (forall a, Emits (k a) may_refuse) -> Emits (bind m k) may_refuse.
Proof.
  intros Hm Hk. eapply emits_bind; [exact Hm| | |]; try done. intros a os Hos. cbn in Hos. subst os. apply Hk.
Qed.
Lemma refuses {A} wl reason details exc : In reason reject_reasons ->
  Emits (reject (S:=S) (A:=A) E c rq ip tok wl reason details exc) may_refuse.
Proof.
  intros Hr. unfold reject, audit_event. apply emits_step; [apply _| |intros e; by left|done]. intros [].
  apply emits_then, emits_raise. right. split; [done|]. by exists reason.
Qed.

Lemma preflight_refuses wl : Emits (preflight (S:=S) E c rq ip tok wl) may_refuse.
Proof.
  unfold preflight. repeat first
    [ exact eq_refl | progress cbv zeta | progress intros | solve [apply refuses; cbn; tauto]
    | apply may_refuse_quiet; solve [apply _ | apply grows_emit; reflexivity]
    | apply emits_when | apply may_refuse_bind ].
Qed.

Lemma audit_then {A} wl ev tx res det m (exn_of : exn) (Q : outcome exn A -> list metric -> Prop) (more : M (World S) exn unit) :
  Frame grows more -> (forall e, Q (Raise e) []) -> Q Crash [] -> is_outcome m = true ->
  Q (Raise exn_of) [m] -> Q Crash [m] -> (forall e, Q (Raise e) [m]) ->
  Emits (do! audit_event E c rq ip tok wl ev tx res det in do! emit m in do! more in raise exn_of) Q.
Proof.
  intros Hm He Hc Ho HQ Hcm Hem. unfold audit_event. apply emits_step; [apply _| |done|done]. intros [].
  apply emits_then. cbn [outcomes List.filter]. rewrite Ho. apply emits_step; [done| |done|done]. intros _. by apply emits_raise.
Qed.

Lemma checked_refuses wl : Emits (checked_preflight (S:=S) E c rq ip tok wl)
  (fun o os => match o with Ret _ | Crash => os = [] | Raise _ => refused os end).
Proof.
  eapply emits_catch; [apply preflight_refuses|done|done|]. intros e os Hos. cbn in Hos.
  destruct (is_PayoutError e) eqn:Hp.
  { destruct Hos as [->|[_ H]]; [by left|by right; left]. }
  assert (os = []) as -> by (destruct Hos as [->|[H _]]; [done|discriminate]).
  destruct (is_Exception e); [|by left]. apply emits_step; [apply _| |by left|done]. intros t.
  unfold audit_event. apply emits_step; [apply _| |by left|done]. intros [].
  apply emits_then, emits_raise. right. left. exists "rpc_failed". split; [cbn; tauto|done].
Qed.

Lemma broadcast_counts wl started fee : Emits (broadcast_step (S:=S) E c rq ip tok wl started fee)
  (fun o os => match o with Ret _ => os = [] | Raise _ => refused os | Crash => refused os end).
Proof.
  unfold broadcast_step, try_except.
  eapply (emits_catch _ _ (fun _ os => os = [])); [apply emits_quiet; [gframes|done]|by intros a os ->|intros os ->; by left|].
  intros e os ->. destruct (is_Exception e); [|by left].
  apply emits_step; [apply _| |intros ?; by left|by left]. intros t.
  apply audit_then; try (intros; by left); try (intros; by right; right); [|done].
  by apply grows_emit.
Qed.

Lemma guarded_counts wl started : Emits (guarded_send (S:=S) E c rq ip tok wl started)
  (fun o os => match o with Ret _ => os = [] | Raise _ => refused os | Crash => refused os end).
Proof.
  unfold guarded_send, on_exception.
  eapply (emits_catch _ _ (fun o os => match o with Ret _ => os = [] | _ => refused os end)); [|done|done|].
  - eapply emits_bind; [apply checked_refuses| |done|intros os ->; by left]. intros fee os ->.
    eapply emits_bind; [apply broadcast_counts| |done|done]. intros txid os ->.
    apply emits_step; [apply _| |intros; by left|by left]. intros []. by apply emits_ret.
  - intros e os Hos. apply emits_step; [apply _| |by rewrite app_nil_r|by rewrite app_nil_r]. intros [].
    apply emits_raise. by rewrite app_nil_r.
Qed.

(** What [send_counted] says of a request. *)
Definition counted (o : outcome exn SendResponse) (os : list metric) : Prop :=
  match o with
  | Ret r => os = [if String.eqb (sr_status r) "duplicate" then TxDuplicate else TxBroadcast "success"]
  | Raise e => refused os \/ (os = [TxBroadcast "success"] /\ exists s : S, st_count s = Raise e)
  | Crash => refused os \/ (os = [TxBroadcast "success"] /\ exists s : S, st_count s = Crash)
  end.
Lemma counted_after {A} (m : M (World S) exn A) k : Emits m may_refuse -> (forall a, Emits (k a) counted) -> Emits (bind m k) counted.
Proof.
  intros Hm Hk. eapply emits_bind; [exact Hm| | |].
  - intros a os Hos. cbn in Hos. subst os. apply Hk.
  - intros e os [->|[_ Hos]]; left; [by left|right; by left].
  - intros os Hos. cbn in Hos. subst os. left. by left.
Qed.
Lemma address_refuses address : Emits (validate_tron_address (S:=S) E address) may_refuse.
Proof.
  unfold validate_tron_address. destruct (address_error E address); [|by apply emits_ret].
  apply emits_then, emits_raise. right. split; [done|]. eexists. split; [|reflexivity]. cbn. tauto.
Qed.
Lemma risk_refuses wl : Emits (risk_preflight (S:=S) E c sanc rq ip tok wl) may_refuse.
Proof.
  unfold risk_preflight. destruct (String.eqb _ _); [by apply emits_ret|].
  apply emits_step; [apply _| |by left|done]. intros report. cbv zeta.
  destruct (should_block _ _); [apply refuses; cbn; tauto|by apply emits_ret].
Qed.
Lemma duplicate_counts wl txid : Emits (answer_duplicate (S:=S) E c rq ip tok wl txid) counted.
Proof.
  unfold answer_duplicate, audit_event. apply emits_step; [apply _| |intros; left; by left|left; by left]. intros [].
  by apply emits_then, emits_ret.
Qed.
Lemma success_counts wl started level txid : Emits (answer_success (S:=S) E c rq ip tok wl started level txid) counted.
Proof.
  unfold answer_success, audit_event. apply emits_step; [apply _| |intros; left; by left|left; by left]. intros t. cbv zeta.
  apply emits_step; [apply _| |intros; left; by left|left; by left]. intros [].
  intros w0. unfold bind, emit, modify, idem_count, on_store. cbn. destruct (st_count (w_idem w0)) as [n|e|] eqn:Hn.
  - exists [TxBroadcast "success"; TxDuration "success" (t - started)%Q; IdempotencySize n]. cbn. by rewrite <- !app_assoc.
  - exists [TxBroadcast "success"; TxDuration "success" (t - started)%Q]. cbn. rewrite <- !app_assoc. eauto.
  - exists [TxBroadcast "success"; TxDuration "success" (t - started)%Q]. cbn. rewrite <- !app_assoc. eauto.
Qed.
End Send.

(** ** The properties *)

(** The registry is well formed: no name is the beginning of another, so no two families
    share a series; histogram buckets go up; and every update of the service finds its
    family, with the right kind and number of labels. *)
Theorem registry_ok :
  no_prefix (map base_name registry) = true /\
  Forall (fun f => match f_kind f with Histogram b => increasing b = true | _ => True end) registry /\
  forall m, Forall (fun u => declared u = true) (updates m).
Proof.
  split; [vm_compute; reflexivity|]. split; [repeat constructor|].
  intros []; repeat constructor.
Qed.


(** The rules of docs/monitoring.md watch families the registry does not have (its names
    begin with payouts_), so none of them ever fires. *)
Definition documented_rules : list string :=
  ["skr_crypto_node_connected"; "skr_crypto_http_requests_total"; "skr_crypto_usdt_balance"; "skr_crypto_trx_balance";
   "skr_crypto_rate_limit_drops_total"; "skr_crypto_idempotency_unresolved_total"].
Theorem documented_rules_dead : forall name f, In name documented_rules -> In f registry -> f_name f <> name.
Proof.
  assert (forallb (fun name => forallb (fun f => negb (String.eqb (f_name f) name)) registry) documented_rules = true) as H by reflexivity.
  intros name f Hn Hf. rewrite forallb_forall in H. specialize (H name Hn). rewrite forallb_forall in H.
  specialize (H f Hf). by apply negb_true_iff, String.eqb_neq in H.
Qed.
