(* ===== verification/Diagnostics.v ===== *)
(** * What the process says of itself ([version.py], [logging_config.py], GET /version
    and /health/live)

    The two unauthenticated endpoints, and the logging the process starts with.  [git] is
    the answer of [git rev-parse] or the exception of the call. *)
From S2P Require Import Prelude PyStr Exceptions Keystore.
From S2P Require CliEnv CliService.
Open Scope string_scope.

(** [_resolve_git_sha]: [git] gives the return code and stdout. *)
Definition resolve_git_sha (GIT_SHA : string) (git : exn + (Z * string)) : string :=
  let env_sha := strip GIT_SHA in
  if negb (String.eqb env_sha "") then env_sha
  else match git with
  | inl _ => "unknown"
  | inr (returncode, stdout) =>
      if negb (returncode =? 0)%Z then "unknown" else str_or (strip stdout) "unknown"
  end.

(** The bodies of GET /version and GET /health/live. *)
Definition version_endpoint (git_sha : string) (start_time : Q) (TRON_NETWORK : string) : json :=
  JObj [("git_sha", JStr git_sha); ("started_at", JFloat start_time); ("network", JStr TRON_NETWORK)].
Definition health_live_endpoint (uptime : Z) : json :=
  JObj [("status", JStr "ok"); ("uptime_seconds", JInt uptime)].

(** ** Logging *)

(** What [getattr(logging, name)] finds for an upper-case name of the module: a level, or
    something [setLevel] refuses. *)
Inductive attribute := Level (n : Z) | Text | Mapping.
Definition logging_attr (name : string) : option attribute :=
  if bool_decide (name ∈ ["CRITICAL"; "FATAL"]) then Some (Level 50)
  else if String.eqb name "ERROR" then Some (Level 40)
  else if bool_decide (name ∈ ["WARNING"; "WARN"]) then Some (Level 30)
  else if String.eqb name "INFO" then Some (Level 20)
  else if String.eqb name "DEBUG" then Some (Level 10)
  else if String.eqb name "NOTSET" then Some (Level 0)
  else if String.eqb name "BASIC_FORMAT" then Some Text
  else if String.eqb name "_STYLES" then Some Mapping
  else None.

Inductive formatter := JSONFormatter | PlainFormatter.
(** The root logger: its handlers' formatters and its level. *)
Record root_logger := mkRoot { handlers : list formatter; level : Z }.
(** [setup_logging]; [None]: the variable is not set. *)
Definition setup_logging (LOG_FORMAT LOG_LEVEL : option string) (root : root_logger) : outcome exn root_logger :=
  let log_format := default "plain" LOG_FORMAT in
  let name := upper (default "INFO" LOG_LEVEL) in
  let root := mkRoot [if String.eqb log_format "json" then JSONFormatter else PlainFormatter] (level root) in
  match default (Level 20) (logging_attr name) with
  | Level n => Ret (mkRoot (handlers root) n)
  | Text => Raise (EValue "Unknown level: '%(levelname)s:%(name)s:%(message)s'")
  | Mapping => Raise (EOther "TypeError" "Level not an integer or a valid string")
  end.

(** [JSONFormatter.format]: the keys of the line and their values.  [extra key] is the
    record's attribute, if it has one that is not None. *)
Definition extra_keys : list string := ["request_id"; "event"; "txid"; "address"; "amount"; "ip"].
Definition format_json (timestamp levelname name message : string) (exception : option string)
    (extra : string -> option json) : list (string * json) :=
  ([("timestamp", JStr timestamp); ("level", JStr levelname); ("logger", JStr name); ("message", JStr message)] ++
   match exception with Some e => [("exception", JStr e)] | None => [] end ++
   omap (fun key => (pair key) <$> extra key) extra_keys)%list.

(** ** The properties *)

(** The sha is never empty, so a dashboard never shows a blank; the environment variable
    decides when it says anything. *)
Theorem git_sha_spec (GIT_SHA : string) (git : exn + (Z * string)) :
  resolve_git_sha GIT_SHA git <> "" /\
  (strip GIT_SHA <> "" -> resolve_git_sha GIT_SHA git = strip GIT_SHA) /\
  (strip GIT_SHA = "" -> forall rc out, rc <> 0%Z -> git = inr (rc, out) -> resolve_git_sha GIT_SHA git = "unknown").
Proof.
  unfold resolve_git_sha. destruct (String.eqb_spec (strip GIT_SHA) "") as [H|H]; cbn [negb].
  - split_and!; [|done|].
    + destruct git as [e|[rc out]]; [done|]. destruct (negb _); [done|].
      unfold str_or. by destruct (String.eqb_spec (strip out) "").
    + intros _ rc out Hrc ->. by destruct (Z.eqb_spec rc 0).
  - by split_and!.
Qed.

(** [skr-crypto version] shows what the running service is: the sha, the start time and
    the network of the endpoint's answer, unchanged. *)
Theorem version_shown (dir git_sha network : string) (start_time : Q) :
  CliService.version_cmd (Ret dir) (fun _ => Ret (version_endpoint git_sha start_time network)) =
  Ret (CliService.Version (JStr git_sha) (JFloat start_time) (JStr network)).
Proof. reflexivity. Qed.

(** Logging starts with one handler, in JSON exactly for LOG_FORMAT=json, and at the level
    named, in any case, or INFO for a name [logging] does not know; but two names it knows
    are no levels, and stop the process before it serves. *)
Theorem setup_logging_spec (fmt lvl : option string) (root : root_logger) :
  let name := upper (default "INFO" lvl) in
  match setup_logging fmt lvl root with
  | Ret r => handlers r = [if String.eqb (default "plain" fmt) "json" then JSONFormatter else PlainFormatter] /\
      (logging_attr name = Some (Level (level r)) \/ (logging_attr name = None /\ level r = 20%Z))
  | Raise _ => name = "BASIC_FORMAT" \/ name = "_STYLES"
  | Crash => False
  end.
Proof.
  unfold setup_logging. cbv zeta. set (name := upper _).
  destruct (logging_attr name) as [[n| |]|] eqn:Hn; cbn; [auto| | |auto]; revert Hn; unfold logging_attr;
    repeat match goal with
    | |- (if String.eqb name ?k then _ else _) = _ -> _ =>
        destruct (String.eqb_spec name k); [intros H0; solve [discriminate H0 | auto]|]
    | |- (if bool_decide ?P then _ else _) = _ -> _ => destruct (bool_decide P); [done|]
    end; done.
Qed.

(** The keys of the extras that are there, in order. *)
Lemma extra_keys_sublist (extra : string -> option json) l :
  map fst (omap (fun key => (pair key) <$> extra key) l) `sublist_of` l.
Proof. induction l as [|k l IH]; cbn; [constructor|]. destruct (extra k); cbn; by constructor. Qed.
Lemma jget_in k v l : NoDup (map fst l) -> (k, v) ∈ l -> jget k l = Some v.
Proof.
  induction l as [|[k' v'] l IH]; cbn; [by intros _ ?%elem_of_nil|]. intros [Hx Hn]%NoDup_cons [[= -> ->]|Hin]%elem_of_cons.
  - by rewrite String.eqb_refl.
  - destruct (String.eqb_spec k k') as [->|_]; [|by apply IH]. destruct Hx. by apply (list_elem_of_fmap_2 fst) in Hin.
Qed.
Lemma format_json_nodup ts lv nm msg exc extra : NoDup (map fst (format_json ts lv nm msg exc extra)).
Proof.
  apply (sublist_NoDup _ (["timestamp"; "level"; "logger"; "message"; "exception"] ++ extra_keys)%list).
  - apply (bool_decide_unpack _). vm_compute. done.
  - unfold format_json. rewrite !map_app. do 4 apply sublist_skip. apply (sublist_app _ ["exception"]).
    + destruct exc; cbn; [reflexivity | apply sublist_nil_l].
    + apply extra_keys_sublist.
Qed.

(** A log line has each key once: the extras never replace what every line has. *)
Theorem format_json_keys (ts lv nm msg : string) (exc : option string) (extra : string -> option json) :
  NoDup (map fst (format_json ts lv nm msg exc extra)) /\
  forall k v, k ∈ extra_keys -> extra k = Some v -> jget k (format_json ts lv nm msg exc extra) = Some v.
Proof.
  split; [apply format_json_nodup|]. intros k v Hk Hv. apply jget_in; [apply format_json_nodup|].
  unfold format_json. rewrite !elem_of_app. right. right. apply list_elem_of_omap. exists k. by rewrite Hv.
Qed.
