(* ===== verification/LimiterLife.v ===== *)
(** * The rate limiter over the life of the service

    [RateLimit] has the two computations of one check; here is the object that chooses
    between them ([TokenBucketLimiter]), its sweeper, the module's singleton, and the
    bound on what a client gets through however often the service restarts. *)
From S2P Require Import Prelude PyStr Exceptions Config RateLimit.
Open Scope string_scope.
Open Scope Q_scope.

(** Whether [_conn] is set, and [_memory]. *)
Record TokenBucketLimiter := mkLim { lm_conn : bool; lm_memory : buckets }.
Definition new_limiter (db_path : bool) : TokenBucketLimiter := mkLim db_path ∅.

(** The module: [limiter], whether [_sweeper] runs, and the table of the database. *)
Record state := mkState { limiter_ : option TokenBucketLimiter; sweeper_ : bool; table_ : buckets }.
Definition set_limiter (l : TokenBucketLimiter) (s : state) : state := mkState (Some l) (sweeper_ s) (table_ s).
Definition set_table (t : buckets) (s : state) : state := mkState (limiter_ s) (sweeper_ s) t.

(** [check] *)
Definition check (f : fate exn) (key : string * string) (p : BucketParams) (now : time) (l : TokenBucketLimiter) (t : buckets)
    : outcome exn bool * (TokenBucketLimiter * buckets) :=
  if lm_conn l then let '(r, t') := check_sqlite f key p now t in (r, (l, t'))
  else let '(ok, m) := check_memory key p now (lm_memory l) in (Ret ok, (mkLim (lm_conn l) m, t)).
(** [sweep_idle], on the storage in use. *)
Definition sweep (f : fate exn) (now idle : time) (l : TokenBucketLimiter) (t : buckets)
    : outcome exn Z * (TokenBucketLimiter * buckets) :=
  if lm_conn l then
    match f with
    | Fine => let '(n, t') := sweep_idle now idle t in (Ret n, (l, t'))
    | Fails e => (Raise e, (l, t))
    | Dies => (Crash, (l, t))
    end
  else let '(n, m) := sweep_idle now idle (lm_memory l) in (Ret n, (mkLim (lm_conn l) m, t)).
(** [close] *)
Definition close (l : TokenBucketLimiter) : TokenBucketLimiter := mkLim false (lm_memory l).

(** [init_limiter]: the old object is closed and dropped, a sweeper started. *)
Definition init_limiter (db_path : bool) (s : state) : state := mkState (Some (new_limiter db_path)) true (table_ s).
Definition shutdown_limiter (s : state) : state := mkState None false (table_ s).

(** [_RateLimiter.check] *)
Definition limiter_check_ (f : fate exn) (p : BucketParams) (now : time) (client_ip : string) (s : state)
    : outcome exn bool * state :=
  match limiter_ s with
  | None => (Ret true, s)
  | Some l =>
      if negb (params_ok p) then (Raise (params_error p), s)
      else let '(r, (l', t')) := check f ("ip", client_ip) p now l (table_ s) in (r, set_limiter l' (set_table t' s))
  end.
(** One turn of [_SweeperThread.run]: a failure is logged. *)
Definition sweeper_turn (f : fate exn) (now : time) (s : state) : state :=
  match limiter_ s with
  | Some l => if sweeper_ s then let '(_, (l', t')) := sweep f now 3600 l (table_ s) in set_limiter l' (set_table t' s) else s
  | None => s
  end.

(** ** A history of the service *)
Inductive event :=
| Request (f : fate exn) (client_ip : string) (now : time)
| Swept (f : fate exn) (now : time)
| Restarted.                              (** stopped, or killed, and started on the same database *)
Definition at_ (e : event) : option time :=
  match e with Request _ _ now | Swept _ now => Some now | Restarted => None end.

Section History.
Context (p : BucketParams).
Definition step (e : event) (s : state) : bool * state :=
  match e with
  | Request f ip now => let '(r, s') := limiter_check_ f p now ip s in (match r with Ret ok => ok | _ => false end, s')
  | Swept f now => (false, sweeper_turn f now s)
  | Restarted => (false, init_limiter true (shutdown_limiter s))
  end.
(** How many requests of [ip] get through. *)
Fixpoint passed (ip : string) (es : list event) (s : state) : Z :=
  match es with
  | [] => 0%Z
  | e :: es =>
      let '(ok, s') := step e s in
      ((match e with Request _ ip' _ => if String.eqb ip' ip && ok then 1 else 0 | _ => 0 end) + passed ip es s')%Z
  end.
End History.

(** The events' clock does not go back from [from]; the last reading. *)
Fixpoint in_order (from : time) (es : list event) : Prop :=
  match es with
  | [] => True
  | e :: es => match at_ e with Some now => from <= now /\ in_order now es | None => in_order from es end
  end.
Fixpoint last_time (from : time) (es : list event) : time :=
  match es with
  | [] => from
  | e :: es => last_time (default from (at_ e)) es
  end.

(** ** What a client could still get at once *)
Section Budget.
Context (p : BucketParams) (Hp : params_ok p = true).

Definition budget (key : string * string) (t : buckets) (now : time) : Q :=
  match t !! key with None => inject_Z (capacity p) | Some b => refilled p now b end.
(** Counts are not negative and no row is from the future. *)
Definition row_ok (key : string * string) (t : buckets) (now : time) : Prop :=
  forall b, t !! key = Some b -> 0 <= tokens b /\ updated_at b <= now.

Lemma refilled_later now now' b : now <= now' -> updated_at b <= now ->
  refilled p now' b <= refilled p now b + (now' - now) * refill_per_sec p.
Proof.
  intros Hn Hu. pose proof (params_ok_spec p Hp) as [_ Hr]. unfold refilled.
  assert (0 <= (now' - now) * refill_per_sec p) by (apply Qmult_le_0_compat; lra).
  assert ((now' - updated_at b) * refill_per_sec p ==
    (now - updated_at b) * refill_per_sec p + (now' - now) * refill_per_sec p) by ring.
  qcases; lra.
Qed.
Lemma budget_later key t now now' : now <= now' -> row_ok key t now ->
  budget key t now' <= budget key t now + (now' - now) * refill_per_sec p.
Proof.
  intros Hn Hok. pose proof (params_ok_spec p Hp) as [_ Hr]. unfold budget. destruct (t !! key) as [b|] eqn:Hb.
  - apply refilled_later; [done|]. by apply Hok.
  - assert (0 <= (now' - now) * refill_per_sec p) by (apply Qmult_le_0_compat; lra). lra.
Qed.
Lemma budget_nonneg key t now : row_ok key t now -> 0 <= budget key t now.
Proof.
  intros Hok. pose proof (params_ok_spec p Hp) as [Hc _]. apply inject_1 in Hc. unfold budget.
  destruct (t !! key) as [b|] eqn:Hb; [|lra]. destruct (Hok b Hb). by apply refilled_bounds.
Qed.
(** A bucket just written holds its budget. *)
Lemma refilled_now now n : 0 <= n -> n <= inject_Z (capacity p) -> refilled p now (mkBucket n now) == n.
Proof.
  intros H0 Hc. unfold refilled. cbn [tokens updated_at].
  assert (Qmax2 0 (now - now) * refill_per_sec p == 0) as E by (unfold Qmax2; destruct (Qle_bool _ _); ring).
  unfold Qmin2. destruct (Qle_bool _ _) eqn:Hq; [apply Qle_bool_iff in Hq | apply Qle_bool_nle in Hq]; lra.
Qed.

(** One check pays for what it lets through. *)
Lemma check_budget key now t : row_ok key t now ->
  let '(ok, t') := check_memory key p now t in
  (if ok then 1 else 0) + budget key t' now == budget key t now /\ row_ok key t' now.
Proof.
  intros Hok. pose proof (params_ok_spec p Hp) as [Hc _]. apply inject_1 in Hc. unfold check_memory, budget.
  destruct (t !! key) as [b|] eqn:Hb.
  - destruct (Hok b Hb) as [H0 Hu]. destruct (refilled_bounds p now b Hp H0 Hu) as [[R1 _] R2].
    destruct (Qltb (refilled p now b) 1) eqn:Hq; rewrite lookup_insert_eq.
    + rewrite refilled_now by lra. split; [lra|]. intros b' Hb'. rewrite lookup_insert_eq in Hb'. injection Hb' as <-.
      cbn. split; lra.
    + apply Qltb_nlt in Hq. rewrite refilled_now by lra. split; [lra|].
      intros b' Hb'. rewrite lookup_insert_eq in Hb'. injection Hb' as <-. cbn. split; lra.
  - rewrite lookup_insert_eq, refilled_now by lra. split; [lra|].
    intros b' Hb'. rewrite lookup_insert_eq in Hb'. injection Hb' as <-. cbn. split; lra.
Qed.
Lemma check_other key key' now t : key <> key' -> snd (check_memory key' p now t) !! key = t !! key.
Proof. intros Hne. unfold check_memory. destruct (t !! key'); [destruct (Qltb _ _)|]; cbn; by rewrite lookup_insert_ne. Qed.

(** A sweep removes only what has filled up again. *)
Lemma sweep_budget key now t : inject_Z (capacity p) <= 3600 * refill_per_sec p -> row_ok key t now ->
  budget key (snd (sweep_idle now 3600 t)) now == budget key t now /\ row_ok key (snd (sweep_idle now 3600 t)) now.
Proof.
  intros Hcap Hok. unfold budget, sweep_idle, row_ok. cbn [snd]. rewrite map_lookup_filter.
  destruct (t !! key) as [b|] eqn:Hb; cbn; [|split; [reflexivity|by intros b' ?]].
  destruct (Hok b Hb) as [H0 Hu].
  destruct (Qltb (updated_at b) (now - 3600)) eqn:Hq.
  - rewrite option_guard_False by done. split; [|by intros b' ?]. apply Qltb_lt in Hq.
    pose proof (params_ok_spec p Hp) as [_ Hr].
    assert (3600 * refill_per_sec p <= (now - updated_at b) * refill_per_sec p) by (apply Qmult_le_compat_r; lra).
    cbn. unfold refilled. qcases; lra.
  - rewrite option_guard_True by done. split; [reflexivity|]. by intros b' [= <-].
Qed.
End Budget.

(** ** The service on its database *)
Section Durable.
Context (p : BucketParams) (Hp : params_ok p = true).
Context (Hfull : inject_Z (capacity p) <= 3600 * refill_per_sec p).

Definition on_database (s : state) : Prop := exists l, limiter_ s = Some l /\ lm_conn l = true.

Lemma step_database e s : on_database s -> on_database (snd (step p e s)).
Proof.
  intros (l & Hl & Hc). destruct e as [f ip now|f now|]; cbn [step].
  - unfold limiter_check_. rewrite Hl. destruct (params_ok p); cbn [negb]; [|by exists l].
    unfold check. rewrite Hc. destruct (check_sqlite _ _ _ _ _). by exists l.
  - unfold sweeper_turn. rewrite Hl. destruct (sweeper_ s); [|by exists l].
    unfold sweep. rewrite Hc. destruct f; [destruct (sweep_idle _ _ _)| |]; by exists l.
  - by exists (new_limiter true).
Qed.

(** One event at [now]: what it lets through of [ip] is paid from the budget. *)
Lemma step_budget e s now ip : on_database s -> row_ok ("ip", ip) (table_ s) now -> default now (at_ e) = now ->
  (match e with Request _ ip' _ => if String.eqb ip' ip && fst (step p e s) then 1 else 0 | _ => 0 end)
    + budget p ("ip", ip) (table_ (snd (step p e s))) now == budget p ("ip", ip) (table_ s) now /\
  row_ok ("ip", ip) (table_ (snd (step p e s))) now.
Proof.
  intros (l & Hl & Hc) Hok Hat. destruct e as [f ip' now'|f now'|]; cbn in Hat; try subst now'; cbn [step].
  - unfold limiter_check_. rewrite Hl, Hp. cbn [negb]. unfold check. rewrite Hc.
    destruct f as [|e|]; [|cbn; rewrite andb_false_r; split; [lra|done]..].
    destruct (limiters_agree ("ip", ip') p now (table_ s) EAssertion Hp) as [-> _]. cbn [snd fst set_limiter set_table table_].
    destruct (String.eqb_spec ip' ip) as [->|Hne]; cbn [andb].
    + pose proof (check_budget p Hp ("ip", ip) now (table_ s) Hok) as H. destruct (check_memory _ _ _ _). exact H.
    + assert (("ip", ip) <> ("ip", ip')) as Hk by congruence. pose proof (check_other p _ _ now (table_ s) Hk) as H.
      unfold budget, row_ok. rewrite H. split; [lra|exact Hok].
  - unfold sweeper_turn. rewrite Hl. destruct (sweeper_ s); [|split; [cbn; lra|done]].
    unfold sweep. rewrite Hc. destruct f as [|e|]; [|split; [cbn; lra|done]..].
    pose proof (sweep_budget p Hp ("ip", ip) now (table_ s) Hfull Hok) as [H1 H2].
    destruct (sweep_idle now 3600 (table_ s)) as [n t'] eqn:Hs. cbn in *. split; [lra|done].
  - cbn. split; [lra|done].
Qed.

Lemma row_ok_later key t now now' : now <= now' -> row_ok key t now -> row_ok key t now'.
Proof. intros Hn Hok b Hb. destruct (Hok b Hb). split; [done|lra]. Qed.

Lemma passed_budget ip es : forall s now, on_database s -> row_ok ("ip", ip) (table_ s) now -> in_order now es ->
  inject_Z (passed p ip es s) <= budget p ("ip", ip) (table_ s) now + (last_time now es - now) * refill_per_sec p.
Proof.
  induction es as [|e es IH]; intros s now Hd Hok Ho; cbn [passed last_time].
  - pose proof (budget_nonneg p Hp _ _ _ Hok). change (inject_Z 0) with 0. lra.
  - set (now' := default now (at_ e)).
    assert (now <= now' /\ in_order now' es) as [Hn Ho'].
    { unfold now'. cbn in Ho. destruct (at_ e); cbn; [done|split; [lra|done]]. }
    pose proof (row_ok_later _ _ _ _ Hn Hok) as Hok'.
    assert (default now' (at_ e) = now') as Hat by (unfold now'; by destruct (at_ e)).
    destruct (step_budget e s now' ip Hd Hok' Hat) as [Hb Hok2].
    pose proof (budget_later p Hp _ _ _ _ Hn Hok) as Hl. pose proof (step_database e s Hd) as Hd2.
    destruct (step p e s) as [ok s']. cbn [fst snd] in *.
    specialize (IH s' now' Hd2 Hok2 Ho').
    assert ((last_time now' es - now) * refill_per_sec p ==
      (now' - now) * refill_per_sec p + (last_time now' es - now') * refill_per_sec p) as -> by ring.
    rewrite inject_Z_plus.
    assert (inject_Z (match e with Request _ ip' _ => if String.eqb ip' ip && ok then 1 else 0 | _ => 0 end) ==
            match e with Request _ ip' _ => if String.eqb ip' ip && ok then 1 else 0 | _ => 0 end) as ->
      by (destruct e; [destruct (_ && _)|..]; reflexivity).
    lra.
Qed.
End Durable.

(** ** The properties *)

(** C17: A restart does not refill anyone's bucket.  On its database the service lets through
    of one address at most the capacity and the refill of the time that went by, however
    requests, failed transactions, sweeps, restarts and crashes interleave; the sweeper's
    hour must be enough to fill a bucket. *)
Theorem durable_bound (p : BucketParams) (ip : string) (es : list event) (start : time) :
  params_ok p = true -> inject_Z (capacity p) <= 3600 * refill_per_sec p -> in_order start es ->
  inject_Z (passed p ip es (init_limiter true (mkState None false ∅))) <=
    inject_Z (capacity p) + (last_time start es - start) * refill_per_sec p.
Proof.
  intros Hp Hf Ho.
  pose proof (passed_budget p Hp Hf ip es (init_limiter true (mkState None false ∅)) start) as H.
  apply H; [by exists (new_limiter true)|done|done].
Qed.
Definition demo_history : list event :=
  [Request Fine "10.0.0.1" 0; Request Fine "10.0.0.1" 1; Restarted; Request Fine "10.0.0.1" 1;
   Swept Fine 2; Request Fine "10.0.0.2" 2; Request (Fails (EOther "OperationalError" "locked")) "10.0.0.1" 3;
   Request Fine "10.0.0.1" 4].
Lemma durable_bound_witness :
  passed (mkParams 2 (1#2)) "10.0.0.1" demo_history (init_limiter true (mkState None false ∅)) = 3%Z /\
  inject_Z (passed (mkParams 2 (1#2)) "10.0.0.1" demo_history (init_limiter true (mkState None false ∅))) <= inject_Z 2 + (4 - 0) * (1#2).
Proof.
  split; [vm_compute; reflexivity|].
  apply (durable_bound (mkParams 2 (1#2)) "10.0.0.1" demo_history 0); [reflexivity|vm_compute; discriminate|].
  cbn. repeat split; lra.
Defined.

(** Without a database every restart gives everyone a full bucket. *)
Example memory_refills :
  let s0 := init_limiter false (mkState None false ∅) in
  let p := mkParams 2 (1#2) in
  let burst s := [fst (limiter_check_ Fine p 0 "10.0.0.1" s)] in
  let s1 := snd (limiter_check_ Fine p 0 "10.0.0.1" (snd (limiter_check_ Fine p 0 "10.0.0.1" s0))) in
  (burst s1, burst (init_limiter false (shutdown_limiter s1))) = ([Ret false], [Ret true]).
Proof. vm_compute. reflexivity. Qed.

(** Only addresses are limited: whatever the service does, the buckets of tokens, which the
    configuration has a capacity and a refill rate for, are never written. *)
Theorem tokens_never_limited (f : fate exn) (p : BucketParams) (now : time) (client_ip token : string) (s : state)
    (l : TokenBucketLimiter) :
  limiter_ s = Some l ->
  let s' := snd (limiter_check_ f p now client_ip s) in
  table_ s' !! ("token", token) = table_ s !! ("token", token) /\
  exists l', limiter_ s' = Some l' /\ lm_memory l' !! ("token", token) = lm_memory l !! ("token", token).
Proof.
  intros Hl. unfold limiter_check_. rewrite Hl. destruct (negb (params_ok p)); [cbn; eauto|].
  assert (("token", token) <> ("ip", client_ip)) as Hne by done.
  unfold check. destruct (lm_conn l).
  - destruct f as [|e|]; cbn; eauto. destruct (table_ s !! ("ip", client_ip)) as [b|]; [destruct (Qltb _ _)|]; cbn;
      (split; [by rewrite lookup_insert_ne|eauto]).
  - pose proof (check_other p _ _ now (lm_memory l) Hne) as H. destruct (check_memory _ _ _ _) as [ok m]. cbn in *.
    split; [done|]. by eexists.
Qed.
Lemma tokens_never_limited_witness :
  table_ (snd (limiter_check_ Fine (mkParams 2 1) 0 "10.0.0.1" (init_limiter true (mkState None false ∅)))) !! ("token", "abc") = None.
Proof.
  destruct (tokens_never_limited Fine (mkParams 2 1) 0 "10.0.0.1" "abc" (init_limiter true (mkState None false ∅))
    (new_limiter true) eq_refl) as [H _]. rewrite H. reflexivity.
Defined.

(** In the moment between [close] and the end of the singleton, and before it is made, the
    limit does not hold: the closed object starts from its empty dict. *)
Theorem closed_limiter_forgets (f : fate exn) (p : BucketParams) (now : time) (key : string * string) (t : buckets) :
  fst (check f key p now (close (new_limiter true)) t) = Ret true /\
  snd (snd (check f key p now (close (new_limiter true)) t)) = t.
Proof. split; reflexivity. Qed.
