(* ===== verification/Boot.v ===== *)
(** * The whole lifespan ([server.lifespan], [tron_client.init], [security.lock_key_store])

    [Lifespan] has the singletons and what start and stop make of them when every step
    works.  Here are the steps in their order, each of which may fail: the databases that are
    opened, the keys, the two best-effort loads, and what is left when start-up fails half
    way.  A thread is whether it was started and not told to stop; [session] is whether the
    1Password client is signed in.  The log is left out. *)
From S2P Require Import Prelude PyStr Decimal Effects RiskTypes Exceptions Config AuditEntry World TronClient WalletPool Tokens Lifespan.
From S2P Require Delivery Alerts Webhooks RateLimit ConfigLoad Shutdown Sanctions PollerLife KeyProviders.
Open Scope string_scope.

Definition on_disk (db : option database) : bool := match db with Some _ => true | None => false end.
Record server := mkServer {
  proc : process; poller_ : option PollerLife.ReceiptPoller;
  sweeper_ : bool; hook_worker : bool; alert_worker : bool;
  sanctions_ : Sanctions.state; session : bool }.
Definition on_proc (f : process -> process) (v : server) : server :=
  mkServer (f (proc v)) (poller_ v) (sweeper_ v) (hook_worker v) (alert_worker v) (sanctions_ v) (session v).
(** A process that has imported the modules. *)
Definition imported (sanc : Sanctions.state) (signed_in : bool) : server :=
  mkServer import_modules None false false false sanc signed_in.

(** ** [TronClient.init] *)
Definition ENDPOINTS : list (string * string) :=
  [("mainnet", "https://api.trongrid.io"); ("shasta", "https://api.shasta.trongrid.io"); ("nile", "https://nile.trongrid.io")].
Record HTTPProvider := mkProvider { hp_endpoint : string; hp_api_key : option string; hp_timeout : Z }.
Definition endpoint_of (network : string) : option string :=
  snd <$> List.find (fun e => String.eqb e.1 network) ENDPOINTS.
Definition tron_init (network api_key : string) (timeout : Z) : outcome exn HTTPProvider :=
  match endpoint_of network with
  | None => Raise KeyProviders.SystemExit
  | Some e => Ret (mkProvider e (if String.eqb api_key "" then None else Some api_key) timeout)
  end.

(** ** [OnePasswordKeyProvider.lock]: what [op signout] did; the others do nothing *)
Inductive signout := SignedOut (returncode : Z) | SignoutFails (e : exn).
(** A failure that is an [Exception] is only logged; the exit status is not looked at. *)
Definition lock_key_store (provider : string) (op : signout) (v : server) : outcome exn unit * server :=
  if String.eqb provider "1password" then
    match op with
    | SignedOut rc =>
        (Ret tt, if (rc =? 0)%Z then mkServer (proc v) (poller_ v) (sweeper_ v) (hook_worker v) (alert_worker v) (sanctions_ v) false
                 else v)
    | SignoutFails e => (if is_Exception e then Ret tt else Raise e, v)
    end
  else (Ret tt, v).

Section Boot.
Context {S : Type} (s : ConfigLoad.Settings) (db : option database).
(** The fate of each [sqlite3.connect] with its schema, what [load_wallets] gives, the two
    loads that may fail. *)
Inductive opened := TokensDb | LimiterDb | PollerDb | HooksDb | AlertsDb.
Context (connect : opened -> fate exn) (keys : outcome exn (list wallet)).
Context (sanctions_load : Sanctions.state -> outcome exn Z * Sanctions.state) (startup_check : M (World S) exn unit).
Abbreviation MB := (M (server * World S) exn).

Definition change (f : server -> server) : MB unit := modify (fun '(v, w) => (f v, w)).
(** The constructor of a store: a connection when there is a path. *)
Definition opening (d : opened) : MB unit := fun vw =>
  match db with
  | None => (Ret tt, vw)
  | Some _ => match connect d with Fine => (Ret tt, vw) | Fails e => (Raise e, vw) | Dies => (Crash, vw) end
  end.
(** [try: ... except Exception] around a step whose result is not used. *)
Definition best_effort {A} (m : MB A) : MB unit :=
  catch (let! _ := m in ret tt) (fun e => if is_Exception e then Some (ret tt) else None).

Definition stored : database := default no_database db.
Definition set_client (p : process) : process :=
  mkProcess (token_stores p) (tokens_tokens p) (security_token_store p) (limiter p) (pool_ p) (tron_ p) true (hooks p) (alerts p) (timer p).
Definition set_limiter (l : option RateLimit.buckets) (p : process) : process :=
  mkProcess (token_stores p) (tokens_tokens p) (security_token_store p) l (pool_ p) (tron_ p) (client p) (hooks p) (alerts p) (timer p).
Definition set_pool (pl : pool) (p : process) : process :=
  mkProcess (token_stores p) (tokens_tokens p) (security_token_store p) (limiter p) pl (tron_ p) (client p) (hooks p) (alerts p) (timer p).
Definition set_hooks_ (h : Webhooks.state) (p : process) : process :=
  mkProcess (token_stores p) (tokens_tokens p) (security_token_store p) (limiter p) (pool_ p) (tron_ p) (client p) h (alerts p) (timer p).
Definition set_alerts_ (a : Alerts.state) (p : process) : process :=
  mkProcess (token_stores p) (tokens_tokens p) (security_token_store p) (limiter p) (pool_ p) (tron_ p) (client p) (hooks p) a (timer p).
Definition set_timer (t : Shutdown.state) (p : process) : process :=
  mkProcess (token_stores p) (tokens_tokens p) (security_token_store p) (limiter p) (pool_ p) (tron_ p) (client p) (hooks p) (alerts p) t.

Definition hooks_on : bool :=
  match ConfigLoad.WEBHOOK_URLS (ConfigLoad.s_webhooks s) with [] => false | _ => true end &&
  negb (String.eqb (ConfigLoad.WEBHOOK_SIGNING_SECRET (ConfigLoad.s_webhooks s)) "").
Definition alerts_on : bool :=
  negb (String.eqb (ConfigLoad.TELEGRAM_BOT_TOKEN (ConfigLoad.s_alerts s)) "" ||
        String.eqb (ConfigLoad.TELEGRAM_CHAT_ID (ConfigLoad.s_alerts s)) "").

(** *** The steps before [yield] *)
Definition boot_client : MB unit :=
  match tron_init (TRON_NETWORK (ConfigLoad.s_config s)) (ConfigLoad.TRONGRID_API_KEY (ConfigLoad.s_tron s))
          (TRON_HTTP_TIMEOUT (ConfigLoad.s_config s)) with
  | Ret _ => change (on_proc set_client)
  | Raise e => raise e
  | Crash => fun vw => (Crash, vw)
  end.
Definition boot_tokens : MB unit := do! opening TokensDb in change (on_proc (init_token_store db)).
Definition boot_limiter : MB unit :=
  do! opening LimiterDb in
  change (fun v => mkServer (set_limiter (Some (db_buckets stored)) (proc v)) (poller_ v) true (hook_worker v) (alert_worker v)
                     (sanctions_ v) (session v)).
Definition boot_wallets : MB unit := fun vw =>
  match keys with
  | Ret ws => change (on_proc (fun p => set_pool (init ws (pool_ p)) p)) vw
  | Raise e => (Raise e, vw)
  | Crash => (Crash, vw)
  end.
Definition boot_poller : MB unit :=
  do! opening PollerDb in
  change (fun v => mkServer (proc v) (Some (snd (PollerLife.init_poller (on_disk db) (poller_ v)))) (sweeper_ v)
                     (hook_worker v) (alert_worker v) (sanctions_ v) (session v)).
Definition boot_hooks : MB unit :=
  do! when hooks_on (opening HooksDb) in
  let w := ConfigLoad.s_webhooks s in
  change (fun v => mkServer (set_hooks_ (Webhooks.init_webhooks (db_hooks stored) (ConfigLoad.WEBHOOK_URLS w)
                                           (ConfigLoad.WEBHOOK_SIGNING_SECRET w) (ConfigLoad.WEBHOOK_EVENTS w) (hooks (proc v))) (proc v))
                     (poller_ v) (sweeper_ v) hooks_on (alert_worker v) (sanctions_ v) (session v)).
Definition boot_alerts : MB unit :=
  do! when alerts_on (opening AlertsDb) in
  let a := ConfigLoad.s_alerts s in
  change (fun v => mkServer (set_alerts_ (Alerts.init_alerts (db_alerts stored) (ConfigLoad.TELEGRAM_BOT_TOKEN a) (ConfigLoad.TELEGRAM_CHAT_ID a)
                                           (ConfigLoad.ALERT_EVENTS a) (ConfigLoad.ALERT_SEND_THRESHOLD_USDT a)
                                           (ConfigLoad.ALERT_SANCTIONS_HIT_NOTIFY a) (ConfigLoad.ALERT_QUIET_HOURS_UTC a) (alerts (proc v)))
                              (proc v))
                     (poller_ v) (sweeper_ v) (hook_worker v) alerts_on (sanctions_ v) (session v)).
Definition boot_timer (now : time) : MB unit :=
  change (on_proc (fun p => set_timer (Shutdown.reset_timer (SHUTDOWN_TIMEOUT (ConfigLoad.s_config s)) now
                                         (Shutdown.mark_started now (timer p))) p)).
Definition boot_sanctions : MB unit :=
  best_effort (fun '(v, w) =>
    let '(o, sanc) := sanctions_load (sanctions_ v) in
    (o, (mkServer (proc v) (poller_ v) (sweeper_ v) (hook_worker v) (alert_worker v) sanc (session v), w))).
Definition boot_check : MB unit :=
  best_effort (fun '(v, w) => let '(o, w') := startup_check w in (o, (v, w'))).
Definition boot (now : time) : MB unit :=
  do! boot_client in
  do! boot_tokens in
  do! boot_limiter in
  do! boot_wallets in
  do! boot_poller in
  do! boot_hooks in
  do! boot_alerts in
  do! boot_timer now in
  do! boot_sanctions in
  boot_check.

(** *** After [yield]: every step swallows its own failures but the last

    [close]: the idempotency store's.  The wallet objects that lost their keys are returned. *)
Definition lock_ (provider : string) (op : signout) : MB unit := fun '(v, w) =>
  let '(o, v) := lock_key_store provider op v in (o, (v, w)).
Definition in_world {A} (m : M (World S) exn A) : MB A := fun '(v, w) => let '(o, w) := m w in (o, (v, w)).
Definition shutdown (E : Env) (close : fate exn -> S -> S) (provider : string) (op : signout) : MB (list wallet) :=
  let! v := gets fst in
  let '(ws, p) := stop (proc v) in
  do! change (fun v => mkServer p (snd (PollerLife.shutdown_poller (poller_ v))) false false false (sanctions_ v) (session v)) in
  let! fc := in_world (ext (fun n => Ret (env_sql E n))) in
  do! in_world (modify (fun w => set_idem (close fc (w_idem w)) w)) in
  do! in_world (AuditLog.close_audit_file E) in
  do! lock_ provider op in
  ret ws.
End Boot.

(** ** Facts *)
Section Facts.
Context {S : Type} (s : ConfigLoad.Settings) (db : option database).
Context (connect : opened -> fate exn) (keys : outcome exn (list wallet)).
Context (sanctions_load : Sanctions.state -> outcome exn Z * Sanctions.state) (startup_check : M (World S) exn unit).
Abbreviation boot := (boot s db connect keys sanctions_load startup_check).
Definition opens (d : opened) : Prop := db = None \/ connect d = Fine.
Lemma opening_ret d vw : fst (opening (S:=S) db connect d vw) = Ret tt <-> opens d.
Proof. unfold opening, opens. destruct db; [|by split; [left|]]. destruct (connect d); split; naive_solver. Qed.
Lemma opening_same d vw : snd (opening (S:=S) db connect d vw) = vw.
Proof. unfold opening. destruct db; [|done]. by destruct (connect d). Qed.
(** A step that opens a database and then changes the process: both or neither. *)
Lemma opening_then d f vw : opens d -> (do! opening (S:=S) db connect d in change f) vw = (Ret tt, (f vw.1, vw.2)).
Proof.
  intros H. pose proof (proj2 (opening_ret d vw) H) as H1. pose proof (opening_same d vw) as H2.
  unfold bind. destruct (opening db connect d vw) as [o vw']. cbn in *. subst. by destruct vw.
Qed.
Lemma opening_else d (k : unit -> M (server * World S) exn unit) vw : ~ opens d ->
  snd (bind (opening (S:=S) db connect d) k vw) = vw /\ forall a, fst (bind (opening (S:=S) db connect d) k vw) <> Ret a.
Proof.
  intros H. pose proof (opening_ret d vw) as H1. pose proof (opening_same d vw) as H2.
  unfold bind. destruct (opening db connect d vw) as [[[]|e|] vw']; cbn in *; [by destruct H; apply H1|done..].
Qed.
Lemma best_effort_ret {A} (m : M (server * World S) exn A) vw :
  fst (best_effort m vw) = Ret tt <-> match fst (m vw) with Ret _ => True | Raise e => is_Exception e = true | Crash => False end.
Proof.
  unfold best_effort, catch, bind. destruct (m vw) as [[a|e|] vw']; cbn; [done| |done].
  destruct (is_Exception e) eqn:He; cbn; split; done || congruence.
Qed.

(** What must be there for the process to serve. *)
Record bootable (ws : list wallet) : Prop := {
  bt_network : endpoint_of (TRON_NETWORK (ConfigLoad.s_config s)) <> None;
  bt_stores : opens TokensDb /\ opens LimiterDb /\ opens PollerDb;
  bt_keys : keys = Ret ws;
  bt_hooks : hooks_on s = true -> opens HooksDb;
  bt_alerts : alerts_on s = true -> opens AlertsDb }.
Definition up (ws : list wallet) (now : time) (sanc : Sanctions.state) (signed_in : bool) : server :=
  mkServer (start s db ws now import_modules) (Some (PollerLife.start (PollerLife.new_poller (on_disk db))))
    true (hooks_on s) (alerts_on s) sanc signed_in.

(** The steps up to the two loads. *)
Definition wired (now : time) : M (server * World S) exn unit :=
  do! boot_client s in
  do! boot_tokens db connect in
  do! boot_limiter db connect in
  do! boot_wallets keys in
  do! boot_poller db connect in
  do! boot_hooks s db connect in
  do! boot_alerts s db connect in
  boot_timer s now.
Lemma boot_wired now vw : boot now vw = (do! wired now in do! boot_sanctions sanctions_load in boot_check startup_check) vw.
Proof.
  unfold Boot.boot, wired, bind. repeat match goal with |- context [match ?m ?s with _ => _ end] =>
    destruct (m s) as [[[]|?|] ?]; try reflexivity end.
Qed.
Lemma boot_client_ret vw : boot_client (S:=S) s vw =
  match endpoint_of (TRON_NETWORK (ConfigLoad.s_config s)) with
  | Some _ => (Ret tt, (on_proc set_client vw.1, vw.2))
  | None => (Raise KeyProviders.SystemExit, vw)
  end.
Proof. unfold boot_client, tron_init. destruct (endpoint_of _); [|done]. by destruct vw. Qed.
Lemma wired_up ws now sanc signed_in w : bootable ws ->
  wired now (imported sanc signed_in, w) = (Ret tt, (up ws now sanc signed_in, w)).
Proof.
  intros [H1 (H2 & H3 & H4) H5 H6 H7]. unfold wired, bind at 1. rewrite boot_client_ret. destruct (endpoint_of _); [|done]. cbn [fst snd].
  unfold boot_tokens, boot_limiter, boot_poller. unfold bind at 1. rewrite opening_then by done. cbn [fst snd].
  unfold bind at 1. rewrite opening_then by done. cbn [fst snd]. unfold bind at 1, boot_wallets. rewrite H5. cbn [change modify fst snd].
  unfold bind at 1. rewrite opening_then by done. cbn [fst snd].
  unfold boot_hooks, boot_alerts.
  assert (forall b d f vw, (b = true -> opens d) -> (do! when b (opening (S:=S) db connect d) in change f) vw = (Ret tt, (f vw.1, vw.2))) as Hw.
  { intros [] d f vw Hd; [apply opening_then; by apply Hd|]. by destruct vw. }
  unfold bind at 1. rewrite Hw by done. cbn [fst snd]. unfold bind at 1. rewrite Hw by done. cbn [fst snd].
  unfold boot_timer, change, modify, up. destruct db; reflexivity.
Qed.
(** A bind whose first program cannot return. *)
Lemma bind_ret {W A B} (m : M W exn A) (k : A -> M W exn B) w b : fst (bind m k w) = Ret b ->
  exists a w', m w = (Ret a, w') /\ fst (k a w') = Ret b.
Proof. unfold bind. destruct (m w) as [[a|e|] w']; [by exists a, w'|done..]. Qed.
Lemma opening_then_ret d (k : unit -> M (server * World S) exn unit) vw :
  fst (bind (opening (S:=S) db connect d) k vw) = Ret tt -> opens d /\ fst (k tt vw) = Ret tt.
Proof.
  intros ([] & vw' & H1 & H2)%bind_ret. pose proof (opening_same d vw) as Hs. rewrite H1 in Hs. cbn in Hs. subst vw'.
  split; [|done]. apply (opening_ret d vw). by rewrite H1.
Qed.
Ltac next H H1 := let vw := fresh "vw" in clear H1; apply bind_ret in H as ([] & vw & H1 & H).
Ltac opened_by H1 := eapply opening_then_ret; by rewrite H1.
Lemma wired_ret now vw : fst (wired now vw) = Ret tt -> exists ws, bootable ws.
Proof.
  unfold wired. intros ([] & vw1 & H1 & H)%bind_ret. rewrite boot_client_ret in H1.
  assert (Hn : endpoint_of (TRON_NETWORK (ConfigLoad.s_config s)) <> None) by (intros Hn; by rewrite Hn in H1).
  next H H1. assert (HT : opens TokensDb) by (unfold boot_tokens in H1; opened_by H1).
  next H H1. assert (HL : opens LimiterDb) by (unfold boot_limiter in H1; opened_by H1).
  next H H1. unfold boot_wallets in H1. destruct keys as [ws|e'|] eqn:Hk; [|done..].
  next H H1. assert (HP : opens PollerDb) by (unfold boot_poller in H1; opened_by H1).
  next H H1. assert (HH : hooks_on s = true -> opens HooksDb)
    by (intros Hon; unfold boot_hooks in H1; rewrite Hon in H1; cbn [when] in H1; opened_by H1).
  next H H1. assert (HA : alerts_on s = true -> opens AlertsDb)
    by (intros Hon; unfold boot_alerts in H1; rewrite Hon in H1; cbn [when] in H1; opened_by H1).
  exists ws. by split.
Qed.
(** The two loads leave the process as it is but for the sanctions list, and end it only by
    what is no [Exception], or by its death. *)
Lemma best_effort_runs {A} (m : M (server * World S) exn A) vw :
  snd (best_effort m vw) = snd (m vw) /\
  (match fst (m vw) with Raise e => is_Exception e = true | Crash => False | Ret _ => True end -> fst (best_effort m vw) = Ret tt).
Proof.
  unfold best_effort, catch, bind. destruct (m vw) as [[a|e|] vw']; cbn; [done| |done].
  by destruct (is_Exception e).
Qed.
Lemma loads_keep vw : (boot_sanctions (S:=S) sanctions_load vw).2.2 = vw.2 /\
  (boot_sanctions (S:=S) sanctions_load vw).2.1 =
    mkServer (proc vw.1) (poller_ vw.1) (sweeper_ vw.1) (hook_worker vw.1) (alert_worker vw.1)
      (snd (sanctions_load (sanctions_ vw.1))) (session vw.1).
Proof.
  unfold boot_sanctions. destruct vw as [v w]. destruct (best_effort_runs (fun '(v, w) =>
    let '(o, sanc) := sanctions_load (sanctions_ v) in
    (o, (mkServer (proc v) (poller_ v) (sweeper_ v) (hook_worker v) (alert_worker v) sanc (session v), w))) (v, w)) as [-> _].
  cbn. by destruct (sanctions_load (sanctions_ v)).
Qed.
Lemma check_keeps vw : (boot_check startup_check vw).2.1 = vw.1.
Proof.
  unfold boot_check. destruct vw as [v w].
  destruct (best_effort_runs (fun '(v, w) => let '(o, w') := startup_check w in (o, (v, w'))) (v, w)) as [-> _].
  cbn. by destruct (startup_check w).
Qed.
(** A load that only raises an [Exception]. *)
Definition tame {A} (o : outcome exn A) : Prop := match o with Raise e => is_Exception e = true | Crash => False | Ret _ => True end.
End Facts.

(** ** The properties *)

(** The process comes up exactly when the network is known, every database it needs opens and
    the keys load; the sanctions list and the reconciliation cannot prevent it.  It then has
    the singletons of [Lifespan.start], one running thread per part that is configured, and
    the 1Password session it found. *)
Theorem boot_serves {S : Type} (s : ConfigLoad.Settings) (db : option database) (connect : opened -> fate exn)
    (keys : outcome exn (list wallet)) (sanctions_load : Sanctions.state -> outcome exn Z * Sanctions.state)
    (startup_check : M (World S) exn unit) (now : time) (sanc : Sanctions.state) (signed_in : bool) (w : World S) :
  (forall st, tame (fst (sanctions_load st))) -> (forall w, tame (fst (startup_check w))) ->
  let '(o, (v, _)) := boot s db connect keys sanctions_load startup_check now (imported sanc signed_in, w) in
  (o = Ret tt <-> exists ws, bootable s db connect keys ws) /\
  (forall ws, bootable s db connect keys ws -> v = up s db ws now (snd (sanctions_load sanc)) signed_in).
Proof.
  intros Hsanc Hcheck. destruct (boot _ _ _ _ _ _ _ _) as [o [v w']] eqn:E.
  pose proof (boot_wired s db connect keys sanctions_load startup_check now (imported sanc signed_in, w)) as Hb. rewrite E in Hb.
  split.
  - split.
    + intros ->. apply (wired_ret (S:=S) s db connect keys now (imported sanc signed_in, w)).
      symmetry in Hb. apply (f_equal fst) in Hb. apply bind_ret in Hb as ([] & vw & H & _). by rewrite H.
    + intros [ws Hws]. unfold bind in Hb. rewrite (wired_up s db connect keys ws now sanc signed_in w Hws) in Hb.
      set (u := (up s db ws now sanc signed_in, w)) in *.
      assert (fst (boot_sanctions (S:=S) sanctions_load u) = Ret tt) as Hs.
      { unfold boot_sanctions. apply best_effort_runs. unfold u. specialize (Hsanc (sanctions_ (up s db ws now sanc signed_in))).
        cbn. by destruct (sanctions_load _). }
      destruct (boot_sanctions sanctions_load u) as [o1 u1]. cbn in Hs. subst o1.
      assert (fst (boot_check startup_check u1) = Ret tt) as Hc.
      { unfold boot_check. apply best_effort_runs. destruct u1 as [v1 w1]. specialize (Hcheck w1). by destruct (startup_check w1). }
      by rewrite <- Hb in Hc.
  - intros ws Hws. unfold bind in Hb. rewrite (wired_up s db connect keys ws now sanc signed_in w Hws) in Hb.
    set (u := (up s db ws now sanc signed_in, w)) in *. pose proof (loads_keep (S:=S) sanctions_load u) as [_ Hl].
    assert (fst (boot_sanctions (S:=S) sanctions_load u) = Ret tt) as Hs.
    { unfold boot_sanctions. apply best_effort_runs. unfold u. specialize (Hsanc (sanctions_ (up s db ws now sanc signed_in))).
      cbn. by destruct (sanctions_load _). }
    destruct (boot_sanctions sanctions_load u) as [o1 u1]. cbn in Hs, Hl. subst o1.
    pose proof (check_keeps (S:=S) startup_check u1) as Hk. rewrite <- Hb in Hk. cbn in Hk. rewrite Hk, Hl. reflexivity.
Qed.


Definition disk_tame (E : Env) : Prop := forall n, tame (fate_outcome (env_disk E n)).
Lemma close_audit_runs {S : Type} (E : Env) (w : World S) : disk_tame E ->
  exists w', AuditLog.close_audit_file E w = (Ret tt, w') /\ au_open (w_audit w') = false /\ w_attempts w' = w_attempts w.
Proof.
  intros Hd. specialize (Hd (w_tick w)). unfold AuditLog.close_audit_file, bind, gets. cbn [fst].
  destruct (au_open (w_audit w)) eqn:Ho; cbn [when]; [|by exists w].
  unfold swallow, try_except, catch, AuditLog.disk, ext. destruct (env_disk E (w_tick w)) as [|e|]; cbn in *; [by eexists| |done].
  rewrite Hd. by eexists.
Qed.

(** Shutting down cannot fail half way: whatever the state, and whatever the disk and the
    database do, every wallet of the pool loses its key, every thread is told to stop, every
    singleton is gone, the audit file is closed, nothing is broadcast; and the 1Password
    session ends if [op] ends it.  Only an [op] that raises what is no [Exception] shows. *)
Theorem shutdown_clears {S : Type} (E : Env) (close : fate exn -> S -> S) (provider : string) (op : signout) (v : server) (w : World S) :
  disk_tame E ->
  let '(o, (v', w')) := shutdown E close provider op (v, w) in
  (o = Ret (fst (destroy (pool_ (proc v)))) \/
   exists e, op = SignoutFails e /\ is_Exception e = false /\ provider = "1password" /\ o = Raise e) /\
  (forall n x, p_wallets (pool_ (proc v)) !! n = Some x -> In (destroy_wallet x) (fst (destroy (pool_ (proc v))))) /\
  (forall x, In x (fst (destroy (pool_ (proc v)))) -> wl_priv_key x = None) /\
  count (pool_ (proc v')) = 0%Z /\ poller_ v' = None /\ sweeper_ v' = false /\ hook_worker v' = false /\ alert_worker v' = false /\
  limiter (proc v') = None /\ Webhooks.wh_store (hooks (proc v')) = None /\ client (proc v') = false /\
  au_open (w_audit w') = false /\ w_attempts w' = w_attempts w /\
  session v' = (if String.eqb provider "1password" then match op with SignedOut rc => negb (rc =? 0)%Z && session v | _ => session v end
                else session v).
Proof.
  intros Hdisk. unfold shutdown, bind at 1, gets. cbn [fst]. unfold stop. destruct (destroy (pool_ (proc v))) as [ws pl] eqn:Hd.
  pose proof (destroy_wf (pool_ (proc v))) as Hwf. rewrite Hd in Hwf. destruct Hwf as [Hpl Hws]. cbn [fst].
  assert (Hin : forall n x, p_wallets (pool_ (proc v)) !! n = Some x -> In (destroy_wallet x) ws).
  { intros n x Hx. unfold destroy in Hd. injection Hd as <- <-. apply in_map_iff. exists (n, x). split; [done|].
    by apply list_elem_of_In, elem_of_map_to_list. }
  assert (Hp : snd (PollerLife.shutdown_poller (poller_ v)) = None) by by destruct (poller_ v).
  assert (Hc : count pl = 0%Z) by (by injection Hd as _ <-).
  unfold bind, change, modify, in_world, ext. cbn [fst snd].
  set (w1 := set_idem _ _). destruct (close_audit_runs E w1 Hdisk) as (w2 & -> & Ho & Ha).
  assert (Ha' : w_attempts w2 = w_attempts w) by (rewrite Ha; reflexivity). clearbody w1.
  unfold lock_, lock_key_store. destruct (String.eqb_spec provider "1password") as [->|].
  - destruct op as [rc|e]; [destruct (rc =? 0)%Z|destruct (is_Exception e) eqn:He]; cbn;
      (split_and!; [first [by left|right; by exists e]|done|by apply List.Forall_forall|done..]).
  - cbn. split_and!; [by left|done|by apply List.Forall_forall|done..].
Qed.

(** A start-up that fails after the keys were loaded runs none of [shutdown]: when the poller's
    database does not open, the pool holds every key and the 1Password session the keys were
    read in stays open. *)
Theorem failed_boot_keeps_session {S : Type} (s : ConfigLoad.Settings) (d : database) (connect : opened -> fate exn) (e : exn)
    (ws : list wallet) sanctions_load (startup_check : M (World S) exn unit) (now : time) (sanc : Sanctions.state) (w : World S) :
  endpoint_of (TRON_NETWORK (ConfigLoad.s_config s)) <> None ->
  connect TokensDb = Fine -> connect LimiterDb = Fine -> connect PollerDb = Fails e ->
  exists v, boot s (Some d) connect (Ret ws) sanctions_load startup_check now (imported sanc true, w) = (Raise e, (v, w)) /\
    session v = true /\ pool_ (proc v) = init ws pool0.
Proof.
  intros Hn Ht Hl Hp. eexists. split.
  - unfold boot, bind at 1. rewrite boot_client_ret. destruct (endpoint_of _); [|done]. cbn [fst snd].
    unfold boot_tokens, boot_limiter, boot_poller. unfold bind at 1. rewrite opening_then by (by right). cbn [fst snd].
    unfold bind at 1. rewrite opening_then by (by right). cbn [fst snd]. unfold bind at 1, boot_wallets, change, modify.
    unfold bind, opening. rewrite Hp. reflexivity.
  - by split.
Qed.

(** ** The hypotheses can hold *)
Definition demo_world : World unit :=
  mkWorld 0 tt (mkAudit "p" 1 true false [] []) (Webhooks.mkState None [] []) (Alerts.mkState None "" "" [] None false "") tron0 [] 0 [].
Definition demo_boot := boot (S:=unit) ConfigLoad.demo_served (Some demo_db) (fun _ => Fine) (Ret demo_wallets)
  (fun st => (Raise (EOther "URLError" "no network"), st)) (fun w => (Ret tt, w)) 100 (imported (Sanctions.state0 None) true, demo_world).
(** Start, then stop: the sanctions list could not be loaded, and the service ran all the same. *)
Example demo_lifespan :
  fst demo_boot = Ret tt /\ poller_ (snd demo_boot).1 <> None /\
  let '(o, (v, _)) := shutdown (S:=unit) sample_env (fun _ x => x) "1password" (SignedOut 0) (snd demo_boot) in
  o = Ret [mkWallet "main" "TMain" None] /\ poller_ v = None /\ session v = false.
Proof. split_and!; vm_compute; done. Qed.
(** The exit status of [op signout] is not looked at: a session that stays open is not noticed. *)
Example signout_unchecked v :
  lock_key_store "1password" (SignedOut 1) v = (Ret tt, v).
Proof. reflexivity. Qed.
