(* ===== verification/WebhookService.v ===== *)
(** * The webhook worker at work ([webhooks.WebhookWorker])

    The thread of [webhooks.py] on the world of the service: it signs and POSTs the rows
    that are due, writes the outcome to the table, and a row it gives up it reports to the
    audit log, which may enqueue deliveries again.  [session_post] is the receiver's side;
    a ghost list names the rows that were POSTed.  The rows and the table are [Delivery],
    the request is [Workers.webhook_post]. *)
From S2P Require Import Prelude PyStr Decimal Effects RiskTypes Exceptions Config AuditEntry Delivery World AuditLog Send Readers Ledger.
From S2P Require Webhooks Workers Shutdown Alerts.
Open Scope string_scope.
Open Scope Z_scope.

Abbreviation row := (delivery (string * entry)).
Abbreviation rtable := (store (string * entry)).

Section Worker.
Context {S : Type} (E : Env) (c : Config).
Context (hmac_hex : string -> string -> string) (json_dumps : entry -> string).
(** [self._session.post]: the status code and the text of the answer. *)
Context (session_post : nat -> Workers.post -> outcome exn (Z * string)).
Context (secret : string) (backoff : list time).
Abbreviation MW := (M (World S) exn).
Abbreviation WM := (M (World S * list row) exn).
Implicit Types w : World S.

(** The rows of the store; empty when webhooks are off. *)
Definition table_of w : rtable := default empty (Webhooks.wh_store (w_hooks w)).
Definition on_table (f : rtable -> rtable) w : World S :=
  set_hooks (Webhooks.set_store (f <$> Webhooks.wh_store (w_hooks w)) (w_hooks w)) w.

(** ** The store, a statement each *)
Definition take_due_ : MW (list row) :=
  let! t := now E in do! hooks_db E in gets (fun w => take_due t 50 (table_of w)).
Definition update_outcome_ (id : Z) (o : outcome_row) : MW unit :=
  do! hooks_db E in modify (on_table (update_outcome id o)).

(** ** The worker *)
Definition giveup_draft (d : row) (attempts : Z) (code : option Z) (error : string) : draft := fun id ts =>
  mkEntry id ts "WEBHOOK_GIVEUP" "" "" "" "" "USDT" "" "" "" "" "giveup"
    ("delivery_id=" +:+ str_of_Z (d_id d) +:+ " event=" +:+ d_event d +:+ " url=" +:+ (d_what d).1 +:+
     " attempts=" +:+ str_of_Z attempts +:+ " last_code=" +:+
     match code with Some n => str_of_Z n | None => "None" end +:+ " err=" +:+ error).

Definition _handle_failure (d : row) (attempts : Z) (code : option Z) (error : string) : MW unit :=
  if Z.of_nat (List.length backoff) <=? attempts then
    let! t := now E in
    do! update_outcome_ (d_id d) (mkOutcome GivingUp attempts 0 (Some t) code (Some error)) in
    swallow (record E c (giveup_draft d attempts code error))
  else
    let next_in := nth (Z.to_nat attempts) backoff 0%Q in
    let! t := now E in
    let! t' := now E in
    update_outcome_ (d_id d) (mkOutcome Pending attempts (t + next_in)%Q (Some t') code (Some error)).

(** The [try] of [_deliver_one]: [None] when the row was delivered and says so. *)
Definition attempt (d : row) (ts : Z) : MW (option (option Z * string)) :=
  try_except
    (let! r := ext (fun n => session_post n (Workers.webhook_post hmac_hex json_dumps secret ts d)) in
     let '(code, text) := r in
     if (200 <=? code) && (code <? 300) then
       let! t := now E in
       do! update_outcome_ (d_id d) (mkOutcome Delivered (d_attempts d + 1) 0 (Some t) (Some code) None) in
       ret None
     else ret (Some (Some code, "HTTP " +:+ str_of_Z code +:+ ": " +:+ str_take 200 text)))
    (fun exc => ret (Some (None, exn_class exc +:+ ": " +:+ exn_str exc))).
Definition _deliver_one (d : row) : MW unit :=
  let! ts := now E in
  let! failed := attempt d (Shutdown.int_of_Q ts) in
  match failed with
  | None => ret tt
  | Some (code, error) => _handle_failure d (d_attempts d + 1) code error
  end.

(** One round of [run]; [upto]: how many rows it gets to before it is told to stop. *)
Definition on_world {A} (m : MW A) : WM A := fun '(w, posts) => let '(o, w') := m w in (o, (w', posts)).
Definition deliver (d : row) : WM unit :=
  do! modify (fun '(w, posts) => (w, posts ++ [d])%list) in on_world (_deliver_one d).
Definition tick (upto : nat) : WM unit :=
  catch (let! due := on_world take_due_ in for_each (firstn upto due) deliver)
    (fun exc => if is_Exception exc then Some (ret tt) else None).
Fixpoint rounds (uptos : list nat) : WM unit :=
  match uptos with [] => ret tt | upto :: uptos => do! tick upto in rounds uptos end.
End Worker.

(** ** What the worker leaves alone *)
Section Frames.
Context {S : Type} (E : Env) (c : Config) (hmac_hex : string -> string -> string) (json_dumps : entry -> string)
  (session_post : nat -> Workers.post -> outcome exn (Z * string)) (secret : string) (backoff : list time).
Implicit Types w : World S.

(** A relation the worker's statements keep: on the clock, the hooks and the record. *)
Section Relation.
Context (R : World S -> World S -> Prop) `{!PreOrder R}.
Context (Htick : forall n w, R w (set_tick n w)) (Hhooks : forall h w, R w (set_hooks h w)).
Context (Hrecord : forall d attempts code error, Frame R (record E c (giveup_draft d attempts code error))).

Lemma frame_worker_ext {A} (f : nat -> outcome exn A) : Frame R (ext f).
Proof using Htick. intros w. apply Htick. Qed.
Lemma frame_worker_try {A} (m : M (World S) exn A) h : Frame R m -> (forall e, Frame R (h e)) -> Frame R (try_except m h).
Proof using PreOrder0.
  intros Hm Hh. apply frame_catch; [apply _|done|]. intros e r. destruct (is_Exception e); [|done]. by intros [= <-].
Qed.
#[local] Existing Instance frame_worker_ext.
Lemma frame_update id o : Frame R (update_outcome_ E id o).
Proof using PreOrder0 Htick Hhooks.
  unfold update_outcome_, hooks_db. apply frame_bind; [apply _..|]. intros _. apply frame_modify. intros w. apply Hhooks.
Qed.
Ltac steps := unfold now; repeat first [progress intros | apply frame_update | apply frame_worker_ext
  | apply frame_ret | apply frame_worker_try | apply Hrecord | apply frame_bind | assumption | case_match].
Lemma frame_failure d attempts code error : Frame R (_handle_failure E c backoff d attempts code error).
Proof using PreOrder0 Htick Hhooks Hrecord. unfold _handle_failure, swallow. steps. Qed.
Lemma frame_deliver_one d : Frame R (_deliver_one E c hmac_hex json_dumps session_post secret backoff d).
Proof using PreOrder0 Htick Hhooks Hrecord.
  unfold _deliver_one, attempt. steps. apply frame_failure.
Qed.
(** The ghost aside, so does a round. *)
Definition beside (s s' : World S * list row) : Prop := R s.1 s'.1.
#[export] Instance beside_preorder : PreOrder beside.
Proof using PreOrder0. split; [intros s; unfold beside; reflexivity|]. intros x y z. unfold beside. apply transitivity. Qed.
Lemma frame_on_world {A} (m : M (World S) exn A) : Frame R m -> Frame beside (on_world m).
Proof. intros H [w p]. unfold on_world. specialize (H w). by destruct (m w). Qed.
Lemma frame_tick upto : Frame beside (tick E c hmac_hex json_dumps session_post secret backoff upto).
Proof using PreOrder0 Htick Hhooks Hrecord.
  unfold tick. apply frame_catch; [apply _| |].
  - apply frame_bind; [apply _| |].
    + apply frame_on_world. unfold take_due_, now, hooks_db. repeat (apply frame_bind; [apply _..|]; intros). apply _.
    + intros due. apply frame_for_each; [apply _|]. intros d. unfold deliver. apply frame_bind; [apply _| |].
      * apply frame_modify. intros [w p]. unfold beside. reflexivity.
      * intros _. apply frame_on_world, frame_deliver_one.
  - intros e r. destruct (is_Exception e); [|done]. intros [= <-]. apply _.
Qed.
End Relation.

(** It pays nobody, and what it writes to the audit file claims no payment. *)
Lemma tick_quiet upto w posts :
  let w' := (snd (tick E c hmac_hex json_dumps session_post secret backoff upto (w, posts))).1 in
  same_core w w' /\ tells w w'.
Proof.
  split.
  - apply (frame_tick same_core); [done..|]. intros. apply _.
  - apply (frame_tick tells); [intros; by apply tells_same..|]. intros. by apply tells_record.
Qed.
End Frames.

(** ** One row *)

(** What an attempt on [d] may write. *)
Definition outcome_of (backoff : list time) (d : row) (o : outcome_row) : Prop :=
  o_attempts o = d_attempts d + 1 /\
  match o_status o with
  | Pending => d_attempts d + 1 < Z.of_nat (List.length backoff)
  | GivingUp => Z.of_nat (List.length backoff) <= d_attempts d + 1
  | Delivered => True
  | Failed => False
  end.
Definition with_table (f : rtable -> rtable) (h : Webhooks.state) : Webhooks.state :=
  Webhooks.set_store (f <$> Webhooks.wh_store h) h.
Definition table_in (h : Webhooks.state) : rtable := default empty (Webhooks.wh_store h).
Lemma table_update h id o : table_in (with_table (update_outcome id o) h) = update_outcome id o (table_in h).
Proof. by destruct h as [[t|] ev us]. Qed.

Section Row.
Context {S : Type} (E : Env) (c : Config) (hmac_hex : string -> string -> string) (json_dumps : entry -> string)
  (session_post : nat -> Workers.post -> outcome exn (Z * string)) (secret : string) (backoff : list time).
Implicit Types w : World S.
(** The statements of the store work, and the HTTP client answers or raises. *)
Context (Hdb : forall n, env_hooks E n = Fine).
Context (Hpost : forall n p, match session_post n p with Raise e => is_Exception e = true | Crash => False | Ret _ => True end).
Abbreviation deliver_one := (_deliver_one (S:=S) E c hmac_hex json_dumps session_post secret backoff).

(** Some answer of the receiver was a 2xx. *)
Definition accepts : Prop := exists n p code text, session_post n p = Ret (code, text) /\ 200 <= code < 300.
(** The row gets an outcome; when that is to give it up, the audit record follows. *)
Definition row_done (d : row) w (o : outcome exn unit) w' : Prop := exists out, outcome_of backoff d out /\
  (o_status out = Delivered -> accepts) /\
  ((o_status out <> GivingUp /\ o = Ret tt /\ w_audit w' = w_audit w /\
      w_hooks w' = with_table (update_outcome (d_id d) out) (w_hooks w)) \/
   (o_status out = GivingUp /\ exists w1 code error, w_audit w1 = w_audit w /\
      w_hooks w1 = with_table (update_outcome (d_id d) out) (w_hooks w) /\
      (o, w') = swallow (record E c (giveup_draft d (d_attempts d + 1) code error)) w1)).

Lemma failure_done d code error w w1 : w_hooks w1 = w_hooks w -> w_audit w1 = w_audit w ->
  wp (_handle_failure E c backoff d (d_attempts d + 1) code error) (row_done d w) w1.
Proof using Hdb.
  intros Hw Hau. unfold _handle_failure. destruct (Z.leb_spec (Z.of_nat (List.length backoff)) (d_attempts d + 1)) as [Hl|Hl].
  - unfold wp, update_outcome_, hooks_db, now, ext, bind, modify. cbn [fst snd]. rewrite Hdb. cbn [fate_outcome fst snd].
    eexists (mkOutcome GivingUp _ 0 (Some _) code (Some error)). split; [split; [reflexivity|exact Hl]|]. split; [done|]. right. split; [done|].
    eexists _, code, error. split; [|split; [|by rewrite <- surjective_pairing]]; cbn; [exact Hau|by rewrite Hw].
  - unfold wp, update_outcome_, hooks_db, now, ext, bind, modify. cbn [fst snd]. rewrite Hdb. cbn [fate_outcome fst snd].
    eexists (mkOutcome Pending _ _ (Some _) code (Some error)). split; [split; [reflexivity|exact Hl]|]. split; [done|]. left.
    split; [done|]. split; [done|]. split; [exact Hau|]. cbn. by rewrite Hw.
Qed.

Lemma deliver_one_done d w : wp (deliver_one d) (row_done d w) w.
Proof using Hdb Hpost.
  unfold _deliver_one. apply wp_bind. unfold wp at 1, now, ext. cbn [fst snd].
  set (w1 := set_tick _ w). set (ts := Shutdown.int_of_Q _). apply wp_bind. unfold attempt, try_except. apply wp_catch. apply wp_bind.
  unfold wp at 1, ext. cbn [fst snd]. pose proof (Hpost (w_tick w1) (Workers.webhook_post hmac_hex json_dumps secret ts d)) as Hp.
  destruct (session_post _ _) as [[code text]|e|] eqn:Hans; [|rewrite Hp; by apply failure_done|done].
  destruct ((200 <=? code) && (code <? 300)) eqn:Hcode; [|by apply failure_done]. apply andb_true_iff in Hcode as [Hc1 Hc2].
  unfold wp, update_outcome_, hooks_db, now, ext, bind, modify. cbn [fst snd]. rewrite Hdb. cbn [fate_outcome fst snd].
  eexists (mkOutcome Delivered _ 0 (Some _) (Some code) None). split; [split; [reflexivity|done]|]. split; [|left; by split_and!].
  intros _. eexists _, _, code, text. split; [exact Hans|]. lia.
Qed.
End Row.

(** ** What the record of a give-up does to the table *)
Section Record.
Context {S : Type} (E : Env) (c : Config).
Implicit Types w : World S.

(** The hooks as they were, but for pending rows with new ids at the end. *)
Definition grows w w' : Prop :=
  Webhooks.wh_event_filter (w_hooks w') = Webhooks.wh_event_filter (w_hooks w) /\
  Webhooks.wh_target_urls (w_hooks w') = Webhooks.wh_target_urls (w_hooks w) /\
  (store_wf (table_of w) -> store_wf (table_of w')) /\
  (next_id (table_of w) <= next_id (table_of w')) /\
  exists new, rows (table_of w') = (rows (table_of w) ++ new)%list /\
    Forall (fun r => d_status r = Pending /\ next_id (table_of w) <= d_id r) new.
Lemma hooks_grow_same w w' : w_hooks w' = w_hooks w -> grows w w'.
Proof. intros H. unfold grows, table_of. rewrite H. split_and!; [done..|]. exists []. by rewrite app_nil_r. Qed.
#[export] Instance grows_preorder : PreOrder grows.
Proof.
  split; [intros w; by apply hooks_grow_same|]. intros x y z (A1 & A2 & A3 & A4 & a & A5 & A6) (B1 & B2 & B3 & B4 & b & B5 & B6).
  split_and!; [congruence|congruence|auto|lia|]. exists (a ++ b)%list. rewrite B5, A5, app_assoc. split; [done|].
  apply Forall_app. split; [done|]. eapply Forall_impl; [exact B6|]. intros r [H1 H2]. split; [done|lia].
Qed.
#[local] Instance grows_ext {A} (f : nat -> outcome exn A) : Frame grows (ext f).
Proof. intros w. by apply hooks_grow_same. Qed.
#[local] Instance grows_audit f : Frame grows (upd_audit (S:=S) f).
Proof. intros w. by apply hooks_grow_same. Qed.
#[local] Instance grows_alerts (f : World S -> Alerts.state) : Frame (E:=exn) grows (modify (fun w => set_alerts (f w) w)).
Proof. intros w. by apply hooks_grow_same. Qed.
Lemma grows_try {A} (m : M (World S) exn A) h : Frame grows m -> (forall e, Frame grows (h e)) -> Frame grows (try_except m h).
Proof.
  intros Hm Hh. apply frame_catch; [apply _|done|]. intros e r. destruct (is_Exception e); [|done]. by intros [= <-].
Qed.
Lemma enqueue_grows t e url w : grows w (set_hooks (Webhooks.enqueue_url t e url (w_hooks w)) w).
Proof.
  unfold grows, table_of, Webhooks.enqueue_url. cbn [w_hooks set_hooks]. destruct (w_hooks w) as [[s|] ev us]; cbn.
  - split_and!; [done..|by apply (enqueue_wf t (a_id e) (a_event e) (url, e) s)|lia|]. eexists [_]. split; [reflexivity|].
    repeat constructor. cbn. lia.
  - split_and!; [done..|]. by exists [].
Qed.
Ltac grow := repeat first [progress intros | solve [apply _] | apply grows_try | apply frame_bind | apply frame_for_each
  | apply frame_modify | apply enqueue_grows | case_match].
#[local] Instance grows_deliveries e : Frame grows (enqueue_event_for_delivery (S:=S) E e).
Proof. unfold enqueue_event_for_delivery, swallow, hooks_db, now. grow. Qed.
#[local] Instance grows_notify e : Frame grows (notify_event (S:=S) E e).
Proof. unfold notify_event, swallow, hooks_db, now. grow. Qed.
#[local] Instance grows_durable e : Frame grows (write_durable (S:=S) E c e).
Proof. unfold write_durable, get_audit_file, disk. grow. Qed.
#[export] Instance grows_record d : Frame grows (record (S:=S) E c d).
Proof. unfold record, next_record_id, swallow. grow. Qed.

(** Nobody asked for the event: the hooks stay. *)
Definition same_hooks w w' : Prop := w_hooks w' = w_hooks w.
#[local] Instance same_hooks_preorder : PreOrder same_hooks.
Proof. split; [done|]. intros x y z H1 H2. unfold same_hooks in *. congruence. Qed.
#[local] Instance hooks_ext {A} (f : nat -> outcome exn A) : Frame same_hooks (ext f).
Proof. done. Qed.
#[local] Instance hooks_audit f : Frame same_hooks (upd_audit (S:=S) f).
Proof. done. Qed.
Lemma hooks_try {A} (m : M (World S) exn A) h : Frame same_hooks m -> (forall e, Frame same_hooks (h e)) -> Frame same_hooks (try_except m h).
Proof.
  intros Hm Hh. apply frame_catch; [apply _|done|]. intros e r. destruct (is_Exception e); [|done]. by intros [= <-].
Qed.
Ltac still := repeat first [progress intros | solve [apply _] | apply hooks_try | apply frame_bind | apply frame_for_each
  | solve [apply frame_modify; done] | case_match].
#[local] Instance hooks_notify e : Frame same_hooks (notify_event (S:=S) E e).
Proof. unfold notify_event, swallow, hooks_db, now. still. Qed.
#[local] Instance hooks_durable e : Frame same_hooks (write_durable (S:=S) E c e).
Proof. unfold write_durable, get_audit_file, disk. still. Qed.
(** What [record] does once the entry has its id. *)
Definition recording (e : entry) : M (World S) exn unit :=
  do! write_durable E c e in do! swallow (enqueue_event_for_delivery E e) in swallow (notify_event E e).
Lemma record_runs d w : exists w1, record E c d w = recording (entry_of E d w) w1 /\
  w_hooks w1 = w_hooks w /\ au_open_failed (w_audit w1) = au_open_failed (w_audit w).
Proof.
  set (w0 := set_audit (bump_seq (w_audit w)) w). set (w' := set_tick (Datatypes.S (w_tick w0)) w0).
  exists (set_audit (log_entry (entry_of E d w) (w_audit w')) w'). split; [reflexivity|]. done.
Qed.

Lemma record_unwanted d ev w : (forall id ts, a_event (d id ts) = ev) -> Webhooks.wants (w_hooks w) ev = false ->
  w_hooks (snd (record E c d w)) = w_hooks w.
Proof.
  intros Hd Hw. destruct (record_runs d w) as (w1 & -> & Hh & _).
  change (wp (recording (entry_of E d w)) (fun _ w' => w_hooks w' = w_hooks w) w1). unfold recording.
  apply wp_bind. apply (wp_frame same_hooks); [apply _|]. intros o w2 H2. unfold same_hooks in H2. destruct o as [[]|e|]; [|congruence..].
  apply wp_bind, wp_catch. unfold enqueue_event_for_delivery. apply wp_bind, wp_gets.
  replace (Webhooks.wants (w_hooks w2) (a_event (entry_of E d w))) with false by (unfold entry_of; rewrite H2, Hh, Hd; done).
  apply wp_ret. apply (wp_frame same_hooks); [apply hooks_try; [apply _|intros; apply _]|].
  intros o w3 H3. unfold same_hooks in H3. congruence.
Qed.

(** Everything works: the event is written and enqueued. *)
Context (Hdb : forall n, env_hooks E n = Fine) (Hdisk : forall n, env_disk E n = Fine).
Definition writable w : Prop := au_open_failed (w_audit w) = false.
Lemma durable_fine e w : writable w -> exists w', write_durable E c e w = (Ret tt, w') /\ w_hooks w' = w_hooks w /\ writable w'.
Proof using Hdisk.
  unfold writable. intros Hw. unfold write_durable, get_audit_file, bind, gets, try_except, catch, disk, ext, upd_audit, modify. cbn.
  rewrite Hw, orb_false_r. destruct (String.eqb (AUDIT_LOG_FILE c) ""); cbn; [rewrite Hw; by eexists|].
  destruct (au_open (w_audit w)); cbn; rewrite !Hdisk; cbn; rewrite ?Hdisk; cbn; eexists; split; try reflexivity; by split.
Qed.
Definition enqueue_one (e : entry) (url : string) : M (World S) exn unit :=
  swallow (let! t := now E in do! hooks_db E in modify (fun w => set_hooks (Webhooks.enqueue_url t e url (w_hooks w)) w)).
Lemma one_fine e url w : exists w' t, enqueue_one e url w = (Ret tt, w') /\ w_audit w' = w_audit w /\
  w_hooks w' = Webhooks.enqueue_url t e url (w_hooks w).
Proof using Hdb.
  unfold enqueue_one, swallow, try_except, catch, bind, now, hooks_db, ext, modify. cbn. rewrite Hdb. cbn. eexists _, _. by split.
Qed.
Lemma urls_fine e urls : forall w, exists w', for_each urls (enqueue_one e) w = (Ret tt, w') /\ w_audit w' = w_audit w.
Proof using Hdb.
  induction urls as [|u urls IH]; intros w; [by exists w|]. destruct (one_fine e u w) as (w1 & t & H1 & Ha & _).
  destruct (IH w1) as (w2 & H2 & Hb). exists w2. split; [|congruence]. cbn. unfold bind at 1. by rewrite H1.
Qed.
Lemma notify_fine e w : exists w', notify_event E e w = (Ret tt, w') /\ w_audit w' = w_audit w.
Proof using Hdb.
  unfold notify_event, bind, ext, gets. cbn. destruct (Alerts.alert_for _ _ _ _) as [m|]; [|by eexists].
  unfold swallow, try_except, catch, bind, now, hooks_db, ext, modify. cbn. rewrite Hdb. cbn. by eexists.
Qed.
Lemma record_fine d w : writable w -> exists w', record E c d w = (Ret tt, w') /\ writable w' /\ grows w w' /\
  (Webhooks.wants (w_hooks w) (a_event (entry_of E d w)) = true ->
   exists r, In r (rows (table_of w')) /\ d_status r = Pending /\ next_id (table_of w) <= d_id r).
Proof using Hdb Hdisk.
  intros Hw. pose proof (grows_record d w) as Hg. destruct (record_runs d w) as (w1 & Hr & Hh & Ho). rewrite Hr in *.
  set (e := entry_of E d w) in *. destruct (durable_fine e w1) as (w2 & Hd & Hh2 & Ho2); [by unfold writable; rewrite Ho|].
  assert (exists w3, swallow (enqueue_event_for_delivery E e) w2 = (Ret tt, w3) /\ w_audit w3 = w_audit w2 /\
    (Webhooks.wants (w_hooks w) (a_event e) = true ->
     exists r, In r (rows (table_of w3)) /\ d_status r = Pending /\ next_id (table_of w) <= d_id r)) as (w3 & He & Ha & Hp).
  { assert (enqueue_event_for_delivery E e w2 = if Webhooks.wants (w_hooks w) (a_event e)
      then for_each (Webhooks.wh_target_urls (w_hooks w)) (enqueue_one e) w2 else (Ret tt, w2)) as Hrun.
    { unfold enqueue_event_for_delivery, gets. unfold bind at 1. rewrite Hh2, Hh. by destruct (Webhooks.wants _ _). }
    unfold swallow, try_except, catch. rewrite Hrun.
    destruct (Webhooks.wants (w_hooks w) (a_event e)) eqn:Hwa; [|exists w2; by split_and!].
    destruct (urls_fine e (Webhooks.wh_target_urls (w_hooks w)) w2) as (w3 & H3 & Ha). exists w3. rewrite H3. split_and!; [done..|].
    intros _. revert Hwa H3. unfold Webhooks.wants. destruct (Webhooks.wh_store (w_hooks w)) as [t|] eqn:Ht; [|done].
    destruct (Webhooks.wh_target_urls (w_hooks w)) as [|u us]; [done|]. intros _. cbn. unfold bind at 1.
    destruct (one_fine e u w2) as (w4 & now4 & H4 & _ & Hh4). rewrite H4. intros H5.
    assert (Frame grows (for_each us (enqueue_one e))) as Hf.
    { apply frame_for_each; [apply _|]. intros x. unfold enqueue_one, swallow, hooks_db, now. grow. }
    specialize (Hf w4). rewrite H5 in Hf. cbn [snd] in Hf. destruct Hf as (_ & _ & _ & _ & new & Hn & _).
    assert (table_of w4 = snd (enqueue now4 (a_id e) (a_event e) (u, e) t)) as Ht4.
    { unfold table_of. rewrite Hh4, Hh2, Hh. unfold Webhooks.enqueue_url. by rewrite Ht. }
    exists (mkDelivery (next_id t) (a_id e) (a_event e) (u, e) Pending 0 now4 None None None now4).
    split; [|split; [done|unfold table_of; rewrite Ht; cbn; lia]].
    rewrite Hn, Ht4. apply in_or_app. left. cbn. apply in_or_app. right. by left. }
  assert (exists w4, swallow (notify_event E e) w3 = (Ret tt, w4) /\ w_audit w4 = w_audit w3 /\ w_hooks w4 = w_hooks w3) as (w4 & Hn & Hb & Hc).
  { destruct (notify_fine e w3) as (w4 & H4 & Hb). exists w4. unfold swallow, try_except, catch. rewrite H4. split_and!; [done..|].
    pose proof (hooks_notify e w3) as H. rewrite H4 in H. exact H. }
  assert (recording e w1 = (Ret tt, w4)) as Hrec by (unfold recording, bind; by rewrite Hd, He, Hn).
  rewrite Hrec in *. exists w4. split_and!; [done| |done|].
  - unfold writable in *. congruence.
  - unfold table_of in *. by rewrite Hc.
Qed.
End Record.

(** ** The attempts that are left *)
Section Left.
Context (backoff : list time) (sel : Z -> bool).

Definition left_of (r : row) : Z :=
  if sel (d_id r) && bool_decide (d_status r = Pending) then Workers.max_attempts backoff - d_attempts r else 0.
(** ... over the rows of the table that [sel] names. *)
Definition attempts_left (t : rtable) : Z := fold_right Z.add 0 (map left_of (rows t)).
Definition posted (posts : list row) : Z := Z.of_nat (List.length (List.filter (fun d => sel (d_id d)) posts)).
Definition one (d : row) : Z := if sel (d_id d) then 1 else 0.
Lemma posted_snoc posts d : posted (posts ++ [d]) = posted posts + one d.
Proof. unfold posted, one. rewrite List.filter_app, length_app. cbn. destruct (sel (d_id d)); cbn; lia. Qed.

Lemma row_updated d o : outcome_of backoff d o -> d_status d = Pending -> Workers.row_ok backoff d ->
  Workers.row_ok backoff (apply_outcome o d) /\ left_of (apply_outcome o d) + one d <= left_of d.
Proof.
  intros [Ha Ho] Hp (Hb & Hlt & _). specialize (Hlt Hp). unfold Workers.row_ok, left_of, one, apply_outcome, Workers.max_attempts in *. cbn.
  rewrite Ha, Hp. destruct (o_status o) eqn:Hs; [| |done|]; (split; [split_and!; try lia; done|]);
    destruct (sel (d_id d)); cbn; repeat case_bool_decide; simplify_eq; try lia; done.
Qed.

(** A row is updated and no other. *)
Lemma left_update t d o : store_wf t -> Workers.rows_ok backoff t -> Workers.current t d -> outcome_of backoff d o ->
  store_wf (update_outcome (d_id d) o t) /\ Workers.rows_ok backoff (update_outcome (d_id d) o t) /\
  attempts_left (update_outcome (d_id d) o t) + one d <= attempts_left t.
Proof.
  intros Hwf Hok [Hin Hp] Ho. split; [by apply update_wf|]. split.
  { intros x Hx. apply Workers.in_update in Hx as (x0 & Hx0 & ->). destruct (Z.eqb_spec (d_id x0) (d_id d)) as [He|]; [|auto].
    rewrite (Workers.ids_unique t x0 d Hwf Hx0 Hin He). by apply row_updated; [..|apply Hok]. }
  destruct (row_updated d o Ho Hp (Hok d Hin)) as [_ Hl]. destruct Hwf as [Hn _].
  unfold attempts_left, update_outcome. cbn. clear Hok Ho Hp. induction (rows t) as [|x l IH]; [done|]. cbn in *.
  inversion Hn as [|? ? Hx Hn']; subst. destruct Hin as [->|Hin].
  - rewrite Z.eqb_refl. assert (map (fun r => if d_id r =? d_id d then apply_outcome o r else r) l = l) as ->; [|lia].
    rewrite <- (map_id l) at 2. apply map_ext_in. intros r Hr. destruct (Z.eqb_spec (d_id r) (d_id d)) as [He|]; [|done].
    destruct Hx. rewrite <- He. by apply in_map.
  - destruct (Z.eqb_spec (d_id x) (d_id d)) as [He|]; [|specialize (IH Hn' Hin); lia].
    destruct Hx. rewrite He. by apply in_map.
Qed.
Lemma left_bound t : Workers.rows_ok backoff t ->
  0 <= attempts_left t <= Workers.max_attempts backoff * Z.of_nat (List.length (List.filter (fun r => sel (d_id r)) (rows t))).
Proof.
  unfold Workers.rows_ok, attempts_left. intros Hok. induction (rows t) as [|x l IH]; [cbn; lia|]. cbn [map fold_right List.filter].
  destruct IH as [H1 H2]; [intros d Hd; apply Hok; by right|]. destruct (Hok x) as (Hb & _); [by left|].
  unfold left_of at 1 3. destruct (sel (d_id x)); cbn [andb List.length]; [destruct (bool_decide _)|]; lia.
Qed.
End Left.

(** ** The posts are bounded *)
Section Bound.
Context {S : Type} (E : Env) (c : Config) (hmac_hex : string -> string -> string) (json_dumps : entry -> string)
  (session_post : nat -> Workers.post -> outcome exn (Z * string)) (secret : string) (backoff : list time).
Context (Hdb : forall n, env_hooks E n = Fine).
Context (Hpost : forall n p, match session_post n p with Raise e => is_Exception e = true | Crash => False | Ret _ => True end).
Context (sel : Z -> bool).
Implicit Types w : World S.
Implicit Types s : World S * list row.
Abbreviation deliver := (deliver (S:=S) E c hmac_hex json_dumps session_post secret backoff).
Abbreviation deliver_one := (_deliver_one (S:=S) E c hmac_hex json_dumps session_post secret backoff).

(** Give-ups are told to the audit log only. *)
Record bounded s s' : Prop := mkBounded {
  bd_wf : store_wf (table_of s'.1); bd_ok : Workers.rows_ok backoff (table_of s'.1);
  bd_wants : Webhooks.wants (w_hooks s'.1) "WEBHOOK_GIVEUP" = false;
  bd_left : posted sel s'.2 + attempts_left backoff sel (table_of s'.1) <= posted sel s.2 + attempts_left backoff sel (table_of s.1) }.
Definition in_order s : Prop := bounded s s.
Lemma bounded_trans s s1 s2 : bounded s s1 -> bounded s1 s2 -> bounded s s2.
Proof. intros [A1 A2 A3 A4] [B1 B2 B3 B4]. split; [done..|lia]. Qed.
Lemma bounded_order s s' : bounded s s' -> in_order s'.
Proof. intros [A1 A2 A3 A4]. split; [done..|lia]. Qed.

Lemma deliver_bounded d s : in_order s -> Workers.current (table_of s.1) d ->
  let s' := snd (deliver d s) in bounded s s' /\
  exists o, table_of s'.1 = update_outcome (d_id d) o (table_of s.1).
Proof using Hdb Hpost.
  destruct s as [w posts]. intros [Hwf Hok Hwant _] Hd. cbn [fst snd] in *.
  pose proof (deliver_one_done E c hmac_hex json_dumps session_post secret backoff Hdb Hpost d w) as H.
  unfold wp, row_done in H. unfold WebhookService.deliver, bind, modify, on_world.
  destruct (deliver_one d w) as [o w'] eqn:Hrun. cbn [fst snd] in H |- *. destruct H as (out & Hout & _ & H).
  assert (w_hooks w' = with_table (update_outcome (d_id d) out) (w_hooks w)) as Hh.
  { destruct H as [(_ & _ & _ & H)|(_ & w1 & code & error & _ & H1 & H2)]; [done|]. rewrite <- H1.
    unfold swallow, try_except, catch in H2.
    assert (Webhooks.wants (w_hooks w1) "WEBHOOK_GIVEUP" = false) as Hw1.
    { rewrite H1. revert Hwant. unfold Webhooks.wants, with_table. by destruct (w_hooks w) as [[t|] ev us]. }
    pose proof (record_unwanted E c (giveup_draft d (d_attempts d + 1) code error) "WEBHOOK_GIVEUP" w1 (fun _ _ => eq_refl) Hw1) as Hr.
    destruct (record E c _ w1) as [[[]|e|] w2]; cbn in Hr; [by injection H2 as -> ->| |by injection H2 as -> ->].
    destruct (is_Exception e); cbn in H2; by injection H2 as -> ->. }
  assert (table_of w' = update_outcome (d_id d) out (table_of w)) as Ht.
  { unfold table_of. rewrite Hh. apply table_update. }
  split; [|by exists out]. destruct (left_update backoff sel (table_of w) d out Hwf Hok Hd Hout) as (H1 & H2 & H3).
  split; cbn [fst snd]; rewrite ?Ht; [done..| |rewrite posted_snoc; lia].
  rewrite Hh. revert Hwant. unfold Webhooks.wants, with_table. by destruct (w_hooks w) as [[t|] ev us].
Qed.

Lemma batch_bounded ds : forall s, in_order s -> List.NoDup (map d_id ds) ->
  (forall d, In d ds -> Workers.current (table_of s.1) d) -> bounded s (snd (for_each ds deliver s)).
Proof using Hdb Hpost.
  induction ds as [|d ds IH]; intros s Hs Hn Hc; [done|]. inversion Hn as [|? ? Hd Hn']; subst. cbn [for_each].
  destruct (deliver_bounded d s Hs (Hc d (or_introl eq_refl))) as [Hb [o Ht]]. unfold bind.
  destruct (deliver d s) as [[[]|e|] s1] eqn:Hrun; cbn [snd] in *; [|done..].
  eapply bounded_trans; [exact Hb|]. apply IH; [by eapply bounded_order|done|]. intros x Hx.
  destruct (Hc x (or_intror Hx)) as [Hin Hp]. split; [|done]. rewrite Ht. cbn. apply in_map_iff. exists x. split; [|done].
  destruct (Z.eqb_spec (d_id x) (d_id d)) as [He|]; [|done]. destruct Hd. rewrite <- He. by apply in_map.
Qed.

Lemma tick_bounded upto s : in_order s -> bounded s (snd (tick E c hmac_hex json_dumps session_post secret backoff upto s)).
Proof using Hdb Hpost.
  intros Hs. destruct s as [w posts]. unfold tick, catch. unfold bind at 1, on_world.
  unfold take_due_, bind at 1 2, now, hooks_db, ext, gets. rewrite Hdb. cbn [fate_outcome].
  match goal with |- context [for_each ?l _ ?x] => set (ds := l); set (s1 := x) end.
  assert (bounded (w, posts) s1) as H1 by (destruct Hs as [A1 A2 A3 A4]; split; [exact A1|exact A2|exact A3|exact A4]).
  pose proof (bd_wf _ _ Hs) as Hwf. cbn in Hwf.
  assert (bounded s1 (snd (for_each ds deliver s1))) as H2.
  { apply batch_bounded; [by eapply bounded_order| |].
    - unfold ds. rewrite <- firstn_map. apply Workers.NoDup_firstn, Workers.take_due_ids. exact Hwf.
    - intros d Hd. unfold ds in Hd.
      match type of Hd with In d (firstn _ ?l) => assert (In d l) as Hd' by (rewrite <- (firstn_skipn upto l); apply in_or_app; by left) end.
      apply take_due_sound in Hd' as (Hin & Hp & _). split; [exact Hin|done]. }
  pose proof (bounded_trans _ _ _ H1 H2) as H. destruct (for_each ds deliver s1) as [[[]|e|] s2]; cbn [snd] in *; [done| |done].
  by destruct (is_Exception e).
Qed.
Lemma rounds_bounded uptos : forall s, in_order s ->
  bounded s (snd (rounds E c hmac_hex json_dumps session_post secret backoff uptos s)).
Proof using Hdb Hpost.
  induction uptos as [|n uptos IH]; intros s Hs; [done|]. cbn [rounds]. unfold bind.
  pose proof (tick_bounded n s Hs) as H. destruct (tick _ _ _ _ _ _ _ n s) as [[[]|e|] s1]; cbn [snd] in *; [|done..].
  eapply bounded_trans; [exact H|]. apply IH. by eapply bounded_order.
Qed.
End Bound.

(** ** A receiver that is never there *)
Section Feedback.
Context {S : Type} (E : Env) (c : Config) (hmac_hex : string -> string -> string) (json_dumps : entry -> string)
  (session_post : nat -> Workers.post -> outcome exn (Z * string)) (secret : string) (backoff : list time).
Context (Hdb : forall n, env_hooks E n = Fine) (Hdisk : forall n, env_disk E n = Fine).
Context (Hdead : forall n p, exists e, session_post n p = Raise e /\ is_Exception e = true).
Implicit Types w : World S.
Implicit Types s : World S * list row.
Abbreviation deliver := (deliver (S:=S) E c hmac_hex json_dumps session_post secret backoff).
Abbreviation deliver_one := (_deliver_one (S:=S) E c hmac_hex json_dumps session_post secret backoff).

Lemma dead_posts : forall n p, match session_post n p with Raise e => is_Exception e = true | Crash => False | Ret _ => True end.
Proof using Hdead. intros n p. by destruct (Hdead n p) as (e & -> & He). Qed.
Lemma dead_refuses : ~ accepts session_post.
Proof using Hdead. intros (n & p & code & text & H & _). destruct (Hdead n p) as (e & He & _). congruence. Qed.

(** Give-ups come back as events. *)
Record looping w : Prop := mkLooping {
  lp_wf : store_wf (table_of w); lp_file : writable w;
  lp_wants : Webhooks.wants (w_hooks w) "WEBHOOK_GIVEUP" = true }.
(** A row that waits, and that the rest of the batch is not about. *)
Definition waiting w (ids : list Z) : Prop := exists r, In r (rows (table_of w)) /\ d_status r = Pending /\ ~ In (d_id r) ids.

Lemma store_updated d out h : outcome_of backoff d out -> Webhooks.wants (with_table (update_outcome (d_id d) out) h) "WEBHOOK_GIVEUP" =
  Webhooks.wants h "WEBHOOK_GIVEUP".
Proof. intros _. unfold Webhooks.wants, with_table. by destruct h as [[t|] ev us]. Qed.

(** One row more is done: somebody waits still, or again. *)
Lemma deliver_waits d ids w posts : looping w -> In (d_id d) (map d_id (rows (table_of w))) -> ~ In (d_id d) ids ->
  Forall (fun i => i < next_id (table_of w)) ids ->
  exists w' posts', deliver d (w, posts) = (Ret tt, (w', posts')) /\ looping w' /\ waiting w' ids /\
    (forall i, In i (map d_id (rows (table_of w))) -> In i (map d_id (rows (table_of w')))) /\
    next_id (table_of w) <= next_id (table_of w').
Proof using Hdb Hdisk Hdead.
  intros [Hwf Hfile Hwants] Hin Hnot Hids.
  pose proof (deliver_one_done E c hmac_hex json_dumps session_post secret backoff Hdb dead_posts d w) as H.
  unfold wp, row_done in H. unfold WebhookService.deliver, bind, modify, on_world.
  destruct (deliver_one d w) as [o w'] eqn:Hrun. cbn [fst snd] in H. destruct H as (out & Hout & Hacc & H).
  assert (forall v : World S, w_hooks v = with_table (update_outcome (d_id d) out) (w_hooks w) ->
    table_of v = update_outcome (d_id d) out (table_of w) /\ store_wf (table_of v) /\
    Webhooks.wants (w_hooks v) "WEBHOOK_GIVEUP" = true /\ map d_id (rows (table_of v)) = map d_id (rows (table_of w))) as Hv.
  { intros v Hv. assert (table_of v = update_outcome (d_id d) out (table_of w)) as Ht by (unfold table_of; rewrite Hv; apply table_update).
    rewrite Ht, Hv. split_and!; [done|by apply update_wf|by rewrite (store_updated d)|apply update_ids]. }
  destruct H as [(Hne & -> & Hau & Hh)|(Hgu & w1 & code & error & Hau & Hh & Hrec)].
  - destruct (Hv w' Hh) as (Ht & Hwf' & Hw' & Hm). eexists w', _. split; [reflexivity|].
    split; [split; [done|unfold writable in *; congruence|done]|]. split; [|split; [by rewrite Hm|by rewrite Ht]].
    apply in_map_iff in Hin as (r0 & Hid & Hr0). exists (apply_outcome out r0). split_and!.
    + rewrite Ht. cbn. apply in_map_iff. exists r0. by rewrite Hid, Z.eqb_refl.
    + destruct Hout as [_ Hs]. cbn. destruct (o_status out); [done|by destruct dead_refuses; apply Hacc|done..].
    + cbn. by rewrite Hid.
  - destruct (Hv w1 Hh) as (Ht & Hwf1 & Hw1 & Hm).
    destruct (record_fine E c Hdb Hdisk (giveup_draft d (d_attempts d + 1) code error) w1) as (w2 & H2 & Hf2 & Hg & Hp).
    { unfold writable in *. congruence. }
    unfold swallow, try_except, catch in Hrec. rewrite H2 in Hrec. injection Hrec as -> ->. eexists w2, _. split; [reflexivity|].
    destruct Hg as (A1 & A2 & A3 & A4 & new & A5 & A6). specialize (Hp Hw1) as (r & Hr & Hrp & Hri).
    assert (next_id (table_of w1) = next_id (table_of w)) as Hn1 by by rewrite Ht.
    split; [split; [auto|done|]|split; [|split]].
    + revert Hw1 A5 Hr. unfold Webhooks.wants, table_of. rewrite A1, A2.
      destruct (Webhooks.wh_store (w_hooks w1)) as [t|]; [|done]. destruct (Webhooks.wh_store (w_hooks w2)); [done|]. intros _ _ [].
    + exists r. split_and!; [done..|]. intros Hi. rewrite List.Forall_forall in Hids. specialize (Hids _ Hi). lia.
    + intros i Hi. rewrite A5, map_app. apply in_or_app. left. by rewrite Hm.
    + lia.
Qed.

Lemma batch_waits ds : forall w posts, looping w -> List.NoDup (map d_id ds) ->
  (forall d, In d ds -> In (d_id d) (map d_id (rows (table_of w)))) -> (ds <> [] \/ waiting w []) ->
  exists w' posts', for_each ds deliver (w, posts) = (Ret tt, (w', posts')) /\ looping w' /\ waiting w' [].
Proof using Hdb Hdisk Hdead.
  induction ds as [|d ds IH]; intros w posts Hl Hn Hin Hw.
  { destruct Hw as [Hw|Hw]; [done|]. by exists w, posts. }
  inversion Hn as [|? ? Hd Hn']; subst. destruct (deliver_waits d (map d_id ds) w posts Hl) as (w1 & p1 & H1 & Hl1 & Hw1 & Hm & _).
  { by apply Hin; left. }
  { done. }
  { apply List.Forall_forall. intros i (x & <- & Hx)%in_map_iff. destruct Hl as [[_ Hb] _ _]. rewrite List.Forall_forall in Hb.
    destruct (proj1 (in_map_iff _ _ _) (Hin x (or_intror Hx))) as (y & Hy & Hyin). specialize (Hb y Hyin). cbn in Hb. lia. }
  destruct (IH w1 p1 Hl1 Hn') as (w2 & p2 & H2 & Hl2 & Hw2).
  { intros x Hx. apply Hm, Hin. by right. }
  { right. destruct Hw1 as (r & Hr & Hp & _). exists r. split_and!; [done..|]. intros []. }
  exists w2, p2. split; [|done]. cbn [for_each]. unfold bind. by rewrite H1.
Qed.

Lemma tick_waits upto w posts : looping w -> waiting w [] -> exists w' posts',
  tick E c hmac_hex json_dumps session_post secret backoff upto (w, posts) = (Ret tt, (w', posts')) /\ looping w' /\ waiting w' [].
Proof using Hdb Hdisk Hdead.
  intros Hl Hw. unfold tick, catch. unfold bind at 1, on_world. unfold take_due_, bind at 1 2, now, hooks_db, ext, gets. rewrite Hdb. cbn [fate_outcome].
  match goal with |- context [for_each ?l _ (?v, ?p)] => set (ds := l); set (w1 := v);
    destruct (batch_waits ds w1 p) as (w2 & p2 & H & Hl2 & Hw2) end.
  - destruct Hl as [A1 A2 A3]. by split.
  - unfold ds. rewrite <- firstn_map. apply Workers.NoDup_firstn, Workers.take_due_ids, Hl.
  - intros d Hd. unfold ds in Hd.
    match type of Hd with In d (firstn _ ?l) => assert (In d l) as Hd' by (rewrite <- (firstn_skipn upto l); apply in_or_app; by left) end.
    apply take_due_sound in Hd' as (Hin & _). by apply in_map.
  - by right.
  - exists w2, p2. rewrite H. by split_and!.
Qed.
End Feedback.

(** ** The properties *)


Definition demo_hooks (events : list string) (urls : list string) : World unit :=
  let h := Webhooks.mkState (Some empty) events urls in
  let e := mkEntry "p-1" "2026" "SEND_FAILED" "main" "TFrom" "TTo" "5" "USDT" "" "k1" "ip" "t" "failed" "" in
  mkWorld 0 tt (mkAudit "p" 1 false false [] []) (fold_left (fun h url => Webhooks.enqueue_url 0 e url h) urls h)
    (Alerts.mkState None "" "" [] None false "") tron0 [] 0 [].
Definition nobody (n : nat) (p : Workers.post) : outcome exn (Z * string) := Raise (EOther "ConnectionError" "refused").
Abbreviation demo_rounds events urls n :=
  (rounds sample_env default_config (fun _ _ => "") (fun _ => "") nobody "s" [0%Q] (repeat 50%nat n) (demo_hooks events urls, [])).

Lemma demo_run : exists o w' posts,
  demo_rounds ["SEND_FAILED"] ["https://a"; "https://b"] 4 = (o, (w', posts)) /\ List.length posts = 2%nat.
Proof. eexists _, _, _. split; [vm_compute; reflexivity|]. vm_compute. reflexivity. Qed.

(** With WEBHOOK_GIVEUP among the delivered events and a receiver that cannot be reached the
    worker never comes to an end: what it gives up it reports, the report is enqueued for
    every receiver, and after any number of rounds a row waits to be posted. *)
Theorem giveup_feedback {S : Type} (E : Env) (c : Config) (hmac_hex : string -> string -> string)
    (json_dumps : entry -> string) (session_post : nat -> Workers.post -> outcome exn (Z * string)) (secret : string)
    (backoff : list time) (uptos : list nat) (w : World S) :
  (forall n, env_hooks E n = Fine) -> (forall n, env_disk E n = Fine) ->
  (forall n p, exists e, session_post n p = Raise e /\ is_Exception e = true) ->
  Webhooks.wants (w_hooks w) "WEBHOOK_GIVEUP" = true -> au_open_failed (w_audit w) = false ->
  store_wf (table_of w) -> (exists r, In r (rows (table_of w)) /\ d_status r = Pending) ->
  exists w' posts r,
    rounds E c hmac_hex json_dumps session_post secret backoff uptos (w, []) = (Ret tt, (w', posts)) /\
    In r (rows (table_of w')) /\ d_status r = Pending.
Proof.
  intros Hdb Hdisk Hdead Hwants Hfile Hwf (r & Hr & Hp).
  assert (looping w) as Hl by by split. assert (waiting w []) as Hw by (exists r; split_and!; [done..|intros []]).
  clear r Hr Hp Hwants Hfile Hwf. generalize (@nil row) as posts. revert w Hl Hw.
  induction uptos as [|n uptos IH]; intros w Hl Hw posts.
  - destruct Hw as (r & Hr & Hp & _). by exists w, posts, r.
  - destruct (tick_waits E c hmac_hex json_dumps session_post secret backoff Hdb Hdisk Hdead n w posts Hl Hw) as (w1 & p1 & H1 & Hl1 & Hw1).
    destruct (IH w1 Hl1 Hw1 p1) as (w2 & p2 & r & H2 & Hr). exists w2, p2, r. split; [|done].
    cbn [rounds]. unfold bind. by rewrite H1.
Qed.

(** With two such receivers the posts double from round to round. *)
Example giveup_doubles :
  map (fun n => List.length (snd (snd (demo_rounds ["SEND_FAILED"; "WEBHOOK_GIVEUP"] ["https://a"; "https://b"] n)))) [1; 2; 3; 4; 5]%nat
  = [2; 6; 14; 30; 62]%nat.
Proof. vm_compute. reflexivity. Qed.
