(* ===== verification/App.v ===== *)
(** * The HTTP application ([server.create_app], the routes of [routes.py])

    One request from the socket to the response: the middleware, the route, the dependency
    that authenticates, the handler, the exception handlers.  The handlers are those of
    [Send], [Routes], [Workbooks], [Poller] and [Diagnostics]; FastAPI's part, which route a
    path has and whether the parameters convert, is in the request. *)
From S2P Require Import Prelude PyStr Decimal Effects RiskTypes Exceptions Idempotency IdemGuard Config AuditEntry World TronClient WalletPool Risk AuditLog Send Safety SendSpec Readers Ledger Tokens Reporting Routes Workbooks.
From S2P Require StartupCheck WebhookService Sanctions Webhooks Alerts RateLimit LimiterLife Shutdown Poller Keystore Diagnostics Metrics.
Open Scope string_scope.

(** ** Requests *)

(** What the decorated functions of [routes.py] take. *)
Inductive endpoint :=
| EpSend (rq : SendRequest)
| EpBalance (wallet : option string)
| EpWallets
| EpAudit (limit : Z) (before_id event : option string)
| EpTxStatus (txid : string)
| EpRisk (address : string) (external : bool)
| EpAlertTest
| EpAlertConfig
| EpReportsPeriod (from_ to_ format : string)
| EpReportsSanctions (from_ to_ format : string)
| EpSparkline (from_ to_ : string)
| EpMetrics
| EpHealthLive
| EpVersion
| EpHealth.

(** [Elsewhere]: a path or method no function of the code answers (404, 405, the static
    pages of /ui), or parameters that do not convert (422), with FastAPI's status. *)
Inductive target := Endpoint (ep : endpoint) | Elsewhere (method path : string) (status : Z).

Record http_request := mkHttp {
  hq_target : target; hq_api_key : string;           (** X-API-Key, "" when absent *)
  hq_request_id : option string; hq_fresh_id : string;   (** X-Request-ID; [uuid4().hex[:16]] *)
  hq_peer : option string; hq_forwarded_for : string }.

Definition method_of (ep : endpoint) : string :=
  match ep with EpSend _ | EpAlertTest => "POST" | _ => "GET" end.
Definition path_of (ep : endpoint) : string :=
  "/api/v1" +:+
  match ep with
  | EpSend _ => "/send" | EpBalance _ => "/balance" | EpWallets => "/wallets" | EpAudit _ _ _ => "/audit"
  | EpTxStatus txid => "/tx/" +:+ txid +:+ "/status" | EpRisk address _ => "/risk/" +:+ address
  | EpAlertTest => "/alert/test" | EpAlertConfig => "/alert/config"
  | EpReportsPeriod _ _ _ => "/reports/period" | EpReportsSanctions _ _ _ => "/reports/sanctions-hits"
  | EpSparkline _ _ => "/reports/period/sparkline" | EpMetrics => "/metrics"
  | EpHealthLive => "/health/live" | EpVersion => "/version" | EpHealth => "/health"
  end.
(** [Depends(require_scope(...))] *)
Definition scope_of (ep : endpoint) : option string :=
  match ep with
  | EpSend _ => Some "send"
  | EpAlertTest => Some "admin"
  | EpMetrics => Some "metrics"
  | EpHealthLive | EpVersion => None
  | _ => Some "read"
  end.

(** The bounds the signatures declare ([Query(ge=..., max_length=..., pattern=...)], the
    fields of [SendRequest]); outside them FastAPI answers 422. *)
Definition at_most (n : nat) (s : option string) : bool :=
  match s with Some s => (String.length s <=? n)%nat | None => true end.
Definition dates_ok (from_ to_ : string) : bool := at_most 10 (Some from_) && at_most 10 (Some to_).
Definition format_ok (format : string) : bool := String.eqb format "csv" || String.eqb format "xlsx".
Definition parameters_ok (ep : endpoint) : bool :=
  match ep with
  | EpSend rq => request_valid rq
  | EpBalance wallet => at_most 64 wallet
  | EpAudit limit before_id event => (1 <=? limit)%Z && (limit <=? 500)%Z && at_most 40 before_id && at_most 64 event
  | EpReportsPeriod from_ to_ format | EpReportsSanctions from_ to_ format => dates_ok from_ to_ && format_ok format
  | EpSparkline from_ to_ => dates_ok from_ to_
  | _ => true
  end.

Definition method_ (q : http_request) : string :=
  match hq_target q with Endpoint ep => method_of ep | Elsewhere m _ _ => m end.
Definition path_ (q : http_request) : string :=
  match hq_target q with Endpoint ep => path_of ep | Elsewhere _ p _ => p end.
Definition request_id (q : http_request) : string := default (hq_fresh_id q) (hq_request_id q).

(** ** Responses *)
Inductive body :=
| BSend (r : SendResponse) | BBalance (r : BalanceResponse) | BWallets (r : WalletListResponse)
| BAudit (a : audit_answer) | BTxStatus (known : bool) (row : option Poller.TxStatus)
| BRisk (r : RiskReport) | BAlertConfig (a : bool * string * list string * option string * bool * string)
| BDocument (d : document) | BSparkline (s : option (list string * list Dec * list Z * list Z))
| BHealth (r : HealthResponse) | BJson (j : Keystore.json) | BError (code : string) | BEmpty.
Record response := mkResponse { rs_status : Z; rs_body : body; rs_request_id : option string }.

(** ** The process *)

(** The counters of the middleware and of the exception handlers. *)
Inductive http_counter :=
| RateLimitDrop
| HttpRequest (method path status : string)
| IdempotencyConflicts
| IdempotencyUnresolved.
Definition counter_update (k : http_counter) : Metrics.update :=
  match k with
  | RateLimitDrop => Metrics.Inc "payouts_rate_limit_drops_total" []
  | HttpRequest method path status => Metrics.Inc "payouts_http_requests_total" [method; path; status]
  | IdempotencyConflicts => Metrics.Inc "payouts_idempotency_conflicts_total" []
  | IdempotencyUnresolved => Metrics.Inc "payouts_idempotency_unresolved_total" []
  end.
Lemma counter_declared k : Metrics.declared (counter_update k) = true.
Proof. by destruct k. Qed.

Record App (S : Type) := mkApp {
  ap_world : World S; ap_limiter : LimiterLife.state; ap_tokens : TokenStore; ap_timer : Shutdown.state;
  ap_poller : option Poller.table; ap_counters : list http_counter }.
Arguments mkApp {S}. Arguments ap_world {S}. Arguments ap_limiter {S}. Arguments ap_tokens {S}.
Arguments ap_timer {S}. Arguments ap_poller {S}. Arguments ap_counters {S}.

(** What does not change while the process runs: its configuration, wallets and sanctions
    list, and the code it calls outside. *)
Record Site := mkSite {
  st_config : Config; st_pool : pool; st_sanctions : Sanctions.state; st_fuel : nat;
  st_hash_token : string -> string -> string; st_bucket : RateLimit.BucketParams;
  st_alert_events : list string; st_alert_threshold : option Dec; st_alert_sanctions : bool; st_alert_quiet : string;
  st_git_sha : string; st_start_time : time;
  st_json_loads : string -> option record; st_utc_date : string -> option Calendar.date;
  st_fromisoformat : string -> option Calendar.date;
  st_audit_text : nat -> option audit_file;      (** the audit file as a request finds it *)
  st_openpyxl : bool; st_text_ok : string -> bool; st_save : sheet -> string }.

Section App.
Context {S : Type} `{!IdemStore S} (E : Env) (st : Site).
Abbreviation AM := (M (App S) exn).
Implicit Types s : App S.

Definition set_world (w : World S) s : App S :=
  mkApp w (ap_limiter s) (ap_tokens s) (ap_timer s) (ap_poller s) (ap_counters s).
Definition set_limiter (l : LimiterLife.state) s : App S :=
  mkApp (ap_world s) l (ap_tokens s) (ap_timer s) (ap_poller s) (ap_counters s).
Definition set_tokens (t : TokenStore) s : App S :=
  mkApp (ap_world s) (ap_limiter s) t (ap_timer s) (ap_poller s) (ap_counters s).
Definition set_timer (t : Shutdown.state) s : App S :=
  mkApp (ap_world s) (ap_limiter s) (ap_tokens s) t (ap_poller s) (ap_counters s).

Definition in_world {A} (m : M (World S) exn A) : AM A := fun s => let '(o, w) := m (ap_world s) in (o, set_world w s).
Definition count (k : http_counter) : AM unit :=
  modify (fun s => mkApp (ap_world s) (ap_limiter s) (ap_tokens s) (ap_timer s) (ap_poller s) (ap_counters s ++ [k])%list).

(** ** The pieces *)

(** [_limiter.check(client_ip)]; [time.time()], then one SQL transaction. *)
Definition rate_limit (client_ip : string) : AM bool :=
  let! f := in_world (ext (fun n => Ret (env_sql E n))) in
  let! now := in_world (now E) in
  fun s => let '(o, l) := LimiterLife.limiter_check_ f (st_bucket st) now client_ip (ap_limiter s) in (o, set_limiter l s).

(** [reset_timer()] *)
Definition reset : AM unit :=
  let! now := in_world (now E) in
  modify (fun s => set_timer (Shutdown.reset_timer (SHUTDOWN_TIMEOUT (st_config st)) now (ap_timer s)) s).

(** [require_scope(scope)]: the token id, or the status of the HTTPException. *)
Definition require_scope (scope api_key : string) : AM (Z + string) :=
  let! iso := in_world (ext (fun n => Ret (env_iso E n))) in
  fun s => let '(r, t) := verify_with_scope (st_hash_token st) (AUTH_TOKEN (st_config st)) iso api_key scope (ap_tokens s) in
           (Ret r, set_tokens t s).

(** A handler that only computes: what it raises is raised. *)
Definition lift {A} (o : outcome exn A) : AM A := fun s => (o, s).
Definition audit_text : AM (option audit_file) := in_world (ext (fun n => Ret (st_audit_text st n))).

(** The functions of [routes.py]; the status is 200 unless they answer with one. *)
Definition handler (ep : endpoint) (client_ip token_id : string) : AM (Z * body) :=
  let c := st_config st in
  match ep with
  | EpSend rq => let! r := in_world (send E c (st_pool st) (st_sanctions st) (st_fuel st) rq client_ip token_id) in ret (200%Z, BSend r)
  | EpBalance wallet => let! r := in_world (balance E (st_pool st) wallet) in ret (200%Z, BBalance r)
  | EpWallets => let! r := in_world (wallets_endpoint E (st_pool st)) in ret (200%Z, BWallets r)
  | EpAudit limit before_id event =>
      let! f := audit_text in
      let! a := lift (audit_endpoint (st_json_loads st) f (Z.to_nat limit) before_id event) in ret (200%Z, BAudit a)
  | EpTxStatus txid => let! t := gets ap_poller in let '(known, row) := Poller.tx_status_endpoint t txid in ret (200%Z, BTxStatus known row)
  | EpRisk address external => let! r := in_world (risk_endpoint E c (st_sanctions st) address external) in ret (200%Z, BRisk r)
  | EpAlertTest => let! status := in_world (alert_test_endpoint E client_ip) in ret (status, BEmpty)
  | EpAlertConfig =>
      let! a := in_world (gets w_alerts) in
      ret (200%Z, BAlertConfig (alert_config_endpoint (st_alert_events st) (st_alert_threshold st) (st_alert_sanctions st) (st_alert_quiet st) a))
  | EpReportsPeriod from_ to_ format =>
      let! f := audit_text in
      let! d := lift (reports_period (st_openpyxl st) (st_text_ok st) (st_save st) (st_json_loads st) (st_utc_date st)
                        (st_fromisoformat st) (default None f) from_ to_ format) in
      ret (dc_status d, BDocument d)
  | EpReportsSanctions from_ to_ format =>
      let! f := audit_text in
      let! d := lift (reports_sanctions (st_openpyxl st) (st_text_ok st) (st_save st) (st_json_loads st) (st_utc_date st)
                        (st_fromisoformat st) (default None f) from_ to_ format) in
      ret (dc_status d, BDocument d)
  | EpSparkline from_ to_ =>
      let! f := audit_text in
      let! r := lift (reports_period_sparkline (st_json_loads st) (st_utc_date st) (st_fromisoformat st) (default None f) from_ to_) in
      ret (r.1, BSparkline r.2)
  | EpMetrics => let! sh := gets ap_timer in do! in_world (metrics_endpoint E sh) in ret (200%Z, BEmpty)
  | EpHealthLive =>
      let! sh := gets ap_timer in let! t := in_world (now E) in
      ret (200%Z, BJson (Diagnostics.health_live_endpoint (Shutdown.uptime t sh)))
  | EpVersion => ret (200%Z, BJson (Diagnostics.version_endpoint (st_git_sha st) (st_start_time st) (TRON_NETWORK c)))
  | EpHealth => let! sh := gets ap_timer in let! r := in_world (health E c (st_pool st) sh) in ret (200%Z, BHealth r)
  end.

(** The exception handlers: status and code, and two of them count. *)
Definition handle (e : exn) : option (AM (Z * body)) :=
  match http_of_exn e with
  | None => None
  | Some (status, code) => Some (
      do! (match e with
           | EIdempotencyConflict _ => count IdempotencyConflicts
           | EUnresolvedIdempotency _ _ => count IdempotencyUnresolved
           | _ => ret tt
           end) in
      ret (status, BError code))
  end.

(** FastAPI runs the dependency, then refuses bad parameters, then calls the function. *)
Definition route (ep : endpoint) (q : http_request) (client_ip : string) : AM (Z * body) :=
  match scope_of ep with
  | None => if parameters_ok ep then handler ep client_ip "" else ret (422%Z, BEmpty)
  | Some scope =>
      let! r := require_scope scope (hq_api_key q) in
      match r with
      | inl status => ret (status, BError "")
      | inr token_id => if parameters_ok ep then handler ep client_ip token_id else ret (422%Z, BEmpty)
      end
  end.
Definition call_next (q : http_request) (client_ip : string) : AM (Z * body) :=
  match hq_target q with
  | Elsewhere _ _ status => ret (status, BEmpty)
  | Endpoint ep => catch (route ep q client_ip) handle
  end.

Definition status_class (status : Z) : string := str_of_Z (status / 100) +:+ "xx".

(** [client_address(request)] *)
Definition address_of (q : http_request) : string :=
  RateLimit.client_address (TRUSTED_PROXIES (st_config st)) (hq_peer q) (hq_forwarded_for q).
(** [main_middleware].  An exception no handler takes leaves it: the server answers 500 and
    nothing below the call runs. *)
Definition pass_on (q : http_request) (client_ip : string) : AM response :=
  do! reset in
  let! r := call_next q client_ip in
  do! count (HttpRequest (method_ q) (path_ q) (status_class r.1)) in
  ret (mkResponse r.1 r.2 (Some (request_id q))).
Definition middleware (q : http_request) : AM response :=
  let client_ip := address_of q in
  if RateLimit.exempt (path_ q) then pass_on q client_ip
  else
    let! ok := rate_limit client_ip in
    if negb ok then
      do! count RateLimitDrop in
      do! count (HttpRequest (method_ q) (path_ q) "429") in
      ret (mkResponse 429 (BError "RATE_LIMIT_EXCEEDED") (Some (request_id q)))
    else pass_on q client_ip.

(** What the client gets; [None]: the process died. *)
Definition answer (o : outcome exn response) : option response :=
  match o with
  | Ret r => Some r
  | Raise _ => Some (mkResponse 500 BEmpty None)
  | Crash => None
  end.
End App.

(** ** What one request may do *)
Section Effects.
Context {S : Type} `{!IdemStore S} (E : Env).
Implicit Types s : App S.

(** Nothing is paid and no payout is written of. *)
Definition quiet s s' : Prop := same_core (ap_world s) (ap_world s') /\ tells (ap_world s) (ap_world s').
(** Only the clock of the world went on. *)
Definition ticked s s' : Prop := exists n, ap_world s' = set_tick n (ap_world s).

#[export] Instance quiet_preorder : PreOrder quiet.
Proof.
  split; [intros s; split; reflexivity|]. intros x y z [H1 H2] [H3 H4]. split; by etrans.
Qed.
#[export] Instance ticked_preorder : PreOrder ticked.
Proof.
  split; [intros [w l t ti p k]; exists (w_tick w); by destruct w|]. intros x y z [n Hn] [m Hm]. exists m. by rewrite Hm, Hn.
Qed.
Lemma ticked_quiet s s' : ticked s s' -> quiet s s'.
Proof. intros [n Hn]. unfold quiet. rewrite Hn. split; [done|by apply tells_same]. Qed.
Lemma ticked_same s s' : ap_world s' = ap_world s -> ticked s s'.
Proof. intros H. exists (w_tick (ap_world s)). rewrite H. by destruct (ap_world s). Qed.

Lemma quiet_in_world {A} (m : M (World S) exn A) : Frame same_core m -> Frame tells m -> Frame quiet (in_world m).
Proof. intros Hc Ht s. unfold in_world. destruct (m (ap_world s)) as [o w] eqn:Hm.
  specialize (Hc (ap_world s)). specialize (Ht (ap_world s)). rewrite Hm in Hc, Ht. by split. Qed.
Lemma ticked_in_ext {A} (f : nat -> outcome exn A) : Frame ticked (in_world (S:=S) (ext f)).
Proof. intros s. by eexists. Qed.
#[export] Instance quiet_count k : Frame quiet (count (S:=S) k).
Proof. intros s. by apply ticked_quiet, ticked_same. Qed.
#[export] Instance quiet_lift {A} (o : outcome exn A) : Frame quiet (lift (S:=S) o).
Proof. intros s. reflexivity. Qed.

(** *** The handlers other than [/send] *)
#[local] Instance frame_idem_count_tells : Frame (W:=World S) tells idem_count.
Proof. unfold idem_count. apply _. Qed.
#[local] Instance core_wallets p : Frame (W:=World S) same_core (wallets_endpoint E p).
Proof. apply frame_wallets_loop. Qed.
#[local] Instance tells_wallets p : Frame (W:=World S) tells (wallets_endpoint E p).
Proof.
  unfold wallets_endpoint. generalize (all p), (@nil WalletSummary), (@None string), (dec_of_Z (-1)).
  intros ws. induction ws as [|w ws IH]; intros; simpl; unfold try_lookup, lookup_wallet; reads; apply IH.
Qed.
#[local] Instance core_balance p name : Frame (W:=World S) same_core (balance E p name).
Proof. unfold balance. frames. Qed.
#[local] Instance tells_balance p name : Frame (W:=World S) tells (balance E p name).
Proof. unfold balance. reads. Qed.
#[local] Instance core_risk c sanc a x : Frame (W:=World S) same_core (risk_endpoint E c sanc a x).
Proof. unfold risk_endpoint. apply _. Qed.
#[local] Instance tells_risk_endpoint c sanc a x : Frame (W:=World S) tells (risk_endpoint E c sanc a x).
Proof. unfold risk_endpoint. apply _. Qed.
#[local] Instance core_alert_test ip : Frame (W:=World S) same_core (alert_test_endpoint E ip).
Proof. unfold alert_test_endpoint. frames. Qed.
#[local] Instance tells_alert_test ip : Frame (W:=World S) tells (alert_test_endpoint E ip).
Proof.
  unfold alert_test_endpoint. reads; apply frame_modify; intros w; by apply tells_same.
Qed.
#[local] Instance core_metrics sh : Frame (W:=World S) same_core (metrics_endpoint E sh).
Proof. unfold metrics_endpoint. frames. Qed.
#[local] Instance tells_metrics sh : Frame (W:=World S) tells (metrics_endpoint E sh).
Proof. unfold metrics_endpoint. reads. Qed.
#[local] Instance core_health c p sh : Frame (W:=World S) same_core (health E c p sh).
Proof. unfold health. frames. Qed.
#[local] Instance tells_health c p sh : Frame (W:=World S) tells (health E c p sh).
Proof. unfold health. reads. Qed.

Definition is_send (ep : endpoint) : bool := match ep with EpSend _ => true | _ => false end.
Lemma handler_quiet st ep ip tok : is_send ep = false -> Frame quiet (handler E st ep ip tok).
Proof.
  intros Hs. destruct ep; [done|..]; unfold handler, audit_text; cbv zeta;
    repeat first [progress intros | solve [apply _] | solve [apply quiet_in_world; apply _] | apply frame_bind | case_match].
Qed.

(** *** The middleware *)
Section Request.
Context (st : Site) (q : http_request).

(** The limiter lets the request of this client through; its key authenticates as [tok]. *)
Definition admitted s : Prop := exists f now,
  fst (LimiterLife.limiter_check_ f (st_bucket st) now (address_of st q) (ap_limiter s)) = Ret true.
Definition authenticated (scope tok : string) s : Prop := exists iso,
  fst (verify_with_scope (st_hash_token st) (AUTH_TOKEN (st_config st)) iso (hq_api_key q) scope (ap_tokens s)) = inr tok.

Definition run_send (rq : SendRequest) (tok : string) (n : nat) s : outcome exn SendResponse * World S :=
  send E (st_config st) (st_pool st) (st_sanctions st) (st_fuel st) rq (address_of st q) tok (set_tick n (ap_world s)).

(** What a request can come to. *)
Inductive effect s : outcome exn (Z * body) -> App S -> Prop :=
| Refused o s' : ticked s s' -> (forall z r, o <> Ret (z, BSend r)) -> effect s o s'
| Reads ep o s' : hq_target q = Endpoint ep -> is_send ep = false -> quiet s s' ->
    (forall z r, o <> Ret (z, BSend r)) -> effect s o s'
| Sends rq tok n o s' : hq_target q = Endpoint (EpSend rq) -> request_valid rq = true ->
    authenticated "send" tok s -> ap_world s' = snd (run_send rq tok n s) ->
    (forall z r, o = Ret (z, BSend r) <-> z = 200%Z /\ fst (run_send rq tok n s) = Ret r) ->
    (fst (run_send rq tok n s) = Crash -> o = Crash) -> effect s o s'.

Lemma handler_body ep ip tok : is_send ep = false ->
  Rets (handler (S:=S) E st ep ip tok) (fun zb => forall r, zb.2 <> BSend r).
Proof.
  intros Hs. destruct ep; [done|..]; unfold handler; cbv zeta;
    repeat first [progress intros | apply rets_bind_any | case_match | by apply rets_ret].
Qed.

(** The dependency: the clock is read, the token store may note the use of a token. *)
Lemma require_scope_run scope s : exists t,
  require_scope E st scope (hq_api_key q) s =
    (Ret (fst (verify_with_scope (st_hash_token st) (AUTH_TOKEN (st_config st)) (env_iso E (w_tick (ap_world s)))
                 (hq_api_key q) scope (ap_tokens s))), t) /\ ticked s t.
Proof.
  unfold require_scope, bind, in_world, ext. cbn. destruct (verify_with_scope _ _ _ _ _ _) as [r t].
  eexists. split; [reflexivity|]. by eexists.
Qed.

Lemma handle_run e r s : handle e = Some r ->
  ap_world (snd (r s)) = ap_world s /\ exists z code, fst (r s) = Ret (z, BError code).
Proof.
  unfold handle. destruct (http_of_exn e) as [[status code]|]; [|done]. intros [= <-].
  destruct e; cbn; (split; [done|]); by eexists _, _.
Qed.

(** The handlers for exceptions add nothing to an effect. *)
Lemma catch_effect (m : M (App S) exn (Z * body)) s :
  effect s (fst (m s)) (snd (m s)) -> effect s (fst (catch m handle s)) (snd (catch m handle s)).
Proof.
  intros H. unfold catch. destruct (m s) as [[zb|e|] s1] eqn:Hm; cbn [fst snd] in *; [exact H| |exact H].
  destruct (handle e) as [r|] eqn:He; [|exact H]. destruct (handle_run e r s1 He) as (Hw & z & code & Hr).
  assert (forall z' x, fst (r s1) <> Ret (z', BSend x)) as Hno by (intros z' x; rewrite Hr; by intros [= _ ?]).
  assert (ticked s1 (snd (r s1))) as Ht by by apply ticked_same.
  inversion H as [o s' Hq Hn|ep o s' Hep Hse Hq Hn|rq tok n o s' Hep Hv Ha Hq Hn Hcr]; subst.
  - apply Refused; [by etrans|done].
  - eapply Reads; [exact Hep|done| |done]. etrans; [exact Hq|by apply ticked_quiet].
  - eapply (Sends s rq tok n); [done..|by rewrite Hw| |].
    { intros z' x. split; [by intros ?%Hno|]. intros [-> Hx]. specialize (proj2 (Hn 200%Z x) (conj eq_refl Hx)). done. }
    intros Hx. by specialize (Hcr Hx).
Qed.

Lemma handler_effect ep tok s t : hq_target q = Endpoint ep -> parameters_ok ep = true ->
  (forall rq, ep = EpSend rq -> authenticated "send" tok s) -> ticked s t ->
  effect s (fst (handler E st ep (address_of st q) tok t)) (snd (handler E st ep (address_of st q) tok t)).
Proof.
  intros Hep Hok Ha Ht. destruct (is_send ep) eqn:Hs.
  - destruct ep; try discriminate Hs. destruct Ht as [n Hn].
    unfold handler, bind, in_world. rewrite Hn. fold (run_send rq tok n s).
    destruct (run_send rq tok n s) as [o w] eqn:Hrun.
    apply (Sends s rq tok n); [done|done|by eapply Ha|rewrite Hrun; by destruct o| |rewrite Hrun; by destruct o].
    intros z r. rewrite Hrun. destruct o as [r'|e|]; cbn; split; try (by intros []); try done.
    + intros [= <- <-]. done.
    + by intros [-> [= ->]].
  - eapply Reads; [done|done| |].
    + etrans; [by apply ticked_quiet|]. apply (handler_quiet st ep (address_of st q) tok Hs).
    + intros z r Hr. exact (handler_body ep _ tok Hs t (z, BSend r) Hr r eq_refl).
Qed.

Lemma call_next_effect s :
  effect s (fst (call_next E st q (address_of st q) s)) (snd (call_next E st q (address_of st q) s)).
Proof.
  unfold call_next. destruct (hq_target q) as [ep|m p status] eqn:Hep; [|by apply Refused].
  apply catch_effect. unfold route. destruct (scope_of ep) as [scope|] eqn:Hsc.
  - destruct (require_scope_run scope s) as (t & Hrun & Ht). unfold bind. rewrite Hrun.
    destruct (fst (verify_with_scope _ _ _ _ _ _)) as [status|tok] eqn:Hv; [by apply Refused|].
    destruct (parameters_ok ep) eqn:Hok; [|by apply Refused].
    apply handler_effect; [done..| |done]. intros rq ->. injection Hsc as <-. by eexists.
  - destruct (parameters_ok ep) eqn:Hok; [|by apply Refused].
    apply handler_effect; [done..| |done]. by intros rq ->.
Qed.

(** *** The counters, the timer and the limiter *)
Definition is_http (k : http_counter) : bool := match k with HttpRequest _ _ _ => true | _ => false end.
Definition steady s s' : Prop := ap_timer s' = ap_timer s /\ ap_limiter s' = ap_limiter s /\
  exists ks, ap_counters s' = (ap_counters s ++ ks)%list /\ Forall (fun k => is_http k = false) ks.
Lemma steady_same s s' : ap_timer s' = ap_timer s -> ap_limiter s' = ap_limiter s -> ap_counters s' = ap_counters s -> steady s s'.
Proof. intros H1 H2 H3. split_and!; [done..|]. exists []. rewrite app_nil_r. by split. Qed.
#[local] Instance steady_preorder : PreOrder steady.
Proof.
  split; [intros s; by apply steady_same|]. intros x y z (H1 & H2 & a & Ha & Ha') (H3 & H4 & b & Hb & Hb').
  split_and!; [congruence..|]. exists (a ++ b)%list. rewrite Hb, Ha, app_assoc. split; [done|by apply Forall_app].
Qed.
#[local] Instance steady_in_world {A} (m : M (World S) exn A) : Frame steady (in_world m).
Proof. intros s. unfold in_world. destruct (m (ap_world s)). by apply steady_same. Qed.
#[local] Instance steady_lift {A} (o : outcome exn A) : Frame steady (lift (S:=S) o).
Proof. intros s. reflexivity. Qed.
#[local] Instance steady_call_next ip : Frame steady (call_next E st q ip).
Proof.
  unfold call_next. destruct (hq_target q) as [ep|m p status]; [|apply _]. apply frame_catch; [apply _| |].
  - assert (forall tok, Frame steady (handler E st ep ip tok)) as Hh.
    { intros tok. destruct ep; unfold handler, audit_text; cbv zeta;
        repeat first [progress intros | solve [apply _] | apply frame_bind | case_match]. }
    unfold route. destruct (scope_of ep) as [scope|]; [|destruct (parameters_ok ep); apply _].
    apply frame_bind; [apply _| |].
    + unfold require_scope. apply frame_bind; [apply _..|]. intros iso s.
      destruct (verify_with_scope _ _ _ _ _ _). by apply steady_same.
    + intros [status|tok]; [|destruct (parameters_ok ep)]; apply _.
  - intros e r. unfold handle. destruct (http_of_exn e) as [[z code]|]; [|done]. intros [= <-].
    apply frame_bind; [apply _| |apply _].
    destruct e; try apply _; intros s; (split_and!; [done..|]); eexists [_]; split; try reflexivity; by repeat constructor.
Qed.
Lemma call_next_raises ip s e : fst (call_next E st q ip s) = Raise e -> http_of_exn e = None.
Proof.
  unfold call_next. destruct (hq_target q) as [ep|m p status]; [|done]. unfold catch.
  destruct (route E st ep q ip s) as [[zb|e'|] s1]; [done| |done]. destruct (handle e') as [r|] eqn:He.
  - destruct (handle_run e' r s1 He) as (_ & z & code & ->). done.
  - intros [= <-]. unfold handle in He. by destruct (http_of_exn e') as [[]|].
Qed.

(** *** The whole request *)

(** What the limiter says. *)
Definition verdict s : outcome exn bool :=
  if RateLimit.exempt (path_ q) then Ret true else fst (rate_limit E st (address_of st q) s).
(** From the timer on. *)
Definition passed s s1 : Prop := ticked s s1 /\ ap_tokens s1 = ap_tokens s /\ ap_counters s1 = ap_counters s /\
  (RateLimit.exempt (path_ q) = true \/ admitted s) /\
  exists now, ap_timer s1 = Shutdown.reset_timer (SHUTDOWN_TIMEOUT (st_config st)) now (ap_timer s).
Definition respond s1 : outcome exn response * App S :=
  match call_next E st q (address_of st q) s1 with
  | (Ret r, s2) => (Ret (mkResponse r.1 r.2 (Some (request_id q))), snd (count (HttpRequest (method_ q) (path_ q) (status_class r.1)) s2))
  | (Raise e, s2) => (Raise e, s2)
  | (Crash, s2) => (Crash, s2)
  end.

Lemma middleware_run s :
  match verdict s with
  | Ret true => exists s1, passed s s1 /\ middleware E st q s = respond s1
  | Ret false => exists s1, ticked s s1 /\ ap_tokens s1 = ap_tokens s /\ ap_timer s1 = ap_timer s /\
      ap_counters s1 = (ap_counters s ++ [RateLimitDrop; HttpRequest (method_ q) (path_ q) "429"])%list /\
      middleware E st q s = (Ret (mkResponse 429 (BError "RATE_LIMIT_EXCEEDED") (Some (request_id q))), s1)
  | Raise e => exists s1, ticked s s1 /\ steady s (set_limiter (ap_limiter s) s1) /\ middleware E st q s = (Raise e, s1)
  | Crash => exists s1, ticked s s1 /\ steady s (set_limiter (ap_limiter s) s1) /\ middleware E st q s = (Crash, s1)
  end.
Proof.
  unfold verdict, middleware. destruct (RateLimit.exempt (path_ q)) eqn:Hx.
  { unfold pass_on, reset, bind, in_world, now, ext. cbn. eexists. split; [|reflexivity].
    split_and!; [by eexists|done|done|by left|]. by eexists. }
  unfold rate_limit, bind, in_world, now, ext. cbn.
  destruct (LimiterLife.limiter_check_ _ _ _ _ _) as [[[]|e|] l] eqn:Hl; cbn.
  - unfold pass_on, reset, bind, in_world, now, ext. cbn. eexists. split; [|reflexivity].
    split_and!; [by eexists|done|done| |by eexists]. right. eexists _, _. by rewrite Hl.
  - eexists. split_and!; [| | | |reflexivity]; [by eexists|done|done|]. cbn. by rewrite <- app_assoc.
  - eexists. split_and!; [| |reflexivity]; [by eexists|by apply steady_same].
  - eexists. split_and!; [| |reflexivity]; [by eexists|by apply steady_same].
Qed.
End Request.
End Effects.

(** ** Histories of requests *)
Section Histories.
Context {S : Type} `{!IdemStore S, !IdemGuard S, !IdemTrace S}.
Context (E : Env).
Implicit Types s : App S.

(** A request that was served: by which process, in which state, and with what outcome. *)
Record served := mkServed { sv_site : Site; sv_request : http_request; sv_before : App S; sv_outcome : outcome exn response }.

(** Requests, restarts on what the store left, and anything else that neither pays nor
    writes of payouts: the poller, the workers, the commands on the same database. *)
Inductive app_history : App S -> list served -> App S -> Prop :=
| AFresh s : app_history s [] s
| AServed st q s0 l s : app_history s0 l s -> fst (middleware E st q s) <> Crash ->
    app_history s0 (l ++ [mkServed st q s (fst (middleware E st q s))]) (snd (middleware E st q s))
| AKilled st q pid tick idem h al limiter tokens timer poller s0 l s :   (** during a request *)
    app_history s0 l s -> restart (w_idem (ap_world (snd (middleware E st q s)))) idem ->
    app_history s0 (l ++ [mkServed st q s Crash])
      (mkApp (boot pid tick idem h al (ap_world (snd (middleware E st q s)))) limiter tokens timer poller [])
| ARestarted pid tick idem h al limiter tokens timer poller s0 l s :
    app_history s0 l s -> restart (w_idem (ap_world s)) idem ->
    app_history s0 l (mkApp (boot pid tick idem h al (ap_world s)) limiter tokens timer poller [])
| AOther s0 l s s' : app_history s0 l s -> quiet s s' -> app_history s0 l s'.

(** The answer of a payout request. *)
Definition answered (v : served) (rq : SendRequest) (r : SendResponse) : Prop :=
  hq_target (sv_request v) = Endpoint (EpSend rq) /\
  exists resp, sv_outcome v = Ret resp /\ rs_status resp = 200%Z /\ rs_body resp = BSend r.
(** This request was let through, authenticated with the send scope, and paid [a]. *)
Definition authorised (v : served) (a : attempt) : Prop := exists rq tok,
  let st := sv_site v in let q := sv_request v in let s := sv_before v in
  hq_target q = Endpoint (EpSend rq) /\ request_valid rq = true /\ admitted st q s /\
  ((tok = "legacy" /\ AUTH_TOKEN (st_config st) <> "" /\ hq_api_key q = AUTH_TOKEN (st_config st)) \/
   exists d, In d (rows (ap_tokens s)) /\ t_id d = tok /\ is_active d = true /\
     matches (st_hash_token st) (hq_api_key q) d = true /\ scope_satisfies (t_scopes d) "send" = true) /\
  payment E (st_config st) (st_pool st) (st_sanctions st) rq a.

(** One request, as its effect on the world and on the answers. *)
Lemma middleware_effect st q s : exists s1, ticked s s1 /\ ap_tokens s1 = ap_tokens s /\
  ((ticked s (snd (middleware E st q s)) /\ forall resp r, fst (middleware E st q s) = Ret resp -> rs_body resp <> BSend r) \/
   ((RateLimit.exempt (path_ q) = true \/ admitted st q s) /\ exists o s2, effect E st q s1 o s2 /\
     ap_world (snd (middleware E st q s)) = ap_world s2 /\
     (o = Crash -> fst (middleware E st q s) = Crash) /\
     forall resp r, fst (middleware E st q s) = Ret resp -> rs_body resp = BSend r -> o = Ret (rs_status resp, BSend r))).
Proof.
  pose proof (middleware_run E st q s) as H. destruct (verdict E st q s) as [[]|e|].
  - destruct H as (s1 & (Ht & Htok & _ & Had & _) & ->). exists s1. split; [done|]. split; [done|]. right. split; [done|].
    pose proof (call_next_effect E st q s1) as He. unfold respond.
    destruct (call_next E st q (address_of st q) s1) as [[[z b]|e|] s2]; cbn [fst snd] in *; eexists _, s2; (split; [exact He|]);
      (split; [done|]); (split; [done|]); try done. intros resp r [= <-]. cbn. by intros ->.
  - destruct H as (s1 & Ht & _ & _ & _ & ->). exists s. split; [reflexivity|]. split; [done|]. left. split; [done|]. by intros resp r [= <-].
  - destruct H as (s1 & Ht & _ & ->). exists s. split; [reflexivity|]. split; [done|]. by left.
  - destruct H as (s1 & Ht & _ & ->). exists s. split; [reflexivity|]. split; [done|]. by left.
Qed.

Lemma tick_after n s s1 : ticked s s1 -> set_tick n (ap_world s1) = set_tick n (ap_world s).
Proof. by intros [m ->]. Qed.

(** What a request pays, it was authorised to. *)
Lemma middleware_pays st q s : pool_wf (st_pool st) ->
  w_attempts (ap_world (snd (middleware E st q s))) = w_attempts (ap_world s) \/
  exists a, w_attempts (ap_world (snd (middleware E st q s))) = (w_attempts (ap_world s) ++ [a])%list /\
    authorised (mkServed st q s (fst (middleware E st q s))) a.
Proof.
  intros Hp. destruct (middleware_effect st q s) as (s1 & Ht & Htok & [[[n Hn] _]|(Had & o & s2 & He & Hw & _ & _)]).
  { left. by rewrite Hn. }
  pose proof (ticked_quiet _ _ Ht) as [[_ Ha1] _]. rewrite Hw.
  inversion He as [o' s' [n Hn] _|ep o' s' _ _ [[_ Hq] _] _|rq tok n o' s' Hep Hv [iso Hau] Hrun _ _]; subst.
  - left. by rewrite Hn, <- Ha1.
  - left. by rewrite Hq, <- Ha1.
  - unfold run_send in Hrun. rewrite (tick_after n s s1 Ht) in Hrun.
    pose proof (send_one_payment E (st_config st) (st_pool st) (st_sanctions st) (st_fuel st) rq (address_of st q) tok
      (set_tick n (ap_world s)) Hp) as H. unfold wp in H. rewrite <- Hrun in H.
    destruct H as [H|(a & H & Hpay)]; [by left|]. right. exists a. split; [done|]. exists rq, tok. cbn.
    destruct (verify_with_scope _ _ _ _ _ _) as [r t] eqn:Hver in Hau. cbn in Hau. subst r. rewrite Htok in Hver.
    split_and!; [done|done| |by eapply with_scope_sound|done].
    destruct Had as [Had|Had]; [|done]. exfalso. revert Had. unfold path_. by rewrite Hep.
Qed.

(** A further request of a history: what it pays and what it answers. *)
Lemma request_attempts st q s l o : pool_wf (st_pool st) ->
  (forall a, In a (w_attempts (ap_world s)) -> exists v, In v l /\ authorised v a) ->
  forall a, In a (w_attempts (ap_world (snd (middleware E st q s)))) ->
    exists v, In v (l ++ [mkServed st q s o]) /\ authorised v a.
Proof.
  intros Hp IH. assert (forall a, In a (w_attempts (ap_world s)) -> exists v, In v (l ++ [mkServed st q s o]) /\ authorised v a) as IH'.
  { intros a (v & Hv & Ha)%IH. exists v. split; [apply in_or_app; by left|done]. }
  destruct (middleware_pays st q s Hp) as [->|(a & -> & Ha)]; [done|].
  intros b [Hb|[<-|[]]]%in_app_or; [by apply IH'|]. eexists. split; [apply in_or_app; right; by left|exact Ha].
Qed.

Lemma app_attempts s0 l s : w_attempts (ap_world s0) = [] -> (forall v, In v l -> pool_wf (st_pool (sv_site v))) ->
  app_history s0 l s -> forall a, In a (w_attempts (ap_world s)) -> exists v, In v l /\ authorised v a.
Proof.
  intros H0 Hl. induction 1 as [s|st q s0 l s _ IH _|st q pid tick idem h al lim toks tm po s0 l s _ IH Hr
    |pid tick idem h al lim toks tm po s0 l s _ IH Hr|s0 l s s' _ IH [[_ Hq] _]].
  - by rewrite H0.
  - apply request_attempts; [apply (Hl (mkServed st q s (fst (middleware E st q s)))), in_or_app; right; by left|].
    apply IH; [done|]. intros v Hv. apply Hl, in_or_app. by left.
  - apply request_attempts; [apply (Hl (mkServed st q s Crash)), in_or_app; right; by left|].
    apply IH; [done|]. intros v Hv. apply Hl, in_or_app. by left.
  - by apply IH.
  - rewrite Hq. by apply IH.
Qed.

(** The history of the books under a history of requests. *)
Lemma request_ledger st q s w0 answers : history E w0 answers (ap_world s) -> exists more,
  history E w0 (answers ++ more) (ap_world (snd (middleware E st q s))) /\
  forall resp r, fst (middleware E st q s) = Ret resp -> rs_body resp = BSend r ->
    rs_status resp = 200%Z /\ exists rq, hq_target q = Endpoint (EpSend rq) /\ In (rq, r) (answers ++ more).
Proof.
  intros Hh. destruct (middleware_effect st q s) as (s1 & Ht1 & _ & [[Ht Hno]|(_ & o & s2 & He & Hw & _ & Ho)]).
  { exists []. rewrite app_nil_r. destruct (ticked_quiet _ _ Ht) as [Hc1 Hc2]. split; [by eapply Other|].
    intros resp r Hr Hb. by destruct (Hno resp r Hr). }
  destruct (ticked_quiet _ _ Ht1) as [Hc1 Hc2]. rewrite Hw.
  assert (quiet s1 s2 -> (forall z r, o <> Ret (z, BSend r)) -> exists more, history E w0 (answers ++ more) (ap_world s2) /\
    forall resp r, fst (middleware E st q s) = Ret resp -> rs_body resp = BSend r ->
      rs_status resp = 200%Z /\ exists rq, hq_target q = Endpoint (EpSend rq) /\ In (rq, r) (answers ++ more)) as Hquiet.
  { intros [Hc3 Hc4] Hno. exists []. rewrite app_nil_r. split; [eapply Other; [by eapply Other|done..]|].
    intros resp r Hr Hb. by destruct (Hno _ _ (Ho resp r Hr Hb)). }
  inversion He as [o' s' Ht2 Hno|ep o' s' _ _ Hq Hno|rq tok n o' s' Hep Hv _ Hrun Hiff _]; subst.
  - apply Hquiet; [by apply ticked_quiet|done].
  - by apply Hquiet.
  - rewrite Hrun. unfold run_send in *. rewrite (tick_after n s s1 Ht1) in *.
    assert (history E w0 answers (set_tick n (ap_world s))) as Hn.
    { eapply Other; [done|done|by apply tells_same]. }
    eexists. split; [apply Served, Hn|]. intros resp r Hr Hb.
    destruct (proj1 (Hiff _ _) (Ho resp r Hr Hb)) as [Hz Hf]. split; [done|]. exists rq. split; [done|].
    apply in_or_app. right. rewrite Hf. by left.
Qed.

(** The payout answer of a request, if it got one, is among [answers]. *)
Definition claimed (answers : list (SendRequest * SendResponse)) (v : served) : Prop :=
  forall resp r, sv_outcome v = Ret resp -> rs_body resp = BSend r ->
    rs_status resp = 200%Z /\ exists rq, hq_target (sv_request v) = Endpoint (EpSend rq) /\ In (rq, r) answers.
Lemma claimed_more answers more l v : (forall u, In u l -> claimed answers u) -> claimed (answers ++ more) v ->
  forall u, In u (l ++ [v]) -> claimed (answers ++ more) u.
Proof.
  intros Hl Hv u [Hu|[<-|[]]]%in_app_or; [|done]. intros resp r Ho Hb.
  destruct (Hl u Hu resp r Ho Hb) as (Hz & rq & Hq & Hin). split; [done|]. exists rq. split; [done|].
  apply in_or_app. by left.
Qed.

Lemma app_ledger s0 l s : app_history s0 l s -> exists answers,
  history E (ap_world s0) answers (ap_world s) /\ forall v, In v l -> claimed answers v.
Proof.
  induction 1 as [s|st q s0 l s _ (answers & Hh & Hans) _|st q pid tick idem h al lim toks tm po s0 l s _ (answers & Hh & Hans) Hr
    |pid tick idem h al lim toks tm po s0 l s _ (answers & Hh & Hans) Hr|s0 l s s' _ (answers & Hh & Hans) [Hc Ht]].
  - exists []. split; [constructor|done].
  - destruct (request_ledger st q s _ _ Hh) as (more & Hm & Hmore).
    exists (answers ++ more)%list. split; [done|]. by apply claimed_more.
  - destruct (request_ledger st q s _ _ Hh) as (more & Hm & _).
    exists (answers ++ more)%list. split; [by apply Rebooted|]. by apply claimed_more.
  - exists answers. split; [|done]. by apply Rebooted.
  - exists answers. split; [|done]. by eapply Other.
Qed.

(** The at-most-once argument of [Safety], request by request. *)
Context `{!IdemGuardLaws S} (HE : sound_env E).
Lemma request_settled st q s : settled (ap_world s) ->
  let w' := ap_world (snd (middleware E st q s)) in
  crashed w' /\ (fst (middleware E st q s) <> Crash -> settled w').
Proof.
  intros Hs w'. destruct (middleware_effect st q s) as (s1 & Ht1 & _ & [[Ht _]|(_ & o & s2 & He & Hw & Hcr & _)]).
  { assert (settled w') as H by (eapply settled_core; [apply (ticked_quiet _ _ Ht)|done]).
    split; [by apply settled_crashed|done]. }
  assert (settled (ap_world s1)) as Hs1 by (eapply settled_core; [apply (ticked_quiet _ _ Ht1)|done]).
  assert (quiet s1 s2 -> crashed w' /\ (fst (middleware E st q s) <> Crash -> settled w')) as Hquiet.
  { intros [Hc _]. assert (settled w') as H by (unfold w'; rewrite Hw; eapply settled_core; [exact Hc|done]).
    split; [by apply settled_crashed|done]. }
  inversion He as [o' s' Ht2 _|ep o' s' _ _ Hq _|rq tok n o' s' Hep Hv _ Hrun _ Hc]; subst.
  - by apply Hquiet, ticked_quiet.
  - by apply Hquiet.
  - pose proof (send_wp E HE (st_config st) (st_pool st) (st_sanctions st) (st_fuel st) rq (address_of st q) tok
      (set_tick n (ap_world s1)) Hs1) as H. unfold wp, after in H. unfold w'. rewrite Hw, Hrun. unfold run_send in *.
    destruct (fst (send _ _ _ _ _ _ _ _ _)); [split; [by apply settled_crashed|done]..|].
    split; [done|]. intros Hne. by destruct (Hne (Hcr (Hc eq_refl))).
Qed.

Lemma app_settled s0 l s : w_attempts (ap_world s0) = [] -> app_history s0 l s -> settled (ap_world s).
Proof.
  intros H0. induction 1 as [s|st q s0 l s _ IH Hne|st q pid tick idem h al lim toks tm po s0 l s _ IH Hr
    |pid tick idem h al lim toks tm po s0 l s _ IH Hr|s0 l s s' _ IH [Hc _]].
  - split; rewrite H0; [intros i j a b _ Hi; by rewrite lookup_nil in Hi|done].
  - by apply request_settled, Hne; apply IH.
  - eapply boot_settled; [done|]. by apply request_settled, IH.
  - eapply boot_settled; [done|]. by apply settled_crashed, IH.
  - eapply settled_core; [done|]. by apply IH.
Qed.
End Histories.

(** ** The threads beside the requests

    What [AOther] stands for: a round of the webhook worker, a turn of the receipt poller
    and the check at start-up neither pay nor write of payouts. *)
Section Background.
Context {S : Type} (E : Env) (c : Config).
Implicit Types s : App S.

Lemma webhooks_quiet hmac json post secret backoff upto posts s :
  quiet s (set_world (snd (WebhookService.tick E c hmac json post secret backoff upto (ap_world s, posts))).1 s).
Proof. apply WebhookService.tick_quiet. Qed.
Lemma poller_quiet rpc lookback giveup batch txt rows t s :
  quiet s (set_world (snd (Poller.run_once E c rpc lookback giveup batch txt rows (ap_world s, t))).1 s).
Proof.
  split; [apply (Poller.run_once_pays E c rpc lookback giveup batch txt rows (ap_world s, t))|].
  refine (Poller.run_once_first E c rpc lookback giveup batch txt tells _ _ rows (ap_world s, t)).
  - intros. by apply tells_same.
  - intros r status. by apply tells_record.
Qed.
#[local] Instance tells_verify rpc txid : Frame (tells (S:=S)) (StartupCheck.verify_txid_on_chain rpc txid).
Proof. unfold StartupCheck.verify_txid_on_chain. reads. Qed.
#[local] Instance tells_verify_all rpc l bs : Frame (tells (S:=S)) (StartupCheck.verify_all rpc l bs).
Proof. revert bs. induction l as [|[txid r] l IH]; intros bs; cbn [StartupCheck.verify_all]; reads; apply IH. Qed.
#[local] Instance tells_startup ok details : Frame (tells (S:=S)) (AuditLog.record E c (StartupCheck.startup_draft ok details)).
Proof. by apply tells_record. Qed.
Lemma startup_quiet loads iso rpc utc f s :
  quiet s (set_world (snd (StartupCheck.startup_check_step loads iso rpc utc E c f (ap_world s))) s).
Proof.
  unfold StartupCheck.startup_check_step. split; [apply (frame_swallow _ (StartupCheck.frame_startup loads iso rpc utc E c f))|].
  apply (reading_swallow tells). unfold StartupCheck.run_startup_check. reads; try (intros w0; reflexivity).
Qed.
End Background.

(** ** The properties *)


(** C18: Every request is accounted for.  One the limiter drops is answered 429, touches
    nothing but the limiter, is counted, and does not keep the process awake; any other
    resets the shutdown timer first.  Every response carries the request's id, the caller's
    or a fresh one, and is counted once, under its method, path and status class; an
    exception without a handler is neither counted nor answered with the id, and so is one
    of the limiter itself. *)
Theorem request_accounted {S : Type} `{!IdemStore S} (E : Env) (st : Site) (q : http_request) (s : App S) :
  let r := middleware E st q s in let s' := snd r in
  let http s := List.filter is_http (ap_counters s) in
  match verdict E st q s with
  | Ret false =>
      answer (fst r) = Some (mkResponse 429 (BError "RATE_LIMIT_EXCEEDED") (Some (request_id q))) /\
      ticked s s' /\ ap_tokens s' = ap_tokens s /\ ap_timer s' = ap_timer s /\
      ap_counters s' = (ap_counters s ++ [RateLimitDrop; HttpRequest (method_ q) (path_ q) "429"])%list
  | Ret true =>
      (exists now, ap_timer s' = Shutdown.reset_timer (SHUTDOWN_TIMEOUT (st_config st)) now (ap_timer s)) /\
      match fst r with
      | Ret resp => rs_request_id resp = Some (request_id q) /\
          http s' = (http s ++ [HttpRequest (method_ q) (path_ q) (status_class (rs_status resp))])%list
      | Raise e => http_of_exn e = None /\ http s' = http s /\ answer (fst r) = Some (mkResponse 500 BEmpty None)
      | Crash => answer (fst r) = None
      end
  | Raise e => answer (fst r) = Some (mkResponse 500 BEmpty None) /\ ticked s s' /\
      ap_timer s' = ap_timer s /\ http s' = http s
  | Crash => answer (fst r) = None
  end.
Proof.
  intros r s' http. pose proof (middleware_run E st q s) as H.
  assert (forall x y, steady x y -> http y = http x) as Hst.
  { intros x y (_ & _ & ks & Hk & Hf). unfold http. rewrite Hk, List.filter_app.
    assert (List.filter is_http ks = []) as -> by (clear Hk; induction Hf as [|k ks Hk _ IH]; cbn; [done|by rewrite Hk]).
    apply app_nil_r. }
  destruct (verdict E st q s) as [[]|e|].
  - destruct H as (s1 & (_ & _ & Hc & _ & [now Ht]) & Hr). unfold s', r. rewrite Hr. unfold respond.
    pose proof (steady_call_next E st q (address_of st q) s1) as Hs. pose proof (Hst _ _ Hs) as Hh.
    pose proof (call_next_raises E st q (address_of st q) s1) as Hx. destruct Hs as (Hts & _ & _).
    assert (http s1 = http s) as H1 by (unfold http; by rewrite Hc).
    destruct (call_next E st q (address_of st q) s1) as [[[z b]|e|] s2]; cbn [fst snd] in *.
    + split; [exists now; cbn; congruence|]. split; [done|]. unfold http in *. cbn. rewrite List.filter_app, Hh, H1. done.
    + split; [exists now; congruence|]. split_and!; [by apply Hx|congruence|done].
    + split; [exists now; congruence|done].
  - destruct H as (s1 & Ht & Htok & Htm & Hc & Hr). unfold s', r. by rewrite Hr.
  - destruct H as (s1 & Ht & Hs & Hr). unfold s', r. rewrite Hr. pose proof (Hst _ _ Hs) as Hh. destruct Hs as (Hts & _ & _). by split_and!.
  - destruct H as (s1 & _ & _ & Hr). unfold r. by rewrite Hr.
Qed.

(** ** A concrete process *)
Definition sample_site : Site := {|
  st_config := default_config; st_pool := demo_pool; st_sanctions := Sanctions.mkState (Some ∅) Sanctions.FromCache None;
  st_fuel := 3; st_hash_token := demo_hash; st_bucket := RateLimit.mkParams 30 (1 # 2);
  st_alert_events := []; st_alert_threshold := None; st_alert_sanctions := false; st_alert_quiet := "";
  st_git_sha := "unknown"; st_start_time := 0; st_json_loads _ := None; st_utc_date _ := None; st_fromisoformat _ := None;
  st_audit_text _ := Some None; st_openpyxl := false; st_text_ok _ := true; st_save _ := "" |}.
Definition sample_app : App Sqlite.store :=
  mkApp demo_world (LimiterLife.init_limiter true (LimiterLife.mkState None false ∅)) (mkStore true [demo_row])
    Shutdown.state0 None [].
Definition sample_post (api_key : string) : http_request :=
  mkHttp (Endpoint (EpSend demo_request)) api_key (Some "req-1") "fresh" (Some "10.0.0.1") "".
Definition sample_get (ep : endpoint) : http_request := mkHttp (Endpoint ep) "secret" None "fresh" (Some "10.0.0.1") "".

(** The configured token, an API token and no token at all; then a key of the wrong scope. *)
Example sample_answers :
  let run key s := middleware sample_env sample_site (sample_post key) s in
  let r1 := run "secret" sample_app in let r2 := run "skr_x" (snd r1) in let r3 := run "" (snd r2) in
  map (fun o => rs_status <$> answer o) [fst r1; fst r2; fst r3] = [Some 200%Z; Some 200%Z; Some 401%Z] /\
  ap_counters (snd r3) = [HttpRequest "POST" "/api/v1/send" "2xx"; HttpRequest "POST" "/api/v1/send" "2xx"; HttpRequest "POST" "/api/v1/send" "4xx"] /\
  List.length (w_attempts (ap_world (snd r3))) = 1%nat.
Proof. vm_compute. done. Qed.

Lemma sample_pools {S : Type} (l : list (served (S:=S))) : Forall (fun v => sv_site v = sample_site) l -> forall v, In v l -> pool_wf (st_pool (sv_site v)).
Proof. rewrite List.Forall_forall. intros H v Hv. rewrite (H v Hv). apply init_wf. Qed.
Definition sent_status {S : Type} (v : served (S:=S)) : option string :=
  match sv_outcome v with Ret (mkResponse _ (BSend r) _) => Some (sr_status r) | _ => None end.


(** A payment that was made can leave no trace in the request's answer: when the UPDATE that
    records the txid raises, the exception has no handler, the answer is a bare 500 without
    X-Request-ID, and no HTTP request is counted. *)
Theorem uncounted_payment : exists (E : Env) (a : attempt),
  let r := middleware E sample_site (sample_post "secret") sample_app in
  w_attempts (ap_world (snd r)) = [a] /\ accepted "key-1" "tx1" a /\
  answer (fst r) = Some (mkResponse 500 BEmpty None) /\ ap_counters (snd r) = [].
Proof.
  exists (env_with (fun _ => Fails (EOther "OperationalError" "database is locked")) (broadcast sample_env)).
  eexists. cbv zeta. split; [vm_compute; reflexivity|]. split; [split; [reflexivity|by eexists]|].
  split; vm_compute; reflexivity.
Qed.

(** The liveness probe answers 200 in every state of the process, whoever asks and whatever
    the limiter and the token store hold. *)
Theorem liveness_probe {S : Type} `{!IdemStore S} (E : Env) (st : Site) (q : http_request) (s : App S) :
  hq_target q = Endpoint EpHealthLive -> exists uptime,
  fst (middleware E st q s) = Ret (mkResponse 200 (BJson (Diagnostics.health_live_endpoint uptime)) (Some (request_id q))).
Proof.
  intros Hq. unfold middleware, path_, pass_on, call_next. rewrite Hq. cbn. by eexists.
Qed.
